(* ===== verification/_CoqProject ===== *)
-Q . S2P
Prelude.v
KString.v
Util.v
Multiboot.v
Pmm.v
Vmm.v
Swap.v
Terminal.v
Ports.v
Console.v
Screen.v
InputRing.v
Display.v
Ps2.v
Keyboard.v
Mouse.v
Task.v
Sched.v
Tmpfs.v
TmpfsPath.v
TmpfsTree.v
TmpfsData.v
TmpfsView.v
Fs.v
FsPath.v
FsFile.v
FsView.v
Cpio.v
BootFs.v
Elf.v
Abi.v
Syscall.v
SyscallSpec.v
Libc.v
Inet.v
NetConst.v
Net.v
NetSpec.v
NetBoot.v
NetCmds.v
Dhcp.v
Interrupt.v
Builtin.v
Cli.v
CliSpec.v
BuiltinSpec.v
Boot.v
BootSpec.v
BootMain.v
System.v
