(* ===== verification/Prelude.v ===== *)
(** * A verification of the MGCORE kernel

    MGCORE is a small x86-64 kernel: a Multiboot2 start, a page allocator, a task
    table with a round-robin tick, an in-memory file system filled from an initramfs,
    system calls, a console on VGA and serial line, PS/2 keyboard and mouse, an
    RTL8139 network driver with ARP, IPv4, ICMP and DHCP, and a monitor shell.  This
    library translates its C files into Gallina functions and proves what they do.
    The word "code" below means the files under [src/] of the repository; paths in
    brackets before a definition name the lines it translates, relative to that
    directory.

    ** How the code is modelled

    A C function is a function on the state it reaches, with result
    [outcome] ([Prelude.v]): [Val], or [Stop Oob] where the C code would leave an
    array or a region, or [Stop OutOfFuel] where a loop has not ended within the
    fuel given.  No theorem assumes that a run ends well; each proves it.  Integers
    are [Z] with the conversion of every C operation that can leave its width written
    out ([u8] ... [u64], [i32], [i64]).  An array is a list with checked access
    ([aget], [aset], [aread], [awrite]); a string is its bytes, [cstr] the part
    before the NUL.  A pointer into a table is its index.  A function that does not
    return in C (halt, reboot, panic) yields [Halted] or [Rebooted] with the state it
    leaves ([power], [Sched.v]).

    What lies outside the C code is a parameter with its laws as a class, and each
    class has a concrete instance on which the examples run:
    - [Ports] ([Ports.v]): what [in] and [out] do to the machine; [PortsLaws]: a byte
      read is a byte.  [Uart] ([Screen.v]): the transmitter becomes ready within
      [serial_patience] polls.  [Ps2] ([Ps2.v]): status and data of the controller.
    - [Nic], [NicLaws] ([Net.v], [NetSpec.v]): the receive buffer the adapter writes
      and the bus addresses of the static buffers.
    - [Terminal], [TerminalLaws] ([Terminal.v]) and [Display] ([Display.v]) are
      interfaces inside the kernel: printing, reading, typing ahead, colours.  The
      console of [Console.v] is proved an instance of both, and everything above it
      (tasks, files, network, shell) is proved against the interface.
    - [hlt]: what has happened when the processor wakes up.  [hlt_wakes] and
      [timer_wakes] say that a timer interrupt has and that the kernel's invariant
      was kept, which the interrupt theorems provide.

    ** The parts

    - [Prelude.v]: integers, arrays, strings, counted loops, errno values, tactics.
    - [KString.v] (kernel/string.c): memory and string routines over a byte memory,
      proved equal to list functions; the formatters, proved against a reference.
    - [Util.v] (kernel/util.c): the bump allocator.
    - [Multiboot.v] (multiboot2.h), [Pmm.v] (kernel/pmm.c), [Vmm.v], [Swap.v]: boot
      information, physical pages, address spaces, swap accounting.
    - [Terminal.v], [Console.v], [Screen.v], [InputRing.v], [Display.v]
      (kernel/console.c): the printing interface, the VGA and serial console, what its
      screen shows, its input ring under interrupts.
    - [Ports.v] (io.h), [Ps2.v], [Keyboard.v], [Mouse.v] (drivers/).
    - [Task.v] (kernel/task.c, signal.c), [Sched.v] (scheduler.c, safeboot.c and the
      ways main.c stops the machine).
    - [Tmpfs.v] (kernel/tmpfs.c) with [TmpfsPath.v] (paths), [TmpfsTree.v] (the node
      table as a tree), [TmpfsData.v] (the arena), [TmpfsView.v] (both as a map).
    - [Fs.v] (kernel/fs.c) with [FsPath.v] (normalisation), [FsFile.v] (descriptors),
      [FsView.v] (what a task sees of both), [Cpio.v] (initramfs), [BootFs.v] (the first
      tree); [Elf.v] (kernel/elf.c).
    - [Abi.v] (unistd.h, libc's sys/syscall.h), [Syscall.v] (syscall/, kernel/syscall.c),
      [SyscallSpec.v]; [Libc.v] (lib/libc and userspace).
    - [Inet.v], [NetConst.v], [Net.v], [NetSpec.v], [NetBoot.v], [NetCmds.v], [Dhcp.v] (kernel/net.c).
    - [Interrupt.v] (kernel/interrupt.c): dispatch to timer, keyboard and mouse.
    - [Builtin.v], [BuiltinSpec.v] (cli/commands/builtin.c), [Cli.v], [CliSpec.v]
      (cli/shell.c).
    - [Boot.v], [BootSpec.v], [BootMain.v] (kernel/main.c), [System.v]: the running
      kernel as a whole.

    The state grows with the layers: [world] ([Sched.v]) is console, ports, tasks,
    pages and tick; [fsys] adds files; [kernel] ([Syscall.v]) adds heap and user
    memory; [machine] ([Builtin.v]) adds network and swap; [system] ([System.v]) adds
    the shell.  A layer reads and writes its part through projections and [put_]
    functions, as the C files share their static variables by calls.

    ** What is proved

    - The whole: from the state kernel_main hands over, any sequence of interrupts,
      system calls, keys and shell turns keeps [system_wf] and never leaves an array,
      runs out of fuel or faults ([System.v]); kernel_main brings that state about from
      a well-formed boot information, with the initramfs unpacked over the first
      directories and devices, and ends in a reboot on a wrong magic number
      ([BootMain.v]).
    - Files: tmpfs answers every sequence of requests exactly as a map from paths to
      entries does ([TmpfsView.v]), and fs.c as that map with numbered places in its
      files ([FsView.v]); tree and arena invariants; writes as pwrite; path
      normalisation; descriptors; unpacking an archive entry by entry, onto that map, and any
      bytes at all without a fault unless an entry's name is too long.
    - Memory: no page handed out twice, free pages after the start, disjoint heap
      blocks, overlapping moves, formatters that cut and never overrun.
    - Tasks: the table's invariant, the tick as one round-robin step, waiting bounded
      by the number of tasks, the choice of safeboot.
    - Console: the screen shows the end of the text printed; the input ring is a queue
      of 127 places even when interrupts come between the accesses of its reader.
    - System calls: dispatch by number, an invariant over all of them, wait4, the
      working directory; the C library's numbers are the kernel's and each has a handler.
    - Network: no packet makes the driver read outside its buffers, ARP and ICMP
      messages byte by byte, checksums against one's complement arithmetic, DHCP
      replies, addresses printed and parsed, waits that end.
    - Keyboard, mouse, shell and commands: typed text arrives in order, the line editor
      refines one on two lists, a newline runs the command the first word names, every
      command ends, a word that names none is reported.

    ** Bounds and fuel

    Loops over tables carry the table's size.  Walks along sibling chains have fuel
    [MGCORE_MAX_NODES], enough since a chain has no repetition; a path walk has the
    path's length.  The walk over boot information has a fuel of its own, since a tag of size
    zero stalls the C loop; a well-formed structure of less than 300 tags needs 300.
    Network waits are bounded by ticks: with [hlt] waking at every tick at the latest,
    200 turns are enough for a command, 300 for DHCP at the start, and the theorems
    ask for at least that.  Emptying the keyboard controller takes as many reads as it
    holds bytes ([shallow_buffer]).  Other polling loops have the bounds of the code.
    Writes are covered up to 4 GiB, counted from the offset of the descriptor
    ([write_fits]; beyond, see the findings), texts
    up to 2^60 bytes, the tick counter below 2^63.

    ** What is assumed of the environment

    An event of [System.v] runs undisturbed except where the code halts and waits; the
    input ring, the structure interrupts and the rest share most finely, is treated
    separately with interrupts between single accesses ([InputRing.v]).  Received packets are at most
    1520 bytes long where the theorem says so ([packets_fit]): the driver accepts more and
    then reads past its buffer.  Addresses handed to system calls lie in the user
    memory; the code does not check them.  User programs change their own memory only.

    ** Not modelled

    The assembly stubs (boot/, interrupt_stubs.asm, syscall_entry.asm, crt0) and the
    linker and build scripts, which are no C code: their effect enters as parameters
    (addresses of stubs, image bounds, boot information).  The inline assembly of io.h
    is the parameter [Ports].  The header files' prototypes.  The C library names of
    string.c (memcpy, ...) only forward to the kernel's routines.

    ** What the modelling showed

    The library states what the code does, also where that is not what it means to
    do; the examples named [..._overruns], [..._breaks_...], [..._lost] and the like
    run such cases: a path component of 32 bytes overruns tmpfs.c's local array, a
    directory created with a trailing slash cannot be reached, a negative offset
    writes into another file, consecutive writes through a descriptor overwrite each
    other, a serial byte and a key that arrive together lose one of them, and others
    beside the theorems they limit. *)

From Stdlib Require Import ZArith Lia Ascii.
From stdpp Require Import base gmap list strings.
Open Scope Z_scope.

(** * Machine integers

    A C integer of width [w] is the mathematical integer it denotes; every
    operation that can leave its range is followed by the conversion the C
    code performs. *)

Definition wrap (w x : Z) : Z := x mod 2 ^ w.
Definition u8 (x : Z) : Z := wrap 8 x.
Definition u16 (x : Z) : Z := wrap 16 x.
Definition u32 (x : Z) : Z := wrap 32 x.
Definition u64 (x : Z) : Z := wrap 64 x.

(** Two's-complement reading of the low [w] bits. *)
Definition swrap (w x : Z) : Z := (x + 2 ^ (w - 1)) mod 2 ^ w - 2 ^ (w - 1).
Definition i8 (x : Z) : Z := swrap 8 x.
Definition i32 (x : Z) : Z := swrap 32 x.
Definition i64 (x : Z) : Z := swrap 64 x.

(** The [unsigned int] complement of a constant: [~15U] is the 32-bit value
    [0xFFFFFFF0], which C zero-extends when the other operand is 64-bit. *)
Definition u32_not (x : Z) : Z := u32 (Z.lnot x).
Definition u64_not (x : Z) : Z := u64 (Z.lnot x).

(** A C truth value. *)
Definition b2z (b : bool) : Z := if b then 1 else 0.

Definition in_u8 (x : Z) : Prop := 0 <= x < 2 ^ 8.
Definition in_u16 (x : Z) : Prop := 0 <= x < 2 ^ 16.
Definition in_u32 (x : Z) : Prop := 0 <= x < 2 ^ 32.
Definition in_u64 (x : Z) : Prop := 0 <= x < 2 ^ 64.

(** * Outcomes

    [Val a]: the code ran to completion with result [a].  [Stop Oob]: it read
    or wrote outside the object it addresses (undefined behaviour in C).
    [Stop OutOfFuel]: a loop did not finish within the fuel given. *)

Inductive stop : Type :=
| Oob
| OutOfFuel.

Inductive outcome (A : Type) : Type :=
| Val (a : A)
| Stop (why : stop).
Arguments Val {A} a.
Arguments Stop {A} why.

#[export] Instance stop_eq_dec : EqDecision stop.
Proof. solve_decision. Defined.

#[export] Instance outcome_eq_dec {A} `{EqDecision A} : EqDecision (outcome A).
Proof. solve_decision. Defined.

#[export] Instance outcome_ret : MRet outcome := fun _ a => Val a.
#[export] Instance outcome_bind : MBind outcome := fun _ _ f m =>
  match m with Val a => f a | Stop why => Stop why end.
#[export] Instance outcome_fmap : FMap outcome := fun _ _ f m =>
  match m with Val a => Val (f a) | Stop why => Stop why end.

Definition of_option {A} (o : option A) : outcome A :=
  match o with Some a => Val a | None => Stop Oob end.

(** * Arrays

    A C array is the list of its elements.  An access outside the list is
    out of bounds. *)

Definition aget {A} (l : list A) (i : Z) : outcome A :=
  if decide (0 <= i) then of_option (l !! Z.to_nat i) else Stop Oob.

Definition aset {A} (l : list A) (i : Z) (x : A) : outcome (list A) :=
  if decide (0 <= i < Z.of_nat (length l)) then Val (<[Z.to_nat i := x]> l)
  else Stop Oob.

(** [n] consecutive elements from [off]; no element is touched when [n = 0]. *)
Definition aread {A} (l : list A) (off n : Z) : outcome (list A) :=
  if decide (n = 0) then Val []
  else if decide (0 <= off /\ 0 <= n /\ off + n <= Z.of_nat (length l)) then
    Val (take (Z.to_nat n) (drop (Z.to_nat off) l))
  else Stop Oob.

Definition splice {A} (l : list A) (off : nat) (bs : list A) : list A :=
  take off l ++ bs ++ drop (off + length bs) l.

Definition awrite {A} (l : list A) (off : Z) (bs : list A) : outcome (list A) :=
  if decide (bs = []) then Val l
  else if decide (0 <= off /\ off + Z.of_nat (length bs) <= Z.of_nat (length l)) then
    Val (splice l (Z.to_nat off) bs)
  else Stop Oob.

(** * Characters and string constants

    A [char] is the byte it occupies (0 to 255); a string constant is the list
    of its bytes without the terminating NUL. *)

Definition chr (a : ascii) : Z := Z.of_N (N_of_ascii a).
Fixpoint str (s : string) : list Z :=
  match s with
  | EmptyString => []
  | String a s' => chr a :: str s'
  end.

(** The C string stored at the start of an array: the bytes before the first NUL. *)
Fixpoint cstr (a : list Z) : list Z :=
  match a with
  | [] => []
  | c :: a' => if decide (c = 0) then [] else c :: cstr a'
  end.

(** ** errno values *)

(** [include/mgcore/errno.h:4-4] MGCORE_EPERM *)
Definition EPERM : Z := 1.
(** [include/mgcore/errno.h:5-5] MGCORE_ENOENT *)
Definition ENOENT : Z := 2.
(** [include/mgcore/errno.h:6-6] MGCORE_ESRCH *)
Definition ESRCH : Z := 3.
(** [include/mgcore/errno.h:7-7] MGCORE_EINTR *)
Definition EINTR : Z := 4.
(** [include/mgcore/errno.h:8-8] MGCORE_EIO *)
Definition EIO : Z := 5.
(** [include/mgcore/errno.h:9-9] MGCORE_ENXIO *)
Definition ENXIO : Z := 6.
(** [include/mgcore/errno.h:10-10] MGCORE_E2BIG *)
Definition E2BIG : Z := 7.
(** [include/mgcore/errno.h:11-11] MGCORE_ENOEXEC *)
Definition ENOEXEC : Z := 8.
(** [include/mgcore/errno.h:12-12] MGCORE_EBADF *)
Definition EBADF : Z := 9.
(** [include/mgcore/errno.h:13-13] MGCORE_ECHILD *)
Definition ECHILD : Z := 10.
(** [include/mgcore/errno.h:14-14] MGCORE_EAGAIN *)
Definition EAGAIN : Z := 11.
(** [include/mgcore/errno.h:15-15] MGCORE_ENOMEM *)
Definition ENOMEM : Z := 12.
(** [include/mgcore/errno.h:16-16] MGCORE_EACCES *)
Definition EACCES : Z := 13.
(** [include/mgcore/errno.h:17-17] MGCORE_EFAULT *)
Definition EFAULT : Z := 14.
(** [include/mgcore/errno.h:18-18] MGCORE_EBUSY *)
Definition EBUSY : Z := 16.
(** [include/mgcore/errno.h:19-19] MGCORE_EEXIST *)
Definition EEXIST : Z := 17.
(** [include/mgcore/errno.h:20-20] MGCORE_ENODEV *)
Definition ENODEV : Z := 19.
(** [include/mgcore/errno.h:21-21] MGCORE_ENOTDIR *)
Definition ENOTDIR : Z := 20.
(** [include/mgcore/errno.h:22-22] MGCORE_EISDIR *)
Definition EISDIR : Z := 21.
(** [include/mgcore/errno.h:23-23] MGCORE_EINVAL *)
Definition EINVAL : Z := 22.
(** [include/mgcore/errno.h:24-24] MGCORE_ENFILE *)
Definition ENFILE : Z := 23.
(** [include/mgcore/errno.h:25-25] MGCORE_EMFILE *)
Definition EMFILE : Z := 24.
(** [include/mgcore/errno.h:26-26] MGCORE_ENOTTY *)
Definition ENOTTY : Z := 25.
(** [include/mgcore/errno.h:27-27] MGCORE_EFBIG *)
Definition EFBIG : Z := 27.
(** [include/mgcore/errno.h:28-28] MGCORE_ENOSPC *)
Definition ENOSPC : Z := 28.
(** [include/mgcore/errno.h:29-29] MGCORE_ESPIPE *)
Definition ESPIPE : Z := 29.
(** [include/mgcore/errno.h:30-30] MGCORE_EROFS *)
Definition EROFS : Z := 30.
(** [include/mgcore/errno.h:31-31] MGCORE_ENOSYS *)
Definition ENOSYS : Z := 38.
(** [include/mgcore/errno.h:32-32] MGCORE_ENOTEMPTY *)
Definition ENOTEMPTY : Z := 39.
(** [include/mgcore/errno.h:33-33] MGCORE_ENAMETOOLONG *)
Definition ENAMETOOLONG : Z := 36.

(** * Lemmas on machine integers *)

Create HintDb cint.

Lemma wrap_range w x : 0 <= w -> 0 <= wrap w x < 2 ^ w.
Proof. intros Hw. apply Z.mod_pos_bound, Z.pow_pos_nonneg; lia. Qed.

Lemma wrap_small w x : 0 <= x < 2 ^ w -> wrap w x = x.
Proof. apply Z.mod_small. Qed.

Lemma u8_range x : in_u8 (u8 x).
Proof. exact (wrap_range 8 x ltac:(lia)). Qed.
Lemma u16_range x : in_u16 (u16 x).
Proof. exact (wrap_range 16 x ltac:(lia)). Qed.
Lemma u32_range x : in_u32 (u32 x).
Proof. exact (wrap_range 32 x ltac:(lia)). Qed.
Lemma u64_range x : in_u64 (u64 x).
Proof. exact (wrap_range 64 x ltac:(lia)). Qed.
#[export] Hint Resolve u8_range u16_range u32_range u64_range : cint.

Lemma u8_small x : in_u8 x -> u8 x = x.
Proof. apply wrap_small. Qed.
Lemma u16_small x : in_u16 x -> u16 x = x.
Proof. apply wrap_small. Qed.
Lemma u32_small x : in_u32 x -> u32 x = x.
Proof. apply wrap_small. Qed.
Lemma u64_small x : in_u64 x -> u64 x = x.
Proof. apply wrap_small. Qed.

(** Powers of two as literals, so that [lia] can use them. *)
Ltac pow2 :=
  change (2 ^ 8) with 256 in *; change (2 ^ 16) with 65536 in *;
  change (2 ^ 31) with 2147483648 in *;
  change (2 ^ 32) with 4294967296 in *;
  change (2 ^ 63) with 9223372036854775808 in *;
  change (2 ^ 64) with 18446744073709551616 in *.

(** Arithmetic goals about machine integers: unfold the ranges and wraps, turn
    divisions and remainders into equations. *)
Ltac cint :=
  unfold in_u8, in_u16, in_u32, in_u64, u8, u16, u32, u64, wrap in *; pow2;
  try (Z.div_mod_to_equations; lia).

(** A mask with the bits [k..w-1] set rounds down to a multiple of [2^k] after
    truncating to [w] bits. *)
Lemma land_high_mask x k w :
  0 <= k <= w -> Z.land x (2 ^ w - 2 ^ k) = x mod 2 ^ w / 2 ^ k * 2 ^ k.
Proof.
  intros Hk.
  replace (2 ^ w - 2 ^ k) with (Z.shiftl (Z.ones (w - k)) k).
  2: { rewrite Z.shiftl_mul_pow2, Z.ones_equiv, <- Z.sub_1_r, Z.mul_sub_distr_r, <- Z.pow_add_r by lia.
       replace (w - k + k) with w by lia. lia. }
  rewrite <- Z.land_ones, <- Z.shiftr_div_pow2, <- Z.shiftl_mul_pow2 by lia.
  apply Z.bits_inj'; intros i Hi.
  rewrite Z.land_spec, !Z.shiftl_spec by lia.
  destruct (decide (i < k)).
  { rewrite !(Z.testbit_neg_r _ (i - k)) by lia. by rewrite andb_false_r. }
  rewrite Z.shiftr_spec, Z.land_spec by lia.
  replace (i - k + k) with i by lia.
  destruct (decide (i < w)).
  - by rewrite !Z.ones_spec_low by lia.
  - by rewrite !Z.ones_spec_high by lia.
Qed.

Lemma u64_align_mask x k :
  0 <= k <= 64 -> in_u64 x -> Z.land x (u64_not (2 ^ k - 1)) = x / 2 ^ k * 2 ^ k.
Proof.
  intros Hk Hx.
  assert (0 < 2 ^ k <= 2 ^ 64) as Hp.
  { split; [apply Z.pow_pos_nonneg|apply Z.pow_le_mono_r]; lia. }
  replace (u64_not (2 ^ k - 1)) with (2 ^ 64 - 2 ^ k).
  - rewrite land_high_mask by lia. by rewrite (Z.mod_small x) by apply Hx.
  - unfold u64_not, u64, wrap, Z.lnot.
    replace (Z.pred (- (2 ^ k - 1))) with (2 ^ 64 - 2 ^ k + (-1) * 2 ^ 64) by lia.
    rewrite Z.mod_add by lia. rewrite Z.mod_small; lia.
Qed.

(** The 32-bit mask [~(2^k-1)U] also clears the upper half of a 64-bit operand. *)
Lemma u32_align_mask x k :
  0 <= k <= 32 -> Z.land x (u32_not (2 ^ k - 1)) = x mod 2 ^ 32 / 2 ^ k * 2 ^ k.
Proof.
  intros Hk.
  assert (0 < 2 ^ k <= 2 ^ 32) as Hp.
  { split; [apply Z.pow_pos_nonneg|apply Z.pow_le_mono_r]; lia. }
  replace (u32_not (2 ^ k - 1)) with (2 ^ 32 - 2 ^ k); [by apply land_high_mask|].
  unfold u32_not, u32, wrap, Z.lnot.
  replace (Z.pred (- (2 ^ k - 1))) with (2 ^ 32 - 2 ^ k + (-1) * 2 ^ 32) by lia.
  rewrite Z.mod_add by lia. rewrite Z.mod_small; lia.
Qed.

(** * Lemmas on outcomes *)

Lemma bind_Val_inv {A B} (m : outcome A) (f : A -> outcome B) b :
  m ≫= f = Val b -> exists a, m = Val a /\ f a = Val b.
Proof. destruct m; simpl; [eauto|discriminate]. Qed.

(** Split every hypothesis [x <- m; k = Val b] into its steps. *)
Ltac inv_outcome :=
  repeat match goal with
  | H : _ ≫= _ = Val _ |- _ =>
      let a := fresh "a" in let Ha := fresh "Ha" in
      apply bind_Val_inv in H as (a & Ha & H)
  | H : Val _ = Val _ |- _ => injection H as H; try subst
  | H : mret _ = Val _ |- _ => injection H as H; try subst
  | H : Stop _ = Val _ |- _ => discriminate H
  end.

(** * Lemmas on arrays *)

Lemma aget_Val {A} (l : list A) i x :
  aget l i = Val x <-> 0 <= i /\ l !! Z.to_nat i = Some x.
Proof.
  unfold aget, of_option. case_decide; [|naive_solver].
  destruct (l !! _); naive_solver.
Qed.

Lemma aget_Some {A} (l : list A) i x :
  0 <= i -> l !! Z.to_nat i = Some x -> aget l i = Val x.
Proof. intros. by apply aget_Val. Qed.

Lemma aget_nat {A} (l : list A) (i : nat) :
  aget l (Z.of_nat i) = of_option (l !! i).
Proof. unfold aget. rewrite decide_True by lia. by rewrite Nat2Z.id. Qed.

Lemma aget_in_range {A} (l : list A) i :
  0 <= i < Z.of_nat (length l) -> exists x, aget l i = Val x.
Proof.
  intros Hi. destruct (lookup_lt_is_Some_2 l (Z.to_nat i)) as [x Hx]; [lia|].
  exists x. apply aget_Val. naive_solver lia.
Qed.

Lemma aset_in_range {A} (l : list A) i x :
  0 <= i < Z.of_nat (length l) -> aset l i x = Val (<[Z.to_nat i := x]> l).
Proof. intros Hi. unfold aset. by rewrite decide_True. Qed.

Lemma aget_lookup {A} (l : list A) (k : nat) x : l !! k = Some x -> aget l (Z.of_nat k) = Val x.
Proof. intros Hx. by rewrite aget_nat, Hx. Qed.

Lemma aset_lookup {A} (l : list A) (k : nat) x : (k < length l)%nat -> aset l (Z.of_nat k) x = Val (<[k := x]> l).
Proof. intros Hk. rewrite aset_in_range by lia. by rewrite Nat2Z.id. Qed.

Lemma aset_Val {A} (l : list A) i x l' :
  aset l i x = Val l' <->
  0 <= i < Z.of_nat (length l) /\ l' = <[Z.to_nat i := x]> l.
Proof. unfold aset. case_decide; naive_solver. Qed.

Lemma aset_length {A} (l : list A) i x l' :
  aset l i x = Val l' -> length l' = length l.
Proof. intros [_ ->]%aset_Val. apply length_insert. Qed.

(** Reading and storing behind a prefix. *)
Lemma aget_at {A} (pre post : list A) x p : p = Z.of_nat (length pre) -> aget (pre ++ x :: post) p = Val x.
Proof. intros ->. rewrite aget_nat, lookup_app_r by lia. by rewrite Nat.sub_diag. Qed.

Lemma aset_at {A} (pre post : list A) x y p : p = Z.of_nat (length pre) -> aset (pre ++ x :: post) p y = Val (pre ++ y :: post).
Proof.
  intros ->. rewrite aset_in_range by (rewrite length_app; cbn [length]; lia). rewrite Nat2Z.id. f_equal.
  rewrite insert_app_r_alt by lia. by rewrite Nat.sub_diag.
Qed.

Lemma aget_aset_eq {A} (l : list A) i x l' :
  aset l i x = Val l' -> aget l' i = Val x.
Proof.
  intros [Hi ->]%aset_Val. apply aget_Some; [lia|].
  apply list_lookup_insert_eq. lia.
Qed.

Lemma aget_aset_ne {A} (l : list A) i j x l' :
  aset l i x = Val l' -> i <> j -> aget l' j = aget l j.
Proof.
  intros [Hi ->]%aset_Val Hij. unfold aget. case_decide; [|done].
  rewrite list_lookup_insert_ne; [done|lia].
Qed.

Lemma splice_length {A} (l : list A) off bs :
  (off + length bs <= length l)%nat -> length (splice l off bs) = length l.
Proof. intros H. unfold splice. rewrite !length_app, length_take, length_drop. lia. Qed.

Lemma splice_lookup {A} (l : list A) off bs i :
  (off + length bs <= length l)%nat ->
  splice l off bs !! i =
    if decide (off <= i < off + length bs)%nat then bs !! (i - off)%nat else l !! i.
Proof.
  intros H. unfold splice. case_decide as Hi.
  - rewrite lookup_app_r by (rewrite length_take; lia).
    rewrite lookup_app_l by (rewrite length_take; lia).
    f_equal. rewrite length_take. lia.
  - destruct (decide (i < off)%nat).
    + rewrite lookup_app_l by (rewrite length_take; lia). by rewrite lookup_take_lt by lia.
    + rewrite !lookup_app_r by (rewrite ?length_take; lia).
      rewrite lookup_drop. f_equal. rewrite length_take. lia.
Qed.

Lemma awrite_Val {A} (l : list A) off bs l' :
  awrite l off bs = Val l' ->
  (bs = [] /\ l' = l) \/
  (bs <> [] /\ 0 <= off /\ off + Z.of_nat (length bs) <= Z.of_nat (length l)
   /\ l' = splice l (Z.to_nat off) bs).
Proof. unfold awrite. repeat case_decide; naive_solver. Qed.

Lemma awrite_in_range {A} (l : list A) off bs :
  0 <= off -> off + Z.of_nat (length bs) <= Z.of_nat (length l) ->
  awrite l off bs = Val (splice l (Z.to_nat off) bs).
Proof.
  intros H1 H2. unfold awrite. case_decide as Hb.
  - subst. unfold splice. simpl. by rewrite Nat.add_0_r, take_drop.
  - by rewrite decide_True.
Qed.

Lemma awrite_length {A} (l : list A) off bs l' :
  awrite l off bs = Val l' -> length l' = length l.
Proof.
  intros [[_ ->]|(_&?&?&->)]%awrite_Val; [done|]. apply splice_length. lia.
Qed.

Lemma aread_in_range {A} (l : list A) off n :
  0 <= off -> 0 <= n -> off + n <= Z.of_nat (length l) ->
  aread l off n = Val (take (Z.to_nat n) (drop (Z.to_nat off) l)).
Proof.
  intros H1 H2 H3. unfold aread. case_decide as Hn; [by subst|].
  by rewrite decide_True.
Qed.

Lemma aread_length {A} (l : list A) off n bs :
  0 <= n -> aread l off n = Val bs -> Z.of_nat (length bs) = n.
Proof.
  intros Hn. unfold aread. repeat case_decide; intros ?; inv_outcome; [done|].
  rewrite length_take, length_drop. lia.
Qed.

(** * Lemmas on C strings *)

Definition no_nul (s : list Z) : Prop := Forall (fun c => c <> 0) s.

Lemma cstr_app_nul s rest : no_nul s -> cstr (s ++ 0 :: rest) = s.
Proof.
  induction 1 as [|c s Hc _ IH]; simpl; [done|].
  by rewrite decide_False, IH by done.
Qed.

Lemma cstr_no_nul a : no_nul (cstr a).
Proof.
  induction a as [|c a IH]; simpl; [constructor|].
  case_decide; constructor; done.
Qed.

Lemma cstr_id s : no_nul s -> cstr s = s.
Proof.
  induction 1 as [|c s Hc _ IH]; simpl; [done|].
  by rewrite decide_False, IH by done.
Qed.

(** The string and its terminator are the front of the array. *)
Lemma cstr_take a : (length (cstr a) < length a)%nat -> take (S (length (cstr a))) a = cstr a ++ [0].
Proof.
  induction a as [|c a IH]; intros Hl; [simpl in Hl; lia|]. cbn [cstr] in *. case_decide as Hc; [by subst|].
  cbn [length] in *. change (take (S (S (length (cstr a)))) (c :: a)) with (c :: take (S (length (cstr a))) a).
  rewrite IH by lia. done.
Qed.

Lemma cstr_length a : (length (cstr a) <= length a)%nat.
Proof. induction a; simpl; [lia|]. case_decide; simpl; lia. Qed.

(** * Little-endian fields

    The value of the [n] bytes at [off], least significant first: how the code
    reads a field of a packed structure on x86-64. *)

Fixpoint le_value (bs : list Z) : Z :=
  match bs with
  | [] => 0
  | b :: bs => b + 256 * le_value bs
  end.
Definition le_load (l : list Z) (off n : Z) : outcome Z :=
  le_value <$> aread l off n.
Fixpoint le_bytes (n : nat) (v : Z) : list Z :=
  match n with
  | O => []
  | S n => v mod 256 :: le_bytes n (v / 256)
  end.

Lemma le_value_range bs : Forall in_u8 bs -> 0 <= le_value bs < 2 ^ (8 * Z.of_nat (length bs)).
Proof.
  induction 1 as [|b bs Hb _ IH]; cbn [le_value length]; [lia|].
  replace (8 * Z.of_nat (S (length bs))) with (8 + 8 * Z.of_nat (length bs)) by lia.
  rewrite Z.pow_add_r by lia. unfold in_u8 in Hb. pow2. lia.
Qed.

Lemma le_bytes_length n v : length (le_bytes n v) = n.
Proof. revert v. induction n; intros; simpl; auto. Qed.

Lemma le_value_bytes n v : 0 <= v < 2 ^ (8 * Z.of_nat n) -> le_value (le_bytes n v) = v.
Proof.
  revert v. induction n as [|n IH]; intros v Hv; cbn [le_bytes le_value].
  - change (2 ^ (8 * Z.of_nat 0)) with 1 in Hv. lia.
  - replace (8 * Z.of_nat (S n)) with (8 + 8 * Z.of_nat n) in Hv by lia.
    rewrite Z.pow_add_r in Hv by lia. pow2.
    rewrite IH; [pose proof (Z.div_mod v 256); lia|].
    split; [apply Z.div_pos; lia|]. apply Z.div_lt_upper_bound; lia.
Qed.

(** * Bounded loops

    [for_loop n i f s]: [for (j = i; j < i + n; ++j) s = f(j, s);] *)
Fixpoint for_loop {S : Type} (n : nat) (i : Z) (f : Z -> S -> outcome S) (s : S) : outcome S :=
  match n with
  | O => Val s
  | S n => s ← f i s; for_loop n (i + 1) f s
  end.

Lemma for_loop_ext {S} n : forall i f g (s : S),
  (forall j t, i <= j < i + Z.of_nat n -> f j t = g j t) -> for_loop n i f s = for_loop n i g s.
Proof.
  induction n as [|n IH]; intros i f g s He; cbn [for_loop]; [done|]. rewrite He by lia.
  destruct (g i s) as [t|]; cbn [mbind outcome_bind]; [|done]. apply IH. intros j u Hj. apply He. lia.
Qed.

(** A property of the index and state that every iteration re-establishes holds
    at the end, and the loop completes. *)
Lemma for_loop_inv {S} (P : Z -> S -> Prop) n : forall i f (s : S),
  P i s ->
  (forall j s, i <= j < i + Z.of_nat n -> P j s -> exists s', f j s = Val s' /\ P (j + 1) s') ->
  exists s', for_loop n i f s = Val s' /\ P (i + Z.of_nat n) s'.
Proof.
  induction n as [|n IH]; intros i f s H0 Hstep; cbn [for_loop].
  - exists s. split; [done|]. by rewrite Z.add_0_r.
  - destruct (Hstep i s) as (s1 & -> & H1); [lia|done|]. simpl.
    destruct (IH (i + 1) f s1 H1) as (s2 & -> & H2).
    { intros j s' Hj. apply Hstep. lia. }
    exists s2. split; [done|]. by replace (i + Z.of_nat (Datatypes.S n)) with (i + 1 + Z.of_nat n) by lia.
Qed.

(** * Bits of a byte *)

Lemma in_u8_ones b : in_u8 b <-> Z.land b (Z.ones 8) = b.
Proof.
  rewrite Z.land_ones by lia. unfold in_u8. split; [apply Z.mod_small|].
  intros <-. apply Z.mod_pos_bound. lia.
Qed.

Lemma in_u8_lor a b : in_u8 a -> in_u8 b -> in_u8 (Z.lor a b).
Proof. rewrite !in_u8_ones. intros Ha Hb. by rewrite Z.land_lor_distr_l, Ha, Hb. Qed.

Lemma in_u8_land a b : in_u8 a -> in_u8 (Z.land a b).
Proof.
  rewrite !in_u8_ones. intros Ha.
  by rewrite <- Z.land_assoc, (Z.land_comm b), Z.land_assoc, Ha.
Qed.

Lemma in_u8_testbit_high b i : in_u8 b -> 8 <= i -> Z.testbit b i = false.
Proof.
  intros Hb Hi. apply in_u8_ones in Hb. rewrite <- Hb, Z.land_spec.
  rewrite Z.ones_spec_high by lia. apply andb_false_r.
Qed.

Lemma in_u8_pow2 k : 0 <= k < 8 -> in_u8 (2 ^ k).
Proof.
  intros Hk. unfold in_u8. split; [apply Z.pow_nonneg; lia|]. apply Z.pow_lt_mono_r; lia.
Qed.

Lemma land_pow2_nonzero b k :
  0 <= k -> bool_decide (Z.land b (2 ^ k) <> 0) = Z.testbit b k.
Proof.
  intros Hk. destruct (Z.testbit b k) eqn:Hb.
  - apply bool_decide_eq_true. intros Hz. apply (f_equal (fun z => Z.testbit z k)) in Hz.
    by rewrite Z.land_spec, Hb, Z.pow2_bits_true, Z.bits_0 in Hz by done.
  - apply bool_decide_eq_false. intros Hn. apply Hn. apply Z.bits_inj'. intros i Hi.
    rewrite Z.land_spec, Z.pow2_bits_eqb, Z.bits_0 by done.
    destruct (Z.eqb_spec k i) as [->|]; [by rewrite Hb|apply andb_false_r].
Qed.

(** * Reading what was laid out *)

Lemma aread_app {A} (pre bs post : list A) :
  aread (pre ++ bs ++ post) (Z.of_nat (length pre)) (Z.of_nat (length bs)) = Val bs.
Proof.
  rewrite aread_in_range by (rewrite ?length_app; lia).
  by rewrite !Nat2Z.id, drop_app_length, take_app_length.
Qed.

(** A field stored after the [k] bytes [pre]. *)
Lemma le_load_at (l pre post : list Z) off n v :
  l = pre ++ le_bytes (Z.to_nat n) v ++ post -> off = Z.of_nat (length pre) ->
  0 <= n -> 0 <= v < 2 ^ (8 * n) -> le_load l off n = Val v.
Proof.
  intros -> -> Hn Hv. unfold le_load.
  replace n with (Z.of_nat (length (le_bytes (Z.to_nat n) v))) at 2
    by (rewrite le_bytes_length; lia).
  rewrite aread_app. simpl. rewrite le_value_bytes; [done|].
  by rewrite Z2Nat.id by done.
Qed.

(** * Searching an array

    The index of the first element satisfying a test, counting from [i]. *)
Fixpoint first_index {A} (f : A -> bool) (l : list A) (i : Z) : option Z :=
  match l with
  | [] => None
  | x :: l => if f x then Some i else first_index f l (i + 1)
  end.

Lemma first_index_Some {A} (f : A -> bool) l : forall i k,
  first_index f l i = Some k ->
  i <= k < i + Z.of_nat (length l)
  /\ (exists x, l !! Z.to_nat (k - i) = Some x /\ f x = true)
  /\ forall j x, i <= j < k -> l !! Z.to_nat (j - i) = Some x -> f x = false.
Proof.
  induction l as [|x l IH]; simpl; [done|]. intros i k Hk. destruct (f x) eqn:Hx.
  - simplify_eq. split; [lia|]. rewrite Z.sub_diag. split; [by exists x|]. intros; lia.
  - destruct (IH _ _ Hk) as (Hr & (y & Hy & Hfy) & Hb). split; [lia|]. split.
    + exists y. replace (Z.to_nat (k - i)) with (S (Z.to_nat (k - (i + 1)))) by lia. done.
    + intros j z Hj. destruct (decide (j = i)) as [->|].
      * rewrite Z.sub_diag. simpl. congruence.
      * replace (Z.to_nat (j - i)) with (S (Z.to_nat (j - (i + 1)))) by lia. apply Hb. lia.
Qed.

Lemma first_index_None {A} (f : A -> bool) l i :
  first_index f l i = None <-> Forall (fun x => f x = false) l.
Proof.
  revert i. induction l as [|x l IH]; simpl; intros i; [done|].
  rewrite Forall_cons. destruct (f x); [naive_solver|]. rewrite IH. naive_solver.
Qed.

Lemma mjoin_cons {A} (x : list A) (l : list (list A)) : mjoin (x :: l) = x ++ mjoin l.
Proof. reflexivity. Qed.
