(* ===== verification/KString.v ===== *)
(** [src/kernel/string.c]: the kernel's string, memory and formatting routines.

    Module [Mem] models the pointer routines over a byte memory (a finite map
    from addresses to bytes; touching an address outside it stops with [Oob])
    and proves them against functions on lists of bytes; the other components
    use those list functions where the code calls these routines on whole
    arrays.  Module [Fmt] models the two formatters over an output array. *)

From Stdlib Require Import ZArith Lia Ascii.
From stdpp Require Import base gmap list strings.
From S2P Require Import Prelude.
Open Scope Z_scope.

(** * List-level meaning of the string routines *)

(** What [kstrcmp] computes for two strings. *)
Fixpoint vstrcmp (l r : list Z) : Z :=
  match l with
  | [] => 0 - hd 0 r
  | a :: l' => if decide (a = hd 0 r) then vstrcmp l' (tl r) else a - hd 0 r
  end.

(** What [kstrncmp] computes, strings read as if followed by a NUL. *)
Fixpoint vstrncmp (n : nat) (l r : list Z) : Z :=
  match n with
  | O => 0
  | S n' =>
      let a := hd 0 l in
      let b := hd 0 r in
      if decide (a <> b \/ a = 0 \/ b = 0) then a - b else vstrncmp n' (tl l) (tl r)
  end.

(** The [count] bytes [kstrncpy] stores. *)
Definition vstrncpy (count : nat) (s : list Z) : list Z :=
  take count (s ++ replicate count 0).

(** Storing a string and its NUL at the start of an array: what
    [kstrcpy(dst, s)] does when [dst] is the array [a]. *)
Definition vstrcpy (a s : list Z) : outcome (list Z) := awrite a 0 (s ++ [0]).

Lemma vstrcmp_0 s t : no_nul s -> no_nul t -> vstrcmp s t = 0 <-> s = t.
Proof.
  intros Hs. revert t. induction Hs as [|a s Ha _ IH]; intros [|b t] Ht; simpl.
  - done.
  - apply Forall_cons in Ht as [Hb _]. split; [lia|done].
  - rewrite decide_False by lia. split; [lia|done].
  - apply Forall_cons in Ht as [Hb Ht]. case_decide as Hab.
    + subst. rewrite IH by done. naive_solver.
    + split; [lia|congruence].
Qed.

Lemma vstrncpy_length n s : length (vstrncpy n s) = n.
Proof. unfold vstrncpy. rewrite length_take, length_app, length_replicate. lia. Qed.

Module Mem.

Notation mem := (gmap Z Z).

Definition load (m : mem) (p : Z) : outcome Z := of_option (m !! p).
Definition store (m : mem) (p v : Z) : outcome mem :=
  match m !! p with Some _ => Val (<[p := v]> m) | None => Stop Oob end.

(** [src/kernel/string.c:5-11] kstrlen *)
Fixpoint kstrlen_loop (fuel : nat) (m : mem) (s len : Z) : outcome Z :=
  match fuel with
  | O => Stop OutOfFuel
  | S fuel =>
      c ← load m (s + len);
      if decide (c = 0) then Val len else kstrlen_loop fuel m s (len + 1)
  end.
(** [src/kernel/string.c:5-11] kstrlen *)
Definition kstrlen (fuel : nat) (m : mem) (s : Z) : outcome Z :=
  if decide (s = 0) then Val 0 else kstrlen_loop fuel m s 0.

(** [src/kernel/string.c:13-19] kstrcmp *)
Fixpoint kstrcmp (fuel : nat) (m : mem) (lhs rhs : Z) : outcome Z :=
  match fuel with
  | O => Stop OutOfFuel
  | S fuel =>
      a ← load m lhs;
      b ← load m rhs;
      if decide (a <> 0 /\ a = b) then kstrcmp fuel m (lhs + 1) (rhs + 1)
      else Val (a - b)
  end.

(** [src/kernel/string.c:21-31] kstrncmp *)
Fixpoint kstrncmp (count : nat) (m : mem) (lhs rhs : Z) : outcome Z :=
  match count with
  | O => Val 0
  | S count =>
      a ← load m lhs;
      b ← load m rhs;
      if decide (a <> b \/ a = 0 \/ b = 0) then Val (a - b)
      else kstrncmp count m (lhs + 1) (rhs + 1)
  end.

(** [src/kernel/string.c:33-38] kstrcpy *)
Fixpoint kstrcpy (fuel : nat) (m : mem) (dst src : Z) : outcome mem :=
  match fuel with
  | O => Stop OutOfFuel
  | S fuel =>
      c ← load m src;
      m ← store m dst c;
      if decide (c = 0) then Val m else kstrcpy fuel m (dst + 1) (src + 1)
  end.

(** [src/kernel/string.c:48-50] kstrncpy *)
Fixpoint kstrncpy_pad (n : nat) (m : mem) (dst : Z) : outcome mem :=
  match n with
  | O => Val m
  | S n => m ← store m dst 0; kstrncpy_pad n m (dst + 1)
  end.
(** [src/kernel/string.c:40-52] kstrncpy *)
Fixpoint kstrncpy (count : nat) (m : mem) (dst src : Z) : outcome mem :=
  match count with
  | O => Val m
  | S n =>
      c ← load m src;
      m ← store m dst c;
      if decide (c = 0) then kstrncpy_pad count m dst
      else kstrncpy n m (dst + 1) (src + 1)
  end.

(** [src/kernel/string.c:54-62] kmemcpy *)
Fixpoint copy_up (n : nat) (m : mem) (dst src : Z) : outcome mem :=
  match n with
  | O => Val m
  | S n => c ← load m src; m ← store m dst c; copy_up n m (dst + 1) (src + 1)
  end.
(** [src/kernel/string.c:73-75] kmemmove *)
Fixpoint copy_down (n : nat) (m : mem) (dst src : Z) : outcome mem :=
  match n with
  | O => Val m
  | S n =>
      c ← load m (src + Z.of_nat n);
      m ← store m (dst + Z.of_nat n) c;
      copy_down n m dst src
  end.
(** [src/kernel/string.c:54-62] kmemcpy *)
Definition kmemcpy (m : mem) (dst src : Z) (size : nat) : outcome mem :=
  copy_up size m dst src.
(** [src/kernel/string.c:64-78] kmemmove *)
Definition kmemmove (m : mem) (dst src : Z) (size : nat) : outcome mem :=
  if decide (dst < src) then copy_up size m dst src
  else if decide (dst > src) then copy_down size m dst src
  else Val m.

(** [src/kernel/string.c:80-87] kmemset *)
Fixpoint kmemset (size : nat) (m : mem) (dst value : Z) : outcome mem :=
  match size with
  | O => Val m
  | S size => m ← store m dst (u8 value); kmemset size m (dst + 1) value
  end.

(** [src/kernel/string.c:89-99] kmemcmp *)
Fixpoint kmemcmp (size : nat) (m : mem) (lhs rhs : Z) : outcome Z :=
  match size with
  | O => Val 0
  | S size =>
      a ← load m lhs;
      b ← load m rhs;
      if decide (a <> b) then Val (a - b) else kmemcmp size m (lhs + 1) (rhs + 1)
  end.

(** ** Predicates on memories *)

Definition bytes_at (m : mem) (p : Z) (bs : list Z) : Prop :=
  forall i x, bs !! i = Some x -> m !! (p + Z.of_nat i) = Some x.

Definition cstring_at (m : mem) (p : Z) (s : list Z) : Prop :=
  no_nul s /\ bytes_at m p (s ++ [0]).

Definition mapped (m : mem) (p : Z) (n : nat) : Prop :=
  forall i, (i < n)%nat -> is_Some (m !! (p + Z.of_nat i)).

(** [m'] is [m] with [bs] stored at [dst] and nothing else changed. *)
Definition updated (m m' : mem) (dst : Z) (bs : list Z) : Prop :=
  forall a, m' !! a =
    if decide (dst <= a < dst + Z.of_nat (length bs)) then bs !! Z.to_nat (a - dst)
    else m !! a.

(** [m'] is [m] with the [n] bytes found at [src] in [m] stored at [dst]. *)
Definition copied (m m' : mem) (dst src : Z) (n : nat) : Prop :=
  forall a, m' !! a =
    if decide (dst <= a < dst + Z.of_nat n) then m !! (a - dst + src) else m !! a.

Lemma bytes_at_cons m p b bs :
  bytes_at m p (b :: bs) <-> m !! p = Some b /\ bytes_at m (p + 1) bs.
Proof.
  split.
  - intros H. split; [by rewrite <- (H 0%nat b eq_refl); f_equal; lia|].
    intros i x Hi. rewrite <- (H (S i) x Hi). f_equal. lia.
  - intros [H0 H] [|i] x Hi; simpl in Hi.
    + simplify_eq. rewrite <- H0. f_equal. lia.
    + rewrite <- (H i x Hi). f_equal. lia.
Qed.

Lemma cstring_at_nil m p : cstring_at m p [] <-> m !! p = Some 0.
Proof.
  unfold cstring_at. simpl. rewrite bytes_at_cons. split; [tauto|].
  intros H. repeat split; [constructor|done|]. intros i x Hi. by rewrite lookup_nil in Hi.
Qed.

Lemma cstring_at_cons m p c s :
  cstring_at m p (c :: s) <-> c <> 0 /\ m !! p = Some c /\ cstring_at m (p + 1) s.
Proof.
  unfold cstring_at. simpl. rewrite bytes_at_cons. unfold no_nul. rewrite Forall_cons. tauto.
Qed.

Lemma mapped_S m p n :
  mapped m p (S n) <-> is_Some (m !! p) /\ mapped m (p + 1) n.
Proof.
  split.
  - intros H. split; [by destruct (H 0%nat ltac:(lia)) as [x Hx]; exists x; rewrite <- Hx; f_equal; lia|].
    intros i Hi. destruct (H (S i) ltac:(lia)) as [x Hx]. exists x. rewrite <- Hx. f_equal. lia.
  - intros [[x Hx] H] [|i] Hi; [by exists x; rewrite <- Hx; f_equal; lia|].
    destruct (H i ltac:(lia)) as [y Hy]. exists y. rewrite <- Hy. f_equal. lia.
Qed.

Lemma mapped_store m p v q n : mapped m q n -> mapped (<[p := v]> m) q n.
Proof.
  intros H i Hi. rewrite lookup_insert_is_Some'. right. by apply H.
Qed.

Lemma store_mapped m p v : is_Some (m !! p) -> store m p v = Val (<[p := v]> m).
Proof. intros [x Hx]. unfold store. by rewrite Hx. Qed.

(** ** The routines compute their list-level meaning *)

Lemma kstrlen_loop_spec s : forall fuel m p len,
  cstring_at m (p + len) s -> (length s < fuel)%nat ->
  kstrlen_loop fuel m p len = Val (len + Z.of_nat (length s)).
Proof.
  induction s as [|c s IH]; intros [|fuel] m p len Hs Hf; simpl in *; try lia.
  - apply cstring_at_nil in Hs. unfold load. rewrite Hs. simpl. f_equal. lia.
  - apply cstring_at_cons in Hs as (Hc & Hp & Hs). unfold load. rewrite Hp. simpl.
    rewrite decide_False by done. rewrite IH; [f_equal; lia| |lia].
    by rewrite Z.add_assoc.
Qed.

Lemma kstrlen_spec fuel m p s :
  p <> 0 -> cstring_at m p s -> (length s < fuel)%nat ->
  kstrlen fuel m p = Val (Z.of_nat (length s)).
Proof.
  intros Hp Hs Hf. unfold kstrlen. rewrite decide_False by done.
  rewrite (kstrlen_loop_spec s); [done| |done]. by rewrite Z.add_0_r.
Qed.

Lemma kstrcmp_spec s : forall t fuel m p q,
  cstring_at m p s -> cstring_at m q t -> (length s < fuel)%nat ->
  kstrcmp fuel m p q = Val (vstrcmp s t).
Proof.
  induction s as [|a s IH]; intros t [|fuel] m p q Hs Ht Hf; simpl in *; try lia.
  - apply cstring_at_nil in Hs. unfold load. rewrite Hs. simpl.
    destruct t as [|b t].
    + apply cstring_at_nil in Ht. by rewrite Ht.
    + apply cstring_at_cons in Ht as (_ & Hq & _). by rewrite Hq.
  - apply cstring_at_cons in Hs as (Ha & Hp & Hs). unfold load. rewrite Hp. simpl.
    destruct t as [|b t].
    + apply cstring_at_nil in Ht. rewrite Ht. simpl.
      rewrite decide_False by naive_solver. by rewrite decide_False by done.
    + apply cstring_at_cons in Ht as (Hb & Hq & Ht). rewrite Hq. simpl.
      destruct (decide (a = b)) as [->|Hab].
      * rewrite decide_True by done. apply IH; [done|done|lia].
      * by rewrite decide_False by naive_solver.
Qed.

Lemma kstrncmp_spec n : forall s t m p q,
  cstring_at m p s -> cstring_at m q t -> kstrncmp n m p q = Val (vstrncmp n s t).
Proof.
  assert (forall m p s, cstring_at m p s -> m !! p = Some (hd 0 s)) as Hhd.
  { intros m p [|c s]; [by intros ?%cstring_at_nil|by intros (?&?&?)%cstring_at_cons]. }
  induction n as [|n IH]; intros s t m p q Hs Ht; simpl; [done|].
  unfold load. rewrite (Hhd _ _ _ Hs), (Hhd _ _ _ Ht). simpl.
  case_decide as Hd; [done|].
  destruct s as [|a s], t as [|b t]; simpl in *; try (exfalso; naive_solver).
  apply cstring_at_cons in Hs as (_ & _ & ?). apply cstring_at_cons in Ht as (_ & _ & ?).
  by apply IH.
Qed.

Lemma copy_up_spec n : forall m dst src,
  mapped m src n -> mapped m dst n -> dst <= src \/ src + Z.of_nat n <= dst ->
  exists m', copy_up n m dst src = Val m' /\ copied m m' dst src n.
Proof.
  induction n as [|n IH]; intros m dst src Hs Hd Ho; simpl.
  - exists m. split; [done|]. intros a. rewrite decide_False by lia. done.
  - apply mapped_S in Hs as [[c Hc] Hs]. apply mapped_S in Hd as [Hd0 Hd].
    unfold load. rewrite Hc. simpl. rewrite store_mapped by done. simpl.
    destruct (IH (<[dst:=c]> m) (dst + 1) (src + 1)) as (m' & Hm' & Hcop);
      [by apply mapped_store..|lia|].
    exists m'. split; [done|]. intros a. rewrite Hcop.
    destruct (decide (a = dst)) as [->|Hne].
    + rewrite decide_False by lia. rewrite decide_True by lia.
      rewrite lookup_insert_eq, <- Hc. f_equal. lia.
    + repeat case_decide; try lia; rewrite lookup_insert_ne by lia; [|done].
      f_equal. lia.
Qed.

Lemma copy_down_spec n : forall m dst src,
  mapped m src n -> mapped m dst n -> src <= dst ->
  exists m', copy_down n m dst src = Val m' /\ copied m m' dst src n.
Proof.
  induction n as [|n IH]; intros m dst src Hs Hd Ho; simpl.
  - exists m. split; [done|]. intros a. rewrite decide_False by lia. done.
  - destruct (Hs n ltac:(lia)) as [c Hc]. unfold load. rewrite Hc. simpl.
    rewrite store_mapped by (apply Hd; lia). simpl.
    destruct (IH (<[dst + Z.of_nat n:=c]> m) dst src) as (m' & Hm' & Hcop);
      [apply mapped_store; intros i Hi; (apply Hs || apply Hd); lia..|done|].
    exists m'. split; [done|]. intros a. rewrite Hcop.
    destruct (decide (a = dst + Z.of_nat n)) as [->|Hne].
    + rewrite decide_False by lia. rewrite decide_True by lia.
      rewrite lookup_insert_eq, <- Hc. f_equal. lia.
    + repeat case_decide; try lia; rewrite lookup_insert_ne by lia; done.
Qed.

Lemma kmemmove_spec m dst src n :
  mapped m src n -> mapped m dst n ->
  exists m', kmemmove m dst src n = Val m' /\ copied m m' dst src n.
Proof.
  intros Hs Hd. unfold kmemmove. repeat case_decide.
  - apply copy_up_spec; [done..|lia].
  - apply copy_down_spec; [done..|lia].
  - assert (dst = src) as -> by lia. exists m. split; [done|].
    intros a. case_decide; f_equal; lia.
Qed.

Lemma bytes_at_store m p bs q v :
  bytes_at m p bs -> q < p \/ p + Z.of_nat (length bs) <= q ->
  bytes_at (<[q := v]> m) p bs.
Proof.
  intros H Hq i x Hi. rewrite lookup_insert_ne; [by apply H|].
  apply lookup_lt_Some in Hi. lia.
Qed.

Lemma cstring_at_store m p s q v :
  cstring_at m p s -> q < p \/ p + Z.of_nat (length s) < q ->
  cstring_at (<[q := v]> m) p s.
Proof.
  intros [Hn H] Hq. split; [done|]. apply bytes_at_store; [done|].
  rewrite length_app. simpl. lia.
Qed.

Lemma updated_cons m m' dst b bs :
  updated (<[dst := b]> m) m' (dst + 1) bs -> updated m m' dst (b :: bs).
Proof.
  intros H a. rewrite H. simpl length. destruct (decide (a = dst)) as [->|Hne].
  - rewrite decide_False by lia. rewrite decide_True by lia.
    by rewrite lookup_insert_eq, Z.sub_diag.
  - repeat case_decide; try lia; [|by rewrite lookup_insert_ne by lia].
    replace (Z.to_nat (a - dst)) with (S (Z.to_nat (a - (dst + 1)))) by lia. done.
Qed.

Lemma updated_nil m dst : updated m m dst [].
Proof. intros a. simpl. by rewrite decide_False by lia. Qed.

Lemma kstrcpy_spec s : forall fuel m dst src,
  cstring_at m src s -> mapped m dst (S (length s)) -> (length s < fuel)%nat ->
  dst + Z.of_nat (length s) < src \/ src + Z.of_nat (length s) < dst ->
  exists m', kstrcpy fuel m dst src = Val m' /\ updated m m' dst (s ++ [0]).
Proof.
  induction s as [|c s IH]; intros [|fuel] m dst src Hs Hd Hf Ho;
    simpl in Hf, Ho; try lia.
  - apply cstring_at_nil in Hs. apply mapped_S in Hd as [Hd _].
    simpl. unfold load. rewrite Hs. simpl. rewrite store_mapped by done. simpl.
    eexists; split; [done|]. apply updated_cons, updated_nil.
  - apply cstring_at_cons in Hs as (Hc & Hp & Hs). apply mapped_S in Hd as [Hd0 Hd].
    simpl. unfold load. rewrite Hp. simpl. rewrite store_mapped by done. simpl.
    rewrite decide_False by done.
    destruct (IH fuel (<[dst:=c]> m) (dst + 1) (src + 1)) as (m' & Hm' & Hu).
    + apply cstring_at_store; [done|lia].
    + by apply mapped_store.
    + lia.
    + lia.
    + exists m'. split; [done|]. by apply updated_cons.
Qed.

Lemma kstrncpy_pad_spec n : forall m dst,
  mapped m dst n ->
  exists m', kstrncpy_pad n m dst = Val m' /\ updated m m' dst (replicate n 0).
Proof.
  induction n as [|n IH]; intros m dst Hd; simpl.
  - exists m. split; [done|]. apply updated_nil.
  - apply mapped_S in Hd as [Hd0 Hd]. rewrite store_mapped by done. simpl.
    destruct (IH (<[dst:=0]> m) (dst + 1)) as (m' & Hm' & Hu); [by apply mapped_store|].
    exists m'. split; [done|]. by apply updated_cons.
Qed.

Lemma vstrncpy_nil n : vstrncpy n [] = replicate n 0.
Proof. unfold vstrncpy. simpl. by rewrite take_ge by by rewrite length_replicate. Qed.

Lemma vstrncpy_cons n c s : vstrncpy (S n) (c :: s) = c :: vstrncpy n s.
Proof.
  unfold vstrncpy. rewrite <- app_comm_cons. simpl take. f_equal.
  change (0 :: replicate n 0) with (replicate (S n) 0).
  rewrite replicate_S_end, app_assoc, take_app_le; [done|].
  rewrite length_app, length_replicate. lia.
Qed.

Lemma kstrncpy_spec n : forall s m dst src,
  cstring_at m src s -> mapped m dst n ->
  dst + Z.of_nat n <= src \/ src + Z.of_nat (length s) < dst ->
  exists m', kstrncpy n m dst src = Val m' /\ updated m m' dst (vstrncpy n s).
Proof.
  induction n as [|n IH]; intros s m dst src Hs Hd Ho.
  - exists m. split; [done|]. apply updated_nil.
  - apply mapped_S in Hd as [Hd0 Hd]. destruct s as [|c s].
    + apply cstring_at_nil in Hs. simpl. unfold load. rewrite Hs. simpl.
      rewrite store_mapped by done. simpl. rewrite vstrncpy_nil.
      destruct (kstrncpy_pad_spec (S n) (<[dst:=0]> m) dst) as (m' & Hm' & Hu).
      { apply mapped_S. split; [by rewrite lookup_insert_eq|by apply mapped_store]. }
      exists m'. split; [done|]. intros a. rewrite Hu.
      rewrite length_replicate. case_decide; [done|]. by rewrite lookup_insert_ne by lia.
    + apply cstring_at_cons in Hs as (Hc & Hp & Hs).
      simpl. unfold load. rewrite Hp. simpl. rewrite store_mapped by done. simpl.
      rewrite decide_False by done. simpl in Ho.
      destruct (IH s (<[dst:=c]> m) (dst + 1) (src + 1)) as (m' & Hm' & Hu).
      * apply cstring_at_store; [done|lia].
      * by apply mapped_store.
      * lia.
      * exists m'. split; [done|]. rewrite vstrncpy_cons. by apply updated_cons.
Qed.

Lemma kmemset_spec n : forall m dst v,
  mapped m dst n ->
  exists m', kmemset n m dst v = Val m' /\ updated m m' dst (replicate n (u8 v)).
Proof.
  induction n as [|n IH]; intros m dst v Hd; simpl.
  - exists m. split; [done|]. apply updated_nil.
  - apply mapped_S in Hd as [Hd0 Hd]. rewrite store_mapped by done. simpl.
    destruct (IH (<[dst:=u8 v]> m) (dst + 1) v) as (m' & Hm' & Hu); [by apply mapped_store|].
    exists m'. split; [done|]. by apply updated_cons.
Qed.

(** [kmemcmp] is zero exactly on equal blocks. *)
Lemma kmemcmp_spec xs : forall ys m p q,
  length ys = length xs -> bytes_at m p xs -> bytes_at m q ys ->
  exists r, kmemcmp (length xs) m p q = Val r /\ (r = 0 <-> xs = ys).
Proof.
  induction xs as [|x xs IH]; intros [|y ys] m p q Hl Hx Hy; simpl in *; try done.
  - by exists 0.
  - apply bytes_at_cons in Hx as [Hx0 Hx]. apply bytes_at_cons in Hy as [Hy0 Hy].
    unfold load. rewrite Hx0, Hy0. simpl. case_decide as Hd.
    + exists (x - y). split; [done|]. split; [lia|congruence].
    + destruct (IH ys m (p + 1) (q + 1)) as (r & Hr & Hiff); [lia|done..|].
      exists r. split; [done|]. rewrite Hiff. assert (x = y) by lia. naive_solver.
Qed.
End Mem.

(** * The formatters

    The output buffer is an array.  The format string is read through its
    remaining bytes, terminating NUL included: reading past the terminator
    stops with [Oob].  A [va_list] is the list of the remaining argument
    slots; fetching an argument that is missing, or of the other kind, stops
    with [Oob] as well.  A [%s] argument is the string it points to, or [None]
    for a null pointer. *)

Module Fmt.

Inductive va : Type :=
| VaWord (w : Z)
| VaStr (s : option (list Z)).

Definition va_word (args : list va) : outcome (Z * list va) :=
  match args with VaWord w :: args => Val (w, args) | _ => Stop Oob end.
Definition va_str (args : list va) : outcome (option (list Z) * list va) :=
  match args with VaStr s :: args => Val (s, args) | _ => Stop Oob end.

(** Output buffer and the [index] variable. *)
Notation out := (list Z * Z)%type.

(** [src/kernel/string.c:101-106] append_char *)
Definition append_char (size : Z) (b : out) (c : Z) : outcome out :=
  let '(buffer, index) := b in
  if decide (index + 1 < size) then
    buffer ← aset buffer index c;
    Val (buffer, index + 1)
  else Val (buffer, index + 1).

Fixpoint append_chars (size : Z) (b : out) (s : list Z) : outcome out :=
  match s with
  | [] => Val b
  | c :: s => b ← append_char size b c; append_chars size b s
  end.

(** [src/kernel/string.c:108-115] append_string *)
Definition append_string (size : Z) (b : out) (s : option (list Z)) : outcome out :=
  append_chars size b (default (str "(null)") s).

(** [src/kernel/string.c:120-120] digits *)
Definition digits (uppercase : bool) : list Z :=
  if uppercase then str "0123456789ABCDEF" else str "0123456789abcdef".

(** [src/kernel/string.c:125-128] append_unsigned; [temp] is the stack of the
    digits produced so far, least significant at the bottom. *)
Fixpoint push_digits (fuel : nat) (ds temp : list Z) (value base : Z) : outcome (list Z) :=
  if decide (value = 0) then Val temp
  else match fuel with
  | O => Stop OutOfFuel
  | S fuel =>
      if decide (Z.of_nat (length temp) < 32) then
        d ← aget ds (value mod base);
        push_digits fuel ds (d :: temp) (value / base) base
      else Stop Oob
  end.

(** [src/kernel/string.c:117-132] append_unsigned *)
Definition append_unsigned (size : Z) (b : out) (value base : Z) (uppercase : bool)
  : outcome out :=
  if decide (value = 0) then append_char size b (chr "0")
  else
    temp ← push_digits 64 (digits uppercase) [] value base;
    append_chars size b temp.

(** [src/kernel/string.c:149-187] kvsnprintf, one conversion *)
Definition convert (size : Z) (b : out) (c : Z) (args : list va)
  : outcome (out * list va) :=
  if decide (c = chr "%") then
    b ← append_char size b (chr "%"); Val (b, args)
  else if decide (c = chr "c") then
    '(w, args) ← va_word args; b ← append_char size b (u8 w); Val (b, args)
  else if decide (c = chr "s") then
    '(s, args) ← va_str args; b ← append_string size b s; Val (b, args)
  else if decide (c = chr "d" \/ c = chr "i") then
    '(w, args) ← va_word args;
    let value := i64 w in
    if decide (value < 0) then
      b ← append_char size b (chr "-");
      b ← append_unsigned size b (u64 (- value)) 10 false;
      Val (b, args)
    else
      b ← append_unsigned size b (u64 value) 10 false; Val (b, args)
  else if decide (c = chr "u") then
    '(w, args) ← va_word args;
    b ← append_unsigned size b (u64 w) 10 false; Val (b, args)
  else if decide (c = chr "x") then
    '(w, args) ← va_word args;
    b ← append_unsigned size b (u64 w) 16 false; Val (b, args)
  else if decide (c = chr "X") then
    '(w, args) ← va_word args;
    b ← append_unsigned size b (u64 w) 16 true; Val (b, args)
  else if decide (c = chr "p") then
    '(w, args) ← va_word args;
    b ← append_string size b (Some (str "0x"));
    b ← append_unsigned size b (u64 w) 16 false; Val (b, args)
  else
    b ← append_char size b (chr "%");
    b ← append_char size b c; Val (b, args).

(** [src/kernel/string.c:142-188] kvsnprintf, the scan; [p] starts at [*p] *)
Fixpoint kvsnprintf_loop (size : Z) (b : out) (p : list Z) (args : list va) {struct p}
  : outcome out :=
  match p with
  | [] => Stop Oob
  | c :: p =>
      if decide (c = 0) then Val b
      else if decide (c = chr "%") then
        match p with
        | [] => Stop Oob
        | d :: p =>
            '(b, args) ← convert size b d args;
            kvsnprintf_loop size b p args
        end
      else
        b ← append_char size b c;
        kvsnprintf_loop size b p args
  end.

(** [src/kernel/string.c:190-191] kvsnprintf, final NUL and return value *)
Definition finish (size : Z) (b : out) : outcome (list Z * Z) :=
  let '(buffer, index) := b in
  buffer ← aset buffer (if decide (index < size) then index else size - 1) 0;
  Val (buffer, i32 index).

(** [src/kernel/string.c:134-192] kvsnprintf; [fmt] excludes its NUL *)
Definition kvsnprintf (buffer : list Z) (size : Z) (fmt : list Z) (args : list va)
  : outcome (list Z * Z) :=
  if decide (size = 0) then Val (buffer, 0)
  else b ← kvsnprintf_loop size (buffer, 0) (fmt ++ [0]) args; finish size b.

(** [src/kernel/string.c:194-201] ksnprintf *)
Definition ksnprintf := kvsnprintf.

(** [src/kernel/string.c:211-234] kvformat_braces, the scan; [p] is the rest of
    the pattern, whose terminating NUL is [hd 0 []] *)
Fixpoint kvformat_braces_loop (size : Z) (b : out) (p : list Z) (args : list va) {struct p}
  : outcome out :=
  match p with
  | [] => Val b
  | c :: p =>
      match p with
      | d :: p' =>
          if decide (c = chr "{" /\ d = chr "{") then
            b ← append_char size b (chr "{"); kvformat_braces_loop size b p' args
          else if decide (c = chr "}" /\ d = chr "}") then
            b ← append_char size b (chr "}"); kvformat_braces_loop size b p' args
          else if decide (c = chr "{" /\ d = chr "}") then
            '(arg, args) ← va_str args;
            b ← match arg with
                | Some s => append_string size b (Some s)
                | None => b ← append_char size b (chr "{"); append_char size b (chr "}")
                end;
            kvformat_braces_loop size b p' args
          else b ← append_char size b c; kvformat_braces_loop size b p args
      | [] => b ← append_char size b c; kvformat_braces_loop size b p args
      end
  end.

(** [src/kernel/string.c:203-238] kvformat_braces; a null pattern is [None] *)
Definition kvformat_braces (buffer : list Z) (size : Z) (pattern : option (list Z))
  (args : list va) : outcome (list Z * Z) :=
  if decide (size = 0) then Val (buffer, 0)
  else b ← kvformat_braces_loop size (buffer, 0) (default [] pattern) args; finish size b.

(** [src/kernel/string.c:240-247] kformat_braces *)
Definition kformat_braces := kvformat_braces.

Example ksnprintf_ip :
  ksnprintf (replicate 20 7) 20 (str "%u.%u.%u.%u")
    [VaWord 10; VaWord 0; VaWord 2; VaWord 15]
  = Val (str "10.0.2.15" ++ [0] ++ replicate 10 7, 9).
Proof. vm_compute. reflexivity. Qed.

Example kformat_braces_ex :
  kformat_braces (replicate 8 0) 8 (Some (str "{} {{{}")) [VaStr (Some (str "ab")); VaStr None]
  = Val (str "ab {{}" ++ [0; 0], 6).
Proof. vm_compute. reflexivity. Qed.

(** ** Numerals *)

Definition horner (base : Z) (ds : list Z) : Z := foldl (fun a d => a * base + d) 0 ds.

Fixpoint digits_of (fuel : nat) (base v : Z) (acc : list Z) : list Z :=
  match fuel with
  | O => acc
  | S fuel => if decide (v = 0) then acc else digits_of fuel base (v / base) (v mod base :: acc)
  end.

(** The digit values of the base-[base] numeral of [v]. *)
Definition numeral (base v : Z) : list Z :=
  if decide (v = 0) then [0] else digits_of 64 base v [].

Definition digit_char (uppercase : bool) (d : Z) : Z :=
  nth (Z.to_nat d) (digits uppercase) 0.

Definition num_text (uppercase : bool) (base v : Z) : list Z :=
  digit_char uppercase <$> numeral base v.

(** ** The text a format denotes *)

Definition conversion (c : Z) (args : list va) : option (list Z * list va) :=
  if decide (c = chr "%") then Some (str "%", args)
  else if decide (c = chr "c") then
    match args with VaWord w :: args => Some ([u8 w], args) | _ => None end
  else if decide (c = chr "s") then
    match args with VaStr s :: args => Some (default (str "(null)") s, args) | _ => None end
  else if decide (c = chr "d" \/ c = chr "i") then
    match args with
    | VaWord w :: args =>
        Some ((if decide (i64 w < 0) then str "-" else []) ++ num_text false 10 (Z.abs (i64 w)), args)
    | _ => None
    end
  else if decide (c = chr "u") then
    match args with VaWord w :: args => Some (num_text false 10 (u64 w), args) | _ => None end
  else if decide (c = chr "x") then
    match args with VaWord w :: args => Some (num_text false 16 (u64 w), args) | _ => None end
  else if decide (c = chr "X") then
    match args with VaWord w :: args => Some (num_text true 16 (u64 w), args) | _ => None end
  else if decide (c = chr "p") then
    match args with
    | VaWord w :: args => Some (str "0x" ++ num_text false 16 (u64 w), args)
    | _ => None
    end
  else Some ([chr "%"; c], args).

(** The full text of a format, or [None] when the format ends in a lone [%] or
    an argument is missing or of the wrong kind. *)
Fixpoint render (fmt : list Z) (args : list va) {struct fmt} : option (list Z) :=
  match fmt with
  | [] => Some []
  | c :: fmt =>
      if decide (c = chr "%") then
        match fmt with
        | [] => None
        | d :: fmt =>
            '(t, args) ← conversion d args;
            rest ← render fmt args; Some (t ++ rest)
        end
      else rest ← render fmt args; Some (c :: rest)
  end.

(** The text of a brace pattern. *)
Fixpoint render_braces (p : list Z) (args : list va) {struct p} : option (list Z) :=
  match p with
  | [] => Some []
  | c :: p =>
      match p with
      | d :: p' =>
          if decide (c = chr "{" /\ d = chr "{") then cons c <$> render_braces p' args
          else if decide (c = chr "}" /\ d = chr "}") then cons c <$> render_braces p' args
          else if decide (c = chr "{" /\ d = chr "}") then
            match args with
            | VaStr s :: args => app (default (str "{}") s) <$> render_braces p' args
            | _ => None
            end
          else cons c <$> render_braces p args
      | [] => cons c <$> render_braces p args
      end
  end.

(** An array of [size] bytes or more after writing text [o] into it with
    truncation: the first [size - 1] bytes of [o], a NUL, the old tail. *)
Definition printed (buffer : list Z) (size : Z) (o : list Z) : list Z :=
  let k := Nat.min (length o) (Z.to_nat size - 1) in
  take k o ++ 0 :: drop (S k) buffer.

(** ** Correctness *)

Section Output.
Context (buffer : list Z) (size : Z).
Context (Hsize : 0 < size <= Z.of_nat (length buffer)).

Definition filled (o : list Z) : out :=
  let k := Nat.min (length o) (Z.to_nat size - 1) in
  (take k o ++ drop k buffer, Z.of_nat (length o)).

Lemma insert_after {A} (o : list A) rest c x :
  <[length o := c]> (o ++ x :: rest) = (o ++ [c]) ++ rest.
Proof.
  rewrite insert_app_r_alt by lia. rewrite Nat.sub_diag, <- app_assoc. done.
Qed.

Lemma drop_S_head {A} (l : list A) k :
  (k < length l)%nat -> exists x, drop k l = x :: drop (S k) l.
Proof.
  intros Hk. destruct (lookup_lt_is_Some_2 l k Hk) as [x Hx].
  exists x. by apply drop_S.
Qed.

Lemma append_char_filled o c :
  append_char size (filled o) c = Val (filled (o ++ [c])).
Proof.
  unfold append_char, filled. rewrite length_app. simpl length. case_decide as Hd.
  - rewrite (Nat.min_l (length o)) by lia. rewrite Nat.min_l by lia.
    rewrite aset_in_range by (rewrite length_app, take_ge, length_drop by lia; lia).
    simpl. rewrite Nat2Z.id, take_ge by lia.
    destruct (drop_S_head buffer (length o)) as [x ->]; [lia|].
    rewrite insert_after. f_equal. f_equal; [|lia].
    rewrite take_ge by (rewrite length_app; simpl; lia). f_equal. f_equal. lia.
  - f_equal. rewrite !Nat.min_r by lia. f_equal; [|lia]. f_equal.
    by rewrite take_app_le by lia.
Qed.

#[local] Arguments filled o : simpl never.
#[local] Arguments append_char size b c : simpl never.
#[local] Arguments append_unsigned size b value base uppercase : simpl never.
#[local] Arguments append_string size b s : simpl never.
#[local] Arguments num_text uppercase base v : simpl never.

Lemma append_chars_filled s o :
  append_chars size (filled o) s = Val (filled (o ++ s)).
Proof.
  revert o. induction s as [|c s IH]; intros o; simpl; [by rewrite app_nil_r|].
  rewrite append_char_filled. simpl. by rewrite IH, <- app_assoc.
Qed.

Lemma append_string_filled s o :
  append_string size (filled o) s = Val (filled (o ++ default (str "(null)") s)).
Proof. apply append_chars_filled. Qed.

Lemma finish_filled o :
  finish size (filled o) = Val (printed buffer size o, i32 (Z.of_nat (length o))).
Proof.
  unfold finish, filled, printed. set (k := Nat.min _ _).
  replace (if decide _ then _ else _) with (Z.of_nat k) by (subst k; case_decide; lia).
  assert (length (take k o) = k) as Hk by (rewrite length_take; subst k; lia).
  rewrite aset_in_range by (rewrite length_app, Hk, length_drop; subst k; lia).
  simpl. rewrite Nat2Z.id.
  destruct (drop_S_head buffer k) as [x ->]; [subst k; lia|].
  rewrite <- Hk at 1. by rewrite insert_after, <- app_assoc.
Qed.

Lemma digits_lookup up d : 0 <= d < 16 -> aget (digits up) d = Val (digit_char up d).
Proof.
  intros Hd. unfold digit_char. destruct (aget_in_range (digits up) d) as [x Hx].
  { destruct up; simpl; lia. }
  rewrite Hx. f_equal. apply aget_Val in Hx as [_ Hx]. symmetry. by apply nth_lookup_Some.
Qed.

(** Each division by the base (at least 8) removes three bits. *)
Lemma push_digits_spec up base n : forall v fuel temp,
  8 <= base <= 16 -> 0 <= v < 2 ^ (3 * Z.of_nat n) -> (n <= fuel)%nat ->
  (length temp + n <= 32)%nat ->
  push_digits fuel (digits up) (digit_char up <$> temp) v base
  = Val (digit_char up <$> digits_of fuel base v temp).
Proof.
  induction n as [|n IH]; intros v fuel temp Hb Hv Hn Hl.
  - change (2 ^ (3 * Z.of_nat 0)) with 1 in Hv.
    assert (v = 0) as -> by lia. by destruct fuel.
  - destruct fuel as [|fuel]; [lia|]. simpl. case_decide as Hz; [done|].
    rewrite decide_True by (rewrite length_fmap; lia).
    rewrite digits_lookup by (pose proof (Z.mod_pos_bound v base); lia). simpl.
    rewrite <- fmap_cons. apply IH; simpl; try lia.
    replace (3 * Z.of_nat (S n)) with (3 + 3 * Z.of_nat n) in Hv by lia.
    rewrite Z.pow_add_r in Hv by lia. change (2 ^ 3) with 8 in Hv.
    split; [apply Z.div_pos; lia|]. apply Z.div_lt_upper_bound; nia.
Qed.

Lemma append_unsigned_filled o v base up :
  8 <= base <= 16 -> in_u64 v ->
  append_unsigned size (filled o) v base up = Val (filled (o ++ num_text up base v)).
Proof.
  intros Hb Hv. unfold append_unsigned, num_text, numeral. case_decide.
  - rewrite append_char_filled. by destruct up.
  - pose proof (push_digits_spec up base 22 v 64 []) as Hpush.
    change (digit_char up <$> []) with (@nil Z) in Hpush.
    rewrite Hpush; [|done| |lia|simpl; lia].
    + apply append_chars_filled.
    + unfold in_u64 in Hv. split; [lia|]. apply Z.lt_le_trans with (2 ^ 64); [lia|].
      apply Z.pow_le_mono_r; lia.
Qed.

Lemma i64_range w : - 2 ^ 63 <= i64 w < 2 ^ 63.
Proof. unfold i64, swrap. pose proof (Z.mod_pos_bound (w + 2 ^ (64 - 1)) (2 ^ 64)). pow2. simpl. lia. Qed.

Lemma append_unsigned_u64 o w base up :
  8 <= base <= 16 ->
  append_unsigned size (filled o) (u64 w) base up = Val (filled (o ++ num_text up base (u64 w))).
Proof. intros. apply append_unsigned_filled; [done|apply u64_range]. Qed.

(** The magnitude printed for a signed argument. *)
Lemma u64_abs w : u64 (if decide (i64 w < 0) then - i64 w else i64 w) = Z.abs (i64 w).
Proof.
  pose proof (i64_range w). pow2.
  case_decide; rewrite u64_small; unfold in_u64; pow2; lia.
Qed.

Lemma convert_filled o c args t args' :
  conversion c args = Some (t, args') ->
  convert size (filled o) c args = Val (filled (o ++ t), args').
Proof.
  unfold conversion, convert. intros H.
  repeat case_decide; try (destruct args as [|[w|s] args]; simpl in H; try done);
    simplify_eq; simpl; rewrite ?append_char_filled, ?append_string_filled; simpl;
    rewrite ?append_unsigned_u64 by lia; simpl; rewrite <- ?app_assoc; try done;
    try (rewrite append_char_filled; simpl; by rewrite <- app_assoc).
  pose proof (u64_abs w) as Ha. case_decide; by rewrite Ha.
Qed.

Lemma kvsnprintf_loop_filled n : forall fmt args o t,
  (length fmt <= n)%nat -> no_nul fmt -> render fmt args = Some t ->
  kvsnprintf_loop size (filled o) (fmt ++ [0]) args = Val (filled (o ++ t)).
Proof.
  induction n as [|n IH]; intros [|c fmt] args o t Hn Hnul Hr; simpl in Hn; try lia.
  1, 2: simpl in *; simplify_eq; by rewrite app_nil_r.
  apply Forall_cons in Hnul as [Hc Hnul]. simpl in Hr |- *.
  rewrite (decide_False (P := c = 0)) by done. case_decide as Hp.
  - destruct fmt as [|d fmt]; [done|]. apply Forall_cons in Hnul as [_ Hnul].
    destruct (conversion d args) as [[t1 args1]|] eqn:Hcv; [|done]. simpl in Hr.
    destruct (render fmt args1) as [t2|] eqn:Ht2; [|done]. simpl in Hr. simplify_eq.
    simpl. rewrite (convert_filled _ _ _ _ _ Hcv). simpl.
    rewrite (IH fmt args1 _ t2); [by rewrite <- app_assoc|simpl in Hn; lia|done..].
  - destruct (render fmt args) as [t2|] eqn:Ht2; [|done]. simpl in Hr. simplify_eq.
    rewrite append_char_filled. simpl.
    rewrite (IH fmt args _ t2); [by rewrite <- app_assoc|lia|done..].
Qed.

Lemma kvformat_braces_loop_2 b c d p args :
  kvformat_braces_loop size b (c :: d :: p) args =
    if decide (c = chr "{" /\ d = chr "{") then
      b ← append_char size b (chr "{"); kvformat_braces_loop size b p args
    else if decide (c = chr "}" /\ d = chr "}") then
      b ← append_char size b (chr "}"); kvformat_braces_loop size b p args
    else if decide (c = chr "{" /\ d = chr "}") then
      '(arg, args) ← va_str args;
      b ← match arg with
          | Some s => append_string size b (Some s)
          | None => b ← append_char size b (chr "{"); append_char size b (chr "}")
          end;
      kvformat_braces_loop size b p args
    else b ← append_char size b c; kvformat_braces_loop size b (d :: p) args.
Proof. reflexivity. Qed.

Lemma render_braces_2 c d p args :
  render_braces (c :: d :: p) args =
    if decide (c = chr "{" /\ d = chr "{") then cons c <$> render_braces p args
    else if decide (c = chr "}" /\ d = chr "}") then cons c <$> render_braces p args
    else if decide (c = chr "{" /\ d = chr "}") then
      match args with
      | VaStr s :: args => app (default (str "{}") s) <$> render_braces p args
      | _ => None
      end
    else cons c <$> render_braces (d :: p) args.
Proof. reflexivity. Qed.

Lemma kvformat_braces_loop_filled n : forall p args o t,
  (length p <= n)%nat -> render_braces p args = Some t ->
  kvformat_braces_loop size (filled o) p args = Val (filled (o ++ t)).
Proof.
  assert (forall (f : list Z -> list Z) x t, f <$> x = Some t -> exists t', x = Some t' /\ t = f t') as Hinv.
  { intros f [x|] t; simpl; [|done]. intros; simplify_eq; eauto. }
  induction n as [|n IH]; intros [|c p] args o t Hn Hr; simpl in Hn; try lia.
  1, 2: simpl in *; simplify_eq; by rewrite app_nil_r.
  destruct p as [|d p].
  { simpl in *. simplify_eq. by rewrite append_char_filled. }
  rewrite render_braces_2 in Hr. rewrite kvformat_braces_loop_2.
  destruct (decide (c = chr "{" /\ d = chr "{")) as [[-> ->]|_];
    [|destruct (decide (c = chr "}" /\ d = chr "}")) as [[-> ->]|_];
      [|destruct (decide (c = chr "{" /\ d = chr "}")) as [[-> ->]|_]]].
  - apply Hinv in Hr as (t' & Ht & ->). rewrite append_char_filled. simpl.
    rewrite (IH _ _ _ t'); [by rewrite <- app_assoc|simpl in Hn; lia|done].
  - apply Hinv in Hr as (t' & Ht & ->). rewrite append_char_filled. simpl.
    rewrite (IH _ _ _ t'); [by rewrite <- app_assoc|simpl in Hn; lia|done].
  - destruct args as [|[w|s] args]; try done. apply Hinv in Hr as (t' & Ht & ->). simpl.
    destruct s as [s|]; simpl.
    + rewrite append_string_filled. simpl.
      rewrite (IH _ _ _ t'); [by rewrite <- app_assoc|simpl in Hn; lia|done].
    + rewrite append_char_filled. simpl. rewrite append_char_filled. simpl.
      rewrite (IH _ _ _ t'); [by rewrite <- !app_assoc|simpl in Hn; lia|done].
  - apply Hinv in Hr as (t' & Ht & ->). rewrite append_char_filled.
    cbn [mbind outcome_bind].
    rewrite (IH (d :: p) _ _ t'); [by rewrite <- app_assoc|simpl in *; lia|done].
Qed.

End Output.

Lemma kvsnprintf_spec buffer size fmt args t :
  0 < size <= Z.of_nat (length buffer) -> no_nul fmt -> render fmt args = Some t ->
  kvsnprintf buffer size fmt args = Val (printed buffer size t, i32 (Z.of_nat (length t))).
Proof.
  intros Hs Hn Hr. unfold kvsnprintf. rewrite decide_False by lia.
  replace (buffer, 0) with (filled buffer size []) by (unfold filled; simpl; by rewrite drop_0).
  rewrite (kvsnprintf_loop_filled buffer size Hs (length fmt) fmt args [] t) by done.
  by apply finish_filled.
Qed.

Lemma kvformat_braces_spec buffer size p args t :
  0 < size <= Z.of_nat (length buffer) -> render_braces p args = Some t ->
  kvformat_braces buffer size (Some p) args = Val (printed buffer size t, i32 (Z.of_nat (length t))).
Proof.
  intros Hs Hr. unfold kvformat_braces. rewrite decide_False by lia.
  replace (buffer, 0) with (filled buffer size []) by (unfold filled; simpl; by rewrite drop_0).
  change (default [] (Some p)) with p. rewrite (kvformat_braces_loop_filled buffer size Hs (length p) p args [] t) by done.
  by apply finish_filled.
Qed.

Arguments filled buffer size o : simpl never.
Arguments append_char size b c : simpl never.
Arguments append_unsigned size b value base uppercase : simpl never.
Arguments append_string size b s : simpl never.
Arguments num_text uppercase base v : simpl never.
Arguments convert size b c args : simpl never.
Arguments finish size b : simpl never.

Lemma horner_snoc base ds d : horner base (ds ++ [d]) = horner base ds * base + d.
Proof. unfold horner. by rewrite foldl_app. Qed.

Lemma digits_of_spec base n : forall v fuel acc,
  8 <= base -> 0 <= v < 2 ^ (3 * Z.of_nat n) -> (n <= fuel)%nat ->
  exists ds, digits_of fuel base v acc = ds ++ acc /\ horner base ds = v
    /\ Forall (fun d => 0 <= d < base) ds
    /\ (v = 0 -> ds = []) /\ (v <> 0 -> hd 0 ds <> 0).
Proof.
  induction n as [|n IH]; intros v fuel acc Hb Hv Hn.
  - change (2 ^ (3 * Z.of_nat 0)) with 1 in Hv. assert (v = 0) as -> by lia.
    exists []. repeat split; [by destruct fuel|constructor|done].
  - destruct fuel as [|fuel]; [lia|]. simpl. case_decide as Hz.
    { subst. exists []. repeat split; [constructor|done]. }
    replace (3 * Z.of_nat (S n)) with (3 + 3 * Z.of_nat n) in Hv by lia.
    rewrite Z.pow_add_r in Hv by lia. change (2 ^ 3) with 8 in Hv.
    destruct (IH (v / base) fuel (v mod base :: acc)) as (ds & -> & Hh & Hr & Hd0 & Hd); [done| |lia|].
    { split; [apply Z.div_pos; lia|]. apply Z.div_lt_upper_bound; nia. }
    pose proof (Z.mod_pos_bound v base ltac:(lia)) as Hm.
    pose proof (Z.div_mod v base ltac:(lia)) as Hdm.
    exists (ds ++ [v mod base]). split; [by rewrite <- app_assoc|].
    split; [rewrite horner_snoc, Hh; lia|].
    split; [apply Forall_app; auto|]. split; [done|]. intros _.
    destruct ds as [|d ds]; simpl; [unfold horner in Hh; simpl in Hh; lia|].
    apply Hd. intros Hq. by specialize (Hd0 Hq).
Qed.

Lemma numeral_spec base v :
  8 <= base -> in_u64 v ->
  horner base (numeral base v) = v /\ Forall (fun d => 0 <= d < base) (numeral base v)
  /\ (v <> 0 -> hd 0 (numeral base v) <> 0).
Proof.
  intros Hb Hv. unfold numeral. case_decide as Hz.
  - subst. repeat split; [|done]. repeat constructor; lia.
  - destruct (digits_of_spec base 22 v 64 []) as (ds & -> & Hh & Hr & _ & Hd); [done| |lia|].
    + unfold in_u64 in Hv. split; [lia|]. apply Z.lt_le_trans with (2 ^ 64); [lia|].
      apply Z.pow_le_mono_r; lia.
    + by rewrite app_nil_r.
Qed.

End Fmt.

(** * Properties *)

(** C5 [kmemmove] copies the block it is given even when source and destination
    overlap, in either direction, and changes no byte outside the destination. *)
Theorem kmemmove_overlap (m : gmap Z Z) (dst src : Z) (bs : list Z) :
  Mem.bytes_at m src bs -> Mem.mapped m dst (length bs) ->
  exists m', Mem.kmemmove m dst src (length bs) = Val m' /\ Mem.bytes_at m' dst bs
    /\ forall a, ~ dst <= a < dst + Z.of_nat (length bs) -> m' !! a = m !! a.
Proof.
  intros Hs Hd. destruct (Mem.kmemmove_spec m dst src (length bs)) as (m' & Hm & Hc).
  - intros i Hi. destruct (lookup_lt_is_Some_2 bs i Hi) as [x Hx]. exists x. by apply Hs.
  - done.
  - exists m'. split; [done|]. split.
    + intros i x Hx. pose proof (lookup_lt_Some _ _ _ Hx). rewrite Hc, decide_True by lia.
      rewrite <- (Hs i x Hx). f_equal. lia.
    + intros a Ha. rewrite Hc. by rewrite decide_False by done.
Qed.

Definition abcd_memory : gmap Z Z := list_to_map [(100, 1); (101, 2); (102, 3); (103, 4)].

Lemma kmemmove_overlap_witness :
  exists m', Mem.kmemmove abcd_memory 101 100 3 = Val m' /\ Mem.bytes_at m' 101 [1; 2; 3]
    /\ forall a, ~ 101 <= a < 101 + Z.of_nat 3 -> m' !! a = abcd_memory !! a.
Proof.
  apply (kmemmove_overlap abcd_memory 101 100 [1; 2; 3]).
  - intros [|[|[|i]]] x Hx; simpl in Hx; simplify_eq; try reflexivity.
  - intros [|[|[|i]]] Hi; simpl in Hi; try lia; eexists; reflexivity.
Defined.

(** [kstrcmp] on two NUL-terminated strings terminates within their length
    and returns 0 exactly when the strings are equal. *)
Theorem kstrcmp_decides_equality (m : gmap Z Z) (p q : Z) (s t : list Z) (fuel : nat) :
  Mem.cstring_at m p s -> Mem.cstring_at m q t -> (length s < fuel)%nat ->
  exists r, Mem.kstrcmp fuel m p q = Val r /\ (r = 0 <-> s = t).
Proof.
  intros Hs Ht Hf. exists (vstrcmp s t). split; [by apply Mem.kstrcmp_spec|].
  apply vstrcmp_0; [apply Hs|apply Ht].
Qed.

Definition two_strings : gmap Z Z := list_to_map [(8, 97); (9, 0); (16, 97); (17, 0)].

Lemma kstrcmp_decides_equality_witness :
  exists r, Mem.kstrcmp 5 two_strings 8 16 = Val r /\ (r = 0 <-> str "a" = str "a").
Proof.
  apply (kstrcmp_decides_equality two_strings 8 16 (str "a") (str "a") 5).
  - apply Mem.cstring_at_cons. split; [done|]. split; [reflexivity|]. by apply Mem.cstring_at_nil.
  - apply Mem.cstring_at_cons. split; [done|]. split; [reflexivity|]. by apply Mem.cstring_at_nil.
  - simpl. lia.
Defined.

(** [kstrncpy] stores exactly [count] bytes at the destination, the string
    cut to [count] bytes and padded with NULs, and nothing else; so the copy is
    NUL-terminated only when the string is shorter than [count]. *)
Theorem kstrncpy_stores (m : gmap Z Z) (dst src : Z) (s : list Z) (count : nat) :
  Mem.cstring_at m src s -> Mem.mapped m dst count ->
  dst + Z.of_nat count <= src \/ src + Z.of_nat (length s) < dst ->
  exists m', Mem.kstrncpy count m dst src = Val m'
    /\ Mem.updated m m' dst (take count s ++ replicate (count - length s) 0).
Proof.
  intros Hs Hd Ho. destruct (Mem.kstrncpy_spec count s m dst src Hs Hd Ho) as (m' & Hm & Hu).
  exists m'. split; [done|]. revert Hu. unfold vstrncpy. rewrite take_app. rewrite take_replicate. by replace ((count - length s) `min` count)%nat with (count - length s)%nat by lia.
Qed.

Lemma kstrncpy_stores_witness :
  exists m', Mem.kstrncpy 1 two_strings 16 8 = Val m'
    /\ Mem.updated two_strings m' 16 (take 1 (str "a") ++ replicate (1 - 1) 0).
Proof.
  apply (kstrncpy_stores two_strings 16 8 (str "a") 1).
  - apply Mem.cstring_at_cons. split; [done|]. split; [reflexivity|]. by apply Mem.cstring_at_nil.
  - intros [|i] Hi; [by eexists|lia].
  - simpl. lia.
Defined.

(** C6 [kvsnprintf] never writes outside its buffer: it stores the text of the
    format cut to [size - 1] bytes, a NUL after it, leaves the rest of the
    buffer unchanged, and returns the untruncated length. *)
Theorem kvsnprintf_truncates (buffer : list Z) (size : Z) (fmt : list Z)
  (args : list Fmt.va) (t : list Z) :
  0 < size <= Z.of_nat (length buffer) -> no_nul fmt -> Fmt.render fmt args = Some t ->
  Fmt.kvsnprintf buffer size fmt args
  = Val (Fmt.printed buffer size t, i32 (Z.of_nat (length t))).
Proof. apply Fmt.kvsnprintf_spec. Qed.

Lemma kvsnprintf_truncates_witness :
  Fmt.kvsnprintf (replicate 6 7) 5 (str "x=%d") [Fmt.VaWord (-42)]
  = Val (Fmt.printed (replicate 6 7) 5 (str "x=-42"), i32 5).
Proof.
  apply (kvsnprintf_truncates (replicate 6 7) 5 (str "x=%d") [Fmt.VaWord (-42)] (str "x=-42")).
  - simpl. lia.
  - repeat constructor; done.
  - vm_compute. reflexivity.
Defined.

(** A format that ends in a lone [%] makes [kvsnprintf] read past the
    format's terminating NUL, whatever the buffer and the arguments. *)
Theorem kvsnprintf_trailing_percent (buffer : list Z) (size : Z) (fmt : list Z)
  (args : list Fmt.va) :
  0 < size <= Z.of_nat (length buffer) -> Forall (fun c => c <> 0 /\ c <> chr "%") fmt ->
  Fmt.kvsnprintf buffer size (fmt ++ str "%") args = Stop Oob.
Proof.
  intros Hs Hf. unfold Fmt.kvsnprintf. rewrite decide_False by lia.
  replace (buffer, 0) with (Fmt.filled buffer size []) by (unfold Fmt.filled; simpl; by rewrite drop_0).
  enough (forall o, Fmt.kvsnprintf_loop size (Fmt.filled buffer size o)
                 ((fmt ++ str "%") ++ [0]) args = Stop Oob) as H by by rewrite H.
  induction Hf as [|c fmt [Hc Hp] _ IH]; intros o.
  - simpl. by rewrite (Fmt.convert_filled buffer size Hs o 0 args [chr "%"; 0] args).
  - simpl. rewrite decide_False, decide_False by done.
    rewrite Fmt.append_char_filled by done. apply IH.
Qed.

Lemma kvsnprintf_trailing_percent_witness :
  Fmt.kvsnprintf (replicate 8 0) 8 (str "50" ++ str "%") [] = Stop Oob.
Proof.
  apply (kvsnprintf_trailing_percent (replicate 8 0) 8 (str "50") []).
  - simpl. lia.
  - repeat constructor; done.
Defined.
