(* ===== verification/Util.v ===== *)
(** [src/kernel/util.c]: the kernel's bump allocator.

    The heap is the array [g_kernel_heap] with the offset of the first byte
    never handed out; an allocation is the offset of its first byte in the
    heap, [None] a null pointer. *)

From Stdlib Require Import ZArith Lia.
From stdpp Require Import base list.
From S2P Require Import Prelude KString.
Open Scope Z_scope.

(** [src/kernel/util.c:6-6] KERNEL_HEAP_SIZE *)
Definition KERNEL_HEAP_SIZE : Z := 1024 * 1024.

(** [src/kernel/util.c:8-9] g_kernel_heap, g_heap_offset *)
Record heap_state := Heap {
  g_kernel_heap : list Z;
  g_heap_offset : Z;
}.

(** [src/kernel/util.c:11-13] kalign_up *)
Definition kalign_up (value align : Z) : Z :=
  Z.land (u64 (value + (align - 1))) (u64_not (align - 1)).

(** [src/kernel/util.c:15-28] kalloc *)
Definition kalloc (h : heap_state) (size : Z) : outcome (option Z * heap_state) :=
  let aligned := kalign_up size 16 in
  if decide (aligned = 0) then Val (None, h)
  else if decide (u64 (g_heap_offset h + aligned) > KERNEL_HEAP_SIZE) then Val (None, h)
  else
    let result := g_heap_offset h in
    if decide (result + aligned <= Z.of_nat (length (g_kernel_heap h))) then
      heap ← awrite (g_kernel_heap h) result (replicate (Z.to_nat aligned) 0);
      Val (Some result, Heap heap (u64 (result + aligned)))
    else Stop Oob.

(** [src/kernel/util.c:30-32] kcalloc *)
Definition kcalloc (h : heap_state) (count size : Z) : outcome (option Z * heap_state) :=
  kalloc h (u64 (count * size)).

(** [src/kernel/util.c:34-42] kstrdup; [s] is the argument's bytes *)
Definition kstrdup (h : heap_state) (s : list Z) : outcome (option Z * heap_state) :=
  '(copy, h) ← kalloc h (Z.of_nat (length s) + 1);
  match copy with
  | None => Val (None, h)
  | Some p =>
      heap ← awrite (g_kernel_heap h) p (s ++ [0]);
      Val (Some p, Heap heap (g_heap_offset h))
  end.

(** * Invariant *)

Record heap_wf (h : heap_state) : Prop := {
  heap_length : Z.of_nat (length (g_kernel_heap h)) = KERNEL_HEAP_SIZE;
  heap_range : 0 <= g_heap_offset h <= KERNEL_HEAP_SIZE;
  heap_aligned : g_heap_offset h mod 16 = 0;
}.

Definition heap_init : heap_state := Heap (replicate (Z.to_nat KERNEL_HEAP_SIZE) 0) 0.

Lemma heap_init_wf : heap_wf heap_init.
Proof.
  split; cbn [g_heap_offset g_kernel_heap heap_init]; [|unfold KERNEL_HEAP_SIZE; lia|done].
  rewrite length_replicate. unfold KERNEL_HEAP_SIZE. lia.
Qed.

Lemma kalign_up_16 v :
  0 <= v < 2 ^ 64 - 15 -> kalign_up v 16 = (v + 15) / 16 * 16.
Proof.
  intros Hv. unfold kalign_up. change (16 - 1) with (2 ^ 4 - 1).
  rewrite u64_align_mask by (auto with cint || lia).
  rewrite u64_small by (unfold in_u64; lia). done.
Qed.

(** The bytes [kalloc] sets aside for a request. *)
Definition round16 (size : Z) : Z := (size + 15) / 16 * 16.

Lemma round16_bounds size : 0 <= size -> size <= round16 size < size + 16 /\ round16 size mod 16 = 0.
Proof. unfold round16. intros. split; [|apply Z.mod_mul; lia]. Z.div_mod_to_equations. lia. Qed.

(** An allocation that fits: the block is the next free range, zeroed. *)
Lemma kalloc_fits h size :
  heap_wf h -> 0 < size -> g_heap_offset h + round16 size <= KERNEL_HEAP_SIZE ->
  kalloc h size = Val (Some (g_heap_offset h),
    Heap (splice (g_kernel_heap h) (Z.to_nat (g_heap_offset h)) (replicate (Z.to_nat (round16 size)) 0))
         (g_heap_offset h + round16 size)).
Proof.
  intros [Hl Hr Ha] Hs Hf. pose proof (round16_bounds size) as Hb.
  unfold KERNEL_HEAP_SIZE in *. unfold kalloc, KERNEL_HEAP_SIZE.
  rewrite kalign_up_16 by lia. fold (round16 size).
  rewrite (u64_small (_ + _)) by (unfold in_u64; lia).
  rewrite decide_False, decide_False, decide_True by lia.
  rewrite awrite_in_range by (rewrite ?length_replicate; lia). done.
Qed.

(** A request that does not fit is refused and changes nothing. *)
Lemma kalloc_refused h size :
  heap_wf h -> 0 <= size < 2 ^ 63 ->
  size = 0 \/ KERNEL_HEAP_SIZE < g_heap_offset h + round16 size ->
  kalloc h size = Val (None, h).
Proof.
  intros [Hl Hr Ha] Hs Hf. pose proof (round16_bounds size) as Hb. unfold kalloc, KERNEL_HEAP_SIZE in *.
  rewrite kalign_up_16 by lia. fold (round16 size).
  rewrite (u64_small (_ + _)) by (unfold in_u64; lia).
  destruct Hf as [->|Hf]; [done|]. case_decide; [done|]. by rewrite decide_True by lia.
Qed.

(** * Properties *)

(** C7 Every request of less than 2^63 bytes is answered without touching memory
    outside the heap.  The answer is a null pointer, and nothing changes, exactly when
    the request is empty or, rounded up to 16 bytes, does not fit in what is left;
    otherwise it is a 16-byte aligned block that starts where the previous one ended,
    takes the rounded size, is zeroed, and leaves the rest of the heap as it was. *)
Theorem kalloc_contract (h : heap_state) (size : Z) :
  heap_wf h -> 0 <= size < 2 ^ 63 ->
  exists r h', kalloc h size = Val (r, h') /\ heap_wf h' /\
    match r with
    | None => h' = h /\ (size = 0 \/ KERNEL_HEAP_SIZE < g_heap_offset h + round16 size)
    | Some p =>
        0 < size /\ g_heap_offset h + round16 size <= KERNEL_HEAP_SIZE /\
        p = g_heap_offset h /\ p mod 16 = 0 /\ g_heap_offset h' = p + round16 size /\
        forall i, g_kernel_heap h' !! i =
          if decide (p <= Z.of_nat i < g_heap_offset h') then Some 0 else g_kernel_heap h !! i
    end.
Proof.
  intros Hwf Hs. pose proof (round16_bounds size) as Hb.
  destruct (decide (0 < size /\ g_heap_offset h + round16 size <= KERNEL_HEAP_SIZE)) as [[H0 Hf]|Hn].
  - rewrite kalloc_fits by done. destruct Hwf as [Hl Hr Ha].
    eexists _, _. split; [done|]. split.
    + split; simpl; [rewrite splice_length; [done|rewrite length_replicate; lia]|lia|].
      rewrite Z.add_mod, Ha by lia. destruct Hb as [_ ->]; [lia|]. done.
    + simpl. do 4 (split; [done|]). split; [done|]. intros i.
      rewrite splice_lookup by (rewrite length_replicate; lia).
      rewrite length_replicate. repeat case_decide; try lia; [|done].
      apply lookup_replicate. split; [done|lia].
  - assert (size = 0 \/ KERNEL_HEAP_SIZE < g_heap_offset h + round16 size) as Hf by lia.
    rewrite kalloc_refused by done. eauto 10.
Qed.

Lemma kalloc_contract_witness :
  exists r h', kalloc heap_init 100 = Val (r, h') /\ heap_wf h' /\
    match r with
    | None => h' = heap_init /\ (100 = 0 \/ KERNEL_HEAP_SIZE < g_heap_offset heap_init + round16 100)
    | Some p =>
        0 < 100 /\ g_heap_offset heap_init + round16 100 <= KERNEL_HEAP_SIZE /\
        p = g_heap_offset heap_init /\ p mod 16 = 0 /\ g_heap_offset h' = p + round16 100 /\
        forall i, g_kernel_heap h' !! i =
          if decide (p <= Z.of_nat i < g_heap_offset h') then Some 0 else g_kernel_heap heap_init !! i
    end.
Proof. apply kalloc_contract; [apply heap_init_wf|lia]. Defined.

(** The overflow check of [kalloc] is not overflow safe: once anything has
    been allocated, a request of [2^64 - 16] bytes passes it and the clearing of
    the block runs out of the heap. *)
Theorem kalloc_overflow (h : heap_state) :
  heap_wf h -> 0 < g_heap_offset h -> kalloc h (2 ^ 64 - 16) = Stop Oob.
Proof.
  intros [Hl Hr Ha] H0. unfold kalloc. change (kalign_up (2 ^ 64 - 16) 16) with (2 ^ 64 - 16).
  assert (u64 (g_heap_offset h + (2 ^ 64 - 16)) = g_heap_offset h - 16) as ->.
  { unfold u64, wrap. replace (_ + _) with (g_heap_offset h - 16 + 1 * 2 ^ 64) by lia.
    rewrite Z.mod_add by lia. apply Z.mod_small. unfold KERNEL_HEAP_SIZE in *.
    pose proof (Z.div_mod (g_heap_offset h) 16). lia. }
  unfold KERNEL_HEAP_SIZE in *. rewrite !decide_False by lia. done.
Qed.

Definition heap_after_one : heap_state := Heap (replicate (Z.to_nat KERNEL_HEAP_SIZE) 0) 16.

Lemma kalloc_overflow_witness : kalloc heap_after_one (2 ^ 64 - 16) = Stop Oob.
Proof.
  apply kalloc_overflow; [|simpl; lia].
  split; cbn [g_heap_offset g_kernel_heap heap_after_one]; [|unfold KERNEL_HEAP_SIZE; lia|done].
  rewrite length_replicate. unfold KERNEL_HEAP_SIZE. lia.
Defined.
