(* ===== verification/Multiboot.v ===== *)
(** [include/mgcore/multiboot2.h]: the boot information structure.

    The structure is the list of its bytes; a pointer into it is the offset from
    its start, a field read outside the list stops with [Oob]. *)

From Stdlib Require Import ZArith Lia.
From stdpp Require Import base list.
From S2P Require Import Prelude.
Open Scope Z_scope.

(** [include/mgcore/multiboot2.h:9-9] MULTIBOOT2_TAG_END *)
Definition MULTIBOOT2_TAG_END : Z := 0.
(** [include/mgcore/multiboot2.h:12-12] MULTIBOOT2_TAG_MODULE *)
Definition MULTIBOOT2_TAG_MODULE : Z := 3.
(** [include/mgcore/multiboot2.h:15-15] MULTIBOOT2_TAG_MMAP *)
Definition MULTIBOOT2_TAG_MMAP : Z := 6.
(** [include/mgcore/multiboot2.h:6-6] MULTIBOOT2_BOOTLOADER_MAGIC *)
Definition MULTIBOOT2_BOOTLOADER_MAGIC : Z := 0x36d76289.

(** [include/mgcore/multiboot2.h:24-27] multiboot2_tag, field type *)
Definition tag_type (info : list Z) (tag : Z) : outcome Z := le_load info tag 4.
(** [include/mgcore/multiboot2.h:24-27] multiboot2_tag, field size *)
Definition tag_size (info : list Z) (tag : Z) : outcome Z := le_load info (tag + 4) 4.
(** [include/mgcore/multiboot2.h:35-41] multiboot2_tag_module, field mod_start *)
Definition mod_start (info : list Z) (tag : Z) : outcome Z := le_load info (tag + 8) 4.
(** [include/mgcore/multiboot2.h:35-41] multiboot2_tag_module, field mod_end *)
Definition mod_end (info : list Z) (tag : Z) : outcome Z := le_load info (tag + 12) 4.
(** [include/mgcore/multiboot2.h:50-56] multiboot2_tag_mmap, field entry_size *)
Definition mmap_entry_size (info : list Z) (tag : Z) : outcome Z := le_load info (tag + 8) 4.
(** [include/mgcore/multiboot2.h:50-56] multiboot2_tag_mmap, field entries *)
Definition mmap_entries (tag : Z) : Z := tag + 16.
(** [include/mgcore/multiboot2.h:43-48] multiboot2_memory_map_entry *)
Record memory_map_entry := MmapEntry {
  entry_addr : Z;
  entry_len : Z;
  entry_type : Z;
}.
Definition load_entry (info : list Z) (cursor : Z) : outcome memory_map_entry :=
  addr ← le_load info cursor 8;
  len ← le_load info (cursor + 8) 8;
  type ← le_load info (cursor + 16) 4;
  Val (MmapEntry addr len type).

(** [include/mgcore/multiboot2.h:70-72] multiboot2_first_tag *)
Definition multiboot2_first_tag : Z := 8.
(** [include/mgcore/multiboot2.h:74-77] multiboot2_next_tag *)
Definition multiboot2_next_tag (info : list Z) (tag : Z) : outcome Z :=
  size ← tag_size info tag;
  Val (tag + Z.land (u32 (size + 7)) (u32_not 7)).

(** [src/kernel/main.c:26-31] find_initramfs_module, the scan from [tag] *)
Fixpoint find_module_from (fuel : nat) (info : list Z) (tag : Z) : outcome (option Z) :=
  match fuel with
  | O => Stop OutOfFuel
  | S fuel =>
      type ← tag_type info tag;
      if decide (type = MULTIBOOT2_TAG_END) then Val None
      else if decide (type = MULTIBOOT2_TAG_MODULE) then Val (Some tag)
      else tag ← multiboot2_next_tag info tag; find_module_from fuel info tag
  end.
(** [src/kernel/main.c:24-32] find_initramfs_module *)
Definition find_initramfs_module (fuel : nat) (info : list Z) : outcome (option Z) :=
  find_module_from fuel info multiboot2_first_tag.

(** ** Building an information structure *)

(** A tag with its padding to a multiple of eight bytes. *)
Definition pad8 (bs : list Z) : list Z :=
  bs ++ replicate ((8 - length bs mod 8) mod 8) 0.
Definition encode_tag (type : Z) (body : list Z) : list Z :=
  pad8 (le_bytes 4 type ++ le_bytes 4 (8 + Z.of_nat (length body)) ++ body).
Definition encode_entry (e : memory_map_entry) : list Z :=
  le_bytes 8 (entry_addr e) ++ le_bytes 8 (entry_len e)
    ++ le_bytes 4 (entry_type e) ++ le_bytes 4 0.
Definition encode_mmap (es : list memory_map_entry) : list Z :=
  encode_tag MULTIBOOT2_TAG_MMAP (le_bytes 4 24 ++ le_bytes 4 0 ++ mjoin (encode_entry <$> es)).
Definition encode_module (start end_ : Z) : list Z :=
  encode_tag MULTIBOOT2_TAG_MODULE (le_bytes 4 start ++ le_bytes 4 end_ ++ [0]).
Definition encode_info (tags : list (list Z)) : list Z :=
  let body := mjoin tags ++ encode_tag MULTIBOOT2_TAG_END [] in
  le_bytes 4 (8 + Z.of_nat (length body)) ++ le_bytes 4 0 ++ body.

Example find_module_ex :
  let info := encode_info [encode_mmap [MmapEntry 0 0x9fc00 1]; encode_module 0x200000 0x201234] in
  find_initramfs_module 10 info = Val (Some 48) /\ mod_start info 48 = Val 0x200000
  /\ mod_end info 48 = Val 0x201234.
Proof. vm_compute. auto. Qed.

(** ** Reading a structure back *)

Lemma encode_entry_length e : length (encode_entry e) = 24%nat.
Proof. unfold encode_entry. by rewrite !length_app, !le_bytes_length. Qed.

(** Side conditions of [le_load_at]: the layout, the offset, the range. *)
Ltac field_at :=
  first [ assumption | lia | rewrite ?length_app, ?le_bytes_length; lia
        | rewrite <- ?app_assoc; reflexivity ].

Lemma load_entry_encode pre post e :
  in_u64 (entry_addr e) -> in_u64 (entry_len e) -> in_u32 (entry_type e) ->
  load_entry (pre ++ encode_entry e ++ post) (Z.of_nat (length pre)) = Val e.
Proof.
  intros Ha Hl Ht. unfold load_entry. set (info := pre ++ _). set (cursor := Z.of_nat _).
  assert (le_load info cursor 8 = Val (entry_addr e)) as ->.
  { apply (le_load_at _ pre (le_bytes 8 (entry_len e) ++ le_bytes 4 (entry_type e)
      ++ le_bytes 4 0 ++ post)); [|field_at..]. unfold info, encode_entry. field_at. }
  assert (le_load info (cursor + 8) 8 = Val (entry_len e)) as Hlen.
  { apply (le_load_at _ (pre ++ le_bytes 8 (entry_addr e)) (le_bytes 4 (entry_type e)
      ++ le_bytes 4 0 ++ post)); [|field_at..]. unfold info, encode_entry. field_at. }
  assert (le_load info (cursor + 16) 4 = Val (entry_type e)) as Htype.
  { apply (le_load_at _ (pre ++ le_bytes 8 (entry_addr e) ++ le_bytes 8 (entry_len e))
      (le_bytes 4 0 ++ post)); [|field_at..]. unfold info, encode_entry. field_at. }
  simpl. rewrite Hlen. simpl. rewrite Htype. simpl. by destruct e.
Qed.

Lemma pad8_length bs : Z.of_nat (length (pad8 bs)) = (Z.of_nat (length bs) + 7) / 8 * 8.
Proof.
  unfold pad8. rewrite length_app, length_replicate.
  rewrite Nat2Z.inj_add, Nat2Z.inj_mod, Nat2Z.inj_sub, Nat2Z.inj_mod
    by (pose proof (Nat.mod_upper_bound (length bs) 8); lia).
  change (Z.of_nat 8) with 8. Z.div_mod_to_equations. lia.
Qed.

Section Tag.
Context (pre post : list Z) (type : Z) (body : list Z).
Context (Htype : in_u32 type) (Hsize : 15 + Z.of_nat (length body) < 2 ^ 32).

Let info := pre ++ encode_tag type body ++ post.
Let tag := Z.of_nat (length pre).

Lemma tag_layout : exists padding,
  info = pre ++ le_bytes 4 type ++ le_bytes 4 (8 + Z.of_nat (length body)) ++ body ++ padding ++ post.
Proof.
  unfold info, encode_tag, pad8.
  match goal with |- context [replicate ?n 0] => exists (replicate n 0) end.
  by rewrite <- !app_assoc.
Qed.

Lemma tag_type_encode : tag_type info tag = Val type.
Proof.
  destruct tag_layout as [p ->]. unfold tag_type.
  apply (le_load_at _ pre (le_bytes 4 (8 + Z.of_nat (length body)) ++ body ++ p ++ post));
    [reflexivity|reflexivity|lia|exact Htype].
Qed.

Lemma tag_size_encode : tag_size info tag = Val (8 + Z.of_nat (length body)).
Proof.
  destruct tag_layout as [p ->]. unfold tag_size.
  apply (le_load_at _ (pre ++ le_bytes 4 type) (body ++ p ++ post)); [by rewrite <- app_assoc| |lia|].
  - rewrite length_app, le_bytes_length. unfold tag. lia.
  - change (8 * 4) with 32. lia.
Qed.

Lemma next_tag_encode :
  multiboot2_next_tag info tag = Val (Z.of_nat (length (pre ++ encode_tag type body))).
Proof.
  unfold multiboot2_next_tag. rewrite tag_size_encode. simpl.
  rewrite u32_small by (unfold in_u32; lia).
  change 7 with (2 ^ 3 - 1) at 2. rewrite u32_align_mask by lia.
  rewrite Z.mod_small by lia. f_equal. rewrite length_app, Nat2Z.inj_add.
  unfold encode_tag. rewrite pad8_length. rewrite !length_app, !le_bytes_length.
  change (2 ^ 3) with 8. unfold tag. f_equal. f_equal. f_equal. lia.
Qed.
End Tag.

(** A tag as the boot loader lays it out: a memory map, or any other tag. *)
Inductive boot_tag : Type :=
| BootMmap (es : list memory_map_entry)
| BootOther (type : Z) (body : list Z).

Definition boot_tag_bytes (t : boot_tag) : list Z :=
  match t with
  | BootMmap es => encode_mmap es
  | BootOther type body => encode_tag type body
  end.
Definition boot_entries (t : boot_tag) : list memory_map_entry :=
  match t with BootMmap es => es | BootOther _ _ => [] end.

Definition entry_fields (e : memory_map_entry) : Prop :=
  in_u64 (entry_addr e) /\ in_u64 (entry_len e) /\ in_u32 (entry_type e).

Definition boot_tag_ok (t : boot_tag) : Prop :=
  match t with
  | BootMmap es => Forall entry_fields es /\ 23 + 24 * Z.of_nat (length es) < 2 ^ 32
  | BootOther type body =>
      in_u32 type /\ type <> MULTIBOOT2_TAG_END /\ type <> MULTIBOOT2_TAG_MMAP
      /\ 15 + Z.of_nat (length body) < 2 ^ 32
  end.

Lemma encode_entries_length es :
  Z.of_nat (length (mjoin (encode_entry <$> es))) = 24 * Z.of_nat (length es).
Proof.
  induction es as [|e es IH]; [done|].
  rewrite fmap_cons, mjoin_cons, length_app, encode_entry_length. simpl length. lia.
Qed.

Lemma mmap_entry_size_encode pre post es :
  mmap_entry_size (pre ++ encode_mmap es ++ post) (Z.of_nat (length pre)) = Val 24.
Proof.
  unfold mmap_entry_size, encode_mmap.
  set (rest := mjoin _). set (body := _ ++ _ ++ rest).
  destruct (tag_layout pre post MULTIBOOT2_TAG_MMAP body) as [p ->].
  set (size := 8 + _). subst body.
  apply (le_load_at _ (pre ++ le_bytes 4 MULTIBOOT2_TAG_MMAP ++ le_bytes 4 size)
    (le_bytes 4 0 ++ rest ++ p ++ post));
    [by rewrite <- !app_assoc|rewrite !length_app, !le_bytes_length; lia|lia|lia].
Qed.
