(* ===== verification/Pmm.v ===== *)
(** [src/kernel/pmm.c]: the physical page allocator.

    One bit per 4 KiB page, set when the page is in use or does not exist, and
    two counters.  The loops over pages are counted loops; the walk over the
    boot information takes a fuel, since a malformed size can stall it. *)

From Stdlib Require Import ZArith Lia.
From stdpp Require Import base list gmap.
From S2P Require Import Prelude Multiboot.
Open Scope Z_scope.

(** [src/kernel/pmm.c:6-6] PMM_MAX_PAGES *)
Definition PMM_MAX_PAGES : Z := 1024 * 1024.

(** [src/kernel/pmm.c:8-10] g_bitmap, g_total_pages, g_free_pages *)
Record pmm_state := Pmm {
  g_bitmap : list Z;
  g_total_pages : Z;
  g_free_pages : Z;
}.

(** The byte [(uint8_t)(1u << (page % 8))]. *)
Definition page_mask (page : Z) : Z := u8 (Z.shiftl 1 (page mod 8)).

(** [src/kernel/pmm.c:12-14] set_bit *)
Definition set_bit (bm : list Z) (page : Z) : outcome (list Z) :=
  b ← aget bm (page / 8); aset bm (page / 8) (Z.lor b (page_mask page)).
(** [src/kernel/pmm.c:16-18] clear_bit *)
Definition clear_bit (bm : list Z) (page : Z) : outcome (list Z) :=
  b ← aget bm (page / 8);
  aset bm (page / 8) (Z.land b (u8 (Z.lnot (Z.shiftl 1 (page mod 8))))).
(** [src/kernel/pmm.c:20-22] test_bit *)
Definition test_bit (bm : list Z) (page : Z) : outcome bool :=
  b ← aget bm (page / 8); Val (bool_decide (Z.land b (page_mask page) <> 0)).

(** [src/kernel/pmm.c:29-34] reserve_range, loop body *)
Definition reserve_page (page : Z) (st : pmm_state) : outcome pmm_state :=
  used ← test_bit (g_bitmap st) page;
  if used : bool then Val st
  else
    bm ← set_bit (g_bitmap st) page;
    Val (Pmm bm (g_total_pages st)
             (if decide (g_free_pages st <> 0) then g_free_pages st - 1 else g_free_pages st)).

(** [src/kernel/pmm.c:24-36] reserve_range *)
Definition reserve_range (start end_ : Z) (st : pmm_state) : outcome pmm_state :=
  let first := start / 4096 in
  let last := u64 (end_ + 4095) / 4096 in
  for_loop (Z.to_nat (Z.min last PMM_MAX_PAGES - first)) first reserve_page st.

(** [src/kernel/pmm.c:60-64] pmm_init, body of the page loop *)
Definition release_page (page : Z) (st : pmm_state) : outcome pmm_state :=
  bm ← clear_bit (g_bitmap st) page;
  Val (Pmm bm (u64 (g_total_pages st + 1)) (u64 (g_free_pages st + 1))).

(** [src/kernel/pmm.c:51-65] pmm_init, one memory map entry *)
Definition add_entry (e : memory_map_entry) (st : pmm_state) : outcome pmm_state :=
  if decide (entry_type e = 1) then
    let start := entry_addr e in
    let end_ := u64 (entry_addr e + entry_len e) in
    let first := start / 4096 in
    let last := if decide (end_ / 4096 > PMM_MAX_PAGES) then PMM_MAX_PAGES else end_ / 4096 in
    for_loop (Z.to_nat (last - first)) first release_page st
  else Val st.

(** [src/kernel/pmm.c:49-67] pmm_init, the loop over the entries of a tag *)
Fixpoint add_entries (fuel : nat) (info : list Z) (entry_size cursor limit : Z)
  (st : pmm_state) : outcome pmm_state :=
  if decide (cursor < limit) then
    match fuel with
    | O => Stop OutOfFuel
    | S fuel =>
        e ← load_entry info cursor;
        st ← add_entry e st;
        add_entries fuel info entry_size (cursor + entry_size) limit st
    end
  else Val st.

(** [src/kernel/pmm.c:44-69] pmm_init, the loop over the tags *)
Fixpoint add_tags (fuel : nat) (info : list Z) (tag : Z) (st : pmm_state) : outcome pmm_state :=
  match fuel with
  | O => Stop OutOfFuel
  | S fuel' =>
      type ← tag_type info tag;
      if decide (type = MULTIBOOT2_TAG_END) then Val st
      else
        st ← (if decide (type = MULTIBOOT2_TAG_MMAP) then
                size ← tag_size info tag;
                entry_size ← mmap_entry_size info tag;
                add_entries fuel info entry_size (mmap_entries tag) (tag + size) st
              else Val st);
        next ← multiboot2_next_tag info tag;
        add_tags fuel' info next st
  end.

(** [src/kernel/pmm.c:40-42] pmm_init, the initial state: every page in use *)
Definition pmm_reset : pmm_state :=
  Pmm (replicate (Z.to_nat (PMM_MAX_PAGES / 8)) 0xFF) 0 0.

(** [src/kernel/pmm.c:38-72] pmm_init, all but its report *)
Definition pmm_init (fuel : nat) (info : list Z) (kernel_start kernel_end : Z)
  : outcome pmm_state :=
  st ← add_tags fuel info multiboot2_first_tag pmm_reset;
  st ← reserve_range 0 0x100000 st;
  reserve_range kernel_start kernel_end st.

(** [src/kernel/pmm.c:79-87] pmm_alloc_page, the search from [page] *)
Fixpoint alloc_from (n : nat) (page : Z) (st : pmm_state) : outcome (Z * pmm_state) :=
  match n with
  | O => Val (0, st)
  | S n =>
      used ← test_bit (g_bitmap st) page;
      if used : bool then alloc_from n (page + 1) st
      else
        bm ← set_bit (g_bitmap st) page;
        Val (u64 (page * 4096),
             Pmm bm (g_total_pages st)
                 (if decide (g_free_pages st <> 0) then g_free_pages st - 1 else g_free_pages st))
  end.
(** [src/kernel/pmm.c:77-89] pmm_alloc_page *)
Definition pmm_alloc_page (st : pmm_state) : outcome (Z * pmm_state) :=
  alloc_from (Z.to_nat PMM_MAX_PAGES) 0 st.

(** [src/kernel/pmm.c:91-97] pmm_free_page *)
Definition pmm_free_page (physical : Z) (st : pmm_state) : outcome pmm_state :=
  let page := physical / 4096 in
  if decide (page < PMM_MAX_PAGES) then
    used ← test_bit (g_bitmap st) page;
    if used : bool then
      bm ← clear_bit (g_bitmap st) page;
      Val (Pmm bm (g_total_pages st) (u64 (g_free_pages st + 1)))
    else Val st
  else Val st.

(** [src/kernel/pmm.c:106-108] pmm_total_pages *)
Definition pmm_total_pages (st : pmm_state) : Z := g_total_pages st.
(** [src/kernel/pmm.c:110-112] pmm_free_pages *)
Definition pmm_free_pages (st : pmm_state) : Z := g_free_pages st.
(** [src/kernel/pmm.c:114-116] pmm_used_pages *)
Definition pmm_used_pages (st : pmm_state) : Z := u64 (g_total_pages st - g_free_pages st).

(** * The bitmap as a set of free pages *)

Definition page_used (bm : list Z) (page : Z) : bool :=
  Z.testbit (nth (Z.to_nat (page / 8)) bm 0) (page mod 8).

Definition free_set_def (bm : list Z) : gset Z :=
  list_to_set (filter (fun p => page_used bm p = false) (seqZ 0 PMM_MAX_PAGES)).
(** Sealed: the set of a million candidates is reasoned about, never computed. *)
Definition free_set_aux : seal free_set_def.
Proof. by eexists. Qed.
Definition free_set : list Z -> gset Z := free_set_aux.(unseal).
Lemma free_set_unseal : free_set = free_set_def.
Proof. exact free_set_aux.(seal_eq). Qed.

Record bitmap_wf (bm : list Z) : Prop := {
  bitmap_length : Z.of_nat (length bm) = PMM_MAX_PAGES / 8;
  bitmap_bytes : Forall in_u8 bm;
}.

Record pmm_wf (st : pmm_state) : Prop := {
  pmm_bitmap_wf : bitmap_wf (g_bitmap st);
  pmm_free_count : g_free_pages st = Z.of_nat (size (free_set (g_bitmap st)));
}.

Lemma elem_of_free_set bm p :
  p ∈ free_set bm <-> 0 <= p < PMM_MAX_PAGES /\ page_used bm p = false.
Proof.
  rewrite free_set_unseal. unfold free_set_def. rewrite elem_of_list_to_set, list_elem_of_filter, elem_of_seqZ.
  naive_solver lia.
Qed.

Lemma free_set_size bm : Z.of_nat (size (free_set bm)) <= PMM_MAX_PAGES.
Proof.
  rewrite free_set_unseal. unfold free_set_def. rewrite size_list_to_set by (apply NoDup_filter, NoDup_seqZ).
  pose proof (length_filter (fun p => page_used bm p = false) (seqZ 0 PMM_MAX_PAGES)) as H.
  rewrite length_seqZ in H. unfold PMM_MAX_PAGES in *. lia.
Qed.

Lemma page_mask_pow2 page : page_mask page = 2 ^ (page mod 8).
Proof.
  unfold page_mask. rewrite Z.shiftl_1_l. apply u8_small, in_u8_pow2.
  apply Z.mod_pos_bound. lia.
Qed.

Section Bitmap.
Context (bm : list Z) (Hbm : bitmap_wf bm).
Context (page : Z) (Hpage : 0 <= page < PMM_MAX_PAGES).

Lemma page_byte : exists b, aget bm (page / 8) = Val b /\ in_u8 b
  /\ bm !! Z.to_nat (page / 8) = Some b
  /\ page_used bm page = Z.testbit b (page mod 8).
Proof.
  destruct Hbm as [Hl Hb]. unfold PMM_MAX_PAGES in *.
  destruct (aget_in_range bm (page / 8)) as [b Hget]; [Z.div_mod_to_equations; lia|].
  exists b. split; [done|]. apply aget_Val in Hget as [_ Hget].
  split; [by eapply Forall_lookup_1|]. split; [done|].
  unfold page_used. by rewrite (nth_lookup_Some _ _ _ _ Hget).
Qed.

Lemma test_bit_spec : test_bit bm page = Val (page_used bm page).
Proof.
  destruct page_byte as (b & Hget & _ & _ & Hu). unfold test_bit. rewrite Hget. simpl.
  rewrite page_mask_pow2, land_pow2_nonzero by (apply Z.mod_pos_bound; lia).
  by rewrite Hu.
Qed.

(** Replacing the byte of [page] by [b'] keeps every other page's bit, provided
    [b'] agrees with the old byte on the other bits. *)
Lemma put_byte_spec b b' (used : bool) :
  bm !! Z.to_nat (page / 8) = Some b -> in_u8 b' ->
  (forall i, 0 <= i < 8 ->
     Z.testbit b' i = if decide (i = page mod 8) then used else Z.testbit b i) ->
  exists bm', aset bm (page / 8) b' = Val bm' /\ bitmap_wf bm' /\
    forall q, 0 <= q -> page_used bm' q = if decide (q = page) then used else page_used bm q.
Proof.
  intros Hb Hb' Hbits. destruct Hbm as [Hl Hall]. pose proof (lookup_lt_Some _ _ _ Hb) as Hlt.
  pose proof (Z.mod_pos_bound page 8 ltac:(lia)) as Hm.
  rewrite aset_in_range by (unfold PMM_MAX_PAGES in *; Z.div_mod_to_equations; lia).
  eexists. split; [done|]. split.
  - split; [by rewrite length_insert|]. by apply Forall_insert.
  - intros q Hq. unfold page_used. pose proof (Z.mod_pos_bound q 8 ltac:(lia)) as Hmq.
    destruct (decide (q / 8 = page / 8)) as [He|He].
    + rewrite He. erewrite (nth_lookup_Some (<[_:=_]> _)) by (by apply list_lookup_insert_eq).
      rewrite Hbits by done. rewrite (nth_lookup_Some _ _ _ _ Hb).
      pose proof (Z.div_mod q 8 ltac:(lia)). pose proof (Z.div_mod page 8 ltac:(lia)).
      case_decide as H1; case_decide as H2; try done; exfalso; [lia|congruence].
    + rewrite decide_False by congruence.
      rewrite !nth_lookup, list_lookup_insert_ne; [done|].
      unfold PMM_MAX_PAGES in *. intros Hn. apply He.
      apply Z2Nat.inj in Hn; Z.div_mod_to_equations; lia.
Qed.

Lemma set_bit_spec : exists bm', set_bit bm page = Val bm' /\ bitmap_wf bm' /\
  forall q, 0 <= q -> page_used bm' q = if decide (q = page) then true else page_used bm q.
Proof.
  destruct page_byte as (b & Hget & Hb & Hl & _). unfold set_bit. rewrite Hget. simpl.
  pose proof (Z.mod_pos_bound page 8 ltac:(lia)) as Hm.
  rewrite page_mask_pow2. apply put_byte_spec with b; [done|..].
  - apply in_u8_lor; [done|]. by apply in_u8_pow2.
  - intros i Hi. rewrite Z.lor_spec, Z.pow2_bits_eqb by lia.
    case_decide as Hd; destruct (Z.eqb_spec (page mod 8) i); subst; try congruence;
      [apply orb_true_r|apply orb_false_r].
Qed.

Lemma clear_bit_spec : exists bm', clear_bit bm page = Val bm' /\ bitmap_wf bm' /\
  forall q, 0 <= q -> page_used bm' q = if decide (q = page) then false else page_used bm q.
Proof.
  destruct page_byte as (b & Hget & Hb & Hl & _). unfold clear_bit. rewrite Hget. simpl.
  pose proof (Z.mod_pos_bound page 8 ltac:(lia)) as Hm.
  apply put_byte_spec with b; [done|..].
  - by apply in_u8_land.
  - intros i Hi. rewrite Z.shiftl_1_l. unfold u8, wrap.
    rewrite Z.land_spec, Z.mod_pow2_bits_low by lia.
    rewrite Z.lnot_spec, Z.pow2_bits_eqb by lia.
    case_decide as Hd; destruct (Z.eqb_spec (page mod 8) i); subst; try congruence; simpl;
      [apply andb_false_r|apply andb_true_r].
Qed.

End Bitmap.

Lemma free_set_used bm bm' page :
  (forall q, 0 <= q -> page_used bm' q = if decide (q = page) then true else page_used bm q) ->
  free_set bm' = free_set bm ∖ {[page]}.
Proof.
  intros H. apply set_eq. intros q. rewrite elem_of_difference, elem_of_singleton, !elem_of_free_set.
  split.
  - intros [Hq Hu]. rewrite H in Hu by lia. case_decide; naive_solver.
  - intros [[Hq Hu] Hn]. rewrite H by lia. by rewrite decide_False.
Qed.

Lemma free_set_unused bm bm' page :
  0 <= page < PMM_MAX_PAGES ->
  (forall q, 0 <= q -> page_used bm' q = if decide (q = page) then false else page_used bm q) ->
  free_set bm' = {[page]} ∪ free_set bm.
Proof.
  intros Hp H. apply set_eq. intros q. rewrite elem_of_union, elem_of_singleton, !elem_of_free_set.
  split.
  - intros [Hq Hu]. rewrite H in Hu by lia. case_decide; naive_solver.
  - intros [->|[Hq Hu]]; [by rewrite H, decide_True by lia|].
    rewrite H by lia. case_decide; naive_solver.
Qed.

(** * The operations on the set of free pages *)

Definition PMM_free (st : pmm_state) : gset Z := free_set (g_bitmap st).

(** The pages [first .. last-1]. *)
Definition page_range (first last : Z) : gset Z := list_to_set (seqZ first (last - first)).

Lemma elem_of_page_range p first last : p ∈ page_range first last <-> first <= p < last.
Proof. unfold page_range. rewrite elem_of_list_to_set, elem_of_seqZ. lia. Qed.

Lemma size_page_range first last : first <= last -> Z.of_nat (size (page_range first last)) = last - first.
Proof.
  intros. unfold page_range. rewrite size_list_to_set by apply NoDup_seqZ. rewrite length_seqZ. lia.
Qed.

(** Marking a free page used and decrementing the counter. *)
Lemma take_page_spec st page :
  pmm_wf st -> page ∈ PMM_free st ->
  exists bm, set_bit (g_bitmap st) page = Val bm /\
    let st' := Pmm bm (g_total_pages st)
                 (if decide (g_free_pages st <> 0) then g_free_pages st - 1 else g_free_pages st) in
    pmm_wf st' /\ PMM_free st' = PMM_free st ∖ {[page]}.
Proof.
  intros [Hbm Hc] Hp. pose proof Hp as [Hr Hu]%elem_of_free_set.
  destruct (set_bit_spec _ Hbm page Hr) as (bm & -> & Hbm' & Hbits).
  exists bm. split; [done|]. pose proof (free_set_used _ _ _ Hbits) as Hset. cbv zeta.
  split; [|done]. split; [done|]. cbn [g_bitmap g_free_pages]. rewrite Hset.
  rewrite size_difference by set_solver. rewrite size_singleton.
  assert (size (free_set (g_bitmap st)) <> 0%nat).
  { intros Hz%size_empty_inv. unfold PMM_free in Hp. set_solver. }
  rewrite decide_True by lia. lia.
Qed.

Lemma test_bit_free st page :
  pmm_wf st -> 0 <= page < PMM_MAX_PAGES ->
  test_bit (g_bitmap st) page = Val (negb (bool_decide (page ∈ PMM_free st))).
Proof.
  intros [Hbm _] Hp. rewrite test_bit_spec by done. f_equal.
  destruct (page_used (g_bitmap st) page) eqn:Hu; symmetry.
  - rewrite bool_decide_false; [done|]. intros [_ ?]%elem_of_free_set. congruence.
  - rewrite bool_decide_true; [done|]. by apply elem_of_free_set.
Qed.

Lemma alloc_from_spec n : forall page st,
  pmm_wf st -> 0 <= page -> page + Z.of_nat n = PMM_MAX_PAGES ->
  (forall q, q ∈ PMM_free st -> page <= q) ->
  exists r st', alloc_from n page st = Val (r, st') /\ pmm_wf st' /\
    ((PMM_free st = ∅ /\ r = 0 /\ st' = st) \/
     (exists p, p ∈ PMM_free st /\ (forall q, q ∈ PMM_free st -> p <= q) /\ r = p * 4096
        /\ PMM_free st' = PMM_free st ∖ {[p]} /\ g_total_pages st' = g_total_pages st)).
Proof.
  induction n as [|n IH]; intros page st Hwf Hp Hn Hmin; cbn [alloc_from].
  - exists 0, st. split; [done|]. split; [done|]. left. split; [|done].
    apply set_eq. intros q. split; [|set_solver]. intros Hq. pose proof (Hmin q Hq).
    apply elem_of_free_set in Hq as [Hq _]. lia.
  - rewrite test_bit_free by (done || lia). simpl.
    destruct (bool_decide (page ∈ PMM_free st)) eqn:Hin; simpl.
    + apply bool_decide_eq_true in Hin.
      destruct (take_page_spec st page Hwf Hin) as (bm & -> & Hwf' & Hset). simpl.
      eexists _, _. split; [done|]. split; [done|]. right. exists page.
      repeat split; try done. apply u64_small. unfold in_u64.
      pose proof (proj1 (elem_of_free_set _ _) Hin). unfold PMM_MAX_PAGES in *. lia.
    + apply bool_decide_eq_false in Hin. apply IH; [done|lia|lia|].
      intros q Hq. pose proof (Hmin q Hq). assert (q <> page) by congruence. lia.
Qed.

Lemma pmm_alloc_page_spec st :
  pmm_wf st ->
  exists r st', pmm_alloc_page st = Val (r, st') /\ pmm_wf st' /\
    ((PMM_free st = ∅ /\ r = 0 /\ st' = st) \/
     (exists p, p ∈ PMM_free st /\ (forall q, q ∈ PMM_free st -> p <= q) /\ r = p * 4096
        /\ PMM_free st' = PMM_free st ∖ {[p]} /\ g_total_pages st' = g_total_pages st)).
Proof.
  intros Hwf. unfold pmm_alloc_page. apply alloc_from_spec; [done|lia|unfold PMM_MAX_PAGES; lia|].
  intros q [? _]%elem_of_free_set. lia.
Qed.

Lemma pmm_free_page_spec st physical :
  pmm_wf st -> 0 <= physical ->
  exists st', pmm_free_page physical st = Val st' /\ pmm_wf st'
    /\ g_total_pages st' = g_total_pages st
    /\ PMM_free st' = (if decide (physical / 4096 < PMM_MAX_PAGES)
                       then {[physical / 4096]} ∪ PMM_free st else PMM_free st).
Proof.
  intros Hwf Hp. unfold pmm_free_page. case_decide as Hlt; [|by eauto].
  assert (0 <= physical / 4096 < PMM_MAX_PAGES) as Hr by (split; [apply Z.div_pos; lia|done]).
  rewrite test_bit_free by done. simpl.
  destruct (bool_decide (physical / 4096 ∈ PMM_free st)) eqn:Hin; simpl.
  - apply bool_decide_eq_true in Hin. exists st. split; [done|]. split; [done|].
    split; [done|]. set_solver.
  - apply bool_decide_eq_false in Hin. pose proof Hwf as [Hbm Hc].
    destruct (clear_bit_spec _ Hbm _ Hr) as (bm & -> & Hbm' & Hbits). simpl.
    pose proof (free_set_unused _ _ _ Hr Hbits) as Hset.
    eexists. split; [done|]. split; [|done]. split; [done|]. cbn [g_bitmap g_free_pages].
    rewrite Hset, size_union, size_singleton by (unfold PMM_free in Hin; set_solver).
    pose proof (free_set_size (g_bitmap st)). unfold PMM_MAX_PAGES in *.
    rewrite u64_small by (unfold in_u64; lia). lia.
Qed.

Lemma reserve_page_spec st page :
  pmm_wf st -> 0 <= page < PMM_MAX_PAGES ->
  exists st', reserve_page page st = Val st' /\ pmm_wf st'
    /\ PMM_free st' = PMM_free st ∖ {[page]} /\ g_total_pages st' = g_total_pages st.
Proof.
  intros Hwf Hr. unfold reserve_page. rewrite test_bit_free by done. simpl.
  destruct (bool_decide (page ∈ PMM_free st)) eqn:Hin; simpl.
  - apply bool_decide_eq_true in Hin.
    destruct (take_page_spec st page Hwf Hin) as (bm & -> & Hwf' & Hset). simpl. eauto.
  - apply bool_decide_eq_false in Hin. exists st. split; [done|]. split; [done|].
    split; [|done]. set_solver.
Qed.

(** Reserving the bytes [start .. end-1]: every page they touch leaves the free set. *)
Lemma reserve_range_spec st start end_ :
  pmm_wf st -> 0 <= start <= end_ -> end_ + 4095 < 2 ^ 64 ->
  exists st', reserve_range start end_ st = Val st' /\ pmm_wf st'
    /\ PMM_free st' = PMM_free st ∖ page_range (start / 4096) ((end_ + 4095) / 4096)
    /\ g_total_pages st' = g_total_pages st.
Proof.
  intros Hwf Hs He. unfold reserve_range. rewrite u64_small by (unfold in_u64; lia).
  set (first := start / 4096). set (last := (end_ + 4095) / 4096).
  assert (0 <= first) by (apply Z.div_pos; lia).
  destruct (for_loop_inv (fun j s => pmm_wf s /\ PMM_free s = PMM_free st ∖ page_range first j
      /\ g_total_pages s = g_total_pages st)
    (Z.to_nat (Z.min last PMM_MAX_PAGES - first)) first reserve_page st) as (st' & -> & Hwf' & Hset & Ht).
  - split; [done|]. split; [|done]. apply set_eq. intros q.
    rewrite elem_of_difference, elem_of_page_range. intuition lia.
  - intros j s Hj (Hwf' & Hset & Ht).
    destruct (reserve_page_spec s j Hwf') as (s' & Hs' & Hwf'' & Hset' & Ht'); [lia|].
    exists s'. split; [done|]. split; [done|]. split; [|congruence].
    rewrite Hset', Hset. apply set_eq. intros q.
    rewrite !elem_of_difference, elem_of_singleton, !elem_of_page_range. intuition lia.
  - exists st'. split; [done|]. split; [done|]. split; [|done]. rewrite Hset.
    apply set_eq. intros q. rewrite !elem_of_difference, !elem_of_page_range.
    split; intros [Hq Hn]; (split; [done|]); apply elem_of_free_set in Hq as [Hq _]; lia.
Qed.

(** While the memory map is read, both counters are the number of free pages. *)
Definition boot_wf (st : pmm_state) : Prop := pmm_wf st /\ g_total_pages st = g_free_pages st.

Lemma release_page_spec st page :
  boot_wf st -> 0 <= page < PMM_MAX_PAGES -> page ∉ PMM_free st ->
  exists st', release_page page st = Val st' /\ boot_wf st'
    /\ PMM_free st' = {[page]} ∪ PMM_free st.
Proof.
  intros [[Hbm Hc] Ht] Hr Hn. unfold release_page.
  destruct (clear_bit_spec _ Hbm _ Hr) as (bm & -> & Hbm' & Hbits). simpl.
  pose proof (free_set_unused _ _ _ Hr Hbits) as Hset.
  pose proof (free_set_size (g_bitmap st)). unfold PMM_MAX_PAGES in *.
  rewrite !u64_small by (unfold in_u64; lia).
  eexists. split; [done|]. split; [|done]. split; [split; [done|]|simpl; lia].
  cbn [g_bitmap g_free_pages]. rewrite Hset, size_union, size_singleton by (unfold PMM_free in Hn; set_solver).
  lia.
Qed.

(** A page listed twice in the memory map is counted twice: its bit is already
    clear, but both counters grow again. *)
Lemma release_page_recounts st page :
  pmm_wf st -> page ∈ PMM_free st ->
  exists st', release_page page st = Val st' /\ PMM_free st' = PMM_free st
    /\ g_free_pages st' = Z.of_nat (size (PMM_free st')) + 1.
Proof.
  intros [Hbm Hc] Hp. pose proof Hp as [Hr _]%elem_of_free_set. unfold release_page.
  destruct (clear_bit_spec _ Hbm _ Hr) as (bm & -> & _ & Hbits). simpl.
  assert (free_set bm = free_set (g_bitmap st)) as Heq.
  { rewrite (free_set_unused _ _ _ Hr Hbits). unfold PMM_free in Hp. set_solver. }
  eexists. split; [done|]. split; [done|]. unfold PMM_free. cbn [g_bitmap g_free_pages].
  rewrite Heq, Hc. pose proof (free_set_size (g_bitmap st)). unfold PMM_MAX_PAGES in *.
  apply u64_small. unfold in_u64. lia.
Qed.

(** The pages a memory map entry contributes. *)
Definition entry_pages (e : memory_map_entry) : gset Z :=
  if decide (entry_type e = 1) then
    page_range (entry_addr e / 4096)
      (Z.min ((entry_addr e + entry_len e) / 4096) PMM_MAX_PAGES)
  else ∅.

Definition entry_ok (e : memory_map_entry) : Prop :=
  0 <= entry_addr e /\ 0 <= entry_len e /\ entry_addr e + entry_len e < 2 ^ 64.

Lemma add_entry_spec st e :
  boot_wf st -> entry_ok e -> entry_pages e ## PMM_free st ->
  exists st', add_entry e st = Val st' /\ boot_wf st'
    /\ PMM_free st' = entry_pages e ∪ PMM_free st.
Proof.
  intros Hwf (Ha & Hl & He) Hd. unfold add_entry. unfold entry_pages in *. case_decide as Ht.
  2: { exists st. split; [done|]. split; [done|]. set_solver. }
  rewrite u64_small by (unfold in_u64; lia).
  set (first := entry_addr e / 4096) in *. set (last := (entry_addr e + entry_len e) / 4096) in *.
  replace (if decide (last > PMM_MAX_PAGES) then PMM_MAX_PAGES else last)
    with (Z.min last PMM_MAX_PAGES) by (case_decide; lia).
  set (top := Z.min last PMM_MAX_PAGES) in *.
  assert (0 <= first) by (apply Z.div_pos; lia).
  destruct (for_loop_inv (fun j s => boot_wf s /\ PMM_free s = page_range first j ∪ PMM_free st)
    (Z.to_nat (top - first)) first release_page st) as (st' & -> & Hwf' & Hset).
  - split; [done|]. apply set_eq. intros q. rewrite elem_of_union, elem_of_page_range. intuition lia.
  - intros j s Hj (Hwf' & Hset).
    destruct (release_page_spec s j Hwf') as (s' & Hs' & Hwf'' & Hset'); [lia| |].
    + rewrite Hset, elem_of_union, elem_of_page_range. intros [?|Hin]; [lia|].
      apply (Hd j); [|done]. apply elem_of_page_range. lia.
    + exists s'. split; [done|]. split; [done|]. rewrite Hset', Hset. apply set_eq. intros q.
      rewrite !elem_of_union, elem_of_singleton, !elem_of_page_range. intuition lia.
  - exists st'. split; [done|]. split; [done|]. rewrite Hset. apply set_eq. intros q.
    rewrite !elem_of_union, !elem_of_page_range. intuition lia.
Qed.

(** * Boot: the memory map is read back as written *)

Fixpoint add_list (es : list memory_map_entry) (st : pmm_state) : outcome pmm_state :=
  match es with
  | [] => Val st
  | e :: es => st ← add_entry e st; add_list es st
  end.

Lemma add_list_app es1 es2 st :
  add_list (es1 ++ es2) st = (st ← add_list es1 st; add_list es2 st).
Proof.
  revert st. induction es1 as [|e es1 IH]; intros st; simpl; [done|].
  destruct (add_entry e st); simpl; [apply IH|done].
Qed.

Lemma add_entries_encode es : forall fuel pre post st limit,
  Forall entry_fields es -> (length es <= fuel)%nat ->
  limit = Z.of_nat (length pre) + 24 * Z.of_nat (length es) ->
  add_entries fuel (pre ++ mjoin (encode_entry <$> es) ++ post) 24 (Z.of_nat (length pre)) limit st
  = add_list es st.
Proof.
  induction es as [|e es IH]; intros fuel pre post st limit Hok Hf ->; simpl length in *.
  - destruct fuel; simpl; by rewrite decide_False by lia.
  - destruct fuel as [|fuel]; [lia|]. apply Forall_cons in Hok as [(Ha & Hl & Ht) Hok].
    cbn [add_entries]. rewrite decide_True by lia.
    replace (pre ++ mjoin (encode_entry <$> e :: es) ++ post)
      with (pre ++ encode_entry e ++ (mjoin (encode_entry <$> es) ++ post))
      by (rewrite fmap_cons, mjoin_cons; by rewrite <- !app_assoc).
    rewrite load_entry_encode by done. cbn [mbind outcome_bind add_list].
    destruct (add_entry e st) as [st'|]; cbn [mbind outcome_bind]; [|done].
    rewrite <- (IH fuel (pre ++ encode_entry e) post st') with (limit := Z.of_nat (length pre) + 24 * Z.of_nat (S (length es)));
      [|done|lia|rewrite length_app, encode_entry_length; lia].
    rewrite <- app_assoc. f_equal. rewrite length_app, encode_entry_length. lia.
Qed.

Lemma boot_tag_size t : boot_tag_ok t -> exists type body,
  boot_tag_bytes t = encode_tag type body /\ in_u32 type /\ type <> MULTIBOOT2_TAG_END
  /\ 15 + Z.of_nat (length body) < 2 ^ 32.
Proof.
  destruct t as [es|type body]; simpl.
  - intros [_ Hl]. eexists _, _. split; [reflexivity|]. split; [done|]. split; [done|].
    rewrite !length_app, !le_bytes_length. pose proof (encode_entries_length es). lia.
  - intros (? & ? & ? & ?). by exists type, body.
Qed.

Lemma next_boot_tag t pre post :
  boot_tag_ok t ->
  multiboot2_next_tag (pre ++ boot_tag_bytes t ++ post) (Z.of_nat (length pre))
  = Val (Z.of_nat (length (pre ++ boot_tag_bytes t))).
Proof. intros (type & body & -> & ? & _ & ?)%boot_tag_size. by apply next_tag_encode. Qed.

(** What the loop over the tags does with one tag. *)
Definition add_tag (fuel : nat) (info : list Z) (tag type : Z) (st : pmm_state) : outcome pmm_state :=
  if decide (type = MULTIBOOT2_TAG_MMAP) then
    size ← tag_size info tag;
    entry_size ← mmap_entry_size info tag;
    add_entries fuel info entry_size (mmap_entries tag) (tag + size) st
  else Val st.

Lemma add_mmap_encode fuel pre post es st :
  boot_tag_ok (BootMmap es) -> (length es <= fuel)%nat ->
  add_tag fuel (pre ++ encode_mmap es ++ post) (Z.of_nat (length pre)) MULTIBOOT2_TAG_MMAP st
  = add_list es st.
Proof.
  intros [Hes Hlen] Hf. unfold add_tag. rewrite decide_True by done.
  rewrite mmap_entry_size_encode. unfold encode_mmap. pose proof (encode_entries_length es) as Hel.
  set (rest := mjoin _) in *. set (body := _ ++ _ ++ rest).
  assert (length body = 8 + length rest)%nat as Hb by (subst body; rewrite !length_app, !le_bytes_length; lia).
  rewrite tag_size_encode by lia. cbn [mbind outcome_bind].
  destruct (tag_layout pre post MULTIBOOT2_TAG_MMAP body) as [p ->].
  rewrite Hb. set (size := 8 + _). subst body.
  set (pre' := pre ++ le_bytes 4 MULTIBOOT2_TAG_MMAP ++ le_bytes 4 size ++ le_bytes 4 24 ++ le_bytes 4 0).
  assert (Z.of_nat (length pre') = Z.of_nat (length pre) + 16) as Hpre
    by (subst pre'; rewrite !length_app, !le_bytes_length; lia).
  rewrite <- (add_entries_encode es fuel pre' (p ++ post) st (Z.of_nat (length pre) + size)) by (done || lia).
  unfold mmap_entries. rewrite Hpre. unfold pre', rest. by rewrite <- !app_assoc.
Qed.

Lemma add_boot_tag fuel pre post t st :
  boot_tag_ok t -> (length (boot_entries t) <= fuel)%nat ->
  exists type, tag_type (pre ++ boot_tag_bytes t ++ post) (Z.of_nat (length pre)) = Val type
    /\ type <> MULTIBOOT2_TAG_END
    /\ add_tag fuel (pre ++ boot_tag_bytes t ++ post) (Z.of_nat (length pre)) type st
       = add_list (boot_entries t) st.
Proof.
  intros Hok Hf. destruct t as [es|type body].
  - exists MULTIBOOT2_TAG_MMAP. split; [by apply tag_type_encode|]. split; [done|].
    by apply add_mmap_encode.
  - destruct Hok as (Hty & Hend & Hmm & Hlen). exists type. split; [by apply tag_type_encode|].
    split; [done|]. unfold add_tag. by rewrite decide_False.
Qed.

Lemma add_tags_unfold fuel info tag st :
  add_tags (S fuel) info tag st =
    (type ← tag_type info tag;
     if decide (type = MULTIBOOT2_TAG_END) then Val st
     else
       st ← add_tag (S fuel) info tag type st;
       next ← multiboot2_next_tag info tag;
       add_tags fuel info next st).
Proof. reflexivity. Qed.

Lemma add_tags_encode tags : forall fuel pre st,
  Forall boot_tag_ok tags -> (length tags < fuel)%nat ->
  Forall (fun t => length (boot_entries t) <= fuel - length tags)%nat tags ->
  add_tags fuel (pre ++ mjoin (boot_tag_bytes <$> tags) ++ encode_tag MULTIBOOT2_TAG_END [])
    (Z.of_nat (length pre)) st
  = add_list (mjoin (boot_entries <$> tags)) st.
Proof.
  induction tags as [|t tags IH]; intros fuel pre st Hok Hf He; simpl length in *;
    (destruct fuel as [|fuel]; [lia|]); rewrite add_tags_unfold.
  - change (mjoin (boot_tag_bytes <$> [])) with (@nil Z). rewrite app_nil_l.
    rewrite <- (app_nil_r (encode_tag _ _)). by rewrite tag_type_encode.
  - apply Forall_cons in Hok as [Ht Hok]. apply Forall_cons in He as [Het He].
    rewrite !fmap_cons, !mjoin_cons, add_list_app, <- app_assoc.
    set (post := mjoin _ ++ encode_tag _ _).
    destruct (add_boot_tag (S fuel) pre post t st Ht) as (type & -> & Hend & Hadd); [lia|].
    cbn [mbind outcome_bind]. rewrite decide_False by done. rewrite Hadd.
    destruct (add_list (boot_entries t) st) as [st'|]; cbn [mbind outcome_bind]; [|done].
    rewrite next_boot_tag by done. cbn [mbind outcome_bind].
    rewrite app_assoc. apply IH; [done|lia|exact He].
Qed.

Definition pages_of (es : list memory_map_entry) : gset Z := ⋃ (entry_pages <$> es).

Fixpoint entries_disjoint (es : list memory_map_entry) : Prop :=
  match es with
  | [] => True
  | e :: es => Forall (fun e' => entry_pages e ## entry_pages e') es /\ entries_disjoint es
  end.

Lemma disjoint_pages_of (X : gset Z) es :
  Forall (fun e => X ## entry_pages e) es -> X ## pages_of es.
Proof.
  unfold pages_of. induction 1 as [|e es He _ IH]; simpl; [set_solver|].
  apply disjoint_union_r. done.
Qed.

(** Two entries whose page intervals do not meet, or one of which is not RAM. *)
Lemma entry_pages_apart e1 e2 :
  entry_type e1 <> 1 \/ entry_type e2 <> 1
  \/ (entry_addr e1 + entry_len e1) / 4096 <= entry_addr e2 / 4096
  \/ (entry_addr e2 + entry_len e2) / 4096 <= entry_addr e1 / 4096 ->
  entry_pages e1 ## entry_pages e2.
Proof.
  intros H p. unfold entry_pages.
  repeat case_decide; rewrite ?elem_of_page_range; intros Hp1 Hp2;
    try (by apply elem_of_empty in Hp1); try (by apply elem_of_empty in Hp2). lia.
Qed.

Lemma add_list_spec es : forall st,
  boot_wf st -> Forall entry_ok es -> entries_disjoint es -> pages_of es ## PMM_free st ->
  exists st', add_list es st = Val st' /\ boot_wf st' /\ PMM_free st' = pages_of es ∪ PMM_free st.
Proof.
  induction es as [|e es IH]; intros st Hwf Hok Hdis Hfree; cbn [add_list].
  - exists st. split; [done|]. split; [done|]. unfold pages_of. set_solver.
  - apply Forall_cons in Hok as [He Hok]. destruct Hdis as [Hd Hdis].
    assert (pages_of (e :: es) = entry_pages e ∪ pages_of es) as Hpages by reflexivity.
    apply disjoint_pages_of in Hd. rewrite Hpages in *.
    destruct (add_entry_spec st e Hwf He) as (st1 & -> & Hwf1 & Hset1); [set_solver|].
    cbn [mbind outcome_bind].
    destruct (IH st1 Hwf1 Hok Hdis) as (st2 & -> & Hwf2 & Hset2); [set_solver|].
    exists st2. split; [done|]. split; [done|].
    rewrite Hset2, Hset1, assoc_L by apply _. by rewrite (comm_L (∪) (pages_of es)).
Qed.

Lemma all_used_wf n :
  Z.of_nat n = PMM_MAX_PAGES / 8 ->
  boot_wf (Pmm (replicate n 0xFF) 0 0) /\ PMM_free (Pmm (replicate n 0xFF) 0 0) = ∅.
Proof.
  intros Hn. assert (PMM_free (Pmm (replicate n 0xFF) 0 0) = ∅) as Hempty.
  { apply set_eq. intros p. split; [|set_solver]. intros [Hp Hu]%elem_of_free_set.
    unfold page_used in Hu. cbn [g_bitmap] in Hu. rewrite (nth_lookup_Some _ _ _ 255) in Hu.
    - pose proof (Z.mod_pos_bound p 8 ltac:(lia)). change 255 with (Z.ones 8) in Hu.
      by rewrite Z.ones_spec_low in Hu by lia.
    - apply lookup_replicate. split; [done|]. unfold PMM_MAX_PAGES in *. Z.div_mod_to_equations. lia. }
  split; [|done]. split; [|done]. split; [split|]; cbn [g_bitmap g_free_pages].
  - by rewrite length_replicate.
  - apply Forall_replicate. unfold in_u8. lia.
  - unfold PMM_free in Hempty. cbn [g_bitmap] in Hempty. by rewrite Hempty.
Qed.

Lemma pmm_reset_wf : boot_wf pmm_reset /\ PMM_free pmm_reset = ∅.
Proof. unfold pmm_reset. apply all_used_wf. by rewrite Z2Nat.id. Qed.

(** * Sequences of allocations and frees *)

Inductive pmm_op : Type :=
| OpAlloc
| OpFree (physical : Z).

(** Run a sequence of calls; [live] holds the addresses allocated and not freed. *)
Fixpoint pmm_run (ops : list pmm_op) (st : pmm_state) (live : gset Z)
  : outcome (pmm_state * gset Z) :=
  match ops with
  | [] => Val (st, live)
  | OpAlloc :: ops =>
      '(r, st) ← pmm_alloc_page st;
      pmm_run ops st (if decide (r = 0) then live else {[r]} ∪ live)
  | OpFree physical :: ops =>
      st ← pmm_free_page physical st;
      pmm_run ops st (live ∖ {[physical / 4096 * 4096]})
  end.

Definition op_ok (op : pmm_op) : Prop :=
  match op with OpAlloc => True | OpFree physical => 0 <= physical end.

Definition live_wf (st : pmm_state) (live : gset Z) : Prop :=
  forall r, r ∈ live -> r <> 0 /\ r mod 4096 = 0 /\ r / 4096 ∉ PMM_free st.

Lemma live_wf_alloc st live r st' :
  pmm_wf st -> live_wf st live -> pmm_alloc_page st = Val (r, st') ->
  pmm_wf st' /\ live_wf st' (if decide (r = 0) then live else {[r]} ∪ live)
  /\ r ∉ live.
Proof.
  intros Hwf Hl Ha. destruct (pmm_alloc_page_spec st Hwf) as (r' & st'' & Ha' & Hwf' & Hcase).
  rewrite Ha in Ha'. injection Ha' as <- <-. split; [done|].
  destruct Hcase as [(He & -> & ->)|(p & Hp & _ & -> & Hset & _)].
  - rewrite decide_True by done. split; [done|]. intros Hin. by destruct (Hl _ Hin).
  - split.
    + intros r Hr. case_decide; [|apply elem_of_union in Hr as [Hr%elem_of_singleton|Hr]].
      * destruct (Hl _ Hr) as (? & ? & Hn). rewrite Hset, not_elem_of_difference. auto.
      * subst. split; [done|]. split; [by apply Z.mod_mul|]. rewrite Z.div_mul by lia.
        rewrite Hset, not_elem_of_difference. right. by apply elem_of_singleton.
      * destruct (Hl _ Hr) as (? & ? & Hn). rewrite Hset, not_elem_of_difference. auto.
    + intros Hin. destruct (Hl _ Hin) as (_ & _ & Hn). by rewrite Z.div_mul in Hn by lia.
Qed.

Lemma pmm_run_spec ops : forall st live,
  pmm_wf st -> live_wf st live -> Forall op_ok ops ->
  exists st' live', pmm_run ops st live = Val (st', live') /\ pmm_wf st' /\ live_wf st' live'.
Proof.
  induction ops as [|[|physical] ops IH]; intros st live Hwf Hl Hok; cbn [pmm_run].
  - eauto.
  - apply Forall_cons in Hok as [_ Hok].
    destruct (pmm_alloc_page_spec st Hwf) as (r & st' & Ha & _).
    destruct (live_wf_alloc _ _ _ _ Hwf Hl Ha) as (Hwf' & Hl' & _).
    rewrite Ha. cbn [mbind outcome_bind]. by apply IH.
  - apply Forall_cons in Hok as [Hp Hok]. simpl in Hp.
    destruct (pmm_free_page_spec st physical Hwf Hp) as (st' & -> & Hwf' & _ & Hset).
    cbn [mbind outcome_bind]. apply IH; [done| |done].
    intros r [Hr Hne]%elem_of_difference. destruct (Hl _ Hr) as (H0 & Hm & Hn).
    split; [done|]. split; [done|]. rewrite Hset. case_decide; [|done].
    rewrite elem_of_union, elem_of_singleton. intros [He|?]; [|done].
    apply Hne, elem_of_singleton. rewrite <- He. pose proof (Z.div_mod r 4096). lia.
Qed.

(** * Properties *)

(** [pmm_alloc_page] refines allocation from the set of free pages: it returns
    the address of the lowest free page and removes just that page, or, when no
    page is free, returns 0 and changes nothing; the free counter stays exact. *)
Theorem pmm_alloc_lowest (st : pmm_state) :
  pmm_wf st ->
  exists r st', pmm_alloc_page st = Val (r, st') /\ pmm_wf st' /\
    ((PMM_free st = ∅ /\ r = 0 /\ st' = st) \/
     (exists p, p ∈ PMM_free st /\ (forall q, q ∈ PMM_free st -> p <= q) /\ r = p * 4096
        /\ PMM_free st' = PMM_free st ∖ {[p]} /\ g_total_pages st' = g_total_pages st)).
Proof. apply pmm_alloc_page_spec. Qed.

Lemma pmm_alloc_lowest_witness :
  exists r st', pmm_alloc_page pmm_reset = Val (r, st') /\ pmm_wf st' /\
    ((PMM_free pmm_reset = ∅ /\ r = 0 /\ st' = pmm_reset) \/
     (exists p, p ∈ PMM_free pmm_reset /\ (forall q, q ∈ PMM_free pmm_reset -> p <= q) /\ r = p * 4096
        /\ PMM_free st' = PMM_free pmm_reset ∖ {[p]} /\ g_total_pages st' = g_total_pages pmm_reset)).
Proof. apply (pmm_alloc_lowest pmm_reset). apply pmm_reset_wf. Defined.

(** C8 Over any sequence of allocations and frees, at whatever addresses, every
    call completes and [pmm_alloc_page] never returns a page that is already
    allocated and not yet freed. *)
Theorem pmm_no_double_allocation (st : pmm_state) (ops : list pmm_op) :
  pmm_wf st -> Forall op_ok ops ->
  exists st' live, pmm_run ops st ∅ = Val (st', live) /\
    exists r st'', pmm_alloc_page st' = Val (r, st'') /\ r ∉ live.
Proof.
  intros Hwf Hok. destruct (pmm_run_spec ops st ∅ Hwf) as (st' & live & Hr & Hwf' & Hl);
    [intros r; set_solver|done|].
  exists st', live. split; [done|].
  destruct (pmm_alloc_page_spec st' Hwf') as (r & st'' & Ha & _).
  exists r, st''. split; [done|]. by apply (live_wf_alloc st' live r st'').
Qed.

Lemma pmm_no_double_allocation_witness :
  exists st' live, pmm_run [OpFree 8192; OpAlloc; OpFree 8200; OpAlloc] pmm_reset ∅ = Val (st', live) /\
    exists r st'', pmm_alloc_page st' = Val (r, st'') /\ r ∉ live.
Proof.
  apply pmm_no_double_allocation; [apply pmm_reset_wf|]. repeat constructor; simpl; lia.
Defined.

Lemma pmm_init_spec (fuel : nat) (tags : list boot_tag) (kernel_start kernel_end : Z) :
  let es := mjoin (boot_entries <$> tags) in
  Forall boot_tag_ok tags -> Forall entry_ok es -> entries_disjoint es ->
  (length tags < fuel)%nat -> Forall (fun t => length (boot_entries t) <= fuel - length tags)%nat tags ->
  0 <= kernel_start <= kernel_end -> kernel_end + 4095 < 2 ^ 64 ->
  exists st, pmm_init fuel (encode_info (boot_tag_bytes <$> tags)) kernel_start kernel_end = Val st
    /\ pmm_wf st
    /\ g_total_pages st = Z.of_nat (size (pages_of es))
    /\ PMM_free st = pages_of es ∖ page_range 0 256
                       ∖ page_range (kernel_start / 4096) ((kernel_end + 4095) / 4096).
Proof.
  intros es Htags Hok Hdis Hf Hfe Hk Hke. unfold pmm_init, encode_info.
  set (body := mjoin _ ++ _). rewrite app_assoc. unfold body.
  change multiboot2_first_tag with
    (Z.of_nat (length (le_bytes 4 (8 + Z.of_nat (length body)) ++ le_bytes 4 0))).
  rewrite add_tags_encode by done. fold es.
  destruct pmm_reset_wf as [Hwf Hempty].
  destruct (add_list_spec es pmm_reset Hwf Hok Hdis) as (st1 & -> & [Hwf1 Ht1] & Hset1);
    [rewrite Hempty; set_solver|].
  cbn [mbind outcome_bind]. rewrite Hempty, union_empty_r_L in Hset1.
  destruct (reserve_range_spec st1 0 0x100000 Hwf1) as (st2 & -> & Hwf2 & Hset2 & Ht2); [lia..|].
  cbn [mbind outcome_bind].
  destruct (reserve_range_spec st2 kernel_start kernel_end Hwf2) as (st3 & -> & Hwf3 & Hset3 & Ht3); [lia..|].
  exists st3. split; [done|]. split; [done|]. split.
  - rewrite Ht3, Ht2, Ht1. destruct Hwf1 as [_ ->]. fold (PMM_free st1). by rewrite Hset1.
  - by rewrite Hset3, Hset2, Hset1.
Qed.

(** C9 [pmm_init] on a well-formed boot information structure whose usable
    regions do not overlap: it reads every memory map tag back, counts each
    usable page once, and leaves free exactly the usable pages outside the first
    megabyte and the kernel image, with an exact free counter. *)
Theorem pmm_init_free_pages (fuel : nat) (tags : list boot_tag) (kernel_start kernel_end : Z) :
  let es := mjoin (boot_entries <$> tags) in
  Forall boot_tag_ok tags -> Forall entry_ok es -> entries_disjoint es ->
  (length tags < fuel)%nat -> Forall (fun t => length (boot_entries t) <= fuel - length tags)%nat tags ->
  0 <= kernel_start <= kernel_end -> kernel_end + 4095 < 2 ^ 64 ->
  exists st, pmm_init fuel (encode_info (boot_tag_bytes <$> tags)) kernel_start kernel_end = Val st
    /\ pmm_wf st
    /\ g_total_pages st = Z.of_nat (size (pages_of es))
    /\ PMM_free st = pages_of es ∖ page_range 0 256
                       ∖ page_range (kernel_start / 4096) ((kernel_end + 4095) / 4096).
Proof. apply pmm_init_spec. Qed.

Definition sample_tags : list boot_tag :=
  [BootOther 1 [0]; BootMmap [MmapEntry 0 0x9fc00 1; MmapEntry 0x9fc00 0x400 2; MmapEntry 0x100000 0x7ee0000 1]].

Lemma pmm_init_free_pages_witness :
  exists st, pmm_init 10 (encode_info (boot_tag_bytes <$> sample_tags)) 0x100000 0x142000 = Val st
    /\ pmm_wf st
    /\ g_total_pages st = Z.of_nat (size (pages_of (mjoin (boot_entries <$> sample_tags))))
    /\ PMM_free st = pages_of (mjoin (boot_entries <$> sample_tags)) ∖ page_range 0 256
                       ∖ page_range (0x100000 / 4096) ((0x142000 + 4095) / 4096).
Proof.
  apply pmm_init_free_pages.
  - repeat constructor; unfold in_u32; simpl; (lia || done).
  - repeat constructor; simpl; lia.
  - repeat split; repeat constructor; apply entry_pages_apart; vm_compute; intuition congruence.
  - simpl. lia.
  - repeat constructor; simpl; lia.
  - lia.
  - lia.
Defined.
