(* ===== verification/Vmm.v ===== *)
(** [src/kernel/vmm.c]: address-space bookkeeping.

    An address space is three addresses; mapping and unmapping are stubs in the
    code.  A pointer to an address space that may be null is an [option]. *)

From Stdlib Require Import ZArith Lia.
From stdpp Require Import base list.
From S2P Require Import Prelude.
Open Scope Z_scope.

(** [include/mgcore/vmm.h:8-8] MGCORE_PAGE_SIZE *)
Definition MGCORE_PAGE_SIZE : Z := 4096.

(** [include/mgcore/vmm.h:18-22] address_space *)
Record address_space := AddressSpace {
  brk_base : Z;
  brk_current : Z;
  next_mmap_base : Z;
}.

(** [src/kernel/vmm.c:12-14] vmm_address_space_init *)
Definition fresh_address_space : address_space := AddressSpace 0x800000 0x800000 0x20000000.
(** [src/kernel/vmm.c:8-15] vmm_address_space_init *)
Definition vmm_address_space_init (space : option address_space) : option address_space :=
  match space with
  | None => None
  | Some _ => Some fresh_address_space
  end.

(** [src/kernel/vmm.c:19-19] vmm_reserve_range, aligned_length *)
Definition page_align (length : Z) : Z :=
  Z.land (u64 (length + MGCORE_PAGE_SIZE - 1)) (u64_not (MGCORE_PAGE_SIZE - 1)).

(** [src/kernel/vmm.c:17-27] vmm_reserve_range *)
Definition vmm_reserve_range (space : option address_space) (length prot : Z)
  : Z * option address_space :=
  let aligned_length := page_align length in
  match space with
  | None => (0, None)
  | Some s =>
      if decide (aligned_length = 0) then (0, Some s)
      else (next_mmap_base s,
            Some (AddressSpace (brk_base s) (brk_current s)
              (u64 (next_mmap_base s + u64 (aligned_length + MGCORE_PAGE_SIZE)))))
  end.

(** [src/kernel/vmm.c:29-35] vmm_map_anonymous *)
Definition vmm_map_anonymous (space : option address_space) (address length prot : Z) : Z := 0.
(** [src/kernel/vmm.c:37-42] vmm_unmap *)
Definition vmm_unmap (space : option address_space) (address length : Z) : Z := 0.

(** * Rounding *)

Definition pages_up (length : Z) : Z := (length + 4095) / 4096 * 4096.

Lemma page_align_small length :
  0 <= length < 2 ^ 64 - 4095 -> page_align length = pages_up length.
Proof.
  intros Hl. unfold page_align, pages_up, MGCORE_PAGE_SIZE. change (4096 - 1) with (2 ^ 12 - 1).
  rewrite u64_align_mask by (auto with cint || lia).
  rewrite u64_small by (unfold in_u64; lia).
  change (2 ^ 12) with 4096. by replace (length + 4096 - 1) with (length + 4095) by lia.
Qed.

Lemma pages_up_bounds length : 0 <= length -> length <= pages_up length < length + 4096.
Proof. unfold pages_up. intros. Z.div_mod_to_equations. lia. Qed.

(** * Sequences of reservations *)

(** The bases returned for a sequence of requests. *)
Fixpoint reserve_all (space : address_space) (lengths : list Z) : list Z :=
  match lengths with
  | [] => []
  | n :: lengths =>
      match vmm_reserve_range (Some space) n 0 with
      | (base, Some space) => base :: reserve_all space lengths
      | (base, None) => [base]
      end
  end.

(** Address space consumed by a sequence of requests, guard pages included. *)
Definition span (lengths : list Z) : Z := foldr (fun n acc => pages_up n + 4096 + acc) 0 lengths.

Lemma span_nonneg lengths : Forall (fun n => 0 < n) lengths -> 0 <= span lengths.
Proof.
  induction 1 as [|n lengths Hn _ IH]; simpl; [lia|]. pose proof (pages_up_bounds n). lia.
Qed.

Lemma reserve_range_fits space n :
  0 <= next_mmap_base space -> 0 < n -> next_mmap_base space + pages_up n + 4096 < 2 ^ 64 ->
  vmm_reserve_range (Some space) n 0
  = (next_mmap_base space, Some (AddressSpace (brk_base space) (brk_current space)
      (next_mmap_base space + pages_up n + 4096))).
Proof.
  intros Hb Hn Hf. pose proof (pages_up_bounds n). unfold vmm_reserve_range.
  rewrite page_align_small by lia. rewrite decide_False by lia.
  unfold MGCORE_PAGE_SIZE. rewrite !u64_small; unfold in_u64; try lia;
    rewrite ?u64_small; unfold in_u64; try lia. by rewrite Z.add_assoc.
Qed.

#[local] Arguments vmm_reserve_range space length prot : simpl never.
#[local] Arguments pages_up length : simpl never.

Lemma reserve_all_spec lengths : forall space,
  0 <= next_mmap_base space -> Forall (fun n => 0 < n) lengths ->
  next_mmap_base space + span lengths < 2 ^ 64 ->
  length (reserve_all space lengths) = length lengths /\
  forall i b n, reserve_all space lengths !! i = Some b -> lengths !! i = Some n ->
    next_mmap_base space <= b
    /\ b + pages_up n + 4096 <= next_mmap_base space + span lengths
    /\ b mod 4096 = next_mmap_base space mod 4096
    /\ forall j b', (i < j)%nat -> reserve_all space lengths !! j = Some b' ->
         b + n + 4096 <= b'.
Proof.
  induction lengths as [|n lengths IH]; intros space Hb Hpos Hspan; simpl in *.
  - split; [done|]. intros i b n Hi. by rewrite lookup_nil in Hi.
  - apply Forall_cons in Hpos as [Hn Hpos]. pose proof (span_nonneg _ Hpos).
    pose proof (pages_up_bounds n).
    rewrite reserve_range_fits by lia.
    destruct (IH (AddressSpace (brk_base space) (brk_current space)
                    (next_mmap_base space + pages_up n + 4096))) as [Hlen Hall]; simpl; [lia|done|lia|].
    split; [simpl; congruence|]. simpl in Hall. intros [|i] b n' Hib Hin; simpl in *.
    + simplify_eq. split; [lia|]. split; [lia|]. split; [done|].
      intros [|j] b' Hj Hjb; [lia|]. simpl in Hjb.
      destruct (lookup_lt_is_Some_2 lengths j) as [m Hm'];
        [rewrite <- Hlen; by eapply lookup_lt_Some|].
      destruct (Hall j b' m Hjb Hm') as (? & _). lia.
    + destruct (Hall i b n' Hib Hin) as (? & ? & Hm & Hj). split; [lia|]. split; [lia|].
      split.
      * rewrite Hm. unfold pages_up. replace (_ + _ + 4096) with
          (next_mmap_base space + ((n + 4095) / 4096 + 1) * 4096) by lia.
        by rewrite Z.mod_add by lia.
      * intros [|j] b' Hlt Hjb; [lia|]. apply (Hj j); [lia|done].
Qed.

(** * Properties *)

(** Successive reservations in one address space, while they fit below 2^64,
    all succeed with page-aligned regions that do not overlap and are separated
    by at least one unmapped page. *)
Theorem vmm_reservations_disjoint (space : address_space) (lengths : list Z) :
  0 <= next_mmap_base space -> next_mmap_base space mod 4096 = 0 ->
  Forall (fun n => 0 < n) lengths -> next_mmap_base space + span lengths < 2 ^ 64 ->
  length (reserve_all space lengths) = length lengths /\
  forall i j b n b', reserve_all space lengths !! i = Some b -> lengths !! i = Some n ->
    b mod 4096 = 0 /\ ((i < j)%nat -> reserve_all space lengths !! j = Some b' -> b + n + 4096 <= b').
Proof.
  intros Hb Hm Hpos Hspan. destruct (reserve_all_spec lengths space Hb Hpos Hspan) as [Hlen Hall].
  split; [done|]. intros i j b n b' Hib Hin.
  destruct (Hall i b n Hib Hin) as (_ & _ & Hmod & Hj). split; [congruence|]. by apply Hj.
Qed.

Lemma vmm_reservations_disjoint_witness :
  length (reserve_all fresh_address_space [1; 5000; 4096]) = 3%nat /\
  forall i j b n b', reserve_all fresh_address_space [1; 5000; 4096] !! i = Some b ->
    [1; 5000; 4096] !! i = Some n ->
    b mod 4096 = 0 /\ ((i < j)%nat -> reserve_all fresh_address_space [1; 5000; 4096] !! j = Some b' ->
                       b + n + 4096 <= b').
Proof.
  apply (vmm_reservations_disjoint fresh_address_space [1; 5000; 4096]).
  - simpl. lia.
  - reflexivity.
  - repeat constructor.
  - vm_compute. reflexivity.
Defined.

(** Reservation has no upper bound: a request of [2^64 - 4096] bytes succeeds
    and wraps the cursor around to where it was, so the next reservation
    returns the same region. *)
Theorem vmm_reserve_wraps (space : address_space) (n prot prot' : Z) :
  in_u64 (next_mmap_base space) -> 0 < n < 2 ^ 64 - 4095 ->
  fst (vmm_reserve_range (snd (vmm_reserve_range (Some space) (2 ^ 64 - 4096) prot)) n prot')
  = fst (vmm_reserve_range (Some space) (2 ^ 64 - 4096) prot).
Proof.
  intros Hb Hn. unfold vmm_reserve_range at 2 3.
  rewrite page_align_small by lia. change (pages_up (2 ^ 64 - 4096)) with (2 ^ 64 - 4096).
  rewrite decide_False by lia. simpl fst at 2. simpl snd.
  unfold MGCORE_PAGE_SIZE. change (u64 (2 ^ 64 - 4096 + 4096)) with 0.
  rewrite Z.add_0_r, u64_small by done. pose proof (pages_up_bounds n).
  unfold vmm_reserve_range. rewrite page_align_small by lia. by rewrite decide_False by lia.
Qed.

Lemma vmm_reserve_wraps_witness :
  fst (vmm_reserve_range (snd (vmm_reserve_range (Some fresh_address_space) (2 ^ 64 - 4096) 3)) 100 3)
  = fst (vmm_reserve_range (Some fresh_address_space) (2 ^ 64 - 4096) 3).
Proof. apply vmm_reserve_wraps; [unfold in_u64; simpl; lia|lia]. Defined.
