(* ===== verification/Swap.v ===== *)
(** [src/kernel/swap.c]: the swap accounting. *)

From Stdlib Require Import ZArith Lia.
From stdpp Require Import base list.
From S2P Require Import Prelude.
Open Scope Z_scope.

(** [src/kernel/swap.c:5-5] SWAP_DEFAULT_DIVISOR *)
Definition SWAP_DEFAULT_DIVISOR : Z := 4.
(** [src/kernel/swap.c:6-6] SWAP_MIN_DEFAULT_PAGES *)
Definition SWAP_MIN_DEFAULT_PAGES : Z := 64.

(** [src/kernel/swap.c:8-10] g_swap_total_pages, g_swap_used_pages, g_swap_enabled *)
Record swap_state := Swap {
  g_swap_total_pages : Z;
  g_swap_used_pages : Z;
  g_swap_enabled : bool;
}.

(** [src/kernel/swap.c:12-21] swap_init, all but its report *)
Definition swap_init (ram_total_pages : Z) : swap_state :=
  let total := ram_total_pages / SWAP_DEFAULT_DIVISOR in
  let total := if decide (total = 0 /\ ram_total_pages > 0) then 1 else total in
  let total :=
    if decide (total < SWAP_MIN_DEFAULT_PAGES /\ ram_total_pages >= SWAP_MIN_DEFAULT_PAGES)
    then SWAP_MIN_DEFAULT_PAGES else total in
  Swap total 0 false.

(** [src/kernel/swap.c:25-37] swap_enable *)
Definition swap_enable (total_pages : Z) (s : swap_state) : Z * swap_state :=
  let total := if decide (total_pages <> 0) then total_pages else g_swap_total_pages s in
  if decide (total = 0) then (-1, Swap total (g_swap_used_pages s) (g_swap_enabled s))
  else
    let used := if decide (g_swap_used_pages s > total) then total else g_swap_used_pages s in
    (0, Swap total used true).

(** [src/kernel/swap.c:39-42] swap_disable *)
Definition swap_disable (s : swap_state) : swap_state := Swap (g_swap_total_pages s) 0 false.

(** [src/kernel/swap.c:44-46] swap_is_enabled *)
Definition swap_is_enabled (s : swap_state) : Z := b2z (g_swap_enabled s).

(** [src/kernel/swap.c:48-57] swap_set_used_pages *)
Definition swap_set_used_pages (used_pages : Z) (s : swap_state) : Z * swap_state :=
  if negb (g_swap_enabled s) then (-1, s)
  else if decide (used_pages > g_swap_total_pages s) then (-2, s)
  else (0, Swap (g_swap_total_pages s) used_pages (g_swap_enabled s)).

(** [src/kernel/swap.c:59-61] swap_total_pages *)
Definition swap_total_pages (s : swap_state) : Z := g_swap_total_pages s.
(** [src/kernel/swap.c:63-65] swap_used_pages *)
Definition swap_used_pages (s : swap_state) : Z := g_swap_used_pages s.
(** [src/kernel/swap.c:67-69] swap_free_pages *)
Definition swap_free_pages (s : swap_state) : Z := u64 (g_swap_total_pages s - g_swap_used_pages s).

(** The states the operations can reach from initialisation. *)
Inductive swap_step : swap_state -> swap_state -> Prop :=
| step_enable total s : in_u64 total -> swap_step s (swap_enable total s).2
| step_disable s : swap_step s (swap_disable s)
| step_use used s : in_u64 used -> swap_step s (swap_set_used_pages used s).2.

Inductive swap_reachable : swap_state -> Prop :=
| reach_init ram : in_u64 ram -> swap_reachable (swap_init ram)
| reach_step s s' : swap_reachable s -> swap_step s s' -> swap_reachable s'.

Record swap_wf (s : swap_state) : Prop := {
  swap_total_range : in_u64 (g_swap_total_pages s);
  swap_used_range : 0 <= g_swap_used_pages s <= g_swap_total_pages s;
  swap_off_unused : g_swap_enabled s = false -> g_swap_used_pages s = 0;
}.

Ltac swap_cases := repeat (case_decide || case_match); simpl in *; split; simpl in *;
  unfold in_u64 in *; try done; try lia.

Lemma swap_init_wf ram : in_u64 ram -> swap_wf (swap_init ram).
Proof.
  intros Hr. unfold swap_init, SWAP_DEFAULT_DIVISOR, SWAP_MIN_DEFAULT_PAGES.
  split; cbn [g_swap_total_pages g_swap_used_pages]; [|split; [lia|]|done];
    unfold in_u64 in *; repeat case_decide; Z.div_mod_to_equations; lia.
Qed.

Lemma swap_step_wf s s' : swap_wf s -> swap_step s s' -> swap_wf s'.
Proof.
  intros [Ht Hu Ho] Hstep. destruct Hstep as [total s Htot|s|used s Hused].
  - unfold swap_enable. swap_cases.
  - unfold swap_disable. swap_cases.
  - unfold swap_set_used_pages. destruct (g_swap_enabled s) eqn:He; simpl; [|split; [done|done|by intros _; apply Ho]].
    case_decide; split; simpl; unfold in_u64 in *; auto with lia. congruence.
Qed.

(** Whatever the sequence of swap operations, the pages in use never exceed
    the capacity, are 0 whenever swap is off, and [swap_free_pages] is the exact
    difference (its unsigned subtraction does not wrap). *)
Theorem swap_used_within_capacity (s : swap_state) :
  swap_reachable s ->
  0 <= swap_used_pages s <= swap_total_pages s
  /\ swap_free_pages s + swap_used_pages s = swap_total_pages s
  /\ (swap_is_enabled s = 0 -> swap_used_pages s = 0).
Proof.
  intros Hr. assert (swap_wf s) as [Ht Hu Ho].
  { induction Hr; [by apply swap_init_wf|by eapply swap_step_wf]. }
  unfold swap_used_pages, swap_total_pages, swap_free_pages, swap_is_enabled, b2z, in_u64 in *.
  split; [done|]. split; [rewrite u64_small by (unfold in_u64; lia); lia|].
  intros He. apply Ho. by destruct (g_swap_enabled s).
Qed.

Lemma swap_used_within_capacity_witness :
  let s := (swap_set_used_pages 10 (swap_enable 100 (swap_init 4096)).2).2 in
  0 <= swap_used_pages s <= swap_total_pages s
  /\ swap_free_pages s + swap_used_pages s = swap_total_pages s
  /\ (swap_is_enabled s = 0 -> swap_used_pages s = 0).
Proof.
  apply swap_used_within_capacity.
  eapply reach_step; [eapply reach_step; [apply (reach_init 4096)|apply (step_enable 100)]|apply (step_use 10)].
  all: unfold in_u64; lia.
Defined.
