(* ===== verification/Terminal.v ===== *)
(** What the console promises to the rest of the kernel, and the printing
    routines of [src/kernel/console.c] that only need that promise.

    [Terminal] lists the two primitives, [TerminalLaws] what they mean in terms
    of a transcript: the bytes sent so far and the input not yet read.
    Module [Transcript] is the plainest terminal; [Console.v] shows that the
    VGA and serial console is one as well. *)

From Stdlib Require Import ZArith Lia Ascii.
From stdpp Require Import base list strings.
From S2P Require Import Prelude KString.
Open Scope Z_scope.
Import Fmt.

Class Terminal (C : Type) := {
  console_putc : Z -> C -> outcome C;
  console_try_read_char : C -> outcome (option Z * C);
}.

(** What one character puts on the serial line: a newline is preceded by a
    carriage return. *)
Definition line_bytes (c : Z) : list Z := if decide (c = 10) then [13; 10] else [c].

Class TerminalLaws (C : Type) `{Terminal C} := {
  term_ok : C -> Prop;
  term_sent : C -> list Z;
  putc_law c t : in_u8 c -> term_ok t ->
    exists t', console_putc c t = Val t' /\ term_ok t'
               /\ term_sent t' = term_sent t ++ line_bytes c;
  putc_any c t : term_ok t -> exists t' o, console_putc c t = Val t' /\ term_ok t' /\ term_sent t' = term_sent t ++ o;
  read_law t : term_ok t ->
    exists r t', console_try_read_char t = Val (r, t') /\ term_ok t'
                 /\ term_sent t' = term_sent t /\ (forall c, r = Some c -> in_u8 c);
}.

Section Printing.
Context {C : Type} `{Terminal C}.

(** [src/kernel/console.c:89-93] console_write_plain *)
Fixpoint console_write_plain (s : list Z) (t : C) : outcome C :=
  match s with
  | [] => Val t
  | c :: s => t ← console_putc c t; console_write_plain s t
  end.

(** [src/kernel/console.c:298-303] console_write_n *)
Definition console_write_n (s : list Z) (length : Z) (t : C) : outcome C :=
  for_loop (Z.to_nat length) 0 (fun i t => c ← aget s i; console_putc c t) t.

(** [src/kernel/console.c:278-282] console_write_braces_v; the local buffer's
    first contents do not matter, the formatter overwrites what is printed *)
Definition console_write_braces_v (pattern : list Z) (args : list va) (t : C) : outcome C :=
  '(buffer, _) ← kvformat_braces (replicate 1024 0) 1024 (Some pattern) args;
  console_write_plain (cstr buffer) t.

(** [src/kernel/console.c:284-289] console_write *)
Definition console_write (pattern : list Z) (args : list va) (t : C) : outcome C :=
  console_write_braces_v pattern args t.
(** [src/kernel/console.c:291-296] console_writef *)
Definition console_writef (pattern : list Z) (args : list va) (t : C) : outcome C :=
  console_write_braces_v pattern args t.
(** [src/kernel/console.c:305-311] console_writeln *)
Definition console_writeln (pattern : list Z) (args : list va) (t : C) : outcome C :=
  t ← console_write_braces_v pattern args t; console_putc 10 t.
(** [src/kernel/console.c:313-319] console_writelnf *)
Definition console_writelnf (pattern : list Z) (args : list va) (t : C) : outcome C :=
  t ← console_write_braces_v pattern args t; console_putc 10 t.

(** [src/kernel/console.c:378-382] console_vprintf *)
Definition console_vprintf (fmt : list Z) (args : list va) (t : C) : outcome C :=
  '(buffer, _) ← kvsnprintf (replicate 512 0) 512 fmt args;
  console_write_plain (cstr buffer) t.
(** [src/kernel/console.c:384-389] console_printf *)
Definition console_printf (fmt : list Z) (args : list va) (t : C) : outcome C :=
  console_vprintf fmt args t.

End Printing.

(** * What a format prints *)

Definition arg_bytes (a : va) : Prop :=
  match a with VaStr (Some s) => Forall in_u8 s | _ => True end.

(** The arguments left after one conversion, by kind only. *)
Definition fits_conv (d : Z) (args : list va) : option (list va) :=
  if decide (d = chr "s"%char) then match args with VaStr _ :: args => Some args | _ => None end
  else if decide (d ∈ str "cdiuxXp") then match args with VaWord _ :: args => Some args | _ => None end
  else Some args.

(** The argument kinds a format asks for agree with the arguments given; nothing
    about their values. *)
Fixpoint fits (fmt : list Z) (args : list va) {struct fmt} : bool :=
  match fmt with
  | [] => true
  | c :: fmt =>
      if decide (c = chr "%"%char) then
        match fmt with
        | [] => false
        | d :: fmt => match fits_conv d args with Some args => fits fmt args | None => false end
        end
      else fits fmt args
  end.

Definition fmt_bytes (fmt : list Z) : bool :=
  forallb (fun c => bool_decide (0 < c < 256)) fmt.

Lemma fmt_bytes_spec fmt : fmt_bytes fmt = true -> no_nul fmt /\ Forall in_u8 fmt.
Proof.
  induction fmt as [|c fmt IH]; simpl; intros H; [by split; constructor|].
  apply andb_true_iff in H as [Hc%bool_decide_eq_true [? ?]%IH].
  split; constructor; try done; unfold in_u8; lia.
Qed.

Lemma num_text_bytes up base v : Forall in_u8 (num_text up base v).
Proof.
  apply Forall_fmap, Forall_true. intros d. unfold digit_char. simpl.
  assert (Forall in_u8 (digits up)) as Hd by (destruct up; vm_compute; repeat constructor; discriminate).
  destruct (nth_in_or_default (Z.to_nat d) (digits up) 0) as [Hin| ->]; [|unfold in_u8; lia].
  rewrite Forall_forall in Hd. apply Hd. by apply list_elem_of_In.
Qed.

Lemma conversion_fits d args args' :
  fits_conv d args = Some args' -> exists t, conversion d args = Some (t, args').
Proof.
  unfold fits_conv. destruct (decide (d = chr "s"%char)) as [->|Hs].
  { destruct args as [|[|s] args]; intros [= <-]. by eexists. }
  destruct (decide (d ∈ str "cdiuxXp")) as [Hw|Hw].
  - destruct args as [|[w|] args]; intros [= <-]. cbn [str] in Hw.
    repeat (apply elem_of_cons in Hw as [->|Hw]; [by eexists|]). by apply not_elem_of_nil in Hw.
  - intros [= <-]. cbn [str] in Hw. unfold conversion.
    repeat (rewrite not_elem_of_cons in Hw). destruct_and! Hw.
    destruct (decide (d = chr "%"%char)) as [->|Hp]; [by eexists|].
    rewrite !decide_False by (done || (intros []; done)). by eexists.
Qed.

Lemma fits_render n : forall fmt args, (length fmt <= n)%nat ->
  fits fmt args = true -> is_Some (render fmt args).
Proof.
  induction n as [|n IH]; intros [|c fmt] args Hn Hf; simpl in Hn; try lia; [by eexists..|].
  simpl in Hf |- *. case_decide as Hc.
  - destruct fmt as [|d fmt]; [done|]. simpl in Hn.
    destruct (fits_conv d args) as [args'|] eqn:Hcv; [|done].
    destruct (conversion_fits _ _ _ Hcv) as [t ->]. simpl.
    destruct (IH fmt args' ltac:(lia) Hf) as [r ->]. simpl. eauto.
  - destruct (IH fmt args ltac:(lia) Hf) as [r ->]. simpl. eauto.
Qed.

Lemma conversion_bytes d args t args' :
  in_u8 d -> Forall arg_bytes args -> conversion d args = Some (t, args') ->
  Forall in_u8 t /\ Forall arg_bytes args'.
Proof.
  intros Hd Ha. unfold conversion.
  assert (forall s : string, Forall in_u8 (str s)) as Hstr.
  { induction s as [|[[] [] [] [] [] [] [] []] s IH]; simpl; constructor; done. }
  assert (Forall in_u8 (default (str "(null)") None)) as Hnull by apply (Hstr "(null)"%string).
  repeat case_decide; destruct args as [|[w|[s|]] args]; intros [= <- <-];
    try (apply Forall_cons in Ha as [Ha0 Ha]); split; try done;
    rewrite ?Forall_app; repeat constructor; try apply num_text_bytes; try apply u8_range; try done;
    try (case_decide; repeat constructor; done); try apply (Hstr "0x"%string);
    try (unfold in_u8 in *; lia).
Qed.

Lemma render_bytes n : forall fmt args t, (length fmt <= n)%nat ->
  Forall in_u8 fmt -> Forall arg_bytes args -> render fmt args = Some t -> Forall in_u8 t.
Proof.
  induction n as [|n IH]; intros [|c fmt] args t Hn Hb Ha Hr; simpl in Hn; try lia;
    [by injection Hr as <-..|].
  apply Forall_cons in Hb as [Hc Hb]. simpl in Hr. case_decide as Hp.
  - destruct fmt as [|d fmt]; [done|]. simpl in Hn. apply Forall_cons in Hb as [Hd Hb].
    destruct (conversion d args) as [[t1 args']|] eqn:Hcv; [|done]. simpl in Hr.
    destruct (conversion_bytes _ _ _ _ Hd Ha Hcv) as [Ht1 Ha'].
    destruct (render fmt args') as [r|] eqn:Hr'; [|done]. simpl in Hr. simplify_eq.
    apply Forall_app. split; [done|]. apply (IH fmt args'); done || lia.
  - destruct (render fmt args) as [r|] eqn:Hr'; [|done]. simpl in Hr. simplify_eq.
    constructor; [done|]. apply (IH fmt args); done || lia.
Qed.

Lemma render_braces_bytes n : forall p args t, (length p <= n)%nat ->
  Forall in_u8 p -> Forall arg_bytes args -> render_braces p args = Some t -> Forall in_u8 t.
Proof.
  assert (forall (f : list Z -> list Z) x t, f <$> x = Some t -> exists t', x = Some t' /\ t = f t') as Hinv.
  { intros f [x|] t; simpl; [|done]. intros; simplify_eq; eauto. }
  induction n as [|n IH]; intros [|c [|d p]] args t Hn Hb Ha Hr; simpl in Hn; try lia.
  1, 2: by injection Hr as <-.
  { simpl in Hr. injection Hr as <-. done. }
  apply Forall_cons in Hb as [Hc Hb]. pose proof (Forall_inv_tail Hb) as Hb'.
  rewrite render_braces_2 in Hr. repeat case_decide.
  - apply Hinv in Hr as (t' & Hr & ->). constructor; [done|]. apply (IH p args); done || lia.
  - apply Hinv in Hr as (t' & Hr & ->). constructor; [done|]. apply (IH p args); done || lia.
  - destruct args as [|[w|s] args]; try done. apply Hinv in Hr as (t' & Hr & ->).
    apply Forall_cons in Ha as [Ha0 Ha]. apply Forall_app. split.
    + destruct s; [done|]. repeat constructor; done.
    + apply (IH p args); done || lia.
  - apply Hinv in Hr as (t' & Hr & ->). constructor; [done|].
    apply (IH (d :: p) args); done || (simpl; lia).
Qed.

(** What reaches the console of a text printed through a local buffer. *)
Lemma printed_bytes buffer size o :
  Forall in_u8 o -> Forall in_u8 buffer -> Forall in_u8 (cstr (printed buffer size o)).
Proof.
  intros Ho Hb. assert (Forall in_u8 (printed buffer size o)) as Hp.
  { unfold printed. apply Forall_app. split; [by apply Forall_take|].
    constructor; [done|]. by apply Forall_drop. }
  clear Ho Hb. induction Hp as [|c l Hc _ IH]; simpl; [constructor|].
  case_decide; by constructor.
Qed.

(** * What printing sends *)

Section Laws.
Context {C : Type} `{TerminalLaws C}.

Definition line_text (s : list Z) : list Z := s ≫= line_bytes.

Lemma write_plain_spec (s : list Z) : forall t : C, Forall in_u8 s -> term_ok t ->
  exists t', console_write_plain s t = Val t' /\ term_ok t'
             /\ term_sent t' = term_sent t ++ line_text s.
Proof.
  induction s as [|c s IH]; intros t Hs Ht.
  - exists t. split; [done|]. split; [done|]. by rewrite app_nil_r.
  - apply Forall_cons in Hs as [Hc Hs]. cbn [console_write_plain].
    destruct (putc_law c t Hc Ht) as (t1 & -> & Ht1 & He1).
    destruct (IH t1 Hs Ht1) as (t2 & He & Ht2 & He2). exists t2.
    split; [done|]. split; [done|]. rewrite He2, He1, <- app_assoc. done.
Qed.

Lemma write_n_spec (s : list Z) (n : Z) (t : C) :
  Forall in_u8 s -> term_ok t -> 0 <= n <= Z.of_nat (length s) ->
  exists t', console_write_n s n t = Val t' /\ term_ok t'
             /\ term_sent t' = term_sent t ++ line_text (take (Z.to_nat n) s).
Proof.
  intros Hs Ht Hn. unfold console_write_n.
  destruct (for_loop_inv (fun i (t' : C) => term_ok t' /\
      term_sent t' = term_sent t ++ line_text (take (Z.to_nat i) s))
    (Z.to_nat n) 0 (fun i t => c ← aget s i; console_putc c t) t) as (t' & Hr & Hok & Hsent).
  - split; [done|]. by rewrite app_nil_r.
  - intros i t' Hi [Hok He]. destruct (aget_in_range s i) as [c Hc]; [lia|].
    rewrite Hc. cbn [mbind outcome_bind]. apply aget_Val in Hc as [_ Hc].
    pose proof Hs as Hall. rewrite Forall_lookup in Hall.
    destruct (putc_law c t' (Hall _ _ Hc) Hok) as (t'' & -> & Hok' & He').
    exists t''. split; [done|]. split; [done|].
    rewrite He', He, <- app_assoc. f_equal.
    replace (Z.to_nat (i + 1)) with (S (Z.to_nat i)) by lia.
    rewrite (take_S_r _ _ _ Hc). unfold line_text. rewrite bind_app.
    cbn. by rewrite app_nil_r.
  - exists t'. split; [done|]. split; [done|]. by replace (0 + Z.of_nat (Z.to_nat n)) with n in Hsent by lia.
Qed.

(** ** Formatted output *)

(** An effect that only appends to what was sent. *)
Definition prints (f : C -> outcome C) : Prop :=
  forall t, term_ok t ->
    exists t' o, f t = Val t' /\ term_ok t' /\ term_sent t' = term_sent t ++ o.

Lemma prints_bind (f g : C -> outcome C) :
  prints f -> prints g -> prints (fun t => t ← f t; g t).
Proof.
  intros Hf Hg t Ht. destruct (Hf t Ht) as (t1 & o1 & -> & Ht1 & He1).
  destruct (Hg t1 Ht1) as (t2 & o2 & He & Ht2 & He2). exists t2, (o1 ++ o2).
  split; [done|]. split; [done|]. by rewrite He2, He1, app_assoc.
Qed.

(** A character that is not a byte is sent as one, too. *)
Lemma prints_any c : prints (console_putc c).
Proof. intros t Ht. by apply putc_any. Qed.

Lemma prints_putc c : in_u8 c -> prints (console_putc c).
Proof. intros _. apply prints_any. Qed.

Lemma prints_plain s : prints (console_write_plain s).
Proof.
  induction s as [|c s IH]; [|exact (prints_bind (console_putc c) _ (prints_any c) IH)].
  intros t Ht. exists t, []. by rewrite app_nil_r.
Qed.

(** A format prints when its conversions fit its arguments, whatever bytes they hold. *)
Lemma printf_fits fmt args : fits fmt args = true -> fmt_bytes fmt = true -> prints (console_printf fmt args).
Proof.
  intros Hfit [Hnul _]%fmt_bytes_spec t Ht. unfold console_printf, console_vprintf.
  destruct (fits_render _ fmt args (Nat.le_refl _) Hfit) as [o Ho].
  rewrite (kvsnprintf_spec _ 512 fmt args o) by (rewrite ?length_replicate; done || lia).
  cbn [mbind outcome_bind]. by apply prints_plain.
Qed.

Lemma printf_prints fmt args :
  fits fmt args = true -> fmt_bytes fmt = true -> Forall arg_bytes args ->
  prints (console_printf fmt args).
Proof. intros ? ? _. by apply printf_fits. Qed.

(** So does a pattern with enough arguments. *)
Lemma braces_fits p args : is_Some (render_braces p args) -> prints (console_write_braces_v p args).
Proof.
  intros [o Ho] t Ht. unfold console_write_braces_v.
  rewrite (kvformat_braces_spec _ 1024 p args o) by (rewrite ?length_replicate; done || lia).
  cbn [mbind outcome_bind]. by apply prints_plain.
Qed.

Lemma braces_prints p args :
  is_Some (render_braces p args) -> Forall in_u8 p -> Forall arg_bytes args ->
  prints (console_write_braces_v p args).
Proof. intros ? _ _. by apply braces_fits. Qed.

Lemma writeln_prints p args :
  is_Some (render_braces p args) -> Forall in_u8 p -> Forall arg_bytes args ->
  prints (console_writeln p args).
Proof. intros. apply prints_bind; [by apply braces_prints|by apply prints_putc]. Qed.

(** A line without arguments, by computation. *)
Definition plain_line (p : list Z) : bool :=
  bool_decide (is_Some (render_braces p [])) && forallb (fun c => bool_decide (in_u8 c)) p.
Lemma line_prints p : plain_line p = true -> prints (console_writeln p []).
Proof.
  unfold plain_line. intros [Hr%bool_decide_eq_true Hb]%andb_true_iff. apply writeln_prints; [done| |constructor].
  apply Forall_forall. intros c Hc%list_elem_of_In. rewrite forallb_forall in Hb. by apply Hb, bool_decide_eq_true in Hc.
Qed.

(** An effect that sends just this. *)
Definition sends (o : list Z) (f : C -> outcome C) : Prop :=
  forall t, term_ok t -> exists t', f t = Val t' /\ term_ok t' /\ term_sent t' = term_sent t ++ o.

(** A text the printing buffers hold, by computation. *)
Definition holdable (o : list Z) : bool :=
  forallb (fun c => bool_decide (in_u8 c /\ c <> 0)) o && bool_decide (length o < 512)%nat.
Lemma holdable_spec o : holdable o = true -> Forall in_u8 o /\ no_nul o /\ (length o < 512)%nat.
Proof.
  unfold holdable. intros [Hb Hl%bool_decide_eq_true]%andb_true_iff. rewrite forallb_forall in Hb.
  unfold no_nul. rewrite !Forall_forall. split_and!; [..|done]; intros c Hc%list_elem_of_In;
    apply Hb, bool_decide_eq_true in Hc; tauto.
Qed.

Lemma holdable_intro o : Forall in_u8 o -> no_nul o -> (length o < 512)%nat -> holdable o = true.
Proof.
  unfold no_nul. rewrite !Forall_forall. intros Hb Hn Hl. apply andb_true_iff. split; [|by apply bool_decide_eq_true].
  apply forallb_forall. intros c Hc%list_elem_of_In. apply bool_decide_eq_true. auto.
Qed.

Lemma cstr_printed buffer size o : no_nul o -> Z.of_nat (length o) < size -> cstr (printed buffer size o) = o.
Proof.
  intros Ho Hl. unfold printed. rewrite take_ge by lia. by apply cstr_app_nul.
Qed.

Lemma printf_sends fmt args o : fmt_bytes fmt = true -> render fmt args = Some o -> holdable o = true ->
  sends (line_text o) (console_printf fmt args).
Proof.
  intros [Hnul _]%fmt_bytes_spec Ho (Hb & Hn & Hl)%holdable_spec t Ht. unfold console_printf, console_vprintf.
  rewrite (kvsnprintf_spec _ 512 fmt args o) by (rewrite ?length_replicate; done || lia).
  cbn [mbind outcome_bind]. rewrite cstr_printed by (done || lia). by apply write_plain_spec.
Qed.

Lemma writeln_sends p o : render_braces p [] = Some o -> holdable o = true ->
  sends (line_text (o ++ [10])) (console_writeln p []).
Proof.
  intros Ho (Hb & Hn & Hl)%holdable_spec t Ht. unfold console_writeln, console_write_braces_v.
  rewrite (kvformat_braces_spec _ 1024 p [] o) by (rewrite ?length_replicate; done || lia).
  cbn [mbind outcome_bind]. rewrite cstr_printed by (done || lia).
  destruct (write_plain_spec o t Hb Ht) as (t1 & -> & Ht1 & Hs1). cbn [mbind outcome_bind].
  destruct (putc_law 10 t1 ltac:(done) Ht1) as (t2 & -> & Ht2 & Hs2). exists t2. split; [done|]. split; [done|].
  rewrite Hs2, Hs1. unfold line_text. rewrite bind_app, <- app_assoc. done.
Qed.

End Laws.

(** * The plainest terminal *)

Module Transcript.

(** Input typed ahead and output sent. *)
Record transcript := Script {
  typed : list Z;
  sent : list Z;
}.

#[export] Instance transcript_terminal : Terminal transcript := {
  console_putc c t := Val (Script (typed t) (sent t ++ line_bytes c));
  console_try_read_char t :=
    Val (match typed t with
         | [] => (None, t)
         | c :: cs => (Some c, Script cs (sent t))
         end);
}.

#[export] Program Instance transcript_laws : TerminalLaws transcript := {
  term_ok t := Forall in_u8 (typed t);
  term_sent t := sent t;
}.
Next Obligation. intros c t Hc Ht. eexists. simpl. eauto. Qed.
Next Obligation. intros c t Ht. eexists _, _. simpl. eauto. Qed.
Next Obligation.
  intros [[|c cs] o]; simpl; intros Ht; eexists _, _; split_and!; try done.
  - by inversion_clear Ht.
  - intros ? [= ->]. by inversion_clear Ht.
Qed.

Example printf_transcript :
  console_printf (str "pid=%u") [VaWord 7] (Script [] (str "> "))
  = Val (Script [] (str "> pid=7")).
Proof. vm_compute. reflexivity. Qed.

End Transcript.
