(* ===== verification/Ports.v ===== *)
(** The I/O ports ([include/mgcore/io.h]): the hardware is a parameter.

    [Ports H] is what the [in] and [out] instructions do to a machine of type
    [H]; the drivers are generic in it.  Module [Bench] is a concrete machine
    for examples: scripted answers and a log of what was written. *)

From Stdlib Require Import ZArith Lia.
From stdpp Require Import base list.
From S2P Require Import Prelude.
Open Scope Z_scope.

Class Ports (H : Type) := {
  io_in8 : Z -> H -> Z * H;
  io_out8 : Z -> Z -> H -> H;
  io_in16 : Z -> H -> Z * H;
  io_out16 : Z -> Z -> H -> H;
  io_in32 : Z -> H -> Z * H;
  io_out32 : Z -> Z -> H -> H;
}.

(** The width of what a port delivers. *)
Class PortsLaws (H : Type) `{Ports H} := {
  io_in8_range p h : in_u8 (io_in8 p h).1;
  io_in16_range p h : in_u16 (io_in16 p h).1;
  io_in32_range p h : in_u32 (io_in32 p h).1;
}.

(** [include/mgcore/io.h:16-18] io_wait *)
Definition io_wait {H} `{Ports H} (h : H) : H := io_out8 0x80 0 h.

Module Bench.

(** The answers to the next reads, whatever the port, and the writes so far; a
    read beyond the script answers all ones, as an absent device does. *)
Record bench := Machine {
  answers : list Z;
  writes : list (Z * Z);
}.

Definition answer (w : Z) (h : bench) : Z * bench :=
  match answers h with
  | [] => (wrap w (-1), h)
  | a :: rest => (wrap w a, Machine rest (writes h))
  end.
Definition record (p v : Z) (h : bench) : bench := Machine (answers h) (writes h ++ [(p, v)]).

#[export] Instance bench_ports : Ports bench := {
  io_in8 p h := answer 8 h;
  io_out8 p v h := record p (u8 v) h;
  io_in16 p h := answer 16 h;
  io_out16 p v h := record p (u16 v) h;
  io_in32 p h := answer 32 h;
  io_out32 p v h := record p (u32 v) h;
}.

Lemma answer_range w h : 0 <= w -> 0 <= (answer w h).1 < 2 ^ w.
Proof. intros Hw. unfold answer. destruct (answers h); simpl; by apply wrap_range. Qed.

#[export] Instance bench_laws : PortsLaws bench.
Proof. split; intros p h; apply answer_range; lia. Qed.

End Bench.
