(* ===== verification/Console.v ===== *)
(** [src/kernel/console.c]: the console on the serial line and the VGA text screen.

    [g_history] keeps 512 rows of 80 cells, used as a ring; [vga] is the text
    memory at 0xB8000.  The waiting loop of [serial_putc] polls the line status
    register until the transmitter is empty, which only the hardware ends:
    [serial_patience] polls are given to it. *)

From Stdlib Require Import ZArith Lia Ascii.
From stdpp Require Import base list strings.
From S2P Require Import Prelude KString Terminal Ports.
Open Scope Z_scope.
Import Fmt.

(** [src/kernel/console.c:7-7] VGA_WIDTH *)
Definition VGA_WIDTH : Z := 80.
(** [src/kernel/console.c:8-8] VGA_HEIGHT *)
Definition VGA_HEIGHT : Z := 25.
(** [src/kernel/console.c:10-10] VGA_CRTC_INDEX_PORT *)
Definition VGA_CRTC_INDEX_PORT : Z := 0x3D4.
(** [src/kernel/console.c:11-11] VGA_CRTC_DATA_PORT *)
Definition VGA_CRTC_DATA_PORT : Z := 0x3D5.
(** [src/kernel/console.c:12-12] SERIAL_PORT *)
Definition SERIAL_PORT : Z := 0x3F8.
(** [src/kernel/console.c:13-13] CONSOLE_INPUT_CAPACITY *)
Definition CONSOLE_INPUT_CAPACITY : Z := 128.
(** [src/kernel/console.c:14-14] CONSOLE_HISTORY_LINES *)
Definition CONSOLE_HISTORY_LINES : Z := 512.

Definition serial_patience : nat := 1000.

(** [src/kernel/console.c:16-20] rgb_color *)
Record rgb_color := Rgb {
  c_r : Z;
  c_g : Z;
  c_b : Z;
}.

(** [src/kernel/console.c:22-27] k_vga_palette *)
Definition k_vga_palette : list rgb_color :=
  [Rgb 0x00 0x00 0x00; Rgb 0x00 0x00 0xAA; Rgb 0x00 0xAA 0x00; Rgb 0x00 0xAA 0xAA;
   Rgb 0xAA 0x00 0x00; Rgb 0xAA 0x00 0xAA; Rgb 0xAA 0x55 0x00; Rgb 0xAA 0xAA 0xAA;
   Rgb 0x55 0x55 0x55; Rgb 0x55 0x55 0xFF; Rgb 0x55 0xFF 0x55; Rgb 0x55 0xFF 0xFF;
   Rgb 0xFF 0x55 0x55; Rgb 0xFF 0x55 0xFF; Rgb 0xFF 0xFF 0x55; Rgb 0xFF 0xFF 0xFF].

(** [src/kernel/console.c:29-40] the console's statics, with the VGA memory and the
    ports *)
Record console (H : Type) := Console {
  g_history : list (list Z);
  g_abs_row : Z;
  g_col : Z;
  g_view_start : Z;
  g_follow_tail : bool;
  g_attr : Z;
  g_fg : rgb_color;
  g_bg : rgb_color;
  g_input_buffer : list Z;
  g_input_read_index : Z;
  g_input_write_index : Z;
  vga : list Z;
  ports : H;
}.
Arguments Console {H}.
Arguments g_history {H}.
Arguments g_abs_row {H}.
Arguments g_col {H}.
Arguments g_view_start {H}.
Arguments g_follow_tail {H}.
Arguments g_attr {H}.
Arguments g_fg {H}.
Arguments g_bg {H}.
Arguments g_input_buffer {H}.
Arguments g_input_read_index {H}.
Arguments g_input_write_index {H}.
Arguments vga {H}.
Arguments ports {H}.

(** [src/kernel/console.c:118-133] color_nearest_vga_index, one comparison *)
Definition nearer (c : rgb_color) (i : Z) (best : Z * Z) : outcome (Z * Z) :=
  p ← aget k_vga_palette i;
  let dr := c_r c - c_r p in
  let dg := c_g c - c_g p in
  let db := c_b c - c_b p in
  let dist := u32 (dr * dr + dg * dg + db * db) in
  Val (if decide (dist < snd best) then (i, dist) else best).

(** [src/kernel/console.c:118-133] color_nearest_vga_index *)
Definition color_nearest_vga_index (c : rgb_color) : outcome Z :=
  fst <$> for_loop 16 0 (nearer c) (0, 0xFFFFFFFF).

Section Console.
Context {H : Type} `{Ports H}.

(** ** Field updates *)

Definition with_history (h : list (list Z)) (c : console H) : console H :=
  Console h (g_abs_row c) (g_col c) (g_view_start c) (g_follow_tail c) (g_attr c) (g_fg c) (g_bg c)
    (g_input_buffer c) (g_input_read_index c) (g_input_write_index c) (vga c) (ports c).
Definition with_cursor (row col : Z) (c : console H) : console H :=
  Console (g_history c) row col (g_view_start c) (g_follow_tail c) (g_attr c) (g_fg c) (g_bg c)
    (g_input_buffer c) (g_input_read_index c) (g_input_write_index c) (vga c) (ports c).
Definition with_view (start : Z) (follow : bool) (c : console H) : console H :=
  Console (g_history c) (g_abs_row c) (g_col c) start follow (g_attr c) (g_fg c) (g_bg c)
    (g_input_buffer c) (g_input_read_index c) (g_input_write_index c) (vga c) (ports c).
Definition with_colors (attr : Z) (fg bg : rgb_color) (c : console H) : console H :=
  Console (g_history c) (g_abs_row c) (g_col c) (g_view_start c) (g_follow_tail c) attr fg bg
    (g_input_buffer c) (g_input_read_index c) (g_input_write_index c) (vga c) (ports c).
Definition with_input (b : list Z) (r w : Z) (c : console H) : console H :=
  Console (g_history c) (g_abs_row c) (g_col c) (g_view_start c) (g_follow_tail c) (g_attr c) (g_fg c) (g_bg c)
    b r w (vga c) (ports c).
Definition with_vga (v : list Z) (c : console H) : console H :=
  Console (g_history c) (g_abs_row c) (g_col c) (g_view_start c) (g_follow_tail c) (g_attr c) (g_fg c) (g_bg c)
    (g_input_buffer c) (g_input_read_index c) (g_input_write_index c) v (ports c).
Definition with_ports (h : H) (c : console H) : console H :=
  Console (g_history c) (g_abs_row c) (g_col c) (g_view_start c) (g_follow_tail c) (g_attr c) (g_fg c) (g_bg c)
    (g_input_buffer c) (g_input_read_index c) (g_input_write_index c) (vga c) h.

(** ** The input ring *)

(** [src/kernel/console.c:42-44] input_buffer_is_empty *)
Definition input_buffer_is_empty (c : console H) : bool :=
  bool_decide (g_input_read_index c = g_input_write_index c).

(** [src/kernel/console.c:46-48] input_buffer_is_full *)
Definition input_buffer_is_full (c : console H) : bool :=
  bool_decide (u64 (g_input_write_index c + 1) mod CONSOLE_INPUT_CAPACITY = g_input_read_index c).

(** [src/kernel/console.c:50-57] input_buffer_pop, with a non-null [out] *)
Definition input_buffer_pop (c : console H) : outcome (option Z * console H) :=
  if input_buffer_is_empty c then Val (None, c)
  else
    x ← aget (g_input_buffer c) (g_input_read_index c);
    Val (Some x, with_input (g_input_buffer c)
                   (u64 (g_input_read_index c + 1) mod CONSOLE_INPUT_CAPACITY) (g_input_write_index c) c).

(** [src/kernel/console.c:391-397] console_enqueue_input *)
Definition console_enqueue_input (x : Z) (c : console H) : outcome (console H) :=
  if input_buffer_is_full c then Val c
  else
    b ← aset (g_input_buffer c) (g_input_write_index c) x;
    Val (with_input b (g_input_read_index c)
           (u64 (g_input_write_index c + 1) mod CONSOLE_INPUT_CAPACITY) c).

(** ** The serial line *)

(** [src/kernel/console.c:59-67] serial_init *)
Definition serial_init (h : H) : H :=
  let h := io_out8 (SERIAL_PORT + 1) 0x00 h in
  let h := io_out8 (SERIAL_PORT + 3) 0x80 h in
  let h := io_out8 (SERIAL_PORT + 0) 0x03 h in
  let h := io_out8 (SERIAL_PORT + 1) 0x00 h in
  let h := io_out8 (SERIAL_PORT + 3) 0x03 h in
  let h := io_out8 (SERIAL_PORT + 2) 0xC7 h in
  io_out8 (SERIAL_PORT + 4) 0x0B h.

(** [src/kernel/console.c:69-71] serial_is_transmit_empty *)
Definition serial_is_transmit_empty (h : H) : bool * H :=
  let '(v, h) := io_in8 (SERIAL_PORT + 5) h in (bool_decide (Z.land v 0x20 <> 0), h).

(** [src/kernel/console.c:73-75] serial_has_input *)
Definition serial_has_input (h : H) : bool * H :=
  let '(v, h) := io_in8 (SERIAL_PORT + 5) h in (bool_decide (Z.land v 0x01 <> 0), h).

(** [src/kernel/console.c:78-79] serial_putc, the waiting loop *)
Fixpoint serial_wait (polls : nat) (h : H) : outcome H :=
  match polls with
  | O => Stop OutOfFuel
  | S polls => let '(empty, h) := serial_is_transmit_empty h in if empty then Val h else serial_wait polls h
  end.

(** [src/kernel/console.c:77-81] serial_putc *)
Definition serial_putc (x : Z) (h : H) : outcome H :=
  h ← serial_wait serial_patience h; Val (io_out8 SERIAL_PORT (u8 x) h).

(** [src/kernel/console.c:83-87] serial_write *)
Fixpoint serial_write (s : list Z) (h : H) : outcome H :=
  match s with
  | [] => Val h
  | x :: s => h ← serial_putc x h; serial_write s h
  end.

(** ** Rows and the viewport *)

(** [src/kernel/console.c:95-97] history_min_abs_row *)
Definition history_min_abs_row (c : console H) : Z :=
  if decide (u64 (g_abs_row c + 1) > CONSOLE_HISTORY_LINES)
  then u64 (u64 (g_abs_row c + 1) - CONSOLE_HISTORY_LINES) else 0.

(** [src/kernel/console.c:99-101] viewport_max_start *)
Definition viewport_max_start (c : console H) : Z :=
  if decide (g_abs_row c >= VGA_HEIGHT - 1) then g_abs_row c - (VGA_HEIGHT - 1) else 0.

Definition blank (c : console H) : Z := Z.lor (Z.shiftl (g_attr c) 8) (chr " "%char).

(** [src/kernel/console.c:103-109] history_clear_row *)
Definition history_clear_row (abs_row : Z) (c : console H) : outcome (console H) :=
  h ← aset (g_history c) (abs_row mod CONSOLE_HISTORY_LINES) (replicate (Z.to_nat VGA_WIDTH) (blank c));
  Val (with_history h c).

(** [src/kernel/console.c:111-113] history_cell, stored to *)
Definition set_history_cell (abs_row col : Z) (v : Z) (c : console H) : outcome (console H) :=
  row ← aget (g_history c) (abs_row mod CONSOLE_HISTORY_LINES);
  row ← aset row col v;
  h ← aset (g_history c) (abs_row mod CONSOLE_HISTORY_LINES) row;
  Val (with_history h c).

(** [src/kernel/console.c:135-139] console_update_attr *)
Definition console_update_attr (c : console H) : outcome (console H) :=
  fg ← color_nearest_vga_index (g_fg c);
  bg ← color_nearest_vga_index (g_bg c);
  Val (with_colors (u8 (Z.lor (Z.shiftl bg 4) fg)) (g_fg c) (g_bg c) c).

(** [src/kernel/console.c:141-148] serial_emit_ansi_color *)
Definition serial_emit_ansi_color (c : console H) : outcome (console H) :=
  '(buffer, _) ← ksnprintf (replicate 96 0) 96
     (27 :: str "[38;2;%u;%u;%um" ++ 27 :: str "[48;2;%u;%u;%um")
     [VaWord (c_r (g_fg c)); VaWord (c_g (g_fg c)); VaWord (c_b (g_fg c));
      VaWord (c_r (g_bg c)); VaWord (c_g (g_bg c)); VaWord (c_b (g_bg c))];
  h ← serial_write (cstr buffer) (ports c);
  Val (with_ports h c).

(** [src/kernel/console.c:150-165] vga_update_hw_cursor *)
Definition vga_update_hw_cursor (c : console H) : console H :=
  let '(row, col) :=
    if decide (g_abs_row c >= g_view_start c /\ g_abs_row c < u64 (g_view_start c + VGA_HEIGHT))
    then (g_abs_row c - g_view_start c, g_col c) else (VGA_HEIGHT - 1, VGA_WIDTH - 1) in
  let position := u16 (row * VGA_WIDTH + col) in
  let h := io_out8 VGA_CRTC_INDEX_PORT 0x0F (ports c) in
  let h := io_out8 VGA_CRTC_DATA_PORT (u8 (Z.land position 0xFF)) h in
  let h := io_out8 VGA_CRTC_INDEX_PORT 0x0E h in
  let h := io_out8 VGA_CRTC_DATA_PORT (u8 (Z.land (Z.shiftr position 8) 0xFF)) h in
  with_ports h c.

(** [src/kernel/console.c:171-184] vga_render_view, the rows from [row] on *)
Fixpoint render_rows (n : nat) (row : Z) (c : console H) : outcome (list Z) :=
  match n with
  | O => Val []
  | S n =>
      let abs_row := u64 (g_view_start c + row) in
      cells ← (if decide (abs_row < history_min_abs_row c \/ abs_row > g_abs_row c)
               then Val (replicate (Z.to_nat VGA_WIDTH) (blank c))
               else aget (g_history c) (abs_row mod CONSOLE_HISTORY_LINES));
      rest ← render_rows n (row + 1) c;
      Val (cells ++ rest)
  end.

(** [src/kernel/console.c:167-187] vga_render_view *)
Definition vga_render_view (c : console H) : outcome (console H) :=
  cells ← render_rows (Z.to_nat VGA_HEIGHT) 0 c;
  Val (vga_update_hw_cursor (with_vga cells c)).

(** [src/kernel/console.c:189-198] viewport_clamp *)
Definition viewport_clamp (c : console H) : console H :=
  let min_start := history_min_abs_row c in
  let max_start := viewport_max_start c in
  let start := if decide (g_view_start c < min_start) then min_start else g_view_start c in
  let start := if decide (start > max_start) then max_start else start in
  with_view start (g_follow_tail c) c.

(** [src/kernel/console.c:200-206] viewport_after_output *)
Definition viewport_after_output (c : console H) : console H :=
  if g_follow_tail c then with_view (viewport_max_start c) (g_follow_tail c) c else viewport_clamp c.

(** [src/kernel/console.c:208-212] advance_new_line *)
Definition advance_new_line (c : console H) : outcome (console H) :=
  let c := with_cursor (u64 (g_abs_row c + 1)) 0 c in
  history_clear_row (g_abs_row c) c.

(** [src/kernel/console.c:214-220] console_write_visible_char *)
Definition console_write_visible_char (x : Z) (c : console H) : outcome (console H) :=
  c ← set_history_cell (g_abs_row c) (g_col c) (Z.lor (Z.shiftl (g_attr c) 8) (u8 x)) c;
  let c := with_cursor (g_abs_row c) (g_col c + 1) c in
  if decide (g_col c >= VGA_WIDTH) then advance_new_line c else Val c.

(** ** Operations *)

(** [src/kernel/console.c:227-246] console_clear *)
Definition console_clear (c : console H) : outcome (console H) :=
  let c := with_view 0 true (with_cursor 0 0 c) in
  let c := with_colors (g_attr c) (Rgb 0xC0 0xC0 0xC0) (Rgb 0 0 0) c in
  c ← console_update_attr c;
  let c := with_input (g_input_buffer c) 0 0 c in
  c ← for_loop (Z.to_nat CONSOLE_HISTORY_LINES) 0 history_clear_row c;
  c ← history_clear_row 0 c;
  h ← serial_write (27 :: str "[0m") (ports c);
  c ← serial_emit_ansi_color (with_ports h c);
  vga_render_view c.

(** [src/kernel/console.c:222-225] console_init *)
Definition console_init (c : console H) : outcome (console H) :=
  console_clear (with_ports (serial_init (ports c)) c).

(** [src/kernel/console.c:254-272] console_putc, what one character does to the rows *)
Definition putc_cells (x : Z) (c : console H) : outcome (console H) :=
  if decide (x = 13) then Val (with_cursor (g_abs_row c) 0 c)
  else if decide (x = 10) then advance_new_line c
  else if decide (x = 8) then
    if decide (g_col c > 0) then
      let c := with_cursor (g_abs_row c) (g_col c - 1) c in
      set_history_cell (g_abs_row c) (g_col c) (blank c) c
    else if decide (g_abs_row c > 0) then
      let c := with_cursor (g_abs_row c - 1) (VGA_WIDTH - 1) c in
      set_history_cell (g_abs_row c) (g_col c) (blank c) c
    else Val c
  else if decide (x = 9) then
    for_loop (Z.to_nat (4 - g_col c mod 4)) 0 (fun _ c => console_write_visible_char (chr " "%char) c) c
  else if decide (u8 x >= 0x20) then console_write_visible_char x c
  else Val c.

(** [src/kernel/console.c:248-276] console_putc *)
Definition console_putc_vga (x : Z) (c : console H) : outcome (console H) :=
  h ← (if decide (x = 10) then serial_putc 13 (ports c) else Val (ports c));
  h ← serial_putc x h;
  c ← putc_cells x (with_ports h c);
  vga_render_view (viewport_after_output c).

(** [src/kernel/console.c:321-327] console_set_color_rgb *)
Definition console_set_color_rgb (fr fg fb br bg bb : Z) (c : console H) : outcome (console H) :=
  c ← console_update_attr (with_colors (g_attr c) (Rgb fr fg fb) (Rgb br bg bb) c);
  serial_emit_ansi_color c.

(** [src/kernel/console.c:329-336] console_set_color_hex *)
Definition console_set_color_hex (fg_hex bg_hex : Z) (c : console H) : outcome (console H) :=
  console_set_color_rgb (u8 (Z.land (Z.shiftr fg_hex 16) 0xFF)) (u8 (Z.land (Z.shiftr fg_hex 8) 0xFF))
    (u8 (Z.land fg_hex 0xFF)) (u8 (Z.land (Z.shiftr bg_hex 16) 0xFF))
    (u8 (Z.land (Z.shiftr bg_hex 8) 0xFF)) (u8 (Z.land bg_hex 0xFF)) c.

(** [src/kernel/console.c:338-340] console_reset_color *)
Definition console_reset_color (c : console H) : outcome (console H) :=
  console_set_color_hex 0xC0C0C0 0x000000 c.

(** [src/kernel/console.c:342-370] console_scroll_view *)
Definition console_scroll_view (delta_lines : Z) (c : console H) : outcome (console H) :=
  if decide (delta_lines = 0) then Val c
  else
    let min_start := history_min_abs_row c in
    let max_start := viewport_max_start c in
    let start :=
      if decide (delta_lines > 0) then
        if decide (delta_lines > u64 (g_view_start c - min_start)) then min_start
        else u64 (g_view_start c - delta_lines)
      else
        let delta := u64 (i32 (- delta_lines)) in
        if decide (u64 (g_view_start c + delta) > max_start) then max_start
        else u64 (g_view_start c + delta) in
    vga_render_view (with_view start (bool_decide (start = max_start)) c).

(** [src/kernel/console.c:372-376] console_view_to_bottom *)
Definition console_view_to_bottom (c : console H) : outcome (console H) :=
  vga_render_view (with_view (viewport_max_start c) true c).

(** [src/kernel/console.c:399-409] console_try_read_char, with a non-null [out] *)
Definition console_try_read_char_vga (c : console H) : outcome (option Z * console H) :=
  let '(ready, h) := serial_has_input (ports c) in
  let c := with_ports h c in
  c ← (if ready then
         let '(x, h) := io_in8 SERIAL_PORT (ports c) in console_enqueue_input x (with_ports h c)
       else Val c);
  input_buffer_pop c.

End Console.

(** This console is a terminal. *)
#[export] Instance vga_terminal {H} `{Ports H} : Terminal (console H) := {
  console_putc := console_putc_vga;
  console_try_read_char := console_try_read_char_vga;
}.
