(* ===== verification/Screen.v ===== *)
(** What the console of [Console.v] promises: it is a lawful [Terminal] over any
    serial hardware that becomes ready, its input is a bounded queue, and the
    screen shows the end of the text printed. *)

From Stdlib Require Import ZArith Lia Ascii.
From stdpp Require Import base list strings.
From S2P Require Import Prelude KString Terminal Ports Console.
Open Scope Z_scope.
Import Fmt.

(** * The serial hardware *)

Section Ready.
Context {H : Type} `{Ports H}.

(** The transmitter is found empty within [n] polls. *)
Fixpoint ready_within (n : nat) (h : H) : Prop :=
  match n with
  | O => False
  | S n => (serial_is_transmit_empty h).1 = true \/ ready_within n (serial_is_transmit_empty h).2
  end.

End Ready.

(** A UART out of configuration mode: bytes written to the data port are sent, no
    other access the console makes sends anything, and the transmitter becomes
    ready. *)
Class Uart (H : Type) `{PortsLaws H} := {
  uart_ok : H -> Prop;
  uart_sent : H -> list Z;
  uart_in p h : uart_ok h -> uart_ok (io_in8 p h).2 /\ uart_sent (io_in8 p h).2 = uart_sent h;
  uart_data v h : uart_ok h -> uart_ok (io_out8 SERIAL_PORT v h) /\ uart_sent (io_out8 SERIAL_PORT v h) = uart_sent h ++ [v];
  uart_crtc p v h : uart_ok h -> p = VGA_CRTC_INDEX_PORT \/ p = VGA_CRTC_DATA_PORT ->
    uart_ok (io_out8 p v h) /\ uart_sent (io_out8 p v h) = uart_sent h;
  uart_ready h : uart_ok h -> ready_within serial_patience h;
}.

(** * Well-formed consoles *)

Record console_wf {H} (c : console H) : Prop := {
  cw_rows : length (g_history c) = 512%nat;
  cw_cols : Forall (fun row => length row = 80%nat) (g_history c);
  cw_col : 0 <= g_col c < 80;
  cw_row : in_u64 (g_abs_row c);
  cw_input : length (g_input_buffer c) = 128%nat;
  cw_bytes : Forall in_u8 (g_input_buffer c);
  cw_read : 0 <= g_input_read_index c < 128;
  cw_write : 0 <= g_input_write_index c < 128;
}.

Section Wf.
Context {H : Type} `{Uart H}.

(** ** Sending *)

Lemma serial_wait_spec n : forall h, uart_ok h -> ready_within n h ->
  exists h', serial_wait n h = Val h' /\ uart_ok h' /\ uart_sent h' = uart_sent h.
Proof.
  induction n as [|n IH]; intros h Hok Hr; [done|]. cbn [serial_wait ready_within] in *.
  destruct (uart_in (SERIAL_PORT + 5) h Hok) as [Hok' Hs]. unfold serial_is_transmit_empty in *.
  destruct (io_in8 (SERIAL_PORT + 5) h) as [v h1]. simpl in *. case_bool_decide; [by exists h1|].
  destruct Hr as [Hr|Hr]; [done|]. destruct (IH h1 Hok' Hr) as (h' & -> & Hok2 & Hs2).
  exists h'. split; [done|]. split; [done|congruence].
Qed.

Lemma serial_putc_any x h : uart_ok h ->
  exists h', serial_putc x h = Val h' /\ uart_ok h' /\ uart_sent h' = uart_sent h ++ [u8 x].
Proof.
  intros Hok. unfold serial_putc.
  destruct (serial_wait_spec serial_patience h Hok (uart_ready h Hok)) as (h1 & -> & Hok1 & Hs1).
  cbn [mbind outcome_bind]. destruct (uart_data (u8 x) h1 Hok1) as [Hok2 Hs2].
  eexists. split; [done|]. split; [done|congruence].
Qed.

Lemma serial_putc_spec x h : in_u8 x -> uart_ok h ->
  exists h', serial_putc x h = Val h' /\ uart_ok h' /\ uart_sent h' = uart_sent h ++ [x].
Proof. intros Hx Hok. destruct (serial_putc_any x h Hok) as (h' & Hr & Hok' & Hs). rewrite u8_small in Hs by done. by exists h'. Qed.

Lemma serial_write_spec s : forall h, Forall in_u8 s -> uart_ok h ->
  exists h', serial_write s h = Val h' /\ uart_ok h' /\ uart_sent h' = uart_sent h ++ s.
Proof.
  induction s as [|x s IH]; intros h Hs Hok; cbn [serial_write].
  - exists h. by rewrite app_nil_r.
  - apply Forall_cons in Hs as [Hx Hs]. destruct (serial_putc_spec x h Hx Hok) as (h1 & -> & Hok1 & Hs1).
    cbn [mbind outcome_bind]. destruct (IH h1 Hs Hok1) as (h2 & -> & Hok2 & Hs2).
    exists h2. split; [done|]. split; [done|]. by rewrite Hs2, Hs1, <- app_assoc.
Qed.

(** What [console_putc] sends before it touches the screen. *)
Definition sent_bytes (x : Z) : list Z := if decide (x = 10) then [13; 10] else [u8 x].
Lemma sent_line x : in_u8 x -> sent_bytes x = line_bytes x.
Proof. intros Hx. unfold sent_bytes, line_bytes. case_decide; [done|]. by rewrite u8_small. Qed.

Lemma putc_serial_spec x h : uart_ok h ->
  exists h', (h ← (if decide (x = 10) then serial_putc 13 h else Val h); serial_putc x h) = Val h'
    /\ uart_ok h' /\ uart_sent h' = uart_sent h ++ sent_bytes x.
Proof.
  intros Hok. unfold sent_bytes. case_decide as Hn.
  - destruct (serial_putc_any 13 h Hok) as (h1 & -> & Hok1 & Hs1). cbn [mbind outcome_bind].
    destruct (serial_putc_any x h1 Hok1) as (h2 & -> & Hok2 & Hs2). exists h2. split; [done|]. split; [done|].
    by rewrite Hs2, Hs1, <- app_assoc, Hn.
  - cbn [mbind outcome_bind]. by apply serial_putc_any.
Qed.

(** ** The screen stays in its arrays *)

(** [c'] differs from [c] in the rows and the cursor only. *)
Definition same_rest (c c' : console H) : Prop :=
  c' = with_history (g_history c') (with_cursor (g_abs_row c') (g_col c') c).

Lemma same_rest_trans c1 c2 c3 : same_rest c1 c2 -> same_rest c2 c3 -> same_rest c1 c3.
Proof. unfold same_rest. intros Ha Hb. rewrite Hb, Ha. done. Qed.

Lemma same_rest_wf (c c' : console H) :
  console_wf c -> same_rest c c' -> length (g_history c') = 512%nat ->
  Forall (fun row => length row = 80%nat) (g_history c') -> 0 <= g_col c' < 80 -> in_u64 (g_abs_row c') -> console_wf c'.
Proof. intros [] -> ? ? ? ?. by split. Qed.

Lemma slot_bounds r : (Z.to_nat (r mod CONSOLE_HISTORY_LINES) < 512)%nat /\ 0 <= r mod CONSOLE_HISTORY_LINES.
Proof. unfold CONSOLE_HISTORY_LINES. pose proof (Z.mod_pos_bound r 512). lia. Qed.

Definition slot (r : Z) : nat := Z.to_nat (r mod CONSOLE_HISTORY_LINES).

Lemma clear_row_spec r (c : console H) : length (g_history c) = 512%nat ->
  history_clear_row r c = Val (with_history (<[slot r := replicate 80 (blank c)]> (g_history c)) c).
Proof.
  intros Hl. destruct (slot_bounds r). unfold history_clear_row. rewrite aset_in_range by lia. done.
Qed.

Lemma set_cell_spec r col v (c : console H) row :
  length (g_history c) = 512%nat -> g_history c !! slot r = Some row -> 0 <= col < Z.of_nat (length row) ->
  set_history_cell r col v c
  = Val (with_history (<[slot r := <[Z.to_nat col := v]> row]> (g_history c)) c).
Proof.
  intros Hl Hr Hc. destruct (slot_bounds r). unfold set_history_cell.
  rewrite (aget_Some _ (r mod CONSOLE_HISTORY_LINES) row); [|lia|done]. cbn [mbind outcome_bind].
  rewrite aset_in_range by lia. cbn [mbind outcome_bind]. rewrite aset_in_range by lia. done.
Qed.

Lemma row_exists r (c : console H) : console_wf c -> exists row, g_history c !! slot r = Some row /\ length row = 80%nat.
Proof.
  intros Hc. destruct (slot_bounds r) as [Hb _]. destruct (lookup_lt_is_Some_2 (g_history c) (slot r)) as [row Hr].
  { rewrite (cw_rows _ Hc). done. }
  exists row. split; [done|]. pose proof (cw_cols _ Hc) as Hall. rewrite Forall_lookup in Hall. by eapply Hall.
Qed.

Lemma blank_row (c : console H) : length (replicate 80 (blank c) : list Z) = 80%nat.
Proof. apply length_replicate. Qed.

(** The state after a newline and after a cell is stored. *)
Definition newline_of (c : console H) : console H :=
  let r := u64 (g_abs_row c + 1) in
  with_history (<[slot r := replicate 80 (blank c)]> (g_history c)) (with_cursor r 0 c).

Definition cell_of (r col v : Z) (c : console H) : console H :=
  with_history (<[slot r := <[Z.to_nat col := v]> (nth (slot r) (g_history c) [])]> (g_history c)) c.

Lemma newline_spec (c : console H) : console_wf c ->
  advance_new_line c = Val (newline_of c) /\ console_wf (newline_of c).
Proof.
  intros Hc. split.
  - unfold advance_new_line. rewrite clear_row_spec by apply Hc. done.
  - apply (same_rest_wf c); try done; cbn.
    + rewrite length_insert. apply Hc.
    + apply Forall_insert; [apply Hc|apply blank_row].
    + auto with cint.
Qed.

Lemma cell_spec r col v (c : console H) : console_wf c -> 0 <= col < 80 ->
  set_history_cell r col v c = Val (cell_of r col v c) /\ console_wf (cell_of r col v c).
Proof.
  intros Hc Hcol. destruct (row_exists r c Hc) as (row & Hr & Hl). split.
  - rewrite (set_cell_spec r col v c row) by (done || lia || apply Hc). unfold cell_of.
    by rewrite (nth_lookup_Some _ _ _ _ Hr).
  - apply (same_rest_wf c); try done; cbn; try apply Hc.
    + rewrite length_insert. apply Hc.
    + apply Forall_insert; [apply Hc|]. by rewrite length_insert, (nth_lookup_Some _ _ _ _ Hr).
Qed.

Definition attributed (x : Z) (c : console H) : Z := Z.lor (Z.shiftl (g_attr c) 8) (u8 x).

Definition visible_of (x : Z) (c : console H) : console H :=
  let c1 := with_cursor (g_abs_row c) (g_col c + 1) (cell_of (g_abs_row c) (g_col c) (attributed x c) c) in
  if decide (g_col c + 1 >= 80) then newline_of c1 else c1.

Lemma with_cursor_wf row col (c : console H) : console_wf c -> in_u64 row -> 0 <= col < 80 -> console_wf (with_cursor row col c).
Proof. intros [] ? ?. by split. Qed.

(** Moving one past the last column, where only a newline can follow. *)
Lemma newline_after row col (c : console H) : console_wf c ->
  advance_new_line (with_cursor row col c) = Val (newline_of (with_cursor row col c))
  /\ console_wf (newline_of (with_cursor row col c)).
Proof.
  intros Hc. split.
  - unfold advance_new_line. rewrite clear_row_spec by apply Hc. done.
  - apply (same_rest_wf c); try done; cbn.
    + rewrite length_insert. apply Hc.
    + apply Forall_insert; [apply Hc|done].
    + auto with cint.
Qed.

Lemma visible_spec x (c : console H) : console_wf c ->
  console_write_visible_char x c = Val (visible_of x c) /\ console_wf (visible_of x c).
Proof.
  intros Hc. pose proof (cw_col _ Hc) as Hcol.
  destruct (cell_spec (g_abs_row c) (g_col c) (attributed x c) c Hc Hcol) as [Hset Hwf].
  unfold console_write_visible_char, visible_of. fold (attributed x c). rewrite Hset. cbn [mbind outcome_bind].
  change (g_abs_row (cell_of _ _ _ c)) with (g_abs_row c). change (g_col (cell_of _ _ _ c)) with (g_col c).
  cbn [g_col with_cursor]. unfold VGA_WIDTH. case_decide as Hend.
  - by apply newline_after.
  - split; [done|]. apply with_cursor_wf; [done|apply Hc|lia].
Qed.

Fixpoint spaces_of (n : nat) (c : console H) : console H :=
  match n with O => c | S n => spaces_of n (visible_of (chr " "%char) c) end.

Lemma spaces_spec n : forall i (c : console H), console_wf c ->
  for_loop n i (fun _ c => console_write_visible_char (chr " "%char) c) c = Val (spaces_of n c) /\ console_wf (spaces_of n c).
Proof.
  induction n as [|n IH]; intros i c Hc; cbn [for_loop spaces_of]; [done|].
  destruct (visible_spec (chr " "%char) c Hc) as [-> Hc']. cbn [mbind outcome_bind]. by apply IH.
Qed.

(** [putc_cells] as a function of the state. *)
Definition cells_of (x : Z) (c : console H) : console H :=
  if decide (x = 13) then with_cursor (g_abs_row c) 0 c
  else if decide (x = 10) then newline_of c
  else if decide (x = 8) then
    if decide (g_col c > 0) then
      cell_of (g_abs_row c) (g_col c - 1) (blank c) (with_cursor (g_abs_row c) (g_col c - 1) c)
    else if decide (g_abs_row c > 0) then cell_of (g_abs_row c - 1) 79 (blank c) (with_cursor (g_abs_row c - 1) 79 c)
    else c
  else if decide (x = 9) then spaces_of (Z.to_nat (4 - g_col c mod 4)) c
  else if decide (u8 x >= 0x20) then visible_of x c
  else c.

Lemma putc_cells_spec x (c : console H) : console_wf c ->
  putc_cells x c = Val (cells_of x c) /\ console_wf (cells_of x c).
Proof.
  intros Hc. pose proof (cw_col _ Hc) as Hcol. pose proof (cw_row _ Hc) as Hrow. unfold in_u64 in Hrow.
  unfold putc_cells, cells_of.
  case_decide; [split; [done|]; apply with_cursor_wf; [done|apply Hc|lia]|].
  case_decide; [by apply newline_spec|]. case_decide.
  - case_decide; [|case_decide; [|done]]; cbn [g_abs_row g_col with_cursor]; unfold VGA_WIDTH; change (80 - 1) with 79.
    + apply (cell_spec _ _ _ (with_cursor (g_abs_row c) (g_col c - 1) c)); [apply with_cursor_wf; [done|apply Hc|lia]|lia].
    + apply (cell_spec _ _ _ (with_cursor (g_abs_row c - 1) 79 c)); [apply with_cursor_wf; [done|unfold in_u64; lia|lia]|lia].
  - case_decide; [by apply spaces_spec|]. case_decide; [by apply visible_spec|done].
Qed.

(** ** Rendering *)

(** The 80 cells of screen row [row]. *)
Definition view_row (row : Z) (c : console H) : list Z :=
  let abs_row := u64 (g_view_start c + row) in
  if decide (abs_row < history_min_abs_row c \/ abs_row > g_abs_row c) then replicate 80 (blank c)
  else nth (slot abs_row) (g_history c) [].

Lemma render_rows_spec n : forall row (c : console H), console_wf c ->
  render_rows n row c = Val (seqZ row (Z.of_nat n) ≫= fun r => view_row r c).
Proof.
  induction n as [|n IH]; intros row c Hc; [done|]. cbn [render_rows].
  rewrite Nat2Z.inj_succ, seqZ_cons, bind_cons by lia. replace (Z.pred (Z.succ (Z.of_nat n))) with (Z.of_nat n) by lia.
  unfold Z.succ. unfold view_row at 1. destruct (row_exists (u64 (g_view_start c + row)) c Hc) as (cells & Hr & _).
  destruct (slot_bounds (u64 (g_view_start c + row))) as [_ Hs0].
  case_decide as Hout; cbn [mbind outcome_bind].
  - by rewrite (IH (row + 1)).
  - rewrite (aget_Some _ _ cells Hs0 Hr). cbn [mbind outcome_bind]. rewrite (IH (row + 1)) by done.
    cbn [mbind outcome_bind]. by rewrite (nth_lookup_Some _ _ _ _ Hr).
Qed.

Definition view_cells (c : console H) : list Z := seqZ 0 25 ≫= fun r => view_row r c.

Lemma crtc_keeps p v h s :
  uart_ok h /\ uart_sent h = s -> p = VGA_CRTC_INDEX_PORT \/ p = VGA_CRTC_DATA_PORT ->
  uart_ok (io_out8 p v h) /\ uart_sent (io_out8 p v h) = s.
Proof. intros [Hok <-] Hp. by apply uart_crtc. Qed.

Lemma update_hw_cursor_spec (c : console H) : uart_ok (ports c) ->
  exists h, vga_update_hw_cursor c = with_ports h c /\ uart_ok h /\ uart_sent h = uart_sent (ports c).
Proof.
  intros Hok. unfold vga_update_hw_cursor. destruct (if decide _ then _ else _) as [row col].
  eexists. split; [done|]. repeat (apply crtc_keeps; [|by (left + right)]). done.
Qed.

Lemma with_ports_wf h (c : console H) : console_wf c -> console_wf (with_ports h c).
Proof. intros []. by split. Qed.

Lemma with_vga_wf v (c : console H) : console_wf c -> console_wf (with_vga v c).
Proof. intros []. by split. Qed.

Lemma with_view_wf v f (c : console H) : console_wf c -> console_wf (with_view v f c).
Proof. intros []. by split. Qed.

Lemma render_spec (c : console H) : console_wf c -> uart_ok (ports c) ->
  exists h, vga_render_view c = Val (with_ports h (with_vga (view_cells c) c))
    /\ console_wf (with_ports h (with_vga (view_cells c) c)) /\ uart_ok h /\ uart_sent h = uart_sent (ports c).
Proof.
  intros Hc Hok. unfold vga_render_view. rewrite render_rows_spec by done. cbn [mbind outcome_bind].
  destruct (update_hw_cursor_spec (with_vga (view_cells c) c) Hok) as (h & Hh & Hok' & Hs).
  exists h. split; [|split; [by apply with_ports_wf, with_vga_wf|done]]. by rewrite <- Hh.
Qed.

(** The state [console_putc] ends in, up to the ports. *)
Definition shown (c : console H) : console H := with_vga (view_cells (viewport_after_output c)) (viewport_after_output c).

Lemma after_output_view (c : console H) : exists v, viewport_after_output c = with_view v (g_follow_tail c) c.
Proof. unfold viewport_after_output, viewport_clamp. destruct (g_follow_tail c) eqn:Hf; [|rewrite <- Hf]; by eexists. Qed.

Lemma same_rest_refl (c : console H) : same_rest c c.
Proof. by destruct c. Qed.

Lemma visible_rest x (c : console H) : same_rest c (visible_of x c).
Proof. unfold visible_of. case_decide; done. Qed.

Lemma spaces_rest n : forall c : console H, same_rest c (spaces_of n c).
Proof.
  induction n as [|n IH]; intros c; cbn [spaces_of]; [apply same_rest_refl|].
  eapply same_rest_trans; [apply visible_rest|apply IH].
Qed.

Lemma cells_rest x (c : console H) : same_rest c (cells_of x c).
Proof.
  unfold cells_of. repeat case_decide; try done; [apply same_rest_refl|apply spaces_rest|apply visible_rest|apply same_rest_refl].
Qed.

Lemma putc_any_spec x (c : console H) : console_wf c -> uart_ok (ports c) ->
  exists h1 h2, console_putc_vga x c = Val (with_ports h2 (shown (cells_of x (with_ports h1 c))))
    /\ console_wf (with_ports h2 (shown (cells_of x (with_ports h1 c))))
    /\ uart_ok h2 /\ uart_sent h2 = uart_sent (ports c) ++ sent_bytes x.
Proof.
  intros Hc Hok. unfold console_putc_vga.
  destruct (putc_serial_spec x (ports c) Hok) as (h1 & Hser & Hok1 & Hs1).
  destruct (if decide (x = 10) then _ else _) as [h0|]; [|done]. cbn [mbind outcome_bind] in Hser |- *. rewrite Hser.
  cbn [mbind outcome_bind].
  destruct (putc_cells_spec x (with_ports h1 c) (with_ports_wf h1 c Hc)) as [-> Hwf]. cbn [mbind outcome_bind].
  destruct (after_output_view (cells_of x (with_ports h1 c))) as [v Hv].
  assert (ports (viewport_after_output (cells_of x (with_ports h1 c))) = h1) as Hp.
  { rewrite Hv. cbn. by rewrite (cells_rest x (with_ports h1 c)). }
  destruct (render_spec (viewport_after_output (cells_of x (with_ports h1 c)))) as (h2 & Hr & Hw & Hok2 & Hs2).
  - rewrite Hv. by apply with_view_wf.
  - by rewrite Hp.
  - exists h1, h2. rewrite Hr. split; [done|]. split; [done|]. split; [done|]. by rewrite Hs2, Hp.
Qed.

Lemma putc_spec x (c : console H) : in_u8 x -> console_wf c -> uart_ok (ports c) ->
  exists h1 h2, console_putc_vga x c = Val (with_ports h2 (shown (cells_of x (with_ports h1 c))))
    /\ console_wf (with_ports h2 (shown (cells_of x (with_ports h1 c))))
    /\ uart_ok h2 /\ uart_sent h2 = uart_sent (ports c) ++ line_bytes x.
Proof.
  intros Hx Hc Hok. rewrite <- sent_line by done. by apply putc_any_spec.
Qed.

(** ** Input *)

Lemma enqueue_spec x (c : console H) : in_u8 x -> console_wf c ->
  exists c', console_enqueue_input x c = Val c' /\ console_wf c' /\ ports c' = ports c.
Proof.
  intros Hx Hc. unfold console_enqueue_input. destruct (input_buffer_is_full c); [by exists c|].
  pose proof (cw_write _ Hc). rewrite aset_in_range by (rewrite (cw_input _ Hc); lia). cbn [mbind outcome_bind].
  eexists. split; [done|]. split; [|done]. destruct Hc. split; try done; cbn.
  - by rewrite length_insert.
  - by apply Forall_insert.
  - unfold CONSOLE_INPUT_CAPACITY. apply Z.mod_pos_bound. lia.
Qed.

Lemma pop_spec (c : console H) : console_wf c ->
  exists r c', input_buffer_pop c = Val (r, c') /\ console_wf c' /\ ports c' = ports c /\ forall x, r = Some x -> in_u8 x.
Proof.
  intros Hc. unfold input_buffer_pop. destruct (input_buffer_is_empty c); [by exists None, c|].
  pose proof (cw_read _ Hc). destruct (aget_in_range (g_input_buffer c) (g_input_read_index c)) as [x Hx];
    [rewrite (cw_input _ Hc); lia|]. rewrite Hx. cbn [mbind outcome_bind].
  eexists _, _. split; [done|]. split; [|split; [done|]].
  - destruct Hc. split; try done; cbn. unfold CONSOLE_INPUT_CAPACITY. apply Z.mod_pos_bound. lia.
  - intros y [= <-]. apply aget_Val in Hx as [_ Hx]. pose proof (cw_bytes _ Hc) as Hall.
    rewrite Forall_lookup in Hall. by eapply Hall.
Qed.

(** The console is a lawful terminal: printing sends the text on the serial line,
    reading sends nothing. *)
#[export] Program Instance vga_terminal_laws : TerminalLaws (console H) := {
  term_ok c := console_wf c /\ uart_ok (ports c);
  term_sent c := uart_sent (ports c);
}.
Next Obligation.
  intros x c Hx [Hc Hok]. destruct (putc_spec x c Hx Hc Hok) as (h1 & h2 & Hr & Hw & Hok2 & Hs).
  eexists. split; [exact Hr|]. split; [by split|done].
Qed.
Next Obligation.
  intros x c [Hc Hok]. destruct (putc_any_spec x c Hc Hok) as (h1 & h2 & Hr & Hw & Hok2 & Hs).
  eexists _, _. split; [exact Hr|]. split; [by split|exact Hs].
Qed.
Next Obligation.
  intros c [Hc Hok]. cbn [console_try_read_char vga_terminal]. unfold console_try_read_char_vga, serial_has_input.
  destruct (uart_in (SERIAL_PORT + 5) (ports c) Hok) as [Hok1 Hs1].
  destruct (io_in8 (SERIAL_PORT + 5) (ports c)) as [v h1]. cbn [snd] in Hok1, Hs1.
  destruct (bool_decide _); cbn [ports with_ports].
  - destruct (uart_in SERIAL_PORT h1 Hok1) as [Hok2 Hs2]. pose proof (io_in8_range SERIAL_PORT h1) as Hx.
    destruct (io_in8 SERIAL_PORT h1) as [x h2]. cbn [fst snd] in *.
    destruct (enqueue_spec x (with_ports h2 (with_ports h1 c)) Hx) as (c1 & -> & Hc1 & Hp1); [by apply with_ports_wf, with_ports_wf|].
    cbn [mbind outcome_bind]. destruct (pop_spec c1 Hc1) as (r & c2 & -> & Hc2 & Hp2 & Hr). exists r, c2.
    rewrite Hp2, Hp1. cbn [ports with_ports]. split; [done|]. split; [done|]. split; [congruence|done].
  - cbn [mbind outcome_bind]. destruct (pop_spec (with_ports h1 c) (with_ports_wf h1 c Hc)) as (r & c2 & -> & Hc2 & Hp2 & Hr).
    exists r, c2. rewrite Hp2. cbn [ports with_ports]. split; [done|]. split; [done|]. split; [congruence|done].
Qed.

End Wf.

(** * The text the screen shows

    A page is the whole text printed so far, cut into rows of 80 cells, without
    the limits of the history ring: [p_rows] from the first row to the current
    one, the cursor's column, and the highest row ever reached (a backspace at
    the start of a row goes back to the end of the row above, which the ring may
    have forgotten). *)
Record page := Page {
  p_rows : list (list Z);
  p_col : Z;
  p_high : Z;
}.

Definition p_row (p : page) : Z := Z.of_nat (length (p_rows p)) - 1.

Section Page.
Context (attr : Z).

Definition cell (x : Z) : Z := Z.lor (Z.shiftl attr 8) (u8 x).
Definition blank_cell : Z := Z.lor (Z.shiftl attr 8) (chr " "%char).

Definition page_newline (p : page) : page :=
  Page (p_rows p ++ [replicate 80 blank_cell]) 0 (Z.max (p_high p) (p_row p + 1)).

(** Store a cell of the current row. *)
Definition page_set (col v : Z) (p : page) : page :=
  let n := pred (length (p_rows p)) in
  Page (<[n := <[Z.to_nat col := v]> (nth n (p_rows p) [])]> (p_rows p)) (p_col p) (p_high p).

Definition page_move (col : Z) (p : page) : page := Page (p_rows p) col (p_high p).

Definition page_visible (x : Z) (p : page) : page :=
  let p := page_move (p_col p + 1) (page_set (p_col p) (cell x) p) in
  if decide (p_col p >= 80) then page_newline p else p.

Fixpoint page_spaces (n : nat) (p : page) : page :=
  match n with O => p | S n => page_spaces n (page_visible (chr " "%char) p) end.

(** One character: carriage return, newline, backspace, tab, printable or other. *)
Definition page_putc (x : Z) (p : page) : page :=
  if decide (x = 13) then page_move 0 p
  else if decide (x = 10) then page_newline p
  else if decide (x = 8) then
    if decide (p_col p > 0) then page_set (p_col p - 1) blank_cell (page_move (p_col p - 1) p)
    else if decide (p_row p > 0) then
      page_set 79 blank_cell (Page (take (pred (length (p_rows p))) (p_rows p)) 79 (p_high p))
    else p
  else if decide (x = 9) then page_spaces (Z.to_nat (4 - p_col p mod 4)) p
  else if decide (u8 x >= 0x20) then page_visible x p
  else p.

Definition page_write (s : list Z) (p : page) : page := foldl (fun p x => page_putc x p) p s.

Definition empty_page : page := Page [replicate 80 blank_cell] 0 0.

(** The last 25 rows, with blank rows below them. *)
Definition page_screen (p : page) : list Z :=
  mjoin (drop (length (p_rows p) - 25) (p_rows p) ++ replicate (25 - length (p_rows p)) (replicate 80 blank_cell)).

End Page.

Record page_wf (p : page) : Prop := {
  pw_some : p_rows p <> [];
  pw_cols : Forall (fun row => length row = 80%nat) (p_rows p);
  pw_col : 0 <= p_col p < 80;
  pw_high : p_row p <= p_high p;
}.

(** The console holds the page: same cursor, and every row of the page that is less
    than 512 rows below the highest row reached is in the ring. *)
Record page_rel {H} (p : page) (c : console H) : Prop := {
  pr_wf : page_wf p;
  pr_row : g_abs_row c = p_row p;
  pr_col : g_col c = p_col p;
  pr_ring i row : p_rows p !! i = Some row -> p_high p - 511 <= Z.of_nat i ->
    g_history c !! slot (Z.of_nat i) = Some row;
}.

Section PageRel.
Context {H : Type} `{Uart H}.

Lemma slot_inj i j : 0 <= i -> 0 <= j -> Z.abs (i - j) < 512 -> slot i = slot j -> i = j.
Proof.
  unfold slot, CONSOLE_HISTORY_LINES. intros Hi Hj Hd He. apply Z2Nat.inj in He; try apply Z.mod_pos_bound; try lia.
  Z.div_mod_to_equations. lia.
Qed.

Lemma rows_length (p : page) : page_wf p -> Z.of_nat (length (p_rows p)) = p_row p + 1 /\ 0 <= p_row p.
Proof. intros [Hne _ _ _]. unfold p_row. destruct (p_rows p); [done|]. simpl. lia. Qed.

Lemma rel_newline p (c : console H) : page_rel p c -> console_wf c -> p_row p + 1 < 2 ^ 64 ->
  page_rel (page_newline (g_attr c) p) (newline_of c).
Proof.
  intros [Hwf Hr Hc Hring] Hcw Hb. destruct (rows_length p Hwf) as [Hlen H0']. pose proof (pw_high _ Hwf) as Hhigh.
  assert (u64 (g_abs_row c + 1) = p_row p + 1) as Hnext by (rewrite Hr; apply u64_small; unfold in_u64; lia).
  split; [split|..]; cbn [newline_of with_history with_cursor g_abs_row g_col g_history page_newline p_rows p_col p_high].
  - by destruct (p_rows p).
  - apply Forall_app. split; [apply Hwf|]. by repeat constructor.
  - lia.
  - unfold p_row at 1. cbn [page_newline p_rows]. rewrite length_app. simpl length. lia.
  - rewrite Hnext. unfold p_row at 2. cbn [page_newline p_rows]. rewrite length_app. simpl length. lia.
  - done.
  - intros i row Hi Hwin. rewrite Hnext. apply lookup_app_Some in Hi as [Hi|[Hge Hi]].
    + pose proof (lookup_lt_Some _ _ _ Hi) as Hlt. rewrite list_lookup_insert_ne; [apply Hring; [done|lia]|].
      intros He. apply slot_inj in He; lia.
    + apply list_lookup_singleton_Some in Hi as [Hi <-]. replace (Z.of_nat i) with (p_row p + 1) by lia.
      apply list_lookup_insert_eq. rewrite (cw_rows _ Hcw). apply slot_bounds.
Qed.

Lemma rel_set p (c : console H) col v : page_rel p c -> console_wf c -> 0 <= col < 80 ->
  page_rel (page_set col v p) (cell_of (g_abs_row c) col v c).
Proof.
  intros [Hwf Hr Hc Hring] Hcw Hb. destruct (rows_length p Hwf) as [Hlen H0']. pose proof (pw_high _ Hwf) as Hhigh.
  assert (length (p_rows (page_set col v p)) = length (p_rows p)) as Hl by (cbn; apply length_insert).
  destruct (lookup_lt_is_Some_2 (p_rows p) (pred (length (p_rows p))) ltac:(lia)) as [last Hlast].
  pose proof (pw_cols _ Hwf) as Hcols. pose proof Hcols as Hall. rewrite Forall_lookup in Hall.
  split; [split|..]; cbn [page_set cell_of with_history g_abs_row g_col g_history p_rows p_col p_high].
  - intros Hnil. apply (f_equal length) in Hnil. rewrite length_insert in Hnil. simpl in Hnil. lia.
  - apply Forall_insert; [done|]. rewrite length_insert, (nth_lookup_Some _ _ _ _ Hlast). by eapply Hall.
  - apply Hwf.
  - unfold p_row. rewrite Hl. apply Hhigh.
  - unfold p_row. by rewrite Hl, Hr.
  - done.
  - intros i row Hi Hwin. apply list_lookup_insert_Some in Hi as [(<- & <- & _)|[Hne Hi]].
    + rewrite Hr. replace (Z.of_nat (pred (length (p_rows p)))) with (p_row p) in * by (unfold p_row; lia).
      assert (g_history c !! slot (p_row p) = Some last) as Hslot.
      { replace (p_row p) with (Z.of_nat (pred (length (p_rows p)))) by (unfold p_row; lia). apply Hring; [done|unfold p_row in *; lia]. }
      rewrite list_lookup_insert_eq by (rewrite (cw_rows _ Hcw); apply slot_bounds).
      by rewrite (nth_lookup_Some _ _ _ _ Hslot), (nth_lookup_Some _ _ _ _ Hlast).
    + rewrite list_lookup_insert_ne; [by apply Hring|]. pose proof (lookup_lt_Some _ _ _ Hi) as Hlt.
      intros He. apply slot_inj in He; unfold p_row in *; lia.
Qed.

Lemma rel_move p (c : console H) col : page_rel p c -> 0 <= col < 80 ->
  page_rel (page_move col p) (with_cursor (g_abs_row c) col c).
Proof. intros [[] ? ? ?] Hb. by split. Qed.

Lemma newline_high attr p : page_wf p -> p_high (page_newline attr p) <= p_high p + 1.
Proof. intros [_ _ _ Hh]. cbn. lia. Qed.

Lemma visible_high attr x p : page_wf p -> p_high p <= p_high (page_visible attr x p) <= p_high p + 1.
Proof.
  intros Hwf. pose proof (pw_high _ Hwf). unfold page_visible. case_decide; cbn; unfold p_row in *; cbn; rewrite ?length_insert; lia.
Qed.

Lemma rel_visible x p (c : console H) : page_rel p c -> console_wf c -> p_high p + 1 < 2 ^ 64 ->
  page_rel (page_visible (g_attr c) x p) (visible_of x c).
Proof.
  intros Hrel Hcw Hb. pose proof (pw_col _ (pr_wf _ _ Hrel)) as Hcol. pose proof (pr_col _ _ Hrel) as Hc.
  destruct (cell_spec (g_abs_row c) (g_col c) (attributed x c) c Hcw (cw_col _ Hcw)) as [_ Hcw1].
  pose proof (rel_set p c (g_col c) (attributed x c) Hrel Hcw (cw_col _ Hcw)) as Hset.
  unfold page_visible, visible_of. cbn [page_move p_col]. rewrite <- Hc.
  change (cell (g_attr c) x) with (attributed x c). case_decide as Hend.
  - apply (rel_newline _ _ Hset Hcw1). pose proof (pw_high _ (pr_wf _ _ Hset)) as Hh.
    change (p_high (page_set _ _ p)) with (p_high p) in Hh. lia.
  - apply (rel_move _ _ _ Hset). rewrite Hc in *. lia.
Qed.

Lemma rel_spaces n : forall p (c : console H), page_rel p c -> console_wf c -> p_high p + Z.of_nat n < 2 ^ 64 ->
  page_rel (page_spaces (g_attr c) n p) (spaces_of n c).
Proof.
  induction n as [|n IH]; intros p c Hrel Hcw Hb; cbn [page_spaces spaces_of]; [done|].
  pose proof (visible_high (g_attr c) (chr " "%char) p (pr_wf _ _ Hrel)) as Hh.
  replace (g_attr c) with (g_attr (visible_of (chr " "%char) c)) at 1 by (by rewrite (visible_rest _ c)).
  apply IH; [apply rel_visible; (done || lia)|by apply visible_spec|lia].
Qed.

Lemma rel_up p (c : console H) : page_rel p c -> 0 < p_row p ->
  page_rel (Page (take (pred (length (p_rows p))) (p_rows p)) 79 (p_high p)) (with_cursor (g_abs_row c - 1) 79 c).
Proof.
  intros [Hwf Hr Hc Hring] Hb. destruct (rows_length p Hwf) as [Hlen _].
  assert (length (take (pred (length (p_rows p))) (p_rows p)) = pred (length (p_rows p))) as Hl by (rewrite length_take; lia).
  split; [split|..]; cbn [p_rows p_col p_high with_cursor g_abs_row g_col g_history].
  - intros Hnil. rewrite Hnil in Hl. simpl in Hl. lia.
  - apply Forall_take, Hwf.
  - lia.
  - unfold p_row. cbn [p_rows]. pose proof (pw_high _ Hwf). lia.
  - unfold p_row in *. cbn [p_rows]. lia.
  - done.
  - intros i row Hi Hwin. apply lookup_take_Some in Hi as [Hi _]. by apply Hring.
Qed.

Lemma rel_putc x p (c : console H) : page_rel p c -> console_wf c -> p_high p + 4 < 2 ^ 64 ->
  page_rel (page_putc (g_attr c) x p) (cells_of x c).
Proof.
  intros Hrel Hcw Hb. pose proof Hrel as [Hwf Hr Hc Hring]. pose proof (pw_col _ Hwf) as Hcol.
  destruct (rows_length p Hwf) as [Hlen H0']. pose proof (pw_high _ Hwf) as Hh.
  unfold page_putc, cells_of. rewrite <- Hc, <- Hr.
  case_decide; [by apply rel_move|]. case_decide; [apply rel_newline; (done || lia)|]. case_decide.
  - case_decide as Hpos; [|case_decide as Hup; [|done]].
    + apply (rel_set _ (with_cursor (g_abs_row c) (g_col c - 1) c)); [apply rel_move; (done || lia)| |lia].
      apply with_cursor_wf; [done|apply Hcw|lia].
    + apply (rel_set _ (with_cursor (g_abs_row c - 1) 79 c)); [apply rel_up; (done || lia)| |lia].
      apply with_cursor_wf; [done|unfold in_u64; lia|lia].
  - case_decide; [apply rel_spaces; (done || (pose proof (Z.mod_pos_bound (g_col c) 4); lia))|].
    case_decide; [apply rel_visible; (done || lia)|done].
Qed.

Lemma spaces_high attr n : forall p, (forall q, page_wf q -> page_wf (page_visible attr (chr " "%char) q)) -> page_wf p ->
  p_high (page_spaces attr n p) <= p_high p + Z.of_nat n.
Proof.
  induction n as [|n IH]; intros p Hv Hp; cbn [page_spaces]; [lia|].
  pose proof (IH (page_visible attr (chr " "%char) p) Hv (Hv p Hp)) as Hi.
  pose proof (visible_high attr (chr " "%char) p Hp). lia.
Qed.

Lemma bind_mjoin {A B} (f : A -> list B) l : l ≫= f = mjoin (f <$> l).
Proof. induction l as [|x l IH]; [done|]. by rewrite bind_cons, fmap_cons, mjoin_cons, IH. Qed.

(** ** The visible part *)

Lemma history_min_small (c : console H) : 0 <= g_abs_row c < 2 ^ 64 - 1 ->
  history_min_abs_row c = Z.max 0 (g_abs_row c - 511).
Proof.
  intros Hb. unfold history_min_abs_row, CONSOLE_HISTORY_LINES.
  rewrite (u64_small (g_abs_row c + 1)) by (unfold in_u64; lia).
  case_decide; [|lia]. rewrite u64_small by (unfold in_u64; lia). lia.
Qed.

(** While the view follows the end of the text, the screen is the end of the page,
    as long as the ring still has those rows. *)
Lemma view_follows p (c : console H) : page_rel p c -> console_wf c -> g_follow_tail c = true ->
  p_row p < 2 ^ 63 -> p_high p <= p_row p + 487 ->
  view_cells (viewport_after_output c) = page_screen (g_attr c) p.
Proof.
  intros [Hwf Hr Hc Hring] Hcw Hf Hb Hhigh. destruct (rows_length p Hwf) as [Hlen H0'].
  unfold viewport_after_output. rewrite Hf. set (c' := with_view (viewport_max_start c) true c).
  assert (g_view_start c' = Z.max 0 (p_row p - 24)) as Hstart.
  { cbn. unfold viewport_max_start, VGA_HEIGHT. rewrite Hr. case_decide; lia. }
  unfold view_cells, page_screen.
  assert (forall r, 0 <= r < 25 -> view_row r c' =
    default (replicate 80 (blank_cell (g_attr c))) (p_rows p !! Z.to_nat (Z.max 0 (p_row p - 24) + r))) as Hrow.
  { intros r Hrr. unfold view_row. rewrite Hstart, u64_small by (unfold in_u64; lia).
    rewrite history_min_small by (cbn; lia). cbn [c' with_view g_abs_row g_history]. rewrite Hr.
    destruct (p_rows p !! Z.to_nat (Z.max 0 (p_row p - 24) + r)) as [row|] eqn:Hl.
    - pose proof (lookup_lt_Some _ _ _ Hl). rewrite decide_False by lia. cbn [default].
      erewrite nth_lookup_Some; [done|]. rewrite <- (Z2Nat.id (Z.max 0 (p_row p - 24) + r)) by lia. apply Hring; [done|lia].
    - apply lookup_ge_None in Hl. rewrite decide_True by lia. done. }
  rewrite bind_mjoin. f_equal. apply list_eq. intros i. rewrite list_lookup_fmap.
  destruct (decide (i < 25)%nat) as [Hi|Hi].
  2:{ rewrite lookup_seqZ_ge by lia. symmetry. apply lookup_ge_None. rewrite length_app, length_drop, length_replicate. lia. }
  rewrite lookup_seqZ_lt by lia. cbn [fmap option_fmap option_map]. rewrite Hrow by lia.
  destruct (decide (i < length (drop (length (p_rows p) - 25) (p_rows p)))%nat) as [Hd|Hd].
  - rewrite lookup_app_l by done. rewrite lookup_drop. rewrite length_drop in Hd.
    replace (Z.to_nat (Z.max 0 (p_row p - 24) + (0 + Z.of_nat i))) with (length (p_rows p) - 25 + i)%nat by lia.
    destruct (lookup_lt_is_Some_2 (p_rows p) (length (p_rows p) - 25 + i)) as [row ->]; [lia|done].
  - rewrite lookup_app_r by lia. rewrite length_drop in Hd |- *.
    rewrite (lookup_ge_None_2 (p_rows p)) by lia. cbn [default]. by rewrite lookup_replicate_2 by lia.
Qed.

Lemma page_newline_wf attr p : page_wf p -> page_wf (page_newline attr p).
Proof.
  intros [Hne Hcols Hcol Hh]. split; cbn.
  - by destruct (p_rows p).
  - apply Forall_app. split; [done|]. by repeat constructor.
  - lia.
  - unfold p_row at 1. cbn. rewrite length_app. simpl. unfold p_row in *. lia.
Qed.

Lemma page_visible_wf attr x p : page_wf p -> page_wf (page_visible attr x p).
Proof.
  intros [Hne Hcols Hcol Hh].
  assert (forall col, 0 <= col < 80 -> page_wf (page_move col (page_set (p_col p) (cell attr x) p))) as Hset.
  { intros col Hc. split; cbn; [| |done|].
    - intros Hnil. apply (f_equal length) in Hnil. rewrite length_insert in Hnil. by destruct (p_rows p).
    - apply Forall_insert; [done|]. rewrite length_insert.
      destruct (nth_in_or_default (pred (length (p_rows p))) (p_rows p) []) as [Hin|Hd].
      + rewrite Forall_forall in Hcols. apply Hcols. by apply list_elem_of_In.
      + exfalso. destruct (lookup_lt_is_Some_2 (p_rows p) (pred (length (p_rows p)))) as [last Hl].
        { destruct (p_rows p); [done|]. simpl. lia. }
        rewrite (nth_lookup_Some _ _ _ _ Hl) in Hd. rewrite Forall_lookup in Hcols. specialize (Hcols _ _ Hl). by subst last.
    - unfold p_row in *. cbn. by rewrite length_insert. }
  unfold page_visible. case_decide as Hend; cbn in Hend.
  - exact (page_newline_wf attr _ (Hset 0 ltac:(lia))).
  - apply Hset. lia.
Qed.

Lemma page_putc_high attr x p : page_wf p -> p_high (page_putc attr x p) <= p_high p + 4.
Proof.
  intros Hwf. pose proof (newline_high attr p Hwf). pose proof (visible_high attr x p Hwf).
  pose proof (spaces_high attr (Z.to_nat (4 - p_col p mod 4)) p (page_visible_wf attr _) Hwf).
  pose proof (Z.mod_pos_bound (p_col p) 4). unfold page_putc. repeat case_decide; cbn [page_move page_set p_high] in *; lia.
Qed.

(** The console in step with a page, in attribute [attr], its view at the end. *)
Record in_step (attr : Z) (p : page) (c : console H) : Prop := {
  is_rel : page_rel p c;
  is_wf : console_wf c;
  is_ok : uart_ok (ports c);
  is_follow : g_follow_tail c = true;
  is_attr : g_attr c = attr;
  is_screen : p_high p <= p_row p + 487 -> vga c = page_screen attr p;
}.

Lemma rel_shown p (c : console H) h : page_rel p c -> page_rel p (with_ports h (shown c)).
Proof. intros [Hwf Hr Hc Hring]. unfold shown. destruct (after_output_view c) as [v ->]. by split. Qed.

Lemma putc_in_step attr p (c : console H) x :
  in_step attr p c -> in_u8 x -> p_high p + 4 < 2 ^ 63 ->
  exists c', console_putc x c = Val c' /\ in_step attr (page_putc attr x p) c'
    /\ uart_sent (ports c') = uart_sent (ports c) ++ line_bytes x.
Proof.
  intros [Hrel Hcw Hok Hf Ha Hs] Hx Hb. destruct (putc_spec x c Hx Hcw Hok) as (h1 & h2 & Hr & Hw & Hok2 & Hsent).
  eexists. split; [exact Hr|]. split; [|exact Hsent].
  assert (page_rel p (with_ports h1 c)) as Hrel1 by (destruct Hrel; by split).
  pose proof (rel_putc x p _ Hrel1 (with_ports_wf h1 c Hcw) ltac:(lia)) as Hrel2. cbn [g_attr with_ports] in Hrel2. rewrite Ha in Hrel2.
  destruct (putc_cells_spec x (with_ports h1 c) (with_ports_wf h1 c Hcw)) as [_ Hcw2].
  pose proof (cells_rest x (with_ports h1 c)) as Hrest.
  assert (g_follow_tail (cells_of x (with_ports h1 c)) = true) as Hf2 by (rewrite Hrest; done).
  assert (g_attr (cells_of x (with_ports h1 c)) = attr) as Ha2 by (rewrite Hrest; done).
  split; [by apply rel_shown|exact Hw|exact Hok2|..].
  - unfold shown. destruct (after_output_view (cells_of x (with_ports h1 c))) as [v ->]. exact Hf2.
  - unfold shown. destruct (after_output_view (cells_of x (with_ports h1 c))) as [v ->]. exact Ha2.
  - intros Hhigh. cbn [with_ports shown with_vga vga]. rewrite (view_follows _ _ Hrel2 Hcw2 Hf2); [by rewrite Ha2| |done].
    pose proof (page_putc_high attr x p (pr_wf _ _ Hrel)). pose proof (pw_high _ (pr_wf _ _ Hrel2)). lia.
Qed.

Lemma write_in_step attr s : forall p (c : console H),
  in_step attr p c -> Forall in_u8 s -> p_high p + 4 * Z.of_nat (length s) < 2 ^ 63 ->
  exists c', console_write_plain s c = Val c' /\ in_step attr (page_write attr s p) c'
    /\ uart_sent (ports c') = uart_sent (ports c) ++ line_text s.
Proof.
  induction s as [|x s IH]; intros p c Hin Hs Hb.
  - exists c. split; [done|]. split; [done|]. by rewrite app_nil_r.
  - apply Forall_cons in Hs as [Hx Hs]. cbn [length] in Hb.
    destruct (putc_in_step attr p c x Hin Hx ltac:(lia)) as (c1 & Hr1 & Hin1 & Hs1).
    pose proof (page_putc_high attr x p (pr_wf _ _ (is_rel _ _ _ Hin))) as Hh.
    destruct (IH _ c1 Hin1 Hs ltac:(lia)) as (c2 & Hr2 & Hin2 & Hs2).
    exists c2. cbn [console_write_plain]. rewrite Hr1. split; [exact Hr2|]. split; [exact Hin2|].
    by rewrite Hs2, Hs1, <- app_assoc.
Qed.

(** ** Clearing *)

Lemma clear_rows_spec (c : console H) : console_wf c ->
  exists c', for_loop (Z.to_nat CONSOLE_HISTORY_LINES) 0 history_clear_row c = Val c'
    /\ console_wf c' /\ c' = with_history (g_history c') c.
Proof.
  intros Hc. destruct (for_loop_inv (fun _ c' => console_wf c' /\ c' = with_history (g_history c') c)
    (Z.to_nat CONSOLE_HISTORY_LINES) 0 history_clear_row c) as (c' & Hr & Hw & He).
  - split; [done|]. by destruct c.
  - intros i c1 _ [Hw1 He1]. rewrite clear_row_spec by apply Hw1. eexists. split; [done|]. split.
    + apply (same_rest_wf c1); try done; cbn; try apply Hw1.
      * rewrite length_insert. apply Hw1.
      * apply Forall_insert; [apply Hw1|done].
    + rewrite He1. done.
  - by exists c'.
Qed.

Lemma emit_color_spec (c : console H) : uart_ok (ports c) ->
  exists h bs, serial_emit_ansi_color c = Val (with_ports h c) /\ uart_ok h /\ uart_sent h = uart_sent (ports c) ++ bs.
Proof.
  intros Hok. unfold serial_emit_ansi_color, ksnprintf.
  set (fmt := 27 :: str "[38;2;%u;%u;%um" ++ 27 :: str "[48;2;%u;%u;%um"). set (args := [_; _; _; _; _; _]).
  destruct (fits_render _ fmt args (Nat.le_refl _)) as [o Ho]; [reflexivity|].
  assert (fmt_bytes fmt = true) as [Hnul Hb]%fmt_bytes_spec by (vm_compute; reflexivity).
  assert (Forall arg_bytes args) as Ha by (repeat constructor).
  pose proof (render_bytes _ fmt args o (Nat.le_refl _) Hb Ha Ho) as Hob.
  rewrite (kvsnprintf_spec _ 96 fmt args o) by (rewrite ?length_replicate; done || lia). cbn [mbind outcome_bind].
  destruct (serial_write_spec (cstr (printed (replicate 96 0) 96 o)) (ports c)) as (h & -> & Hok' & Hs);
    [apply printed_bytes; [done|by apply Forall_replicate]|done|]. by eexists _, _.
Qed.

Definition default_attr : Z := 0x07.

Lemma update_attr_default (c : console H) : g_fg c = Rgb 0xC0 0xC0 0xC0 -> g_bg c = Rgb 0 0 0 ->
  console_update_attr c = Val (with_colors default_attr (Rgb 0xC0 0xC0 0xC0) (Rgb 0 0 0) c).
Proof.
  intros Hf Hb. unfold console_update_attr. rewrite Hf, Hb.
  assert (color_nearest_vga_index (Rgb 0xC0 0xC0 0xC0) = Val 7) as -> by (vm_compute; reflexivity).
  assert (color_nearest_vga_index (Rgb 0 0 0) = Val 0) as -> by (vm_compute; reflexivity). done.
Qed.

(** [console_clear] up to rendering. *)
Definition cleared (c : console H) : console H :=
  with_input (g_input_buffer c) 0 0 (with_colors default_attr (Rgb 0xC0 0xC0 0xC0) (Rgb 0 0 0)
    (with_view 0 true (with_cursor 0 0 c))).

Lemma cleared_console_wf (c : console H) : console_wf c -> console_wf (cleared c).
Proof. intros []. split; cbn; try done; unfold in_u64; lia. Qed.

Lemma empty_rel (c : console H) : length (g_history c) = 512%nat -> g_abs_row c = 0 -> g_col c = 0 ->
  g_history c !! slot 0 = Some (replicate 80 (blank_cell (g_attr c))) -> page_rel (empty_page (g_attr c)) c.
Proof.
  intros Hl Hr Hc Hrow. split; [split|..]; cbn; try done; try lia; [by repeat constructor|].
  intros i row Hi _. apply list_lookup_singleton_Some in Hi as [-> <-]. exact Hrow.
Qed.

Lemma clear_history_spec (c : console H) : console_wf c ->
  exists h, (c ← for_loop (Z.to_nat CONSOLE_HISTORY_LINES) 0 history_clear_row (cleared c); history_clear_row 0 c)
    = Val (with_history h (cleared c)) /\ console_wf (with_history h (cleared c))
    /\ h !! slot 0 = Some (replicate 80 (blank_cell default_attr)).
Proof.
  intros Hc. destruct (clear_rows_spec (cleared c) (cleared_console_wf c Hc)) as (c1 & -> & Hc1 & He1). cbn [mbind outcome_bind].
  rewrite clear_row_spec by apply Hc1. set (h := <[_ := _]> _). exists h. split; [by rewrite He1|]. split.
  - destruct Hc1 as [H3 H4 _ _ _ _ _ _]. destruct (cleared_console_wf c Hc). split; try done; cbn [with_history g_history].
    + unfold h. by rewrite length_insert.
    + unfold h. by apply Forall_insert.
  - unfold h. rewrite list_lookup_insert_eq by (rewrite (cw_rows _ Hc1); apply slot_bounds).
    unfold blank. rewrite He1. done.
Qed.

Lemma after_output_start (c : console H) : g_follow_tail c = true -> g_abs_row c = 0 -> g_view_start c = 0 ->
  viewport_after_output c = c.
Proof.
  intros Hf Hr Hv. unfold viewport_after_output, viewport_max_start. rewrite Hf, Hr. cbn.
  destruct c. cbn in *. by subst.
Qed.

Lemma clear_in_step (c : console H) : console_wf c -> uart_ok (ports c) ->
  exists c' bs, console_clear c = Val c' /\ in_step default_attr (empty_page default_attr) c'
    /\ uart_sent (ports c') = uart_sent (ports c) ++ bs.
Proof.
  intros Hc Hok. unfold console_clear. rewrite update_attr_default by done. cbn [mbind outcome_bind].
  match goal with |- context [for_loop _ 0 history_clear_row ?x] => change x with (cleared c) end.
  destruct (clear_history_spec c Hc) as (h & Hh & Hc2 & Hrow).
  destruct (for_loop _ 0 history_clear_row (cleared c)) as [c1|]; [|done]. cbn [mbind outcome_bind] in Hh |- *.
  rewrite Hh. cbn [mbind outcome_bind]. set (c2 := with_history h (cleared c)) in *.
  destruct (serial_write_spec (27 :: str "[0m") (ports c2)) as (h1 & -> & Hok1 & Hs1);
    [vm_compute; repeat constructor; discriminate|exact Hok|]. cbn [mbind outcome_bind].
  destruct (emit_color_spec (with_ports h1 c2) Hok1) as (h2 & bs & -> & Hok2 & Hs2). cbn [mbind outcome_bind].
  set (c3 := with_ports h2 (with_ports h1 c2)). assert (console_wf c3) as Hc3 by by apply with_ports_wf, with_ports_wf.
  destruct (render_spec c3 Hc3 Hok2) as (h3 & -> & Hw & Hok3 & Hs3).
  assert (page_rel (empty_page default_attr) c3) as Hrel by (apply (empty_rel c3); [apply Hc3|done|done|exact Hrow]).
  eexists _, _. split; [done|]. split.
  - split; try done; [destruct Hrel; by split|].
    intros _. cbn [with_ports with_vga vga].
    pose proof (view_follows (empty_page default_attr) c3 Hrel Hc3 eq_refl ltac:(by vm_compute) ltac:(by vm_compute)) as Hview.
    by rewrite after_output_start in Hview.
  - cbn [with_ports ports with_vga]. rewrite Hs3. cbn [c3 with_ports ports]. rewrite Hs2. cbn [with_ports ports].
    rewrite Hs1, <- app_assoc. done.
Qed.

End PageRel.

(** * The input queue *)

Section Queue.
Context {H : Type} `{Ports H}.

(** The bytes waiting in the ring, oldest first. *)
Definition queue (c : console H) : list Z :=
  (fun i => nth (Z.to_nat ((g_input_read_index c + i) mod 128)) (g_input_buffer c) 0)
  <$> seqZ 0 ((g_input_write_index c - g_input_read_index c) mod 128).

Lemma queue_length (c : console H) :
  Z.of_nat (length (queue c)) = (g_input_write_index c - g_input_read_index c) mod 128.
Proof. unfold queue. rewrite length_fmap, length_seqZ. pose proof (Z.mod_pos_bound (g_input_write_index c - g_input_read_index c) 128). lia. Qed.

Lemma next_index i : 0 <= i < 128 -> u64 (i + 1) mod CONSOLE_INPUT_CAPACITY = (i + 1) mod 128.
Proof. intros Hi. unfold CONSOLE_INPUT_CAPACITY. rewrite u64_small by (unfold in_u64; lia). done. Qed.

Lemma enqueue_queue x (c : console H) : console_wf c ->
  exists c', console_enqueue_input x c = Val c'
    /\ queue c' = (if decide (length (queue c) = 127%nat) then queue c else queue c ++ [x]).
Proof.
  intros Hc. pose proof (cw_read _ Hc) as Hr. pose proof (cw_write _ Hc) as Hw. pose proof (queue_length c) as Hl.
  unfold console_enqueue_input, input_buffer_is_full. rewrite next_index by done.
  case_bool_decide as Hfull.
  - exists c. split; [done|]. rewrite decide_True; [done|]. apply Nat2Z.inj. rewrite Hl, <- Hfull.
    Z.div_mod_to_equations. lia.
  - rewrite aset_in_range by (rewrite (cw_input _ Hc); lia). cbn [mbind outcome_bind].
    eexists. split; [done|]. rewrite decide_False.
    2:{ intros Hq. apply (f_equal Z.of_nat) in Hq. rewrite Hl in Hq. apply Hfull. Z.div_mod_to_equations. lia. }
    unfold queue at 1. cbn [with_input g_input_buffer g_input_read_index g_input_write_index].
    set (n := (g_input_write_index c - g_input_read_index c) mod 128) in *.
    replace (((g_input_write_index c + 1) mod 128 - g_input_read_index c) mod 128) with (Z.succ n)
      by (subst n; Z.div_mod_to_equations; lia).
    assert (0 <= n < 127) as Hn by (subst n; Z.div_mod_to_equations; lia).
    unfold Z.succ. rewrite seqZ_app, fmap_app by lia. f_equal.
    + unfold queue. fold n. apply list_fmap_ext. intros i k Hk. apply lookup_seqZ in Hk as [-> Hk].
      rewrite !nth_lookup. rewrite list_lookup_insert_ne; [done|].
      intros He. apply Z2Nat.inj in He; [|lia|apply Z.mod_pos_bound; lia]. subst n. Z.div_mod_to_equations. lia.
    + rewrite seqZ_cons by lia. change (seqZ (Z.succ (0 + n)) (Z.pred 1)) with (@nil Z). cbn [fmap list_fmap].
      f_equal. rewrite nth_lookup.
      replace ((g_input_read_index c + (0 + n)) mod 128) with (g_input_write_index c)
        by (subst n; Z.div_mod_to_equations; lia).
      rewrite list_lookup_insert_eq by (rewrite (cw_input _ Hc); lia). done.
Qed.

Lemma pop_queue (c : console H) : console_wf c ->
  exists c', input_buffer_pop c = Val (head (queue c), c') /\ queue c' = tail (queue c).
Proof.
  intros Hc. pose proof (cw_read _ Hc) as Hr. pose proof (cw_write _ Hc) as Hw.
  unfold input_buffer_pop, input_buffer_is_empty. case_bool_decide as He.
  - exists c. assert (queue c = []) as ->; [|done]. unfold queue. by rewrite He, Z.sub_diag.
  - destruct (aget_in_range (g_input_buffer c) (g_input_read_index c)) as [x Hx]; [rewrite (cw_input _ Hc); lia|].
    rewrite Hx. cbn [mbind outcome_bind]. apply aget_Val in Hx as [_ Hx].
    set (n := (g_input_write_index c - g_input_read_index c) mod 128).
    assert (0 < n < 128) as Hn by (subst n; Z.div_mod_to_equations; lia).
    assert (queue c = x :: ((fun i => nth (Z.to_nat ((g_input_read_index c + i) mod 128)) (g_input_buffer c) 0) <$> seqZ 1 (Z.pred n))) as Hq.
    { unfold queue. fold n. rewrite seqZ_cons by lia. rewrite fmap_cons. f_equal.
      rewrite Z.add_0_r, Z.mod_small by lia. by apply nth_lookup_Some. }
    eexists. rewrite Hq. split; [done|]. cbn [tail]. unfold queue.
    cbn [with_input g_input_buffer g_input_read_index g_input_write_index]. rewrite next_index by done.
    replace ((g_input_write_index c - (g_input_read_index c + 1) mod 128) mod 128) with (Z.pred n)
      by (subst n; Z.div_mod_to_equations; lia).
    rewrite <- (fmap_add_seqZ 1 0), <- list_fmap_compose.
    apply list_fmap_ext. intros i k _. unfold compose. do 2 f_equal.
    rewrite Zplus_mod_idemp_l. f_equal. lia.
Qed.

Inductive input_op : Type :=
| OpEnqueue (x : Z)
| OpPop.

(** Running operations on the ring, and on a queue of at most 127 bytes; the result
    lists what the pops returned. *)
Fixpoint ring_run (ops : list input_op) (c : console H) : outcome (list (option Z) * console H) :=
  match ops with
  | [] => Val ([], c)
  | OpEnqueue x :: ops => c ← console_enqueue_input x c; ring_run ops c
  | OpPop :: ops =>
      '(r, c) ← input_buffer_pop c;
      '(rs, c) ← ring_run ops c;
      Val (r :: rs, c)
  end.

Fixpoint queue_run (ops : list input_op) (q : list Z) : list (option Z) * list Z :=
  match ops with
  | [] => ([], q)
  | OpEnqueue x :: ops => queue_run ops (if decide (length q = 127%nat) then q else q ++ [x])
  | OpPop :: ops => let '(rs, q') := queue_run ops (tail q) in (head q :: rs, q')
  end.
End Queue.

Section Properties.
Context {H : Type} `{Uart H}.

(** The keyboard ring refines a bounded queue: any sequence of
    console_enqueue_input and reads behaves as on a first-in first-out queue that
    holds 127 bytes and drops what comes when it is full; every read returns the
    oldest byte, or nothing when the queue is empty. *)
Theorem input_ring_refines_queue (ops : list input_op) (c : console H) :
  console_wf c -> Forall (fun op => match op with OpEnqueue x => in_u8 x | OpPop => True end) ops ->
  exists c', ring_run ops c = Val ((queue_run ops (queue c)).1, c') /\ console_wf c'
    /\ queue c' = (queue_run ops (queue c)).2.
Proof.
  intros Hc Hops. revert c Hc. induction Hops as [|op ops Hop _ IH]; intros c Hc; cbn [ring_run queue_run].
  - by exists c.
  - destruct op as [x|].
    + destruct (enqueue_queue x c Hc) as (c1 & He & Hq). destruct (enqueue_spec x c Hop Hc) as (c1' & He' & Hc1 & _).
      rewrite He in He'. injection He' as <-. rewrite He. cbn [mbind outcome_bind].
      destruct (IH c1 Hc1) as (c2 & -> & Hc2 & Hq2). exists c2. by rewrite Hq2, Hq.
    + destruct (pop_queue c Hc) as (c1 & He & Hq). destruct (pop_spec c Hc) as (r & c1' & He' & Hc1 & _).
      rewrite He in He'. injection He' as _ <-. rewrite He. cbn [mbind outcome_bind].
      destruct (IH c1 Hc1) as (c2 & -> & Hc2 & Hq2). cbn [mbind outcome_bind]. exists c2. rewrite Hq2, Hq.
      by destruct (queue_run ops (tail (queue c))).
Qed.

(** C21 The console shows what is printed: after console_clear, printing any bytes
    sends them on the serial line (a newline as carriage return and newline) and
    leaves on the VGA screen the last 25 rows of the page they make up - characters
    placed left to right, a new row after the 80th, newline, carriage return,
    backspace and tab to columns that are multiples of four - although only 512
    rows are kept in a ring; except when backspaces went up more than 487 rows,
    past what the ring remembers. *)
Theorem console_shows_text (c : console H) (s : list Z) :
  console_wf c -> uart_ok (ports c) -> Forall in_u8 s -> Z.of_nat (length s) < 2 ^ 60 ->
  exists c0 c1, console_clear c = Val c0 /\ console_write_plain s c0 = Val c1
    /\ uart_sent (ports c1) = uart_sent (ports c0) ++ line_text s
    /\ let p := page_write default_attr s (empty_page default_attr) in
       g_abs_row c1 = p_row p /\ g_col c1 = p_col p
       /\ (p_high p <= p_row p + 487 -> vga c1 = page_screen default_attr p).
Proof.
  intros Hc Hok Hs Hb. destruct (clear_in_step c Hc Hok) as (c0 & bs & Hr0 & Hin0 & _).
  destruct (write_in_step default_attr s _ c0 Hin0 Hs) as (c1 & Hr1 & Hin1 & Hs1); [cbn; lia|].
  exists c0, c1. split; [done|]. split; [done|]. split; [done|].
  pose proof (is_rel _ _ _ Hin1) as Hrel. split; [apply Hrel|]. split; [apply Hrel|]. apply Hin1.
Qed.

End Properties.

(** * A UART for examples *)

Module UartBench.

(** Bytes to receive, divisor latch, polls until the transmitter is empty, bytes
    sent. *)
Record uart := Line {
  rx : list Z;
  dlab : bool;
  busy : nat;
  line : list Z;
}.

Definition status (u : uart) : Z :=
  Z.lor (if decide (busy u = O) then 0x20 else 0) (if decide (rx u = []) then 0 else 1).

Definition uart_read (p : Z) (u : uart) : Z * uart :=
  if decide (p = SERIAL_PORT + 5) then (status u, Line (rx u) (dlab u) (pred (busy u)) (line u))
  else if decide (p = SERIAL_PORT) then
    match rx u with [] => (0, u) | x :: r => (u8 x, Line r (dlab u) (busy u) (line u)) end
  else (0, u).

Definition uart_write (p v : Z) (u : uart) : uart :=
  if decide (p = SERIAL_PORT) then if dlab u then u else Line (rx u) (dlab u) 2 (line u ++ [v])
  else if decide (p = SERIAL_PORT + 3) then Line (rx u) (Z.testbit v 7) (busy u) (line u)
  else u.

#[export] Instance uart_ports : Ports uart := {
  io_in8 := uart_read;
  io_out8 := uart_write;
  io_in16 p u := (0, u);
  io_out16 p v u := u;
  io_in32 p u := (0, u);
  io_out32 p v u := u;
}.

#[export] Instance uart_ports_laws : PortsLaws uart.
Proof.
  split; intros p u; [|split; done..].
  unfold io_in8, uart_ports, uart_read, status. repeat case_decide; try (split; done).
  destruct (rx u); [split; done|apply u8_range].
Qed.

#[export] Program Instance uart_uart : Uart uart := {
  uart_ok u := dlab u = false /\ (busy u <= 2)%nat;
  uart_sent := line;
}.
Next Obligation.
  intros p u [Hd Hb]. unfold io_in8, uart_ports, uart_read. repeat case_decide; simpl; [split; [split; [done|lia]|done]| |done].
  by destruct (rx u).
Qed.
Next Obligation.
  intros v u [Hd Hb]. unfold io_out8, uart_ports, uart_write. rewrite decide_True, Hd by done. simpl. split; [split; [done|lia]|done].
Qed.
Next Obligation.
  intros p v u [Hd Hb] Hp. unfold io_out8, uart_ports, uart_write.
  rewrite !decide_False by (unfold SERIAL_PORT, VGA_CRTC_INDEX_PORT, VGA_CRTC_DATA_PORT in *; lia). done.
Qed.
Next Obligation.
  intros u [Hd Hb]. unfold serial_patience.
  assert (forall n b, (b <= n)%nat -> forall r d l, ready_within (S n) (Line r d b l)) as Hready.
  { induction n as [|n IH]; intros b Hb' r d l.
    - left. assert (b = O) as -> by lia. cbn. by destruct r.
    - destruct b as [|b]; [left; cbn; by destruct r|right]. apply (IH b). lia. }
  destruct u as [r d b l]. apply Hready. simpl in *. lia.
Qed.

End UartBench.

Import UartBench.

(** The statics before the first call, on a line with some bytes to receive. *)
Definition dark_console : console uart :=
  Console (replicate 512 (replicate 80 0)) 0 0 0 false 0 (Rgb 0 0 0) (Rgb 0 0 0) (replicate 128 0) 0 0 []
    (Line (str "ok") false 0 []).

Lemma dark_console_wf : console_wf dark_console /\ uart_ok (ports dark_console).
Proof.
  split; [|split; simpl; [done|lia]]. split; try done; try (unfold in_u64; simpl; lia).
  - by apply Forall_replicate.
  - by apply Forall_replicate.
Qed.

Lemma input_ring_refines_queue_witness :
  exists c', ring_run [OpEnqueue 65; OpEnqueue 66; OpPop; OpPop; OpPop] dark_console
    = Val ([Some 65; Some 66; None], c') /\ queue c' = [].
Proof.
  destruct (input_ring_refines_queue [OpEnqueue 65; OpEnqueue 66; OpPop; OpPop; OpPop] dark_console) as (c' & Hr & _ & Hq).
  - exact (proj1 dark_console_wf).
  - repeat constructor; discriminate.
  - exists c'. split; [exact Hr|exact Hq].
Defined.

Lemma console_shows_text_witness :
  exists c0 c1, console_clear dark_console = Val c0 /\ console_write_plain (str "hi" ++ [10] ++ str "x") c0 = Val c1
    /\ uart_sent (ports c1) = uart_sent (ports c0) ++ str "hi" ++ [13; 10] ++ str "x"
    /\ g_abs_row c1 = 1 /\ g_col c1 = 1
    /\ take 81 (drop 1 (vga c1)) = 0x769 :: replicate 78 0x720 ++ [0x778; 0x720].
Proof.
  destruct (console_shows_text dark_console (str "hi" ++ [10] ++ str "x")) as (c0 & c1 & H0 & H1 & Hs & Hr & Hc & Hv).
  - exact (proj1 dark_console_wf).
  - exact (proj2 dark_console_wf).
  - repeat constructor; discriminate.
  - simpl. lia.
  - exists c0, c1. split; [exact H0|]. split; [exact H1|]. split; [exact Hs|]. split; [rewrite Hr; reflexivity|].
    split; [rewrite Hc; reflexivity|]. rewrite Hv by (vm_compute; discriminate). vm_compute. reflexivity.
Defined.

(** [serial_init] leaves the line out of configuration mode. *)
Example init_leaves_uart_ok : uart_ok (serial_init (ports dark_console)).
Proof. split; [reflexivity|simpl; lia]. Qed.

(** The end of a full row starts a new one at once, so 80 characters and a newline
    leave an empty row. *)
Example full_row_then_newline :
  p_row (page_write 7 (replicate 80 65 ++ [10]) (empty_page 7)) = 2.
Proof. reflexivity. Qed.
