(* ===== verification/InputRing.v ===== *)
(** The input ring of [src/kernel/console.c] between the code that reads it and the
    interrupts that fill it.

    The reader, input_buffer_pop, is cut into its accesses to the ring; a keyboard
    interrupt, which runs to its end with interrupts masked, may come between any two
    of them.  Accesses take effect in the order of the source.  The end of the file
    shows what goes wrong when the reader's own polling of the serial line, which
    also fills the ring, is interrupted. *)

From Stdlib Require Import ZArith Lia Ascii.
From stdpp Require Import base list strings.
From S2P Require Import Prelude KString Terminal Ports Console Screen.
Open Scope Z_scope.

(** * The reader and the interrupts *)

(** Where the reader stands: before the test for emptiness, before the byte is
    loaded, before the index moves on. *)
Inductive reader := Idle | Checked | Loaded (x : Z).

Inductive turn := Reader | Interrupt (x : Z).

(** What becomes of the bytes: a read found one or nothing, an interrupt stored one
    or dropped it. *)
Inductive event := Got (x : Z) | Nothing | Took (x : Z) | Lost (x : Z).

Section Ring.
Context {H : Type} `{Ports H}.

(** [src/kernel/console.c:55-55] input_buffer_pop, the move of the read index *)
Definition advance_read (c : console H) : console H :=
  with_input (g_input_buffer c) (u64 (g_input_read_index c + 1) mod CONSOLE_INPUT_CAPACITY)
    (g_input_write_index c) c.

(** [src/kernel/console.c:50-57] input_buffer_pop, one access to the ring *)
Definition read_step (p : reader) (c : console H) : outcome (list event * reader * console H) :=
  match p with
  | Idle => Val (if input_buffer_is_empty c then ([Nothing], Idle, c) else ([], Checked, c))
  | Checked => x ← aget (g_input_buffer c) (g_input_read_index c); Val ([], Loaded x, c)
  | Loaded x => Val ([Got x], Idle, advance_read c)
  end.

Definition interrupt_step (x : Z) (c : console H) : outcome (list event * console H) :=
  let e := if input_buffer_is_full c then Lost x else Took x in
  c ← console_enqueue_input x c; Val ([e], c).

Fixpoint schedule (ts : list turn) (p : reader) (c : console H)
  : outcome (list event * reader * console H) :=
  match ts with
  | [] => Val ([], p, c)
  | Reader :: ts =>
      '(e, p, c) ← read_step p c; '(es, p, c) ← schedule ts p c; Val (e ++ es, p, c)
  | Interrupt x :: ts =>
      '(e, c) ← interrupt_step x c; '(es, p, c) ← schedule ts p c; Val (e ++ es, p, c)
  end.

(** Left alone, the reader's steps are input_buffer_pop. *)
Lemma read_undisturbed (c : console H) :
  input_buffer_pop c =
    if input_buffer_is_empty c
    then '(es, _, c) ← schedule [Reader] Idle c; Val (None, c)
    else '(es, _, c) ← schedule [Reader; Reader; Reader] Idle c;
         Val (match es with [Got x] => Some x | _ => None end, c).
Proof.
  unfold input_buffer_pop. cbn [schedule read_step]. destruct (input_buffer_is_empty c); [done|].
  cbn [mbind outcome_bind read_step]. by destruct (aget _ _).
Qed.

(** * A queue *)

(** The same events on a queue of 127 places, each at one moment. *)
Inductive fifo : list Z -> list event -> list Z -> Prop :=
| fifo_done q : fifo q [] q
| fifo_got x q es q' : fifo q es q' -> fifo (x :: q) (Got x :: es) q'
| fifo_nothing es q' : fifo [] es q' -> fifo [] (Nothing :: es) q'
| fifo_took x q es q' : (length q < 127)%nat -> fifo (q ++ [x]) es q' -> fifo q (Took x :: es) q'
| fifo_lost x q es q' : length q = 127%nat -> fifo q es q' -> fifo q (Lost x :: es) q'.

Definition got (es : list event) : list Z := omap (fun e => match e with Got x => Some x | _ => None end) es.
Definition took (es : list event) : list Z := omap (fun e => match e with Took x => Some x | _ => None end) es.

(** What was read, and what still waits, is what was stored, in order. *)
Lemma fifo_order q es q' : fifo q es q' -> q ++ took es = got es ++ q'.
Proof.
  induction 1 as [q|x q es q' _ IH|es q' _ IH|x q es q' _ _ IH|x q es q' _ _ IH]; cbn.
  - by rewrite app_nil_r.
  - by f_equal.
  - done.
  - fold (took es) (got es). by rewrite <- IH, <- app_assoc.
  - done.
Qed.

(** What the reader has seen is still so: interrupts only add at the other end. *)
Definition reader_ok (p : reader) (c : console H) : Prop :=
  match p with
  | Idle => True
  | Checked => queue c <> []
  | Loaded x => head (queue c) = Some x
  end.

Lemma ring_empty (c : console H) : console_wf c -> input_buffer_is_empty c = true -> queue c = [].
Proof.
  intros Hc He. destruct (pop_queue c Hc) as (c' & Hp & _). unfold input_buffer_pop in Hp. rewrite He in Hp.
  injection Hp as Hh _. by destruct (queue c).
Qed.

(** The pieces of a read from a ring that is not empty. *)
Lemma ring_head (c : console H) : console_wf c -> queue c <> [] ->
  input_buffer_is_empty c = false
  /\ exists x, aget (g_input_buffer c) (g_input_read_index c) = Val x /\ head (queue c) = Some x
       /\ queue (advance_read c) = tail (queue c) /\ console_wf (advance_read c).
Proof.
  intros Hc Hq. destruct (pop_queue c Hc) as (c' & Hp & Hq'). destruct (pop_spec c Hc) as (r & c2 & Hp2 & Hc2 & _).
  rewrite Hp in Hp2. injection Hp2 as _ <-. unfold input_buffer_pop in Hp.
  destruct (input_buffer_is_empty c) eqn:He.
  - injection Hp as Hh _. by destruct (queue c).
  - split; [done|]. destruct (aget _ _) as [x|]; [|done]. cbn [mbind outcome_bind] in Hp.
    injection Hp as Hh <-. by exists x.
Qed.

Lemma ring_full (c : console H) : console_wf c -> input_buffer_is_full c = true <-> length (queue c) = 127%nat.
Proof.
  intros Hc. pose proof (cw_read _ Hc) as Hr. pose proof (cw_write _ Hc) as Hw. pose proof (queue_length c) as Hl.
  unfold input_buffer_is_full. rewrite next_index, bool_decide_eq_true by done. split.
  - intros He. apply Nat2Z.inj. rewrite Hl, <- He. Z.div_mod_to_equations. lia.
  - intros He. rewrite He in Hl. Z.div_mod_to_equations. lia.
Qed.

Lemma ring_bound (c : console H) : (length (queue c) <= 127)%nat.
Proof.
  pose proof (queue_length c) as Hl. pose proof (Z.mod_pos_bound (g_input_write_index c - g_input_read_index c) 128).
  lia.
Qed.

Lemma interrupt_fifo x (c : console H) p : console_wf c -> in_u8 x -> reader_ok p c ->
  exists e c', interrupt_step x c = Val ([e], c') /\ console_wf c' /\ reader_ok p c'
    /\ forall es q, fifo (queue c') es q -> fifo (queue c) (e :: es) q.
Proof.
  intros Hc Hx Hp. unfold interrupt_step. pose proof (ring_full c Hc) as Hfull. pose proof (ring_bound c) as Hb.
  destruct (enqueue_queue x c Hc) as (c1 & He & Hq). destruct (enqueue_spec x c Hx Hc) as (c2 & He2 & Hc2 & _).
  rewrite He in He2. injection He2 as <-. rewrite He. cbn [mbind outcome_bind].
  eexists _, _. split; [done|]. split; [done|]. unfold reader_ok in *. rewrite Hq.
  destruct (input_buffer_is_full c); case_decide as Hlen; [|by destruct Hlen; apply Hfull|by apply Hfull in Hlen|].
  - split; [done|]. intros es q. by apply fifo_lost.
  - split; [|intros es q; apply fifo_took; lia].
    destruct p; [done|by destruct (queue c)|]. by destruct (queue c).
Qed.

Lemma read_fifo p (c : console H) : console_wf c -> reader_ok p c ->
  exists e p' c', read_step p c = Val (e, p', c') /\ console_wf c' /\ reader_ok p' c'
    /\ forall es q, fifo (queue c') es q -> fifo (queue c) (e ++ es) q.
Proof.
  intros Hc Hp. destruct p as [| |x]; cbn [read_step reader_ok] in *.
  - destruct (input_buffer_is_empty c) eqn:He.
    + eexists _, _, _. split; [done|]. split; [done|]. split; [done|]. intros es q.
      rewrite (ring_empty c Hc He). apply fifo_nothing.
    + exists [], Checked, c. split; [done|]. split; [done|]. split; [|done]. cbn. intros Hq.
      destruct (pop_queue c Hc) as (c' & Hpop & _). unfold input_buffer_pop in Hpop. rewrite He, Hq in Hpop.
      by destruct (aget _ _).
  - destruct (ring_head c Hc Hp) as (_ & x & Hx & Hh & _). rewrite Hx. cbn [mbind outcome_bind].
    by exists [], (Loaded x), c.
  - assert (queue c <> []) as Hq by by destruct (queue c).
    destruct (ring_head c Hc Hq) as (_ & y & _ & Hh & Ht & Hc'). exists [Got x], Idle, (advance_read c).
    split; [done|]. split; [done|]. split; [done|]. rewrite Ht. intros es q. destruct (queue c) as [|z l]; [done|].
    cbn in Hp. injection Hp as ->. apply fifo_got.
Qed.

(** C20 Interrupts in the middle of a read do no harm.  Whatever bytes keyboard
    interrupts bring, between whichever accesses of a reader to the input ring, the
    ring behaves as a first-in first-out queue of 127 places on which every read and
    every interrupt happens at one moment: a byte is dropped only when 127 are
    waiting, a read finds nothing only when none is, and the bytes read are those
    stored, in order, none twice and none missing. *)
Theorem input_ring_survives_interrupts (ts : list turn) (p : reader) (c : console H) :
  console_wf c -> reader_ok p c ->
  Forall (fun t => match t with Interrupt x => in_u8 x | Reader => True end) ts ->
  exists es p' c', schedule ts p c = Val (es, p', c') /\ console_wf c' /\ reader_ok p' c'
    /\ fifo (queue c) es (queue c') /\ queue c ++ took es = got es ++ queue c'.
Proof.
  intros Hc Hp Hts. cut (exists es p' c', schedule ts p c = Val (es, p', c') /\ console_wf c' /\ reader_ok p' c'
    /\ fifo (queue c) es (queue c')).
  { intros (es & p' & c' & Hs & Hc' & Hp' & Hf). exists es, p', c'. by split_and!; [..|apply fifo_order]. }
  revert p c Hc Hp. induction Hts as [|t ts Ht _ IH]; intros p c Hc Hp; cbn [schedule].
  { exists [], p, c. by split_and!; [..|constructor]. }
  destruct t as [|x].
  - destruct (read_fifo p c Hc Hp) as (e & p1 & c1 & -> & Hc1 & Hp1 & Hf1). cbn [mbind outcome_bind].
    destruct (IH p1 c1 Hc1 Hp1) as (es & p2 & c2 & -> & Hc2 & Hp2 & Hf2). cbn [mbind outcome_bind].
    eexists _, _, _. split; [done|]. split; [done|]. split; [done|]. by apply Hf1.
  - destruct (interrupt_fifo x c p Hc Ht Hp) as (e & c1 & -> & Hc1 & Hp1 & Hf1). cbn [mbind outcome_bind].
    destruct (IH p c1 Hc1 Hp1) as (es & p2 & c2 & -> & Hc2 & Hp2 & Hf2). cbn [mbind outcome_bind].
    eexists _, _, _. split; [done|]. split; [done|]. split; [done|]. by apply (Hf1 es).
Qed.

(** * The reader's own writing *)

(** Where console_enqueue_input stands when console_try_read_char calls it with
    interrupts enabled: before the test, the store, the load of the index, its write
    back. *)
Inductive writer := Test (x : Z) | Store (x : Z) | Load | WriteBack (w : Z) | Finished.

(** [src/kernel/console.c:391-397] console_enqueue_input, one access to the ring *)
Definition write_step (p : writer) (c : console H) : outcome (writer * console H) :=
  match p with
  | Test x => Val (if input_buffer_is_full c then Finished else Store x, c)
  | Store x =>
      b ← aset (g_input_buffer c) (g_input_write_index c) x;
      Val (Load, with_input b (g_input_read_index c) (g_input_write_index c) c)
  | Load => Val (WriteBack (g_input_write_index c), c)
  | WriteBack w =>
      Val (Finished, with_input (g_input_buffer c) (g_input_read_index c)
                       (u64 (w + 1) mod CONSOLE_INPUT_CAPACITY) c)
  | Finished => Val (Finished, c)
  end.

Inductive writer_turn := Writer | KeyInterrupt (x : Z).

Fixpoint write_schedule (ts : list writer_turn) (p : writer) (c : console H) : outcome (writer * console H) :=
  match ts with
  | [] => Val (p, c)
  | Writer :: ts => '(p, c) ← write_step p c; write_schedule ts p c
  | KeyInterrupt x :: ts => c ← console_enqueue_input x c; write_schedule ts p c
  end.

Lemma write_undisturbed x (c : console H) :
  console_enqueue_input x c = ('(_, c) ← write_schedule [Writer; Writer; Writer; Writer] (Test x) c; Val c).
Proof.
  unfold console_enqueue_input. cbn [write_schedule write_step mbind outcome_bind].
  destruct (input_buffer_is_full c); [done|]. cbn [write_step mbind outcome_bind]. by destruct (aset _ _ _).
Qed.

End Ring.

Import UartBench.

(** A key that comes before the index is loaded takes the place of the serial byte,
    and the byte that was in the next place is read instead of it. *)
Example serial_byte_replaced :
  (fun '(_, c) => queue c) <$>
    write_schedule [Writer; Writer; KeyInterrupt 107; Writer; Writer] (Test 115) dark_console = Val [107; 0].
Proof. vm_compute. reflexivity. Qed.

(** A key that comes after the index is loaded takes the place of the serial byte,
    which is lost although the ring is almost empty. *)
Example serial_byte_lost :
  (fun '(_, c) => queue c) <$>
    write_schedule [Writer; Writer; Writer; KeyInterrupt 107; Writer] (Test 115) dark_console = Val [107].
Proof. vm_compute. reflexivity. Qed.

Definition demo_turns : list turn :=
  [Reader; Interrupt 65; Reader; Interrupt 66; Reader; Interrupt 67; Reader; Reader; Reader].

Lemma input_ring_survives_interrupts_witness :
  exists es p' c', schedule demo_turns Idle dark_console = Val (es, p', c') /\ console_wf c' /\ reader_ok p' c'
    /\ fifo (queue dark_console) es (queue c') /\ queue dark_console ++ took es = got es ++ queue c'.
Proof.
  apply (input_ring_survives_interrupts demo_turns Idle dark_console);
    [exact (proj1 dark_console_wf)|exact I|repeat constructor; discriminate].
Defined.

(** What that run reads. *)
Example demo_turns_events :
  (fun '(es, _, c) => (es, queue c)) <$> schedule demo_turns Idle dark_console
  = Val ([Nothing; Took 65; Took 66; Took 67; Got 65], [66; 67]).
Proof. vm_compute. reflexivity. Qed.
