(* ===== verification/Display.v ===== *)
(** What the keyboard, the mouse, the shell and its commands use of the console
    besides characters: typing ahead, scrolling, colours and clearing.

    [Display] lists those operations, [DisplayLaws] what their callers rely on.
    The console of [Console.v] is a lawful display over any serial hardware that
    becomes ready, and the plain transcript is one for examples. *)

From Stdlib Require Import ZArith Lia Ascii.
From stdpp Require Import base list strings.
From S2P Require Import Prelude KString Terminal Ports Console Screen.
Open Scope Z_scope.

Class Display (C : Type) := {
  enqueue_input : Z -> C -> outcome C;
  scroll_view : Z -> C -> outcome C;
  set_color_hex : Z -> Z -> C -> outcome C;
  reset_color : C -> outcome C;
  clear_screen : C -> outcome C;
}.

Class DisplayLaws (C : Type) `{TerminalLaws C, Display C} := {
  enqueue_law c t : in_u8 c -> term_ok t ->
    exists t', enqueue_input c t = Val t' /\ term_ok t' /\ term_sent t' = term_sent t;
  scroll_law d t : term_ok t ->
    exists t', scroll_view d t = Val t' /\ term_ok t' /\ term_sent t' = term_sent t;
  set_color_law fg bg : prints (set_color_hex fg bg);
  reset_color_law : prints reset_color;
  clear_law : prints clear_screen;
}.

(** ** The console *)

#[export] Instance vga_display {H} `{Ports H} : Display (console H) := {
  enqueue_input := console_enqueue_input;
  scroll_view := console_scroll_view;
  set_color_hex := console_set_color_hex;
  reset_color := console_reset_color;
  clear_screen := console_clear;
}.

Lemma nearest_total col : exists i, color_nearest_vga_index col = Val i.
Proof.
  unfold color_nearest_vga_index.
  destruct (for_loop_inv (fun _ (_ : Z * Z) => True) (Z.to_nat 16) 0 (nearer col) (0, 0xFFFFFFFF)) as (r & Hr & _); [done| |].
  - intros i best Hi _. unfold nearer. destruct (aget_in_range k_vga_palette i) as [p ->]; [exact Hi|].
    cbn [mbind outcome_bind]. by eexists.
  - change 16%nat with (Z.to_nat 16). rewrite Hr. by eexists.
Qed.

Section Vga.
Context {H : Type} `{Uart H}.

Lemma update_attr_total (c : console H) : exists a, console_update_attr c = Val (with_colors a (g_fg c) (g_bg c) c).
Proof.
  unfold console_update_attr. destruct (nearest_total (g_fg c)) as [fg ->]. destruct (nearest_total (g_bg c)) as [bg ->].
  cbn [mbind outcome_bind]. by eexists.
Qed.

Lemma with_colors_wf a fg bg (c : console H) : console_wf c -> console_wf (with_colors a fg bg c).
Proof. intros []. by split. Qed.

Lemma set_color_prints fg bg : prints (console_set_color_hex fg bg : console H -> _).
Proof.
  intros c [Hc Hok]. unfold console_set_color_hex, console_set_color_rgb.
  match goal with |- context [console_update_attr ?x] => destruct (update_attr_total x) as [a ->] end.
  cbn [mbind outcome_bind]. match goal with |- context [serial_emit_ansi_color ?x] => set (c1 := x) end.
  destruct (emit_color_spec c1 Hok) as (h & bs & -> & Hok' & Hs). exists (with_ports h c1), bs. split; [done|]. split; [|done].
  split; [|done]. by apply with_ports_wf, with_colors_wf, with_colors_wf.
Qed.

#[export] Program Instance vga_display_laws : DisplayLaws (console H).
Next Obligation.
  intros x c Hx [Hc Hok]. destruct (enqueue_spec x c Hx Hc) as (c' & Hr & Hc' & Hp). exists c'. split; [done|].
  cbn. rewrite Hp. done.
Qed.
Next Obligation.
  intros d c [Hc Hok]. cbn [scroll_view vga_display]. unfold console_scroll_view. case_decide; [by exists c|].
  match goal with |- context [vga_render_view ?x] => set (c1 := x) end.
  destruct (render_spec c1 (with_view_wf _ _ _ Hc) Hok) as (h & -> & Hw & Hok' & Hs). eexists. split; [done|]. split; [|done].
  by split.
Qed.
Next Obligation. intros fg bg. apply set_color_prints. Qed.
Next Obligation. apply set_color_prints. Qed.
Next Obligation.
  intros c [Hc Hok]. destruct (clear_in_step c Hc Hok) as (c' & bs & Hr & Hin & Hs). exists c', bs.
  split; [done|]. split; [|done]. split; apply Hin.
Qed.

End Vga.

(** ** The transcript *)

Module Plain.
Import Terminal.Transcript.

#[export] Instance transcript_display : Display transcript := {
  enqueue_input c t := Val (Script (typed t ++ [c]) (sent t));
  scroll_view _ t := Val t;
  set_color_hex _ _ t := Val t;
  reset_color t := Val t;
  clear_screen t := Val (Script [] (sent t));
}.

#[export] Program Instance transcript_display_laws : DisplayLaws transcript.
Next Obligation. intros c t Hc Ht. eexists. split; [done|]. split; [|done]. cbn. apply Forall_app. split; [exact Ht|by constructor]. Qed.
Next Obligation. intros d t Ht. by exists t. Qed.
Next Obligation. intros fg bg t Ht. exists t, []. by rewrite app_nil_r. Qed.
Next Obligation. intros t Ht. exists t, []. by rewrite app_nil_r. Qed.
Next Obligation. intros t Ht. exists (Script [] (sent t)), []. rewrite app_nil_r. split; [done|]. by split; [constructor|]. Qed.

End Plain.
