(* ===== verification/Ps2.v ===== *)
(** The PS/2 controller as the keyboard and mouse drivers use it: the port numbers
    of [drivers/keyboard.c] and [drivers/mouse.c], what reading the status
    and data ports promises, and a controller for examples. *)

From Stdlib Require Import ZArith Lia Ascii.
From stdpp Require Import base list strings.
From S2P Require Import Prelude Ports.
Open Scope Z_scope.

(** [drivers/keyboard.c:10-10] PS2_DATA_PORT; the same in [drivers/mouse.c:8] *)
Definition PS2_DATA_PORT : Z := 0x60.
(** [drivers/keyboard.c:11-11] PS2_STATUS_PORT; the same in [drivers/mouse.c:9] *)
Definition PS2_STATUS_PORT : Z := 0x64.
(** [drivers/mouse.c:10-10] PS2_CMD_PORT *)
Definition PS2_CMD_PORT : Z := 0x64.
(** [drivers/keyboard.c:12-12] PS2_STATUS_OUTPUT_FULL; the same in [drivers/mouse.c:12] *)
Definition PS2_STATUS_OUTPUT_FULL : Z := 0x01.
(** [drivers/mouse.c:13-13] PS2_STATUS_INPUT_FULL *)
Definition PS2_STATUS_INPUT_FULL : Z := 0x02.

(** The status port tells whether a byte is waiting, and the data port hands the
    waiting bytes over in order. *)
Class Ps2 (M : Type) `{PortsLaws M} := {
  ps2_pending : M -> list Z;
  ps2_status h :
    (Z.land (io_in8 PS2_STATUS_PORT h).1 PS2_STATUS_OUTPUT_FULL = 0 <-> ps2_pending h = [])
    /\ ps2_pending (io_in8 PS2_STATUS_PORT h).2 = ps2_pending h;
  ps2_data h b rest : ps2_pending h = b :: rest ->
    (io_in8 PS2_DATA_PORT h).1 = b /\ ps2_pending (io_in8 PS2_DATA_PORT h).2 = rest;
}.

Section Ps2.
Context {M : Type} `{Ps2 M}.

(** One poll of the status port. *)
Definition output_full (h : M) : bool * M :=
  let '(v, h) := io_in8 PS2_STATUS_PORT h in (bool_decide (Z.land v PS2_STATUS_OUTPUT_FULL <> 0), h).

Lemma output_full_spec h : exists h', output_full h = (negb (bool_decide (ps2_pending h = [])), h')
  /\ ps2_pending h' = ps2_pending h.
Proof.
  unfold output_full. destruct (ps2_status h) as [Hs Hp]. destruct (io_in8 PS2_STATUS_PORT h) as [v h']. cbn [fst snd] in *.
  exists h'. split; [|done]. f_equal. repeat case_bool_decide; cbn [negb]; tauto.
Qed.

Lemma data_spec h b rest : ps2_pending h = b :: rest ->
  exists h', io_in8 PS2_DATA_PORT h = (b, h') /\ ps2_pending h' = rest.
Proof.
  intros Hp. destruct (ps2_data h b rest Hp) as [Hb Hr]. destruct (io_in8 PS2_DATA_PORT h) as [b' h']. cbn [fst snd] in *.
  exists h'. by rewrite Hb.
Qed.

End Ps2.

Module Controller.

(** A controller with bytes waiting; what is written to it is kept in order. *)
Record controller := Waiting { waiting : list Z; written : list (Z * Z) }.

Definition controller_in (p : Z) (h : controller) : Z * controller :=
  if decide (p = PS2_STATUS_PORT) then (if waiting h then 0 else 1, h)
  else if decide (p = PS2_DATA_PORT) then
    match waiting h with [] => (0, h) | b :: rest => (u8 b, Waiting rest (written h)) end
  else (0, h).
Definition controller_out (p v : Z) (h : controller) : controller := Waiting (waiting h) (written h ++ [(p, v)]).

#[export] Instance controller_ports : Ports controller := {
  io_in8 := controller_in; io_out8 p v h := controller_out p (u8 v) h;
  io_in16 _ h := (0xFFFF, h); io_out16 p v h := controller_out p (u16 v) h;
  io_in32 _ h := (0xFFFFFFFF, h); io_out32 p v h := controller_out p (u32 v) h;
}.

#[export] Instance controller_laws : PortsLaws controller.
Proof.
  split; intros p h; [|unfold in_u16; cbn; lia|unfold in_u32; cbn; lia].
  cbn [io_in8 controller_ports]. unfold controller_in, in_u8.
  repeat case_decide; destruct (waiting h) as [|b rest]; cbn [fst]; try lia. apply u8_range.
Qed.

#[export] Program Instance controller_ps2 : Ps2 controller := { ps2_pending h := u8 <$> waiting h; }.
Next Obligation.
  intros h. split; [|done]. change (io_in8 PS2_STATUS_PORT h) with (if waiting h then 0 else 1, h).
  destruct (waiting h); done.
Qed.
Next Obligation.
  intros [w o] b rest Hp. cbn [waiting] in Hp. destruct w as [|b' w]; [done|]. injection Hp as <- <-. done.
Qed.

End Controller.
