(* ===== verification/Keyboard.v ===== *)
(** [drivers/keyboard.c]: scancodes to characters.

    A handler works on the driver's own variables ([keyboard]), the console it
    types into and the ports it reads.  The keys that carry a character are
    modelled by the rows of the keymap; the theorem types a text on them. *)

From Stdlib Require Import ZArith Lia Ascii.
From stdpp Require Import base list strings.
From S2P Require Import Prelude KString Terminal Ports Console Screen Display Ps2.
Open Scope Z_scope.

(** [drivers/keyboard.c:13-13] PS2_SCANCODE_RELEASE *)
Definition PS2_SCANCODE_RELEASE : Z := 0x80.
(** [drivers/keyboard.c:14-14] PS2_SCANCODE_EXTENDED *)
Definition PS2_SCANCODE_EXTENDED : Z := 0xE0.
(** [drivers/keyboard.c:15-15] SCANCODE_LEFT_SHIFT *)
Definition SCANCODE_LEFT_SHIFT : Z := 0x2A.
(** [drivers/keyboard.c:16-16] SCANCODE_RIGHT_SHIFT *)
Definition SCANCODE_RIGHT_SHIFT : Z := 0x36.
(** [drivers/keyboard.c:17-17] SCANCODE_CTRL *)
Definition SCANCODE_CTRL : Z := 0x1D.
(** [drivers/keyboard.c:18-18] SCANCODE_ESC *)
Definition SCANCODE_ESC : Z := 0x01.
(** [drivers/keyboard.c:19-19] SCANCODE_ARROW_UP *)
Definition SCANCODE_ARROW_UP : Z := 0x48.
(** [drivers/keyboard.c:20-20] SCANCODE_ARROW_DOWN *)
Definition SCANCODE_ARROW_DOWN : Z := 0x50.
(** [drivers/keyboard.c:21-21] SCANCODE_ARROW_LEFT *)
Definition SCANCODE_ARROW_LEFT : Z := 0x4B.
(** [drivers/keyboard.c:22-22] SCANCODE_ARROW_RIGHT *)
Definition SCANCODE_ARROW_RIGHT : Z := 0x4D.

(** [include/mgcore/input.h:5-5] INPUT_KEY_ESC *)
Definition INPUT_KEY_ESC : Z := 0x1B.
(** [include/mgcore/input.h:6-6] INPUT_KEY_CTRL_B *)
Definition INPUT_KEY_CTRL_B : Z := 0x02.
(** [include/mgcore/input.h:7-7] INPUT_KEY_CTRL_C *)
Definition INPUT_KEY_CTRL_C : Z := 0x03.
(** [include/mgcore/input.h:8-8] INPUT_KEY_CTRL_E *)
Definition INPUT_KEY_CTRL_E : Z := 0x05.
(** [include/mgcore/input.h:9-9] INPUT_KEY_CTRL_F *)
Definition INPUT_KEY_CTRL_F : Z := 0x06.
(** [include/mgcore/input.h:10-10] INPUT_KEY_CTRL_N *)
Definition INPUT_KEY_CTRL_N : Z := 0x0E.
(** [include/mgcore/input.h:11-11] INPUT_KEY_CTRL_P *)
Definition INPUT_KEY_CTRL_P : Z := 0x10.
(** [include/mgcore/input.h:12-12] INPUT_KEY_CTRL_A *)
Definition INPUT_KEY_CTRL_A : Z := 0x01.

(** [drivers/keyboard.c:24-26] the modifiers held and the prefix seen *)
Record keyboard := Keyboard { g_shift_active : bool; g_ctrl_active : bool; g_extended_sequence : bool }.

(** [drivers/keyboard.c:28-31] keymap_entry *)
Record keymap_entry := Key { normal : Z; shifted : Z }.

Definition keys (normals shifteds : list Z) : list keymap_entry := zip_with Key normals shifteds.
Definition no_keys (n : nat) : list keymap_entry := replicate n (Key 0 0).

(** [drivers/keyboard.c:33-85] g_keymap, from scancode 0 on *)
Definition g_keymap : list keymap_entry :=
  no_keys 2 ++ keys (str "1234567890-=" ++ [8; 9]) (str "!@#$%^&*()_+" ++ [8; 9])
  ++ keys (str "qwertyuiop[]" ++ [10]) (str "QWERTYUIOP{}" ++ [10])
  ++ no_keys 1 ++ keys (str "asdfghjkl;'`") (str "ASDFGHJKL:" ++ [34] ++ str "~")
  ++ no_keys 1 ++ keys (str "\zxcvbnm,./") (str "|ZXCVBNM<>?")
  ++ no_keys 3 ++ keys (str " ") (str " ") ++ no_keys 70.

(** [drivers/keyboard.c:87-99] translate_scancode *)
Definition translate_scancode (kb : keyboard) (scancode : Z) : outcome Z :=
  if decide (scancode >= 128) then Val 0
  else
    entry ← aget g_keymap scancode;
    if decide (normal entry = 0) then Val 0
    else Val (if g_shift_active kb then shifted entry else normal entry).

(** [drivers/keyboard.c:101-114] translate_extended_scancode *)
Definition translate_extended_scancode (scancode : Z) : Z :=
  if decide (scancode = SCANCODE_ARROW_UP) then INPUT_KEY_CTRL_P
  else if decide (scancode = SCANCODE_ARROW_DOWN) then INPUT_KEY_CTRL_N
  else if decide (scancode = SCANCODE_ARROW_LEFT) then INPUT_KEY_CTRL_B
  else if decide (scancode = SCANCODE_ARROW_RIGHT) then INPUT_KEY_CTRL_F
  else 0.

(** [drivers/keyboard.c:116-131] apply_ctrl_translation *)
Definition apply_ctrl_translation (kb : keyboard) (translated : Z) : Z :=
  if negb (g_ctrl_active kb) then translated
  else if decide (chr "a"%char <= translated <= chr "z"%char) then translated - chr "a"%char + 1
  else if decide (chr "A"%char <= translated <= chr "Z"%char) then translated - chr "A"%char + 1
  else if decide (translated = chr "["%char) then INPUT_KEY_ESC
  else translated.

Definition set_shift (b : bool) (kb : keyboard) : keyboard := Keyboard b (g_ctrl_active kb) (g_extended_sequence kb).
Definition set_ctrl (b : bool) (kb : keyboard) : keyboard := Keyboard (g_shift_active kb) b (g_extended_sequence kb).
Definition set_extended (b : bool) (kb : keyboard) : keyboard := Keyboard (g_shift_active kb) (g_ctrl_active kb) b.

(** [drivers/keyboard.c:157-168] keyboard_handle_irq, a key released *)
Definition key_released (scancode : Z) (kb : keyboard) : keyboard :=
  set_extended false
    (if decide (scancode = SCANCODE_LEFT_SHIFT \/ scancode = SCANCODE_RIGHT_SHIFT) then set_shift false kb
     else if decide (scancode = SCANCODE_CTRL) then set_ctrl false kb else kb).

(** [drivers/keyboard.c:152-190] keyboard_handle_irq, one scancode: the variables
    afterwards and the character, zero for none *)
Definition take_scancode (scancode : Z) (kb : keyboard) : outcome (keyboard * Z) :=
  if decide (scancode = PS2_SCANCODE_EXTENDED) then Val (set_extended true kb, 0)
  else if decide (Z.land scancode PS2_SCANCODE_RELEASE <> 0) then
    Val (key_released (Z.land scancode (u8 (Z.lnot PS2_SCANCODE_RELEASE))) kb, 0)
  else if decide (scancode = SCANCODE_LEFT_SHIFT \/ scancode = SCANCODE_RIGHT_SHIFT) then Val (set_shift true kb, 0)
  else if decide (scancode = SCANCODE_CTRL) then Val (set_extended false (set_ctrl true kb), 0)
  else if g_extended_sequence kb then Val (set_extended false kb, translate_extended_scancode scancode)
  else if decide (scancode = SCANCODE_ESC) then Val (kb, INPUT_KEY_ESC)
  else
    translated ← translate_scancode kb scancode;
    Val (kb, apply_ctrl_translation kb translated).

Section Driver.
Context {C : Type} `{Display C} {M : Type} `{Ports M}.

(** [drivers/keyboard.c:143-195] keyboard_handle_irq *)
Definition keyboard_handle_irq (kb : keyboard) (t : C) (h : M) : outcome (keyboard * C * M) :=
  let '(full, h) := output_full h in
  if negb full then Val (kb, t, h)
  else
    let '(scancode, h) := io_in8 PS2_DATA_PORT h in
    '(kb, translated) ← take_scancode scancode kb;
    t ← (if decide (translated <> 0) then enqueue_input translated t else Val t);
    Val (kb, t, h).

(** [drivers/keyboard.c:137-139] keyboard_init, discarding what is waiting; [fuel]
    bounds the number of bytes *)
Fixpoint drain (fuel : nat) (h : M) : outcome M :=
  let '(full, h) := output_full h in
  if negb full then Val h
  else match fuel with O => Stop OutOfFuel | S fuel => drain fuel (io_in8 PS2_DATA_PORT h).2 end.

(** [drivers/keyboard.c:133-141] keyboard_init *)
Definition keyboard_init `{Terminal C} (fuel : nat) (t : C) (h : M) : outcome (keyboard * C * M) :=
  h ← drain fuel h;
  t ← console_writeln (str "keyboard: PS/2 input ready") [] t;
  Val (Keyboard false false false, t, h).

(** As many interrupts as there are bytes to take. *)
Fixpoint keyboard_irqs (n : nat) (kb : keyboard) (t : C) (h : M) : outcome (keyboard * C * M) :=
  match n with
  | O => Val (kb, t, h)
  | S n => '(kb, t, h) ← keyboard_handle_irq kb t h; keyboard_irqs n kb t h
  end.

End Driver.

(** ** Typing *)

(** A PC keyboard with the US layout in scancode set 1: what each key sends when it goes
    down, and the characters on it without and with shift (backspace is 8, tab 9, enter
    10, the double quote 34). *)
Definition us_layout : list (Z * Z * Z) := (
  [
    (0x02, chr "1", chr "!"); (0x03, chr "2", chr "@"); (0x04, chr "3", chr "#"); (0x05, chr "4", chr "$");
    (0x06, chr "5", chr "%"); (0x07, chr "6", chr "^"); (0x08, chr "7", chr "&"); (0x09, chr "8", chr "*");
    (0x0A, chr "9", chr "("); (0x0B, chr "0", chr ")"); (0x0C, chr "-", chr "_"); (0x0D, chr "=", chr "+");
    (0x0E, 8, 8); (0x0F, 9, 9); (0x10, chr "q", chr "Q"); (0x11, chr "w", chr "W");
    (0x12, chr "e", chr "E"); (0x13, chr "r", chr "R"); (0x14, chr "t", chr "T"); (0x15, chr "y", chr "Y");
    (0x16, chr "u", chr "U"); (0x17, chr "i", chr "I"); (0x18, chr "o", chr "O"); (0x19, chr "p", chr "P");
    (0x1A, chr "[", chr "{"); (0x1B, chr "]", chr "}"); (0x1C, 10, 10); (0x1E, chr "a", chr "A");
    (0x1F, chr "s", chr "S"); (0x20, chr "d", chr "D"); (0x21, chr "f", chr "F"); (0x22, chr "g", chr "G");
    (0x23, chr "h", chr "H"); (0x24, chr "j", chr "J"); (0x25, chr "k", chr "K"); (0x26, chr "l", chr "L");
    (0x27, chr ";", chr ":"); (0x28, chr "'", 34); (0x29, chr "`", chr "~"); (0x2B, chr "\", chr "|");
    (0x2C, chr "z", chr "Z"); (0x2D, chr "x", chr "X"); (0x2E, chr "c", chr "C"); (0x2F, chr "v", chr "V");
    (0x30, chr "b", chr "B"); (0x31, chr "n", chr "N"); (0x32, chr "m", chr "M"); (0x33, chr ",", chr "<");
    (0x34, chr ".", chr ">"); (0x35, chr "/", chr "?"); (0x39, chr " ", chr " ")
  ])%char.

Definition key_with (face : Z * Z * Z -> Z) (c : Z) : option Z :=
  (fun k => k.1.1) <$> head (filter (fun k => face k = c) us_layout).

(** One keystroke: the key goes down and up (its code plus 128), while the left shift is
    held down (0x2A, and 0xAA when it goes up) where the character needs it. *)
Definition stroke (c : Z) : option (list Z) :=
  match key_with (fun k => k.1.2) c with
  | Some k => Some [k; k + 128]
  | None => (fun k => [0x2A; k; k + 128; 0xAA]) <$> key_with (fun k => k.2) c
  end.
Definition strokes (text : list Z) : list Z := text ≫= fun c => default [] (stroke c).

(** The characters the keyboard has: the printable ones, tab, newline and backspace. *)
Definition typeable (c : Z) : Prop := 32 <= c < 127 \/ c = 8 \/ c = 9 \/ c = 10.
#[export] Instance typeable_dec c : Decision (typeable c).
Proof. unfold typeable. apply _. Defined.

(** The characters a run of scancodes makes. *)
Fixpoint take_scancodes (l : list Z) (kb : keyboard) : outcome (keyboard * list Z) :=
  match l with
  | [] => Val (kb, [])
  | x :: l =>
      '(kb, c) ← take_scancode x kb;
      '(kb, cs) ← take_scancodes l kb;
      Val (kb, if decide (c <> 0) then c :: cs else cs)
  end.

Definition idle : keyboard := Keyboard false false false.
#[export] Instance keyboard_eq_dec : EqDecision keyboard.
Proof. solve_decision. Defined.

Lemma take_scancodes_app l1 l2 kb kb1 cs1 : take_scancodes l1 kb = Val (kb1, cs1) ->
  take_scancodes (l1 ++ l2) kb = ('(kb, cs) ← take_scancodes l2 kb1; Val (kb, cs1 ++ cs)).
Proof.
  revert kb cs1. induction l1 as [|x l1 IH]; intros kb cs1; cbn [take_scancodes app].
  { intros [= <- <-]. by destruct (take_scancodes l2 kb) as [[]|]. }
  destruct (take_scancode x kb) as [[kb0 c]|]; [|done]. cbn [mbind outcome_bind].
  destruct (take_scancodes l1 kb0) as [[kb2 cs2]|] eqn:E; [|done]. cbn [mbind outcome_bind]. intros [= -> <-].
  rewrite (IH _ _ E). destruct (take_scancodes l2 kb1) as [[kb3 cs3]|]; [|done]. cbn [mbind outcome_bind]. by case_decide.
Qed.

Lemma stroke_makes c : typeable c -> take_scancodes (default [] (stroke c)) idle = Val (idle, [c]).
Proof.
  intros Hc. assert (forallb (fun c => bool_decide (take_scancodes (default [] (stroke c)) idle = Val (idle, [c])))
    ([8; 9; 10] ++ seqZ 32 95) = true) as Hall by (vm_compute; reflexivity).
  rewrite forallb_forall in Hall. specialize (Hall c). apply bool_decide_eq_true in Hall; [done|].
  apply list_elem_of_In, elem_of_app. unfold typeable in Hc. rewrite elem_of_seqZ. destruct Hc as [?|[->|[->| ->]]]; [right; lia|left..];
    repeat constructor.
Qed.

Lemma strokes_make text : Forall typeable text -> take_scancodes (strokes text) idle = Val (idle, text).
Proof.
  induction 1 as [|c text Hc _ IH]; [done|]. change (strokes (c :: text)) with (default [] (stroke c) ++ strokes text).
  rewrite (take_scancodes_app _ _ _ _ _ (stroke_makes c Hc)). by rewrite IH.
Qed.

Section Typing.
Context {C : Type} `{Display C} {M : Type} `{Ps2 M}.

Fixpoint enqueue_all (cs : list Z) (t : C) : outcome C :=
  match cs with [] => Val t | c :: cs => t ← enqueue_input c t; enqueue_all cs t end.

Lemma irq_takes kb (t : C) (h : M) x rest : ps2_pending h = x :: rest ->
  exists h', ps2_pending h' = rest /\ keyboard_handle_irq kb t h
    = ('(kb, c) ← take_scancode x kb; t ← enqueue_all (if decide (c <> 0) then [c] else []) t; Val (kb, t, h')).
Proof.
  intros Hp. unfold keyboard_handle_irq. destruct (output_full_spec h) as (h1 & -> & Hp1).
  rewrite bool_decide_eq_false_2 by (rewrite Hp; done). cbn [negb].
  destruct (data_spec h1 x rest) as (h2 & -> & Hp2); [congruence|]. exists h2. split; [done|].
  destruct (take_scancode x kb) as [[kb' c]|]; [|done]. cbn [mbind outcome_bind]. case_decide; [|done]. cbn [enqueue_all].
  by destruct (enqueue_input c t).
Qed.

Lemma irqs_take l : forall kb (t : C) (h : M) rest kb' cs, ps2_pending h = l ++ rest -> take_scancodes l kb = Val (kb', cs) ->
  exists h', ps2_pending h' = rest /\ keyboard_irqs (length l) kb t h = (t ← enqueue_all cs t; Val (kb', t, h')).
Proof.
  induction l as [|x l IH]; intros kb t h rest kb' cs Hp; cbn [take_scancodes length keyboard_irqs].
  { intros [= <- <-]. by exists h. }
  destruct (irq_takes kb t h x (l ++ rest) Hp) as (h1 & Hp1 & ->).
  destruct (take_scancode x kb) as [[kb1 c]|]; [|done]. cbn [mbind outcome_bind].
  destruct (take_scancodes l kb1) as [[kb2 cs2]|] eqn:E; [|done]. cbn [mbind outcome_bind]. intros [= -> <-].
  destruct (enqueue_all (if decide (c <> 0) then [c] else []) t) as [t1|err] eqn:Et.
  - destruct (IH kb1 t1 h1 rest kb' cs2 Hp1 E) as (h2 & Hp2 & Hr). exists h2. split; [done|]. cbn [mbind outcome_bind].
    rewrite Hr. case_decide; cbn [enqueue_all] in *.
    + destruct (enqueue_input c t); [|done]. cbn [mbind outcome_bind] in *. by injection Et as ->.
    + by injection Et as ->.
  - destruct (IH kb1 t h1 rest kb' cs2 Hp1 E) as (h2 & Hp2 & _). exists h2. split; [done|]. cbn [mbind outcome_bind].
    case_decide; cbn [enqueue_all] in *; [|done]. destruct (enqueue_input c t); [done|]. cbn [mbind outcome_bind] in *. by injection Et as ->.
Qed.

End Typing.

Section Typed.
Context {H : Type} `{Uart H} {M : Type} `{Ps2 M}.

Lemma enqueue_all_queue cs : forall c : console H, console_wf c -> Forall in_u8 cs ->
  (length (queue c) + length cs <= 127)%nat ->
  exists c', enqueue_all cs c = Val c' /\ console_wf c' /\ ports c' = ports c /\ queue c' = queue c ++ cs.
Proof.
  induction cs as [|x cs IH]; intros c Hc Hb Hl; cbn [enqueue_all].
  { exists c. by rewrite app_nil_r. }
  inversion_clear Hb as [|? ? Hx Hxs]. cbn [length] in Hl. cbn [enqueue_input vga_display].
  destruct (enqueue_spec x c Hx Hc) as (c1 & Hr & Hc1 & Hp1). destruct (enqueue_queue x c Hc) as (c1' & Hr' & Hq).
  rewrite Hr in Hr'. injection Hr' as <-. rewrite Hr. cbn [mbind outcome_bind]. rewrite decide_False in Hq by lia.
  destruct (IH c1 Hc1 Hxs) as (c2 & Hr2 & Hc2 & Hp2 & Hq2); [rewrite Hq, length_app; cbn [length]; lia|].
  exists c2. split; [done|]. split; [done|]. split; [congruence|]. by rewrite Hq2, Hq, <- app_assoc.
Qed.

(** C32 What is typed is what the console will read: when the scancodes a PC keyboard
    with the US layout ([us_layout], in scancode set 1) sends for the keystrokes of a
    text, shift pressed around the characters that need it, are taken one interrupt
    each with no modifier held before, the characters of the text are appended to the
    console's input, in order, no modifier is held after, and nothing else of the
    controller's bytes is taken, provided the text fits the free part of the input
    ring.  The text is of printable characters, tabs, newlines and backspaces. *)
Theorem typed_text_is_enqueued (text rest : list Z) (c : console H) (h : M) :
  Forall typeable text -> ps2_pending h = strokes text ++ rest -> console_wf c ->
  (length (queue c) + length text <= 127)%nat ->
  exists c' h', keyboard_irqs (length (strokes text)) idle c h = Val (idle, c', h')
    /\ queue c' = queue c ++ text /\ console_wf c' /\ ports c' = ports c /\ ps2_pending h' = rest.
Proof.
  intros Ht Hp Hc Hl. destruct (irqs_take (strokes text) idle c h rest idle text Hp (strokes_make text Ht)) as (h' & Hp' & ->).
  destruct (enqueue_all_queue text c Hc) as (c' & -> & Hc' & Hpo & Hq); [|done|].
  - eapply Forall_impl; [exact Ht|]. intros x Hx. unfold typeable, in_u8 in *. lia.
  - exists c', h'. done.
Qed.

End Typed.

Module KeyboardDemo.
Import Screen.UartBench Ps2.Controller.

Definition command : list Z := str "ping 10.0.2.2 -C" ++ [10].

Lemma typed_text_is_enqueued_witness :
  exists c' h', keyboard_irqs (length (strokes command)) idle dark_console (Waiting (strokes command) [])
      = Val (idle, c', h')
    /\ queue c' = queue dark_console ++ command /\ console_wf c' /\ ports c' = ports dark_console /\ ps2_pending h' = [].
Proof.
  apply (typed_text_is_enqueued command [] dark_console (Waiting (strokes command) [])).
  - vm_compute. repeat constructor; vm_compute; intuition congruence.
  - vm_compute. reflexivity.
  - apply dark_console_wf.
  - vm_compute. lia.
Defined.

(** Control and the arrow keys. *)
Example control_c : take_scancodes [0x1D; 0x2E; 0xAE; 0x9D] idle = Val (idle, [INPUT_KEY_CTRL_C]).
Proof. vm_compute. reflexivity. Qed.
Example arrows : take_scancodes [0xE0; 0x48; 0xE0; 0xC8; 0xE0; 0x4B; 0xE0; 0xCB] idle
  = Val (idle, [INPUT_KEY_CTRL_P; INPUT_KEY_CTRL_B]).
Proof. vm_compute. reflexivity. Qed.

End KeyboardDemo.
