(* ===== verification/Mouse.v ===== *)
(** [drivers/mouse.c]: setting up a PS/2 mouse and turning its wheel into
    scrolling.  The bytes of a packet come one interrupt each; the waits for the
    controller are bounded as in the code. *)

From Stdlib Require Import ZArith Lia Ascii.
From stdpp Require Import base list strings.
From S2P Require Import Prelude KString Terminal Ports Console Screen Display Ps2.
Open Scope Z_scope.
Import Fmt.

(** [drivers/mouse.c:15-18] the packet under way *)
Record mouse := Mouse { g_packet : list Z; g_packet_index : Z; g_packet_size : Z; g_mouse_ready : bool }.

(** The variables before the first call. *)
Definition static_mouse : mouse := Mouse (replicate 4 0) 0 4 false.

Section Driver.
Context {C : Type} `{Terminal C} `{!Display C} {M : Type} `{Ports M}.

(** [drivers/mouse.c:20-27] ps2_wait_input_clear, the loop; [n] polls are left *)
Fixpoint wait_input_clear (n : nat) (h : M) : M :=
  match n with
  | O => h
  | S n =>
      let '(v, h) := io_in8 PS2_STATUS_PORT h in
      if decide (Z.land v PS2_STATUS_INPUT_FULL = 0) then h else wait_input_clear n h
  end.
Definition ps2_wait_input_clear (h : M) : M := wait_input_clear (Z.to_nat 100000) h.

(** [drivers/mouse.c:29-37] ps2_wait_output_full, the loop *)
Fixpoint wait_output_full (n : nat) (h : M) : bool * M :=
  match n with
  | O => (false, h)
  | S n => let '(full, h) := output_full h in if full then (true, h) else wait_output_full n h
  end.
Definition ps2_wait_output_full (h : M) : bool * M := wait_output_full (Z.to_nat 100000) h.

(** [drivers/mouse.c:39-42] ps2_write_cmd *)
Definition ps2_write_cmd (value : Z) (h : M) : M := io_out8 PS2_CMD_PORT value (ps2_wait_input_clear h).
(** [drivers/mouse.c:44-47] ps2_write_data *)
Definition ps2_write_data (value : Z) (h : M) : M := io_out8 PS2_DATA_PORT value (ps2_wait_input_clear h).
(** [drivers/mouse.c:49-54] ps2_read_data *)
Definition ps2_read_data (h : M) : Z * M :=
  let '(full, h) := ps2_wait_output_full h in if full then io_in8 PS2_DATA_PORT h else (0, h).
(** [drivers/mouse.c:56-59] mouse_write *)
Definition mouse_write (value : Z) (h : M) : M := ps2_write_data value (ps2_write_cmd 0xD4 h).
(** [drivers/mouse.c:61-63] mouse_read_ack *)
Definition mouse_read_ack (h : M) : Z * M := ps2_read_data h.

Definition mouse_command (value : Z) (h : M) : M := (mouse_read_ack (mouse_write value h)).2.

(** [drivers/mouse.c:65-70] mouse_set_sample_rate *)
Definition mouse_set_sample_rate (rate : Z) (h : M) : M := mouse_command rate (mouse_command 0xF3 h).

(** [drivers/mouse.c:72-111] mouse_init *)
Definition mouse_init (m : mouse) (t : C) (h : M) : outcome (mouse * C * M) :=
  let h := ps2_write_cmd 0x20 (ps2_write_cmd 0xA8 h) in
  let '(status, h) := ps2_read_data h in
  let status := Z.land (Z.lor status 0x02) (u8 (Z.lnot 0x20)) in
  let h := ps2_write_data status (ps2_write_cmd 0x60 h) in
  let h := mouse_command 0xF6 h in
  let h := mouse_set_sample_rate 80 (mouse_set_sample_rate 100 (mouse_set_sample_rate 200 h)) in
  let h := mouse_command 0xF2 h in
  let '(mouse_id, h) := ps2_read_data h in
  let size := if decide (mouse_id = 3) then 4 else 3 in
  let h := mouse_command 0xF4 h in
  t ← console_printf (str "mouse: PS/2 ready packet=%u-byte wheel=%s" ++ [10])
        [VaWord size; VaStr (Some (if decide (size = 4) then str "yes" else str "no"))] t;
  Val (Mouse (g_packet m) 0 size true, t, h).

(** [drivers/mouse.c:132-144] mouse_handle_irq, a complete packet *)
Definition mouse_packet (m : mouse) (t : C) : outcome C :=
  b0 ← aget (g_packet m) 0;
  if decide (Z.land b0 0x08 = 0) then Val t
  else if decide (g_packet_size m = 4) then
    b3 ← aget (g_packet m) 3;
    let wheel := i8 b3 in
    if decide (wheel > 0) then scroll_view (wheel * 3) t
    else if decide (wheel < 0) then scroll_view (wheel * 3) t
    else Val t
  else Val t.

(** [drivers/mouse.c:113-145] mouse_handle_irq *)
Definition mouse_handle_irq (m : mouse) (t : C) (h : M) : outcome (mouse * C * M) :=
  let '(full, h) := output_full h in
  if negb (g_mouse_ready m) then
    Val (m, t, if full then (io_in8 PS2_DATA_PORT h).2 else h)
  else if negb full then Val (m, t, h)
  else
    let '(b, h) := io_in8 PS2_DATA_PORT h in
    packet ← aset (g_packet m) (g_packet_index m) b;
    let index := u8 (g_packet_index m + 1) in
    if decide (index < g_packet_size m) then Val (Mouse packet index (g_packet_size m) (g_mouse_ready m), t, h)
    else
      let m := Mouse packet 0 (g_packet_size m) (g_mouse_ready m) in
      t ← mouse_packet m t;
      Val (m, t, h).

Fixpoint mouse_irqs (n : nat) (m : mouse) (t : C) (h : M) : outcome (mouse * C * M) :=
  match n with
  | O => Val (m, t, h)
  | S n => '(m, t, h) ← mouse_handle_irq m t h; mouse_irqs n m t h
  end.

End Driver.

(** ** The invariant *)

Record mouse_wf (m : mouse) : Prop := {
  mo_packet : length (g_packet m) = 4%nat;
  mo_size : g_packet_size m = 3 \/ g_packet_size m = 4;
  mo_index : 0 <= g_packet_index m < g_packet_size m;
}.

Lemma static_mouse_wf : mouse_wf static_mouse.
Proof. split; cbn; lia. Qed.

Section Laws.
Context {C : Type} `{DisplayLaws C} {M : Type} `{PortsLaws M}.

Lemma mouse_packet_spec m (t : C) : length (g_packet m) = 4%nat -> term_ok t ->
  exists t', mouse_packet m t = Val t' /\ term_ok t' /\ term_sent t' = term_sent t.
Proof.
  intros Hm Ht. unfold mouse_packet. destruct (aget_in_range (g_packet m) 0) as [b0 ->]; [lia|]. cbn [mbind outcome_bind].
  case_decide; [by exists t|]. case_decide; [|by exists t].
  destruct (aget_in_range (g_packet m) 3) as [b3 ->]; [lia|]. cbn [mbind outcome_bind].
  repeat case_decide; try (by exists t); by apply scroll_law.
Qed.

Lemma mouse_irq_spec m (t : C) (h : M) : mouse_wf m -> term_ok t ->
  exists m' t' h', mouse_handle_irq m t h = Val (m', t', h') /\ mouse_wf m' /\ term_ok t' /\ term_sent t' = term_sent t.
Proof.
  intros Hm Ht. unfold mouse_handle_irq. destruct (output_full h) as [full h1].
  destruct (g_mouse_ready m) eqn:Hready; cbn [negb]; [|eexists _, _, _; by split].
  destruct full; cbn [negb]; [|eexists _, _, _; by split]. destruct (io_in8 PS2_DATA_PORT h1) as [b h2].
  destruct Hm as [Hp Hs Hi]. rewrite aset_in_range by lia. cbn [mbind outcome_bind].
  rewrite u8_small by (unfold in_u8; lia). case_decide.
  - eexists _, _, _. split; [done|]. split; [|done]. split; cbn; [by rewrite length_insert|done|lia].
  - match goal with |- context [mouse_packet ?x t] => set (m' := x) end.
    destruct (mouse_packet_spec m' t) as (t' & -> & ? & ?); [cbn; by rewrite length_insert|done|].
    eexists _, _, _. split; [done|]. split; [|done]. split; cbn; [by rewrite length_insert|done|lia].
Qed.

End Laws.

(** ** The wheel *)

(** A packet of a wheel mouse, and how far it scrolls: three lines a notch, nothing
    without the bit that every first byte has. *)
Record wheel_packet := Packet { flags : Z; dx : Z; dy : Z; wheel : Z }.
Definition packet_bytes (p : wheel_packet) : list Z := [flags p; dx p; dy p; wheel p].
Definition notches (p : wheel_packet) : Z := if Z.testbit (flags p) 3 then i8 (wheel p) * 3 else 0.

Section Wheel.
Context {C : Type} `{Terminal C} `{!Display C} {M : Type} `{Ps2 M}.

Fixpoint scroll_all (ps : list wheel_packet) (t : C) : outcome C :=
  match ps with
  | [] => Val t
  | p :: ps => t ← (if decide (notches p = 0) then Val t else scroll_view (notches p) t); scroll_all ps t
  end.

Lemma irq_byte packet index (t : C) (h : M) b rest : ps2_pending h = b :: rest -> 0 <= index < 3 -> length packet = 4%nat ->
  exists h', ps2_pending h' = rest
    /\ mouse_handle_irq (Mouse packet index 4 true) t h
       = Val (Mouse (<[Z.to_nat index := b]> packet) (index + 1) 4 true, t, h').
Proof.
  intros Hp Hi Hl. unfold mouse_handle_irq. destruct (output_full_spec h) as (h1 & -> & Hp1).
  rewrite bool_decide_eq_false_2 by (rewrite Hp; done). cbn [negb g_mouse_ready g_packet g_packet_index g_packet_size].
  destruct (data_spec h1 b rest) as (h2 & -> & Hp2); [congruence|]. exists h2. split; [done|].
  rewrite aset_in_range by lia. cbn [mbind outcome_bind]. rewrite u8_small by (unfold in_u8; lia).
  by rewrite decide_True by lia.
Qed.

Lemma irq_last_byte packet (t : C) (h : M) b rest : ps2_pending h = b :: rest -> length packet = 4%nat ->
  exists h', ps2_pending h' = rest
    /\ mouse_handle_irq (Mouse packet 3 4 true) t h
       = (let m := Mouse (<[3%nat := b]> packet) 0 4 true in t ← mouse_packet m t; Val (m, t, h')).
Proof.
  intros Hp Hl. unfold mouse_handle_irq. destruct (output_full_spec h) as (h1 & -> & Hp1).
  rewrite bool_decide_eq_false_2 by (rewrite Hp; done). cbn [negb g_mouse_ready g_packet g_packet_index g_packet_size].
  destruct (data_spec h1 b rest) as (h2 & -> & Hp2); [congruence|]. exists h2. split; [done|].
  rewrite aset_in_range by lia. reflexivity.
Qed.

Lemma packet_scrolls p (t : C) : mouse_packet (Mouse (packet_bytes p) 0 4 true) t
  = (if decide (notches p = 0) then Val t else scroll_view (notches p) t).
Proof.
  unfold mouse_packet. cbn [g_packet g_packet_size]. change (aget (packet_bytes p) 0) with (Val (flags p)).
  change (aget (packet_bytes p) 3) with (Val (wheel p)). cbn [mbind outcome_bind]. unfold notches.
  pose proof (land_pow2_nonzero (flags p) 3 ltac:(lia)) as Hbit. change (2 ^ 3) with 0x08 in Hbit.
  destruct (Z.testbit (flags p) 3) eqn:Hf.
  - apply bool_decide_eq_true in Hbit. rewrite decide_False by done. rewrite decide_True by done.
    case_decide; [by rewrite decide_False by lia|]. case_decide; [by rewrite decide_False by lia|]. by rewrite decide_True by lia.
  - apply bool_decide_eq_false in Hbit. rewrite decide_True; [done|]. by apply dec_stable.
Qed.

Lemma irqs_packet packet p (t : C) (h : M) rest : length packet = 4%nat -> ps2_pending h = packet_bytes p ++ rest ->
  exists h', ps2_pending h' = rest
    /\ forall n, mouse_irqs (4 + n) (Mouse packet 0 4 true) t h
       = (t ← (if decide (notches p = 0) then Val t else scroll_view (notches p) t);
          mouse_irqs n (Mouse (packet_bytes p) 0 4 true) t h').
Proof.
  intros Hl Hp. destruct packet as [|x0 [|x1 [|x2 [|x3 [|]]]]]; try done.
  destruct (irq_byte [x0; x1; x2; x3] 0 t h _ _ Hp) as (h1 & Hp1 & E1); [lia|done|].
  destruct (irq_byte [flags p; x1; x2; x3] 1 t h1 _ _ Hp1) as (h2 & Hp2 & E2); [lia|done|].
  destruct (irq_byte [flags p; dx p; x2; x3] 2 t h2 _ _ Hp2) as (h3 & Hp3 & E3); [lia|done|].
  destruct (irq_last_byte [flags p; dx p; dy p; x3] t h3 _ _ Hp3) as (h4 & Hp4 & E4); [done|].
  change (<[Z.to_nat 0:=flags p]> [x0; x1; x2; x3]) with [flags p; x1; x2; x3] in E1. change (0 + 1) with 1 in E1.
  change (<[Z.to_nat 1:=dx p]> [flags p; x1; x2; x3]) with [flags p; dx p; x2; x3] in E2. change (1 + 1) with 2 in E2.
  change (<[Z.to_nat 2:=dy p]> [flags p; dx p; x2; x3]) with [flags p; dx p; dy p; x3] in E3. change (2 + 1) with 3 in E3.
  change (<[3%nat:=wheel p]> [flags p; dx p; dy p; x3]) with (packet_bytes p) in E4.
  exists h4. split; [done|]. intros n. cbn [mouse_irqs Nat.add].
  rewrite E1. cbn [mbind outcome_bind]. rewrite E2. cbn [mbind outcome_bind]. rewrite E3. cbn [mbind outcome_bind]. rewrite E4.
  cbn zeta. rewrite packet_scrolls. by destruct (if decide _ then _ else _).
Qed.

(** A wheel mouse scrolls the console: when the driver is at the start of a packet,
    the bytes of any sequence of packets, taken one interrupt each, scroll the view
    by three lines a notch for every packet, upwards and downwards, in order; a
    packet whose first byte lacks the mark is ignored whole, and the driver is at
    the start of a packet again. *)
Theorem mouse_wheel_scrolls (ps : list wheel_packet) : forall (packet : list Z) (t : C) (h : M) (rest : list Z),
  length packet = 4%nat -> ps2_pending h = (ps ≫= packet_bytes) ++ rest ->
  exists packet' h', length packet' = 4%nat /\ ps2_pending h' = rest
    /\ mouse_irqs (4 * length ps) (Mouse packet 0 4 true) t h
       = (t ← scroll_all ps t; Val (Mouse packet' 0 4 true, t, h')).
Proof.
  induction ps as [|p ps IH]; intros packet t h rest Hl Hp; [by exists packet, h|].
  rewrite bind_cons, <- app_assoc in Hp. destruct (irqs_packet packet p t h _ Hl Hp) as (h1 & Hp1 & Hr).
  replace (4 * length (p :: ps))%nat with (4 + 4 * length ps)%nat by (cbn [length]; lia). rewrite Hr. cbn [scroll_all].
  destruct (if decide (notches p = 0) then Val t else scroll_view (notches p) t) as [t1|err]; cbn [mbind outcome_bind].
  - by apply IH.
  - destruct (IH (packet_bytes p) t h1 rest eq_refl Hp1) as (packet' & h2 & Hl2 & Hp2 & _). by exists packet', h2.
Qed.

End Wheel.

Module MouseDemo.
Import Terminal.Transcript Display.Plain Ps2.Controller.

Definition up_and_down : list wheel_packet := [Packet 0x08 0 0 1; Packet 0x28 3 254 0; Packet 0 1 1 1; Packet 0x08 0 0 0xFF].

Example notches_up_and_down : notches <$> up_and_down = [3; 0; 0; -3].
Proof. vm_compute. reflexivity. Qed.

Lemma mouse_wheel_scrolls_witness :
  let h := Waiting (up_and_down ≫= packet_bytes) [] in
  exists packet' h', length packet' = 4%nat /\ ps2_pending h' = []
    /\ mouse_irqs 16 (Mouse (replicate 4 0) 0 4 true) (Script [] []) h
       = (t ← scroll_all up_and_down (Script [] []); Val (Mouse packet' 0 4 true, t, h')).
Proof. apply (mouse_wheel_scrolls up_and_down (replicate 4 0) (Script [] []) _ []); reflexivity. Defined.

(** After one lost byte the driver reads every packet shifted: movement bytes are
    taken for wheel notches. *)
Example lost_byte_scrolls :
  notches (Packet 0x0C 3 0 0x28) = 120 /\ packet_bytes (Packet 0x0C 3 0 0x28)
  = take 4 (drop 1 (packet_bytes (Packet 0x08 0x0C 3 0) ++ packet_bytes (Packet 0x28 2 254 0))).
Proof. vm_compute. split; reflexivity. Qed.

End MouseDemo.
