(* ===== verification/Task.v ===== *)
(** [src/kernel/task.c] and [src/kernel/signal.c]: the task table, its
    round-robin scheduler, and the search for a memory leaker.

    A [task *] is the index of its entry in [g_tasks]; a null pointer is
    [None].  The open-file pointers of a task are indices into [g_open_files]
    ([Fs.v]). *)

From Stdlib Require Import ZArith Lia.
From stdpp Require Import base list strings.
From S2P Require Import Prelude KString Vmm Terminal.
Open Scope Z_scope.
Import Fmt.

(** [include/mgcore/task.h:7-7] MGCORE_MAX_TASKS *)
Definition MGCORE_MAX_TASKS : nat := 32.
(** [include/mgcore/task.h:8-8] MGCORE_TASK_NAME_MAX *)
Definition MGCORE_TASK_NAME_MAX : nat := 32.
(** [include/mgcore/task.h:9-9] MGCORE_MAX_FDS *)
Definition MGCORE_MAX_FDS : nat := 32.

(** [include/mgcore/task.h:13-19] task_state *)
Inductive task_state : Type :=
| TASK_UNUSED
| TASK_RUNNABLE
| TASK_RUNNING
| TASK_SLEEPING
| TASK_ZOMBIE.

#[export] Instance task_state_eq_dec : EqDecision task_state.
Proof. solve_decision. Defined.

(** [include/mgcore/task.h:21-32] task *)
Record task := Task {
  t_pid : Z;
  t_ppid : Z;
  t_state : task_state;
  t_name : list Z;
  runtime_ticks : Z;
  wakeup_tick : Z;
  exit_code : Z;
  t_mm : address_space;
  t_fds : list (option Z);
  t_cwd : list Z;
}.

(** [src/kernel/task.c:5-8] g_tasks, g_next_pid, g_current_index, g_task_count *)
Record task_table := Tasks {
  g_tasks : list task;
  g_next_pid : Z;
  g_current_index : Z;
  g_task_count : Z;
}.

(** ** Field updates *)

Definition set_state (st : task_state) (t : task) : task :=
  Task (t_pid t) (t_ppid t) st (t_name t) (runtime_ticks t) (wakeup_tick t) (exit_code t)
       (t_mm t) (t_fds t) (t_cwd t).
Definition set_exit_code (code : Z) (t : task) : task :=
  Task (t_pid t) (t_ppid t) (t_state t) (t_name t) (runtime_ticks t) (wakeup_tick t) code
       (t_mm t) (t_fds t) (t_cwd t).
Definition set_wakeup_tick (tick : Z) (t : task) : task :=
  Task (t_pid t) (t_ppid t) (t_state t) (t_name t) (runtime_ticks t) tick (exit_code t)
       (t_mm t) (t_fds t) (t_cwd t).
Definition set_runtime_ticks (ticks : Z) (t : task) : task :=
  Task (t_pid t) (t_ppid t) (t_state t) (t_name t) ticks (wakeup_tick t) (exit_code t)
       (t_mm t) (t_fds t) (t_cwd t).
Definition set_ppid (ppid : Z) (t : task) : task :=
  Task (t_pid t) ppid (t_state t) (t_name t) (runtime_ticks t) (wakeup_tick t) (exit_code t)
       (t_mm t) (t_fds t) (t_cwd t).
Definition set_mm (mm : address_space) (t : task) : task :=
  Task (t_pid t) (t_ppid t) (t_state t) (t_name t) (runtime_ticks t) (wakeup_tick t) (exit_code t)
       mm (t_fds t) (t_cwd t).
Definition set_fds (fds : list (option Z)) (t : task) : task :=
  Task (t_pid t) (t_ppid t) (t_state t) (t_name t) (runtime_ticks t) (wakeup_tick t) (exit_code t)
       (t_mm t) fds (t_cwd t).
Definition set_cwd (cwd : list Z) (t : task) : task :=
  Task (t_pid t) (t_ppid t) (t_state t) (t_name t) (runtime_ticks t) (wakeup_tick t) (exit_code t)
       (t_mm t) (t_fds t) cwd.

Definition with_tasks (ts : list task) (tt : task_table) : task_table :=
  Tasks ts (g_next_pid tt) (g_current_index tt) (g_task_count tt).

(** Update through a task pointer. *)
Definition upd_task (i : Z) (f : task -> task) (tt : task_table) : outcome task_table :=
  t ← aget (g_tasks tt) i;
  ts ← aset (g_tasks tt) i (f t);
  Val (with_tasks ts tt).

(** [src/kernel/task.c:33-33] task_init, an entry after [kmemset] *)
Definition zero_task : task :=
  Task 0 0 TASK_UNUSED (replicate 32 0) 0 0 0 (AddressSpace 0 0 0) (replicate 32 None)
       (replicate 128 0).

(** ** Operations *)

(** [src/kernel/task.c:15-24] task_alloc, the entry it fills *)
Definition fill_entry (pid : Z) (name : list Z) (state : task_state) (t : task) : outcome task :=
  n ← awrite (t_name t) 0 (vstrncpy (MGCORE_TASK_NAME_MAX - 1) name);
  n ← aset n (Z.of_nat MGCORE_TASK_NAME_MAX - 1) 0;
  cwd ← vstrcpy (t_cwd t) (str "/");
  Val (Task pid 0 state n 0 0 0
         (default (t_mm t) (vmm_address_space_init (Some (t_mm t)))) (t_fds t) cwd).

(** [src/kernel/task.c:10-30] task_alloc; the pid counter, an int, moves only when an
    entry is taken, and entries are never given back, so it stays below 100 *)
Definition task_alloc (name : list Z) (state : task_state) (tt : task_table)
  : outcome (option Z * task_table) :=
  match first_index (fun t => bool_decide (t_state t = TASK_UNUSED)) (g_tasks tt) 0 with
  | None => Val (None, tt)
  | Some i =>
      entry ← aget (g_tasks tt) i;
      entry ← fill_entry (g_next_pid tt) name state entry;
      ts ← aset (g_tasks tt) i entry;
      Val (Some i, Tasks ts (g_next_pid tt + 1) (g_current_index tt) (g_task_count tt + 1))
  end.

(** [src/kernel/task.c:32-37] task_init *)
Definition task_init (tt : task_table) : outcome task_table :=
  '(_, tt) ← task_alloc (str "bootstrap") TASK_RUNNING
    (Tasks (replicate MGCORE_MAX_TASKS zero_task) (g_next_pid tt) 0 0);
  Val tt.

(** The table before any call: zeroed statics. *)
Definition static_tasks : task_table := Tasks (replicate MGCORE_MAX_TASKS zero_task) 1 0 0.

(** [src/kernel/task.c:39-41] task_current *)
Definition task_current (tt : task_table) : outcome task := aget (g_tasks tt) (g_current_index tt).

(** [src/kernel/task.c:43-45] task_create_kernel *)
Definition task_create_kernel (name : list Z) (tt : task_table) : outcome (option Z * task_table) :=
  task_alloc name TASK_RUNNABLE tt.

(** [src/kernel/task.c:47-53] task_spawn_user *)
Definition task_spawn_user (name : list Z) (tt : task_table) : outcome (option Z * task_table) :=
  '(child, tt) ← task_alloc name TASK_RUNNABLE tt;
  match child with
  | None => Val (None, tt)
  | Some i =>
      cur ← task_current tt;
      tt ← upd_task i (set_ppid (t_pid cur)) tt;
      Val (Some i, tt)
  end.

(** [src/kernel/task.c:55-63] task_find *)
Definition task_find (pid : Z) (tt : task_table) : option Z :=
  first_index (fun t => bool_decide (t_state t <> TASK_UNUSED /\ t_pid t = pid)) (g_tasks tt) 0.

(** [src/kernel/task.c:65-67] task_current_pid *)
Definition task_current_pid (tt : task_table) : outcome Z := t ← task_current tt; Val (t_pid t).

(** [src/kernel/task.c:69-73] task_exit *)
Definition task_exit (status : Z) (tt : task_table) : outcome task_table :=
  upd_task (g_current_index tt) (fun t => set_exit_code status (set_state TASK_ZOMBIE t)) tt.

(** [src/kernel/task.c:75-86] task_kill *)
Definition task_kill (pid status : Z) (tt : task_table) : outcome (Z * task_table) :=
  match task_find pid tt with
  | None => Val (0, tt)
  | Some i =>
      victim ← aget (g_tasks tt) i;
      if decide (t_state victim = TASK_UNUSED \/ t_state victim = TASK_ZOMBIE) then Val (0, tt)
      else
        tt ← upd_task i (fun t => set_exit_code status (set_state TASK_ZOMBIE t)) tt;
        Val (1, tt)
  end.

(** [src/kernel/task.c:88-92] task_sleep_until *)
Definition task_sleep_until (tick : Z) (tt : task_table) : outcome task_table :=
  upd_task (g_current_index tt) (fun t => set_wakeup_tick tick (set_state TASK_SLEEPING t)) tt.

(** [src/kernel/task.c:99-102] task_scheduler_tick, the end of a time slice *)
Definition end_slice (t : task) : task :=
  if decide (t_state t = TASK_RUNNING) then
    set_state TASK_RUNNABLE (set_runtime_ticks (u64 (runtime_ticks t + 1)) t)
  else t.

(** [src/kernel/task.c:105-107] task_scheduler_tick, one wake-up *)
Definition wake (now : Z) (t : task) : task :=
  if decide (t_state t = TASK_SLEEPING /\ wakeup_tick t <= now) then set_state TASK_RUNNABLE t
  else t.

(** [src/kernel/task.c:110-116] task_scheduler_tick, the choice; [n] candidates are left *)
Fixpoint pick_next (n : nat) (i current next : Z) (ts : list task) : outcome Z :=
  match n with
  | O => Val next
  | S n =>
      let candidate := (current + 1 + i) mod Z.of_nat MGCORE_MAX_TASKS in
      t ← aget ts candidate;
      if decide (t_state t = TASK_RUNNABLE) then Val candidate
      else pick_next n (i + 1) current next ts
  end.

(** [src/kernel/task.c:118-121] task_scheduler_tick, the switch *)
Definition dispatch (next : Z) (tt : task_table) : outcome task_table :=
  t ← aget (g_tasks tt) next;
  let tt := Tasks (g_tasks tt) (g_next_pid tt) next (g_task_count tt) in
  if decide (t_state t = TASK_RUNNABLE) then upd_task next (set_state TASK_RUNNING) tt
  else Val tt.

(** [src/kernel/task.c:94-122] task_scheduler_tick *)
Definition task_scheduler_tick (now : Z) (tt : task_table) : outcome task_table :=
  tt ← upd_task (g_current_index tt) end_slice tt;
  let tt := with_tasks (wake now <$> g_tasks tt) tt in
  next ← pick_next MGCORE_MAX_TASKS 0 (g_current_index tt) (g_current_index tt) (g_tasks tt);
  dispatch next tt.

(** [src/kernel/task.c:124-135] task_estimated_pages *)
Definition task_estimated_pages (t : task) : Z :=
  let mm := t_mm t in
  let brk_bytes := if decide (brk_current mm > brk_base mm) then brk_current mm - brk_base mm else 0 in
  let mmap_bytes :=
    if decide (next_mmap_base mm > 0x20000000) then next_mmap_base mm - 0x20000000 else 0 in
  u64 (brk_bytes + mmap_bytes + MGCORE_PAGE_SIZE - 1) / MGCORE_PAGE_SIZE.

(** [src/kernel/task.c:142-156] task_find_likely_memory_leaker, one iteration;
    the accumulator is [worst_pages] and [worst_pid] *)
Definition leaker_step (acc : Z * Z) (t : task) : Z * Z :=
  if decide (t_state t = TASK_UNUSED \/ t_state t = TASK_ZOMBIE) then acc
  else if decide (t_ppid t = 0) then acc
  else
    let pages := task_estimated_pages t in
    if decide (pages > acc.1) then (pages, t_pid t) else acc.

(** [src/kernel/task.c:137-159] task_find_likely_memory_leaker *)
Definition task_find_likely_memory_leaker (tt : task_table) : Z :=
  (foldl leaker_step (0, 0) (g_tasks tt)).2.

(** [src/kernel/task.c:170-173] task_dump, the name of a state *)
Definition state_text (st : task_state) : list Z :=
  match st with
  | TASK_RUNNABLE => str "ready"
  | TASK_RUNNING => str "run"
  | TASK_SLEEPING => str "sleep"
  | TASK_ZOMBIE => str "zombie"
  | TASK_UNUSED => str "unused"
  end.

(** [src/kernel/task.c:164-180] task_dump, the loop *)
Fixpoint dump_tasks {C} `{Terminal C} (ts : list task) (c : C) : outcome C :=
  match ts with
  | [] => Val c
  | t :: ts =>
      if decide (t_state t = TASK_UNUSED) then dump_tasks ts c
      else
        c ← console_printf (str "%u    %u    %s    %u   %s" ++ [10])
          [VaWord (u32 (t_pid t)); VaWord (u32 (t_ppid t)); VaStr (Some (state_text (t_state t)));
           VaWord (u32 (runtime_ticks t)); VaStr (Some (cstr (t_name t)))] c;
        dump_tasks ts c
  end.

(** [src/kernel/task.c:161-181] task_dump *)
Definition task_dump {C} `{Terminal C} (tt : task_table) (c : C) : outcome C :=
  c ← console_writeln (str "pid  ppid state     ticks name") [] c;
  dump_tasks (g_tasks tt) c.

(** [src/kernel/signal.c:7-10] signal_send *)
Definition signal_send (pid signum : Z) (tt : task_table) : Z :=
  match task_find pid tt with Some _ => 0 | None => -1 end.

(** * Well-formed tables *)

Definition used (t : task) : Prop := t_state t <> TASK_UNUSED.

(** The fixed sizes of an entry's arrays. *)
Record entry_ok (t : task) : Prop := {
  name_size : length (t_name t) = 32%nat;
  cwd_size : length (t_cwd t) = 128%nat;
  fds_size : length (t_fds t) = MGCORE_MAX_FDS;
}.

Record tasks_wf (tt : task_table) : Prop := {
  wf_length : length (g_tasks tt) = MGCORE_MAX_TASKS;
  wf_current : 0 <= g_current_index tt < 32;
  wf_entries : Forall entry_ok (g_tasks tt);
  wf_running i t : g_tasks tt !! i = Some t -> t_state t = TASK_RUNNING ->
    Z.of_nat i = g_current_index tt;
  wf_cur_state t : g_tasks tt !! Z.to_nat (g_current_index tt) = Some t ->
    used t /\ t_state t <> TASK_RUNNABLE;
  wf_next_pid : 1 <= g_next_pid tt;
  wf_pids i t : g_tasks tt !! i = Some t -> used t -> 1 <= t_pid t < g_next_pid tt;
  wf_unique i j ti tj : g_tasks tt !! i = Some ti -> g_tasks tt !! j = Some tj ->
    used ti -> used tj -> t_pid ti = t_pid tj -> i = j;
}.

Lemma slot_exists tt i : tasks_wf tt -> 0 <= i < 32 ->
  exists t, g_tasks tt !! Z.to_nat i = Some t /\ aget (g_tasks tt) i = Val t.
Proof.
  intros Hwf Hi. destruct (lookup_lt_is_Some_2 (g_tasks tt) (Z.to_nat i)) as [t Ht].
  { rewrite (wf_length _ Hwf). unfold MGCORE_MAX_TASKS. lia. }
  exists t. split; [done|]. apply aget_Some; [lia|done].
Qed.

Lemma upd_task_Val i f tt t :
  0 <= i -> g_tasks tt !! Z.to_nat i = Some t ->
  upd_task i f tt = Val (with_tasks (<[Z.to_nat i := f t]> (g_tasks tt)) tt).
Proof.
  intros Hi Ht. unfold upd_task. rewrite (aget_Some _ _ _ Hi Ht). cbn [mbind outcome_bind].
  rewrite aset_in_range; [done|]. apply lookup_lt_Some in Ht. lia.
Qed.

(** Replacing one entry, the identity of a used one unchanged. *)
Lemma replace_wf tt i t t' :
  tasks_wf tt -> 0 <= i -> g_tasks tt !! Z.to_nat i = Some t ->
  (entry_ok t -> entry_ok t') -> t_pid t' = t_pid t -> (used t' -> used t) ->
  (t_state t' = TASK_RUNNING -> i = g_current_index tt) ->
  (i = g_current_index tt -> used t' /\ t_state t' <> TASK_RUNNABLE) ->
  tasks_wf (with_tasks (<[Z.to_nat i := t']> (g_tasks tt)) tt).
Proof.
  intros [Hl Hc He Hr Hcs Hn Hp Hu] Hi Ht Hok Hpid Hused Hrun Hcur.
  pose proof (lookup_lt_Some _ _ _ Ht) as Hlt.
  split; cbn [with_tasks g_tasks g_next_pid g_current_index]; try done.
  - by rewrite length_insert.
  - apply Forall_insert; [done|]. apply Hok. by eapply Forall_lookup_1.
  - intros j tj Hj Hst. apply list_lookup_insert_Some in Hj as [(<- & <- & _)|[_ Hj]].
    + rewrite Hrun by done. rewrite Z2Nat.id; lia.
    + by eapply Hr.
  - intros tj Hj. apply list_lookup_insert_Some in Hj as [(Hij & <- & _)|[_ Hj]]; [|by apply Hcs].
    apply Hcur. lia.
  - intros j tj Hj Huj. apply list_lookup_insert_Some in Hj as [(<- & <- & _)|[_ Hj]].
    + rewrite Hpid. eapply Hp; eauto.
    + by eapply Hp.
  - intros j k tj tk Hj Hk Huj Huk Heq.
    apply list_lookup_insert_Some in Hj as [(<- & <- & _)|[_ Hj]];
      apply list_lookup_insert_Some in Hk as [(<- & <- & _)|[_ Hk]]; [done|..].
    + eapply Hu; eauto. congruence.
    + eapply Hu; eauto. congruence.
    + by eapply Hu.
Qed.

Lemma vstrcpy_fits a s :
  (length s < length a)%nat -> exists a', vstrcpy a s = Val a' /\ length a' = length a.
Proof.
  intros H. unfold vstrcpy. rewrite awrite_in_range by (rewrite ?length_app; simpl; lia).
  eexists. split; [done|]. apply splice_length. rewrite length_app. simpl. lia.
Qed.

Lemma fill_entry_Val pid name state t :
  entry_ok t -> exists t', fill_entry pid name state t = Val t' /\ entry_ok t'
    /\ t_pid t' = pid /\ t_ppid t' = 0 /\ t_state t' = state.
Proof.
  intros [Hn Hc Hf]. unfold fill_entry, MGCORE_TASK_NAME_MAX.
  rewrite awrite_in_range by (rewrite ?vstrncpy_length; lia). cbn [mbind outcome_bind].
  rewrite aset_in_range by (rewrite splice_length by (rewrite vstrncpy_length; lia); lia).
  cbn [mbind outcome_bind].
  destruct (vstrcpy_fits (t_cwd t) (str "/")) as (c & -> & Hlc); [simpl; lia|].
  eexists. split; [done|]. split; [|done]. split; simpl; [|congruence|done].
  rewrite length_insert, splice_length; [done|]. rewrite vstrncpy_length. lia.
Qed.

(** A new entry at a slot whose entry was unused. *)
Lemma new_entry_wf tt i t t' :
  tasks_wf tt -> i <> g_current_index tt -> 0 <= i -> g_tasks tt !! Z.to_nat i = Some t ->
  entry_ok t' -> t_pid t' = g_next_pid tt -> t_state t' <> TASK_RUNNING ->
  tasks_wf (Tasks (<[Z.to_nat i := t']> (g_tasks tt)) (g_next_pid tt + 1)
                  (g_current_index tt) (g_task_count tt + 1)).
Proof.
  intros [Hl Hc He Hr Hcs Hn Hp Hu] Hic Hi Ht Hok Hpid Hst.
  split; cbn [g_tasks g_next_pid g_current_index]; try done; try lia.
  - by rewrite length_insert.
  - by apply Forall_insert.
  - intros j tj Hj Hsj. apply list_lookup_insert_Some in Hj as [(<- & <- & _)|[_ Hj]]; [done|by eapply Hr].
  - intros tj Hj. apply list_lookup_insert_Some in Hj as [(Hij & _)|[_ Hj]]; [lia|by apply Hcs].
  - intros j tj Hj Huj. apply list_lookup_insert_Some in Hj as [(<- & <- & _)|[_ Hj]]; [lia|].
    pose proof (Hp _ _ Hj Huj). lia.
  - intros j k tj tk Hj Hk Huj Huk Heq.
    apply list_lookup_insert_Some in Hj as [(<- & <- & _)|[_ Hj]];
      apply list_lookup_insert_Some in Hk as [(<- & <- & _)|[_ Hk]]; [done|..].
    + pose proof (Hp _ _ Hk Huk). lia.
    + pose proof (Hp _ _ Hj Huj). lia.
    + by eapply Hu.
Qed.

Lemma task_alloc_spec name state tt :
  tasks_wf tt -> state <> TASK_RUNNING ->
  exists r tt', task_alloc name state tt = Val (r, tt') /\ tasks_wf tt'
    /\ g_current_index tt' = g_current_index tt
    /\ match r with
       | None => tt' = tt /\ Forall used (g_tasks tt)
       | Some i => exists t t', 0 <= i < 32 /\ i <> g_current_index tt
           /\ g_tasks tt !! Z.to_nat i = Some t /\ ~ used t
           /\ g_tasks tt' = <[Z.to_nat i := t']> (g_tasks tt)
           /\ t_pid t' = g_next_pid tt /\ t_ppid t' = 0 /\ t_state t' = state
       end.
Proof.
  intros Hwf Hnr. unfold task_alloc. destruct (first_index _ _ _) as [i|] eqn:Hf.
  - apply first_index_Some in Hf as (Hi & (t & Ht & Hst) & _). rewrite Z.sub_0_r in Ht.
    apply bool_decide_eq_true in Hst. pose proof (wf_length _ Hwf) as Hlen.
    rewrite Hlen in Hi. unfold MGCORE_MAX_TASKS in Hi.
    assert (i <> g_current_index tt) as Hic.
    { intros ->. by destruct (wf_cur_state _ Hwf _ Ht) as [Hu _]. }
    rewrite (aget_Some _ _ _ (proj1 Hi) Ht). cbn [mbind outcome_bind].
    destruct (fill_entry_Val (g_next_pid tt) name state t) as (t' & -> & Hok & Hpid & Hppid & Hst').
    { eapply Forall_lookup_1; [apply (wf_entries _ Hwf)|done]. }
    cbn [mbind outcome_bind]. rewrite aset_in_range by (rewrite Hlen; unfold MGCORE_MAX_TASKS; lia).
    eexists _, _. split; [done|]. split; [|split; [done|]].
    + eapply new_entry_wf; eauto; [lia|congruence].
    + exists t, t'. unfold used. naive_solver lia.
  - eexists _, _. split; [done|]. split; [done|]. split; [done|]. split; [done|].
    apply first_index_None in Hf. eapply Forall_impl; [done|]. intros t Ht.
    by apply bool_decide_eq_false in Ht.
Qed.

(** ** Everything that happens between two ticks *)

Inductive task_op : Type :=
| OpCreate (name : list Z)
| OpSpawn (name : list Z)
| OpExit (status : Z)
| OpSleep (tick : Z)
| OpKill (pid status : Z).

Definition task_do (op : task_op) (tt : task_table) : outcome task_table :=
  match op with
  | OpCreate name => '(_, tt) ← task_create_kernel name tt; Val tt
  | OpSpawn name => '(_, tt) ← task_spawn_user name tt; Val tt
  | OpExit status => task_exit status tt
  | OpSleep tick => task_sleep_until tick tt
  | OpKill pid status => '(_, tt) ← task_kill pid status tt; Val tt
  end.

(** The entries waiting to run that an operation must leave alone: all of them,
    unless it kills one. *)
Definition keeps_ready (spared : task -> Prop) (tt tt' : task_table) : Prop :=
  forall j t, g_tasks tt !! j = Some t -> t_state t = TASK_RUNNABLE -> spared t ->
    g_tasks tt' !! j = Some t.

Definition spares (op : task_op) (t : task) : Prop :=
  match op with OpKill pid _ => t_pid t <> pid | _ => True end.

Lemma keeps_ready_insert P tt i t t' :
  g_tasks tt !! i = Some t -> (t_state t = TASK_RUNNABLE -> P t -> t' = t) ->
  keeps_ready P tt (with_tasks (<[i := t']> (g_tasks tt)) tt).
Proof.
  intros Ht Hne j tj Hj Hst HP. simpl. destruct (decide (i = j)) as [->|].
  - assert (tj = t) as -> by congruence. rewrite Hne by done. by rewrite list_insert_id.
  - by rewrite list_lookup_insert_ne.
Qed.

(** Operations of the running task on its own entry. *)
Lemma current_op_spec f tt :
  tasks_wf tt ->
  (forall t, entry_ok t -> entry_ok (f t)) -> (forall t, t_pid (f t) = t_pid t) ->
  (forall t, t_state (f t) = TASK_ZOMBIE \/ t_state (f t) = TASK_SLEEPING) ->
  exists tt', upd_task (g_current_index tt) f tt = Val tt' /\ tasks_wf tt'
    /\ g_current_index tt' = g_current_index tt /\ keeps_ready (fun _ => True) tt tt'.
Proof.
  intros Hwf Hok Hpid Hst. pose proof (wf_current _ Hwf) as Hc.
  destruct (slot_exists _ _ Hwf Hc) as (t & Ht & _).
  destruct (wf_cur_state _ Hwf _ Ht) as [Hu Hnr].
  rewrite (upd_task_Val _ _ _ _ (proj1 Hc) Ht). eexists. split; [done|]. split; [|split; [done|]].
  - eapply replace_wf; eauto; [lia|]. intros _. unfold used. destruct (Hst t) as [-> | ->]; done.
  - eapply keeps_ready_insert; [done|]. naive_solver.
Qed.

Lemma task_find_Some pid tt i : task_find pid tt = Some i ->
  0 <= i /\ exists t, g_tasks tt !! Z.to_nat i = Some t /\ used t /\ t_pid t = pid.
Proof.
  intros Hf. apply first_index_Some in Hf as (Hi & (t & Ht & Hb) & _).
  rewrite Z.sub_0_r in Ht. apply bool_decide_eq_true in Hb. split; [lia|]. by exists t.
Qed.

Lemma task_kill_spec pid status tt :
  tasks_wf tt ->
  exists r tt', task_kill pid status tt = Val (r, tt')
    /\ (g_current_index tt' = g_current_index tt /\ tasks_wf tt')
    /\ keeps_ready (fun t => t_pid t <> pid) tt tt'
    /\ (tt' = tt /\ r = 0 \/ r = 1 /\ exists i t, g_tasks tt !! i = Some t /\ t_pid t = pid /\ used t
         /\ tt' = with_tasks (<[i := set_exit_code status (set_state TASK_ZOMBIE t)]> (g_tasks tt)) tt).
Proof.
  intros Hwf. unfold task_kill. destruct (task_find pid tt) as [i|] eqn:Hf.
  2: { eexists _, _. split; [done|]. split; [done|]. split; [|by left]. by intros j t Hj _ _. }
  apply task_find_Some in Hf as (Hi & t & Ht & Hu & Hpid).
  rewrite (aget_Some _ _ _ Hi Ht). cbn [mbind outcome_bind].
  case_decide as Hz.
  { eexists _, _. split; [done|]. split; [done|]. split; [|by left]. by intros j t' Hj _ _. }
  rewrite (upd_task_Val _ _ _ _ Hi Ht). eexists _, _. split; [done|]. split; [split; [done|]|split].
  - eapply replace_wf; eauto; simpl; try done. by intros [].
  - eapply keeps_ready_insert; [done|]. by intros _ H.
  - right. split; [done|]. by exists (Z.to_nat i), t.
Qed.

(** A live task is found by its pid and becomes a zombie. *)
Lemma task_kill_live pid status tt i t :
  tasks_wf tt -> g_tasks tt !! i = Some t -> used t -> t_state t <> TASK_ZOMBIE -> t_pid t = pid ->
  task_kill pid status tt
  = Val (1, with_tasks (<[i := set_exit_code status (set_state TASK_ZOMBIE t)]> (g_tasks tt)) tt).
Proof.
  intros Hwf Hi Hu Hz Hpid. unfold task_kill. destruct (task_find pid tt) as [i'|] eqn:Hf.
  - apply task_find_Some in Hf as (Hi' & t' & Ht' & Hu' & Hpid').
    assert (Z.to_nat i' = i) as Heq by (eapply (wf_unique _ Hwf); eauto; congruence).
    assert (t' = t) as -> by congruence. rewrite (aget_Some _ _ _ Hi' Ht'). cbn [mbind outcome_bind].
    rewrite decide_False by (unfold used in Hu; naive_solver).
    rewrite (upd_task_Val _ _ _ _ Hi' Ht'). by rewrite Heq.
  - apply first_index_None in Hf. rewrite Forall_lookup in Hf. apply Hf in Hi.
    by apply bool_decide_eq_false in Hi as [].
Qed.

Lemma task_spawn_spec name tt :
  tasks_wf tt ->
  exists r tt', task_spawn_user name tt = Val (r, tt') /\ tasks_wf tt'
    /\ g_current_index tt' = g_current_index tt /\ keeps_ready (fun _ => True) tt tt'.
Proof.
  intros Hwf. unfold task_spawn_user.
  destruct (task_alloc_spec name TASK_RUNNABLE tt Hwf) as (r & tt1 & -> & Hwf1 & Hc & Hr); [done..|].
  cbn [mbind outcome_bind]. destruct r as [i|].
  2: { destruct Hr as [-> _]. eexists _, _. split; [done|]. split; [done|]. split; [done|]. by intros ???. }
  destruct Hr as (t & t' & Hi & Hic & Ht & Hnu & Hts & Hpid & _ & Hst).
  destruct (slot_exists tt1 (g_current_index tt1) Hwf1) as (cur & Hcur & Hag).
  { apply (wf_current _ Hwf1). }
  unfold task_current. rewrite Hag. cbn [mbind outcome_bind].
  assert (g_tasks tt1 !! Z.to_nat i = Some t') as Ht'.
  { rewrite Hts. apply list_lookup_insert_eq. by eapply lookup_lt_Some. }
  rewrite (upd_task_Val _ _ _ _ (proj1 Hi) Ht'). cbn [mbind outcome_bind].
  eexists _, _. split; [done|]. split; [|split; [done|]].
  - eapply replace_wf; eauto; simpl; try done; [lia|by intros []|congruence|]. intros. congruence.
  - intros j tj Hj Hstj _. simpl. rewrite Hts, list_insert_insert_eq.
    rewrite list_lookup_insert_ne; [done|]. intros <-. unfold used in Hnu. naive_solver congruence.
Qed.

Lemma task_do_spec op tt :
  tasks_wf tt ->
  exists tt', task_do op tt = Val tt' /\ tasks_wf tt'
    /\ g_current_index tt' = g_current_index tt /\ keeps_ready (spares op) tt tt'.
Proof.
  intros Hwf. destruct op as [name|name|status|tick|pid status]; simpl.
  - unfold task_create_kernel.
    destruct (task_alloc_spec name TASK_RUNNABLE tt Hwf) as (r & tt1 & -> & Hwf1 & Hc & Hr); [done|].
    simpl. exists tt1. split; [done|]. split; [done|]. split; [done|]. intros j tj Hj Hst _.
    destruct r as [i|]; [|by destruct Hr as [-> _]].
    destruct Hr as (t & t' & Hi & Hic & Ht & Hnu & -> & _).
    rewrite list_lookup_insert_ne; [done|]. intros <-. unfold used in Hnu. naive_solver congruence.
  - destruct (task_spawn_spec name tt Hwf) as (r & tt1 & -> & ? & ? & ?). by exists tt1.
  - apply current_op_spec; [done|by intros t []|done|by left].
  - apply current_op_spec; [done|by intros t []|done|by right].
  - destruct (task_kill_spec pid status tt Hwf) as (r & tt1 & -> & [? ?] & ? & _). by exists tt1.
Qed.

(** * The scheduler tick *)

(** What a tick does to the entry at [i] before it chooses: the running entry's
    slice ends, sleepers whose time has come wake up. *)
Definition advance (now current : Z) (i : nat) (t : task) : task :=
  wake now (if decide (Z.of_nat i = current) then end_slice t else t).

Lemma advance_pid now cur i t : t_pid (advance now cur i t) = t_pid t.
Proof. unfold advance, wake, end_slice. by repeat case_decide. Qed.

Lemma advance_ok now cur i t : entry_ok t -> entry_ok (advance now cur i t).
Proof. intros []. unfold advance, wake, end_slice. repeat case_decide; by split. Qed.

Lemma advance_used now cur i t : used (advance now cur i t) <-> used t.
Proof. unfold advance, wake, end_slice, used. repeat case_decide; simpl in *; intuition congruence. Qed.

(** An entry competes for the processor at this tick when it is runnable, is
    the running one, or sleeps until [now] or earlier. *)
Definition ready (now current : Z) (i : nat) (t : task) : Prop :=
  t_state t = TASK_RUNNABLE
  \/ (t_state t = TASK_RUNNING /\ Z.of_nat i = current)
  \/ (t_state t = TASK_SLEEPING /\ wakeup_tick t <= now).

Lemma advance_ready now cur i t :
  t_state (advance now cur i t) = TASK_RUNNABLE <-> ready now cur i t.
Proof.
  unfold advance, ready, wake, end_slice.
  repeat case_decide; simpl in *; naive_solver congruence.
Qed.

Lemma advance_not_running now cur i t :
  (t_state t = TASK_RUNNING -> Z.of_nat i = cur) ->
  t_state (advance now cur i t) <> TASK_RUNNING.
Proof.
  intros H. unfold advance, wake, end_slice.
  repeat case_decide; simpl in *; naive_solver congruence.
Qed.

(** The [k]-th entry after the current one, cyclically. *)
Definition slot_after (current k : Z) : Z := (current + 1 + k) mod 32.

Lemma pick_next_spec n : forall i cur next ts,
  length ts = MGCORE_MAX_TASKS ->
  exists r, pick_next n i cur next ts = Val r
    /\ ((r = next /\ forall k t, i <= k < i + Z.of_nat n ->
           ts !! Z.to_nat (slot_after cur k) = Some t -> t_state t <> TASK_RUNNABLE)
        \/ exists k t, i <= k < i + Z.of_nat n /\ r = slot_after cur k
             /\ ts !! Z.to_nat r = Some t /\ t_state t = TASK_RUNNABLE
             /\ forall k' t', i <= k' < k -> ts !! Z.to_nat (slot_after cur k') = Some t' ->
                  t_state t' <> TASK_RUNNABLE).
Proof.
  induction n as [|n IH]; intros i cur next ts Hl; cbn [pick_next].
  - exists next. split; [done|]. left. split; [done|]. intros; lia.
  - change (Z.of_nat MGCORE_MAX_TASKS) with 32. fold (slot_after cur i).
    assert (0 <= slot_after cur i < 32) as Hr by (apply Z.mod_pos_bound; lia).
    destruct (aget_in_range ts (slot_after cur i)) as [t Hag].
    { rewrite Hl. unfold MGCORE_MAX_TASKS. lia. }
    rewrite Hag. cbn [mbind outcome_bind]. apply aget_Val in Hag as [_ Ht].
    case_decide as Hst.
    { eexists. split; [done|]. right. exists i, t. split_and!; try done; try lia. }
    destruct (IH (i + 1) cur next ts Hl) as (r & -> & Hcase). exists r. split; [done|].
    destruct Hcase as [[-> Hno]|(k & t' & Hk & -> & Ht' & Hst' & Hno)].
    + left. split; [done|]. intros k tk Hk Htk.
      destruct (decide (k = i)) as [->|]; [congruence|]. eapply Hno; [|done]. lia.
    + right. exists k, t'. split_and!; try done; try lia. intros k' tk Hk' Htk.
      destruct (decide (k' = i)) as [->|]; [congruence|]. eapply Hno; [|done]. lia.
Qed.

Lemma imap_Some {A B} (f : nat -> A -> B) l i u :
  imap f l !! i = Some u <-> exists v, l !! i = Some v /\ u = f i v.
Proof. rewrite list_lookup_imap. destruct (l !! i); simpl; naive_solver. Qed.

(** Every slot is one of the 32 candidates. *)
Lemma slot_after_surj cur j :
  0 <= cur < 32 -> 0 <= j < 32 -> exists k, 0 <= k < 32 /\ slot_after cur k = j.
Proof.
  intros Hc Hj. unfold slot_after. exists ((j - cur - 1) mod 32).
  split; [apply Z.mod_pos_bound; lia|]. Z.div_mod_to_equations. lia.
Qed.

Lemma wake_end_slice now cur ts t :
  0 <= cur < Z.of_nat (length ts) ->
  ts !! Z.to_nat cur = Some t ->
  wake now <$> <[Z.to_nat cur := end_slice t]> ts = imap (advance now cur) ts.
Proof.
  intros Hc Ht. apply list_eq. intros j. rewrite list_lookup_fmap, list_lookup_imap.
  unfold advance. destruct (decide (Z.to_nat cur = j)) as [<-|Hne].
  - rewrite list_lookup_insert_eq, Ht by lia. simpl. rewrite decide_True by lia. done.
  - rewrite list_lookup_insert_ne by done. destruct (ts !! j); simpl; [|done].
    rewrite decide_False by lia. done.
Qed.

(** The table after a tick that chose [next]. *)
Definition after_tick (now next : Z) (tt : task_table) (i : nat) (t : task) : task :=
  let t' := advance now (g_current_index tt) i t in
  if decide (Z.of_nat i = next /\ t_state t' = TASK_RUNNABLE) then set_state TASK_RUNNING t' else t'.

Lemma dispatch_spec now next tt :
  tasks_wf tt -> 0 <= next < 32 ->
  dispatch next (with_tasks (imap (advance now (g_current_index tt)) (g_tasks tt)) tt)
  = Val (Tasks (imap (after_tick now next tt) (g_tasks tt)) (g_next_pid tt) next (g_task_count tt)).
Proof.
  intros Hwf Hn. destruct (slot_exists _ _ Hwf Hn) as (t & Ht & _). unfold dispatch.
  set (ts := imap _ _). cbn [with_tasks g_tasks g_next_pid g_task_count].
  assert (ts !! Z.to_nat next = Some (advance now (g_current_index tt) (Z.to_nat next) t)) as Hts.
  { unfold ts. by rewrite list_lookup_imap, Ht. }
  rewrite (aget_Some _ _ _ (proj1 Hn) Hts). cbn [mbind outcome_bind].
  case_decide as Hst.
  - rewrite (upd_task_Val next _ _ (advance now (g_current_index tt) (Z.to_nat next) t)) by (simpl; done || lia).
    unfold with_tasks. cbn [g_tasks g_next_pid g_task_count g_current_index]. do 2 f_equal.
    apply list_eq. intros j. rewrite list_lookup_imap. unfold after_tick.
    destruct (decide (j = Z.to_nat next)) as [->|Hne].
    + rewrite list_lookup_insert_eq by (by eapply lookup_lt_Some). rewrite Ht. simpl.
      rewrite decide_True; [done|]. split; [lia|done].
    + rewrite list_lookup_insert_ne by done. unfold ts. rewrite list_lookup_imap.
      destruct (g_tasks tt !! j); simpl; [|done]. rewrite decide_False; [done|lia].
  - do 2 f_equal. apply list_eq. intros j. unfold ts. rewrite !list_lookup_imap.
    unfold after_tick. destruct (g_tasks tt !! j) as [u|] eqn:Hu; simpl; [|done].
    rewrite decide_False; [done|]. intros [Hj Hs]. assert (j = Z.to_nat next) as -> by lia. congruence.
Qed.

(** The choice: the first ready entry after the current one, cyclically; the
    current one when none is ready. *)
Definition chosen (now : Z) (tt : task_table) (next : Z) : Prop :=
  let cur := g_current_index tt in
  let ready_at s := exists t, g_tasks tt !! Z.to_nat s = Some t /\ ready now cur (Z.to_nat s) t in
  (next = cur /\ forall s, 0 <= s < 32 -> ~ ready_at s)
  \/ (exists k, 0 <= k < 32 /\ next = slot_after cur k /\ ready_at next
        /\ forall k', 0 <= k' < k -> ~ ready_at (slot_after cur k')).

Lemma tick_spec now tt :
  tasks_wf tt ->
  exists next, chosen now tt next /\ 0 <= next < 32
    /\ task_scheduler_tick now tt
       = Val (Tasks (imap (after_tick now next tt) (g_tasks tt)) (g_next_pid tt) next (g_task_count tt)).
Proof.
  intros Hwf. pose proof (wf_current _ Hwf) as Hc. pose proof (wf_length _ Hwf) as Hl.
  destruct (slot_exists _ _ Hwf Hc) as (t & Ht & _).
  unfold task_scheduler_tick. rewrite (upd_task_Val _ _ _ _ (proj1 Hc) Ht).
  cbn [mbind outcome_bind with_tasks g_tasks g_current_index g_next_pid g_task_count].
  rewrite (wake_end_slice now _ _ _) by (rewrite ?Hl; unfold MGCORE_MAX_TASKS; done || lia).
  set (cur := g_current_index tt) in *. set (ts := imap (advance now cur) (g_tasks tt)).
  assert (length ts = MGCORE_MAX_TASKS) as Hlts by (unfold ts; by rewrite length_imap).
  destruct (pick_next_spec MGCORE_MAX_TASKS 0 cur cur ts Hlts) as (next & -> & Hcase).
  cbn [mbind outcome_bind]. change (0 + Z.of_nat MGCORE_MAX_TASKS) with 32 in Hcase.
  assert (forall s u, ts !! Z.to_nat s = Some u <-> exists v, g_tasks tt !! Z.to_nat s = Some v
            /\ u = advance now cur (Z.to_nat s) v) as Hts.
  { intros s u. apply imap_Some. }
  assert (0 <= next < 32) as Hn.
  { destruct Hcase as [[-> _]|(k & u & _ & -> & _)]; [done|]. apply Z.mod_pos_bound. lia. }
  exists next. split; [|split; [done|]].
  - destruct Hcase as [[-> Hno]|(k & u & Hk & -> & Hu & Hst & Hno)].
    + left. split; [done|]. intros s Hs (v & Hv & Hr). fold cur in Hr.
      destruct (slot_after_surj cur s Hc Hs) as (k & Hk & <-).
      eapply (Hno k); [done| |by apply advance_ready]. apply Hts. eauto.
    + right. exists k. split; [done|]. split; [done|]. fold cur. split.
      * apply Hts in Hu as (v & Hv & ->). exists v. split; [done|]. by apply advance_ready.
      * intros k' Hk' (v & Hv & Hr). eapply (Hno k'); [done| |by apply advance_ready].
        apply Hts. eauto.
  - exact (dispatch_spec now next tt Hwf Hn).
Qed.

Lemma after_tick_pid now next tt i t : t_pid (after_tick now next tt i t) = t_pid t.
Proof. rewrite <- (advance_pid now (g_current_index tt) i t). unfold after_tick. by case_decide. Qed.

Lemma after_tick_used now next tt i t : used (after_tick now next tt i t) <-> used t.
Proof.
  rewrite <- (advance_used now (g_current_index tt) i t). unfold after_tick, used.
  case_decide as Hd; [|done]. by destruct Hd as [_ ->].
Qed.

Lemma after_tick_ok now next tt i t : entry_ok t -> entry_ok (after_tick now next tt i t).
Proof.
  intros Hok%(advance_ok now (g_current_index tt) i). unfold after_tick.
  case_decide; [|done]. destruct Hok. by split.
Qed.

Lemma tick_wf now tt tt' :
  tasks_wf tt -> task_scheduler_tick now tt = Val tt' -> tasks_wf tt'.
Proof.
  intros Hwf Ht. destruct (tick_spec now tt Hwf) as (next & Hch & Hn & Heq).
  rewrite Heq in Ht. injection Ht as <-. pose proof Hwf as [Hl Hc He Hr Hcs Hnp Hp Hu].
  split; cbn [g_tasks g_next_pid g_current_index]; try done.
  - by rewrite length_imap.
  - apply Forall_lookup. intros i t (v & Hv & ->)%imap_Some. apply after_tick_ok. by eapply Forall_lookup_1.
  - intros i t (v & Hv & ->)%imap_Some. unfold after_tick. case_decide as Hd; [by intros _; apply Hd|].
    intros Hst. exfalso. eapply advance_not_running; [|done]. by eapply Hr.
  - intros t (v & Hv & ->)%imap_Some. rewrite after_tick_used. split.
    + destruct Hch as [[-> _]|(k & _ & _ & (v' & Hv' & Hrdy) & _)]; [by apply Hcs|].
      assert (v' = v) as -> by congruence. unfold used, ready in *. intuition congruence.
    + unfold after_tick. case_decide as Hd; [done|]. intros Hst. apply Hd. split; [lia|done].
  - intros i t (v & Hv & ->)%imap_Some. rewrite after_tick_used, after_tick_pid. by eapply Hp.
  - intros i j ti tj (v & Hv & ->)%imap_Some (w & Hw & ->)%imap_Some.
    rewrite !after_tick_used, !after_tick_pid. by apply Hu.
Qed.

Lemma task_init_wf pid0 : 1 <= pid0 ->
  exists tt, task_init (Tasks (g_tasks static_tasks) pid0 0 0) = Val tt /\ tasks_wf tt
    /\ g_next_pid tt = pid0 + 1.
Proof.
  intros Hp. unfold task_init, task_alloc. cbn [static_tasks g_tasks g_next_pid].
  destruct (fill_entry_Val pid0 (str "bootstrap") TASK_RUNNING zero_task)
    as (e & Hf & Hok & Hpid & _ & Hst); [by split|].
  simpl first_index. cbv beta iota. change (aget (replicate MGCORE_MAX_TASKS zero_task) 0) with (Val zero_task).
  cbn [mbind outcome_bind]. rewrite Hf. cbn [mbind outcome_bind].
  rewrite aset_in_range by (rewrite length_replicate; unfold MGCORE_MAX_TASKS; lia).
  eexists. split; [done|]. split; [|done].
  assert (forall i t, (<[0%nat:=e]> (replicate MGCORE_MAX_TASKS zero_task)) !! i = Some t ->
            (i = 0%nat /\ t = e) \/ (i <> 0%nat /\ t = zero_task)) as Hat.
  { intros i t Hi. apply list_lookup_insert_Some in Hi as [(<- & <- & _)|[Hi0 Hi]]; [by left|right].
    by apply lookup_replicate in Hi as [-> _]. }
  split; cbn [g_tasks g_next_pid g_current_index]; change (Z.to_nat 0) with 0%nat; try lia; try done.
  - apply Forall_lookup. intros i t [[_ ->]|[_ ->]]%Hat; [done|by split].
  - by intros i t [[-> ->]|[Hi ->]]%Hat.
  - intros t [[_ ->]|[? ->]]%Hat; [unfold used; by rewrite Hst|done].
  - intros i t [[-> ->]|[Hi ->]]%Hat Hus; [lia|done].
  - intros i j ti tj [[-> ->]|[Hi ->]]%Hat [[-> ->]|[Hj ->]]%Hat Hui Huj; done.
Qed.

(** * Properties *)

(** The tables that can arise from initialisation by any sequence of operations
    and ticks. *)
Inductive task_reachable : task_table -> Prop :=
| reach_task_init tt : task_init static_tasks = Val tt -> task_reachable tt
| reach_task_do op tt tt' : task_reachable tt -> task_do op tt = Val tt' -> task_reachable tt'
| reach_task_tick now tt tt' :
    task_reachable tt -> task_scheduler_tick now tt = Val tt' -> task_reachable tt'.

Lemma task_reachable_wf tt : task_reachable tt -> tasks_wf tt.
Proof.
  induction 1 as [tt Hi|op tt tt' _ IH Hop|now tt tt' _ IH Ht].
  - destruct (task_init_wf 1 ltac:(lia)) as (tt0 & Hi0 & Hwf & _).
    change (Tasks (g_tasks static_tasks) 1 0 0) with static_tasks in Hi0. congruence.
  - destruct (task_do_spec op tt IH) as (tt0 & ? & ? & _). congruence.
  - by eapply tick_wf.
Qed.

Definition boot_tasks : outcome task_table :=
  tt ← task_init static_tasks;
  tt ← task_do (OpCreate (str "kidle")) tt;
  task_do (OpSpawn (str "init")) tt.

Definition booted : task_table :=
  match boot_tasks with Val s => s | Stop _ => static_tasks end.

Lemma booted_reachable : task_reachable booted.
Proof.
  unfold booted, boot_tasks. destruct (task_init static_tasks) as [t0|] eqn:H0; [|by vm_compute in H0].
  cbn [mbind outcome_bind].
  destruct (task_do_spec (OpCreate (str "kidle")) t0) as (t1 & H1 & _);
    [apply task_reachable_wf; by constructor|].
  rewrite H1. cbn [mbind outcome_bind].
  assert (task_reachable t1) as Hr1 by (eapply reach_task_do; [by constructor|done]).
  destruct (task_do_spec (OpSpawn (str "init")) t1 (task_reachable_wf _ Hr1)) as (t2 & H2 & _).
  rewrite H2. by eapply reach_task_do.
Qed.

(** C10 In every table reachable from initialisation by creating, spawning, killing,
    exiting, sleeping and ticking, in any order: no operation and no tick
    accesses an array out of bounds; at most one task is RUNNING and it is the
    current one; live tasks have distinct positive pids. *)
Theorem task_table_invariant (tt : task_table) :
  task_reachable tt ->
  (forall op, exists tt', task_do op tt = Val tt')
  /\ (forall now, exists tt', task_scheduler_tick now tt = Val tt')
  /\ (forall i t, g_tasks tt !! i = Some t -> t_state t = TASK_RUNNING ->
        Z.of_nat i = g_current_index tt)
  /\ (forall i t, g_tasks tt !! i = Some t -> used t -> 0 < t_pid t)
  /\ (forall i j ti tj, g_tasks tt !! i = Some ti -> g_tasks tt !! j = Some tj ->
        used ti -> used tj -> i <> j -> t_pid ti <> t_pid tj).
Proof.
  intros Hwf%task_reachable_wf. split_and!.
  - intros op. destruct (task_do_spec op tt Hwf) as (tt' & ? & _). by exists tt'.
  - intros now. destruct (tick_spec now tt Hwf) as (next & _ & _ & Ht). by eexists.
  - apply (wf_running _ Hwf).
  - intros i t Hi Hu. pose proof (wf_pids _ Hwf _ _ Hi Hu). lia.
  - intros i j ti tj Hi Hj Hui Huj Hne Heq. by apply Hne, (wf_unique _ Hwf _ _ _ _ Hi Hj).
Qed.

Lemma task_table_invariant_witness :
  task_reachable booted /\ exists tt', task_scheduler_tick 1 booted = Val tt'.
Proof.
  split; [exact booted_reachable|].
  exact (proj1 (proj2 (task_table_invariant booted booted_reachable)) 1).
Defined.

#[export] Instance ready_dec now current i t : Decision (ready now current i t).
Proof. unfold ready. apply _. Defined.

(** An entry after a tick that chose [next], field by field. *)
Definition ticked_entry (now current next : Z) (i : nat) (t : task) : task := {|
  t_pid := t_pid t;
  t_ppid := t_ppid t;
  t_state := if decide (ready now current i t)
             then (if decide (Z.of_nat i = next) then TASK_RUNNING else TASK_RUNNABLE) else t_state t;
  t_name := t_name t;
  runtime_ticks := if decide (Z.of_nat i = current /\ t_state t = TASK_RUNNING)
                   then (runtime_ticks t + 1) mod 2 ^ 64 else runtime_ticks t;
  wakeup_tick := wakeup_tick t;
  exit_code := exit_code t;
  t_mm := t_mm t;
  t_fds := t_fds t;
  t_cwd := t_cwd t;
|}.

Lemma after_tick_entry now next tt i t : after_tick now next tt i t = ticked_entry now (g_current_index tt) next i t.
Proof.
  assert (advance now (g_current_index tt) i t
          = set_state (if decide (ready now (g_current_index tt) i t) then TASK_RUNNABLE else t_state t)
              (ticked_entry now (g_current_index tt) next i t)) as Hadv.
  { unfold advance, wake, end_slice, ready, ticked_entry, set_state, set_runtime_ticks. destruct t.
    repeat (case_decide; simpl in *); try done; naive_solver congruence. }
  pose proof (advance_ready now (g_current_index tt) i t) as Hr. unfold after_tick.
  destruct (decide (ready now (g_current_index tt) i t)) as [Hc|Hc].
  - destruct (decide (Z.of_nat i = next)) as [Hi|Hi].
    + rewrite decide_True by tauto. rewrite Hadv. unfold ticked_entry, set_state. simpl.
      by rewrite (decide_True (P := ready _ _ _ _)), (decide_True (P := Z.of_nat i = next)).
    + rewrite decide_False by tauto. rewrite Hadv. unfold ticked_entry, set_state. simpl.
      by rewrite (decide_True (P := ready _ _ _ _)), (decide_False (P := Z.of_nat i = next)).
  - rewrite decide_False by tauto. rewrite Hadv. unfold ticked_entry, set_state. simpl.
    by rewrite (decide_False (P := ready _ _ _ _)).
Qed.

(** C11 A tick is one round-robin step: it always completes; the new current entry
    is the first ready one after the old current entry in cyclic order (runnable,
    or the one that was running, or a sleeper whose wake-up tick has come), or
    the old one when none is ready.  Of the ready entries the chosen one becomes
    RUNNING and the others, the one that was running and the due sleepers included,
    are RUNNABLE; the entry that was running is charged one tick; no other field of
    any entry changes, nor do the pid counter and the number of tasks. *)
Theorem task_tick_round_robin (now : Z) (tt : task_table) :
  task_reachable tt ->
  exists next, chosen now tt next
    /\ task_scheduler_tick now tt
       = Val (Tasks (imap (ticked_entry now (g_current_index tt) next) (g_tasks tt))
                (g_next_pid tt) next (g_task_count tt)).
Proof.
  intros Hwf%task_reachable_wf. destruct (tick_spec now tt Hwf) as (next & ? & _ & ->). exists next.
  split; [done|]. do 2 f_equal. apply imap_ext. intros i t _. apply after_tick_entry.
Qed.

Lemma task_tick_round_robin_witness :
  exists next, chosen 1 booted next
    /\ task_scheduler_tick 1 booted
       = Val (Tasks (imap (ticked_entry 1 (g_current_index booted) next) (g_tasks booted))
                (g_next_pid booted) next (g_task_count booted)).
Proof. apply task_tick_round_robin. exact booted_reachable. Defined.

(** ** Fairness *)

(** A round: what the tasks do between two ticks, then a tick at some time. *)
Definition round : Type := list task_op * Z.

Fixpoint do_ops (ops : list task_op) (tt : task_table) : outcome task_table :=
  match ops with
  | [] => Val tt
  | op :: ops => tt ← task_do op tt; do_ops ops tt
  end.

Fixpoint run_rounds (rounds : list round) (tt : task_table) : outcome task_table :=
  match rounds with
  | [] => Val tt
  | (ops, now) :: rounds =>
      tt ← do_ops ops tt; tt ← task_scheduler_tick now tt; run_rounds rounds tt
  end.

Lemma do_ops_spec (t : task) (j : nat) ops : forall tt,
  tasks_wf tt -> g_tasks tt !! j = Some t -> t_state t = TASK_RUNNABLE ->
  Forall (fun op => spares op t) ops ->
  exists tt', do_ops ops tt = Val tt' /\ tasks_wf tt' /\ g_current_index tt' = g_current_index tt
              /\ g_tasks tt' !! j = Some t.
Proof.
  induction ops as [|op ops IH]; intros tt Hwf Hj Hst Hsp; simpl; [by exists tt|].
  apply Forall_cons in Hsp as [Hop Hsp].
  destruct (task_do_spec op tt Hwf) as (t1 & -> & Hwf1 & Hc & Hk). simpl.
  destruct (IH t1 Hwf1) as (t2 & ? & ? & ? & ?); [by apply Hk|done|done|].
  exists t2. split_and!; try done. congruence.
Qed.

(** A tick either picks a given ready entry or brings the current one closer. *)
Lemma tick_closer now tt (j d : Z) t :
  tasks_wf tt -> 0 <= d < 32 -> j = slot_after (g_current_index tt) d ->
  g_tasks tt !! Z.to_nat j = Some t -> t_state t = TASK_RUNNABLE ->
  exists tt', task_scheduler_tick now tt = Val tt' /\ tasks_wf tt'
    /\ ((g_current_index tt' = j /\ g_tasks tt' !! Z.to_nat j = Some (set_state TASK_RUNNING t))
        \/ exists d', 0 <= d' < d /\ j = slot_after (g_current_index tt') d'
             /\ g_tasks tt' !! Z.to_nat j = Some t).
Proof.
  intros Hwf Hd Hj Ht Hst. destruct (tick_spec now tt Hwf) as (next & Hch & Hn & Heq).
  eexists. split; [done|]. split; [by eapply tick_wf|]. cbn [g_current_index g_tasks].
  pose proof (wf_current _ Hwf) as Hc.
  assert (0 <= j < 32) as Hjr by (subst; apply Z.mod_pos_bound; lia).
  assert (ready now (g_current_index tt) (Z.to_nat j) t) as Hr by (by left).
  destruct Hch as [[_ Hno]|(k & Hk & -> & _ & Hno)]; [exfalso; eapply (Hno j); eauto|].
  assert (k <= d) as Hkd.
  { destruct (decide (k <= d)); [done|]. exfalso. apply (Hno d); [lia|]. rewrite <- Hj. by exists t. }
  assert (advance now (g_current_index tt) (Z.to_nat j) t = t) as Hadv.
  { unfold advance, wake, end_slice. rewrite Hst.
    repeat (case_decide; simpl; try done); naive_solver congruence. }
  rewrite list_lookup_imap, Ht. simpl. unfold after_tick. rewrite Hadv.
  destruct (decide (k = d)) as [->|].
  - left. split; [done|]. rewrite decide_True; [done|]. split; [rewrite Z2Nat.id by lia|]; done.
  - right. exists (d - k - 1). split; [lia|]. rewrite decide_False.
    + split; [|done]. rewrite Hj. unfold slot_after. Z.div_mod_to_equations. lia.
    + intros [Heqj _]. rewrite Z2Nat.id in Heqj by lia. rewrite Hj in Heqj. unfold slot_after in Heqj.
      Z.div_mod_to_equations. lia.
Qed.

Lemma waits_at_most (j : nat) (t : task) n : forall d tt rounds,
  t_state t = TASK_RUNNABLE -> (Z.to_nat d < n)%nat -> tasks_wf tt -> g_tasks tt !! j = Some t ->
  0 <= d < 32 -> Z.of_nat j = slot_after (g_current_index tt) d -> (n <= length rounds)%nat ->
  Forall (fun r => Forall (fun op => spares op t) r.1) rounds ->
  exists k tt', (1 <= k <= n)%nat /\ run_rounds (take k rounds) tt = Val tt'
    /\ g_current_index tt' = Z.of_nat j /\ g_tasks tt' !! j = Some (set_state TASK_RUNNING t).
Proof.
  induction n as [|n IH]; intros d tt rounds Hst Hd Hwf Hj Hdr Hslot Hlen Hsp; [lia|].
  destruct rounds as [|[ops now] rounds]; simpl in Hlen; [lia|].
  apply Forall_cons in Hsp as [Hop Hsp]. simpl in Hop.
  destruct (do_ops_spec t j ops tt Hwf Hj Hst Hop) as (t1 & H1 & Hwf1 & Hc1 & Hj1).
  destruct (tick_closer now t1 (Z.of_nat j) d t Hwf1 Hdr) as (t2 & H2 & Hwf2 & Hcase);
    [congruence|by rewrite Nat2Z.id|done|]. rewrite Nat2Z.id in Hcase.
  destruct Hcase as [[Hcur Hrun]|(d' & Hd' & Hslot' & Hj2)].
  - exists 1%nat, t2. split; [lia|]. simpl. rewrite H1. simpl. by rewrite H2.
  - destruct (IH d' t2 rounds) as (k & t3 & Hk & Hrun & Hc & Hj3); try done; try lia.
    exists (S k), t3. split; [lia|]. simpl. rewrite H1. simpl. rewrite H2. by split.
Qed.

(** C12 Bounded waiting: a task that is RUNNABLE runs after at most 32 ticks,
    whatever the other tasks do in between (spawn, sleep, exit, kill each
    other) and whatever the clock says, as long as nobody kills it. *)
Theorem scheduler_bounded_waiting (tt : task_table) (j : nat) (t : task) (rounds : list round) :
  task_reachable tt -> g_tasks tt !! j = Some t -> t_state t = TASK_RUNNABLE ->
  Forall (fun r => Forall (fun op => spares op t) r.1) rounds -> (32 <= length rounds)%nat ->
  exists k tt', (1 <= k <= 32)%nat /\ run_rounds (take k rounds) tt = Val tt'
    /\ g_current_index tt' = Z.of_nat j
    /\ g_tasks tt' !! j = Some (set_state TASK_RUNNING t).
Proof.
  intros Hwf%task_reachable_wf Hj Hst Hsp Hlen.
  assert (0 <= Z.of_nat j < 32) as Hjr.
  { pose proof (lookup_lt_Some _ _ _ Hj) as Hl. rewrite (wf_length _ Hwf) in Hl.
    unfold MGCORE_MAX_TASKS in Hl. lia. }
  destruct (slot_after_surj (g_current_index tt) (Z.of_nat j) (wf_current _ Hwf) Hjr) as (d & Hd & Hjd).
  apply (waits_at_most j t 32 d); try done; lia.
Qed.

Lemma scheduler_bounded_waiting_witness :
  exists t, g_tasks booted !! 2%nat = Some t /\
  exists k tt', (1 <= k <= 32)%nat
    /\ run_rounds (take k (replicate 32 ([OpSpawn (str "x"); OpSleep 5], 1))) booted = Val tt'
    /\ g_current_index tt' = 2 /\ g_tasks tt' !! 2%nat = Some (set_state TASK_RUNNING t).
Proof.
  destruct (lookup_lt_is_Some_2 (g_tasks booted) 2) as [t Ht]; [vm_compute; lia|].
  exists t. split; [exact Ht|].
  apply (scheduler_bounded_waiting booted 2 t (replicate 32 ([OpSpawn (str "x"); OpSleep 5], 1))).
  - exact booted_reachable.
  - exact Ht.
  - vm_compute in Ht. injection Ht as <-. reflexivity.
  - apply Forall_replicate. repeat constructor.
  - rewrite length_replicate. lia.
Defined.

(** ** The leak suspect *)

(** The tasks the search considers: live ones with a parent. *)
Definition user_task (t : task) : Prop :=
  t_state t <> TASK_UNUSED /\ t_state t <> TASK_ZOMBIE /\ t_ppid t <> 0.

Lemma leaker_fold ts : forall acc,
  0 <= acc.1 ->
  let r := foldl leaker_step acc ts in
  acc.1 <= r.1 /\ (forall t, t ∈ ts -> user_task t -> task_estimated_pages t <= r.1)
  /\ (r = acc \/ exists t, t ∈ ts /\ user_task t /\ r = (task_estimated_pages t, t_pid t)
                          /\ acc.1 < task_estimated_pages t).
Proof.
  induction ts as [|t ts IH]; intros acc Ha; simpl.
  { split; [lia|]. split; [|by left]. intros t Ht. by apply not_elem_of_nil in Ht. }
  assert (leaker_step acc t = acc /\ (user_task t -> task_estimated_pages t <= acc.1)
          \/ user_task t /\ leaker_step acc t = (task_estimated_pages t, t_pid t)
             /\ acc.1 < task_estimated_pages t) as Hs.
  { unfold leaker_step, user_task. repeat case_decide; naive_solver lia. }
  assert (0 <= (leaker_step acc t).1) as Ha' by (destruct Hs as [[-> _]|(_ & -> & ?)]; simpl; lia).
  destruct (IH (leaker_step acc t) Ha') as (Hle & Hall & Hcase).
  destruct Hs as [[Heq Ht]|(Hu & Heq & Hgt)]; rewrite Heq in *; simpl in *.
  - split; [lia|]. split.
    + intros u [-> | Hu]%elem_of_cons; [|by apply Hall]. intros Hut. specialize (Ht Hut). lia.
    + destruct Hcase as [->|(u & Hu & Huu & -> & ?)]; [by left|right].
      exists u. split_and!; try done. by right.
  - split; [lia|]. split.
    + intros u [-> | Hu']%elem_of_cons; [done|by apply Hall].
    + right. destruct Hcase as [->|(u & Hu' & Huu & -> & ?)].
      * exists t. split_and!; try done. by left.
      * exists u. split_and!; try done; [by right|lia].
Qed.

(** The suspect of the memory guard is a live task with a parent whose address
    space is the largest among such tasks and not empty; 0 is returned exactly
    when every such task has an empty address space.  Tasks without a parent,
    such as the bootstrap and idle tasks, are never suspected. *)
Theorem leaker_is_largest_user_task (tt : task_table) :
  task_reachable tt ->
  let suspect := task_find_likely_memory_leaker tt in
  (suspect = 0 /\ forall t, t ∈ g_tasks tt -> user_task t -> task_estimated_pages t = 0)
  \/ (0 < suspect /\ exists t, t ∈ g_tasks tt /\ user_task t /\ t_pid t = suspect
       /\ 0 < task_estimated_pages t
       /\ forall u, u ∈ g_tasks tt -> user_task u -> task_estimated_pages u <= task_estimated_pages t).
Proof.
  intros Hwf%task_reachable_wf suspect.
  destruct (leaker_fold (g_tasks tt) (0, 0)) as (Hle & Hall & Hcase); [simpl; lia|].
  unfold suspect, task_find_likely_memory_leaker.
  destruct Hcase as [Heq|(t & Ht & Hu & Heq & Hgt)]; rewrite Heq in *; simpl in *; [left|right].
  - split; [done|]. intros t Ht Hu. specialize (Hall t Ht Hu). simpl in Hall.
    assert (0 <= task_estimated_pages t); [|lia].
    unfold task_estimated_pages. apply Z.div_pos; [apply u64_range|done].
  - split.
    + apply list_elem_of_lookup in Ht as [i Hi].
      assert (used t) as Hut by apply Hu. pose proof (wf_pids _ Hwf _ _ Hi Hut). lia.
    + by exists t.
Qed.

Lemma leaker_is_largest_user_task_witness :
  let suspect := task_find_likely_memory_leaker booted in
  (suspect = 0 /\ forall t, t ∈ g_tasks booted -> user_task t -> task_estimated_pages t = 0)
  \/ (0 < suspect /\ exists t, t ∈ g_tasks booted /\ user_task t /\ t_pid t = suspect
       /\ 0 < task_estimated_pages t
       /\ forall u, u ∈ g_tasks booted -> user_task u ->
            task_estimated_pages u <= task_estimated_pages t).
Proof. apply leaker_is_largest_user_task. exact booted_reachable. Defined.
