(* ===== verification/Sched.v ===== *)
(** [src/kernel/scheduler.c], [src/kernel/safeboot.c] and the two ways to stop
    the machine in [src/kernel/main.c]: the tick, the memory guard, safeboot.

    The kernel state these functions touch is one record; the console and the
    port hardware in it are generic.  A function that does not return in C
    yields [Halted] or [Rebooted] with the state it left behind. *)

From Stdlib Require Import ZArith Lia.
From stdpp Require Import base list strings.
From S2P Require Import Prelude KString Pmm Vmm Terminal Ports Task.
Open Scope Z_scope.
Import Fmt.

(** [include/mgcore/sched.h:6-6] MGCORE_HZ *)
Definition MGCORE_HZ : Z := 100.
(** [include/mgcore/sched.h:7-7] MGCORE_TIME_SLICE_TICKS *)
Definition MGCORE_TIME_SLICE_TICKS : Z := 10.
(** [include/mgcore/safeboot.h:6-6] SAFEBOOT_ACTION_REBOOT *)
Definition SAFEBOOT_ACTION_REBOOT : Z := 0.
(** [include/mgcore/safeboot.h:7-7] SAFEBOOT_ACTION_SHUTDOWN *)
Definition SAFEBOOT_ACTION_SHUTDOWN : Z := 1.

(** [src/kernel/scheduler.c:7-10] the scheduler's variables *)
Record sched_state := Sched {
  g_uptime_ticks : Z;
  g_memguard_boot_free_pages : Z;
  g_memguard_prev_free_pages : Z;
  g_memguard_critical_streak : Z;
}.

(** What the functions of this file read and write: the scheduler's variables,
    [g_safeboot_action] (safeboot.c:8), the task table, the page allocator, the
    interrupt flag of the processor, the console and the ports. *)
Record world (C M : Type) := World {
  w_sched : sched_state;
  w_action : Z;
  w_tasks : task_table;
  w_pmm : pmm_state;
  w_interrupts : bool;
  w_console : C;
  w_ports : M;
}.
Arguments World {C M}.
Arguments w_sched {C M}.
Arguments w_action {C M}.
Arguments w_tasks {C M}.
Arguments w_pmm {C M}.
Arguments w_interrupts {C M}.
Arguments w_console {C M}.
Arguments w_ports {C M}.

Inductive power (A : Type) : Type :=
| Running (a : A)
| Halted (a : A)
| Rebooted (a : A).
Arguments Running {A}.
Arguments Halted {A}.
Arguments Rebooted {A}.

Definition power_state {A} (p : power A) : A :=
  match p with Running a | Halted a | Rebooted a => a end.

Section Sched.
Context {C : Type} `{Terminal C} {M : Type} `{Ports M}.

(** ** Field updates *)

Definition with_sched (s : sched_state) (w : world C M) : world C M :=
  World s (w_action w) (w_tasks w) (w_pmm w) (w_interrupts w) (w_console w) (w_ports w).
Definition with_action (a : Z) (w : world C M) : world C M :=
  World (w_sched w) a (w_tasks w) (w_pmm w) (w_interrupts w) (w_console w) (w_ports w).
Definition with_task_table (t : task_table) (w : world C M) : world C M :=
  World (w_sched w) (w_action w) t (w_pmm w) (w_interrupts w) (w_console w) (w_ports w).
Definition with_pmm (p : pmm_state) (w : world C M) : world C M :=
  World (w_sched w) (w_action w) (w_tasks w) p (w_interrupts w) (w_console w) (w_ports w).
Definition with_interrupts (b : bool) (w : world C M) : world C M :=
  World (w_sched w) (w_action w) (w_tasks w) (w_pmm w) b (w_console w) (w_ports w).
Definition with_console (c : C) (w : world C M) : world C M :=
  World (w_sched w) (w_action w) (w_tasks w) (w_pmm w) (w_interrupts w) c (w_ports w).
Definition with_ports (h : M) (w : world C M) : world C M :=
  World (w_sched w) (w_action w) (w_tasks w) (w_pmm w) (w_interrupts w) (w_console w) h.

Definition print (f : C -> outcome C) (w : world C M) : outcome (world C M) :=
  c ← f (w_console w); Val (with_console c w).

(** ** Stopping the machine *)

(** [src/kernel/interrupt.c:96-98] interrupt_enable *)
Definition interrupt_enable (w : world C M) : world C M := with_interrupts true w.
(** [src/kernel/interrupt.c:100-102] interrupt_disable *)
Definition interrupt_disable (w : world C M) : world C M := with_interrupts false w.

(** [src/kernel/main.c:42-46] kernel_halt *)
Definition kernel_halt (w : world C M) : power (world C M) := Halted (interrupt_disable w).

(** [src/kernel/main.c:51-55] kernel_reboot, waiting for the keyboard controller *)
Fixpoint reboot_poll (n : nat) (h : M) : M :=
  match n with
  | O => h
  | S n =>
      let '(status, h) := io_in8 0x64 h in
      if decide (Z.land status 0x02 = 0) then h else reboot_poll n h
  end.

(** [src/kernel/main.c:48-60] kernel_reboot *)
Definition kernel_reboot (w : world C M) : power (world C M) :=
  let w := interrupt_disable w in
  let h := reboot_poll (Z.to_nat 100000) (w_ports w) in
  Rebooted (with_ports (io_out8 0x64 0xFE h) w).

(** ** Safeboot *)

(** [src/kernel/safeboot.c:10-14] safeboot_set_action *)
Definition safeboot_set_action (action : Z) (w : world C M) : world C M :=
  if decide (action = SAFEBOOT_ACTION_REBOOT \/ action = SAFEBOOT_ACTION_SHUTDOWN)
  then with_action action w else w.

(** [src/kernel/safeboot.c:16-18] safeboot_get_action *)
Definition safeboot_get_action (w : world C M) : Z := w_action w.

(** [src/kernel/safeboot.c:24-30] safeboot_trigger, dealing with the suspect *)
Definition safeboot_kill (suspect_pid : Z) (w : world C M) : outcome (world C M) :=
  if decide (suspect_pid > 1) then
    '(killed, tasks) ← task_kill suspect_pid 137 (w_tasks w);
    let w := with_task_table tasks w in
    if decide (killed <> 0) then
      print (console_printf (str "safeboot: killed suspect pid=%u" ++ [10]) [VaWord (u32 suspect_pid)]) w
    else
      print (console_printf (str "safeboot: suspect pid=%u not killable" ++ [10]) [VaWord (u32 suspect_pid)]) w
  else Val w.

(** [src/kernel/safeboot.c:20-39] safeboot_trigger *)
Definition safeboot_trigger (reason : option (list Z)) (suspect_pid : Z) (w : world C M)
  : outcome (power (world C M)) :=
  let w := interrupt_disable w in
  w ← print (console_printf (str "safeboot: reason=%s" ++ [10])
               [VaStr (Some (default (str "unknown") reason))]) w;
  w ← safeboot_kill suspect_pid w;
  if decide (w_action w = SAFEBOOT_ACTION_SHUTDOWN) then
    w ← print (console_writeln (str "safeboot: policy=shutdown") []) w;
    Val (kernel_halt w)
  else
    w ← print (console_writeln (str "safeboot: policy=reboot") []) w;
    Val (kernel_reboot w).

(** [src/kernel/main.c:62-66] kernel_panic *)
Definition kernel_panic (message : list Z) (w : world C M) : outcome (power (world C M)) :=
  let suspect := task_find_likely_memory_leaker (w_tasks w) in
  w ← print (console_printf ([10] ++ str "PANIC: %s" ++ [10]) [VaStr (Some message)]) w;
  safeboot_trigger (Some (str "kernel panic")) suspect w.

(** ** The memory guard *)

(** [src/kernel/scheduler.c:14-20] scheduler_init *)
Definition scheduler_init (w : world C M) : outcome (world C M) :=
  let free := pmm_free_pages (w_pmm w) in
  print (console_printf (str "sched: round-robin %u Hz slice=%u ticks" ++ [10])
           [VaWord MGCORE_HZ; VaWord MGCORE_TIME_SLICE_TICKS])
        (with_sched (Sched 0 free free 0) w).

(** [src/kernel/scheduler.c:36-36] memory_guard_tick, the test for pressure *)
Definition critical (p : pmm_state) : bool :=
  negb (bool_decide (u64 (pmm_free_pages p * 100) > u64 (pmm_total_pages p * 5)
                     /\ pmm_free_pages p > 128)).

(** [src/kernel/scheduler.c:44-50] memory_guard_tick, the leak signature *)
Definition leak_signature (s : sched_state) (free : Z) : bool :=
  bool_decide (g_memguard_boot_free_pages s > u64 (free + 256)
               \/ g_memguard_prev_free_pages s > free).

(** [src/kernel/scheduler.c:22-74] memory_guard_tick *)
Definition memory_guard_tick (w : world C M) : outcome (power (world C M)) :=
  let total := pmm_total_pages (w_pmm w) in
  let free := pmm_free_pages (w_pmm w) in
  let s := w_sched w in
  if decide (total = 0) then Val (Running w)
  else if negb (critical (w_pmm w)) then
    Val (Running (with_sched (Sched (g_uptime_ticks s) (g_memguard_boot_free_pages s) free 0) w))
  else
    let streak := u32 (g_memguard_critical_streak s + 1) in
    let leak := leak_signature s free in
    let w := with_sched (Sched (g_uptime_ticks s) (g_memguard_boot_free_pages s) free streak) w in
    if negb leak || bool_decide (streak < 5) then
      (if decide (streak mod 5 = 0) then
         w ← print (console_printf (str "memguard: critical pressure free=%u/%u pages (observing)" ++ [10])
                      [VaWord (u32 free); VaWord (u32 total)]) w;
         Val (Running w)
       else Val (Running w))
    else
      let suspect := task_find_likely_memory_leaker (w_tasks w) in
      if decide (suspect > 0) then
        w ← print (console_printf (str "memguard: free=%u/%u pages suspect pid=%u" ++ [10])
                     [VaWord (u32 free); VaWord (u32 total); VaWord (u32 suspect)]) w;
        safeboot_trigger (Some (str "memory leak detected")) suspect w
      else
        w ← print (console_printf (str "memguard: leak signature without suspect free=%u/%u pages" ++ [10])
                     [VaWord (u32 free); VaWord (u32 total)]) w;
        Val (Running w).

(** [src/kernel/scheduler.c:76-82] scheduler_tick *)
Definition scheduler_tick (w : world C M) : outcome (power (world C M)) :=
  let s := w_sched w in
  let now := u64 (g_uptime_ticks s + 1) in
  let w := with_sched (Sched now (g_memguard_boot_free_pages s) (g_memguard_prev_free_pages s)
                             (g_memguard_critical_streak s)) w in
  tasks ← task_scheduler_tick now (w_tasks w);
  let w := with_task_table tasks w in
  if decide (now mod MGCORE_HZ = 0) then memory_guard_tick w else Val (Running w).

(** [src/kernel/scheduler.c:90-92] scheduler_uptime_ticks *)
Definition scheduler_uptime_ticks (w : world C M) : Z := g_uptime_ticks (w_sched w).
(** [src/kernel/scheduler.c:94-96] scheduler_uptime_ms *)
Definition scheduler_uptime_ms (w : world C M) : Z :=
  u64 (g_uptime_ticks (w_sched w) * 1000) / MGCORE_HZ.
(** [src/kernel/scheduler.c:84-88] scheduler_dump *)
Definition scheduler_dump (w : world C M) : outcome (world C M) :=
  print (console_printf (str "uptime: %u ticks (%u ms)" ++ [10])
           [VaWord (u32 (g_uptime_ticks (w_sched w))); VaWord (u32 (scheduler_uptime_ms w))]) w.

End Sched.

(** * What the functions do *)

Section SchedSpec.
Context {C : Type} `{TerminalLaws C} {M : Type} `{Ports M}.
Implicit Types w : world C M.

(** A world the functions run on without stopping early. *)
Definition world_ok (w : world C M) : Prop := tasks_wf (w_tasks w) /\ term_ok (w_console w).

Lemma print_spec f w :
  prints f -> term_ok (w_console w) ->
  exists c, print f w = Val (with_console c w) /\ term_ok c.
Proof.
  intros Hf Hw. destruct (Hf _ Hw) as (c & o & Hc & Hok & _). exists c. unfold print. by rewrite Hc.
Qed.

Ltac prints := first
  [ apply printf_prints; [reflexivity|reflexivity|repeat constructor]
  | apply writeln_prints; [eexists; reflexivity|vm_compute; repeat constructor; discriminate|constructor] ].

(** The task table after safeboot dealt with a suspect. *)
Definition after_kill (suspect : Z) (before after : task_table) : Prop :=
  (forall i t, g_tasks before !! i = Some t -> suspect <= 1 \/ t_pid t <> suspect ->
     g_tasks after !! i = Some t)
  /\ (forall i t, g_tasks before !! i = Some t -> 1 < suspect -> t_pid t = suspect ->
        used t -> t_state t <> TASK_ZOMBIE ->
        g_tasks after !! i = Some (set_exit_code 137 (set_state TASK_ZOMBIE t))).

Lemma after_kill_wf suspect before :
  tasks_wf before -> 1 < suspect ->
  exists killed after, task_kill suspect 137 before = Val (killed, after)
    /\ tasks_wf after /\ after_kill suspect before after.
Proof.
  intros Hwf Hs. destruct (task_kill_spec suspect 137 before Hwf) as (r & after & Hk & [_ Hwf'] & _ & Hcase).
  exists r, after. split; [done|]. split; [done|]. split.
  - intros i t Hi [Hle|Hne]; [lia|]. destruct Hcase as [[-> _]|(_ & j & tj & Hj & Hpid & _ & ->)]; [done|].
    simpl. rewrite list_lookup_insert_ne; [done|]. intros ->. congruence.
  - intros i t Hi _ Hpid Hu Hz. rewrite (task_kill_live _ _ _ _ _ Hwf Hi Hu Hz Hpid) in Hk.
    injection Hk as _ <-. simpl. apply list_lookup_insert_eq. by eapply lookup_lt_Some.
Qed.

Lemma safeboot_kill_spec suspect w :
  world_ok w ->
  exists w', safeboot_kill suspect w = Val w' /\ world_ok w'
    /\ after_kill suspect (w_tasks w) (w_tasks w')
    /\ w_action w' = w_action w /\ w_interrupts w' = w_interrupts w.
Proof.
  intros [Hwf Hc]. unfold safeboot_kill. case_decide as Hs.
  - destruct (after_kill_wf suspect (w_tasks w) Hwf) as (killed & after & -> & Hwf' & Hak); [lia|].
    cbn [mbind outcome_bind]. case_decide.
    + edestruct (print_spec (console_printf (str "safeboot: killed suspect pid=%u" ++ [10])
        [VaWord (u32 suspect)]) (with_task_table after w)) as (c & -> & Hok); [prints|done|].
      eexists. by split_and!.
    + edestruct (print_spec (console_printf (str "safeboot: suspect pid=%u not killable" ++ [10])
        [VaWord (u32 suspect)]) (with_task_table after w)) as (c & -> & Hok); [prints|done|].
      eexists. by split_and!.
  - exists w. split_and!; try done. split; [done|]. intros; lia.
Qed.

(** The last act of safeboot: the machine is off or resetting, interrupts off. *)
Definition stopped (shutdown : bool) (r : power (world C M)) : Prop :=
  (if shutdown then exists w, r = Halted w else exists w, r = Rebooted w)
  /\ w_interrupts (power_state r) = false.

Lemma safeboot_trigger_spec reason suspect w :
  world_ok w -> Forall in_u8 (default [] reason) ->
  exists r, safeboot_trigger reason suspect w = Val r
    /\ stopped (bool_decide (w_action w = SAFEBOOT_ACTION_SHUTDOWN)) r
    /\ after_kill suspect (w_tasks w) (w_tasks (power_state r)).
Proof.
  intros [Hwf Hc] Hb. unfold safeboot_trigger.
  destruct (print_spec (console_printf (str "safeboot: reason=%s" ++ [10])
    [VaStr (Some (default (str "unknown") reason))]) (interrupt_disable w)) as (c & -> & Hok); [|done|].
  { apply printf_prints; [reflexivity|reflexivity|]. constructor; [|constructor]. simpl.
    destruct reason; [done|]. vm_compute. repeat constructor; discriminate. }
  cbn [mbind outcome_bind].
  destruct (safeboot_kill_spec suspect (with_console c (interrupt_disable w)))
    as (w1 & -> & [Hwf1 Hc1] & Hak & Hact & Hint); [done|].
  cbn [mbind outcome_bind]. rewrite Hact.
  change (w_action (with_console c (interrupt_disable w))) with (w_action w). case_decide as Ha.
  - rewrite bool_decide_eq_true_2 by done.
    destruct (print_spec (console_writeln (str "safeboot: policy=shutdown") []) w1) as (c2 & -> & _);
      [prints|done|].
    eexists. split; [done|]. split; [split; [by eexists|done]|done].
  - rewrite bool_decide_eq_false_2 by done.
    destruct (print_spec (console_writeln (str "safeboot: policy=reboot") []) w1) as (c2 & -> & _);
      [prints|done|].
    eexists. split; [done|]. split; [split; [by eexists|done]|done].
Qed.

(** ** The memory guard *)

(** The conditions under which a check gives up on the machine. *)
Definition guard_fires (w : world C M) : Prop :=
  let s := w_sched w in
  pmm_total_pages (w_pmm w) <> 0 /\ critical (w_pmm w) = true
  /\ leak_signature s (pmm_free_pages (w_pmm w)) = true
  /\ 5 <= u32 (g_memguard_critical_streak s + 1)
  /\ 0 < task_find_likely_memory_leaker (w_tasks w).

Lemma observing_spec streak a b w :
  world_ok w ->
  exists w', (if decide (streak mod 5 = 0) then
      w ← print (console_printf (str "memguard: critical pressure free=%u/%u pages (observing)" ++ [10])
                   [VaWord a; VaWord b]) w;
      Val (Running w)
    else Val (Running w)) = Val (Running w') /\ world_ok w' /\ w_tasks w' = w_tasks w.
Proof.
  intros Hok. destruct (decide _); [|by exists w].
  destruct (print_spec (console_printf
    (str "memguard: critical pressure free=%u/%u pages (observing)" ++ [10])
    [VaWord a; VaWord b]) w) as (c & -> & Hokc); [prints|apply Hok|].
  eexists. split; [done|]. split; [|done]. split; [apply Hok|done].
Qed.

Lemma guard_spec w :
  world_ok w ->
  exists r, memory_guard_tick w = Val r
    /\ ((guard_fires w /\ stopped (bool_decide (w_action w = SAFEBOOT_ACTION_SHUTDOWN)) r
         /\ after_kill (task_find_likely_memory_leaker (w_tasks w)) (w_tasks w) (w_tasks (power_state r)))
        \/ (~ guard_fires w /\ exists w', r = Running w' /\ world_ok w' /\ w_tasks w' = w_tasks w)).
Proof.
  intros Hok. unfold memory_guard_tick, guard_fires. case_decide as Ht.
  { eexists. split; [done|]. right. split; [naive_solver|]. by exists w. }
  destruct (critical (w_pmm w)); cbn [negb].
  2: { eexists. split; [done|]. right. split; [naive_solver|]. by eexists. }
  destruct Hok as [Hwf Hc]. set (streak := u32 _). set (w1 := with_sched (Sched _ _ _ streak) w).
  destruct (leak_signature _ _); cbn [negb orb]; [destruct (bool_decide (streak < 5)) eqn:Hst|].
  1, 3: destruct (observing_spec streak (u32 (pmm_free_pages (w_pmm w)))
          (u32 (pmm_total_pages (w_pmm w))) w1) as (w' & -> & Hok' & Heq); [done|];
        eexists; split; [done|]; right; split; [|by exists w'];
        intros (_ & _ & ? & ? & _); try apply bool_decide_eq_true in Hst; done || lia.
  apply bool_decide_eq_false in Hst. change (w_tasks w1) with (w_tasks w). case_decide as Hs.
  - destruct (print_spec (console_printf (str "memguard: free=%u/%u pages suspect pid=%u" ++ [10])
      [VaWord (u32 (pmm_free_pages (w_pmm w))); VaWord (u32 (pmm_total_pages (w_pmm w)));
       VaWord (u32 (task_find_likely_memory_leaker (w_tasks w)))]) w1) as (c & -> & Hokc); [prints|done|].
    cbn [mbind outcome_bind].
    destruct (safeboot_trigger_spec (Some (str "memory leak detected"))
      (task_find_likely_memory_leaker (w_tasks w)) (with_console c w1)) as (r & -> & Hstop & Hak); [done| |].
    { vm_compute. repeat constructor; discriminate. }
    exists r. split; [done|]. left. split; [|done]. repeat split; try done; lia.
  - destruct (print_spec (console_printf
      (str "memguard: leak signature without suspect free=%u/%u pages" ++ [10])
      [VaWord (u32 (pmm_free_pages (w_pmm w))); VaWord (u32 (pmm_total_pages (w_pmm w)))]) w1)
      as (c & -> & Hokc); [prints|done|]. cbn [mbind outcome_bind].
    eexists. split; [done|]. right. split; [intros (_ & _ & _ & _ & ?); lia|]. by eexists.
Qed.

(** ** Consecutive checks *)

(** Checks of the guard on successive states of the page allocator. *)
Fixpoint guard_run (ps : list pmm_state) (w : world C M) : outcome (power (world C M)) :=
  match ps with
  | [] => Val (Running w)
  | p :: ps =>
      r ← memory_guard_tick (with_pmm p w);
      match r with
      | Running w => guard_run ps w
      | stopped => Val stopped
      end
  end.

(** A check under pressure: memory is critical, or the boot loader gave none. *)
Definition pressured (p : pmm_state) : bool :=
  bool_decide (pmm_total_pages p = 0) || critical p.

(** Length of the longest suffix of checks under pressure. *)
Definition pressure_run (n : nat) (ps : list pmm_state) : nat :=
  foldl (fun n p => if pressured p then S n else O) n ps.

Lemma pressure_run_drop ps k :
  (k <= pressure_run 0 ps)%nat ->
  (k <= length ps)%nat /\ Forall (fun p => pressured p = true) (drop (length ps - k) ps).
Proof.
  revert k. induction ps as [|p ps IH] using rev_ind; intros k Hk.
  - simpl in *. split; [lia|constructor].
  - unfold pressure_run in Hk. rewrite foldl_snoc in Hk. fold (pressure_run 0 ps) in Hk.
    rewrite length_app. simpl. destruct k as [|k].
    { split; [lia|]. rewrite drop_ge by (rewrite length_app; simpl; lia). constructor. }
    destruct (pressured p) eqn:Hc; [|lia]. destruct (IH k) as [Hl Hf]; [lia|]. split; [lia|].
    rewrite drop_app_le by lia. replace (length ps + 1 - S k)%nat with (length ps - k)%nat by lia.
    apply Forall_app. split; [done|]. by constructor.
Qed.

Definition streak (w : world C M) : Z := g_memguard_critical_streak (w_sched w).

Lemma print_sched f w w' : print f w = Val w' -> w_sched w' = w_sched w /\ w_pmm w' = w_pmm w.
Proof. unfold print. intros Hp. by inv_outcome. Qed.

Lemma safeboot_not_running reason suspect w w' :
  safeboot_trigger reason suspect w <> Val (Running w').
Proof.
  unfold safeboot_trigger. intros Ht. inv_outcome. case_decide; inv_outcome; discriminate.
Qed.

Lemma u32_streak s : 0 <= s -> 0 <= u32 (s + 1) <= s + 1.
Proof. intros Hs. unfold u32, wrap. split; [apply Z.mod_pos_bound; lia|apply Z.mod_le; lia]. Qed.

Lemma guard_streak w w' :
  memory_guard_tick w = Val (Running w') -> 0 <= streak w ->
  0 <= streak w' <= (if pressured (w_pmm w) then streak w + 1 else 0).
Proof.
  unfold memory_guard_tick, pressured, streak. intros Hg Hs.
  destruct (decide (pmm_total_pages (w_pmm w) = 0)) as [Ht|Ht].
  { rewrite bool_decide_eq_true_2 by done. injection Hg as <-. simpl. lia. }
  rewrite bool_decide_eq_false_2 by done. cbn [orb].
  destruct (critical (w_pmm w)); cbn [negb] in Hg; [|injection Hg as <-; simpl; lia].
  pose proof (u32_streak _ Hs) as Hu.
  destruct (negb _ || bool_decide _); [case_decide|case_decide]; inv_outcome;
    try (apply print_sched in Ha as [-> _]; simpl; lia).
  - simpl. lia.
  - by apply safeboot_not_running in Hg.
Qed.

Lemma guard_run_streak ps : forall seen w w',
  0 <= streak w <= Z.of_nat (pressure_run 0 seen) -> guard_run ps w = Val (Running w') ->
  0 <= streak w' <= Z.of_nat (pressure_run 0 (seen ++ ps)).
Proof.
  induction ps as [|p ps IH]; intros seen w w' Hs Hr; simpl in Hr.
  - injection Hr as <-. by rewrite app_nil_r.
  - inv_outcome. destruct a as [w1|w1|w1]; try discriminate.
    apply guard_streak in Ha as Hst; [|apply Hs]. simpl in Hst.
    rewrite (cons_middle p seen ps), app_assoc. apply (IH (seen ++ [p]) w1); [|done].
    unfold pressure_run. rewrite foldl_snoc. fold (pressure_run 0 seen).
    change (streak (with_pmm p w)) with (streak w) in Hst.
    destruct (pressured p); lia.
Qed.

End SchedSpec.

(** * Properties *)

Import Transcript Bench.

(** A booted machine whose [init] grew by one megabyte, with the plainest console
    and scripted ports; memory is almost exhausted. *)
Definition grown : address_space := AddressSpace 0x800000 0x900000 0x20000000.
Definition demo_tasks : task_table :=
  with_tasks (alter (set_mm grown) 2%nat (g_tasks booted)) booted.
Definition low_memory : pmm_state := Pmm [] 4000 80.
Definition demo_world : world transcript bench :=
  World (Sched 0 5000 90 0) SAFEBOOT_ACTION_SHUTDOWN demo_tasks low_memory true
        (Script [] []) (Machine [] []).

Lemma demo_world_ok : world_ok demo_world.
Proof.
  split; [|constructor]. pose proof (task_reachable_wf _ booted_reachable) as Hwf.
  assert (exists t, g_tasks booted !! Z.to_nat 2 = Some t /\ t_state t = TASK_RUNNABLE) as (t & Ht & Hst).
  { eexists. split; [vm_compute; reflexivity|reflexivity]. }
  assert (g_current_index booted = 0) as Hc by reflexivity.
  unfold demo_world, demo_tasks. cbn [w_tasks].
  replace (alter _ _ _) with (<[Z.to_nat 2 := set_mm grown t]> (g_tasks booted)).
  2: { apply list_eq. intros i. destruct (decide (i = 2%nat)) as [->|].
       - rewrite list_lookup_alter_eq. change 2%nat with (Z.to_nat 2). rewrite Ht.
         apply list_lookup_insert_eq. by eapply lookup_lt_Some.
       - by rewrite list_lookup_alter_ne, list_lookup_insert_ne by done. }
  apply replace_wf with t; try done.
  all: simpl; congruence || (by intros []) || lia.
Qed.

(** The machine after four checks, and what the fifth does. *)
Definition demo_later : world transcript bench :=
  match guard_run (replicate 4 low_memory) demo_world with
  | Val r => power_state r
  | Stop _ => demo_world
  end.
Definition demo_end : power (world transcript bench) :=
  match memory_guard_tick (with_pmm low_memory demo_later) with
  | Val r => r
  | Stop _ => Running demo_world
  end.

Example demo_killed :
  (fun t => (t_state t, exit_code t)) <$> (g_tasks (w_tasks (power_state demo_end)) !! 2%nat)
  = Some (TASK_ZOMBIE, 137).
Proof. vm_compute. reflexivity. Qed.

Section SchedProps.
Context {C : Type} `{TerminalLaws C} {M : Type} `{Ports M}.

(** C13 Safeboot never returns: it disables interrupts, halts the machine when the
    policy is shutdown and resets it otherwise.  A live suspect with a pid above
    1 is a zombie with exit status 137 by then; every other task is untouched,
    so the bootstrap task (pid 1) is never killed. *)
Theorem safeboot_outcome (reason : option (list Z)) (suspect : Z) (w : world C M) :
  world_ok w -> Forall in_u8 (default [] reason) ->
  exists r, safeboot_trigger reason suspect w = Val r
    /\ stopped (bool_decide (safeboot_get_action w = SAFEBOOT_ACTION_SHUTDOWN)) r
    /\ after_kill suspect (w_tasks w) (w_tasks (power_state r)).
Proof. apply safeboot_trigger_spec. Qed.

(** The memory guard always finishes its check.  It gives up on the machine
    exactly when memory is critical for the fifth check in a row or later, free
    memory is still dropping or well below its level at boot, and there is a
    suspect; that suspect is then dead and the machine stopped.  Otherwise it
    returns with the tasks untouched. *)
Theorem memory_guard_outcome (w : world C M) :
  world_ok w ->
  exists r, memory_guard_tick w = Val r
    /\ ((guard_fires w /\ stopped (bool_decide (w_action w = SAFEBOOT_ACTION_SHUTDOWN)) r
         /\ after_kill (task_find_likely_memory_leaker (w_tasks w)) (w_tasks w) (w_tasks (power_state r)))
        \/ (~ guard_fires w /\ exists w', r = Running w' /\ world_ok w' /\ w_tasks w' = w_tasks w)).
Proof. apply guard_spec. Qed.

(** No false alarm: whatever happens to memory between checks, when the guard
    stops the machine the last five checks were all under pressure. *)
Theorem memory_guard_patience (ps : list pmm_state) (p : pmm_state) (w w' : world C M)
  (r : power (world C M)) :
  streak w = 0 -> guard_run ps w = Val (Running w') ->
  memory_guard_tick (with_pmm p w') = Val r -> (forall w2, r <> Running w2) ->
  pressured p = true /\ (4 <= length ps)%nat
  /\ Forall (fun q => pressured q = true) (drop (length ps - 4) ps).
Proof.
  intros Hs Hrun Hg Hr. apply (guard_run_streak ps []) in Hrun; [|simpl; lia]. simpl in Hrun.
  unfold memory_guard_tick in Hg. change (w_pmm (with_pmm p w')) with p in Hg.
  change (w_sched (with_pmm p w')) with (w_sched w') in Hg.
  case_decide; [injection Hg as <-; by destruct (Hr (with_pmm p w'))|].
  unfold pressured at 1. destruct (critical p); cbn [negb] in Hg; [|injection Hg as <-; by destruct (Hr _ eq_refl)].
  pose proof (u32_streak _ (proj1 Hrun)) as Hu.
  unfold streak in *.
  destruct (negb (leak_signature _ _) || bool_decide (u32 _ < 5)) eqn:Hb.
  - exfalso. case_decide; inv_outcome; by eapply Hr.
  - apply orb_false_iff in Hb as [_ Hb]. apply bool_decide_eq_false in Hb.
    split; [by rewrite orb_true_r|]. apply pressure_run_drop. lia.
Qed.

End SchedProps.

Lemma safeboot_outcome_witness :
  exists r, safeboot_trigger (Some (str "test")) 3 demo_world = Val r
    /\ stopped true r /\ after_kill 3 (w_tasks demo_world) (w_tasks (power_state r)).
Proof.
  apply (safeboot_outcome (Some (str "test")) 3 demo_world demo_world_ok).
  vm_compute. repeat constructor; discriminate.
Defined.

Lemma memory_guard_outcome_witness :
  exists r, memory_guard_tick demo_world = Val r
    /\ ((guard_fires demo_world /\ stopped true r
         /\ after_kill (task_find_likely_memory_leaker (w_tasks demo_world)) (w_tasks demo_world)
                       (w_tasks (power_state r)))
        \/ (~ guard_fires demo_world /\ exists w', r = Running w' /\ world_ok w'
                                                  /\ w_tasks w' = w_tasks demo_world)).
Proof. exact (memory_guard_outcome demo_world demo_world_ok). Defined.

Lemma memory_guard_patience_witness :
  pressured low_memory = true /\ (4 <= 4)%nat
  /\ Forall (fun q => pressured q = true) (drop (4 - 4) (replicate 4 low_memory)).
Proof.
  apply (memory_guard_patience (replicate 4 low_memory) low_memory demo_world demo_later demo_end).
  - reflexivity.
  - vm_compute. reflexivity.
  - vm_compute. reflexivity.
  - intros w2. vm_compute. discriminate.
Defined.
