(* ===== verification/Tmpfs.v ===== *)
(** [src/kernel/tmpfs.c]: the in-memory file system.

    A table of 256 nodes linked into a tree by indices, and one data arena of
    1 MiB from which file contents are carved and never returned.  A data
    pointer is an offset into the arena ([None] for a null pointer).  The arena
    starts zeroed and is large, so its contents are a finite map in which an
    absent byte is 0; every access is checked against its size. *)

From Stdlib Require Import ZArith Lia Ascii.
From stdpp Require Import base gmap list strings.
From S2P Require Import Prelude KString Terminal.
Open Scope Z_scope.
Import Fmt.

(** [src/kernel/tmpfs.c:6-6] TMPFS_DATA_ARENA_SIZE *)
Definition TMPFS_DATA_ARENA_SIZE : Z := 1024 * 1024.
(** [include/mgcore/fs.h:8-8] MGCORE_PATH_MAX *)
Definition MGCORE_PATH_MAX : nat := 256.
(** [include/mgcore/fs.h:9-9] MGCORE_NAME_MAX *)
Definition MGCORE_NAME_MAX : nat := 32.
(** [include/mgcore/fs.h:10-10] MGCORE_MAX_NODES *)
Definition MGCORE_MAX_NODES : nat := 256.

(** [include/mgcore/fs.h:12-17] vfs_node_type *)
Inductive vfs_node_type : Type :=
| VFS_NODE_NONE
| VFS_NODE_FILE
| VFS_NODE_DIR
| VFS_NODE_CHARDEV.

#[export] Instance vfs_node_type_eq_dec : EqDecision vfs_node_type.
Proof. solve_decision. Defined.

(** [include/mgcore/fs.h:19-31] vfs_node *)
Record vfs_node := Node {
  n_id : Z;
  parent_id : Z;
  first_child_id : Z;
  next_sibling_id : Z;
  n_type : vfs_node_type;
  n_name : list Z;
  n_data : option Z;
  n_size : Z;
  n_capacity : Z;
  n_mode : Z;
  device_id : Z;
}.

(** [src/kernel/tmpfs.c:8-10] g_nodes, g_data_arena, g_data_offset *)
Record tmpfs := Tmpfs {
  g_nodes : list vfs_node;
  g_data_arena : gmap Z Z;
  g_data_offset : Z;
}.

(** ** Field updates *)

Definition set_first_child (v : Z) (n : vfs_node) : vfs_node :=
  Node (n_id n) (parent_id n) v (next_sibling_id n) (n_type n) (n_name n) (n_data n)
       (n_size n) (n_capacity n) (n_mode n) (device_id n).
Definition set_next_sibling (v : Z) (n : vfs_node) : vfs_node :=
  Node (n_id n) (parent_id n) (first_child_id n) v (n_type n) (n_name n) (n_data n)
       (n_size n) (n_capacity n) (n_mode n) (device_id n).
Definition set_storage (data : option Z) (capacity : Z) (n : vfs_node) : vfs_node :=
  Node (n_id n) (parent_id n) (first_child_id n) (next_sibling_id n) (n_type n) (n_name n) data
       (n_size n) capacity (n_mode n) (device_id n).
Definition set_size (size : Z) (n : vfs_node) : vfs_node :=
  Node (n_id n) (parent_id n) (first_child_id n) (next_sibling_id n) (n_type n) (n_name n) (n_data n)
       size (n_capacity n) (n_mode n) (device_id n).
Definition set_device (device : Z) (n : vfs_node) : vfs_node :=
  Node (n_id n) (parent_id n) (first_child_id n) (next_sibling_id n) (n_type n) (n_name n) (n_data n)
       (n_size n) (n_capacity n) (n_mode n) device.

Definition with_nodes (ns : list vfs_node) (fs : tmpfs) : tmpfs :=
  Tmpfs ns (g_data_arena fs) (g_data_offset fs).
Definition with_arena (a : gmap Z Z) (fs : tmpfs) : tmpfs :=
  Tmpfs (g_nodes fs) a (g_data_offset fs).

(** Update of [g_nodes[i]]. *)
Definition upd_node (i : Z) (f : vfs_node -> vfs_node) (fs : tmpfs) : outcome tmpfs :=
  n ← aget (g_nodes fs) i;
  ns ← aset (g_nodes fs) i (f n);
  Val (with_nodes ns fs).

(** [src/kernel/tmpfs.c:128-128] tmpfs_init, a node after [kmemset] *)
Definition zero_node : vfs_node :=
  Node 0 0 0 0 VFS_NODE_NONE (replicate MGCORE_NAME_MAX 0) None 0 0 0 0.

(** ** The arena *)

Definition in_arena (p n : Z) : Prop := 0 <= p /\ 0 <= n /\ p + n <= TMPFS_DATA_ARENA_SIZE.
#[export] Instance in_arena_dec p n : Decision (in_arena p n).
Proof. unfold in_arena. apply _. Defined.

Definition arena_get (a : gmap Z Z) (p : Z) : Z := default 0 (a !! p).

(** [n] bytes read from the arena by [kmemcpy]; nothing is touched when [n = 0]. *)
Definition arena_read (a : gmap Z Z) (p : option Z) (offset n : Z) : outcome (list Z) :=
  if decide (n = 0) then Val []
  else match p with
  | None => Stop Oob
  | Some p =>
      let p := u64 (p + offset) in
      if decide (in_arena p n) then Val (arena_get a <$> seqZ p n) else Stop Oob
  end.

Fixpoint arena_store (a : gmap Z Z) (p : Z) (bs : list Z) : gmap Z Z :=
  match bs with
  | [] => a
  | b :: bs => arena_store (<[p := b]> a) (p + 1) bs
  end.

Definition arena_write (a : gmap Z Z) (p : option Z) (offset : Z) (bs : list Z) : outcome (gmap Z Z) :=
  if decide (bs = []) then Val a
  else match p with
  | None => Stop Oob
  | Some p =>
      let p := u64 (p + offset) in
      if decide (in_arena p (Z.of_nat (length bs))) then Val (arena_store a p bs) else Stop Oob
  end.

(** [kmemcpy] inside the arena, byte by byte upwards. *)
Fixpoint arena_copy_up (n : nat) (a : gmap Z Z) (dst src : Z) : gmap Z Z :=
  match n with
  | O => a
  | S n => arena_copy_up n (<[dst := arena_get a src]> a) (dst + 1) (src + 1)
  end.

Definition arena_copy (a : gmap Z Z) (dst src n : Z) : outcome (gmap Z Z) :=
  if decide (n = 0) then Val a
  else if decide (in_arena dst n /\ in_arena src n) then Val (arena_copy_up (Z.to_nat n) a dst src)
  else Stop Oob.

(** ** Nodes and storage *)

(** [src/kernel/tmpfs.c:16-24] alloc_node, the entry it resets; type and name stay *)
Definition reset_node (i : Z) (n : vfs_node) : vfs_node :=
  Node i (-1) (-1) (-1) (n_type n) (n_name n) None 0 0 0 0.

(** [src/kernel/tmpfs.c:12-29] alloc_node *)
Definition alloc_node (fs : tmpfs) : outcome (Z * tmpfs) :=
  match first_index (fun n => bool_decide (n_type n = VFS_NODE_NONE)) (g_nodes fs) 0 with
  | Some i => fs ← upd_node i (reset_node i) fs; Val (i, fs)
  | None => Val (- ENOSPC, fs)
  end.

(** [src/kernel/tmpfs.c:31-40] alloc_storage *)
Definition alloc_storage (size : Z) (fs : tmpfs) : option Z * tmpfs :=
  let aligned := Z.land (u64 (size + 15)) (u32_not 15) in
  if decide (u64 (g_data_offset fs + aligned) > TMPFS_DATA_ARENA_SIZE) then (None, fs)
  else (Some (g_data_offset fs),
        Tmpfs (g_nodes fs) (g_data_arena fs) (u64 (g_data_offset fs + aligned))).

(** [src/kernel/tmpfs.c:44-50] lookup_child, the walk along the siblings *)
Fixpoint sibling_search (fuel : nat) (nodes : list vfs_node) (child : Z) (name : list Z) : outcome Z :=
  if decide (child >= 0) then
    match fuel with
    | O => Stop OutOfFuel
    | S fuel =>
        n ← aget nodes child;
        if decide (vstrcmp (cstr (n_name n)) name = 0) then Val child
        else sibling_search fuel nodes (next_sibling_id n) name
    end
  else Val (- ENOENT).

(** [src/kernel/tmpfs.c:42-51] lookup_child; a chain longer than the table would
    never end *)
Definition lookup_child (fs : tmpfs) (parent : Z) (name : list Z) : outcome Z :=
  p ← aget (g_nodes fs) parent;
  sibling_search MGCORE_MAX_NODES (g_nodes fs) (first_child_id p) name.

(** ** Paths *)

Definition slash : Z := chr "/"%char.

(** [src/kernel/tmpfs.c:55-57] split_parent, back over trailing slashes *)
Fixpoint back_over_slashes (path : list Z) (last : nat) : nat :=
  match last with
  | S l => if decide (path !! l = Some slash) then back_over_slashes path l else last
  | O => O
  end.
(** [src/kernel/tmpfs.c:58-60] split_parent, back to the last slash *)
Fixpoint back_to_slash (path : list Z) (last : nat) : nat :=
  match last with
  | S l => if decide (path !! l = Some slash) then last else back_to_slash path l
  | O => O
  end.

(** [src/kernel/tmpfs.c:53-71] split_parent; the arrays are the caller's
    [char parent[256]] and [char leaf[32]] *)
Definition split_parent (path parent leaf : list Z) : outcome (list Z * list Z) :=
  let last := back_to_slash path (back_over_slashes path (length path)) in
  if decide (last = O) then
    parent ← vstrcpy parent (str "/");
    leaf ← vstrcpy leaf (if decide (path !! O = Some slash) then drop 1 path else path);
    Val (parent, leaf)
  else
    parent ← awrite parent 0 (take last path);
    parent ← aset parent (Z.of_nat last) 0;
    leaf ← vstrcpy leaf (drop last path);
    Val (parent, leaf).

(** [src/kernel/tmpfs.c:73-88] create_child *)
Definition create_child (parent : Z) (name : list Z) (type : vfs_node_type) (mode : Z) (fs : tmpfs)
  : outcome (Z * tmpfs) :=
  '(id, fs) ← alloc_node fs;
  if decide (id < 0) then Val (id, fs)
  else
    node ← aget (g_nodes fs) id;
    n ← awrite (n_name node) 0 (vstrncpy (MGCORE_NAME_MAX - 1) name);
    n ← aset n (Z.of_nat MGCORE_NAME_MAX - 1) 0;
    fs ← upd_node id (fun nd => Node (n_id nd) parent (first_child_id nd) (next_sibling_id nd) type n
                          (n_data nd) (n_size nd) (n_capacity nd) (u32 mode) (device_id nd)) fs;
    p ← aget (g_nodes fs) parent;
    fs ← upd_node id (set_next_sibling (first_child_id p)) fs;
    fs ← upd_node parent (set_first_child id) fs;
    Val (id, fs).

(** [src/kernel/tmpfs.c:100-102] resolve_path, over slashes; also lines 109-111 *)
Fixpoint skip_slashes (cursor : list Z) : list Z :=
  match cursor with
  | c :: rest => if decide (c = slash) then skip_slashes rest else cursor
  | [] => []
  end.

(** [src/kernel/tmpfs.c:104-108] resolve_path, one token; [n] bytes are left in
    the [token] array, its last one kept for the NUL *)
Fixpoint take_token (n : nat) (cursor : list Z) : list Z * list Z :=
  match n, cursor with
  | S n, c :: rest =>
      if decide (c = slash) then ([], cursor)
      else let '(token, rest) := take_token n rest in (c :: token, rest)
  | _, _ => ([], cursor)
  end.

(** [src/kernel/tmpfs.c:112-122] resolve_path, one step of the walk *)
Definition step_path (fs : tmpfs) (current : Z) (token : list Z) : outcome Z :=
  if decide (token = [] \/ vstrcmp token (str ".") = 0) then Val current
  else if decide (vstrcmp token (str "..") = 0) then
    n ← aget (g_nodes fs) current;
    Val (if decide (parent_id n >= 0) then parent_id n else 0)
  else lookup_child fs current token.

(** [src/kernel/tmpfs.c:103-124] resolve_path, the walk *)
Fixpoint walk (fuel : nat) (fs : tmpfs) (current : Z) (cursor : list Z) : outcome Z :=
  match cursor with
  | [] => Val current
  | _ =>
      match fuel with
      | O => Stop OutOfFuel
      | S fuel =>
          let '(token, rest) := take_token (MGCORE_NAME_MAX - 1) cursor in
          current ← step_path fs current token;
          if decide (current < 0) then Val current
          else walk fuel fs current (skip_slashes rest)
      end
  end.

(** [src/kernel/tmpfs.c:90-125] resolve_path; every turn of the walk consumes a byte
    of the path, so its length is enough fuel *)
Definition resolve_path (path : option (list Z)) (fs : tmpfs) : outcome Z :=
  match path with
  | None => Val (- EINVAL)
  | Some path =>
      if decide (head path <> Some slash) then Val (- EINVAL)
      else if decide (length path = 1%nat) then Val 0
      else walk (length path) fs 0 (skip_slashes path)
  end.

(** ** Operations *)

(** [src/kernel/tmpfs.c:127-137] tmpfs_init *)
Definition tmpfs_init (fs : tmpfs) : outcome tmpfs :=
  let fs := Tmpfs (replicate MGCORE_MAX_NODES zero_node) (g_data_arena fs) 0 in
  upd_node 0 (fun n => Node 0 (-1) (-1) (-1) VFS_NODE_DIR (chr "/"%char :: drop 1 (n_name n)) (n_data n)
                  (n_size n) (n_capacity n) 493 (device_id n)) fs.

(** [src/kernel/tmpfs.c:139-141] tmpfs_lookup_path *)
Definition tmpfs_lookup_path (path : option (list Z)) (fs : tmpfs) : outcome Z := resolve_path path fs.

(** [src/kernel/tmpfs.c:143-164] tmpfs_create_path *)
Definition tmpfs_create_path (path : option (list Z)) (type : vfs_node_type) (mode : Z) (fs : tmpfs)
  : outcome (Z * tmpfs) :=
  match path with
  | None => Val (- EINVAL, fs)
  | Some p =>
      if decide (head p <> Some slash \/ length p = 1%nat) then Val (- EINVAL, fs)
      else
        existing ← resolve_path path fs;
        if decide (existing >= 0) then Val (existing, fs)
        else
          '(parent, leaf) ← split_parent p (replicate MGCORE_PATH_MAX 0) (replicate MGCORE_NAME_MAX 0);
          parent ← resolve_path (Some (cstr parent)) fs;
          if decide (parent < 0) then Val (parent, fs)
          else
            n ← aget (g_nodes fs) parent;
            if decide (n_type n <> VFS_NODE_DIR) then Val (- ENOTDIR, fs)
            else create_child parent (cstr leaf) type mode fs
  end.

(** [src/kernel/tmpfs.c:187-189] tmpfs_remove_path, search for the predecessor *)
Fixpoint find_previous (fuel : nat) (nodes : list vfs_node) (child id : Z) : outcome Z :=
  if decide (child >= 0) then
    match fuel with
    | O => Stop OutOfFuel
    | S fuel =>
        n ← aget nodes child;
        if decide (next_sibling_id n <> id) then find_previous fuel nodes (next_sibling_id n) id
        else Val child
    end
  else Val child.

(** [src/kernel/tmpfs.c:182-193] tmpfs_remove_path, taking the node off its
    parent's list *)
Definition unlink_node (id : Z) (fs : tmpfs) : outcome tmpfs :=
  n ← aget (g_nodes fs) id;
  let parent := parent_id n in
  p ← aget (g_nodes fs) parent;
  let child := first_child_id p in
  if decide (child = id) then upd_node parent (set_first_child (next_sibling_id n)) fs
  else
    child ← find_previous MGCORE_MAX_NODES (g_nodes fs) child id;
    if decide (child >= 0) then upd_node child (set_next_sibling (next_sibling_id n)) fs
    else Val fs.

(** [src/kernel/tmpfs.c:166-196] tmpfs_remove_path *)
Definition tmpfs_remove_path (path : option (list Z)) (want_dir : bool) (fs : tmpfs)
  : outcome (Z * tmpfs) :=
  id ← resolve_path path fs;
  if decide (id <= 0) then Val (- EINVAL, fs)
  else
    n ← aget (g_nodes fs) id;
    if want_dir && bool_decide (n_type n <> VFS_NODE_DIR) then Val (- ENOTDIR, fs)
    else if negb want_dir && bool_decide (n_type n = VFS_NODE_DIR) then Val (- EISDIR, fs)
    else if decide (n_type n = VFS_NODE_DIR /\ first_child_id n >= 0) then Val (- ENOTEMPTY, fs)
    else
      fs ← unlink_node id fs;
      fs ← upd_node id (fun _ => zero_node) fs;
      Val (0, fs).

(** [src/kernel/tmpfs.c:198-203] tmpfs_get_node *)
Definition tmpfs_get_node (node_id : Z) (fs : tmpfs) : outcome (option vfs_node) :=
  if decide (node_id < 0 \/ node_id >= Z.of_nat MGCORE_MAX_NODES) then Val None
  else
    n ← aget (g_nodes fs) node_id;
    Val (if decide (n_type n = VFS_NODE_NONE) then None else Some n).

(** [src/kernel/tmpfs.c:205-223] tmpfs_read_node; [buffer] is the array the
    caller's pointer addresses *)
Definition tmpfs_read_node (node_id : Z) (buffer : list Z) (count offset : Z) (fs : tmpfs)
  : outcome (Z * list Z) :=
  node ← tmpfs_get_node node_id fs;
  match node with
  | None => Val (- ENOENT, buffer)
  | Some n =>
      if decide (n_type n <> VFS_NODE_FILE) then Val (- EISDIR, buffer)
      else if decide (offset >= n_size n) then Val (0, buffer)
      else
        let available := n_size n - offset in
        let count := if decide (count > available) then available else count in
        bs ← arena_read (g_data_arena fs) (n_data n) offset count;
        buffer ← awrite buffer 0 bs;
        Val (i64 count, buffer)
  end.

(** [src/kernel/tmpfs.c:235-246] tmpfs_write_node, growing the storage; [None] when
    the arena is exhausted *)
Definition grow (node_id : Z) (n : vfs_node) (end_offset : Z) (fs : tmpfs) : outcome (option tmpfs) :=
  if decide (end_offset > n_capacity n) then
    let new_capacity := Z.land (u64 (end_offset + 255)) (u32_not 255) in
    match alloc_storage new_capacity fs with
    | (None, _) => Val None
    | (Some new_data, fs) =>
        arena ← match n_data n with
                | Some data => arena_copy (g_data_arena fs) new_data data (n_size n)
                | None => Val (g_data_arena fs)
                end;
        fs ← upd_node node_id (set_storage (Some new_data) new_capacity) (with_arena arena fs);
        Val (Some fs)
    end
  else Val (Some fs).

(** [src/kernel/tmpfs.c:225-252] tmpfs_write_node *)
Definition tmpfs_write_node (node_id : Z) (buffer : list Z) (count offset : Z) (fs : tmpfs)
  : outcome (Z * tmpfs) :=
  node ← tmpfs_get_node node_id fs;
  let end_offset := u64 (offset + count) in
  match node with
  | None => Val (- ENOENT, fs)
  | Some n =>
      if decide (n_type n <> VFS_NODE_FILE) then Val (- EISDIR, fs)
      else
        grown ← grow node_id n end_offset fs;
        match grown with
        | None => Val (- ENOSPC, fs)
        | Some fs =>
            n ← aget (g_nodes fs) node_id;
            bs ← aread buffer 0 count;
            arena ← arena_write (g_data_arena fs) (n_data n) offset bs;
            fs ← (if decide (end_offset > n_size n)
                  then upd_node node_id (set_size end_offset) (with_arena arena fs)
                  else Val (with_arena arena fs));
            Val (i64 count, fs)
        end
  end.

(** [src/kernel/tmpfs.c:256-262] tmpfs_dump_root, the loop *)
Fixpoint dump_siblings {C} `{Terminal C} (fuel : nat) (nodes : list vfs_node) (child : Z) (c : C)
  : outcome C :=
  if decide (child >= 0) then
    match fuel with
    | O => Stop OutOfFuel
    | S fuel =>
        n ← aget nodes child;
        let type := match n_type n with
                    | VFS_NODE_DIR => str "dir"
                    | VFS_NODE_CHARDEV => str "chr"
                    | _ => str "file"
                    end in
        c ← console_printf (str "%s" ++ [9] ++ str "/%s" ++ [9] ++ str "%u bytes" ++ [10])
              [VaStr (Some type); VaStr (Some (cstr (n_name n))); VaWord (u32 (n_size n))] c;
        dump_siblings fuel nodes (next_sibling_id n) c
    end
  else Val c.

(** [src/kernel/tmpfs.c:254-263] tmpfs_dump_root *)
Definition tmpfs_dump_root {C} `{Terminal C} (fs : tmpfs) (c : C) : outcome C :=
  n ← aget (g_nodes fs) 0;
  dump_siblings MGCORE_MAX_NODES (g_nodes fs) (first_child_id n) c.
