(* ===== verification/TmpfsPath.v ===== *)
(** Paths of [tmpfs.c]: the tokens a path denotes, and that [resolve_path] follows
    them one by one; how [split_parent] cuts a path. *)

From Stdlib Require Import ZArith Lia Ascii.
From stdpp Require Import base gmap list strings.
From S2P Require Import Prelude KString Tmpfs.
Open Scope Z_scope.

(** * Tokens *)

(** The components of a path, a component longer than 31 bytes cut in pieces as
    the code does. *)
Fixpoint toks (fuel : nat) (cursor : list Z) : list (list Z) :=
  match cursor with
  | [] => []
  | _ =>
      match fuel with
      | O => []
      | S fuel =>
          let '(token, rest) := take_token (MGCORE_NAME_MAX - 1) cursor in
          token :: toks fuel (skip_slashes rest)
      end
  end.

Definition tokens (path : list Z) : list (list Z) := toks (length path) (skip_slashes path).

(** Following a list of components from a node. *)
Fixpoint follow (fs : tmpfs) (current : Z) (ts : list (list Z)) : outcome Z :=
  match ts with
  | [] => Val current
  | t :: ts =>
      current ← step_path fs current t;
      if decide (current < 0) then Val current else follow fs current ts
  end.

(** Either nothing is left, or the cursor stands on a component. *)
Definition at_component (cursor : list Z) : Prop := head cursor <> Some slash.

Lemma skip_slashes_at path : at_component (skip_slashes path).
Proof.
  induction path as [|c path IH]; simpl; [done|]. case_decide; [done|].
  unfold at_component. simpl. congruence.
Qed.

Lemma skip_slashes_id cursor : at_component cursor -> skip_slashes cursor = cursor.
Proof. destruct cursor as [|c r]; simpl; [done|]. intros Hc. rewrite decide_False; [done|]. intros ->. by apply Hc. Qed.

Lemma skip_slashes_length path : (length (skip_slashes path) <= length path)%nat.
Proof. induction path; simpl; [lia|]. case_decide; simpl; lia. Qed.

Lemma take_token_app n : forall cursor token rest,
  take_token n cursor = (token, rest) -> cursor = token ++ rest /\ slash ∉ token /\ (length token <= n)%nat.
Proof.
  induction n as [|n IH]; intros [|c cursor] token rest; simpl; intros Ht;
    try (injection Ht as <- <-; split; [done|]; split; [apply not_elem_of_nil|simpl; lia]).
  case_decide as Hc; [injection Ht as <- <-; split; [done|]; split; [apply not_elem_of_nil|simpl; lia]|].
  destruct (take_token n cursor) as [t r] eqn:Hr. injection Ht as <- <-.
  destruct (IH _ _ _ Hr) as (-> & Hs & Hl). split; [done|]. split; [|simpl; lia].
  apply not_elem_of_cons. split; [congruence|done].
Qed.

Lemma take_token_nonempty n cursor token rest :
  take_token (S n) cursor = (token, rest) -> cursor <> [] -> at_component cursor -> token <> [].
Proof.
  destruct cursor as [|c cursor]; [done|]. simpl. intros Ht _ Hat. rewrite decide_False in Ht.
  - destruct (take_token n cursor). by injection Ht as <- <-.
  - intros ->. by apply Hat.
Qed.

(** A turn of the walk shortens what is left. *)
Lemma take_token_progress cursor token rest :
  take_token (MGCORE_NAME_MAX - 1) cursor = (token, rest) -> cursor <> [] -> at_component cursor ->
  (length (skip_slashes rest) < length cursor)%nat.
Proof.
  intros Ht Hne Hat. pose proof (take_token_nonempty _ _ _ _ Ht Hne Hat) as Hn.
  apply take_token_app in Ht as (-> & _ & _). rewrite length_app.
  pose proof (skip_slashes_length rest). destruct token; [done|]. simpl. lia.
Qed.

Lemma walk_follow n : forall fs cur cursor,
  (length cursor <= n)%nat -> at_component cursor ->
  walk n fs cur cursor = follow fs cur (toks n cursor).
Proof.
  induction n as [|n IH]; intros fs cur cursor Hl Hat.
  - destruct cursor; [done|simpl in Hl; lia].
  - destruct cursor as [|c cursor]; [done|]. cbn [walk toks].
    destruct (take_token _ (c :: cursor)) as [token rest] eqn:Ht. cbn [follow].
    destruct (step_path fs cur token) as [r|]; [|done]. cbn [mbind outcome_bind].
    case_decide; [done|]. apply IH; [|apply skip_slashes_at].
    pose proof (take_token_progress _ _ _ Ht ltac:(done) Hat). simpl in *. lia.
Qed.

Lemma toks_fuel n : forall m cursor,
  (length cursor <= n)%nat -> (length cursor <= m)%nat -> at_component cursor ->
  toks n cursor = toks m cursor.
Proof.
  induction n as [|n IH]; intros m cursor Hn Hm Hat; [destruct cursor; [by destruct m|simpl in Hn; lia]|].
  destruct cursor as [|c cursor]; [by destruct m|]. destruct m as [|m]; [simpl in Hm; lia|].
  cbn [toks]. destruct (take_token _ (c :: cursor)) as [token rest] eqn:Ht. f_equal.
  pose proof (take_token_progress _ _ _ Ht ltac:(done) Hat).
  apply IH; [simpl in *; lia..|apply skip_slashes_at].
Qed.

(** [resolve_path] follows the components; its loops always end. *)
Lemma resolve_follow path fs :
  head path = Some slash -> resolve_path (Some path) fs = follow fs 0 (tokens path).
Proof.
  intros Hh. unfold resolve_path. rewrite decide_False by (intros ?; done). case_decide as Hl.
  - destruct path as [|c [|]]; simpl in Hl; try lia. simpl in Hh. by injection Hh as ->.
  - rewrite walk_follow; [done|apply skip_slashes_length|apply skip_slashes_at].
Qed.

(** * Concatenation *)

Lemma skip_slashes_app a b :
  skip_slashes (a ++ b) = if decide (Forall (eq slash) a) then skip_slashes b else skip_slashes a ++ b.
Proof.
  induction a as [|c a IH]; simpl; [done|]. destruct (decide (c = slash)) as [->|Hc].
  - rewrite IH. destruct (decide (Forall (eq slash) a)).
    + by rewrite decide_True by by constructor.
    + rewrite decide_False; [done|]. by intros [_ ?]%Forall_cons.
  - rewrite decide_False; [done|]. intros [Hs _]%Forall_cons. congruence.
Qed.

(** A token never extends past a slash. *)
Lemma take_token_app_slash n : forall a b token rest,
  take_token n (a ++ slash :: b) = (token, rest) ->
  exists a', rest = a' ++ slash :: b /\ take_token n (a ++ [slash]) = (token, a' ++ [slash]).
Proof.
  induction n as [|n IH]; intros a b token rest Ht.
  - exists a. destruct a; injection Ht as <- <-; done.
  - destruct a as [|c a]; simpl in Ht |- *.
    + injection Ht as <- <-. by exists [].
    + case_decide; [injection Ht as <- <-; by exists (c :: a)|].
      destruct (take_token n (a ++ slash :: b)) as [t r] eqn:Hr. injection Ht as <- <-.
      destruct (IH _ _ _ _ Hr) as (a' & -> & ->). by exists a'.
Qed.

Lemma slash_only_skip a : Forall (eq slash) a -> skip_slashes a = [].
Proof. induction 1 as [|c a <- _ IH]; done. Qed.

Lemma toks_app n : forall a b,
  (length (a ++ slash :: b) <= n)%nat ->
  toks n (skip_slashes (a ++ slash :: b)) = toks n (skip_slashes (a ++ [slash])) ++ toks n (skip_slashes b).
Proof.
  induction n as [|n IH]; intros a b Hl; [rewrite length_app in Hl; simpl in Hl; lia|].
  rewrite length_app in Hl. simpl in Hl. rewrite !skip_slashes_app. case_decide as Ha.
  - done.
  - assert (exists c a0, skip_slashes a = c :: a0 /\ c <> slash) as (c & a0 & Hs & Hc).
    { pose proof (skip_slashes_at a) as Hat. destruct (skip_slashes a) as [|c a0] eqn:Hs.
      - exfalso. apply Ha. clear -Hs. induction a as [|x a IH]; [constructor|]. simpl in Hs.
        case_decide; [|done]. constructor; auto.
      - exists c, a0. split; [done|]. intros ->. by apply Hat. }
    pose proof (skip_slashes_length a) as Hsl. rewrite Hs in Hsl |- *. simpl in Hsl.
    rewrite <- !app_comm_cons. cbn [toks].
    destruct (take_token _ (c :: a0 ++ slash :: b)) as [token rest] eqn:Ht.
    rewrite app_comm_cons in Ht. pose proof Ht as Ht0.
    destruct (take_token_app_slash _ _ _ _ _ Ht) as (a' & -> & Ht'). rewrite <- app_comm_cons in Ht'.
    rewrite Ht'. rewrite <- app_comm_cons. f_equal.
    assert (length a' < length (c :: a0))%nat as Hlt.
    { pose proof (take_token_nonempty _ _ _ _ Ht0) as Hne.
      apply take_token_app in Ht0 as (Heq & _ & _). apply (f_equal length) in Heq.
      rewrite !length_app in Heq. destruct token; simpl in Heq |- *; [|lia].
      exfalso. apply Hne; [done| |done]. unfold at_component. simpl. congruence. }
    rewrite IH by (rewrite length_app; simpl in *; lia). f_equal.
    apply (toks_fuel n (S n)); [..|apply skip_slashes_at]; pose proof (skip_slashes_length b); lia.
Qed.

Lemma tokens_app a b : tokens (a ++ slash :: b) = tokens (a ++ [slash]) ++ tokens b.
Proof.
  unfold tokens. rewrite toks_app by done. f_equal; apply toks_fuel; try apply skip_slashes_at;
    rewrite ?length_app; simpl; try (pose proof (skip_slashes_length b); lia);
    pose proof (skip_slashes_length (a ++ [slash])) as Hl; rewrite length_app in Hl; simpl in Hl; lia.
Qed.

(** A single component, perhaps followed by slashes. *)
Lemma take_token_all n t : forall rest,
  slash ∉ t -> (length t <= n)%nat ->
  (rest = [] \/ head rest = Some slash) -> take_token n (t ++ rest) = (t, rest).
Proof.
  revert n. induction t as [|c t IH]; intros n rest Hs Hl Hr.
  - destruct n as [|n]; [done|]. destruct rest as [|x rest]; [done|]. simpl.
    destruct Hr as [Hr|Hr]; [done|]. simpl in Hr. by injection Hr as ->.
  - destruct n as [|n]; simpl in Hl; [lia|]. apply not_elem_of_cons in Hs as [Hc Hs].
    simpl. rewrite decide_False by congruence. rewrite IH by (done || lia || by right). done.
Qed.

Lemma tokens_component t tail :
  t <> [] -> slash ∉ t -> (length t <= 31)%nat -> Forall (eq slash) tail ->
  tokens (t ++ tail) = [t].
Proof.
  intros Hne Hs Hl Htail. unfold tokens.
  assert (at_component (t ++ tail)) as Hat.
  { destruct t as [|c t]; [done|]. unfold at_component. simpl. intros [= ->]. apply Hs. by left. }
  rewrite skip_slashes_id by done. destruct (t ++ tail) as [|c r] eqn:He.
  { apply app_eq_nil in He. by destruct He. }
  cbn [length toks]. rewrite <- He, take_token_all; [|done|done|].
  - rewrite slash_only_skip by done. by destruct (length r).
  - destruct Htail as [|x tail <- _]; [by left|by right].
Qed.

(** * Cutting a path *)

Lemma back_over_slashes_spec path n :
  let m := back_over_slashes path n in
  (m <= n)%nat /\ (forall i, (m <= i < n)%nat -> path !! i = Some slash)
  /\ (m = O \/ path !! (m - 1)%nat <> Some slash).
Proof.
  induction n as [|n IH]; simpl; [split; [lia|]; split; [lia|by left]|].
  case_decide as Hn.
  - destruct IH as (Hle & Hall & Hm). split; [lia|]. split; [|done].
    intros i Hi. destruct (decide (i = n)) as [->|]; [done|]. apply Hall. lia.
  - split; [lia|]. split; [lia|]. right. simpl. by rewrite Nat.sub_0_r.
Qed.

Lemma back_to_slash_spec path n :
  let l := back_to_slash path n in
  (l <= n)%nat /\ (forall i, (l <= i < n)%nat -> path !! i <> Some slash)
  /\ (l = O \/ path !! (l - 1)%nat = Some slash).
Proof.
  induction n as [|n IH]; simpl; [split; [lia|]; split; [lia|by left]|].
  case_decide as Hn.
  - split; [lia|]. split; [lia|]. right. simpl. by rewrite Nat.sub_0_r.
  - destruct IH as (Hle & Hall & Hm). split; [lia|]. split; [|done].
    intros i Hi. destruct (decide (i = n)) as [->|]; [done|]. apply Hall. lia.
Qed.

(** A path that is not only slashes is a parent ending in a slash, a last
    component, and trailing slashes. *)
Record cut (path a core tail : list Z) : Prop := {
  cut_path : path = a ++ slash :: core ++ tail;
  cut_core : core <> [];
  cut_core_slash : slash ∉ core;
  cut_tail : Forall (eq slash) tail;
}.

Lemma take_slice_lookup (path : list Z) l m i x :
  take (m - l) (drop l path) !! i = Some x -> path !! (l + i)%nat = Some x /\ (i < m - l)%nat.
Proof. intros [Hi Hlt]%lookup_take_Some. by rewrite lookup_drop in Hi. Qed.

Lemma cut_exists path :
  head path = Some slash -> ~ Forall (eq slash) path ->
  exists a core tail, cut path a core tail
    /\ back_to_slash path (back_over_slashes path (length path)) = S (length a).
Proof.
  intros Hh Hns. destruct (back_over_slashes_spec path (length path)) as (Hm & Hall & Hm1).
  set (m := back_over_slashes path (length path)) in *.
  destruct (back_to_slash_spec path m) as (Hl & Hnone & Hl1). set (l := back_to_slash path m) in *.
  assert (path !! 0%nat = Some slash) as H0 by by destruct path.
  assert (m <> 0)%nat as Hm0.
  { intros Hz. apply Hns. apply Forall_lookup. intros i x Hi.
    pose proof (lookup_lt_Some _ _ _ Hi).
    rewrite (Hall i) in Hi by lia. congruence. }
  destruct Hm1 as [Hm1|Hm1]; [done|].
  assert (l <> 0)%nat as Hl0 by (intros Hz; apply (Hnone 0%nat); [lia|done]).
  destruct Hl1 as [Hl1|Hl1]; [done|].
  assert (l <> m) as Hlm by (intros ->; done).
  exists (take (l - 1) path), (take (m - l) (drop l path)), (drop m path). split.
  - split.
    + replace (drop m path) with (drop (m - l) (drop l path)) by (rewrite drop_drop; f_equal; lia).
      rewrite take_drop. rewrite <- (take_drop_middle path (l - 1) slash) at 1 by done.
      by replace (S (l - 1)) with l by lia.
    + intros Hnil%(f_equal length). rewrite length_take, length_drop in Hnil. simpl in Hnil. lia.
    + intros (i & Hi)%list_elem_of_lookup. apply take_slice_lookup in Hi as [Hi Hlt].
      by apply (Hnone (l + i)%nat); [lia|].
    + apply Forall_lookup. intros i x Hi. rewrite lookup_drop in Hi.
      pose proof (lookup_lt_Some _ _ _ Hi).
      rewrite (Hall (m + i)%nat) in Hi by lia. congruence.
  - rewrite length_take. lia.
Qed.

Lemma cut_tokens path a core tail :
  cut path a core tail -> (length core <= 31)%nat -> tokens path = tokens (a ++ [slash]) ++ [core].
Proof.
  intros [-> Hne Hs Ht] Hl. rewrite tokens_app. f_equal. by apply tokens_component.
Qed.

Lemma tokens_slashes path : Forall (eq slash) path -> tokens path = [].
Proof. intros H. unfold tokens. rewrite slash_only_skip by done. by destruct (length path). Qed.

Lemma vstrcpy_cstr a s :
  (length s < length a)%nat -> no_nul s -> exists a', vstrcpy a s = Val a' /\ cstr a' = s.
Proof.
  intros Hl Hn. unfold vstrcpy. rewrite awrite_in_range by (rewrite ?length_app; simpl; lia).
  eexists. split; [done|]. unfold splice. simpl. rewrite <- app_assoc. by apply cstr_app_nul.
Qed.

Lemma cstr_stored arr s :
  (length s < length arr)%nat -> no_nul s -> cstr (<[length s := 0]> (splice arr 0 s)) = s.
Proof.
  intros Hl Hn. change (splice arr 0 s) with (s ++ drop (length s) arr).
  rewrite insert_app_r_alt by lia. rewrite Nat.sub_diag.
  destruct (drop (length s) arr) as [|x r] eqn:Hd; [|by apply cstr_app_nul].
  apply (f_equal length) in Hd. rewrite length_drop in Hd. simpl in Hd. lia.
Qed.

Lemma vstrcpy_overflow a s : (length a <= length s)%nat -> vstrcpy a s = Stop Oob.
Proof.
  intros Hl. unfold vstrcpy, awrite. rewrite decide_False by (by destruct s).
  rewrite decide_False; [done|]. rewrite length_app. simpl. lia.
Qed.

(** [split_parent] on such a path: the two strings, provided they fit the
    caller's arrays; otherwise it writes outside them. *)
Lemma split_parent_spec path a core tail :
  cut path a core tail -> no_nul path ->
  back_to_slash path (back_over_slashes path (length path)) = S (length a) ->
  (S (length a) < MGCORE_PATH_MAX)%nat ->
  if decide (length (core ++ tail) < MGCORE_NAME_MAX)%nat then
    exists p l, split_parent path (replicate MGCORE_PATH_MAX 0) (replicate MGCORE_NAME_MAX 0) = Val (p, l)
      /\ cstr p = a ++ [slash] /\ cstr l = core ++ tail
  else split_parent path (replicate MGCORE_PATH_MAX 0) (replicate MGCORE_NAME_MAX 0) = Stop Oob.
Proof.
  intros [Hp Hne Hs Ht] Hnul Hlast Hlen. unfold split_parent. rewrite Hlast.
  rewrite !(decide_False (P := S (length a) = O)) by lia.
  assert (take (S (length a)) path = a ++ [slash]) as ->.
  { rewrite Hp. rewrite (cons_middle slash a), app_assoc. apply take_app_length'.
    rewrite length_app. simpl. lia. }
  assert (drop (S (length a)) path = core ++ tail) as ->.
  { rewrite Hp. rewrite (cons_middle slash a), app_assoc. apply drop_app_length'.
    rewrite length_app. simpl. lia. }
  assert (no_nul (a ++ [slash]) /\ no_nul (core ++ tail)) as [Hn1 Hn2].
  { unfold no_nul in *. rewrite Hp in Hnul. rewrite (cons_middle slash a), app_assoc in Hnul.
    by apply Forall_app in Hnul. }
  rewrite awrite_in_range by (rewrite ?length_app, ?length_replicate; simpl; lia). cbn [mbind outcome_bind].
  rewrite aset_in_range by (rewrite splice_length; rewrite ?length_app, ?length_replicate; simpl; lia).
  cbn [mbind outcome_bind]. case_decide as Hfit.
  - destruct (vstrcpy_cstr (replicate MGCORE_NAME_MAX 0) (core ++ tail)) as (l & -> & Hl);
      [by rewrite length_replicate|done|]. cbn [mbind outcome_bind].
    eexists _, l. split; [done|]. split; [|done].
    replace (Z.to_nat (Z.of_nat (S (length a)))) with (length (a ++ [slash]))
      by (rewrite length_app; simpl; lia).
    apply cstr_stored; [|done]. rewrite length_app, length_replicate. simpl. lia.
  - rewrite vstrcpy_overflow; [done|]. rewrite length_replicate. lia.
Qed.
