(* ===== verification/TmpfsTree.v ===== *)
(** The directory tree of [tmpfs.c]: the invariant of the node table, that the
    operations keep it, and what they do to path resolution.

    The invariant names, for every directory, the list of its children in the
    order of the sibling chain. *)

From Stdlib Require Import ZArith Lia Ascii.
From stdpp Require Import base gmap list strings.
From S2P Require Import Prelude KString Tmpfs TmpfsPath.
Open Scope Z_scope.

Definition live (n : vfs_node) : Prop := n_type n <> VFS_NODE_NONE.
#[export] Instance live_dec n : Decision (live n).
Proof. unfold live. apply _. Defined.

(** The sibling links from [start] run through exactly [ids]. *)
Fixpoint chain (nodes : list vfs_node) (start : Z) (ids : list nat) : Prop :=
  match ids with
  | [] => start = -1
  | i :: ids => start = Z.of_nat i /\ exists n, nodes !! i = Some n /\ chain nodes (next_sibling_id n) ids
  end.

Definition name_of (nodes : list vfs_node) (i : nat) : list Z :=
  match nodes !! i with Some n => cstr (n_name n) | None => [] end.

Record tree_wf (nodes : list vfs_node) (kids : nat -> list nat) : Prop := {
  tw_length : length nodes = MGCORE_MAX_NODES;
  tw_names : Forall (fun n => length (n_name n) = MGCORE_NAME_MAX) nodes;
  tw_root : exists r, nodes !! 0%nat = Some r /\ n_type r = VFS_NODE_DIR /\ parent_id r = -1;
  tw_chain d n : nodes !! d = Some n -> live n -> chain nodes (first_child_id n) (kids d);
  tw_nodup d : NoDup (kids d);
  tw_kid d n c : nodes !! d = Some n -> live n -> c ∈ kids d ->
    n_type n = VFS_NODE_DIR /\ c <> 0%nat
    /\ exists k, nodes !! c = Some k /\ live k /\ parent_id k = Z.of_nat d;
  tw_parent c k : nodes !! c = Some k -> live k -> c <> 0%nat ->
    exists d n, parent_id k = Z.of_nat d /\ nodes !! d = Some n /\ live n /\ c ∈ kids d;
  tw_unique d n c1 c2 : nodes !! d = Some n -> live n -> c1 ∈ kids d -> c2 ∈ kids d ->
    name_of nodes c1 = name_of nodes c2 -> slash ∉ name_of nodes c1 -> c1 = c2;
  tw_acyclic : exists depth : nat -> nat, forall d n c, nodes !! d = Some n -> live n ->
    c ∈ kids d -> depth c = S (depth d);
}.

(** * Chains *)

Lemma chain_ext nodes nodes' ids : forall start,
  chain nodes start ids ->
  (forall i n, i ∈ ids -> nodes !! i = Some n ->
     exists n', nodes' !! i = Some n' /\ next_sibling_id n' = next_sibling_id n) ->
  chain nodes' start ids.
Proof.
  induction ids as [|i ids IH]; intros start; simpl; [done|].
  intros (-> & n & Hn & Hc) Hext. split; [done|].
  destruct (Hext i n) as (n' & Hn' & Heq); [by left|done|]. exists n'. split; [done|].
  rewrite Heq. apply IH; [done|]. intros j m Hj. apply Hext. by right.
Qed.

Lemma chain_start nodes ids start :
  chain nodes start ids -> (start = -1 /\ ids = []) \/ exists i r, start = Z.of_nat i /\ ids = i :: r.
Proof. destruct ids; simpl; [by left|]. intros [-> _]. right. eauto. Qed.

Lemma chain_bound nodes start ids : chain nodes start ids -> Forall (fun i => (i < length nodes)%nat) ids.
Proof.
  revert start. induction ids as [|i ids IH]; intros start; simpl; [constructor|].
  intros (_ & n & Hn & Hc). constructor; [by eapply lookup_lt_Some|by eapply IH].
Qed.

(** A chain without repetition is no longer than the table. *)
Lemma nodup_bound (ids : list nat) n : NoDup ids -> Forall (fun i => (i < n)%nat) ids -> (length ids <= n)%nat.
Proof.
  intros Hnd Hb. rewrite <- (length_seq n 0). apply submseteq_length, NoDup_submseteq; [done|].
  intros i Hi. rewrite Forall_forall in Hb. apply Hb in Hi. apply elem_of_seq. lia.
Qed.

Lemma kids_bound nodes kids d n :
  tree_wf nodes kids -> nodes !! d = Some n -> live n -> (length (kids d) <= MGCORE_MAX_NODES)%nat.
Proof.
  intros Hwf Hd Hl. rewrite <- (tw_length _ _ Hwf). apply nodup_bound; [apply (tw_nodup _ _ Hwf)|].
  eapply chain_bound, tw_chain; eauto.
Qed.

(** * Lookup *)

(** The first of [ids] with a given name. *)
Fixpoint find_named (nodes : list vfs_node) (token : list Z) (ids : list nat) : Z :=
  match ids with
  | [] => - ENOENT
  | i :: ids => if decide (name_of nodes i = token) then Z.of_nat i else find_named nodes token ids
  end.

Lemma sibling_search_spec nodes token ids : forall fuel start,
  chain nodes start ids -> (length ids <= fuel)%nat -> no_nul token ->
  sibling_search fuel nodes start token = Val (find_named nodes token ids).
Proof.
  induction ids as [|i ids IH]; intros fuel start; simpl.
  - intros -> _ _. by destruct fuel.
  - intros (-> & n & Hn & Hc) Hf Ht. destruct fuel as [|fuel]; [lia|]. cbn [sibling_search].
    rewrite decide_True by lia. rewrite aget_nat, Hn. cbn [of_option mbind outcome_bind].
    destruct (decide (name_of nodes i = token)) as [He|He]; unfold name_of in He; rewrite Hn in He.
    + rewrite decide_True; [done|]. by apply vstrcmp_0; [apply cstr_no_nul| |].
    + rewrite decide_False; [|intros H; by apply vstrcmp_0 in H; [|apply cstr_no_nul|]].
      apply IH; [done|lia|done].
Qed.

Lemma lookup_child_spec fs kids d n token :
  tree_wf (g_nodes fs) kids -> g_nodes fs !! d = Some n -> live n -> no_nul token ->
  lookup_child fs (Z.of_nat d) token = Val (find_named (g_nodes fs) token (kids d)).
Proof.
  intros Hwf Hd Hl Ht. unfold lookup_child. rewrite aget_nat, Hd. cbn [of_option mbind outcome_bind].
  apply sibling_search_spec; [by eapply tw_chain|by eapply kids_bound|done].
Qed.

Lemma find_named_cases nodes token ids :
  (find_named nodes token ids = - ENOENT /\ forall c, c ∈ ids -> name_of nodes c <> token)
  \/ exists c, c ∈ ids /\ name_of nodes c = token /\ find_named nodes token ids = Z.of_nat c.
Proof.
  induction ids as [|i ids IH]; simpl; [left; split; [done|intros c Hc; by apply not_elem_of_nil in Hc]|].
  case_decide as Hi; [right; exists i; split; [by left|done]|].
  destruct IH as [[He Hall]|(c & Hc & Hn & He)].
  - left. split; [done|]. intros c [->|Hc]%elem_of_cons; [done|by apply Hall].
  - right. exists c. split; [by right|done].
Qed.

Lemma find_named_ext nodes nodes' token ids :
  (forall c, c ∈ ids -> name_of nodes' c = name_of nodes c) ->
  find_named nodes' token ids = find_named nodes token ids.
Proof.
  induction ids as [|i ids IH]; intros Hext; simpl; [done|].
  rewrite Hext by by left. rewrite IH; [done|]. intros c Hc. apply Hext. by right.
Qed.

(** * Resolution stays inside the tree *)

Definition live_at (fs : tmpfs) (i : Z) : Prop :=
  exists d n, i = Z.of_nat d /\ g_nodes fs !! d = Some n /\ live n.

Lemma step_path_live fs kids cur token :
  tree_wf (g_nodes fs) kids -> live_at fs cur -> no_nul token ->
  exists r, step_path fs cur token = Val r /\ (r = - ENOENT \/ live_at fs r).
Proof.
  intros Hwf (d & n & -> & Hd & Hl) Ht. unfold step_path.
  destruct (decide (_ \/ _)); [exists (Z.of_nat d); split; [done|]; right; by exists d, n|].
  destruct (decide (vstrcmp _ _ = 0)).
  - rewrite aget_nat, Hd. cbn [of_option mbind outcome_bind]. eexists. split; [done|]. right.
    destruct (tw_root _ _ Hwf) as (r & Hr & Htr & Hpr).
    assert (live r) as Hlr by (unfold live; congruence).
    destruct (decide (d = 0%nat)) as [->|Hd0].
    + assert (n = r) as -> by congruence. rewrite Hpr. rewrite decide_False by lia.
      by exists 0%nat, r.
    + destruct (tw_parent _ _ Hwf d n Hd Hl Hd0) as (p & pn & -> & Hp & Hlp & _).
      rewrite decide_True by lia. by exists p, pn.
  - erewrite lookup_child_spec by eauto. eexists. split; [done|].
    destruct (find_named_cases (g_nodes fs) token (kids d)) as [[-> _]|(c & Hc & _ & ->)]; [by left|right].
    destruct (tw_kid _ _ Hwf d n c Hd Hl Hc) as (_ & _ & k & Hk & Hlk & _). by exists c, k.
Qed.

Lemma live_at_nonneg fs i : live_at fs i -> 0 <= i.
Proof. intros (d & n & -> & _). lia. Qed.

Lemma follow_live fs kids ts : forall cur,
  tree_wf (g_nodes fs) kids -> live_at fs cur -> Forall no_nul ts ->
  exists r, follow fs cur ts = Val r /\ (r = - ENOENT \/ live_at fs r).
Proof.
  induction ts as [|t ts IH]; intros cur Hwf Hl Hts; simpl; [eauto|].
  apply Forall_cons in Hts as [Ht Hts].
  destruct (step_path_live fs kids cur t Hwf Hl Ht) as (r & -> & Hr). cbn [mbind outcome_bind].
  destruct Hr as [->|Hr]; [rewrite decide_True by (unfold ENOENT; lia); eauto|].
  rewrite decide_False by (apply live_at_nonneg in Hr; lia). by apply IH.
Qed.

Lemma root_live fs kids : tree_wf (g_nodes fs) kids -> live_at fs 0.
Proof.
  intros Hwf. destruct (tw_root _ _ Hwf) as (r & Hr & Ht & _). exists 0%nat, r.
  split; [done|]. split; [done|]. unfold live. congruence.
Qed.

Lemma toks_no_nul n : forall cursor, no_nul cursor -> Forall no_nul (toks n cursor).
Proof.
  induction n as [|n IH]; intros [|c cursor] Hn; try constructor. cbn [toks].
  destruct (take_token _ (c :: cursor)) as [token rest] eqn:Ht.
  apply take_token_app in Ht as (Heq & _ & _). rewrite Heq in Hn.
  apply Forall_app in Hn as [Hn1 Hn2]. constructor; [done|]. apply IH.
  clear -Hn2. induction Hn2; simpl; [constructor|]. case_decide; [done|by constructor].
Qed.

Lemma tokens_no_nul path : no_nul path -> Forall no_nul (tokens path).
Proof.
  intros Hn. apply toks_no_nul. induction Hn; simpl; [constructor|]. case_decide; [done|by constructor].
Qed.

(** Resolution always ends, and in a live node or with an error. *)
Lemma resolve_live fs kids path :
  tree_wf (g_nodes fs) kids -> no_nul path ->
  exists r, resolve_path (Some path) fs = Val r /\ (r < 0 \/ live_at fs r).
Proof.
  intros Hwf Hn. destruct (decide (head path = Some slash)) as [Hh|Hh].
  - rewrite resolve_follow by done.
    destruct (follow_live fs kids (tokens path) 0 Hwf (root_live _ _ Hwf) (tokens_no_nul _ Hn))
      as (r & -> & Hr). exists r. split; [done|]. destruct Hr as [->|?]; [left; unfold ENOENT; lia|by right].
  - exists (- EINVAL). unfold resolve_path. rewrite decide_True by done. split; [done|]. left. unfold EINVAL. lia.
Qed.

(** * Creation *)

Lemma upd_node_Val (i : nat) f fs n :
  g_nodes fs !! i = Some n ->
  upd_node (Z.of_nat i) f fs = Val (with_nodes (<[i := f n]> (g_nodes fs)) fs).
Proof.
  intros Hn. unfold upd_node. rewrite aget_nat, Hn. cbn [of_option mbind outcome_bind].
  rewrite aset_in_range by (apply lookup_lt_Some in Hn; lia). by rewrite Nat2Z.id.
Qed.

(** The node a creation adds, and the table after it. *)
Definition new_node (c p : nat) (first : Z) (type : vfs_node_type) (name : list Z) (mode : Z) : vfs_node :=
  Node (Z.of_nat c) (Z.of_nat p) (-1) first type name None 0 0 (u32 mode) 0.

Definition add_child (nodes : list vfs_node) (c p : nat) (pn nn : vfs_node) : list vfs_node :=
  <[p := set_first_child (Z.of_nat c) pn]> (<[c := nn]> nodes).

Definition add_kid (kids : nat -> list nat) (c p : nat) : nat -> list nat :=
  fun d => if decide (d = p) then c :: kids p else if decide (d = c) then [] else kids d.

(** The array the name is stored in. *)
Lemma stored_name arr name :
  length arr = MGCORE_NAME_MAX -> no_nul name -> (length name < MGCORE_NAME_MAX)%nat ->
  exists arr', (n ← awrite arr 0 (vstrncpy (MGCORE_NAME_MAX - 1) name);
                aset n (Z.of_nat MGCORE_NAME_MAX - 1) 0) = Val arr'
    /\ length arr' = MGCORE_NAME_MAX /\ cstr arr' = name.
Proof.
  unfold MGCORE_NAME_MAX. intros Hl Hn Hlen.
  rewrite awrite_in_range by (rewrite ?vstrncpy_length; lia). cbn [mbind outcome_bind].
  assert (length (splice arr (Z.to_nat 0) (vstrncpy (32 - 1) name)) = 32%nat) as Hs.
  { rewrite splice_length; [done|]. rewrite vstrncpy_length. lia. }
  rewrite aset_in_range by lia. eexists. split; [done|]. split; [by rewrite length_insert|].
  change (splice arr (Z.to_nat 0) (vstrncpy (32 - 1) name))
    with (vstrncpy 31 name ++ drop (length (vstrncpy 31 name)) arr).
  rewrite vstrncpy_length. rewrite insert_app_r_alt by (rewrite vstrncpy_length; lia).
  rewrite vstrncpy_length. change (Z.to_nat (Z.of_nat 32 - 1) - 31)%nat with 0%nat.
  unfold vstrncpy. rewrite take_app_ge by lia. rewrite take_replicate, Nat.min_l by lia.
  destruct (31 - length name)%nat as [|k] eqn:Hk; simpl.
  - rewrite app_nil_r. destruct (drop 31 arr) as [|x r] eqn:Hd; [|by apply cstr_app_nul].
    apply (f_equal length) in Hd. rewrite length_drop in Hd. simpl in Hd. lia.
  - rewrite <- app_assoc. by apply cstr_app_nul.
Qed.

(** The entry [alloc_node] takes. *)
Definition first_free (nodes : list vfs_node) : option Z :=
  first_index (fun n => bool_decide (n_type n = VFS_NODE_NONE)) nodes 0.

Lemma alloc_node_spec fs kids :
  tree_wf (g_nodes fs) kids ->
  (alloc_node fs = Val (- ENOSPC, fs) /\ first_free (g_nodes fs) = None)
  \/ exists c n, first_free (g_nodes fs) = Some (Z.of_nat c) /\ g_nodes fs !! c = Some n /\ ~ live n
       /\ alloc_node fs = Val (Z.of_nat c, with_nodes (<[c := reset_node (Z.of_nat c) n]> (g_nodes fs)) fs).
Proof.
  intros Hwf. unfold alloc_node, first_free. destruct (first_index _ _ _) as [i|] eqn:Hf; [right|by left].
  apply first_index_Some in Hf as (Hi & (n & Hn & Hb) & _).
  rewrite Z.sub_0_r in Hn. apply bool_decide_eq_true in Hb. exists (Z.to_nat i), n.
  rewrite Z2Nat.id by lia. split; [done|]. split; [done|]. split; [unfold live; naive_solver|].
  rewrite <- (Z2Nat.id i) at 1 by lia. by rewrite (upd_node_Val _ _ _ _ Hn).
Qed.

Lemma create_child_spec fs kids p pn name type mode :
  tree_wf (g_nodes fs) kids -> g_nodes fs !! p = Some pn -> live pn ->
  no_nul name -> (length name < MGCORE_NAME_MAX)%nat ->
  (create_child (Z.of_nat p) name type mode fs = Val (- ENOSPC, fs) /\ first_free (g_nodes fs) = None)
  \/ exists c n arr, first_free (g_nodes fs) = Some (Z.of_nat c) /\ g_nodes fs !! c = Some n /\ ~ live n
       /\ length arr = MGCORE_NAME_MAX /\ cstr arr = name
       /\ create_child (Z.of_nat p) name type mode fs
          = Val (Z.of_nat c, with_nodes (add_child (g_nodes fs) c p pn
                  (new_node c p (first_child_id pn) type arr mode)) fs).
Proof.
  intros Hwf Hp Hlp Hnul Hlen. unfold create_child.
  destruct (alloc_node_spec fs kids Hwf) as [[-> Hall]|(c & n & Hfree & Hc & Hnl & ->)];
    cbn [mbind outcome_bind]; [left; by rewrite decide_True by (unfold ENOSPC; lia)|].
  right. rewrite decide_False by lia. set (fs1 := with_nodes _ fs).
  pose proof (lookup_lt_Some _ _ _ Hc) as Hclt.
  assert (c <> p) as Hcp by (intros ->; apply Hnl; congruence).
  assert (g_nodes fs1 !! c = Some (reset_node (Z.of_nat c) n)) as Hc1 by (by apply list_lookup_insert_eq).
  rewrite aget_nat, Hc1. cbn [of_option mbind outcome_bind].
  destruct (stored_name (n_name (reset_node (Z.of_nat c) n)) name) as (arr & Harr & Hl & Hcs); [|done..|].
  { simpl. pose proof (tw_names _ _ Hwf) as Hnm. rewrite Forall_lookup in Hnm. by apply (Hnm c). }
  exists c, n, arr. split_and!; try done.
  destruct (awrite _ _ _) as [n1|]; [|done]. cbn [mbind outcome_bind] in Harr |- *. rewrite Harr.
  cbn [mbind outcome_bind]. rewrite (upd_node_Val _ _ _ _ Hc1). cbn [mbind outcome_bind].
  subst fs1. unfold with_nodes. cbn [g_nodes g_data_arena g_data_offset]. rewrite list_insert_insert_eq.
  set (nd := Node _ _ _ _ _ _ _ _ _ _ _). rewrite aget_nat, list_lookup_insert_ne, Hp by done.
  cbn [of_option mbind outcome_bind].
  rewrite (upd_node_Val c _ _ nd) by (simpl; by rewrite list_lookup_insert_eq).
  unfold with_nodes. cbn [mbind outcome_bind g_nodes g_data_arena g_data_offset]. rewrite list_insert_insert_eq.
  rewrite (upd_node_Val p _ _ pn) by (simpl; by rewrite list_lookup_insert_ne).
  done.
Qed.

Section AddChild.
Context (nodes : list vfs_node) (kids : nat -> list nat) (c p : nat) (pn n nn : vfs_node).
Context (Hwf : tree_wf nodes kids).
Context (Hp : nodes !! p = Some pn) (Hdir : n_type pn = VFS_NODE_DIR).
Context (Hc : nodes !! c = Some n) (Hdead : ~ live n).
Context (Hlive : live nn) (Hparent : parent_id nn = Z.of_nat p) (Hfirst : first_child_id nn = -1).
Context (Hnext : next_sibling_id nn = first_child_id pn).
Context (Hname : length (n_name nn) = MGCORE_NAME_MAX).
Context (Hfresh : slash ∈ cstr (n_name nn) \/
                  forall k, k ∈ kids p -> name_of nodes k <> cstr (n_name nn)).

#[local] Notation nodes' := (add_child nodes c p pn nn).
#[local] Notation kids' := (add_kid kids c p).

Lemma add_pn_live : live pn.
Proof. unfold live. congruence. Qed.

Lemma add_ne : c <> p.
Proof. intros ->. apply Hdead. assert (n = pn) as -> by congruence. exact add_pn_live. Qed.

Lemma add_lookup i :
  nodes' !! i = if decide (i = p) then Some (set_first_child (Z.of_nat c) pn)
                else if decide (i = c) then Some nn else nodes !! i.
Proof.
  pose proof add_ne. unfold add_child. case_decide as Hi; [subst i|].
  - apply list_lookup_insert_eq. rewrite length_insert. by eapply lookup_lt_Some.
  - rewrite list_lookup_insert_ne by done. case_decide as Hi2; [subst i|].
    + apply list_lookup_insert_eq. by eapply lookup_lt_Some.
    + by rewrite list_lookup_insert_ne.
Qed.

Lemma add_lookup_old i m : nodes !! i = Some m -> live m ->
  exists m', nodes' !! i = Some m' /\ live m' /\ n_type m' = n_type m /\ n_name m' = n_name m
    /\ parent_id m' = parent_id m /\ next_sibling_id m' = next_sibling_id m /\ i <> c.
Proof.
  intros Hi Hm. rewrite add_lookup.
  assert (i <> c) as Hic by (intros ->; apply Hdead; congruence).
  case_decide as Hip; [subst i|rewrite decide_False by done; by exists m].
  assert (m = pn) as -> by congruence. by eexists.
Qed.

Lemma add_live_cases i m : nodes' !! i = Some m -> live m ->
  (i = c /\ m = nn) \/ (exists m0, nodes !! i = Some m0 /\ live m0 /\ i <> c
     /\ n_type m = n_type m0 /\ parent_id m = parent_id m0 /\ (i <> p -> m = m0)
     /\ (i = p -> m = set_first_child (Z.of_nat c) pn)).
Proof.
  rewrite add_lookup. intros Hi Hm. case_decide as Hip; [subst i|].
  - right. injection Hi as <-. exists pn. pose proof add_ne. split_and!; done.
  - case_decide as Hic; [injection Hi as <-; by left|]. right. exists m. split_and!; done.
Qed.

Lemma add_not_kid d m : nodes !! d = Some m -> live m -> c ∉ kids d.
Proof.
  intros Hd Hm Hk. destruct (tw_kid _ _ Hwf d m c Hd Hm Hk) as (_ & _ & k & Hk' & Hl & _).
  apply Hdead. congruence.
Qed.

Lemma add_name_of i m : nodes !! i = Some m -> live m -> name_of nodes' i = name_of nodes i.
Proof.
  intros Hi Hm. unfold name_of. destruct (add_lookup_old i m Hi Hm) as (m' & -> & _ & _ & -> & _).
  by rewrite Hi.
Qed.

Lemma add_name_of_kid d m k : nodes !! d = Some m -> live m -> k ∈ kids d ->
  name_of nodes' k = name_of nodes k.
Proof.
  intros Hd Hm Hk. destruct (tw_kid _ _ Hwf d m k Hd Hm Hk) as (_ & _ & km & Hkm & Hl & _).
  by eapply add_name_of.
Qed.

Lemma add_name_of_new : name_of nodes' c = cstr (n_name nn).
Proof.
  unfold name_of. rewrite add_lookup. pose proof add_ne.
  by rewrite decide_False, decide_True.
Qed.

Lemma add_chain_old d m : nodes !! d = Some m -> live m -> chain nodes' (first_child_id m) (kids d).
Proof.
  intros Hd Hm. eapply chain_ext; [by eapply tw_chain|]. intros i ni Hi Hni.
  destruct (tw_kid _ _ Hwf d m i Hd Hm Hi) as (_ & _ & km & Hkm & Hl & _).
  assert (km = ni) as -> by congruence.
  destruct (add_lookup_old i ni Hni Hl) as (m' & ? & _ & _ & _ & _ & ? & _). by exists m'.
Qed.

Lemma add_kid_cases d k : k ∈ kids' d ->
  (d = p /\ k = c) \/ (d <> c /\ k ∈ kids d).
Proof.
  unfold add_kid. pose proof add_ne. case_decide as Hd; [subst d|].
  - intros [->|Hk]%elem_of_cons; [by left|by right].
  - case_decide; [intros Hk; by apply not_elem_of_nil in Hk|by right].
Qed.

Lemma add_kid_old d k : d <> c -> k ∈ kids d -> k ∈ kids' d.
Proof.
  intros Hd Hk. unfold add_kid. case_decide; [subst; by right|]. by rewrite decide_False.
Qed.

Lemma add_chain d m : nodes' !! d = Some m -> live m -> chain nodes' (first_child_id m) (kids' d).
Proof.
  intros Hd Hm. pose proof add_ne as Hne. unfold add_kid.
  destruct (add_live_cases d m Hd Hm) as [[-> ->]|(m0 & Hm0 & Hl0 & Hdc & _ & _ & Hold & Hnew)].
  - rewrite decide_False, decide_True by done. by rewrite Hfirst.
  - case_decide as Hdp.
    + subst d. rewrite Hnew by done. simpl. split; [done|]. exists nn. split.
      * rewrite add_lookup. by rewrite decide_False, decide_True.
      * rewrite Hnext. apply add_chain_old; [done|exact add_pn_live].
    + rewrite decide_False by done. rewrite Hold by done. by apply add_chain_old.
Qed.

Lemma add_unique d m c1 c2 : nodes' !! d = Some m -> live m -> c1 ∈ kids' d -> c2 ∈ kids' d ->
  name_of nodes' c1 = name_of nodes' c2 -> slash ∉ name_of nodes' c1 -> c1 = c2.
Proof.
  intros Hd Hm H1 H2 Hn Hs.
  assert (forall k, d = p -> k ∈ kids d -> name_of nodes' k <> name_of nodes' c \/ slash ∈ name_of nodes' c) as Hk.
  { intros k -> Hk. rewrite (add_name_of_kid p pn k) by (done || exact add_pn_live).
    rewrite add_name_of_new. destruct Hfresh as [?|Hf]; [by right|left]. by apply Hf. }
  destruct (add_live_cases d m Hd Hm) as [[-> ->]|(m0 & Hm0 & Hl0 & Hdc & _)].
  { apply add_kid_cases in H1 as [[? _]|[? _]]; [by destruct add_ne|done]. }
  apply add_kid_cases in H1 as [[Hd1 ->]|[_ H1]]; apply add_kid_cases in H2 as [[Hd2 ->]|[_ H2]]; [done|..].
  - destruct (Hk c2 Hd1 H2) as [?|?]; [by symmetry in Hn|done].
  - destruct (Hk c1 Hd2 H1) as [?|?]; [done|by rewrite Hn in Hs].
  - rewrite !(add_name_of_kid d m0) in Hn by done. rewrite (add_name_of_kid d m0) in Hs by done.
    by eapply (tw_unique _ _ Hwf).
Qed.

Lemma add_child_wf : tree_wf nodes' kids'.
Proof.
  pose proof add_ne as Hne. pose proof add_pn_live as Hpl.
  destruct (tw_root _ _ Hwf) as (r & Hr & Hrt & Hrp).
  assert (live r) as Hrl by (unfold live; congruence).
  split.
  - unfold add_child. rewrite !length_insert. apply (tw_length _ _ Hwf).
  - pose proof (tw_names _ _ Hwf) as Hnm. apply Forall_insert; [by apply Forall_insert|].
    simpl. by eapply Forall_lookup_1 in Hnm.
  - destruct (add_lookup_old 0 r Hr Hrl) as (r' & ? & _ & ? & _ & ? & _). exists r'. split; [done|]. split; congruence.
  - exact add_chain.
  - intros d. unfold add_kid. pose proof (tw_nodup _ _ Hwf) as Hnd. repeat case_decide; [|constructor|done].
    constructor; [|done]. by eapply add_not_kid.
  - intros d m k Hd Hm [[-> ->]|[Hdc Hk]]%add_kid_cases.
    + destruct (add_live_cases p m Hd Hm) as [[? _]|(m0 & Hm0 & _ & _ & Ht & _)]; [by destruct Hne|].
      split; [congruence|]. split; [intros ->; apply Hdead; congruence|]. exists nn. rewrite add_lookup.
      by rewrite decide_False, decide_True.
    + destruct (add_live_cases d m Hd Hm) as [[? _]|(m0 & Hm0 & Hl0 & _ & Ht & _)]; [done|].
      destruct (tw_kid _ _ Hwf d m0 k Hm0 Hl0 Hk) as (Htd & Hk0 & km & Hkm & Hkl & Hkp).
      split; [congruence|]. split; [done|].
      destruct (add_lookup_old k km Hkm Hkl) as (km' & ? & ? & _ & _ & ? & _). exists km'. split_and!; congruence.
  - intros k km Hk Hkl Hk0. destruct (add_live_cases k km Hk Hkl) as [[-> ->]|(k0 & Hk0' & Hl0 & Hkc & _ & Hpar & _)].
    + exists p, (set_first_child (Z.of_nat c) pn). split; [done|]. split; [rewrite add_lookup; by rewrite decide_True|].
      split; [done|]. unfold add_kid. rewrite decide_True by done. by left.
    + destruct (tw_parent _ _ Hwf k k0 Hk0' Hl0 Hk0) as (d & dn & Hd & Hdn & Hdl & Hin).
      destruct (add_lookup_old d dn Hdn Hdl) as (dn' & ? & ? & _ & _ & _ & _ & Hdc).
      exists d, dn'. split; [congruence|]. split; [done|]. split; [done|]. by apply add_kid_old.
  - exact add_unique.
  - destruct (tw_acyclic _ _ Hwf) as [depth Hdepth].
    exists (fun i => if decide (i = c) then S (depth p) else depth i).
    intros d m k Hd Hm [[-> ->]|[Hdc Hk]]%add_kid_cases.
    + by rewrite decide_True, decide_False by done.
    + destruct (add_live_cases d m Hd Hm) as [[? _]|(m0 & Hm0 & Hl0 & _)]; [done|].
      rewrite (decide_False (P := d = c)) by done. rewrite decide_False; [by eapply Hdepth|].
      intros ->. by eapply add_not_kid.
Qed.

(** Children found before are found after, and the new one is found. *)
Lemma add_find_old d m t r : nodes !! d = Some m -> live m -> slash ∉ t ->
  find_named nodes t (kids d) = r -> 0 <= r -> find_named nodes' t (kids' d) = r.
Proof.
  intros Hd Hm Ht Hr H0. pose proof add_ne as Hne.
  assert (find_named nodes' t (kids d) = r) as Hold.
  { rewrite <- Hr. apply find_named_ext. intros k Hk. by eapply add_name_of_kid. }
  unfold add_kid. case_decide as Hdp; [subst d|].
  - cbn [find_named]. rewrite decide_False; [done|]. rewrite add_name_of_new. intros He.
    destruct (find_named_cases nodes t (kids p)) as [[He' _]|(k & Hk & Hkn & _)]; [unfold ENOENT in *; lia|].
    destruct Hfresh as [Hs|Hf]; [congruence|]. apply (Hf k Hk). congruence.
  - rewrite decide_False; [done|]. intros ->. apply Hdead. congruence.
Qed.

Lemma add_find_new : find_named nodes' (cstr (n_name nn)) (kids' p) = Z.of_nat c.
Proof.
  unfold add_kid. rewrite decide_True by done. cbn [find_named].
  rewrite decide_True; [done|]. apply add_name_of_new.
Qed.

(** A name with a slash hides nothing and is never found. *)
Lemma add_find_missing d m t : nodes !! d = Some m -> live m -> t <> cstr (n_name nn) ->
  find_named nodes t (kids d) = - ENOENT -> find_named nodes' t (kids' d) = - ENOENT.
Proof.
  intros Hd Hm Ht Hr.
  assert (find_named nodes' t (kids d) = - ENOENT) as Hold.
  { rewrite <- Hr. apply find_named_ext. intros k Hk. by eapply add_name_of_kid. }
  unfold add_kid. case_decide as Hdp; [subst d|].
  - cbn [find_named]. rewrite decide_False; [done|]. rewrite add_name_of_new. congruence.
  - rewrite decide_False; [done|]. intros ->. apply Hdead. congruence.
Qed.

End AddChild.

(** * Walks that a change of the table does not disturb *)

(** Tokens never contain a slash. *)
Lemma toks_no_slash n : forall cursor, Forall (fun t => slash ∉ t) (toks n cursor).
Proof.
  induction n as [|n IH]; intros [|c cursor]; try constructor. cbn [toks].
  destruct (take_token _ (c :: cursor)) as [token rest] eqn:Ht.
  apply take_token_app in Ht as (_ & Hs & _). by constructor.
Qed.

Definition plain_token (t : list Z) : Prop := no_nul t /\ slash ∉ t.

Lemma tokens_plain path : no_nul path -> Forall plain_token (tokens path).
Proof.
  intros Hn. apply Forall_and. split; [by apply tokens_no_nul|apply toks_no_slash].
Qed.

Lemma follow_app fs ts1 : forall cur ts2, 0 <= cur ->
  follow fs cur (ts1 ++ ts2) = (r ← follow fs cur ts1; if decide (r < 0) then Val r else follow fs r ts2).
Proof.
  induction ts1 as [|t ts1 IH]; intros cur ts2 Hc; simpl; [by rewrite decide_False by lia|].
  destruct (step_path fs cur t) as [r|]; [|done]. cbn [mbind outcome_bind].
  destruct (decide (r < 0)) as [Hr|Hr]; simpl; [by rewrite decide_True|].
  apply IH. lia.
Qed.

(** The three kinds of step. *)
Definition dot (t : list Z) : Prop := t = [] \/ t = str ".".
Definition dotdot (t : list Z) : Prop := t = str "..".

Lemma str_no_nul_dot : no_nul (str ".") /\ no_nul (str "..").
Proof. split; repeat constructor; discriminate. Qed.

#[export] Instance dot_dec t : Decision (dot t).
Proof. unfold dot. apply _. Defined.
#[export] Instance dotdot_dec t : Decision (dotdot t).
Proof. unfold dotdot. apply _. Defined.

(** Where a step leads, by the tree. *)
Definition step_to (nodes : list vfs_node) (kids : nat -> list nat) (d : nat) (parent : Z) (t : list Z) : Z :=
  if decide (dot t) then Z.of_nat d
  else if decide (dotdot t) then (if decide (parent >= 0) then parent else 0)
  else find_named nodes t (kids d).

Lemma step_path_spec fs kids d n t :
  tree_wf (g_nodes fs) kids -> g_nodes fs !! d = Some n -> live n -> no_nul t ->
  step_path fs (Z.of_nat d) t = Val (step_to (g_nodes fs) kids d (parent_id n) t).
Proof.
  intros Hwf Hd Hl Ht. unfold step_path, step_to. destruct str_no_nul_dot as [H1 H2].
  destruct (decide (dot t)) as [Hdot|Hdot].
  - rewrite decide_True; [done|]. destruct Hdot as [->|Hdot]; [by left|right]. by apply vstrcmp_0.
  - rewrite decide_False by (intros [?|Hv]; [by apply Hdot; left|];
      apply vstrcmp_0 in Hv; [by apply Hdot; right|done|done]).
    destruct (decide (dotdot t)) as [Hdd|Hdd].
    + rewrite decide_True by (by apply vstrcmp_0). by rewrite aget_nat, Hd.
    + rewrite decide_False by (intros Hv; by apply vstrcmp_0 in Hv). by eapply lookup_child_spec.
Qed.

(** Creation leaves every path that resolved resolving to the same node. *)
Lemma add_follow fs kids c p pn n nn ts : forall cur r,
  tree_wf (g_nodes fs) kids ->
  g_nodes fs !! p = Some pn -> n_type pn = VFS_NODE_DIR -> g_nodes fs !! c = Some n -> ~ live n ->
  live nn -> parent_id nn = Z.of_nat p -> first_child_id nn = -1 ->
  next_sibling_id nn = first_child_id pn -> length (n_name nn) = MGCORE_NAME_MAX ->
  (slash ∈ cstr (n_name nn) \/ forall k, k ∈ kids p -> name_of (g_nodes fs) k <> cstr (n_name nn)) ->
  live_at fs cur -> Forall plain_token ts -> follow fs cur ts = Val r -> 0 <= r ->
  follow (with_nodes (add_child (g_nodes fs) c p pn nn) fs) cur ts = Val r.
Proof.
  induction ts as [|t ts IH]; intros cur r Hwf Hp Hdir Hc Hdead Hl Hpar Hfst Hnxt Hnm Hfresh Hcur Hts Hr H0;
    [done|].
  apply Forall_cons in Hts as [[Ht Hts'] Hts]. cbn [follow] in Hr |- *.
  destruct (step_path_live fs kids cur t Hwf Hcur Ht) as (r1 & Hs & Hr1). rewrite Hs in Hr.
  cbn [mbind outcome_bind] in Hr. case_decide as Hneg; [injection Hr as ->; lia|].
  destruct Hr1 as [->|Hr1]; [unfold ENOENT in Hneg; lia|].
  enough (step_path (with_nodes (add_child (g_nodes fs) c p pn nn) fs) cur t = Val r1) as ->.
  { cbn [mbind outcome_bind]. rewrite decide_False by done. by apply (IH r1 r). }
  destruct Hcur as (d & dn & -> & Hd & Hdl).
  pose proof (add_child_wf _ kids c p pn n nn Hwf Hp Hdir Hc Hdead Hl Hpar Hfst Hnxt Hnm Hfresh) as Hwf'.
  destruct (add_lookup_old _ c p pn n nn Hp Hdir Hc Hdead d dn Hd Hdl)
    as (dn' & Hd' & Hdl' & _ & _ & Hpeq & _).
  rewrite (step_path_spec fs kids d dn t) in Hs by done. injection Hs as Hs.
  rewrite (step_path_spec (with_nodes _ fs) _ d dn' t Hwf' Hd' Hdl' Ht). f_equal.
  unfold step_to in *. rewrite Hpeq. apply live_at_nonneg in Hr1.
  repeat case_decide; try done. by eapply add_find_old.
Qed.

(** ** [tmpfs_create_path] *)

Lemma resolve_root_path fs : resolve_path (Some [slash]) fs = Val 0.
Proof. reflexivity. Qed.

(** A path that does not resolve, seen from its parent. *)
Lemma unresolved_core fs kids path a core tail r p pn :
  tree_wf (g_nodes fs) kids -> no_nul path -> head path = Some slash -> cut path a core tail ->
  (length core < MGCORE_NAME_MAX)%nat ->
  resolve_path (Some path) fs = Val r -> r < 0 ->
  resolve_path (Some (a ++ [slash])) fs = Val (Z.of_nat p) -> g_nodes fs !! p = Some pn -> live pn ->
  ~ dot core /\ ~ dotdot core /\ find_named (g_nodes fs) core (kids p) = - ENOENT.
Proof.
  intros Hwf Hn Hh Hcut Hl Hr Hneg Hp Hpn Hpl.
  assert (head (a ++ [slash]) = Some slash) as Hh'.
  { destruct Hcut as [-> _ _ _]. destruct a; [done|]. simpl in *. done. }
  rewrite resolve_follow in Hr, Hp by done.
  rewrite (cut_tokens _ _ _ _ Hcut) in Hr by (unfold MGCORE_NAME_MAX in Hl; lia).
  rewrite follow_app in Hr by lia. rewrite Hp in Hr. cbn [mbind outcome_bind] in Hr.
  rewrite decide_False in Hr by lia. cbn [follow] in Hr.
  assert (no_nul core) as Hnc.
  { destruct Hcut as [-> _ _ _]. apply Forall_app in Hn as [_ Hn]. apply Forall_cons in Hn as [_ Hn].
    by apply Forall_app in Hn as [? _]. }
  rewrite (step_path_spec fs kids p pn core Hwf Hpn Hpl Hnc) in Hr.
  cbn [mbind outcome_bind] in Hr. unfold step_to in Hr.
  destruct (decide (dot core)); [rewrite decide_False in Hr by lia; injection Hr as <-; lia|].
  destruct (decide (dotdot core)).
  { set (x := if decide (parent_id pn >= 0) then _ else _) in Hr.
    assert (0 <= x) by (clear; subst x; case_decide; lia). clearbody x.
    destruct (decide (x < 0)); injection Hr as <-; lia. }
  split; [done|]. split; [done|].
  destruct (find_named_cases (g_nodes fs) core (kids p)) as [[-> _]|(k & _ & _ & Hk)]; [done|].
  rewrite Hk in Hr. rewrite decide_False in Hr by lia. injection Hr as <-. lia.
Qed.

(** Why a creation of a path that does not resolve fails. *)
Inductive create_failure (fs : tmpfs) (path : list Z) : Z -> Prop :=
| no_parent a core tail e : cut path a core tail ->
    resolve_path (Some (a ++ [slash])) fs = Val e -> e < 0 -> create_failure fs path e
| parent_not_dir a core tail p pn : cut path a core tail ->
    resolve_path (Some (a ++ [slash])) fs = Val (Z.of_nat p) -> g_nodes fs !! p = Some pn -> live pn ->
    n_type pn <> VFS_NODE_DIR -> create_failure fs path (- ENOTDIR)
| table_full a core tail p pn : cut path a core tail ->
    resolve_path (Some (a ++ [slash])) fs = Val (Z.of_nat p) -> g_nodes fs !! p = Some pn -> live pn ->
    n_type pn = VFS_NODE_DIR -> first_free (g_nodes fs) = None -> create_failure fs path (- ENOSPC).

(** The outcomes of a creation. *)
Inductive created (fs : tmpfs) (kids : nat -> list nat) (path : list Z) (type : vfs_node_type) (mode : Z)
  : outcome (Z * tmpfs) -> Prop :=
| created_existing r : 0 <= r -> resolve_path (Some path) fs = Val r ->
    created fs kids path type mode (Val (r, fs))
| created_error r e : e < 0 -> resolve_path (Some path) fs = Val r -> r < 0 -> create_failure fs path e ->
    created fs kids path type mode (Val (e, fs))
| created_overflow a core tail : cut path a core tail ->
    (MGCORE_NAME_MAX <= length (core ++ tail))%nat -> created fs kids path type mode (Stop Oob)
| created_new a core tail p pn c n arr : cut path a core tail ->
    (length (core ++ tail) < MGCORE_NAME_MAX)%nat ->
    resolve_path (Some (a ++ [slash])) fs = Val (Z.of_nat p) ->
    g_nodes fs !! p = Some pn -> n_type pn = VFS_NODE_DIR -> g_nodes fs !! c = Some n -> ~ live n ->
    length arr = MGCORE_NAME_MAX -> cstr arr = core ++ tail ->
    ~ dot core -> ~ dotdot core -> find_named (g_nodes fs) core (kids p) = - ENOENT ->
    first_free (g_nodes fs) = Some (Z.of_nat c) ->
    created fs kids path type mode (Val (Z.of_nat c, with_nodes (add_child (g_nodes fs) c p pn
                    (new_node c p (first_child_id pn) type arr mode)) fs)).

Lemma create_path_spec fs kids path type mode :
  tree_wf (g_nodes fs) kids -> no_nul path -> (length path < MGCORE_PATH_MAX)%nat ->
  head path = Some slash -> length path <> 1%nat ->
  created fs kids path type mode (tmpfs_create_path (Some path) type mode fs).
Proof.
  intros Hwf Hn Hlen Hh Hl1. unfold tmpfs_create_path. rewrite decide_False by (intros [?|?]; done).
  destruct (resolve_live fs kids path Hwf Hn) as (r & Hr & Hrl). rewrite Hr. cbn [mbind outcome_bind].
  destruct (decide (r >= 0)) as [Hr0|Hr0]; [apply created_existing; [lia|done]|].
  assert (~ Forall (eq slash) path) as Hns.
  { intros Hall. rewrite resolve_follow in Hr by done. rewrite tokens_slashes in Hr by done.
    injection Hr as <-. lia. }
  destruct (cut_exists path Hh Hns) as (a & core & tail & Hcut & Hlast).
  pose proof (cut_path _ _ _ _ Hcut) as Hpath.
  assert (length path = length a + 1 + length (core ++ tail))%nat as Hpl.
  { rewrite Hpath, length_app. simpl. lia. }
  pose proof (split_parent_spec path a core tail Hcut Hn Hlast) as Hsplit.
  assert (length core <> 0)%nat as Hc0 by (pose proof (cut_core _ _ _ _ Hcut); by destruct core).
  rewrite length_app in Hpl. destruct (decide (length (core ++ tail) < MGCORE_NAME_MAX)%nat) as [Hfit|Hfit].
  2: { rewrite Hsplit by lia. eapply created_overflow; [done|lia]. }
  destruct Hsplit as (pa & la & -> & Hpa & Hla); [lia|]. cbn [mbind outcome_bind]. rewrite Hpa, Hla.
  assert (no_nul (a ++ [slash]) /\ no_nul (core ++ tail)) as [Hna Hnc].
  { unfold no_nul in *. rewrite Hpath, (cons_middle slash a), app_assoc in Hn. by apply Forall_app in Hn. }
  destruct (resolve_live fs kids (a ++ [slash]) Hwf Hna) as (pr & Hp & Hpr). rewrite Hp.
  cbn [mbind outcome_bind]. destruct (decide (pr < 0)) as [Hpr0|Hpr0]; [eapply created_error; [done|done|lia|by eapply no_parent]|].
  destruct Hpr as [?|(p & pn & -> & Hpn & Hpnl)]; [lia|].
  rewrite aget_nat, Hpn. cbn [of_option mbind outcome_bind].
  destruct (decide (n_type pn <> VFS_NODE_DIR)) as [Hnd|Hdir];
    [eapply created_error; [unfold ENOTDIR; lia|done|lia|by eapply parent_not_dir]|].
  assert (n_type pn = VFS_NODE_DIR) as Hdt by (by destruct (decide (n_type pn = VFS_NODE_DIR))).
  destruct (create_child_spec fs kids p pn (core ++ tail) type mode Hwf Hpn Hpnl Hnc Hfit)
    as [[-> Hfull]|(c & n & arr & Hfree & Hc & Hdead & Harr & Hcs & ->)];
    [eapply created_error; [unfold ENOSPC; lia|done|lia|by eapply table_full]|].
  destruct (unresolved_core fs kids path a core tail r p pn) as (H1 & H2 & H3); try done; [|lia|].
  { rewrite length_app in Hfit. lia. }
  eapply created_new; eauto.
Qed.

Lemma cut_head path a core tail :
  cut path a core tail -> head path = Some slash -> head (a ++ [slash]) = Some slash.
Proof. intros [-> _ _ _] Hh. destruct a; [done|]. simpl in *. done. Qed.

Section NewNode.
Context (fs : tmpfs) (kids : nat -> list nat) (path a core tail : list Z).
Context (p c : nat) (pn n : vfs_node) (type : vfs_node_type) (mode : Z) (arr : list Z).
Context (Hwf : tree_wf (g_nodes fs) kids) (Hnul : no_nul path) (Hhead : head path = Some slash).
Context (Hcut : cut path a core tail) (Hfit : (length (core ++ tail) < MGCORE_NAME_MAX)%nat).
Context (Hpar : resolve_path (Some (a ++ [slash])) fs = Val (Z.of_nat p)).
Context (Hp : g_nodes fs !! p = Some pn) (Hdir : n_type pn = VFS_NODE_DIR).
Context (Hc : g_nodes fs !! c = Some n) (Hdead : ~ live n).
Context (Harr : length arr = MGCORE_NAME_MAX) (Hcs : cstr arr = core ++ tail).
Context (Hnd : ~ dot core) (Hndd : ~ dotdot core).
Context (Hfind : find_named (g_nodes fs) core (kids p) = - ENOENT).
Context (Htype : type <> VFS_NODE_NONE).

#[local] Notation nn := (new_node c p (first_child_id pn) type arr mode).
#[local] Notation fs' := (with_nodes (add_child (g_nodes fs) c p pn nn) fs).

Lemma new_fresh : slash ∈ cstr (n_name nn) \/
  forall k, k ∈ kids p -> name_of (g_nodes fs) k <> cstr (n_name nn).
Proof.
  simpl. rewrite Hcs. destruct Hcut as [_ _ _ Htail]. destruct Htail as [|x tl <- _].
  - right. rewrite app_nil_r. destruct (find_named_cases (g_nodes fs) core (kids p)) as [[_ Hall]|(k & _ & _ & Hk)]; [done|].
    rewrite Hfind in Hk. unfold ENOENT in Hk. lia.
  - left. apply elem_of_app. right. by left.
Qed.

Lemma new_wf : tree_wf (g_nodes fs') (add_kid kids c p).
Proof. by eapply add_child_wf; eauto using new_fresh. Qed.

Lemma new_resolve_old q r :
  no_nul q -> resolve_path (Some q) fs = Val r -> 0 <= r -> resolve_path (Some q) fs' = Val r.
Proof.
  intros Hq Hr H0. destruct (decide (head q = Some slash)) as [Hh|Hh].
  - rewrite resolve_follow in Hr |- * by done.
    eapply add_follow; eauto using new_fresh, tokens_plain, root_live.
  - unfold resolve_path in Hr. rewrite decide_True in Hr by done. injection Hr as <-. unfold EINVAL in H0. lia.
Qed.

(** The new path resolves to the new node, unless it ends in a slash: then it
    still does not resolve. *)
Lemma new_resolve_path :
  resolve_path (Some path) fs' = Val (if decide (tail = []) then Z.of_nat c else - ENOENT).
Proof.
  assert (no_nul (a ++ [slash]) /\ no_nul core) as [Hna Hnc].
  { unfold no_nul in *. rewrite (cut_path _ _ _ _ Hcut), (cons_middle slash a), app_assoc in Hnul.
    apply Forall_app in Hnul as [? H']. by apply Forall_app in H' as [? _]. }
  pose proof (new_resolve_old _ _ Hna Hpar ltac:(lia)) as Hpar'.
  rewrite resolve_follow in Hpar' by (by eapply cut_head).
  rewrite resolve_follow by done. pose proof Hfit as Hlen. rewrite length_app in Hlen.
  unfold MGCORE_NAME_MAX in Hlen.
  rewrite (cut_tokens _ _ _ _ Hcut) by lia. rewrite follow_app by lia. rewrite Hpar'.
  cbn [mbind outcome_bind]. rewrite decide_False by lia. cbn [follow].
  destruct (add_lookup_old (g_nodes fs) c p pn n nn Hp Hdir Hc Hdead p pn Hp)
    as (pn' & Hpn' & Hpl' & _); [unfold live; congruence|].
  rewrite (step_path_spec fs' _ p pn' core new_wf Hpn' Hpl' Hnc). cbn [mbind outcome_bind].
  unfold step_to. rewrite (decide_False (P := dot core)), (decide_False (P := dotdot core)) by done.
  destruct (decide (tail = [])) as [Ht|Ht].
  - rewrite Ht, app_nil_r in Hcs.
    pose proof (add_find_new (g_nodes fs) kids c p pn n nn Hp Hdir Hc Hdead) as Hfn.
    change (cstr (n_name nn)) with (cstr arr) in Hfn. rewrite Hcs in Hfn.
    change (g_nodes fs') with (add_child (g_nodes fs) c p pn nn). rewrite Hfn.
    by rewrite decide_False by lia.
  - change (g_nodes fs') with (add_child (g_nodes fs) c p pn nn).
    assert (core <> cstr (n_name nn)) as Hne.
    { simpl. rewrite Hcs. intros He%(f_equal length). rewrite length_app in He. destruct tail; [done|simpl in He; lia]. }
    rewrite (add_find_missing (g_nodes fs) kids c p pn n nn Hwf Hp Hdir Hc Hdead p pn)
      by (done || (unfold live; congruence)).
    by case_decide.
Qed.

End NewNode.

(** * Removal *)

(** The identity and contents of a node, without its links. *)
Definition same_node (m m' : vfs_node) : Prop :=
  n_id m' = n_id m /\ parent_id m' = parent_id m /\ n_type m' = n_type m /\ n_name m' = n_name m
  /\ n_data m' = n_data m /\ n_size m' = n_size m /\ n_capacity m' = n_capacity m
  /\ n_mode m' = n_mode m /\ device_id m' = device_id m.

Lemma same_node_refl m : same_node m m.
Proof. by repeat split. Qed.

Lemma find_previous_spec nodes id ids : forall fuel start,
  chain nodes start ids -> (length ids <= fuel)%nat -> id ∈ ids -> start <> Z.of_nat id ->
  exists l1 prev l2, ids = l1 ++ prev :: id :: l2
    /\ find_previous fuel nodes start (Z.of_nat id) = Val (Z.of_nat prev).
Proof.
  induction ids as [|i ids IH]; intros fuel start Hc Hf Hid Hs; [by apply not_elem_of_nil in Hid|].
  destruct Hc as (-> & n & Hn & Hc). apply elem_of_cons in Hid as [->|Hid]; [done|].
  destruct fuel as [|fuel]; simpl in Hf; [lia|]. cbn [find_previous].
  rewrite decide_True by lia. rewrite aget_nat, Hn. cbn [of_option mbind outcome_bind].
  case_decide as Hnext.
  - destruct (IH fuel (next_sibling_id n)) as (l1 & prev & l2 & -> & Hfp); [done|lia|done|done|].
    exists (i :: l1), prev, l2. by split.
  - assert (next_sibling_id n = Z.of_nat id) as Heq by (destruct (decide (next_sibling_id n = Z.of_nat id)); done).
    destruct ids as [|j ids]; [by apply not_elem_of_nil in Hid|]. simpl in Hc. destruct Hc as [Hj _].
    assert (j = id) as -> by lia. by exists [], i, ids.
Qed.

Lemma chain_skip nodes l1 prev id l2 pn idn : forall start,
  NoDup (l1 ++ prev :: id :: l2) -> chain nodes start (l1 ++ prev :: id :: l2) ->
  nodes !! prev = Some pn -> nodes !! id = Some idn ->
  chain (<[prev := set_next_sibling (next_sibling_id idn) pn]> nodes) start (l1 ++ prev :: l2).
Proof.
  induction l1 as [|i l1 IH]; intros start Hnd Hc Hp Hid; simpl in *.
  - destruct Hc as (-> & n & Hn & Hnid & n' & Hn' & Hc). split; [done|].
    assert (n' = idn) as -> by congruence.
    eexists. split; [apply list_lookup_insert_eq; by eapply lookup_lt_Some|]. simpl.
    eapply chain_ext; [done|]. intros k m Hk Hm. exists m. split; [|done].
    apply NoDup_cons in Hnd as [Hnd _]. rewrite list_lookup_insert_ne; [done|]. intros ->. apply Hnd. by right.
  - destruct Hc as (-> & n & Hn & Hc). split; [done|]. apply NoDup_cons in Hnd as [Hni Hnd].
    exists n. split; [|by apply IH]. rewrite list_lookup_insert_ne; [done|].
    intros ->. apply Hni, elem_of_app. right. by left.
Qed.

Lemma skip_nodup (l1 l2 : list nat) prev id :
  NoDup (l1 ++ prev :: id :: l2) ->
  NoDup (l1 ++ prev :: l2)
  /\ forall k, k ∈ l1 ++ prev :: l2 <-> k ∈ l1 ++ prev :: id :: l2 /\ k <> id.
Proof.
  assert (l1 ++ prev :: id :: l2 ≡ₚ id :: l1 ++ prev :: l2) as Hperm by solve_Permutation.
  rewrite Hperm. intros [Hn Hnd]%NoDup_cons. split; [done|]. intros k. rewrite Hperm, elem_of_cons.
  split; [|by intros [[->|?] ?]]. intros Hk. split; [by right|]. by intros ->.
Qed.

Section Remove.
Context (fs : tmpfs) (kids : nat -> list nat) (id p : nat) (n pn : vfs_node).
Context (Hwf : tree_wf (g_nodes fs) kids).
Context (Hid : g_nodes fs !! id = Some n) (Hlive : live n) (Hparent : parent_id n = Z.of_nat p).
Context (Hp : g_nodes fs !! p = Some pn) (Hplive : live pn) (Hkid : id ∈ kids p).
Context (Hempty : kids id = []).

(** What taking a node off its parent's list does to the table. *)
Definition unlinked (nodes1 : list vfs_node) (l : list nat) : Prop :=
  length nodes1 = length (g_nodes fs)
  /\ (forall i m, g_nodes fs !! i = Some m -> exists m', nodes1 !! i = Some m' /\ same_node m m'
       /\ (i <> p -> first_child_id m' = first_child_id m)
       /\ (i ∉ kids p -> next_sibling_id m' = next_sibling_id m))
  /\ NoDup l /\ (forall k, k ∈ l <-> k ∈ kids p /\ k <> id)
  /\ exists pn', nodes1 !! p = Some pn' /\ chain nodes1 (first_child_id pn') l.

Lemma p_not_kid : p ∉ kids p.
Proof.
  intros Hk. destruct (tw_acyclic _ _ Hwf) as [depth Hd]. specialize (Hd p pn p Hp Hplive Hk). lia.
Qed.

Lemma unlink_node_spec :
  exists nodes1 l, unlink_node (Z.of_nat id) fs = Val (with_nodes nodes1 fs) /\ unlinked nodes1 l.
Proof.
  unfold unlink_node. rewrite aget_nat, Hid. cbn [of_option mbind outcome_bind].
  rewrite Hparent, aget_nat, Hp. cbn [of_option mbind outcome_bind].
  pose proof (tw_chain _ _ Hwf p pn Hp Hplive) as Hc. pose proof (tw_nodup _ _ Hwf p) as Hnd.
  destruct (decide (first_child_id pn = Z.of_nat id)) as [Hf|Hf].
  - rewrite (upd_node_Val _ _ _ _ Hp). destruct (kids p) as [|i l] eqn:Hk; [by apply not_elem_of_nil in Hkid|].
    simpl in Hc. destruct Hc as (Hi & n' & Hn' & Hc). assert (i = id) as -> by lia.
    assert (n' = n) as -> by congruence. apply NoDup_cons in Hnd as [Hni Hnd].
    eexists _, l. split; [done|]. unfold unlinked. rewrite Hk. split; [by rewrite length_insert|]. split; [|split; [done|split]].
    + intros i m Hi'. destruct (decide (i = p)) as [->|Hip].
      * assert (m = pn) as -> by congruence. eexists. split; [apply list_lookup_insert_eq; by eapply lookup_lt_Some|].
        split; [by repeat split|]. by split.
      * exists m. rewrite list_lookup_insert_ne by done. split; [done|]. split; [apply same_node_refl|by split].
    + intros k. rewrite elem_of_cons. split; [intros Hkl; split; [by right|intros ->; done]|naive_solver].
    + eexists. split; [apply list_lookup_insert_eq; by eapply lookup_lt_Some|]. simpl.
      eapply chain_ext; [done|]. intros k m Hk' Hm. exists m. split; [|done].
      rewrite list_lookup_insert_ne; [done|]. intros <-. apply p_not_kid. rewrite Hk. by right.
  - destruct (find_previous_spec _ id (kids p) MGCORE_MAX_NODES _ Hc) as (l1 & prev & l2 & Hk & Hfp);
      [by eapply kids_bound|done|done|]. rewrite Hfp. cbn [mbind outcome_bind].
    rewrite decide_True by lia. rewrite Hk in Hc, Hnd.
    assert (prev ∈ kids p) as Hprev by (rewrite Hk; apply elem_of_app; right; by left).
    destruct (tw_kid _ _ Hwf p pn prev Hp Hplive Hprev) as (_ & _ & prn & Hprn & _).
    rewrite (upd_node_Val _ _ _ _ Hprn).
    eexists _, (l1 ++ prev :: l2). split; [done|]. split; [by rewrite length_insert|]. split; [|split; [|split]].
    + intros i m Hi'. destruct (decide (i = prev)) as [->|Hip].
      * assert (m = prn) as -> by congruence. eexists. split; [apply list_lookup_insert_eq; by eapply lookup_lt_Some|].
        split; [by repeat split|]. by split.
      * exists m. rewrite list_lookup_insert_ne by done. split; [done|]. split; [apply same_node_refl|by split].
    + by apply skip_nodup in Hnd as [? _].
    + intros k. rewrite Hk. by apply skip_nodup in Hnd as [_ ->].
    + assert (p <> prev) as Hpp by (intros Heq; apply p_not_kid; by rewrite Heq at 1).
      exists pn. split; [by rewrite list_lookup_insert_ne|]. by apply (chain_skip _ l1 prev id l2).
Qed.

(** The table after the node itself is cleared. *)
Section Cleared.
Context (nodes1 : list vfs_node) (l : list nat) (Hun : unlinked nodes1 l) (Hid0 : id <> 0%nat).

#[local] Notation nodes' := (<[id := zero_node]> nodes1).
Definition drop_kid : nat -> list nat := fun d => if decide (d = p) then l else kids d.

Lemma cleared_lookup i m : g_nodes fs !! i = Some m -> i <> id ->
  exists m', nodes' !! i = Some m' /\ same_node m m'
    /\ (i <> p -> first_child_id m' = first_child_id m)
    /\ (i ∉ kids p -> next_sibling_id m' = next_sibling_id m).
Proof.
  intros Hi Hne. destruct Hun as (_ & Hrel & _). destruct (Hrel i m Hi) as (m' & ? & ?).
  exists m'. by rewrite list_lookup_insert_ne.
Qed.

Lemma cleared_live i m' : nodes' !! i = Some m' -> live m' ->
  i <> id /\ exists m, g_nodes fs !! i = Some m /\ live m /\ same_node m m'
    /\ (i <> p -> first_child_id m' = first_child_id m).
Proof.
  intros Hi Hl. destruct (decide (i = id)) as [->|Hne].
  - apply list_lookup_insert_Some in Hi as [(_ & <- & _)|[? _]]; [by destruct Hl|done].
  - split; [done|]. destruct Hun as (Hlen & _). rewrite list_lookup_insert_ne in Hi by done.
    destruct (lookup_lt_is_Some_2 (g_nodes fs) i) as [m Hm].
    { rewrite <- Hlen. by eapply lookup_lt_Some. }
    destruct (cleared_lookup i m Hm Hne) as (m2 & Hm2 & Hs & Hf & _).
    rewrite list_lookup_insert_ne in Hm2 by done. assert (m2 = m') as -> by congruence.
    exists m. split_and!; try done. unfold live. by destruct Hs as (_ & _ & <- & _).
Qed.

Lemma same_live m m' : same_node m m' -> live m -> live m'.
Proof. unfold live. by intros (_ & _ & -> & _). Qed.

Lemma kid_not_id d m : g_nodes fs !! d = Some m -> live m -> d <> p -> id ∉ kids d.
Proof.
  intros Hd Hm Hne Hk. destruct (tw_kid _ _ Hwf d m id Hd Hm Hk) as (_ & _ & k & Hk' & _ & Hkp).
  assert (k = n) as -> by congruence. rewrite Hparent in Hkp. lia.
Qed.

Lemma drop_kid_spec d m k : g_nodes fs !! d = Some m -> live m ->
  k ∈ drop_kid d <-> k ∈ kids d /\ k <> id.
Proof.
  intros Hd Hm. unfold drop_kid. case_decide as Hdp; [subst d; apply Hun|].
  split; [|by intros []]. intros Hk. split; [done|]. intros ->. exact (kid_not_id d m Hd Hm Hdp Hk).
Qed.

Lemma cleared_name_of i m : g_nodes fs !! i = Some m -> i <> id -> name_of nodes' i = name_of (g_nodes fs) i.
Proof.
  intros Hi Hne. unfold name_of. destruct (cleared_lookup i m Hi Hne) as (m' & -> & (_ & _ & _ & -> & _) & _).
  by rewrite Hi.
Qed.

Lemma cleared_name_of_kid d m k : g_nodes fs !! d = Some m -> live m -> k ∈ drop_kid d ->
  name_of nodes' k = name_of (g_nodes fs) k.
Proof.
  intros Hd Hm [Hk Hne]%(drop_kid_spec d m k Hd Hm).
  destruct (tw_kid _ _ Hwf d m k Hd Hm Hk) as (_ & _ & km & Hkm & _). by eapply cleared_name_of.
Qed.

Lemma cleared_chain d m' : nodes' !! d = Some m' -> live m' -> chain nodes' (first_child_id m') (drop_kid d).
Proof.
  intros Hd Hl. destruct (cleared_live d m' Hd Hl) as (Hne & m & Hm & Hml & Hs & Hf).
  unfold drop_kid. case_decide as Hdp.
  - subst d. pose proof Hun as (_ & _ & _ & Hl2 & pn' & Hpn' & Hc).
    rewrite list_lookup_insert_ne in Hd by done. assert (pn' = m') as -> by congruence.
    eapply chain_ext; [done|]. intros i q Hi Hq. exists q. split; [|done].
    rewrite list_lookup_insert_ne; [done|]. intros <-. by apply Hl2 in Hi as [_ ?].
  - rewrite Hf by done. eapply chain_ext; [by eapply tw_chain|]. intros i q Hi Hq.
    assert (i <> id) as Hii by (intros Heq; rewrite Heq in Hi; exact (kid_not_id d m Hm Hml Hdp Hi)).
    assert (i ∉ kids p) as Hip.
    { intros Hip. destruct (tw_kid _ _ Hwf d m i Hm Hml Hi) as (_ & _ & k1 & Hk1 & _ & Hp1).
      destruct (tw_kid _ _ Hwf p pn i Hp Hplive Hip) as (_ & _ & k2 & Hk2 & _ & Hp2).
      assert (k1 = k2) as -> by congruence. lia. }
    destruct (cleared_lookup i q Hq Hii) as (q' & ? & _ & _ & Hn). exists q'. split; [done|by apply Hn].
Qed.

Lemma cleared_wf : tree_wf nodes' drop_kid.
Proof.
  pose proof Hun as (Hlen & Hrel & Hnd & Hl & _).
  destruct (tw_root _ _ Hwf) as (r & Hr & Hrt & Hrp). split.
  - rewrite length_insert, Hlen. apply (tw_length _ _ Hwf).
  - apply Forall_insert; [|reflexivity]. apply Forall_lookup. intros i m' Hi.
    destruct (lookup_lt_is_Some_2 (g_nodes fs) i) as [m Hm]; [rewrite <- Hlen; by eapply lookup_lt_Some|].
    destruct (Hrel i m Hm) as (m2 & Hm2 & (_ & _ & _ & Hnm & _) & _). assert (m2 = m') as -> by congruence.
    rewrite Hnm. by eapply Forall_lookup_1 in Hm; [|apply (tw_names _ _ Hwf)].
  - destruct (cleared_lookup 0 r Hr ltac:(by intros Heq; destruct Hid0)) as (r' & ? & (_ & ? & ? & _) & _).
    exists r'. split; [done|]. split; congruence.
  - exact cleared_chain.
  - intros d. unfold drop_kid. case_decide; [done|]. apply (tw_nodup _ _ Hwf).
  - intros d m' k Hd Hml Hk. destruct (cleared_live d m' Hd Hml) as (Hne & m & Hm & Hl0 & Hs & _).
    apply (drop_kid_spec d m k Hm Hl0) in Hk as [Hk Hkid'].
    destruct (tw_kid _ _ Hwf d m k Hm Hl0 Hk) as (Ht & Hk0 & km & Hkm & Hkl & Hkp).
    split; [by destruct Hs as (_ & _ & -> & _)|]. split; [done|].
    destruct (cleared_lookup k km Hkm Hkid') as (km' & ? & Hs' & _). exists km'. split; [done|].
    split; [by eapply same_live|]. by destruct Hs' as (_ & -> & _).
  - intros c k' Hc Hcl Hc0. destruct (cleared_live c k' Hc Hcl) as (Hne & k & Hk & Hkl & Hs & _).
    destruct (tw_parent _ _ Hwf c k Hk Hkl Hc0) as (d & dn & Hd & Hdn & Hdl & Hin).
    assert (d <> id) as Hdid by (intros ->; rewrite Hempty in Hin; by apply not_elem_of_nil in Hin).
    destruct (cleared_lookup d dn Hdn Hdid) as (dn' & ? & Hs' & _). exists d, dn'.
    split; [by destruct Hs as (_ & -> & _)|]. split; [done|]. split; [by eapply same_live|].
    by apply (drop_kid_spec d dn).
  - intros d m' c1 c2 Hd Hml H1 H2 Hn Hs. destruct (cleared_live d m' Hd Hml) as (_ & m & Hm & Hl0 & _).
    rewrite !(cleared_name_of_kid d m) in Hn by done. rewrite (cleared_name_of_kid d m) in Hs by done.
    apply (drop_kid_spec d m _ Hm Hl0) in H1 as [H1 _]. apply (drop_kid_spec d m _ Hm Hl0) in H2 as [H2 _].
    by eapply (tw_unique _ _ Hwf).
  - destruct (tw_acyclic _ _ Hwf) as [depth Hdp]. exists depth. intros d m' c Hd Hml Hc.
    destruct (cleared_live d m' Hd Hml) as (_ & m & Hm & Hl0 & _).
    apply (drop_kid_spec d m _ Hm Hl0) in Hc as [Hc _]. by eapply Hdp.
Qed.

(** Lookups of other children are unchanged; the removed name is gone. *)
Lemma cleared_find d m t : g_nodes fs !! d = Some m -> live m ->
  find_named (g_nodes fs) t (kids d) <> Z.of_nat id -> slash ∉ t ->
  find_named nodes' t (drop_kid d) = find_named (g_nodes fs) t (kids d).
Proof.
  intros Hd Hm Hne Hs.
  rewrite (find_named_ext (g_nodes fs)) by (intros k; by eapply cleared_name_of_kid).
  destruct (find_named_cases (g_nodes fs) t (kids d)) as [[He Hall]|(k & Hk & Hkn & He)]; rewrite He in *.
  - destruct (find_named_cases (g_nodes fs) t (drop_kid d)) as [[-> _]|(k & Hk & Hkn & _)]; [done|].
    apply (drop_kid_spec d m _ Hd Hm) in Hk as [Hk _]. by destruct (Hall k Hk).
  - assert (k <> id) as Hki by (intros ->; done).
    destruct (find_named_cases (g_nodes fs) t (drop_kid d)) as [[_ Hall]|(k2 & Hk2 & Hkn2 & ->)].
    + destruct (Hall k); [|done]. by apply (drop_kid_spec d m _ Hd Hm).
    + apply (drop_kid_spec d m _ Hd Hm) in Hk2 as [Hk2 _]. f_equal.
      apply (tw_unique _ _ Hwf d m); [done|done|done|done|congruence|congruence].
Qed.

Lemma cleared_find_gone d m t : g_nodes fs !! d = Some m -> live m ->
  find_named (g_nodes fs) t (kids d) = Z.of_nat id -> slash ∉ t ->
  find_named nodes' t (drop_kid d) = - ENOENT.
Proof.
  intros Hd Hm He Hs.
  destruct (find_named_cases (g_nodes fs) t (kids d)) as [[He' _]|(k & Hk & Hkn & He')];
    [unfold ENOENT in *; lia|]. assert (k = id) as -> by lia.
  destruct (find_named_cases nodes' t (drop_kid d)) as [[-> _]|(k2 & Hk2 & Hkn2 & _)]; [done|].
  rewrite (cleared_name_of_kid d m) in Hkn2 by done. pose proof Hk2 as Hk3.
  apply (drop_kid_spec d m _ Hd Hm) in Hk2 as [Hk2 Hne].
  destruct Hne. apply (tw_unique _ _ Hwf d m); [done|done|done|done|congruence|congruence].
Qed.

End Cleared.
End Remove.

(** ** Resolution after a removal *)

Definition no_dotdot (ts : list (list Z)) : Prop := Forall (fun t => ~ dotdot t) ts.

Section RemovedFollow.
Context (fs : tmpfs) (kids : nat -> list nat) (id p : nat) (n pn : vfs_node).
Context (nodes1 : list vfs_node) (l : list nat).
Context (Hwf : tree_wf (g_nodes fs) kids).
Context (Hid : g_nodes fs !! id = Some n) (Hlive : live n) (Hparent : parent_id n = Z.of_nat p).
Context (Hp : g_nodes fs !! p = Some pn) (Hplive : live pn) (Hkid : id ∈ kids p).
Context (Hempty : kids id = []) (Hun : unlinked fs kids id p nodes1 l) (Hid0 : id <> 0%nat).

#[local] Notation fs' := (with_nodes (<[id := zero_node]> nodes1) fs).

(** A walk that reached the node cannot leave it but by [..]. *)
Lemma follow_from_empty ts r :
  Forall plain_token ts -> no_dotdot ts -> follow fs (Z.of_nat id) ts = Val r ->
  r = Z.of_nat id \/ r = - ENOENT.
Proof.
  induction ts as [|t ts IH]; simpl; intros Hts Hdd Hr; [left; by injection Hr|].
  apply Forall_cons in Hts as [[Ht _] Hts]. apply Forall_cons in Hdd as [Hd Hdd].
  rewrite (step_path_spec fs kids id n t Hwf Hid Hlive Ht) in Hr. cbn [mbind outcome_bind] in Hr.
  unfold step_to in Hr. destruct (decide (dot t)).
  - rewrite decide_False in Hr by lia. by apply IH.
  - rewrite (decide_False (P := dotdot t)), Hempty in Hr by done. simpl in Hr. injection Hr as <-. by right.
Qed.

Lemma removed_follow ts : forall cur r,
  live_at fs cur -> cur <> Z.of_nat id -> Forall plain_token ts -> no_dotdot ts ->
  follow fs cur ts = Val r -> 0 <= r ->
  follow fs' cur ts = Val (if decide (r = Z.of_nat id) then - ENOENT else r).
Proof.
  pose proof (cleared_wf fs kids id p n pn Hwf Hid Hparent Hp Hplive Hempty nodes1 l Hun Hid0) as Hwf'.
  induction ts as [|t ts IH]; intros cur r Hcur Hne Hts Hdd Hr H0.
  { simpl in *. injection Hr as <-. by rewrite decide_False. }
  pose proof Hts as Hts0. pose proof Hdd as Hdd0.
  apply Forall_cons in Hts as [[Ht Hs] Hts]. apply Forall_cons in Hdd as [Hd Hdd].
  destruct (step_path_live fs kids cur t Hwf Hcur Ht) as (r1 & Hs1 & Hr1).
  destruct Hcur as (d & dn & -> & Hdn & Hdl). assert (d <> id) as Hdid by lia.
  destruct (cleared_lookup fs kids id p nodes1 l Hun d dn Hdn Hdid) as (dn' & Hdn' & Hsame & _).
  assert (live dn') as Hdl' by (by eapply same_live).
  cbn [follow] in Hr |- *. rewrite Hs1 in Hr. cbn [mbind outcome_bind] in Hr.
  rewrite (step_path_spec fs kids d dn t Hwf Hdn Hdl Ht) in Hs1. injection Hs1 as Hs1.
  rewrite (step_path_spec fs' _ d dn' t Hwf' Hdn' Hdl' Ht). cbn [mbind outcome_bind].
  assert (r1 < 0 \/ 0 <= r1) as [?|Hr10] by lia; [rewrite decide_True in Hr by done; injection Hr as <-; lia|].
  rewrite decide_False in Hr by lia.
  destruct Hr1 as [->|Hr1]; [unfold ENOENT in Hr10; lia|].
  unfold step_to in Hs1 |- *. destruct (decide (dot t)) as [Hdot|Hdot].
  - subst r1. rewrite decide_False by lia. by apply IH.
  - rewrite (decide_False (P := dotdot t)) in Hs1 |- * by done. change (g_nodes fs') with (<[id:=zero_node]> nodes1).
    destruct (decide (r1 = Z.of_nat id)) as [->|Hne1].
    + destruct (follow_from_empty ts r Hts Hdd Hr) as [-> | ->]; [|unfold ENOENT in H0; lia].
      rewrite (decide_True (P := Z.of_nat id = Z.of_nat id)) by done.
      rewrite (cleared_find_gone fs kids id p n Hwf Hid Hparent nodes1 l Hun Hid0 d dn t) by done.
      by case_decide.
    + rewrite (cleared_find fs kids id p n Hwf Hid Hparent nodes1 l Hun Hid0 d dn t) by (done || congruence).
      rewrite Hs1. rewrite decide_False by lia. by apply IH.
Qed.

Lemma removed_resolve q r :
  no_nul q -> no_dotdot (tokens q) -> resolve_path (Some q) fs = Val r -> 0 <= r ->
  resolve_path (Some q) fs' = Val (if decide (r = Z.of_nat id) then - ENOENT else r).
Proof.
  intros Hq Hdd Hr H0. destruct (decide (head q = Some slash)) as [Hh|Hh].
  - rewrite resolve_follow in Hr |- * by done.
    apply removed_follow; eauto using tokens_plain, root_live. lia.
  - unfold resolve_path in Hr. rewrite decide_True in Hr by done. injection Hr as <-. unfold EINVAL in H0. lia.
Qed.

End RemovedFollow.

(** ** [tmpfs_remove_path] *)

(** Why a removal fails. *)
Inductive removal_refused (fs : tmpfs) (kids : nat -> list nat) (path : list Z) (want_dir : bool) : Z -> Prop :=
| refuse_unnamed r : resolve_path (Some path) fs = Val r -> r <= 0 ->
    removal_refused fs kids path want_dir (- EINVAL)
| refuse_not_dir id n : resolve_path (Some path) fs = Val (Z.of_nat id) -> id <> 0%nat ->
    g_nodes fs !! id = Some n -> live n -> want_dir = true -> n_type n <> VFS_NODE_DIR ->
    removal_refused fs kids path want_dir (- ENOTDIR)
| refuse_dir id n : resolve_path (Some path) fs = Val (Z.of_nat id) -> id <> 0%nat ->
    g_nodes fs !! id = Some n -> live n -> want_dir = false -> n_type n = VFS_NODE_DIR ->
    removal_refused fs kids path want_dir (- EISDIR)
| refuse_children id n : resolve_path (Some path) fs = Val (Z.of_nat id) -> id <> 0%nat ->
    g_nodes fs !! id = Some n -> live n -> want_dir = true -> n_type n = VFS_NODE_DIR -> kids id <> [] ->
    removal_refused fs kids path want_dir (- ENOTEMPTY).

Inductive removed (fs : tmpfs) (kids : nat -> list nat) (path : list Z) (want_dir : bool)
  : Z * tmpfs -> Prop :=
| removed_error e : e < 0 -> removal_refused fs kids path want_dir e ->
    removed fs kids path want_dir (e, fs)
| removed_node id p n pn nodes1 l :
    resolve_path (Some path) fs = Val (Z.of_nat id) -> id <> 0%nat ->
    g_nodes fs !! id = Some n -> live n -> (n_type n = VFS_NODE_DIR <-> want_dir = true) ->
    parent_id n = Z.of_nat p -> g_nodes fs !! p = Some pn -> live pn -> id ∈ kids p -> kids id = [] ->
    unlinked fs kids id p nodes1 l ->
    removed fs kids path want_dir (0, with_nodes (<[id := zero_node]> nodes1) fs).

Lemma remove_path_spec fs kids path want_dir :
  tree_wf (g_nodes fs) kids -> no_nul path ->
  exists r, tmpfs_remove_path (Some path) want_dir fs = Val r /\ removed fs kids path want_dir r.
Proof.
  intros Hwf Hn. unfold tmpfs_remove_path.
  destruct (resolve_live fs kids path Hwf Hn) as (r & Hr & Hrl). rewrite Hr. cbn [mbind outcome_bind].
  destruct (decide (r <= 0)); [eexists; split; [done|]; apply removed_error;
    [unfold EINVAL; lia|by eapply refuse_unnamed]|].
  destruct Hrl as [?|(id & m & -> & Hid & Hl)]; [lia|].
  assert (id <> 0%nat) as Hid0 by lia.
  rewrite aget_nat, Hid. cbn [of_option mbind outcome_bind].
  destruct (want_dir && _) eqn:Hb1.
  { apply andb_true_iff in Hb1 as [Hw Ht]. apply bool_decide_eq_true in Ht. eexists. split; [done|].
    apply removed_error; [unfold ENOTDIR; lia|by eapply refuse_not_dir]. }
  destruct (negb want_dir && _) eqn:Hb2.
  { apply andb_true_iff in Hb2 as [Hw Ht]. apply bool_decide_eq_true in Ht. apply negb_true_iff in Hw.
    eexists. split; [done|]. apply removed_error; [unfold EISDIR; lia|by eapply refuse_dir]. }
  destruct (decide (n_type m = VFS_NODE_DIR /\ first_child_id m >= 0)) as [[Ht Hf]|He].
  { eexists. split; [done|]. apply removed_error; [unfold ENOTEMPTY; lia|].
    eapply refuse_children; try done.
    - destruct want_dir; [done|]. by rewrite Ht, bool_decide_eq_true_2 in Hb2.
    - intros Hk. pose proof (tw_chain _ _ Hwf id m Hid Hl) as Hc. rewrite Hk in Hc. simpl in Hc. lia. }
  destruct (tw_parent _ _ Hwf id m Hid Hl Hid0) as (p & pn & Hpar & Hp & Hpl & Hk).
  assert (kids id = []) as Hempty.
  { destruct (kids id) as [|k ks] eqn:Hks; [done|]. exfalso. apply He.
    destruct (tw_kid _ _ Hwf id m k Hid Hl) as (Ht & _); [rewrite Hks; by left|]. split; [done|].
    pose proof (tw_chain _ _ Hwf id m Hid Hl) as Hc. rewrite Hks in Hc. destruct Hc as [-> _]. lia. }
  destruct (unlink_node_spec fs kids id p m pn Hwf Hid Hpar Hp Hpl Hk) as (nodes1 & l & -> & Hun).
  cbn [mbind outcome_bind]. pose proof Hun as (_ & Hrel & _).
  destruct (Hrel id m Hid) as (m' & Hm' & _).
  rewrite (upd_node_Val id _ _ m') by done. cbn [mbind outcome_bind].
  eexists. split; [done|]. apply (removed_node fs kids path want_dir id p m pn nodes1 l); try done.
  destruct want_dir; simpl in *; [apply bool_decide_eq_false in Hb1|apply bool_decide_eq_false in Hb2]; split; try done.
  by destruct (decide (n_type m = VFS_NODE_DIR)).
Qed.
