(* ===== verification/TmpfsData.v ===== *)
(** File contents of [tmpfs.c]: the invariant of the data arena, that reading and
    writing act on files as on independent byte sequences, and where they do
    not. *)

From Stdlib Require Import ZArith Lia Ascii.
From stdpp Require Import base gmap list strings.
From S2P Require Import Prelude KString Tmpfs TmpfsPath TmpfsTree.
Open Scope Z_scope.

(** The storage of a node: [capacity] bytes below the allocation mark, of which
    the first [size] are the contents. *)
Definition extent_ok (mark : Z) (n : vfs_node) : Prop :=
  match n_data n with
  | None => n_size n = 0 /\ n_capacity n = 0
  | Some p => 0 <= p /\ 0 <= n_size n <= n_capacity n /\ p + n_capacity n <= mark
  end.

Definition disjoint_extents (n m : vfs_node) : Prop :=
  match n_data n, n_data m with
  | Some p, Some q => p + n_capacity n <= q \/ q + n_capacity m <= p
  | _, _ => True
  end.

(** The slack of a file is zero. *)
Definition slack_zero (a : gmap Z Z) (n : vfs_node) : Prop :=
  match n_data n with
  | None => True
  | Some p => forall x, p + n_size n <= x < p + n_capacity n -> arena_get a x = 0
  end.

Record data_wf (fs : tmpfs) : Prop := {
  dw_mark : 0 <= g_data_offset fs <= TMPFS_DATA_ARENA_SIZE;
  dw_extent i n : g_nodes fs !! i = Some n -> live n -> extent_ok (g_data_offset fs) n;
  dw_disjoint i j n m : g_nodes fs !! i = Some n -> g_nodes fs !! j = Some m ->
    live n -> live m -> i <> j -> disjoint_extents n m;
  dw_slack i n : g_nodes fs !! i = Some n -> live n -> slack_zero (g_data_arena fs) n;
  dw_fresh x : g_data_offset fs <= x -> arena_get (g_data_arena fs) x = 0;
}.

(** The bytes of a file. *)
Definition contents (a : gmap Z Z) (n : vfs_node) : list Z :=
  match n_data n with
  | None => []
  | Some p => arena_get a <$> seqZ p (n_size n)
  end.

(** What a write at an offset means: the gap is filled with zeros, the file
    grows when needed. *)
Definition pwrite (old : list Z) (offset : nat) (bs : list Z) : list Z :=
  splice (old ++ replicate (offset + length bs - length old) 0) offset bs.

(** * The arena *)

Lemma arena_get_insert a p b x : arena_get (<[p := b]> a) x = if decide (x = p) then b else arena_get a x.
Proof.
  unfold arena_get. case_decide as Hx; [subst; by rewrite lookup_insert_eq|by rewrite lookup_insert_ne].
Qed.

Lemma arena_store_get bs : forall a p x,
  arena_get (arena_store a p bs) x =
    if decide (p <= x < p + Z.of_nat (length bs)) then nth (Z.to_nat (x - p)) bs 0 else arena_get a x.
Proof.
  induction bs as [|b bs IH]; intros a p x; cbn [arena_store length].
  - rewrite decide_False by lia. done.
  - rewrite IH. destruct (decide (p + 1 <= x < p + 1 + Z.of_nat (length bs))).
    + rewrite decide_True by lia. replace (Z.to_nat (x - p)) with (S (Z.to_nat (x - (p + 1)))) by lia. done.
    + rewrite arena_get_insert. case_decide.
      * rewrite decide_True by lia. subst. by rewrite Z.sub_diag.
      * by rewrite decide_False by lia.
Qed.

Lemma arena_copy_up_get n : forall a dst src x, src + Z.of_nat n <= dst ->
  arena_get (arena_copy_up n a dst src) x =
    if decide (dst <= x < dst + Z.of_nat n) then arena_get a (src + (x - dst)) else arena_get a x.
Proof.
  induction n as [|n IH]; intros a dst src x Hd; cbn [arena_copy_up].
  - by rewrite decide_False by lia.
  - rewrite IH by lia. rewrite !arena_get_insert.
    destruct (decide (dst + 1 <= x < dst + 1 + Z.of_nat n)).
    + rewrite decide_False by lia. rewrite decide_True by lia. f_equal. lia.
    + case_decide.
      * rewrite decide_True by lia. subst. f_equal. lia.
      * by rewrite decide_False by lia.
Qed.

Lemma contents_lookup a n p i :
  n_data n = Some p ->
  contents a n !! i = if decide (Z.of_nat i < n_size n) then Some (arena_get a (p + Z.of_nat i)) else None.
Proof.
  intros Hp. unfold contents. rewrite Hp, list_lookup_fmap. case_decide.
  - rewrite lookup_seqZ_lt by lia. done.
  - by rewrite lookup_seqZ_ge by lia.
Qed.

Lemma contents_length mark a n : extent_ok mark n -> length (contents a n) = Z.to_nat (n_size n).
Proof.
  unfold extent_ok, contents. destruct (n_data n); [|simpl; lia]. intros _.
  by rewrite length_fmap, length_seqZ.
Qed.

Lemma contents_ext a a' n n' :
  n_data n' = n_data n -> n_size n' = n_size n ->
  (forall p x, n_data n = Some p -> p <= x < p + n_size n -> arena_get a' x = arena_get a x) ->
  contents a' n' = contents a n.
Proof.
  intros Hd Hs Hx. unfold contents. rewrite Hd, Hs. destruct (n_data n) as [p|]; [|done].
  apply list_fmap_ext. intros i x Hi. apply lookup_seqZ in Hi as [-> Hi]. apply (Hx p); [done|]. lia.
Qed.

Lemma pwrite_lookup old off bs i :
  pwrite old off bs !! i =
    if decide (off <= i < off + length bs)%nat then bs !! (i - off)%nat
    else if decide (i < length old)%nat then old !! i
    else if decide (i < off + length bs)%nat then Some 0 else None.
Proof.
  unfold pwrite. rewrite splice_lookup by (rewrite length_app, length_replicate; lia).
  case_decide; [done|]. case_decide.
  - by rewrite lookup_app_l.
  - rewrite lookup_app_r by lia. case_decide.
    + rewrite lookup_replicate_2; [done|]. lia.
    + apply lookup_ge_None. rewrite length_replicate. lia.
Qed.

Lemma nth_lookup_Some' (l : list Z) i : (i < length l)%nat -> l !! i = Some (nth i l 0).
Proof. intros Hi. destruct (lookup_lt_is_Some_2 l i Hi) as [x Hx]. by rewrite (nth_lookup_Some _ _ _ _ Hx). Qed.

(** * Growing *)

Lemma round_256 e : 0 <= e <= 2 ^ 32 - 256 ->
  Z.land (u64 (e + 255)) (u32_not 255) = (e + 255) / 256 * 256.
Proof.
  intros He. change 255 with (2 ^ 8 - 1) at 2. rewrite u32_align_mask by lia.
  rewrite u64_small by (unfold in_u64; lia). rewrite Z.mod_small by lia. done.
Qed.

Lemma round_16 c : 0 <= c < 2 ^ 32 - 16 -> c mod 16 = 0 -> Z.land (u64 (c + 15)) (u32_not 15) = c.
Proof.
  intros Hc Hm. change 15 with (2 ^ 4 - 1) at 2. rewrite u32_align_mask by lia.
  rewrite u64_small by (unfold in_u64; lia). rewrite Z.mod_small by lia.
  change (2 ^ 4) with 16. Z.div_mod_to_equations. lia.
Qed.

(** Files other than [id] are what they were. *)
Definition others_kept (id : nat) (fs fs' : tmpfs) : Prop :=
  forall j m, j <> id -> g_nodes fs !! j = Some m ->
    g_nodes fs' !! j = Some m /\ (live m -> contents (g_data_arena fs') m = contents (g_data_arena fs) m).

Lemma alloc_storage_spec cap fs :
  data_wf fs -> 0 < cap < 2 ^ 32 - 16 -> cap mod 16 = 0 ->
  alloc_storage cap fs =
    if decide (g_data_offset fs + cap > TMPFS_DATA_ARENA_SIZE) then (None, fs)
    else (Some (g_data_offset fs), Tmpfs (g_nodes fs) (g_data_arena fs) (g_data_offset fs + cap)).
Proof.
  intros Hwf Hc Hm. unfold alloc_storage. rewrite round_16 by (done || lia).
  pose proof (dw_mark _ Hwf). unfold TMPFS_DATA_ARENA_SIZE in *.
  rewrite u64_small by (unfold in_u64; lia). by case_decide.
Qed.

(** One node replaced, its identity kept: the tree is the same. *)
Definition relocated (n n1 : vfs_node) : Prop :=
  n1 = set_storage (n_data n1) (n_capacity n1) n.

Lemma size_le_capacity fs id n : data_wf fs -> g_nodes fs !! id = Some n -> live n ->
  0 <= n_size n <= n_capacity n.
Proof.
  intros Hwf Hid Hlive. pose proof (dw_extent _ Hwf id n Hid Hlive) as He. unfold extent_ok in He.
  destruct (n_data n); lia.
Qed.

Section Move.
Context (fs : tmpfs) (id : nat) (n : vfs_node) (cap : Z) (a1 : gmap Z Z).
Context (Hwf : data_wf fs) (Hid : g_nodes fs !! id = Some n) (Hlive : live n).
Context (Hcap : n_capacity n < cap) (Hroom : g_data_offset fs + cap <= TMPFS_DATA_ARENA_SIZE).
Context (Ha1 : forall x, arena_get a1 x =
  match n_data n with
  | Some p => if decide (g_data_offset fs <= x < g_data_offset fs + n_size n)
              then arena_get (g_data_arena fs) (p + (x - g_data_offset fs))
              else arena_get (g_data_arena fs) x
  | None => arena_get (g_data_arena fs) x
  end).

#[local] Notation n1 := (set_storage (Some (g_data_offset fs)) cap n).
#[local] Notation fs1 := (Tmpfs (<[id := n1]> (g_nodes fs)) a1 (g_data_offset fs + cap)).

Lemma move_below x : x < g_data_offset fs -> arena_get a1 x = arena_get (g_data_arena fs) x.
Proof. intros Hx. rewrite Ha1. destruct (n_data n); [|done]. by rewrite decide_False by lia. Qed.

Lemma move_contents : contents a1 n1 = contents (g_data_arena fs) n.
Proof.
  pose proof (dw_extent _ Hwf id n Hid Hlive) as He. unfold extent_ok in He.
  unfold contents. simpl. destruct (n_data n) as [p|] eqn:Hd.
  - apply list_eq. intros i. rewrite !list_lookup_fmap.
    destruct (decide (Z.of_nat i < n_size n)).
    + rewrite !lookup_seqZ_lt by lia. simpl. f_equal. rewrite Ha1.
      rewrite decide_True by lia. f_equal. lia.
    + by rewrite !lookup_seqZ_ge by lia.
  - replace (n_size n) with 0 by lia. done.
Qed.

Lemma move_others : others_kept id fs fs1.
Proof.
  intros j m Hj Hm. simpl. rewrite list_lookup_insert_ne by done. split; [done|]. intros Hl.
  apply contents_ext; [done|done|]. intros p x Hp Hx. apply move_below.
  pose proof (dw_extent _ Hwf j m Hm Hl) as He. unfold extent_ok in He. rewrite Hp in He. lia.
Qed.

Lemma move_wf : data_wf fs1.
Proof.
  pose proof (size_le_capacity fs id n Hwf Hid Hlive) as Hsz. pose proof (dw_mark _ Hwf) as Hm.
  assert (forall i m, <[id := n1]> (g_nodes fs) !! i = Some m -> live m ->
            (i = id /\ m = n1) \/ (i <> id /\ g_nodes fs !! i = Some m)) as Hcases.
  { intros i m Hi Hl. apply list_lookup_insert_Some in Hi as [(<- & <- & _)|[? Hi]]; [by left|by right]. }
  assert (forall i m p, g_nodes fs !! i = Some m -> live m -> n_data m = Some p ->
            0 <= p /\ 0 <= n_size m <= n_capacity m /\ p + n_capacity m <= g_data_offset fs) as Hext.
  { intros i m p Hi Hl Hp. pose proof (dw_extent _ Hwf i m Hi Hl) as He. unfold extent_ok in He.
    by rewrite Hp in He. }
  split; cbn [g_data_offset g_nodes g_data_arena].
  - lia.
  - intros i m Hi Hl. destruct (Hcases i m Hi Hl) as [[-> ->]|[_ Hi']].
    + unfold extent_ok. simpl. lia.
    + pose proof (dw_extent _ Hwf i m Hi' Hl) as He. unfold extent_ok in *. destruct (n_data m); lia.
  - intros i j m1 m2 Hi Hj Hl1 Hl2 Hne. unfold disjoint_extents.
    destruct (Hcases i m1 Hi Hl1) as [[-> ->]|[Hi1 Hi']]; destruct (Hcases j m2 Hj Hl2) as [[-> ->]|[Hj1 Hj']]; simpl.
    + done.
    + destruct (n_data m2) as [q|] eqn:Hq; [|done]. destruct (Hext j m2 q Hj' Hl2 Hq). lia.
    + destruct (n_data m1) as [q|] eqn:Hq; [|done]. destruct (Hext i m1 q Hi' Hl1 Hq). lia.
    + by apply (dw_disjoint _ Hwf i j).
  - intros i m Hi Hl. destruct (Hcases i m Hi Hl) as [[-> ->]|[_ Hi']]; unfold slack_zero; simpl.
    + intros x Hx. rewrite Ha1. destruct (n_data n) as [p|]; [rewrite decide_False by lia|];
        apply (dw_fresh _ Hwf); lia.
    + pose proof (dw_slack _ Hwf i m Hi' Hl) as Hs. unfold slack_zero in Hs.
      destruct (n_data m) as [q|] eqn:Hq; [|done]. intros x Hx.
      destruct (Hext i m q Hi' Hl Hq). rewrite move_below by lia. by apply Hs.
  - intros x Hx. rewrite Ha1. destruct (n_data n); [rewrite decide_False by lia|]; apply (dw_fresh _ Hwf); lia.
Qed.

End Move.

(** The capacity of a file that must hold [e] bytes, and what it takes from the arena. *)
Definition room (capacity e : Z) : Z := if decide (e > capacity) then (e + 255) / 256 * 256 else capacity.
Definition taken (capacity e : Z) : Z := if decide (e > capacity) then (e + 255) / 256 * 256 else 0.

Lemma grow_spec fs id n e :
  data_wf fs -> g_nodes fs !! id = Some n -> live n -> 0 <= e <= 2 ^ 32 - 256 ->
  (grow (Z.of_nat id) n e fs = Val None
   /\ n_capacity n < e /\ g_data_offset fs + (e + 255) / 256 * 256 > TMPFS_DATA_ARENA_SIZE)
  \/ exists fs1 n1, grow (Z.of_nat id) n e fs = Val (Some fs1) /\ data_wf fs1
     /\ relocated n n1 /\ e <= n_capacity n1
     /\ g_nodes fs1 = <[id := n1]> (g_nodes fs)
     /\ contents (g_data_arena fs1) n1 = contents (g_data_arena fs) n
     /\ others_kept id fs fs1
     /\ n_capacity n1 = room (n_capacity n) e
     /\ g_data_offset fs1 = g_data_offset fs + taken (n_capacity n) e.
Proof.
  intros Hwf Hid Hl He. unfold grow, room, taken. pose proof (size_le_capacity fs id n Hwf Hid Hl) as Hsz.
  destruct (decide (e > n_capacity n)) as [Hgt|Hle].
  2: { right. exists fs, n. split; [done|]. split; [done|]. split; [by destruct n|].
       split; [lia|]. split; [by rewrite list_insert_id|]. split; [done|].
       split; [by intros j m _ Hm|]. split; [done|lia]. }
  rewrite round_256 by done. set (cap := (e + 255) / 256 * 256).
  assert (e <= cap < e + 256) as Hcap by (subst cap; Z.div_mod_to_equations; lia).
  assert (cap mod 16 = 0) as Hcm by (subst cap; Z.div_mod_to_equations; lia).
  assert (cap <= 2 ^ 32 - 256) as Hc32 by (subst cap; Z.div_mod_to_equations; lia).
  rewrite alloc_storage_spec by (done || lia).
  case_decide as Hroom; [left; split; [done|]; split; lia|]. right.
  pose proof (dw_extent _ Hwf id n Hid Hl) as Hext. unfold extent_ok in Hext.
  pose proof (dw_mark _ Hwf) as Hmark.
  destruct (n_data n) as [p|] eqn:Hd.
  - assert (exists a1, arena_copy (g_data_arena fs) (g_data_offset fs) p (n_size n) = Val a1
      /\ forall x, arena_get a1 x = if decide (g_data_offset fs <= x < g_data_offset fs + n_size n)
              then arena_get (g_data_arena fs) (p + (x - g_data_offset fs))
              else arena_get (g_data_arena fs) x) as (a1 & Hcp & Ha1).
    { unfold arena_copy. destruct (decide (n_size n = 0)) as [Hz|Hz].
      - eexists. split; [done|]. intros x. by rewrite decide_False by lia.
      - rewrite decide_True by (unfold in_arena; lia). eexists. split; [done|]. intros x.
        rewrite arena_copy_up_get by lia. by rewrite Z2Nat.id by lia. }
    cbn [g_data_arena]. rewrite Hcp. cbn [mbind outcome_bind].
    rewrite (upd_node_Val id _ _ n) by done. cbn [mbind outcome_bind].
    eexists _, _. split; [done|]. split; [|split; [|split; [|split; [done|split; [|split]]]]]; [|done|simpl; lia|..]; [..|done].
    + apply (move_wf fs id n cap a1); try done; try lia. by rewrite Hd.
    + apply (move_contents fs id n cap a1); try done. by rewrite Hd.
    + apply (move_others fs id n cap a1); try done. by rewrite Hd.
  - cbn [mbind outcome_bind]. rewrite (upd_node_Val id _ _ n) by done. cbn [mbind outcome_bind].
    eexists _, _. split; [done|]. split; [|split; [|split; [|split; [done|split; [|split]]]]]; [|done|simpl; lia|..]; [..|done].
    + apply (move_wf fs id n cap); try done; try lia. by rewrite Hd.
    + apply (move_contents fs id n cap); try done. by rewrite Hd.
    + apply (move_others fs id n cap); try done. by rewrite Hd.
Qed.

(** * Storing *)

Section Store.
Context (fs : tmpfs) (id : nat) (n : vfs_node) (offset : Z) (bs : list Z).
Context (Hwf : data_wf fs) (Hid : g_nodes fs !! id = Some n) (Hlive : live n).
Context (Hoff : 0 <= offset) (Hfit : offset + Z.of_nat (length bs) <= n_capacity n).

#[local] Notation last := (offset + Z.of_nat (length bs)).
#[local] Notation size2 := (Z.max (n_size n) last).

Lemma store_data : bs <> [] -> exists p, n_data n = Some p /\ 0 <= p
  /\ 0 <= n_size n <= n_capacity n /\ p + n_capacity n <= g_data_offset fs
  /\ g_data_offset fs <= TMPFS_DATA_ARENA_SIZE.
Proof.
  intros Hbs. pose proof (dw_extent _ Hwf id n Hid Hlive) as He. unfold extent_ok in He.
  pose proof (dw_mark _ Hwf). destruct (n_data n) as [p|]; [exists p; naive_solver lia|].
  destruct bs; [done|]. simpl in Hfit. lia.
Qed.

Lemma store_write : exists a2, arena_write (g_data_arena fs) (n_data n) offset bs = Val a2
  /\ forall x, arena_get a2 x = match n_data n with
       | Some p => if decide (p + offset <= x < p + last) then nth (Z.to_nat (x - (p + offset))) bs 0
                   else arena_get (g_data_arena fs) x
       | None => arena_get (g_data_arena fs) x
       end.
Proof.
  unfold arena_write. destruct (decide (bs = [])) as [Hb|Hb].
  - eexists. split; [done|]. intros x. destruct (n_data n); [|done]. rewrite Hb. simpl.
    by rewrite decide_False by lia.
  - destruct (store_data Hb) as (p & -> & Hp & Hs & Hm & Ha). unfold TMPFS_DATA_ARENA_SIZE in Ha.
    rewrite u64_small by (unfold in_u64; lia).
    rewrite decide_True by (unfold in_arena, TMPFS_DATA_ARENA_SIZE; lia).
    eexists. split; [done|]. intros x. rewrite arena_store_get.
    by replace (p + offset + Z.of_nat (length bs)) with (p + last) by lia.
Qed.

Lemma store_none : n_data n = None -> bs = [] /\ offset = 0 /\ n_size n = 0.
Proof.
  intros Hd. pose proof (dw_extent _ Hwf id n Hid Hlive) as He. unfold extent_ok in He. rewrite Hd in He.
  destruct bs; simpl in Hfit; [split; [done|lia]|lia].
Qed.

Context (a2 : gmap Z Z).
Context (Ha2 : forall x, arena_get a2 x = match n_data n with
       | Some p => if decide (p + offset <= x < p + last) then nth (Z.to_nat (x - (p + offset))) bs 0
                   else arena_get (g_data_arena fs) x
       | None => arena_get (g_data_arena fs) x
       end).

#[local] Notation n2 := (set_size size2 n).
#[local] Notation fs2 := (Tmpfs (<[id := n2]> (g_nodes fs)) a2 (g_data_offset fs)).

Lemma store_contents : contents a2 n2 = pwrite (contents (g_data_arena fs) n) (Z.to_nat offset) bs.
Proof.
  pose proof (dw_extent _ Hwf id n Hid Hlive) as He. unfold extent_ok in He.
  pose proof (dw_slack _ Hwf id n Hid Hlive) as Hsl. unfold slack_zero in Hsl.
  destruct (n_data n) as [p|] eqn:Hp.
  - apply list_eq. intros i. rewrite (contents_lookup a2 n2 p) by done. simpl.
    rewrite pwrite_lookup, (contents_lookup _ n p) by done.
    rewrite (contents_length (g_data_offset fs)) by (unfold extent_ok; by rewrite Hp).
    rewrite Ha2.
    destruct (decide (Z.to_nat offset <= i < Z.to_nat offset + length bs)%nat) as [Hin|Hin].
    + rewrite decide_True by lia. rewrite decide_True by lia.
      replace (Z.to_nat (p + Z.of_nat i - (p + offset))) with (i - Z.to_nat offset)%nat by lia.
      symmetry. apply nth_lookup_Some'. lia.
    + rewrite (decide_False (P := _ <= _ < _)) by lia.
      destruct (decide (i < Z.to_nat (n_size n))%nat); [by rewrite !decide_True by lia|].
      destruct (decide (i < Z.to_nat offset + length bs)%nat).
      * rewrite decide_True by lia. f_equal. apply Hsl. lia.
      * by rewrite decide_False by lia.
  - destruct (store_none Hp) as (-> & -> & _). unfold contents. simpl. by rewrite Hp.
Qed.

Lemma store_others : others_kept id fs fs2.
Proof.
  intros j m Hj Hm. simpl. rewrite list_lookup_insert_ne by done. split; [done|]. intros Hl.
  apply contents_ext; [done|done|]. intros q x Hq Hx.
  pose proof (dw_disjoint _ Hwf id j n m Hid Hm Hlive Hl ltac:(done)) as Hdis. unfold disjoint_extents in Hdis.
  pose proof (size_le_capacity fs j m Hwf Hm Hl). rewrite Hq in Hdis.
  destruct (n_data n) as [p|] eqn:Hp; [|by rewrite Ha2].
  rewrite Ha2. by rewrite decide_False by lia.
Qed.

Lemma store_wf : data_wf fs2.
Proof.
  pose proof (size_le_capacity fs id n Hwf Hid Hlive) as Hsz.
  assert (forall i m, <[id := n2]> (g_nodes fs) !! i = Some m ->
            (i = id /\ m = n2) \/ (i <> id /\ g_nodes fs !! i = Some m)) as Hcases.
  { intros i m Hi. apply list_lookup_insert_Some in Hi as [(<- & <- & _)|[? Hi]]; [by left|by right]. }
  assert (live n2) as Hl2 by done.
  split; cbn [g_data_offset g_nodes g_data_arena].
  - apply (dw_mark _ Hwf).
  - intros i m Hi Hl. destruct (Hcases i m Hi) as [[-> ->]|[_ Hi']]; [|by eapply dw_extent].
    pose proof (dw_extent _ Hwf id n Hid Hlive) as He. unfold extent_ok in *. simpl.
    destruct (n_data n); lia.
  - intros i j m1 m2 Hi Hj Hl1 Hl2' Hne.
    destruct (Hcases i m1 Hi) as [[-> ->]|[_ Hi']]; destruct (Hcases j m2 Hj) as [[-> ->]|[_ Hj']]; [done|..].
    + exact (dw_disjoint _ Hwf id j n m2 Hid Hj' Hlive Hl2' Hne).
    + exact (dw_disjoint _ Hwf i id m1 n Hi' Hid Hl1 Hlive Hne).
    + by apply (dw_disjoint _ Hwf i j).
  - intros i m Hi Hl. destruct (Hcases i m Hi) as [[-> ->]|[Hne Hi']]; unfold slack_zero.
    + pose proof (dw_slack _ Hwf id n Hid Hlive) as Hs. unfold slack_zero in Hs. simpl.
      destruct (n_data n) as [p|] eqn:Hp; [|done]. intros x Hx. rewrite Ha2, decide_False by lia. apply Hs. lia.
    + pose proof (dw_slack _ Hwf i m Hi' Hl) as Hs. unfold slack_zero in Hs.
      destruct (n_data m) as [q|] eqn:Hq; [|done]. intros x Hx.
      pose proof (dw_disjoint _ Hwf id i n m Hid Hi' Hlive Hl ltac:(done)) as Hdis.
      unfold disjoint_extents in Hdis. rewrite Hq in Hdis.
      pose proof (size_le_capacity fs i m Hwf Hi' Hl).
      rewrite Ha2. destruct (n_data n); [rewrite decide_False by lia|]; by apply Hs.
  - intros x Hx. pose proof (dw_extent _ Hwf id n Hid Hlive) as He. unfold extent_ok in He.
    rewrite Ha2. destruct (n_data n); [rewrite decide_False by lia|]; by apply (dw_fresh _ Hwf).
Qed.

End Store.

(** * The file system as a whole *)

(** Two nodes that look alike to the tree. *)
Definition same_links (n n' : vfs_node) : Prop :=
  parent_id n' = parent_id n /\ first_child_id n' = first_child_id n
  /\ next_sibling_id n' = next_sibling_id n /\ n_type n' = n_type n /\ n_name n' = n_name n.

Lemma replace_same_links nodes kids id n n' :
  tree_wf nodes kids -> nodes !! id = Some n -> same_links n n' -> tree_wf (<[id := n']> nodes) kids.
Proof.
  intros Hwf Hid Hs.
  assert (forall i m', <[id := n']> nodes !! i = Some m' ->
            exists m, nodes !! i = Some m /\ same_links m m') as Hback.
  { intros i m' Hi. apply list_lookup_insert_Some in Hi as [(<- & <- & _)|[_ Hi]]; [by exists n|].
    exists m'. by split. }
  assert (forall i m, nodes !! i = Some m ->
            exists m', <[id := n']> nodes !! i = Some m' /\ same_links m m') as Hfwd.
  { intros i m Hi. destruct (decide (i = id)) as [->|Hne].
    - assert (m = n) as -> by congruence. exists n'. split; [|done].
      apply list_lookup_insert_eq. by eapply lookup_lt_Some.
    - exists m. rewrite list_lookup_insert_ne by done. by split. }
  assert (forall m m', same_links m m' -> live m' <-> live m) as Hlive.
  { intros m m' (_ & _ & _ & Ht & _). unfold live. by rewrite Ht. }
  assert (forall i, name_of (<[id := n']> nodes) i = name_of nodes i) as Hname.
  { intros i. unfold name_of. destruct (nodes !! i) as [m|] eqn:Hm.
    - destruct (Hfwd i m Hm) as (m' & -> & (_ & _ & _ & _ & ->)). done.
    - destruct (<[id := n']> nodes !! i) as [m'|] eqn:Hm'; [|done].
      destruct (Hback i m' Hm') as (m & ? & _). congruence. }
  split.
  - rewrite length_insert. apply (tw_length _ _ Hwf).
  - pose proof (tw_names _ _ Hwf) as Hn. apply Forall_insert; [done|].
    destruct Hs as (_ & _ & _ & _ & ->). by eapply Forall_lookup_1 in Hn.
  - destruct (tw_root _ _ Hwf) as (r & Hr & Ht & Hp). destruct (Hfwd 0%nat r Hr) as (r' & ? & Hs').
    exists r'. destruct Hs' as (? & _ & _ & ? & _). split_and!; congruence.
  - intros d m' Hd Hl. destruct (Hback d m' Hd) as (m & Hm & Hsm).
    pose proof Hsm as (_ & -> & _). apply Hlive in Hsm. apply Hsm in Hl.
    eapply chain_ext; [by eapply tw_chain|]. intros i q _ Hq.
    destruct (Hfwd i q Hq) as (q' & ? & (_ & _ & ? & _)). by exists q'.
  - apply (tw_nodup _ _ Hwf).
  - intros d m' c Hd Hl Hc. destruct (Hback d m' Hd) as (m & Hm & Hsm). apply (Hlive _ _ Hsm) in Hl.
    destruct (tw_kid _ _ Hwf d m c Hm Hl Hc) as (Ht & Hc0 & k & Hk & Hkl & Hkp).
    split; [by destruct Hsm as (_ & _ & _ & -> & _)|]. split; [done|].
    destruct (Hfwd c k Hk) as (k' & Hk' & Hsk). exists k'. split; [done|].
    split; [by apply (Hlive _ _ Hsk)|]. by destruct Hsk as (-> & _).
  - intros c k' Hc Hl Hc0. destruct (Hback c k' Hc) as (k & Hk & Hsk). apply (Hlive _ _ Hsk) in Hl.
    destruct (tw_parent _ _ Hwf c k Hk Hl Hc0) as (d & m & Hp & Hd & Hdl & Hin).
    destruct (Hfwd d m Hd) as (m' & Hm' & Hsm). exists d, m'.
    split; [by destruct Hsk as (-> & _)|]. split; [done|]. split; [by apply (Hlive _ _ Hsm)|done].
  - intros d m' c1 c2 Hd Hl H1 H2. rewrite !Hname.
    destruct (Hback d m' Hd) as (m & Hm & Hsm). apply (Hlive _ _ Hsm) in Hl.
    by apply (tw_unique _ _ Hwf d m).
  - destruct (tw_acyclic _ _ Hwf) as [depth Hd]. exists depth. intros d m' c Hm' Hl.
    destruct (Hback d m' Hm') as (m & Hm & Hsm). apply (Hlive _ _ Hsm) in Hl. by apply (Hd d m).
Qed.

Definition fs_wf (fs : tmpfs) : Prop := (exists kids, tree_wf (g_nodes fs) kids) /\ data_wf fs.

(** ** Writing *)

(** After a write to node [id]: its contents, everything else as before. *)
Definition written (id : nat) (n : vfs_node) (offset : Z) (bs : list Z) (fs fs' : tmpfs) : Prop :=
  fs_wf fs' /\ others_kept id fs fs'
  /\ exists n', g_nodes fs' = <[id := n']> (g_nodes fs) /\ same_links n n'
       /\ n_size n' = Z.max (n_size n) (offset + Z.of_nat (length bs))
       /\ contents (g_data_arena fs') n' = pwrite (contents (g_data_arena fs) n) (Z.to_nat offset) bs
       /\ n_id n' = n_id n /\ n_mode n' = n_mode n /\ device_id n' = device_id n
       /\ n_capacity n' = room (n_capacity n) (offset + Z.of_nat (length bs))
       /\ g_data_offset fs' = g_data_offset fs + taken (n_capacity n) (offset + Z.of_nat (length bs)).

Lemma get_node_live fs id n :
  g_nodes fs !! id = Some n -> live n -> (id < MGCORE_MAX_NODES)%nat ->
  tmpfs_get_node (Z.of_nat id) fs = Val (Some n).
Proof.
  intros Hid Hl Hlt. unfold tmpfs_get_node. rewrite decide_False by lia. rewrite aget_nat, Hid.
  cbn [of_option mbind outcome_bind]. by rewrite decide_False.
Qed.

Lemma fs_id_bound fs id n : fs_wf fs -> g_nodes fs !! id = Some n -> (id < MGCORE_MAX_NODES)%nat.
Proof. intros [[kids Hwf] _] Hid. rewrite <- (tw_length _ _ Hwf). by eapply lookup_lt_Some. Qed.

Lemma others_kept_trans id fs1 fs2 fs3 :
  others_kept id fs1 fs2 -> others_kept id fs2 fs3 -> others_kept id fs1 fs3.
Proof.
  intros H1 H2 j m Hj Hm. destruct (H1 j m Hj Hm) as [Hm2 Hc1]. destruct (H2 j m Hj Hm2) as [Hm3 Hc2].
  split; [done|]. intros Hl. by rewrite Hc2, Hc1.
Qed.

Lemma i64_small x : 0 <= x < 2 ^ 63 -> i64 x = x.
Proof. intros Hx. unfold i64, swrap. rewrite Z.mod_small by lia. lia. Qed.

Lemma write_node_spec fs id n buffer count offset :
  fs_wf fs -> g_nodes fs !! id = Some n -> n_type n = VFS_NODE_FILE ->
  0 <= count <= Z.of_nat (length buffer) -> 0 <= offset -> offset + count <= 2 ^ 32 - 256 ->
  tmpfs_write_node (Z.of_nat id) buffer count offset fs = Val (- ENOSPC, fs)
    /\ n_capacity n < offset + count
    /\ g_data_offset fs + (offset + count + 255) / 256 * 256 > TMPFS_DATA_ARENA_SIZE
  \/ exists fs', tmpfs_write_node (Z.of_nat id) buffer count offset fs = Val (count, fs')
       /\ written id n offset (take (Z.to_nat count) buffer) fs fs'.
Proof.
  intros Hfs Hid Ht Hc Ho He. pose proof Hfs as [[kids Htree] Hwf].
  assert (live n) as Hl by (unfold live; congruence). unfold tmpfs_write_node.
  rewrite (get_node_live fs id n Hid Hl (fs_id_bound _ _ _ Hfs Hid)). cbn [mbind outcome_bind].
  rewrite decide_False by (intros ?; done). rewrite (u64_small (offset + count)) by (unfold in_u64; lia).
  destruct (grow_spec fs id n (offset + count) Hwf Hid Hl ltac:(lia))
    as [(-> & ? & ?)|(fs1 & n1 & -> & Hwf1 & Hrel & Hcap & Hn1 & Hc1 & Ho1 & Hroom & Hmark)]; [by left|right].
  cbn [mbind outcome_bind].
  assert (g_nodes fs1 !! id = Some n1) as Hid1.
  { rewrite Hn1. apply list_lookup_insert_eq. by eapply lookup_lt_Some. }
  rewrite aget_nat, Hid1. cbn [of_option mbind outcome_bind].
  rewrite aread_in_range by lia. change (Z.to_nat 0) with 0%nat. rewrite drop_0.
  cbn [mbind outcome_bind]. set (bs := take (Z.to_nat count) buffer).
  assert (Z.of_nat (length bs) = count) as Hbs by (subst bs; rewrite length_take; lia).
  assert (live n1) as Hl1 by (rewrite Hrel; done).
  assert (n_size n1 = n_size n) as Hsz by (rewrite Hrel; done).
  destruct (store_write fs1 id n1 offset bs Hwf1 Hid1 Hl1 Ho ltac:(lia)) as (a2 & -> & Ha2).
  cbn [mbind outcome_bind].
  set (n2 := set_size (Z.max (n_size n1) (offset + Z.of_nat (length bs))) n1).
  exists (Tmpfs (<[id := n2]> (g_nodes fs1)) a2 (g_data_offset fs1)). split.
  - rewrite i64_small by lia. case_decide as Hgt.
    + rewrite (upd_node_Val id _ _ n1) by done. cbn [mbind outcome_bind]. unfold with_nodes, with_arena. simpl.
      subst n2. by replace (Z.max _ _) with (offset + count) by lia.
    + cbn [mbind outcome_bind]. unfold with_arena. subst n2.
      replace (Z.max _ _) with (n_size n1) by lia. rewrite list_insert_id; [done|].
      rewrite Hid1. by destruct n1.
  - assert (same_links n n2) as Hlinks by (subst n2; rewrite Hrel; by repeat split).
    split; [split|split].
    + exists kids. simpl. rewrite Hn1, list_insert_insert_eq. by eapply replace_same_links.
    + apply store_wf; (done || lia).
    + eapply others_kept_trans; [done|]. apply store_others; (done || lia).
    + exists n2. simpl. rewrite Hn1, list_insert_insert_eq. split; [done|]. split; [done|].
      split; [subst n2; simpl; by rewrite Hsz|]. split; [rewrite <- Hc1; apply (store_contents fs1 id); (done || lia)|].
      rewrite Hbs. subst n2. cbn [set_size n_id n_mode n_capacity g_data_offset device_id].
      do 2 (split; [by rewrite Hrel|]). split; [by rewrite Hrel|]. by split.
Qed.

(** ** Reading *)

Lemma read_node_spec fs id n buffer count offset :
  fs_wf fs -> g_nodes fs !! id = Some n -> n_type n = VFS_NODE_FILE ->
  0 <= count <= Z.of_nat (length buffer) -> 0 <= offset ->
  let bs := take (Z.to_nat count) (drop (Z.to_nat offset) (contents (g_data_arena fs) n)) in
  tmpfs_read_node (Z.of_nat id) buffer count offset fs
  = Val (Z.of_nat (length bs), splice buffer 0 bs).
Proof.
  intros Hfs Hid Ht Hc Ho bs. pose proof Hfs as [_ Hwf].
  assert (live n) as Hl by (unfold live; congruence). unfold tmpfs_read_node.
  rewrite (get_node_live fs id n Hid Hl (fs_id_bound _ _ _ Hfs Hid)). cbn [mbind outcome_bind].
  rewrite decide_False by (intros ?; done).
  pose proof (dw_extent _ Hwf id n Hid Hl) as Hext. pose proof (dw_mark _ Hwf) as Hm.
  pose proof (size_le_capacity fs id n Hwf Hid Hl) as Hsz.
  pose proof (contents_length _ (g_data_arena fs) n Hext) as Hlen.
  assert (n_size n <= TMPFS_DATA_ARENA_SIZE) as Hbound
    by (unfold extent_ok in Hext; destruct (n_data n); lia).
  assert (splice buffer 0 [] = buffer) as Hnil by (unfold splice; simpl; by rewrite drop_0).
  destruct (decide (offset >= n_size n)) as [Hge|Hlt].
  { subst bs. rewrite drop_ge by lia. rewrite take_nil. by rewrite Hnil. }
  set (k := if decide (count > n_size n - offset) then _ else _).
  assert (k = Z.min count (n_size n - offset)) as Hk by (subst k; case_decide; lia). clearbody k.
  assert (length bs = Z.to_nat k) as Hbl by (subst bs; rewrite length_take, length_drop, Hlen; lia).
  assert (arena_read (g_data_arena fs) (n_data n) offset k = Val bs) as ->.
  { unfold arena_read. destruct (decide (k = 0)) as [Hz|Hz].
    - rewrite Hz in Hbl. destruct bs; [done|discriminate].
    - unfold extent_ok in Hext. destruct (n_data n) as [p|] eqn:Hp; [|lia].
      unfold TMPFS_DATA_ARENA_SIZE in *. rewrite u64_small by (unfold in_u64; lia).
      rewrite decide_True by (unfold in_arena, TMPFS_DATA_ARENA_SIZE; lia). f_equal.
      apply list_eq. intros i. rewrite list_lookup_fmap. subst bs.
      destruct (decide (Z.of_nat i < k)).
      + rewrite lookup_seqZ_lt by lia. rewrite lookup_take_lt by lia. rewrite lookup_drop.
        rewrite (contents_lookup _ n p) by done. rewrite decide_True by lia. simpl. do 2 f_equal. lia.
      + rewrite lookup_seqZ_ge by lia. symmetry. apply lookup_ge_None. lia. }
  cbn [mbind outcome_bind]. rewrite awrite_in_range by lia. cbn [mbind outcome_bind].
  rewrite i64_small by (unfold TMPFS_DATA_ARENA_SIZE in *; lia).
  by replace (Z.of_nat (length bs)) with k by lia.
Qed.

(** ** Initialisation *)

(** The static arena before [tmpfs_init]: all zeros. *)
Definition static_tmpfs : tmpfs := Tmpfs [] ∅ 0.

Definition fresh_tmpfs : tmpfs :=
  match tmpfs_init static_tmpfs with Val fs => fs | Stop _ => static_tmpfs end.

Lemma fresh_lookup i n : g_nodes fresh_tmpfs !! i = Some n -> live n ->
  i = 0%nat /\ n_type n = VFS_NODE_DIR /\ parent_id n = -1 /\ first_child_id n = -1 /\ n_data n = None
  /\ n_size n = 0 /\ n_capacity n = 0.
Proof.
  assert (exists r, g_nodes fresh_tmpfs = <[0%nat := r]> (replicate MGCORE_MAX_NODES zero_node)
    /\ n_type r = VFS_NODE_DIR /\ parent_id r = -1 /\ first_child_id r = -1 /\ n_data r = None
    /\ n_size r = 0 /\ n_capacity r = 0) as (r & -> & Hr).
  { eexists. split; [vm_compute; reflexivity|]. repeat split. }
  intros Hi Hl. apply list_lookup_insert_Some in Hi as [(<- & <- & _)|[_ Hi]]; [by split|].
  apply lookup_replicate in Hi as [-> _]. by destruct Hl.
Qed.

Lemma fresh_fs_wf : fs_wf fresh_tmpfs.
Proof.
  split.
  - exists (fun _ => []). split.
    + reflexivity.
    + vm_compute. repeat constructor.
    + eexists. split; [vm_compute; reflexivity|]. by split.
    + intros d n Hd Hl. destruct (fresh_lookup d n Hd Hl) as (_ & _ & _ & -> & _). done.
    + intros d. constructor.
    + intros d n c _ _ Hc. by apply not_elem_of_nil in Hc.
    + intros c k Hc Hl H0. by destruct (fresh_lookup c k Hc Hl) as [? _].
    + intros d n c1 c2 _ _ Hc. by apply not_elem_of_nil in Hc.
    + exists (fun _ => 0%nat). intros d n c _ _ Hc. by apply not_elem_of_nil in Hc.
  - split.
    + vm_compute. split; discriminate.
    + intros i n Hi Hl. destruct (fresh_lookup i n Hi Hl) as (_ & _ & _ & _ & Hd & Hs & Hc).
      unfold extent_ok. rewrite Hd. lia.
    + intros i j n m Hi Hj Hln Hlm Hne. destruct (fresh_lookup i n Hi Hln) as (-> & _).
      by destruct (fresh_lookup j m Hj Hlm) as (-> & _).
    + intros i n Hi Hl. destruct (fresh_lookup i n Hi Hl) as (_ & _ & _ & _ & Hd & _).
      unfold slack_zero. by rewrite Hd.
    + intros x _. reflexivity.
Qed.

(** ** Creation and removal leave the contents alone *)

Lemma data_wf_nodes fs nodes' :
  data_wf fs ->
  (forall i n', nodes' !! i = Some n' -> live n' ->
     (n_data n' = None /\ n_size n' = 0 /\ n_capacity n' = 0)
     \/ exists n, g_nodes fs !! i = Some n /\ live n /\ n_data n' = n_data n
          /\ n_size n' = n_size n /\ n_capacity n' = n_capacity n) ->
  data_wf (with_nodes nodes' fs).
Proof.
  intros [Hm He Hd Hs Hf] Hback. split; cbn [with_nodes g_nodes g_data_arena g_data_offset]; try done.
  - intros i n' Hi Hl. unfold extent_ok.
    destruct (Hback i n' Hi Hl) as [(-> & -> & ->)|(n & Hn & Hln & -> & -> & ->)]; [done|by apply (He i)].
  - intros i j n' m' Hi Hj Hln Hlm Hne. unfold disjoint_extents.
    destruct (Hback i n' Hi Hln) as [(-> & _)|(n & Hn & Hln' & -> & _ & ->)]; [done|].
    destruct (Hback j m' Hj Hlm) as [(-> & _)|(m & Hm' & Hlm' & -> & _ & ->)]; [by case_match|].
    by apply (Hd i j).
  - intros i n' Hi Hl. unfold slack_zero.
    destruct (Hback i n' Hi Hl) as [(-> & _)|(n & Hn & Hln & -> & -> & ->)]; [done|by apply (Hs i)].
Qed.

Lemma new_node_data_wf fs c p pn n nn :
  data_wf fs -> g_nodes fs !! p = Some pn -> n_type pn = VFS_NODE_DIR ->
  g_nodes fs !! c = Some n -> ~ live n -> n_data nn = None -> n_size nn = 0 -> n_capacity nn = 0 ->
  data_wf (with_nodes (add_child (g_nodes fs) c p pn nn) fs).
Proof.
  intros Hwf Hp Hdir Hc Hdead Hd Hs Hcap. apply data_wf_nodes; [done|]. intros i n' Hi Hl.
  rewrite (add_lookup (g_nodes fs) c p pn n nn Hp Hdir Hc Hdead) in Hi.
  destruct (decide (i = p)) as [->|]; [injection Hi as <-; right; exists pn; unfold live; simpl; split_and!; congruence|].
  destruct (decide (i = c)) as [->|]; [injection Hi as <-; by left|]. right. by exists n'.
Qed.

Lemma removed_data_wf fs kids id p nodes1 l :
  data_wf fs -> unlinked fs kids id p nodes1 l ->
  data_wf (with_nodes (<[id := zero_node]> nodes1) fs).
Proof.
  intros Hwf Hun. apply data_wf_nodes; [done|]. intros i n' Hi Hl. right.
  destruct (cleared_live fs kids id p nodes1 l Hun i n' Hi Hl)
    as (_ & m & Hm & Hml & (_ & _ & _ & _ & Hd & Hs & Hc & _) & _). by exists m.
Qed.

(** ** Operations *)

Inductive tmpfs_op : Type :=
| OpCreate (path : list Z) (type : vfs_node_type) (mode : Z)
| OpRemove (path : list Z) (want_dir : bool)
| OpWrite (node_id : Z) (buffer : list Z) (count offset : Z).

Definition tmpfs_do (op : tmpfs_op) (fs : tmpfs) : outcome (Z * tmpfs) :=
  match op with
  | OpCreate path type mode => tmpfs_create_path (Some path) type mode fs
  | OpRemove path want_dir => tmpfs_remove_path (Some path) want_dir fs
  | OpWrite id buffer count offset => tmpfs_write_node id buffer count offset fs
  end.

(** Paths as [normalize_path] makes them; writes that end below 4 GiB. *)
Definition op_ok (op : tmpfs_op) : Prop :=
  match op with
  | OpCreate path type _ => no_nul path /\ (length path < MGCORE_PATH_MAX)%nat /\ type <> VFS_NODE_NONE
  | OpRemove path _ => no_nul path
  | OpWrite _ buffer count offset =>
      0 <= count <= Z.of_nat (length buffer) /\ 0 <= offset /\ offset + count <= 2 ^ 32 - 256
  end.

(** The creations whose last component does not fit [char leaf[32]]. *)
Definition overlong (op : tmpfs_op) : Prop :=
  match op with
  | OpCreate path _ _ => exists a core tail, cut path a core tail
      /\ (MGCORE_NAME_MAX <= length (core ++ tail))%nat
  | _ => False
  end.

Lemma create_keeps_wf fs path type mode :
  fs_wf fs -> op_ok (OpCreate path type mode) ->
  (exists r fs', tmpfs_create_path (Some path) type mode fs = Val (r, fs') /\ fs_wf fs')
  \/ (tmpfs_create_path (Some path) type mode fs = Stop Oob /\ overlong (OpCreate path type mode)).
Proof.
  intros Hfs (Hn & Hl & Ht). pose proof Hfs as [[kids Htree] Hdata].
  destruct (decide (head path <> Some slash \/ length path = 1%nat)) as [Hb|Hb].
  { left. eexists _, _. split; [unfold tmpfs_create_path; by rewrite decide_True|done]. }
  assert (head path = Some slash) as Hh by (destruct (decide (head path = Some slash)); naive_solver).
  destruct (create_path_spec fs kids path type mode Htree Hn Hl Hh ltac:(naive_solver))
    as [r ? ?|r e ? ? ?|a core tail Hcut Hlen|a core tail p pn c n arr Hcut Hfit Hp Hpn Hdir Hc Hdead Harr Hcs Hd Hdd Hfind].
  - left. by eexists _, _.
  - left. by eexists _, _.
  - right. split; [done|]. by exists a, core, tail.
  - left. eexists _, _. split; [done|]. split.
    + exists (add_kid kids c p). by eapply new_wf.
    + by eapply new_node_data_wf.
Qed.

Lemma remove_keeps_wf fs path want_dir :
  fs_wf fs -> no_nul path ->
  exists r fs', tmpfs_remove_path (Some path) want_dir fs = Val (r, fs') /\ fs_wf fs'.
Proof.
  intros Hfs Hn. pose proof Hfs as [[kids Htree] Hdata].
  destruct (remove_path_spec fs kids path want_dir Htree Hn) as ([r fs'] & -> & Hr).
  exists r, fs'. split; [done|].
  inversion Hr as [e|id p n pn nodes1 l _ Hid0 Hid Hl _ Hpar Hp Hpl Hk Hempty Hun]; subst; [done|]. split.
  - exists (drop_kid kids p l). by eapply cleared_wf.
  - by eapply removed_data_wf.
Qed.

Lemma write_keeps_wf fs id buffer count offset :
  fs_wf fs -> op_ok (OpWrite id buffer count offset) ->
  exists r fs', tmpfs_write_node id buffer count offset fs = Val (r, fs') /\ fs_wf fs'.
Proof.
  intros Hfs (Hc & Ho & He). pose proof Hfs as [[kids Htree] Hdata].
  destruct (decide (id < 0 \/ id >= Z.of_nat MGCORE_MAX_NODES)) as [Hid|Hid].
  { eexists _, _. split; [unfold tmpfs_write_node, tmpfs_get_node; by rewrite decide_True|done]. }
  rewrite <- (Z2Nat.id id) by lia. destruct (lookup_lt_is_Some_2 (g_nodes fs) (Z.to_nat id)) as [n Hn].
  { rewrite (tw_length _ _ Htree). lia. }
  destruct (decide (n_type n = VFS_NODE_FILE)) as [Hf|Hf].
  - destruct (write_node_spec fs (Z.to_nat id) n buffer count offset Hfs Hn Hf Hc Ho He)
      as [(-> & _)|(fs' & -> & Hw & _)]; by eexists _, _.
  - unfold tmpfs_write_node, tmpfs_get_node. rewrite decide_False by lia.
    rewrite aget_nat, Hn. cbn [of_option mbind outcome_bind]. case_decide; [by eexists _, _|].
    rewrite decide_True by done. by eexists _, _.
Qed.

(** * Properties *)

(** C14 Every create, remove and write on a well-formed file system (in particular on the
    freshly initialised one) finishes and leaves it well-formed: the sibling links
    form a tree rooted at node 0, every node sits in its parent's list exactly once,
    siblings whose names hold no slash have distinct names (a path with trailing
    slashes makes a name that keeps them, and may make it twice), and file storages
    are disjoint, inside the arena and zero beyond the file's size.  Paths are shorter
    than the 256-byte path buffer, as the callers' are, a type is given, and a write
    ends by 2^32 - 256 (beyond 4 GiB the capacity is computed with a 32-bit mask).
    Within these conditions the one exception is a creation whose last component,
    trailing slashes included, has 32 bytes or more: it overruns [char leaf[32]]. *)
Theorem tmpfs_operations_keep_invariant (fs : tmpfs) (op : tmpfs_op) :
  fs_wf fs -> op_ok op ->
  (exists r fs', tmpfs_do op fs = Val (r, fs') /\ fs_wf fs')
  \/ (tmpfs_do op fs = Stop Oob /\ overlong op).
Proof.
  intros Hfs Hop. destruct op as [path type mode|path want_dir|id buffer count offset].
  - by apply create_keeps_wf.
  - left. by apply remove_keeps_wf.
  - left. by apply write_keeps_wf.
Qed.

Lemma path_bytes_ok : no_nul (str "/etc") /\ (length (str "/etc") < MGCORE_PATH_MAX)%nat.
Proof. split; [repeat constructor; discriminate|vm_compute; lia]. Qed.

Lemma tmpfs_operations_keep_invariant_witness :
  (exists r fs', tmpfs_do (OpCreate (str "/etc") VFS_NODE_DIR 493) fresh_tmpfs = Val (r, fs') /\ fs_wf fs')
  \/ (tmpfs_do (OpCreate (str "/etc") VFS_NODE_DIR 493) fresh_tmpfs = Stop Oob
      /\ overlong (OpCreate (str "/etc") VFS_NODE_DIR 493)).
Proof.
  apply (tmpfs_operations_keep_invariant fresh_tmpfs (OpCreate (str "/etc") VFS_NODE_DIR 493)).
  - exact fresh_fs_wf.
  - split; [apply path_bytes_ok|]. split; [apply path_bytes_ok|discriminate].
Defined.

Lemma cut_last path a core tail : cut path a core tail -> last path = Some slash <-> tail <> [].
Proof.
  intros [-> Hne Hs Ht]. rewrite (cons_middle slash a), app_assoc, app_assoc.
  destruct tail as [|x tl] using rev_ind.
  - rewrite app_nil_r. split; [|done]. destruct core as [|c core] using rev_ind; [done|].
    rewrite app_assoc, last_snoc. intros [= ->]. destruct Hs. apply elem_of_app. right. by left.
  - rewrite app_assoc, last_snoc. apply Forall_app in Ht as [_ Ht]. inversion Ht; subst.
    split; [intros _; by destruct tl|done].
Qed.

(** Creation: when [tmpfs_create_path] returns a node for a path that did not
    resolve, the node was free before, the new node has the requested type and
    mode and no contents, every path that resolved still resolves to the same
    node, and the path resolves to the new node.  If the path ends in a slash it
    still does not resolve: the slash became part of the stored name. *)
Theorem tmpfs_create_then_lookup (fs fs' : tmpfs) (path : list Z) (type : vfs_node_type) (mode id : Z) :
  fs_wf fs -> no_nul path -> (length path < MGCORE_PATH_MAX)%nat -> type <> VFS_NODE_NONE ->
  (forall r, tmpfs_lookup_path (Some path) fs = Val r -> r < 0) ->
  tmpfs_create_path (Some path) type mode fs = Val (id, fs') -> 0 <= id ->
  (exists n n', g_nodes fs !! Z.to_nat id = Some n /\ ~ live n
     /\ g_nodes fs' !! Z.to_nat id = Some n' /\ n_type n' = type /\ n_mode n' = u32 mode
     /\ contents (g_data_arena fs') n' = [])
  /\ (forall q r, no_nul q -> tmpfs_lookup_path (Some q) fs = Val r -> 0 <= r ->
        tmpfs_lookup_path (Some q) fs' = Val r)
  /\ tmpfs_lookup_path (Some path) fs'
     = Val (if decide (last path = Some slash) then - ENOENT else id).
Proof.
  intros Hfs Hn Hlen Ht Hun Hcr H0. pose proof Hfs as [[kids Htree] Hdata].
  assert (head path = Some slash /\ length path <> 1%nat) as [Hh Hl1].
  { unfold tmpfs_create_path in Hcr. destruct (decide (_ \/ _)) as [?|Hb] in Hcr.
    - injection Hcr as <- _. unfold EINVAL in H0. lia.
    - split; [destruct (decide (head path = Some slash)); naive_solver|naive_solver]. }
  pose proof (create_path_spec fs kids path type mode Htree Hn Hlen Hh Hl1) as Hspec.
  rewrite Hcr in Hspec.
  inversion Hspec as [r Hr Hres|r e He|a core tail|a core tail p pn c n arr Hcut Hfit Hp Hpn Hdir Hc Hdead
    Harr Hcs Hd Hdd Hfind]; subst; [specialize (Hun _ Hres); lia|lia|].
  rewrite Nat2Z.id. split; [|split].
  - exists n. eexists. split; [done|]. split; [done|].
    cbn [with_nodes g_nodes]. rewrite (add_lookup (g_nodes fs) c p pn n _ Hpn Hdir Hc Hdead).
    rewrite decide_False by (exact (add_ne _ c p pn n Hpn Hdir Hc Hdead)). rewrite decide_True by done.
    split; [done|]. by repeat split.
  - intros q r Hq Hr Hr0. by eapply new_resolve_old.
  - unfold tmpfs_lookup_path. erewrite new_resolve_path by eauto.
    destruct (cut_last _ _ _ _ Hcut) as [Hl2 Hl3].
    destruct (decide (tail = [])); destruct (decide (last path = Some slash)); naive_solver.
Qed.

Definition demo_fs : tmpfs :=
  match tmpfs_create_path (Some (str "/etc")) VFS_NODE_DIR 493 fresh_tmpfs with
  | Val (_, fs) => fs
  | Stop _ => fresh_tmpfs
  end.

Lemma demo_fs_wf : fs_wf demo_fs.
Proof.
  destruct (create_keeps_wf fresh_tmpfs (str "/etc") VFS_NODE_DIR 493 fresh_fs_wf)
    as [(r & fs' & Hr & Hwf)|[Hr _]].
  - split; [apply path_bytes_ok|]. split; [apply path_bytes_ok|discriminate].
  - unfold demo_fs. by rewrite Hr.
  - exfalso. vm_compute in Hr. discriminate.
Qed.

Definition demo_file : outcome (Z * tmpfs) :=
  tmpfs_create_path (Some (str "/etc/motd")) VFS_NODE_FILE 420 demo_fs.

Definition demo_fs2 : tmpfs := match demo_file with Val (_, fs) => fs | Stop _ => demo_fs end.

Lemma motd_ok : no_nul (str "/etc/motd") /\ (length (str "/etc/motd") < MGCORE_PATH_MAX)%nat.
Proof. split; [repeat constructor; discriminate|vm_compute; lia]. Qed.

Lemma tmpfs_create_then_lookup_witness :
  tmpfs_lookup_path (Some (str "/etc/motd")) demo_fs2 = Val 2
  /\ tmpfs_lookup_path (Some (str "/etc")) demo_fs2 = Val 1.
Proof.
  destruct (tmpfs_create_then_lookup demo_fs demo_fs2 (str "/etc/motd") VFS_NODE_FILE 420 2)
    as (_ & Hold & Hnew).
  - exact demo_fs_wf.
  - apply motd_ok.
  - apply motd_ok.
  - discriminate.
  - intros r Hr. vm_compute in Hr. injection Hr as <-. reflexivity.
  - vm_compute. reflexivity.
  - lia.
  - split; [exact Hnew|]. apply (Hold (str "/etc") 1).
    + apply path_bytes_ok.
    + vm_compute. reflexivity.
    + lia.
Defined.

Lemma demo_fs2_wf : fs_wf demo_fs2.
Proof.
  destruct (create_keeps_wf demo_fs (str "/etc/motd") VFS_NODE_FILE 420 demo_fs_wf)
    as [(r & fs' & Hr & Hwf)|[Hr _]].
  - split; [apply motd_ok|]. split; [apply motd_ok|discriminate].
  - unfold demo_fs2, demo_file. by rewrite Hr.
  - exfalso. vm_compute in Hr. discriminate.
Qed.

(** Removal: when [tmpfs_remove_path] returns 0, the path named a node other
    than the root, of the kind asked for and without children; its entry is
    free again, the path no longer resolves, and every path without [..] that
    led to another node still leads there. *)
Theorem tmpfs_remove_then_lookup (fs fs' : tmpfs) (path : list Z) (want_dir : bool) :
  fs_wf fs -> no_nul path -> no_dotdot (tokens path) ->
  tmpfs_remove_path (Some path) want_dir fs = Val (0, fs') ->
  exists id n, tmpfs_lookup_path (Some path) fs = Val (Z.of_nat id) /\ id <> 0%nat
    /\ g_nodes fs !! id = Some n /\ live n /\ (n_type n = VFS_NODE_DIR <-> want_dir = true)
    /\ g_nodes fs' !! id = Some zero_node
    /\ tmpfs_lookup_path (Some path) fs' = Val (- ENOENT)
    /\ forall q r, no_nul q -> no_dotdot (tokens q) -> tmpfs_lookup_path (Some q) fs = Val r ->
         0 <= r -> r <> Z.of_nat id -> tmpfs_lookup_path (Some q) fs' = Val r.
Proof.
  intros Hfs Hn Hdd Hrm. pose proof Hfs as [[kids Htree] Hdata].
  destruct (remove_path_spec fs kids path want_dir Htree Hn) as (r & Hr & Hspec).
  rewrite Hrm in Hr. injection Hr as <-.
  inversion Hspec as [e He|id p n pn nodes1 l Hres Hid0 Hid Hl Ht Hpar Hp Hpl Hk Hempty Hun]; subst; [lia|].
  exists id, n. split; [done|]. do 4 (split; [done|]). split; [|split].
  - cbn [with_nodes g_nodes]. apply list_lookup_insert_eq. destruct Hun as (Hlen & _).
    rewrite Hlen. by eapply lookup_lt_Some.
  - unfold tmpfs_lookup_path in *.
    rewrite (removed_resolve fs kids id p n pn nodes1 l) with (r := Z.of_nat id); try done; [|lia].
    by rewrite decide_True.
  - intros q r Hq Hqd Hqr Hr0 Hne. unfold tmpfs_lookup_path in *.
    rewrite (removed_resolve fs kids id p n pn nodes1 l) with (r := r); try done.
    by rewrite decide_False.
Qed.

Definition demo_fs3 : tmpfs :=
  match tmpfs_remove_path (Some (str "/etc/motd")) false demo_fs2 with
  | Val (_, fs) => fs
  | Stop _ => demo_fs2
  end.

Lemma tmpfs_remove_then_lookup_witness :
  tmpfs_lookup_path (Some (str "/etc/motd")) demo_fs3 = Val (- ENOENT).
Proof.
  destruct (tmpfs_remove_then_lookup demo_fs2 demo_fs3 (str "/etc/motd") false)
    as (id & n & _ & _ & _ & _ & _ & _ & Hgone & _).
  - exact demo_fs2_wf.
  - apply motd_ok.
  - vm_compute. repeat constructor; discriminate.
  - vm_compute. reflexivity.
  - exact Hgone.
Defined.

(** C15 A write is [pwrite] on the file's bytes: it stores the whole buffer at the
    offset, fills a gap after the old end with zeros, and changes nothing else:
    every other file keeps its contents and the tree its shape.  It fails, with
    [ENOSPC] and no effect, exactly when the file must grow and the arena has
    not room for the new size rounded up to 256 bytes.  (For offsets below
    4 GiB; see the examples below for what happens beyond.) *)
Theorem tmpfs_write_is_pwrite (fs : tmpfs) (id : nat) (n : vfs_node) (buffer : list Z)
  (count offset : Z) :
  fs_wf fs -> g_nodes fs !! id = Some n -> n_type n = VFS_NODE_FILE ->
  0 <= count <= Z.of_nat (length buffer) -> 0 <= offset -> offset + count <= 2 ^ 32 - 256 ->
  tmpfs_write_node (Z.of_nat id) buffer count offset fs = Val (- ENOSPC, fs)
    /\ n_capacity n < offset + count
    /\ g_data_offset fs + (offset + count + 255) / 256 * 256 > TMPFS_DATA_ARENA_SIZE
  \/ exists fs', tmpfs_write_node (Z.of_nat id) buffer count offset fs = Val (count, fs')
       /\ written id n offset (take (Z.to_nat count) buffer) fs fs'.
Proof. apply write_node_spec. Qed.

Definition motd_node : vfs_node := nth 2 (g_nodes demo_fs2) zero_node.

Lemma motd_lookup : g_nodes demo_fs2 !! 2%nat = Some motd_node.
Proof. vm_compute. reflexivity. Qed.

Lemma tmpfs_write_is_pwrite_witness :
  tmpfs_write_node 2 (str "hello") 5 3 demo_fs2 = Val (- ENOSPC, demo_fs2)
    /\ n_capacity motd_node < 8 /\ g_data_offset demo_fs2 + (3 + 5 + 255) / 256 * 256 > TMPFS_DATA_ARENA_SIZE
  \/ exists fs', tmpfs_write_node 2 (str "hello") 5 3 demo_fs2 = Val (5, fs')
       /\ written 2 motd_node 3 (str "hello") demo_fs2 fs'.
Proof.
  apply (tmpfs_write_is_pwrite demo_fs2 2 motd_node (str "hello") 5 3).
  - exact demo_fs2_wf.
  - exact motd_lookup.
  - reflexivity.
  - simpl. lia.
  - lia.
  - lia.
Defined.

(** A read returns exactly the bytes of the file from the offset on, at most
    [count] of them, stores them at the start of the buffer and leaves the rest
    of the buffer alone. *)
Theorem tmpfs_read_is_slice (fs : tmpfs) (id : nat) (n : vfs_node) (buffer : list Z)
  (count offset : Z) :
  fs_wf fs -> g_nodes fs !! id = Some n -> n_type n = VFS_NODE_FILE ->
  0 <= count <= Z.of_nat (length buffer) -> 0 <= offset ->
  let bs := take (Z.to_nat count) (drop (Z.to_nat offset) (contents (g_data_arena fs) n)) in
  tmpfs_read_node (Z.of_nat id) buffer count offset fs
  = Val (Z.of_nat (length bs), splice buffer 0 bs).
Proof. apply read_node_spec. Qed.

Lemma tmpfs_read_is_slice_witness :
  let bs := take 4 (drop 0 (contents (g_data_arena demo_fs2) motd_node)) in
  tmpfs_read_node 2 [9; 9; 9; 9] 4 0 demo_fs2 = Val (Z.of_nat (length bs), splice [9; 9; 9; 9] 0 bs).
Proof.
  apply (tmpfs_read_is_slice demo_fs2 2 motd_node [9; 9; 9; 9] 4 0).
  - exact demo_fs2_wf.
  - exact motd_lookup.
  - reflexivity.
  - simpl. lia.
  - lia.
Defined.

(** * Where the code does not do what it means to *)

(** A write of no bytes at 4 GiB + 5: the new capacity is computed with a 32-bit
    mask and is 256, the size is not truncated, and reading the file then reads
    outside the arena. *)
Example sparse_write_breaks_capacity :
  exists fs', tmpfs_write_node 2 [] 0 4294967301 demo_fs2 = Val (0, fs')
    /\ (fun n => (n_size n, n_capacity n)) <$> (g_nodes fs' !! 2%nat) = Some (4294967301, 256)
    /\ tmpfs_read_node 2 [0] 1 2000000 fs' = Stop Oob.
Proof. eexists. split; [vm_compute; reflexivity|]. split; vm_compute; reflexivity. Qed.

(** The demo file filled with 256 bytes, then a second file with one. *)
Definition two_files : outcome (Z * tmpfs) :=
  '(_, fs) ← tmpfs_write_node 2 (replicate 256 1) 256 0 demo_fs2;
  '(id, fs) ← tmpfs_create_path (Some (str "/etc/b")) VFS_NODE_FILE 420 fs;
  '(_, fs) ← tmpfs_write_node id [2] 1 0 fs;
  Val (id, fs).

(** A write of one byte at offset [2^64 - 1] (as after seeking to -1): the end
    offset wraps to 0, and the byte lands in the other file. *)
Example negative_offset_corrupts_neighbour :
  (fun '(n, a) => last (contents a n)) <$>
    ('(id, fs) ← two_files;
     '(_, fs) ← tmpfs_write_node id [7] 1 (2 ^ 64 - 1) fs;
     of_option ((fun n => (n, g_data_arena fs)) <$> (g_nodes fs !! 2%nat)))
  = Val (Some 7).
Proof. vm_compute. reflexivity. Qed.

(** A last component of 32 bytes overruns the local array. *)
Example long_name_overruns :
  tmpfs_create_path (Some (slash :: replicate 32 97)) VFS_NODE_FILE 420 demo_fs = Stop Oob.
Proof. vm_compute. reflexivity. Qed.

(** A directory created with a trailing slash can be neither found nor removed. *)
Example trailing_slash_unreachable :
  exists fs', tmpfs_create_path (Some (str "/tmp/")) VFS_NODE_DIR 493 demo_fs = Val (2, fs')
    /\ tmpfs_lookup_path (Some (str "/tmp/")) fs' = Val (- ENOENT)
    /\ tmpfs_remove_path (Some (str "/tmp/")) true fs' = Val (- EINVAL, fs').
Proof. eexists. split; [vm_compute; reflexivity|]. split; vm_compute; reflexivity. Qed.
