(* ===== verification/TmpfsView.v ===== *)
(** [src/kernel/tmpfs.c] against what a file system promises: a map from paths to
    entries.

    [volume] is that map with the bytes of the arena already handed out; [answer]
    is what each request does to it.  [shows] ties the node table and the arena of
    [Tmpfs.v] to a volume, and every operation of tmpfs.c answers as [answer] does.
    Paths are lists of components; [path_of] writes one out. *)

From Stdlib Require Import ZArith Lia Ascii.
From stdpp Require Import base gmap list strings.
From S2P Require Import Prelude KString Tmpfs TmpfsPath TmpfsTree TmpfsData.
Open Scope Z_scope.

(** * Volumes *)

Record entry := Entry {
  e_id : Z;
  e_type : vfs_node_type;
  e_mode : Z;
  e_bytes : list Z;
  e_room : Z;
  e_device : Z;
}.

Record volume := Volume { entries : gmap (list (list Z)) entry; used : Z }.

Definition parent_of (ts : list (list Z)) : list (list Z) := take (pred (length ts)) ts.

Definition is_child (ts : list (list Z)) (p : list (list Z) * entry) : bool :=
  bool_decide (p.1 <> [] /\ parent_of p.1 = ts).
Definition has_child (v : volume) (ts : list (list Z)) : bool :=
  existsb (is_child ts) (map_to_list (entries v)).

Definition has_id (id : Z) (p : list (list Z) * entry) : bool := bool_decide (e_id p.2 = id).
(** The lowest number no entry has. *)
Definition free_id (v : volume) : option Z :=
  first_index (fun id => negb (existsb (has_id id) (map_to_list (entries v)))) (seqZ 0 256) 0.

Definition put (ts : list (list Z)) (e : entry) (extra : Z) (v : volume) : volume :=
  Volume (<[ts := e]> (entries v)) (used v + extra).

Definition v_lookup (ts : list (list Z)) (v : volume) : Z :=
  match entries v !! ts with Some e => e_id e | None => - ENOENT end.

Definition v_create (ts : list (list Z)) (type : vfs_node_type) (mode : Z) (v : volume) : Z * volume :=
  if decide (ts = []) then (- EINVAL, v)
  else match entries v !! ts, entries v !! parent_of ts with
  | Some e, _ => (e_id e, v)
  | None, None => (- ENOENT, v)
  | None, Some p =>
      if decide (e_type p <> VFS_NODE_DIR) then (- ENOTDIR, v)
      else match free_id v with
      | None => (- ENOSPC, v)
      | Some id => (id, put ts (Entry id type (u32 mode) [] 0 0) 0 v)
      end
  end.

Definition v_remove (ts : list (list Z)) (want_dir : bool) (v : volume) : Z * volume :=
  if decide (ts = []) then (- EINVAL, v)
  else match entries v !! ts with
  | None => (- EINVAL, v)
  | Some e =>
      let dir := bool_decide (e_type e = VFS_NODE_DIR) in
      if want_dir && negb dir then (- ENOTDIR, v)
      else if negb want_dir && dir then (- EISDIR, v)
      else if dir && has_child v ts then (- ENOTEMPTY, v)
      else (0, Volume (delete ts (entries v)) (used v))
  end.

Definition v_write (ts : list (list Z)) (offset : Z) (bs : list Z) (v : volume) : Z * volume :=
  match entries v !! ts with
  | None => (- ENOENT, v)
  | Some e =>
      let last := offset + Z.of_nat (length bs) in
      if decide (e_type e <> VFS_NODE_FILE) then (- EISDIR, v)
      else if decide (used v + taken (e_room e) last > TMPFS_DATA_ARENA_SIZE) then (- ENOSPC, v)
      else (Z.of_nat (length bs),
            put ts (Entry (e_id e) (e_type e) (e_mode e) (pwrite (e_bytes e) (Z.to_nat offset) bs)
                      (room (e_room e) last) (e_device e))
              (taken (e_room e) last) v)
  end.

Definition v_read (ts : list (list Z)) (offset count : Z) (v : volume) : Z * list Z :=
  match entries v !! ts with
  | None => (- ENOENT, [])
  | Some e =>
      if decide (e_type e <> VFS_NODE_FILE) then (- EISDIR, [])
      else let bs := take (Z.to_nat count) (drop (Z.to_nat offset) (e_bytes e)) in
           (Z.of_nat (length bs), bs)
  end.

(** ** Requests *)

Inductive request :=
| Lookup (ts : list (list Z))
| Create (ts : list (list Z)) (type : vfs_node_type) (mode : Z)
| Remove (ts : list (list Z)) (want_dir : bool)
| Write (ts : list (list Z)) (offset : Z) (bs : list Z)
| Read (ts : list (list Z)) (offset count : Z).

Definition answer (r : request) (v : volume) : Z * list Z * volume :=
  match r with
  | Lookup ts => (v_lookup ts v, [], v)
  | Create ts type mode => let '(z, v) := v_create ts type mode v in (z, [], v)
  | Remove ts want_dir => let '(z, v) := v_remove ts want_dir v in (z, [], v)
  | Write ts offset bs => let '(z, v) := v_write ts offset bs v in (z, [], v)
  | Read ts offset count => (v_read ts offset count v, v)
  end.

(** The same request made of tmpfs.c; files are read and written by node number,
    found by a lookup first. *)
Definition joined (ts : list (list Z)) : list Z := mjoin ((fun t => slash :: t) <$> ts).
Definition path_of (ts : list (list Z)) : list Z := if decide (ts = []) then [slash] else joined ts.

Definition perform (r : request) (fs : tmpfs) : outcome (Z * list Z * tmpfs) :=
  match r with
  | Lookup ts => id ← tmpfs_lookup_path (Some (path_of ts)) fs; Val (id, [], fs)
  | Create ts type mode =>
      '(z, fs) ← tmpfs_create_path (Some (path_of ts)) type mode fs; Val (z, [], fs)
  | Remove ts want_dir =>
      '(z, fs) ← tmpfs_remove_path (Some (path_of ts)) want_dir fs; Val (z, [], fs)
  | Write ts offset bs =>
      id ← tmpfs_lookup_path (Some (path_of ts)) fs;
      '(z, fs) ← tmpfs_write_node id bs (Z.of_nat (length bs)) offset fs; Val (z, [], fs)
  | Read ts offset count =>
      id ← tmpfs_lookup_path (Some (path_of ts)) fs;
      '(z, buffer) ← tmpfs_read_node id (replicate (Z.to_nat count) 0) count offset fs;
      Val (z, take (Z.to_nat z) buffer, fs)
  end.

Fixpoint answers (rs : list request) (v : volume) : list (Z * list Z) * volume :=
  match rs with
  | [] => ([], v)
  | r :: rs => let '(a, v) := answer r v in let '(l, v) := answers rs v in (a :: l, v)
  end.

Fixpoint performs (rs : list request) (fs : tmpfs) : outcome (list (Z * list Z) * tmpfs) :=
  match rs with
  | [] => Val ([], fs)
  | r :: rs => '(a, fs) ← perform r fs; '(l, fs) ← performs rs fs; Val (a :: l, fs)
  end.

(** A component: a name that fits a directory entry and is not special. *)
Definition component (t : list Z) : Prop :=
  plain_token t /\ (length t < MGCORE_NAME_MAX)%nat /\ ~ dot t /\ ~ dotdot t.
#[export] Instance plain_token_dec t : Decision (plain_token t).
Proof. unfold plain_token, no_nul. apply _. Defined.
#[export] Instance component_dec t : Decision (component t).
Proof. unfold component. apply _. Defined.

Definition good_path (ts : list (list Z)) : Prop :=
  Forall component ts /\ (length (path_of ts) < MGCORE_PATH_MAX)%nat.
#[export] Instance good_path_dec ts : Decision (good_path ts).
Proof. unfold good_path. apply _. Defined.

Definition request_ok (r : request) : Prop :=
  match r with
  | Lookup ts | Remove ts _ => good_path ts
  | Create ts type _ => good_path ts /\ type <> VFS_NODE_NONE
  | Write ts offset bs => good_path ts /\ 0 <= offset /\ offset + Z.of_nat (length bs) <= 2 ^ 32 - 256
  | Read ts offset count => good_path ts /\ 0 <= offset /\ 0 <= count
  end.
#[export] Instance request_ok_dec r : Decision (request_ok r).
Proof. destruct r; simpl; apply _. Defined.

(** * What the node table shows *)

Definition entry_of (a : gmap Z Z) (d : nat) (n : vfs_node) : entry :=
  Entry (Z.of_nat d) (n_type n) (n_mode n) (contents a n) (n_capacity n) (device_id n).

Definition at_path (fs : tmpfs) (ts : list (list Z)) (d : nat) : Prop :=
  Forall component ts /\ follow fs 0 ts = Val (Z.of_nat d).

Record shows (fs : tmpfs) (v : volume) : Prop := {
  sh_wf : fs_wf fs;
  sh_entry ts e : entries v !! ts = Some e <->
    exists d n, at_path fs ts d /\ g_nodes fs !! d = Some n /\ e = entry_of (g_data_arena fs) d n;
  sh_all d n : g_nodes fs !! d = Some n -> live n -> exists ts, at_path fs ts d;
  sh_used : used v = g_data_offset fs;
  sh_number d n : g_nodes fs !! d = Some n -> live n -> n_id n = Z.of_nat d;
}.

(** * Writing out a path *)

Lemma joined_snoc ts t : joined (ts ++ [t]) = joined ts ++ slash :: t.
Proof. unfold joined. rewrite fmap_app, join_app. cbn. by rewrite app_nil_r. Qed.

Lemma component_single t tail : component t -> Forall (eq slash) tail -> tokens (t ++ tail) = [t].
Proof.
  intros ((? & ?) & Hl & Hd & _). apply tokens_component; try done; [|unfold MGCORE_NAME_MAX in Hl; lia].
  intros ->. apply Hd. by left.
Qed.

Lemma joined_tokens ts : Forall component ts -> tokens (joined ts) = ts /\ tokens (joined ts ++ [slash]) = ts.
Proof.
  induction ts as [|t ts IH] using rev_ind; [by split|].
  rewrite Forall_app, Forall_singleton. intros [Hts Ht]. destruct (IH Hts) as [_ IH2].
  rewrite joined_snoc, <- app_assoc. cbn [app].
  rewrite (tokens_app _ t), (tokens_app _ (t ++ [slash])), IH2. split.
  - pose proof (component_single t [] Ht ltac:(constructor)) as Ht1. rewrite app_nil_r in Ht1. by rewrite Ht1.
  - by rewrite component_single by (done || by apply Forall_singleton).
Qed.

Lemma joined_head ts : ts <> [] -> head (joined ts) = Some slash.
Proof. by destruct ts. Qed.

Lemma joined_no_nul ts : Forall component ts -> no_nul (joined ts).
Proof.
  induction 1 as [|t ts ((Ht & _) & _) _ IH]; [constructor|]. unfold joined. cbn. constructor; [done|].
  by apply Forall_app.
Qed.

Lemma path_of_nonempty ts : ts <> [] -> path_of ts = joined ts.
Proof. intros. unfold path_of. by rewrite decide_False. Qed.

Lemma path_of_head ts : head (path_of ts) = Some slash.
Proof. unfold path_of. case_decide; [done|by apply joined_head]. Qed.

Lemma path_of_no_nul ts : Forall component ts -> no_nul (path_of ts).
Proof. intros. unfold path_of. case_decide; [by constructor|by apply joined_no_nul]. Qed.

Lemma path_of_tokens ts : Forall component ts -> tokens (path_of ts) = ts.
Proof. intros. unfold path_of. case_decide; [by subst|by apply joined_tokens]. Qed.

Lemma path_of_resolve ts fs : Forall component ts -> resolve_path (Some (path_of ts)) fs = follow fs 0 ts.
Proof. intros. by rewrite resolve_follow, path_of_tokens by (done || apply path_of_head). Qed.

Lemma joined_dir_resolve ts fs :
  Forall component ts -> resolve_path (Some (joined ts ++ [slash])) fs = follow fs 0 ts.
Proof.
  intros Hts. rewrite resolve_follow; [by destruct (joined_tokens ts Hts) as [_ ->]|].
  destruct ts; [done|]. by rewrite head_app, joined_head.
Qed.

Lemma last_slash_unique (x x' y y' : list Z) :
  x ++ slash :: y = x' ++ slash :: y' -> slash ∉ y -> slash ∉ y' -> x = x' /\ y = y'.
Proof.
  intros He Hy Hy'. apply app_eq_inv in He as [(k & -> & Hk)|(k & -> & Hk)];
    (destruct k as [|c k]; cbn [app] in Hk; [rewrite app_nil_r; by simplify_eq|]);
    injection Hk as <- ->; set_solver.
Qed.

Lemma path_of_cut us t a core tail :
  Forall component us -> component t -> cut (path_of (us ++ [t])) a core tail ->
  a = joined us /\ core = t /\ tail = [].
Proof.
  intros Hus Ht [Hp Hc Hs Htail]. rewrite path_of_nonempty, joined_snoc in Hp by by destruct us.
  pose proof Ht as ((_ & Hts) & _ & Hd & _).
  destruct tail as [|c tail _] using rev_ind.
  - rewrite app_nil_r in Hp. destruct (last_slash_unique _ _ _ _ Hp Hts Hs). by subst.
  - exfalso. apply Forall_app in Htail as [_ Htail]. apply Forall_singleton in Htail as <-.
    destruct t as [|c t _] using rev_ind; [apply Hd; by left|].
    rewrite !app_comm_cons, !app_assoc in Hp. apply app_inj_tail in Hp as [_ ->].
    apply Hts. apply elem_of_app. right. by left.
Qed.

(** * Paths and the tree *)

Section Tree.
Context (fs : tmpfs) (kids : nat -> list nat) (Hwf : tree_wf (g_nodes fs) kids).

Lemma components_plain ts : Forall component ts -> Forall plain_token ts.
Proof. intros H. eapply Forall_impl; [exact H|]. by intros t []. Qed.

Lemma components_no_nul ts : Forall component ts -> Forall no_nul ts.
Proof. intros H. eapply Forall_impl; [exact H|]. by intros t [[] _]. Qed.

Lemma at_path_live ts d : at_path fs ts d -> exists n, g_nodes fs !! d = Some n /\ live n.
Proof.
  intros [Hts Hf]. destruct (follow_live fs kids ts 0 Hwf (root_live fs kids Hwf)) as (r & Hr & Hl);
    [by apply components_no_nul|].
  rewrite Hf in Hr. injection Hr as <-. destruct Hl as [?|(d' & n & He & ? & ?)]; [unfold ENOENT in *; lia|].
  apply Nat2Z.inj in He as ->. by exists n.
Qed.

(** A path leads to a node or to [ENOENT]. *)
Lemma follow_at ts : Forall component ts ->
  (exists d, at_path fs ts d) \/ follow fs 0 ts = Val (- ENOENT).
Proof.
  intros Hts. destruct (follow_live fs kids ts 0 Hwf (root_live fs kids Hwf)) as (r & Hr & Hl);
    [by apply components_no_nul|].
  destruct Hl as [->|(d & n & -> & _)]; [by right|left; by exists d].
Qed.

Lemma at_path_nil d : at_path fs [] d <-> d = 0%nat.
Proof.
  unfold at_path. cbn. split; [|intros ->; by split].
  intros [_ He]. injection He as He. lia.
Qed.

Lemma at_path_fun ts d d' : at_path fs ts d -> at_path fs ts d' -> d = d'.
Proof. intros [_ H1] [_ H2]. rewrite H1 in H2. injection H2 as H2. lia. Qed.

Lemma step_component d n t :
  g_nodes fs !! d = Some n -> live n -> component t ->
  step_path fs (Z.of_nat d) t = Val (find_named (g_nodes fs) t (kids d)).
Proof.
  intros Hn Hl ((Ht & _) & _ & Hd & Hdd). rewrite (step_path_spec fs kids d n) by done.
  unfold step_to. by rewrite !decide_False.
Qed.

(** The last step of a path leads to a child with that name. *)
Lemma at_path_snoc ts t d :
  at_path fs (ts ++ [t]) d <->
  component t /\ exists p, at_path fs ts p /\ d ∈ kids p /\ name_of (g_nodes fs) d = t.
Proof.
  unfold at_path at 1. rewrite Forall_app, Forall_singleton, follow_app by lia. split.
  - intros [[Hts Ht] Hf]. split; [done|]. destruct (follow_at ts Hts) as [[p Hp]|He].
    2: { rewrite He in Hf. cbn [mbind outcome_bind] in Hf. rewrite decide_True in Hf by (unfold ENOENT; lia).
         injection Hf as Hf. unfold ENOENT in Hf. lia. }
    pose proof Hp as [_ Hfp]. destruct (at_path_live ts p Hp) as (n & Hn & Hl).
    rewrite Hfp in Hf. cbn [mbind outcome_bind] in Hf. rewrite decide_False in Hf by lia. cbn [follow] in Hf.
    rewrite (step_component p n t) in Hf by done. cbn [mbind outcome_bind] in Hf. exists p. split; [done|].
    destruct (find_named_cases (g_nodes fs) t (kids p)) as [[He _]|(c & Hc & Hname & He)];
      rewrite He in Hf; case_decide; injection Hf as Hf; [unfold ENOENT in *; lia..| |];
      apply Nat2Z.inj in Hf as <-; by split.
  - intros (Ht & p & Hp & Hd & Hname). pose proof Hp as [Hts Hfp]. split; [done|].
    destruct (at_path_live ts p Hp) as (n & Hn & Hl).
    rewrite Hfp. cbn [mbind outcome_bind]. rewrite decide_False by lia. cbn [follow].
    rewrite (step_component p n t) by done. cbn [mbind outcome_bind].
    destruct (find_named_cases (g_nodes fs) t (kids p)) as [[_ He]|(c & Hc & Hname' & ->)];
      [by destruct (He d)|].
    rewrite decide_False by lia. repeat f_equal.
    apply (tw_unique _ _ Hwf p n); try done; [congruence|]. rewrite Hname'. by destruct Ht as [[]].
Qed.

(** No two paths lead to the same node. *)
Lemma at_path_inj ts : forall ts' d, at_path fs ts d -> at_path fs ts' d -> ts = ts'.
Proof.
  assert (forall us t d, at_path fs (us ++ [t]) d ->
    exists p k n, at_path fs us p /\ g_nodes fs !! d = Some k /\ parent_id k = Z.of_nat p
      /\ name_of (g_nodes fs) d = t /\ g_nodes fs !! p = Some n /\ d <> 0%nat) as Hparent.
  { intros us t d (_ & p & Hp & Hd & Hname)%at_path_snoc. destruct (at_path_live us p Hp) as (n & Hn & Hl).
    destruct (tw_kid _ _ Hwf p n d Hn Hl Hd) as (_ & H0 & k & Hk & _ & Hpar). by exists p, k, n. }
  induction ts as [|t ts IH] using rev_ind; intros ts' d H1 H2.
  - apply at_path_nil in H1 as ->. destruct ts' as [|t' ts' _] using rev_ind; [done|].
    by destruct (Hparent _ _ _ H2) as (? & ? & ? & ? & ? & ? & ? & ? & ?).
  - destruct (Hparent _ _ _ H1) as (p & k & n & Hp & Hk & Hpar & Hname & _ & H0).
    destruct ts' as [|t' ts' _] using rev_ind; [by apply at_path_nil in H2|].
    destruct (Hparent _ _ _ H2) as (p' & k' & n' & Hp' & Hk' & Hpar' & Hname' & _ & _).
    rewrite Hk in Hk'. injection Hk' as <-. assert (p' = p) as -> by lia.
    f_equal; [by apply (IH ts' p)|congruence].
Qed.

(** Descendants of a node without children. *)
Lemma at_path_leaf ts t p : kids p = [] -> at_path fs ts p -> forall d, ~ at_path fs (ts ++ [t]) d.
Proof.
  intros Hk Hp d (_ & p' & Hp' & Hd & _)%at_path_snoc.
  rewrite (at_path_fun _ _ _ Hp' Hp), Hk in Hd. by apply elem_of_nil in Hd.
Qed.

End Tree.

(** * Reading the volume off the table *)

Lemma shows_entry fs v ts d n : shows fs v -> at_path fs ts d -> g_nodes fs !! d = Some n ->
  entries v !! ts = Some (entry_of (g_data_arena fs) d n).
Proof. intros Hs Hd Hn. apply (sh_entry _ _ Hs). by exists d, n. Qed.

Lemma shows_lookup fs v ts : shows fs v -> good_path ts ->
  tmpfs_lookup_path (Some (path_of ts)) fs = Val (v_lookup ts v).
Proof.
  intros Hs [Hts _]. pose proof (sh_wf _ _ Hs) as [[kids Hwf] _].
  unfold tmpfs_lookup_path, v_lookup. rewrite path_of_resolve by done.
  destruct (entries v !! ts) as [e|] eqn:He.
  - apply (sh_entry _ _ Hs) in He as (d & n & [_ Hf] & _ & ->). by rewrite Hf.
  - destruct (follow_at fs kids Hwf ts Hts) as [[d Hd]|Hf]; [|done]. exfalso.
    destruct (at_path_live fs kids Hwf ts d Hd) as (n & Hn & _).
    by rewrite (shows_entry fs v ts d n Hs Hd Hn) in He.
Qed.

(** What the volume says of a path, and where the path leads. *)
Lemma shows_cases fs v ts : shows fs v -> Forall component ts ->
  (entries v !! ts = None /\ follow fs 0 ts = Val (- ENOENT) /\ forall d, ~ at_path fs ts d)
  \/ exists d n, entries v !! ts = Some (entry_of (g_data_arena fs) d n)
       /\ at_path fs ts d /\ g_nodes fs !! d = Some n /\ live n.
Proof.
  intros Hs Hts. pose proof (sh_wf _ _ Hs) as [[kids Hwf] _].
  destruct (follow_at fs kids Hwf ts Hts) as [[d Hd]|Hf].
  - right. destruct (at_path_live fs kids Hwf ts d Hd) as (n & Hn & Hl). exists d, n.
    split; [by apply shows_entry|done].
  - left. split; [|split; [done|]].
    + apply eq_None_not_Some. intros [e (d & n & [_ Hd] & _)%(sh_entry _ _ Hs)].
      rewrite Hf in Hd. injection Hd. unfold ENOENT. lia.
    + intros d [_ Hd]. rewrite Hf in Hd. injection Hd. unfold ENOENT. lia.
Qed.

Lemma first_index_ext {A B} (f : A -> bool) (g : B -> bool) l k :
  Forall2 (fun x y => f x = g y) l k -> forall i, first_index f l i = first_index g k i.
Proof. induction 1 as [|x y l k He _ IH]; intros i; cbn; [done|]. rewrite He, IH. done. Qed.

Lemma existsb_map {K V} `{Countable K} (f : K * V -> bool) (m : gmap K V) :
  existsb f (map_to_list m) = true <-> exists k x, m !! k = Some x /\ f (k, x) = true.
Proof.
  rewrite existsb_exists. split.
  - intros ([k x] & Hin & Hf). exists k, x. split; [|done]. by apply elem_of_map_to_list, list_elem_of_In.
  - intros (k & x & Hm & Hf). exists (k, x). split; [|done]. by apply list_elem_of_In, elem_of_map_to_list.
Qed.

Lemma shows_free fs v : shows fs v -> first_free (g_nodes fs) = free_id v.
Proof.
  intros Hs. pose proof (sh_wf _ _ Hs) as [[kids Hwf] _]. unfold first_free, free_id. apply first_index_ext.
  apply Forall2_same_length_lookup. split; [by rewrite length_seqZ, (tw_length _ _ Hwf)|].
  intros i n id Hn Hid. apply lookup_seqZ in Hid as [-> _]. cbn [Z.add].
  apply eq_true_iff_eq. rewrite bool_decide_eq_true, negb_true_iff, <- not_true_iff_false, existsb_map.
  split.
  - intros Ht (ts & e & (d & m & Hd & Hm & ->)%(sh_entry _ _ Hs) & Hi).
    apply bool_decide_eq_true in Hi. cbn in Hi. apply Nat2Z.inj in Hi as ->.
    destruct (at_path_live fs kids Hwf ts i Hd) as (m' & Hm' & Hl). apply Hl. congruence.
  - intros Hno. destruct (decide (n_type n = VFS_NODE_NONE)) as [?|Hl]; [done|]. exfalso. apply Hno.
    destruct (sh_all _ _ Hs i n Hn Hl) as [ts Hts]. eexists ts, _. split.
    + by apply (shows_entry fs v ts i n).
    + by apply bool_decide_eq_true.
Qed.

(** A directory of the volume has entries when its node has children. *)
Lemma shows_children fs kids v ts d n :
  shows fs v -> tree_wf (g_nodes fs) kids -> at_path fs ts d -> g_nodes fs !! d = Some n -> live n ->
  has_child v ts = true <-> kids d <> [].
Proof.
  intros Hs Hwf Hd Hn Hl. unfold has_child. rewrite existsb_map. split.
  - intros (us & e & (c & m & Hc & _)%(sh_entry _ _ Hs) & Hch) Hk.
    apply bool_decide_eq_true in Hch as [Hne Hp]. cbn [fst] in *.
    destruct us as [|t us _] using rev_ind; [done|].
    unfold parent_of in Hp. rewrite length_app, Nat.add_1_r in Hp. cbn [pred] in Hp.
    rewrite take_app_length in Hp. subst us. by apply (at_path_leaf fs kids Hwf ts t d Hk Hd c).
  - intros Hk. destruct (kids d) as [|c l] eqn:Hkids; [done|].
    destruct (tw_kid _ _ Hwf d n c Hn Hl) as (_ & Hc0 & m & Hm & Hml & Hpar); [rewrite Hkids; by left|].
    destruct (sh_all _ _ Hs c m Hm Hml) as [us Hus]. exists us. eexists. split.
    + by apply (shows_entry fs v us c m).
    + apply bool_decide_eq_true. cbn [fst]. destruct us as [|t us _] using rev_ind.
      { by apply (at_path_nil fs) in Hus. }
      split; [by destruct us|]. unfold parent_of. rewrite length_app, Nat.add_1_r. cbn [pred].
      rewrite take_app_length. apply (at_path_snoc fs kids Hwf) in Hus as (_ & p & Hp & Hcp & _).
      destruct (at_path_live fs kids Hwf us p Hp) as (pn & Hpn & Hpl).
      destruct (tw_kid _ _ Hwf p pn c Hpn Hpl Hcp) as (_ & _ & m' & Hm' & _ & Hpar').
      assert (p = d) as -> by (rewrite Hm in Hm'; injection Hm' as <-; lia).
      by apply (at_path_inj fs kids Hwf us ts d).
Qed.

(** A name that the search does not find is not in the volume. *)
Lemma child_absent fs kids v us t p :
  shows fs v -> tree_wf (g_nodes fs) kids -> at_path fs us p ->
  find_named (g_nodes fs) t (kids p) = - ENOENT -> entries v !! (us ++ [t]) = None.
Proof.
  intros Hs Hwf Hpar Hfind. apply eq_None_not_Some. intros [e (d & n & Hd & _)%(sh_entry _ _ Hs)].
  apply (at_path_snoc fs kids Hwf) in Hd as (_ & q & Hq & Hdk & Hname).
  rewrite (at_path_fun fs us q p Hq Hpar) in Hdk.
  destruct (find_named_cases (g_nodes fs) t (kids p)) as [[_ Hno]|(k & _ & _ & He)];
    [by apply (Hno d)|rewrite He in Hfind; unfold ENOENT in Hfind; lia].
Qed.

(** * Creation *)

Section Created.
Context (fs : tmpfs) (kids : nat -> list nat) (v : volume) (us : list (list Z)) (t : list Z).
Context (p c : nat) (pn n : vfs_node) (type : vfs_node_type) (mode : Z) (arr : list Z).
Context (Hs : shows fs v) (Hwf : tree_wf (g_nodes fs) kids).
Context (Ht : component t) (Hpar : at_path fs us p).
Context (Hp : g_nodes fs !! p = Some pn) (Hdir : n_type pn = VFS_NODE_DIR).
Context (Hc : g_nodes fs !! c = Some n) (Hdead : ~ live n).
Context (Harr : length arr = MGCORE_NAME_MAX) (Hcs : cstr arr = t).
Context (Hfind : find_named (g_nodes fs) t (kids p) = - ENOENT) (Htype : type <> VFS_NODE_NONE).

#[local] Notation nn := (new_node c p (first_child_id pn) type arr mode).
#[local] Notation nodes' := (add_child (g_nodes fs) c p pn nn).
#[local] Notation fs' := (with_nodes nodes' fs).

Lemma created_fresh : slash ∈ cstr (n_name nn) \/
  forall k, k ∈ kids p -> name_of (g_nodes fs) k <> cstr (n_name nn).
Proof.
  right. intros k Hk. cbn [new_node n_name]. rewrite Hcs.
  destruct (find_named_cases (g_nodes fs) t (kids p)) as [[_ Hno]|(k' & _ & _ & He)]; [by apply Hno|].
  rewrite He in Hfind. unfold ENOENT in Hfind. lia.
Qed.

Lemma created_wf : tree_wf nodes' (add_kid kids c p).
Proof. by apply (add_child_wf (g_nodes fs) kids c p pn n nn Hwf Hp Hdir Hc Hdead); try done; apply created_fresh. Qed.

Lemma created_name : name_of nodes' c = t.
Proof. by rewrite (add_name_of_new (g_nodes fs) c p pn n nn Hp Hdir Hc Hdead). Qed.

Lemma created_at_old ts d : at_path fs ts d -> at_path fs' ts d.
Proof.
  intros [Hts Hf]. split; [done|].
  apply (add_follow fs kids c p pn n nn ts 0); try done; try lia; [by apply created_fresh|
    by eapply root_live|by apply components_plain].
Qed.

Lemma created_at ts : forall d, at_path fs' ts d -> at_path fs ts d \/ (ts = us ++ [t] /\ d = c).
Proof.
  induction ts as [|x ts IH] using rev_ind; intros d Hd.
  - left. apply at_path_nil in Hd as ->. by apply at_path_nil.
  - apply (at_path_snoc fs' _ created_wf) in Hd as (Hx & q & Hq & Hk & Hname).
    destruct (add_kid_cases (g_nodes fs) kids c p pn n Hp Hdir Hc Hdead _ _ Hk) as [[-> ->]|[Hqc Hk']].
    + right. destruct (IH p Hq) as [Hq'|[_ ->]]; [|by destruct (add_ne (g_nodes fs) c c pn n Hp Hdir Hc Hdead)].
      rewrite (at_path_inj fs kids Hwf ts us p) by done.
      assert (x = t) as -> by (rewrite <- Hname; exact created_name). done.
    + destruct (IH q Hq) as [Hq'|[_ ->]]; [|done]. left. apply (at_path_snoc fs kids Hwf). split; [done|].
      exists q. split; [done|]. split; [done|]. destruct (at_path_live fs kids Hwf ts q Hq') as (m & Hm & Hml).
      rewrite <- Hname. symmetry. exact (add_name_of_kid (g_nodes fs) kids c p pn n nn Hwf Hp Hdir Hc Hdead q m d Hm Hml Hk').
Qed.

Lemma created_at_new : at_path fs' (us ++ [t]) c.
Proof.
  apply (at_path_snoc fs' _ created_wf). split; [done|]. exists p. split; [by apply created_at_old|].
  split; [unfold add_kid; rewrite decide_True by done; by left|exact created_name].
Qed.

Lemma created_entries ts e :
  <[us ++ [t] := Entry (Z.of_nat c) type (u32 mode) [] 0 0]> (entries v) !! ts = Some e <->
  exists d m, at_path fs' ts d /\ nodes' !! d = Some m /\ e = entry_of (g_data_arena fs) d m.
Proof.
  assert (nodes' !! c = Some nn) as Hcn.
  { rewrite (add_lookup (g_nodes fs) c p pn n nn Hp Hdir Hc Hdead).
    by rewrite decide_False, decide_True by (done || exact (add_ne _ c p pn n Hp Hdir Hc Hdead)). }
  assert (forall us d m, at_path fs us d -> g_nodes fs !! d = Some m ->
    exists m', nodes' !! d = Some m' /\ entry_of (g_data_arena fs) d m' = entry_of (g_data_arena fs) d m) as Hold.
  { intros ws d m Hd Hm. rewrite (add_lookup (g_nodes fs) c p pn n nn Hp Hdir Hc Hdead).
    destruct (decide (d = p)) as [->|]; [rewrite Hp in Hm; injection Hm as <-; by eexists|].
    rewrite decide_False; [by exists m|]. intros ->.
    destruct (at_path_live fs kids Hwf ws c Hd) as (m' & Hm' & Hl). apply Hdead. congruence. }
  rewrite lookup_insert_Some. split.
  - intros [[<- <-]|[_ (d & m & Hd & Hm & ->)%(sh_entry _ _ Hs)]].
    + exists c, nn. split; [exact created_at_new|]. by split.
    + destruct (Hold ts d m Hd Hm) as (m' & Hm' & <-). exists d, m'. split; [by apply created_at_old|done].
  - intros (d & m & Hd & Hm & ->). destruct (created_at ts d Hd) as [Hd'|[-> ->]].
    + right. split.
      * intros <-. destruct (at_path_live fs kids Hwf _ d Hd') as (m' & Hm' & Hl).
        rewrite (at_path_fun fs' _ d c Hd created_at_new) in Hm'. apply Hdead. congruence.
      * destruct (at_path_live fs kids Hwf _ d Hd') as (m' & Hm' & Hl).
        destruct (Hold ts d m' Hd' Hm') as (m2 & Hm2 & He). rewrite Hm in Hm2. injection Hm2 as <-.
        rewrite He. by apply shows_entry.
    + left. rewrite Hcn in Hm. injection Hm as <-. by split.
Qed.

Lemma created_shows : shows fs' (put (us ++ [t]) (Entry (Z.of_nat c) type (u32 mode) [] 0 0) 0 v).
Proof.
  pose proof (sh_wf _ _ Hs) as [_ Hdata]. split.
  - split; [by exists (add_kid kids c p); apply created_wf|]. by apply (new_node_data_wf fs c p pn n nn).
  - apply created_entries.
  - intros d m Hm Hl.
    destruct (add_live_cases (g_nodes fs) c p pn n nn Hp Hdir Hc Hdead d m Hm Hl) as [[-> ->]|(m0 & Hm0 & Hl0 & _)].
    + eexists. exact created_at_new.
    + destruct (sh_all _ _ Hs d m0 Hm0 Hl0) as [ts Hts]. exists ts. by apply created_at_old.
  - cbn. rewrite Z.add_0_r. apply (sh_used _ _ Hs).
  - intros d m Hm Hl.
    destruct (add_live_cases (g_nodes fs) c p pn n nn Hp Hdir Hc Hdead d m Hm Hl)
      as [[-> ->]|(m0 & Hm0 & Hl0 & _ & _ & _ & Hold & Hnew)]; [done|].
    destruct (decide (d = p)) as [Hd|Hd]; [|rewrite (Hold Hd); by apply (sh_number _ _ Hs)].
    rewrite (Hnew Hd). subst d. apply (sh_number _ _ Hs p pn); [done|].
    unfold live. by rewrite Hdir.
Qed.

End Created.

Lemma parent_of_snoc us t : parent_of (us ++ [t]) = us.
Proof. unfold parent_of. rewrite length_app, Nat.add_1_r. cbn [pred]. apply take_app_length. Qed.

(** Cutting a written-out path finds its parent directory and its last component. *)
Lemma path_of_parent us t a core tail fs :
  Forall component us -> component t -> cut (path_of (us ++ [t])) a core tail ->
  core ++ tail = t /\ resolve_path (Some (a ++ [slash])) fs = follow fs 0 us.
Proof.
  intros Hus Ht Hcut. destruct (path_of_cut us t a core tail Hus Ht Hcut) as (-> & -> & ->).
  split; [apply app_nil_r|by apply joined_dir_resolve].
Qed.

Lemma failure_answer fs v us t type mode e :
  shows fs v -> Forall component us -> component t -> entries v !! (us ++ [t]) = None ->
  create_failure fs (path_of (us ++ [t])) e -> v_create (us ++ [t]) type mode v = (e, v).
Proof.
  intros Hs Hus Ht Hnone Hf. unfold v_create. rewrite decide_False by by destruct us.
  rewrite Hnone, parent_of_snoc.
  destruct Hf as [a core tail e Hcut Hr He|a core tail p pn Hcut Hr Hp Hl Hd|a core tail p pn Hcut Hr Hp Hl Hd Hfree];
    destruct (path_of_parent us t a core tail fs Hus Ht Hcut) as [_ Hpath]; rewrite Hpath in Hr.
  - destruct (shows_cases fs v us Hs Hus) as [(-> & Hf & _)|(d & n & _ & [_ Hf] & _)];
      rewrite Hf in Hr; injection Hr as <-; [done|lia].
  - rewrite (shows_entry fs v us p pn) by done. by rewrite decide_True.
  - rewrite (shows_entry fs v us p pn) by done. rewrite decide_False by (intros H; by apply H).
    by rewrite <- (shows_free fs v Hs), Hfree.
Qed.

Lemma create_answer fs v ts type mode :
  shows fs v -> good_path ts -> type <> VFS_NODE_NONE ->
  exists fs', tmpfs_create_path (Some (path_of ts)) type mode fs = Val ((v_create ts type mode v).1, fs')
    /\ shows fs' (v_create ts type mode v).2.
Proof.
  intros Hs Hgood Htype. pose proof Hgood as [Hts Hlen]. pose proof (sh_wf _ _ Hs) as [[kids Hwf] _].
  destruct ts as [|t us _] using rev_ind; [by exists fs|].
  pose proof Hts as [Hus Ht]%Forall_app. rewrite Forall_singleton in Ht.
  pose proof (shows_lookup fs v _ Hs Hgood) as Hlk. unfold tmpfs_lookup_path, v_lookup in Hlk.
  assert (length (path_of (us ++ [t])) <> 1%nat) as Hl1.
  { rewrite path_of_nonempty, joined_snoc, length_app by by destruct us. cbn [length].
    destruct Ht as (_ & _ & Hd & _). destruct t; [by destruct Hd; left|cbn [length]; lia]. }
  pose proof (create_path_spec fs kids _ type mode Hwf (path_of_no_nul _ Hts) Hlen (path_of_head _) Hl1) as Hspec.
  destruct Hspec as [r Hr0 Hr|r e He Hr Hr0 Hf|a core tail Hcut Hov|a core tail p pn c n arr Hcut Hfit Hp Hpn
    Hdir Hc Hdead Harr Hcs _ _ Hfind Hfree].
  - unfold v_create. rewrite Hr in Hlk. injection Hlk as ->. rewrite decide_False by by destruct us.
    destruct (entries v !! (us ++ [t])); [by exists fs|unfold ENOENT in Hr0; lia].
  - assert (entries v !! (us ++ [t]) = None) as Hnone.
    { destruct (entries v !! (us ++ [t])) as [e'|] eqn:He'; [|done].
      apply (sh_entry _ _ Hs) in He' as (d & n & _ & _ & ->).
      rewrite Hr in Hlk. injection Hlk as ->. cbn in Hr0. lia. }
    rewrite (failure_answer fs v us t type mode e) by done. by exists fs.
  - destruct (path_of_parent us t a core tail fs Hus Ht Hcut) as [He _]. rewrite He in Hov.
    destruct Ht as (_ & ? & _). lia.
  - destruct (path_of_parent us t a core tail fs Hus Ht Hcut) as [He Hpath]. rewrite He in *.
    rewrite Hpath in Hp. assert (at_path fs us p) as Hpar by done.
    destruct (path_of_cut us t a core tail Hus Ht Hcut) as (_ & -> & _).
    pose proof (created_shows fs kids v us t p c pn n type mode arr Hs Hwf Ht Hpar Hpn Hdir Hc Hdead Harr Hcs
      Hfind Htype) as Hshows.
    unfold v_create. rewrite decide_False by by destruct us.
    rewrite (child_absent fs kids v us t p Hs Hwf Hpar Hfind), parent_of_snoc, (shows_entry fs v us p pn) by done.
    rewrite decide_False by (intros H; by apply H). rewrite <- (shows_free fs v Hs), Hfree. by eexists.
Qed.

(** * Removal *)

Section Removed.
Context (fs : tmpfs) (kids : nat -> list nat) (v : volume) (us : list (list Z)) (id p : nat).
Context (n pn : vfs_node) (nodes1 : list vfs_node) (l : list nat).
Context (Hs : shows fs v) (Hwf : tree_wf (g_nodes fs) kids) (Hat : at_path fs us id).
Context (Hid : g_nodes fs !! id = Some n) (Hparent : parent_id n = Z.of_nat p).
Context (Hp : g_nodes fs !! p = Some pn) (Hplive : live pn).
Context (Hempty : kids id = []) (Hun : unlinked fs kids id p nodes1 l) (Hid0 : id <> 0%nat).

#[local] Notation nodes' := (<[id := zero_node]> nodes1).
#[local] Notation fs' := (with_nodes nodes' fs).

Lemma removed_wf : tree_wf nodes' (drop_kid kids p l).
Proof. by apply (cleared_wf fs kids id p n pn). Qed.

Lemma removed_kid q m d : g_nodes fs !! q = Some m -> live m ->
  d ∈ drop_kid kids p l q <-> d ∈ kids q /\ d <> id.
Proof. exact (drop_kid_spec fs kids id p n Hwf Hid Hparent nodes1 l Hun Hid0 q m d). Qed.

Lemma removed_at ts : forall d, at_path fs' ts d <-> at_path fs ts d /\ d <> id.
Proof.
  induction ts as [|t ts IH] using rev_ind; intros d.
  { rewrite !at_path_nil. naive_solver. }
  rewrite (at_path_snoc fs' _ removed_wf), (at_path_snoc fs kids Hwf). cbn [with_nodes g_nodes].
  assert (forall q m, g_nodes fs !! q = Some m -> live m -> d ∈ drop_kid kids p l q ->
    name_of nodes' d = name_of (g_nodes fs) d) as Hnm.
  { intros q m Hm Hl Hd. exact (cleared_name_of_kid fs kids id p n Hwf Hid Hparent nodes1 l Hun Hid0 q m d Hm Hl Hd). }
  split.
  - intros (Ht & q & [Hq Hqid]%IH & Hk & Hname). destruct (at_path_live fs kids Hwf ts q Hq) as (m & Hm & Hml).
    rewrite (Hnm q m) in Hname by done. apply (removed_kid q m) in Hk as [Hk Hd]; [|done..].
    split; [|done]. split; [done|]. by exists q.
  - intros ((Ht & q & Hq & Hk & Hname) & Hd). split; [done|]. exists q.
    destruct (at_path_live fs kids Hwf ts q Hq) as (m & Hm & Hml).
    assert (d ∈ drop_kid kids p l q) as Hk' by (by apply (removed_kid q m)).
    rewrite (Hnm q m) by done. split; [|done]. apply IH. split; [done|]. intros ->.
    rewrite Hempty in Hk. by apply elem_of_nil in Hk.
Qed.

Lemma removed_entry d m m' : same_node m m' -> entry_of (g_data_arena fs) d m' = entry_of (g_data_arena fs) d m.
Proof. intros (_ & _ & Ht & _ & Hd & Hsz & Hc & Hm & Hv). unfold entry_of, contents. by rewrite Ht, Hd, Hsz, Hc, Hm, Hv. Qed.

Lemma removed_shows : shows fs' (Volume (delete us (entries v)) (used v)).
Proof.
  pose proof (sh_wf _ _ Hs) as [_ Hdata]. split.
  - split; [by exists (drop_kid kids p l); apply removed_wf|]. exact (removed_data_wf fs kids id p nodes1 l Hdata Hun).
  - intros ts e. cbn [entries]. rewrite lookup_delete_Some. split.
    + intros [Hne (d & m & Hd & Hm & ->)%(sh_entry _ _ Hs)].
      assert (d <> id) as Hdid by (intros ->; apply Hne; by apply (at_path_inj fs kids Hwf us ts id)).
      destruct (cleared_lookup fs kids id p nodes1 l Hun d m Hm Hdid) as (m' & Hm' & Hsame & _).
      exists d, m'. split; [by apply removed_at|]. split; [done|]. symmetry. by apply removed_entry.
    + intros (d & m' & [Hd Hdid]%removed_at & Hm' & ->).
      destruct (at_path_live fs kids Hwf ts d Hd) as (m & Hm & Hml).
      destruct (cleared_lookup fs kids id p nodes1 l Hun d m Hm Hdid) as (m2 & Hm2 & Hsame & _).
      cbn [with_nodes g_nodes g_data_arena] in *. rewrite Hm' in Hm2. injection Hm2 as <-. split.
      * intros <-. by rewrite (at_path_fun fs us d id Hd Hat) in Hdid.
      * rewrite (removed_entry d m m') by done. by apply shows_entry.
  - intros d m' Hm' Hl'. destruct (cleared_live fs kids id p nodes1 l Hun d m' Hm' Hl') as (Hdid & m & Hm & Hl & _).
    destruct (sh_all _ _ Hs d m Hm Hl) as [ts Hts]. exists ts. by apply removed_at.
  - apply (sh_used _ _ Hs).
  - intros d m' Hm' Hl'.
    destruct (cleared_live fs kids id p nodes1 l Hun d m' Hm' Hl') as (_ & m & Hm & Hl & Hsame & _).
    destruct Hsame as (-> & _). by apply (sh_number _ _ Hs).
Qed.

End Removed.

Lemma root_path fs kids ts d : tree_wf (g_nodes fs) kids -> at_path fs ts d -> ts = [] <-> d = 0%nat.
Proof.
  intros Hwf Hd. split; [intros ->; by apply (at_path_nil fs)|intros ->].
  apply (at_path_inj fs kids Hwf ts [] 0); [done|]. by apply at_path_nil.
Qed.

Lemma refused_answer fs kids v ts want_dir e :
  shows fs v -> tree_wf (g_nodes fs) kids -> Forall component ts ->
  removal_refused fs kids (path_of ts) want_dir e -> v_remove ts want_dir v = (e, v).
Proof.
  intros Hs Hwf Hts Href. unfold v_remove.
  destruct (shows_cases fs v ts Hs Hts) as [(Hnone & Hf & _)|(d & m & Hsome & Hd & Hm & Hl)].
  - rewrite Hnone. rewrite <- path_of_resolve in Hf by done.
    destruct Href as [r Hr _|id n Hr|id n Hr|id n Hr];
      [by case_decide|rewrite Hf in Hr; injection Hr; unfold ENOENT; lia..].
  - rewrite Hsome. cbn [e_type entry_of]. pose proof (root_path fs kids ts d Hwf Hd) as Hroot.
    pose proof (shows_children fs kids v ts d m Hs Hwf Hd Hm Hl) as Hch.
    destruct Hd as [_ Hf]. rewrite <- path_of_resolve in Hf by done.
    assert (forall id n, resolve_path (Some (path_of ts)) fs = Val (Z.of_nat id) ->
      g_nodes fs !! id = Some n -> id = d /\ n = m) as Hsame.
    { intros id n Hr Hn. rewrite Hf in Hr. injection Hr as Hr. assert (id = d) as -> by lia. split; congruence. }
    destruct Href as [r Hr Hr0|id n Hr H0 Hn _ -> Ht|id n Hr H0 Hn _ -> Ht|id n Hr H0 Hn _ -> Ht Hk].
    + rewrite decide_True; [done|]. rewrite Hf in Hr. injection Hr as <-. apply Hroot. lia.
    + destruct (Hsame id n Hr Hn) as [-> ->]. rewrite decide_False by tauto. by rewrite bool_decide_eq_false_2.
    + destruct (Hsame id n Hr Hn) as [-> ->]. rewrite decide_False by tauto. by rewrite bool_decide_eq_true_2.
    + destruct (Hsame id n Hr Hn) as [-> ->]. rewrite decide_False by tauto. rewrite bool_decide_eq_true_2 by done.
      by rewrite (proj2 Hch Hk).
Qed.

Lemma remove_answer fs v ts want_dir :
  shows fs v -> good_path ts ->
  exists fs', tmpfs_remove_path (Some (path_of ts)) want_dir fs = Val ((v_remove ts want_dir v).1, fs')
    /\ shows fs' (v_remove ts want_dir v).2.
Proof.
  intros Hs Hgood. pose proof Hgood as [Hts _]. pose proof (sh_wf _ _ Hs) as [[kids Hwf] _].
  destruct (remove_path_spec fs kids (path_of ts) want_dir Hwf (path_of_no_nul ts Hts)) as (r & -> & Hr).
  destruct Hr as [e He Href|id p n pn nodes1 l Hr Hid0 Hn Hnl Ht Hpar Hp Hpl Hk Hempty Hun].
  { rewrite (refused_answer fs kids v ts want_dir e) by done. by exists fs. }
  rewrite path_of_resolve in Hr by done. assert (at_path fs ts id) as Hd by done.
  pose proof (root_path fs kids ts id Hwf Hd) as Hroot.
  pose proof (shows_children fs kids v ts id n Hs Hwf Hd Hn Hnl) as Hch.
  pose proof (removed_shows fs kids v ts id p n pn nodes1 l Hs Hwf Hd Hn Hpar Hp Hpl Hempty Hun Hid0) as Hshow.
  unfold v_remove. rewrite decide_False by tauto. rewrite (shows_entry fs v ts id n) by done. cbn [e_type entry_of].
  assert (has_child v ts = false) as -> by (apply not_true_iff_false; tauto). rewrite andb_false_r.
  assert (bool_decide (n_type n = VFS_NODE_DIR) = want_dir) as ->.
  { apply eq_true_iff_eq. by rewrite bool_decide_eq_true. }
  destruct want_dir; by eexists.
Qed.

(** * Reading and writing *)

Section Written.
Context (fs fs' : tmpfs) (kids : nat -> list nat) (v : volume) (us : list (list Z)) (id : nat) (n n' : vfs_node).
Context (Hs : shows fs v) (Hwf : tree_wf (g_nodes fs) kids) (Hat : at_path fs us id).
Context (Hid : g_nodes fs !! id = Some n) (Hwf' : fs_wf fs').
Context (Hnodes : g_nodes fs' = <[id := n']> (g_nodes fs)) (Hlinks : same_links n n').
Context (Hothers : others_kept id fs fs') (Hnum : n_id n' = n_id n).

Lemma written_lookup d : g_nodes fs' !! d = if decide (d = id) then Some n' else g_nodes fs !! d.
Proof.
  rewrite Hnodes. case_decide as Hd; [subst d|by rewrite list_lookup_insert_ne].
  apply list_lookup_insert_eq. by eapply lookup_lt_Some.
Qed.

Lemma written_tree : tree_wf (g_nodes fs') kids.
Proof. rewrite Hnodes. by eapply replace_same_links. Qed.

Lemma written_name d : name_of (g_nodes fs') d = name_of (g_nodes fs) d.
Proof.
  unfold name_of. rewrite written_lookup. case_decide as Hd; [subst d|done]. rewrite Hid.
  by destruct Hlinks as (_ & _ & _ & _ & ->).
Qed.

Lemma written_at ts : forall d, at_path fs' ts d <-> at_path fs ts d.
Proof.
  induction ts as [|t ts IH] using rev_ind; intros d; [by rewrite !at_path_nil|].
  rewrite (at_path_snoc fs' kids written_tree), (at_path_snoc fs kids Hwf), written_name.
  by setoid_rewrite IH.
Qed.

Lemma written_shows extra :
  g_data_offset fs' = g_data_offset fs + extra ->
  shows fs' (put us (entry_of (g_data_arena fs') id n') extra v).
Proof.
  intros Hoff. split.
  - done.
  - intros ts e. cbn [entries put]. rewrite lookup_insert_Some. split.
    + intros [[<- <-]|[Hne (d & m & Hd & Hm & ->)%(sh_entry _ _ Hs)]].
      * exists id, n'. split; [by apply written_at|]. by rewrite written_lookup, decide_True.
      * assert (d <> id) as Hdid by (intros ->; apply Hne; by apply (at_path_inj fs kids Hwf us ts id)).
        destruct (Hothers d m Hdid Hm) as [Hm' Hc]. exists d, m. split; [by apply written_at|].
        split; [done|]. destruct (at_path_live fs kids Hwf ts d Hd) as (m2 & Hm2 & Hl).
        unfold entry_of. rewrite Hc; [done|congruence].
    + intros (d & m' & Hd%written_at & Hm' & ->). destruct (decide (d = id)) as [->|Hdid].
      * left. rewrite written_lookup, decide_True in Hm' by done. injection Hm' as <-.
        by rewrite (at_path_inj fs kids Hwf us ts id).
      * right. split; [intros <-; by rewrite (at_path_fun fs us d id Hd Hat) in Hdid|].
        rewrite written_lookup, decide_False in Hm' by done. destruct (Hothers d m' Hdid Hm') as [_ Hc].
        destruct (at_path_live fs kids Hwf ts d Hd) as (m2 & Hm2 & Hl).
        rewrite (shows_entry fs v ts d m') by done. unfold entry_of. rewrite Hc; [done|congruence].
  - intros d m Hm Hl. setoid_rewrite written_at. rewrite written_lookup in Hm. case_decide as Hd.
    + subst d. by exists us.
    + by apply (sh_all _ _ Hs d m).
  - cbn [used put]. by rewrite Hoff, (sh_used _ _ Hs).
  - intros d m Hm Hl. rewrite written_lookup in Hm. case_decide as Hd; [|by apply (sh_number _ _ Hs)].
    injection Hm as <-. subst d. rewrite Hnum. apply (sh_number _ _ Hs id n Hid).
    destruct Hlinks as (_ & _ & _ & Ht & _). congruence.
Qed.

End Written.

Lemma missing_node fs : tmpfs_get_node (- ENOENT) fs = Val None.
Proof. unfold tmpfs_get_node. by rewrite decide_True by (unfold ENOENT; lia). Qed.

Lemma write_answer fs v ts offset buffer count :
  shows fs v -> Forall component ts -> 0 <= count <= Z.of_nat (length buffer) ->
  0 <= offset -> offset + count <= 2 ^ 32 - 256 ->
  let bs := take (Z.to_nat count) buffer in
  exists fs', tmpfs_write_node (v_lookup ts v) buffer count offset fs
      = Val ((v_write ts offset bs v).1, fs')
    /\ shows fs' (v_write ts offset bs v).2.
Proof.
  intros Hs Hts Hcount Ho Hlast bs. pose proof (sh_wf _ _ Hs) as Hfs. pose proof Hfs as [[kids Hwf] Hdata].
  assert (Z.of_nat (length bs) = count) as Hlen by (unfold bs; rewrite length_take; lia).
  unfold v_write, v_lookup. rewrite Hlen. destruct (shows_cases fs v ts Hs Hts) as [(-> & _)|(d & m & -> & Hd & Hm & Hl)].
  { exists fs. unfold tmpfs_write_node. by rewrite missing_node. }
  cbn [e_id e_type e_room e_bytes e_mode e_device entry_of]. case_decide as Ht.
  { exists fs. unfold tmpfs_write_node. rewrite (get_node_live fs d m Hm Hl (fs_id_bound _ _ _ Hfs Hm)).
    cbn [mbind outcome_bind]. by rewrite decide_True. }
  rewrite (sh_used _ _ Hs).
  pose proof (write_node_spec fs d m buffer count offset Hfs Hm Ht Hcount Ho Hlast) as Hspec.
  pose proof (dw_mark _ Hdata) as Hmark. fold bs in Hspec. unfold written in Hspec. rewrite Hlen in Hspec.
  destruct Hspec as [(-> & Hcap & Hfull)|(fs' & -> & Hwf' & Hoth & n' & Hnodes & Hlinks & _ & Hc & Hnum & Hmode & Hdev & Hroom & Hoff)].
  { unfold taken. rewrite (decide_True (P := _ > n_capacity m)), decide_True by lia. by exists fs. }
  rewrite decide_False.
  2: { pose proof Hwf' as [_ Hd']. pose proof (dw_mark _ Hd'). lia. }
  exists fs'. split; [done|]. cbn [snd].
  pose proof (written_shows fs fs' kids v ts d m n' Hs Hwf Hd Hm Hwf' Hnodes Hlinks Hoth Hnum _ Hoff) as Hshow.
  unfold entry_of in Hshow. rewrite Hc, Hmode, Hroom, Hdev in Hshow.
  by destruct Hlinks as (_ & _ & _ & <- & _).
Qed.

Lemma read_answer fs v ts offset count buffer :
  shows fs v -> Forall component ts -> 0 <= offset -> 0 <= count <= Z.of_nat (length buffer) ->
  tmpfs_read_node (v_lookup ts v) buffer count offset fs
  = Val ((v_read ts offset count v).1, splice buffer 0 (v_read ts offset count v).2).
Proof.
  intros Hs Hts Ho Hc. pose proof (sh_wf _ _ Hs) as Hfs.
  unfold v_read, v_lookup. destruct (shows_cases fs v ts Hs Hts) as [(-> & _)|(d & m & -> & Hd & Hm & Hl)].
  { unfold tmpfs_read_node. by rewrite missing_node. }
  cbn [e_id e_type e_bytes entry_of]. case_decide as Ht.
  { unfold tmpfs_read_node. rewrite (get_node_live fs d m Hm Hl (fs_id_bound _ _ _ Hfs Hm)).
    cbn [mbind outcome_bind]. by rewrite decide_True. }
  by rewrite (read_node_spec fs d m) by done.
Qed.

Lemma v_create_lookup ts type mode v : 0 <= (v_create ts type mode v).1 ->
  v_lookup ts (v_create ts type mode v).2 = (v_create ts type mode v).1.
Proof.
  unfold v_create. case_decide; [by unfold EINVAL|]. unfold v_lookup.
  destruct (entries v !! ts) as [e|] eqn:He; [cbn; by rewrite He|].
  destruct (entries v !! parent_of ts); [|by unfold ENOENT]. case_decide; [by unfold ENOTDIR|].
  destruct (free_id v); [|by unfold ENOSPC]. intros _. cbn. by rewrite lookup_insert_eq.
Qed.

Lemma v_read_length ts offset count v :
  length (v_read ts offset count v).2 = Z.to_nat (v_read ts offset count v).1.
Proof. unfold v_read. destruct (entries v !! ts); [case_decide|]; cbn; [done|lia|done]. Qed.

(** What was put at the front of a buffer. *)
Lemma take_splice {A} (buffer bs : list A) n : length bs = n -> take n (splice buffer 0 bs) = bs.
Proof. intros <-. unfold splice. rewrite take_0. cbn [app]. apply take_app_length. Qed.

(** * Properties *)

Lemma perform_answers r fs v : shows fs v -> request_ok r ->
  exists fs', perform r fs = Val ((answer r v).1, fs') /\ shows fs' (answer r v).2.
Proof.
  intros Hs Hok. destruct r as [ts|ts type mode|ts want_dir|ts offset bs|ts offset count]; cbn [perform answer].
  - exists fs. rewrite (shows_lookup fs v) by done. by split.
  - destruct Hok as [Hg Ht]. destruct (create_answer fs v ts type mode Hs Hg Ht) as (fs' & -> & Hs').
    exists fs'. destruct (v_create ts type mode v). by split.
  - destruct (remove_answer fs v ts want_dir Hs Hok) as (fs' & -> & Hs').
    exists fs'. destruct (v_remove ts want_dir v). by split.
  - destruct Hok as (Hg & Ho & Hl). rewrite (shows_lookup fs v) by done. cbn [mbind outcome_bind].
    destruct (write_answer fs v ts offset bs (Z.of_nat (length bs)) Hs (proj1 Hg) ltac:(lia) Ho Hl) as (fs' & Hw & Hs').
    rewrite Nat2Z.id, take_ge in Hw, Hs' by done. rewrite Hw.
    exists fs'. destruct (v_write ts offset bs v). by split.
  - destruct Hok as (Hg & Ho & Hc). rewrite (shows_lookup fs v) by done. cbn [mbind outcome_bind].
    rewrite (read_answer fs v ts offset count) by (rewrite ?length_replicate; apply Hg || done || lia).
    exists fs. cbn [mbind outcome_bind]. rewrite take_splice by apply v_read_length. by destruct (v_read ts offset count v).
Qed.

(** The volume of a freshly initialised file system: the root alone. *)
Definition blank : volume := Volume {[ [] := Entry 0 VFS_NODE_DIR 493 [] 0 0 ]} 0.

Lemma fresh_shows : shows fresh_tmpfs blank.
Proof.
  destruct fresh_fs_wf as [[kids Hwf] Hdata].
  assert (forall ts d, at_path fresh_tmpfs ts d -> ts = [] /\ d = 0%nat) as Hroot.
  { intros ts d Hd. destruct (at_path_live _ kids Hwf ts d Hd) as (n & Hn & Hl).
    destruct (fresh_lookup d n Hn Hl) as [-> _]. split; [by apply (root_path fresh_tmpfs kids ts 0)|done]. }
  destruct (tw_root _ _ Hwf) as (r & Hr & Ht & _).
  assert (entry_of (g_data_arena fresh_tmpfs) 0 r = Entry 0 VFS_NODE_DIR 493 [] 0 0) as He.
  { vm_compute in Hr. injection Hr as <-. reflexivity. }
  split.
  - split; [by exists kids|done].
  - intros ts e. unfold blank. cbn [entries]. rewrite lookup_singleton_Some. split.
    + intros [<- <-]. exists 0%nat, r. split; [by apply at_path_nil|]. by split.
    + intros (d & n & Hd & Hn & ->). destruct (Hroot ts d Hd) as [-> ->].
      assert (n = r) as -> by congruence. by split.
  - intros d n Hn Hl. destruct (fresh_lookup d n Hn Hl) as [-> _]. exists []. by apply at_path_nil.
  - reflexivity.
  - intros d n Hn Hl. destruct (fresh_lookup d n Hn Hl) as [-> _]. assert (n = r) as -> by congruence.
    vm_compute in Hr. injection Hr as <-. reflexivity.
Qed.

(** C3 The file system is a map from paths to entries.  Whatever requests are made
    of tmpfs.c, in whatever order, it answers exactly as the volume does: lookups,
    creations, removals, reads and writes return the same numbers and bytes, the
    same errors in the same cases, and afterwards the node table still shows the
    volume.  (For paths of ordinary components that fit the code's arrays, and for
    writes ending below 4 GiB.) *)
Theorem tmpfs_refines_volume (fs : tmpfs) (v : volume) (rs : list request) :
  shows fs v -> Forall request_ok rs ->
  exists fs', performs rs fs = Val ((answers rs v).1, fs') /\ shows fs' (answers rs v).2.
Proof.
  intros Hs Hok. revert fs v Hs. induction Hok as [|r rs Hr _ IH]; intros fs v Hs; cbn [performs answers].
  { by exists fs. }
  destruct (perform_answers r fs v Hs Hr) as (fs1 & -> & Hs1). cbn [mbind outcome_bind].
  destruct (answer r v) as [a v1]. destruct (IH fs1 v1 Hs1) as (fs2 & -> & Hs2). cbn [mbind outcome_bind].
  exists fs2. by destruct (answers rs v1).
Qed.

Definition demo_requests : list request :=
  [Create [str "etc"] VFS_NODE_DIR 493;
   Create [str "etc"; str "motd"] VFS_NODE_FILE 420;
   Write [str "etc"; str "motd"] 3 (str "hello");
   Read [str "etc"; str "motd"] 1 4;
   Remove [str "etc"] true;
   Create [str "etc"; str "motd"; str "x"] VFS_NODE_FILE 420;
   Remove [str "etc"; str "motd"] false;
   Lookup [str "etc"; str "motd"];
   Write [] 0 [1]].

Definition demo_answers : list (Z * list Z) :=
  [(1, []); (2, []); (5, []); (4, [0; 0] ++ str "he"); (- ENOTEMPTY, []); (- ENOTDIR, []); (0, []);
   (- ENOENT, []); (- EISDIR, [])].

Lemma tmpfs_refines_volume_witness :
  exists fs', performs demo_requests fresh_tmpfs = Val (demo_answers, fs')
    /\ shows fs' (answers demo_requests blank).2.
Proof.
  assert ((answers demo_requests blank).1 = demo_answers) as <- by (vm_compute; reflexivity).
  apply (tmpfs_refines_volume fresh_tmpfs blank demo_requests); [exact fresh_shows|].
  apply (bool_decide_unpack _). vm_compute. reflexivity.
Defined.
