(* ===== verification/Fs.v ===== *)
(** [src/kernel/fs.c]: paths, open files and descriptors over tmpfs, the device
    nodes, and unpacking the initramfs archive.

    A [const char *] argument is the memory from the pointer on: the bytes of
    the string, its NUL, and whatever follows; reading past the end of the list
    stops with [Oob].  [None] is the null pointer.  The task table is the one of
    [Task.v]; the console is any [Terminal]. *)

From Stdlib Require Import ZArith Lia Ascii.
From stdpp Require Import base gmap list strings.
From S2P Require Import Prelude KString Terminal Vmm Task Tmpfs.
Open Scope Z_scope.
Import Fmt.

(** [src/kernel/fs.c:8-8] O_CREAT *)
Definition O_CREAT : Z := 64.
(** [src/kernel/fs.c:9-9] SEEK_SET *)
Definition SEEK_SET : Z := 0.
(** [src/kernel/fs.c:10-10] SEEK_CUR *)
Definition SEEK_CUR : Z := 1.
(** [src/kernel/fs.c:11-11] SEEK_END *)
Definition SEEK_END : Z := 2.
(** [src/kernel/fs.c:15-15] DEV_CONSOLE *)
Definition DEV_CONSOLE : Z := 1.
(** [src/kernel/fs.c:16-16] DEV_TTY *)
Definition DEV_TTY : Z := 2.
(** [src/kernel/fs.c:17-17] DEV_NULL *)
Definition DEV_NULL : Z := 3.
(** [src/kernel/fs.c:18-18] DEV_ZERO *)
Definition DEV_ZERO : Z := 4.

(** [include/mgcore/fs.h:33-39] vfs_file *)
Record vfs_file := File {
  f_used : Z;
  f_refs : Z;
  f_node_id : Z;
  f_offset : Z;
  f_flags : Z;
}.

Definition zero_file : vfs_file := File 0 0 0 0 0.

(** [src/kernel/fs.c:30-30] g_open_files, with the state of the components the
    file system works on *)
Record fsys (C : Type) := Fsys {
  fs_tmpfs : tmpfs;
  g_open_files : list vfs_file;
  fs_tasks : task_table;
  fs_console : C;
}.
Arguments Fsys {C}.
Arguments fs_tmpfs {C}.
Arguments g_open_files {C}.
Arguments fs_tasks {C}.
Arguments fs_console {C}.

(** [include/mgcore/syscall.h:27-42] mgcore_stat; the fields the code never sets
    apart from zeroing them are left out *)
Record mgcore_stat := Stat {
  st_ino : Z;
  st_nlink : Z;
  st_mode : Z;
  st_size : Z;
  st_blksize : Z;
  st_blocks : Z;
}.

(** [kstrcmp] of the memory at a pointer with a string constant. *)
Fixpoint mem_strcmp (l r : list Z) : outcome Z :=
  match l with
  | [] => Stop Oob
  | a :: l =>
      let b := hd 0 r in
      if decide (a = 0 \/ a <> b) then Val (a - b) else mem_strcmp l (tl r)
  end.

(** ** Paths *)

(** [src/kernel/fs.c:51-57] normalize_path, the copy of the path; [out_len] bytes
    are in [out] *)
Fixpoint normalize_copy (source out : list Z) (out_len : Z) : outcome (list Z * Z) :=
  match source with
  | [] => Stop Oob
  | c :: rest =>
      if decide (c <> 0 /\ out_len + 1 < Z.of_nat MGCORE_PATH_MAX) then
        previous ← (if decide (out_len > 0) then aget out (out_len - 1) else Val 0);
        if decide (c = slash /\ out_len > 0 /\ previous = slash) then normalize_copy rest out out_len
        else
          out ← aset out out_len c;
          normalize_copy rest out (out_len + 1)
      else Val (out, out_len)
  end.

(** [src/kernel/fs.c:41-49] normalize_path, starting from the working directory *)
Definition normalize_start (relative : bool) (cwd out : list Z) : outcome (list Z * Z) :=
  if relative then
    out ← vstrcpy out (cstr cwd);
    let out_len := Z.of_nat (length (cstr out)) in
    previous ← (if decide (out_len > 1) then aget out (out_len - 1) else Val slash);
    if decide (out_len > 1 /\ previous <> slash) then
      out ← aset out out_len slash;
      out ← aset out (out_len + 1) 0;
      Val (out, out_len + 1)
    else Val (out, out_len)
  else Val (out, 0).

(** [src/kernel/fs.c:32-59] normalize_path; [cwd] is the array of the current task *)
Definition normalize_path (cwd : list Z) (path : option (list Z)) (out : list Z) : outcome (list Z) :=
  match path with
  | None => vstrcpy out (str "/")
  | Some path =>
      first ← aget path 0;
      if decide (first = 0) then vstrcpy out (str "/")
      else
        '(out, out_len) ← normalize_start (bool_decide (first <> slash)) cwd out;
        '(out, out_len) ← normalize_copy path out out_len;
        aset out out_len 0
  end.

(** [src/kernel/fs.c:120-133] parse_cpio_hex, the digits; [None] for a byte that is
    not a hexadecimal digit *)
Fixpoint parse_hex (text : list Z) (value : Z) : option Z :=
  match text with
  | [] => Some value
  | c :: text =>
      let value := u32 (Z.shiftl value 4) in
      if decide (48 <= c <= 57) then parse_hex text (Z.lor value (c - 48))
      else if decide (97 <= c <= 102) then parse_hex text (Z.lor value (c - 97 + 10))
      else if decide (65 <= c <= 70) then parse_hex text (Z.lor value (c - 65 + 10))
      else None
  end.

(** [src/kernel/fs.c:120-133] parse_cpio_hex; on a bad digit [*out] keeps its value *)
Definition parse_cpio_hex (text : list Z) (out : Z) : Z * Z :=
  match parse_hex text 0 with
  | Some value => (0, value)
  | None => (-1, out)
  end.

(** [src/kernel/fs.c:106-118] fill_stat_from_node; the result is the status and the
    buffer afterwards *)
Definition fill_stat_from_node (node : option vfs_node) (statbuf : option mgcore_stat)
  : Z * option mgcore_stat :=
  match node, statbuf with
  | Some n, Some _ =>
      (0, Some (Stat (u64 (n_id n + 1)) 1 (n_mode n) (i64 (n_size n)) 4096
                     (i64 (u64 (n_size n + 511) / 512))))
  | _, _ => (- EINVAL, statbuf)
  end.

Section Fs.
Context {C : Type} `{Terminal C}.

(** ** Field updates *)

Definition with_tmpfs (t : tmpfs) (s : fsys C) : fsys C :=
  Fsys t (g_open_files s) (fs_tasks s) (fs_console s).
Definition with_files (f : list vfs_file) (s : fsys C) : fsys C :=
  Fsys (fs_tmpfs s) f (fs_tasks s) (fs_console s).
Definition with_fs_tasks (t : task_table) (s : fsys C) : fsys C :=
  Fsys (fs_tmpfs s) (g_open_files s) t (fs_console s).
Definition with_fs_console (c : C) (s : fsys C) : fsys C :=
  Fsys (fs_tmpfs s) (g_open_files s) (fs_tasks s) c.

(** [normalize_path] into a local [char resolved[256]], on the current task. *)
Definition resolved_path (path : option (list Z)) (s : fsys C) : outcome (option (list Z)) :=
  t ← task_current (fs_tasks s);
  out ← normalize_path (t_cwd t) path (replicate MGCORE_PATH_MAX 0);
  Val (Some (cstr out)).

(** ** Open files *)

(** [src/kernel/fs.c:61-72] alloc_open_file *)
Definition alloc_open_file (s : fsys C) : outcome (Z * fsys C) :=
  match first_index (fun f => bool_decide (f_used f = 0)) (g_open_files s) 0 with
  | None => Val (- ENFILE, s)
  | Some i =>
      f ← aget (g_open_files s) i;
      files ← aset (g_open_files s) i (File 1 1 (f_node_id f) 0 (f_flags f));
      Val (i, with_files files s)
  end.

(** [src/kernel/fs.c:76-81] attach_fd, the search; [n] descriptors from [fd] on are left *)
Fixpoint free_fd (n : nat) (fd : Z) (fds : list (option Z)) : outcome (option Z) :=
  match n with
  | O => Val None
  | S n =>
      slot ← aget fds fd;
      match slot with
      | None => Val (Some fd)
      | Some _ => free_fd n (fd + 1) fds
      end
  end.

(** [src/kernel/fs.c:74-84] attach_fd, for the current task *)
Definition attach_fd (open_id : Z) (s : fsys C) : outcome (Z * fsys C) :=
  t ← task_current (fs_tasks s);
  fd ← free_fd (MGCORE_MAX_FDS - 3) 3 (t_fds t);
  match fd with
  | Some fd =>
      fds ← aset (t_fds t) fd (Some open_id);
      tasks ← upd_task (g_current_index (fs_tasks s)) (set_fds fds) (fs_tasks s);
      Val (fd, with_fs_tasks tasks s)
  | None =>
      f ← aget (g_open_files s) open_id;
      files ← aset (g_open_files s) open_id
                (File 0 (f_refs f) (f_node_id f) (f_offset f) (f_flags f));
      Val (- EMFILE, with_files files s)
  end.

(** [src/kernel/fs.c:86-92] lookup_file; the pointer is an index into [g_open_files] *)
Definition lookup_file (fd : Z) (s : fsys C) : outcome (option Z) :=
  t ← task_current (fs_tasks s);
  if decide (fd < 0 \/ fd >= Z.of_nat MGCORE_MAX_FDS) then Val None
  else aget (t_fds t) fd.

(** [src/kernel/fs.c:94-104] init_device_node *)
Definition init_device_node (path : list Z) (device : Z) (s : fsys C) : outcome (fsys C) :=
  '(node_id, t) ← tmpfs_create_path (Some path) VFS_NODE_CHARDEV 438 (fs_tmpfs s);
  node_id ← (if decide (node_id < 0) then tmpfs_lookup_path (Some path) t else Val node_id);
  node ← tmpfs_get_node node_id t;
  match node with
  | Some _ => t ← upd_node node_id (set_device device) t; Val (with_tmpfs t s)
  | None => Val (with_tmpfs t s)
  end.

(** [src/kernel/fs.c:137-140] fs_init, one directory *)
Definition init_directory (path : list Z) (mode : Z) (s : fsys C) : outcome (fsys C) :=
  '(_, t) ← tmpfs_create_path (Some path) VFS_NODE_DIR mode (fs_tmpfs s);
  Val (with_tmpfs t s).

(** [src/kernel/fs.c:135-146] fs_init *)
Definition fs_init (s : fsys C) : outcome (fsys C) :=
  t ← tmpfs_init (fs_tmpfs s);
  let s := with_tmpfs t s in
  s ← init_directory (str "/dev") 493 s;
  s ← init_directory (str "/bin") 493 s;
  s ← init_directory (str "/tmp") 511 s;
  s ← init_directory (str "/etc") 493 s;
  s ← init_device_node (str "/dev/console") DEV_CONSOLE s;
  s ← init_device_node (str "/dev/tty") DEV_TTY s;
  s ← init_device_node (str "/dev/null") DEV_NULL s;
  s ← init_device_node (str "/dev/zero") DEV_ZERO s;
  c ← console_writeln (str "fs: tmpfs root mounted") [] (fs_console s);
  Val (with_fs_console c s).

(** ** Operations on descriptors *)

(** [src/kernel/fs.c:203-223] fs_open_path *)
Definition fs_open_path (path : option (list Z)) (flags mode : Z) (s : fsys C) : outcome (Z * fsys C) :=
  resolved ← resolved_path path s;
  node_id ← tmpfs_lookup_path resolved (fs_tmpfs s);
  '(node_id, t) ← (if decide (node_id < 0 /\ Z.land flags O_CREAT <> 0)
                   then tmpfs_create_path resolved VFS_NODE_FILE (u32 mode) (fs_tmpfs s)
                   else Val (node_id, fs_tmpfs s));
  let s := with_tmpfs t s in
  if decide (node_id < 0) then Val (node_id, s)
  else
    '(open_id, s) ← alloc_open_file s;
    if decide (open_id < 0) then Val (open_id, s)
    else
      f ← aget (g_open_files s) open_id;
      files ← aset (g_open_files s) open_id (File (f_used f) (f_refs f) node_id (f_offset f) flags);
      attach_fd open_id (with_files files s).

(** [src/kernel/fs.c:232-237] fs_read_fd, from the console: bytes until none is
    pending; [n] are left to read, [i] have been.  Lines 255-260 are the same loop. *)
Fixpoint read_console (n : nat) (i : Z) (buffer : list Z) (c : C) : outcome (Z * list Z * C) :=
  match n with
  | O => Val (i, buffer, c)
  | S n =>
      '(byte, c) ← console_try_read_char c;
      match byte with
      | None => Val (i, buffer, c)
      | Some b =>
          buffer ← aset buffer i b;
          read_console n (i + 1) buffer c
      end
  end.

Definition read_terminal (buffer : list Z) (count : Z) (s : fsys C) : outcome (Z * list Z * fsys C) :=
  '(i, buffer, c) ← read_console (Z.to_nat count) 0 buffer (fs_console s);
  Val (i, buffer, with_fs_console c s).

(** [src/kernel/fs.c:225-269] fs_read_fd; [buffer] is the array the caller's pointer
    addresses, returned with the bytes stored *)
Definition fs_read_fd (fd : Z) (buffer : list Z) (count : Z) (s : fsys C)
  : outcome (Z * list Z * fsys C) :=
  file ← lookup_file fd s;
  match file with
  | None => if decide (fd = 0) then read_terminal buffer count s else Val (- EBADF, buffer, s)
  | Some f =>
      file ← aget (g_open_files s) f;
      node ← tmpfs_get_node (f_node_id file) (fs_tmpfs s);
      match node with
      | None => Val (- EBADF, buffer, s)
      | Some n =>
          if decide (n_type n = VFS_NODE_CHARDEV /\ device_id n = DEV_ZERO) then
            buffer ← awrite buffer 0 (replicate (Z.to_nat count) 0);
            Val (i64 count, buffer, s)
          else if decide (n_type n = VFS_NODE_CHARDEV
                          /\ (device_id n = DEV_NULL \/ device_id n = DEV_CONSOLE \/ device_id n = DEV_TTY))
          then read_terminal buffer count s
          else
            '(i, buffer) ← tmpfs_read_node (f_node_id file) buffer count (f_offset file) (fs_tmpfs s);
            if decide (i >= 0) then
              files ← aset (g_open_files s) f
                (File (f_used file) (f_refs file) (f_node_id file) (u64 (f_offset file + i)) (f_flags file));
              Val (i, buffer, with_files files s)
            else Val (i, buffer, s)
      end
  end.

Definition write_terminal (buffer : list Z) (count : Z) (s : fsys C) : outcome (Z * fsys C) :=
  c ← console_write_n buffer count (fs_console s);
  Val (i64 count, with_fs_console c s).

(** [src/kernel/fs.c:271-295] fs_write_fd *)
Definition fs_write_fd (fd : Z) (buffer : list Z) (count : Z) (s : fsys C) : outcome (Z * fsys C) :=
  file ← lookup_file fd s;
  match file with
  | None => if decide (fd = 1 \/ fd = 2) then write_terminal buffer count s else Val (- EBADF, s)
  | Some f =>
      file ← aget (g_open_files s) f;
      node ← tmpfs_get_node (f_node_id file) (fs_tmpfs s);
      match node with
      | None => Val (- EBADF, s)
      | Some n =>
          if decide (n_type n = VFS_NODE_CHARDEV /\ device_id n = DEV_NULL) then Val (i64 count, s)
          else if decide (n_type n = VFS_NODE_CHARDEV /\ (device_id n = DEV_CONSOLE \/ device_id n = DEV_TTY))
          then write_terminal buffer count s
          else
            '(r, t) ← tmpfs_write_node (f_node_id file) buffer count (f_offset file) (fs_tmpfs s);
            Val (r, with_tmpfs t s)
      end
  end.

(** [src/kernel/fs.c:297-308] fs_close_fd *)
Definition fs_close_fd (fd : Z) (s : fsys C) : outcome (Z * fsys C) :=
  t ← task_current (fs_tasks s);
  file ← lookup_file fd s;
  match file with
  | None => Val (if decide (0 <= fd <= 2) then 0 else - EBADF, s)
  | Some f =>
      file ← aget (g_open_files s) f;
      let refs := f_refs file - 1 in
      files ← aset (g_open_files s) f
        (if decide (refs <= 0) then zero_file
         else File (f_used file) refs (f_node_id file) (f_offset file) (f_flags file));
      fds ← aset (t_fds t) fd None;
      tasks ← upd_task (g_current_index (fs_tasks s)) (set_fds fds) (fs_tasks s);
      Val (0, with_fs_tasks tasks (with_files files s))
  end.

(** [src/kernel/fs.c:310-325] fs_lseek_fd; the offset argument is signed *)
Definition fs_lseek_fd (fd offset whence : Z) (s : fsys C) : outcome (Z * fsys C) :=
  file ← lookup_file fd s;
  match file with
  | None => Val (- EBADF, s)
  | Some f =>
      file ← aget (g_open_files s) f;
      node ← tmpfs_get_node (f_node_id file) (fs_tmpfs s);
      match node with
      | None => Val (- EBADF, s)
      | Some n =>
          let seek target :=
            files ← aset (g_open_files s) f
              (File (f_used file) (f_refs file) (f_node_id file) target (f_flags file));
            Val (i64 target, with_files files s) in
          if decide (whence = SEEK_SET) then seek (u64 offset)
          else if decide (whence = SEEK_CUR) then seek (u64 (f_offset file + u64 offset))
          else if decide (whence = SEEK_END) then seek (u64 (n_size n + u64 offset))
          else Val (- EINVAL, s)
      end
  end.

(** ** Operations on paths *)

(** [src/kernel/fs.c:327-331] fs_stat_path *)
Definition fs_stat_path (path : option (list Z)) (statbuf : option mgcore_stat) (s : fsys C)
  : outcome (Z * option mgcore_stat) :=
  resolved ← resolved_path path s;
  id ← tmpfs_lookup_path resolved (fs_tmpfs s);
  node ← tmpfs_get_node id (fs_tmpfs s);
  Val (fill_stat_from_node node statbuf).

(** [src/kernel/fs.c:333-339] fs_fstat_fd *)
Definition fs_fstat_fd (fd : Z) (statbuf : option mgcore_stat) (s : fsys C)
  : outcome (Z * option mgcore_stat) :=
  file ← lookup_file fd s;
  match file with
  | None => Val (- EBADF, statbuf)
  | Some f =>
      file ← aget (g_open_files s) f;
      node ← tmpfs_get_node (f_node_id file) (fs_tmpfs s);
      Val (fill_stat_from_node node statbuf)
  end.

(** [src/kernel/fs.c:341-345] fs_mkdir_path *)
Definition fs_mkdir_path (path : option (list Z)) (mode : Z) (s : fsys C) : outcome (Z * fsys C) :=
  resolved ← resolved_path path s;
  '(r, t) ← tmpfs_create_path resolved VFS_NODE_DIR mode (fs_tmpfs s);
  Val (r, with_tmpfs t s).

(** [src/kernel/fs.c:347-351] fs_rmdir_path *)
Definition fs_rmdir_path (path : option (list Z)) (s : fsys C) : outcome (Z * fsys C) :=
  resolved ← resolved_path path s;
  '(r, t) ← tmpfs_remove_path resolved true (fs_tmpfs s);
  Val (r, with_tmpfs t s).

(** [src/kernel/fs.c:353-357] fs_unlink_path *)
Definition fs_unlink_path (path : option (list Z)) (s : fsys C) : outcome (Z * fsys C) :=
  resolved ← resolved_path path s;
  '(r, t) ← tmpfs_remove_path resolved false (fs_tmpfs s);
  Val (r, with_tmpfs t s).

(** [src/kernel/fs.c:372-373] fs_chdir_path, storing the directory *)
Definition store_cwd (cwd resolved : list Z) : outcome (list Z) :=
  cwd ← awrite cwd 0 (vstrncpy 127 resolved);
  aset cwd 127 0.

(** [src/kernel/fs.c:359-375] fs_chdir_path *)
Definition fs_chdir_path (path : option (list Z)) (s : fsys C) : outcome (Z * fsys C) :=
  resolved ← resolved_path path s;
  node_id ← tmpfs_lookup_path resolved (fs_tmpfs s);
  if decide (node_id < 0) then Val (node_id, s)
  else
    node ← tmpfs_get_node node_id (fs_tmpfs s);
    match node with
    | Some n =>
        if decide (n_type n <> VFS_NODE_DIR) then Val (- ENOTDIR, s)
        else
          t ← task_current (fs_tasks s);
          cwd ← store_cwd (t_cwd t) (default [] resolved);
          tasks ← upd_task (g_current_index (fs_tasks s)) (set_cwd cwd) (fs_tasks s);
          Val (0, with_fs_tasks tasks s)
    | None => Val (- ENOTDIR, s)
    end.

(** [src/kernel/fs.c:377-379] fs_getcwd *)
Definition fs_getcwd (s : fsys C) : outcome (list Z) := t ← task_current (fs_tasks s); Val (t_cwd t).

(** [src/kernel/fs.c:381-383] fs_dump_root *)
Definition fs_dump_root (s : fsys C) : outcome (fsys C) :=
  c ← tmpfs_dump_root (fs_tmpfs s) (fs_console s); Val (with_fs_console c s).

(** ** The initramfs archive *)

(** [(x + 3) & ~3U]. *)
Definition round4 (x : Z) : Z := Z.land (u32 (x + 3)) (u32_not 3).

(** [src/kernel/fs.c:155-165] fs_mount_initramfs, the fields of one header: mode, file
    size and name size *)
Definition cpio_header (header : list Z) : Z * Z * Z :=
  let field off := snd (parse_cpio_hex (take 8 (drop off header)) 0) in
  (field 14%nat, field 54%nat, field 94%nat).

(** [src/kernel/fs.c:192-197] fs_mount_initramfs, creating one entry *)
Definition mount_entry (path : option (list Z)) (mode file_size : Z) (data : list Z) (s : fsys C)
  : outcome (fsys C) :=
  if decide (Z.land mode 61440 = 16384) then
    '(_, t) ← tmpfs_create_path path VFS_NODE_DIR mode (fs_tmpfs s);
    Val (with_tmpfs t s)
  else
    '(node_id, t) ← tmpfs_create_path path VFS_NODE_FILE mode (fs_tmpfs s);
    if decide (node_id >= 0 /\ file_size <> 0) then
      '(_, t) ← tmpfs_write_node node_id data file_size 0 t;
      Val (with_tmpfs t s)
    else Val (with_tmpfs t s).

(** [src/kernel/fs.c:152-201] fs_mount_initramfs, the loop: [archive] is the memory
    from the module's start on, [size] the module's size, [cursor] the offset of
    the next header.  Every turn moves at least a header further. *)
Fixpoint mount_loop (fuel : nat) (archive : list Z) (size cursor : Z) (s : fsys C)
  : outcome (Z * fsys C) :=
  if decide (cursor + 110 > size) then Val (0, s)
  else
    match fuel with
    | O => Stop OutOfFuel
    | S fuel =>
        header ← aread archive cursor 110;
        if decide (vstrncmp 6 header (str "070701") <> 0) then Val (- EINVAL, s)
        else
          let '(mode, file_size, name_size) := cpio_header header in
          if decide (name_size = 0 \/ cursor + 110 + name_size > size) then Val (- EINVAL, s)
          else
            let name := drop (Z.to_nat (cursor + 110)) archive in
            trailer ← mem_strcmp name (str "TRAILER!!!");
            if decide (trailer = 0) then Val (0, s)
            else
              dot ← mem_strcmp name (str ".");
              if decide (dot = 0) then
                mount_loop fuel archive size (cursor + round4 (110 + name_size) + round4 file_size) s
              else
                path ← resolved_path (Some name) s;
                let data := cursor + round4 (110 + name_size) in
                if decide (data + file_size > size) then Val (- EINVAL, s)
                else
                  s ← mount_entry path mode file_size (drop (Z.to_nat data) archive) s;
                  mount_loop fuel archive size (data + round4 file_size) s
    end.

(** [src/kernel/fs.c:148-201] fs_mount_initramfs *)
Definition fs_mount_initramfs (archive : list Z) (size : Z) (s : fsys C) : outcome (Z * fsys C) :=
  mount_loop (Z.to_nat size) archive size 0 s.

End Fs.
