(* ===== verification/FsPath.v ===== *)
(** What [normalize_path] and [fs_chdir_path] of [src/kernel/fs.c] compute: the
    absolute path they build, which components it has, and the working directory
    as an invariant of the current task. *)

From Stdlib Require Import ZArith Lia Ascii.
From stdpp Require Import base gmap list strings.
From S2P Require Import Prelude KString Terminal Vmm Task Tmpfs TmpfsPath TmpfsTree Fs.
Open Scope Z_scope.

(** * Repeated slashes *)

Definition is_slash (c : Z) : bool := bool_decide (c = slash).

Definition ends_slash (s : list Z) : bool := bool_decide (last s = Some slash).

(** The text without the slashes that follow a slash; [after] tells whether a slash
    stands before it. *)
Fixpoint squeeze (after : bool) (p : list Z) : list Z :=
  match p with
  | [] => []
  | c :: p => if is_slash c && after then squeeze after p else c :: squeeze (is_slash c) p
  end.

(** No two slashes in a row. *)
Definition single_slashes (s : list Z) : Prop := squeeze false s = s.

Lemma squeeze_cons after c p :
  squeeze after (c :: p) = if is_slash c && after then squeeze after p else c :: squeeze (is_slash c) p.
Proof. done. Qed.

Lemma ends_slash_snoc s c : ends_slash (s ++ [c]) = is_slash c.
Proof.
  unfold ends_slash, is_slash. rewrite last_snoc. apply bool_decide_ext. split; [by intros [= ->]|by intros ->].
Qed.

Lemma ends_slash_nil : ends_slash [] = false.
Proof. done. Qed.

Lemma squeeze_length after p : (length (squeeze after p) <= length p)%nat.
Proof. revert after. induction p as [|c p IH]; intros after; simpl; [lia|]. case_match; simpl; pose proof (IH after); pose proof (IH (is_slash c)); lia. Qed.

Lemma squeeze_idem p : forall after, squeeze after (squeeze after p) = squeeze after p.
Proof.
  induction p as [|c p IH]; intros after; [done|]. rewrite squeeze_cons. case_match eqn:Hc; [apply IH|].
  rewrite squeeze_cons, Hc, IH. done.
Qed.

Lemma squeeze_fixed_app a : forall after b,
  squeeze after a = a -> squeeze after (a ++ b) = a ++ squeeze (match a with [] => after | _ => ends_slash a end) b.
Proof.
  induction a as [|c a IH]; intros after b Ha; [done|]. simpl app. rewrite squeeze_cons in Ha |- *.
  case_match eqn:Hc.
  - pose proof (squeeze_length after a) as Hl. rewrite Ha in Hl. simpl in Hl. lia.
  - injection Ha as Ha. rewrite IH by done. f_equal. f_equal.
    destruct a as [|d a]; [f_equal; exact (eq_sym (ends_slash_snoc [] c))|].
    unfold ends_slash. by rewrite last_cons_cons.
Qed.

(** A squeezed text goes on being squeezed where it left off. *)
Lemma squeeze_prefix a b : single_slashes a -> squeeze false (a ++ b) = a ++ squeeze (ends_slash a) b.
Proof. intros Ha. rewrite squeeze_fixed_app by done. by destruct a. Qed.

Lemma squeeze_take after n p : squeeze after p = p -> squeeze after (take n p) = take n p.
Proof.
  revert after p. induction n as [|n IH]; intros after [|c p] Hp; [done..|]. rewrite squeeze_cons in Hp.
  rewrite firstn_cons, squeeze_cons. case_match.
  - pose proof (squeeze_length after p) as Hl. rewrite Hp in Hl. simpl in Hl. lia.
  - injection Hp as Hp. by rewrite IH.
Qed.

Lemma squeeze_no_nul after p : no_nul p -> no_nul (squeeze after p).
Proof.
  intros Hp. revert after. induction Hp as [|c p Hc Hp IH]; intros after; [constructor|].
  rewrite squeeze_cons. case_match; [apply IH|]. constructor; [done|apply IH].
Qed.

(** ** Components *)

Lemma tokens_slash_cons p : tokens (slash :: p) = tokens p.
Proof. exact (tokens_app [] p). Qed.

Lemma tokens_squeeze p : forall a,
  tokens (a ++ squeeze (ends_slash a) p) = tokens (a ++ p).
Proof.
  induction p as [|c p IH]; intros a; [done|]. rewrite squeeze_cons. case_match eqn:Hc.
  - apply andb_true_iff in Hc as [Hc Ha]. apply bool_decide_eq_true in Hc. subst c.
    rewrite IH. apply bool_decide_eq_true, last_Some in Ha as [a' ->].
    rewrite <- !app_assoc. cbn [app]. by rewrite (tokens_app a' p), (tokens_app a' (_ :: p)), tokens_slash_cons.
  - rewrite (cons_middle c a (squeeze _ _)), app_assoc, (cons_middle c a p), app_assoc, <- IH.
    by rewrite ends_slash_snoc.
Qed.

(** * normalize_path *)

(** What the result starts with, for a relative path: the working directory and a
    slash. *)
Definition base_path (cwd : list Z) (p : list Z) : list Z :=
  if is_slash (hd 0 p) then []
  else if decide (1 < length cwd)%nat then (if ends_slash cwd then cwd else cwd ++ [slash]) else cwd.

(** The path a name stands for in a working directory. *)
Definition absolute (cwd p : list Z) : list Z := take 255 (squeeze false (base_path cwd p ++ p)).

Lemma aset_after (o rest : list Z) c x :
  aset (o ++ c :: rest) (Z.of_nat (length o)) x = Val (o ++ x :: rest).
Proof.
  rewrite aset_in_range by (rewrite length_app; simpl; lia). rewrite Nat2Z.id.
  rewrite insert_app_r_alt by lia. by rewrite Nat.sub_diag.
Qed.

Lemma aget_last (o rest : list Z) x :
  last o = Some x -> aget (o ++ rest) (Z.of_nat (length o) - 1) = Val x.
Proof.
  intros Hl. apply last_Some in Hl as [o' ->]. rewrite length_app. simpl.
  replace (Z.of_nat (length o' + 1) - 1) with (Z.of_nat (length o')) by lia.
  rewrite aget_nat, <- app_assoc. simpl. by rewrite list_lookup_middle.
Qed.

Lemma normalize_previous (o rest : list Z) :
  exists x, (if decide (Z.of_nat (length o) > 0) then aget (o ++ rest) (Z.of_nat (length o) - 1) else Val 0) = Val x
    /\ (Z.of_nat (length o) > 0 /\ x = slash <-> ends_slash o = true).
Proof.
  pose proof (bool_decide_eq_true (last o = Some slash)) as He. fold (ends_slash o) in He.
  setoid_rewrite He. destruct (last o) as [x|] eqn:Hl.
  - exists x. rewrite decide_True; [split; [by apply aget_last|]|].
    + split; [by intros [_ ->]|]. intros [= ->]. apply last_Some in Hl as [o' ->].
      rewrite length_app. simpl. split; [lia|done].
    + apply last_Some in Hl as [o' ->]. rewrite length_app. simpl. lia.
  - apply last_None in Hl as ->. exists 0. split; [done|]. split; [intros [? _]; simpl in *; lia|done].
Qed.

Lemma normalize_copy_spec p : forall more o rest,
  no_nul p -> length (o ++ rest) = MGCORE_PATH_MAX -> (length o <= 255)%nat ->
  let t := o ++ take (255 - length o) (squeeze (ends_slash o) p) in
  exists rest', normalize_copy (p ++ 0 :: more) (o ++ rest) (Z.of_nat (length o))
    = Val (t ++ rest', Z.of_nat (length t)) /\ length (t ++ rest') = MGCORE_PATH_MAX.
Proof.
  unfold MGCORE_PATH_MAX.
  induction p as [|c p IH]; intros more o rest Hp Hlen Ho.
  - exists rest. cbn [app normalize_copy squeeze]. rewrite decide_False by lia. by rewrite take_nil, app_nil_r.
  - apply Forall_cons in Hp as [Hc Hp]. rewrite squeeze_cons. cbn [app normalize_copy].
    change (Z.of_nat MGCORE_PATH_MAX) with 256. case_decide as Hroom.
    2:{ exists rest. replace (255 - length o)%nat with 0%nat by lia. by rewrite take_0, app_nil_r. }
    destruct (normalize_previous o rest) as (x & -> & Hx). cbn [mbind outcome_bind].
    unfold is_slash. case_decide as Hs.
    + destruct Hs as (-> & Hpos & ->). destruct (ends_slash o) eqn:He; [|exfalso; by apply diff_false_true, Hx].
      rewrite bool_decide_true by done. simpl. specialize (IH more o rest Hp Hlen Ho). by rewrite He in IH.
    + destruct (bool_decide (c = slash) && ends_slash o) eqn:Hb.
      { exfalso. apply andb_true_iff in Hb as [Hb1%bool_decide_eq_true Hb2]. apply Hx in Hb2 as [??]. by apply Hs. }
      destruct rest as [|r rest]; [rewrite length_app in Hlen; simpl in Hlen; lia|].
      rewrite aset_after. cbn [mbind outcome_bind].
      rewrite (cons_middle c o rest), app_assoc.
      destruct (IH more (o ++ [c]) rest Hp) as (rest' & Heq & Hl');
        [rewrite !length_app in *; simpl in *; lia|rewrite length_app; simpl; lia|].
      rewrite ends_slash_snoc in Heq, Hl'. exists rest'.
      replace (Z.of_nat (length o) + 1) with (Z.of_nat (length (o ++ [c]))) by (rewrite length_app; simpl; lia).
      rewrite Heq.
      assert (o ++ take (255 - length o) (c :: squeeze (is_slash c) p)
              = (o ++ [c]) ++ take (255 - length (o ++ [c])) (squeeze (is_slash c) p)) as Ht.
      { replace (255 - length o)%nat with (S (255 - length (o ++ [c]))) by (rewrite length_app; simpl; lia).
        by rewrite firstn_cons, <- app_assoc. }
      unfold is_slash in *. by rewrite Ht.
Qed.

(** The working directory array of a task: an absolute path, terminated. *)
Record cwd_ok (cwd : list Z) : Prop := {
  cwd_array : length cwd = 128%nat;
  cwd_terminated : (length (cstr cwd) < 128)%nat;
  cwd_absolute : head (cstr cwd) = Some slash;
  cwd_single : single_slashes (cstr cwd);
}.

Lemma single_slashes_snoc s : single_slashes s -> ends_slash s = false -> single_slashes (s ++ [slash]).
Proof. intros Hs He. unfold single_slashes. by rewrite squeeze_prefix, He. Qed.

Lemma base_path_spec cwd p :
  cwd_ok cwd -> single_slashes (base_path (cstr cwd) p) /\ no_nul (base_path (cstr cwd) p)
    /\ (length (base_path (cstr cwd) p) <= 128)%nat
    /\ (is_slash (hd 0 p) = false -> exists b, base_path (cstr cwd) p = b ++ [slash]).
Proof.
  intros [_ Ht Ha Hs]. pose proof (cstr_no_nul cwd) as Hn. 
  unfold base_path. destruct (is_slash (hd 0 p)); [by repeat split; try constructor; try (simpl; lia)|].
  case_decide as Hl.
  - destruct (ends_slash (cstr cwd)) eqn:He.
    + do 3 (split; [done || lia|]). intros _. apply bool_decide_eq_true, last_Some in He. done.
    + split; [by apply single_slashes_snoc|]. split; [apply Forall_app; split; [done|by repeat constructor]|].
      rewrite length_app. simpl. split; [lia|eauto].
  - do 3 (split; [done || lia|]). intros _. exists [].
    destruct (cstr cwd) as [|c [|d r]]; [done| |simpl in Hl; lia]. injection Ha as ->. done.
Qed.

Lemma vstrcpy_stores a s : (length s < length a)%nat -> vstrcpy a s = Val (s ++ 0 :: drop (S (length s)) a).
Proof.
  intros Hl. unfold vstrcpy. rewrite awrite_in_range by (rewrite ?length_app; simpl; lia).
  unfold splice. change (Z.to_nat 0) with 0%nat. rewrite take_0, length_app. simpl.
  by rewrite <- app_assoc, Nat.add_1_r.
Qed.

Lemma normalize_start_spec cwd p out :
  cwd_ok cwd -> length out = MGCORE_PATH_MAX ->
  exists rest, normalize_start (bool_decide (hd 0 p <> slash)) cwd out
    = Val (base_path (cstr cwd) p ++ rest, Z.of_nat (length (base_path (cstr cwd) p)))
    /\ length (base_path (cstr cwd) p ++ rest) = MGCORE_PATH_MAX.
Proof.
  intros Hcwd Hout. pose proof Hcwd as [_ Ht _ _]. unfold MGCORE_PATH_MAX in *.
  unfold normalize_start, base_path, is_slash. destruct (decide (hd 0 p = slash)) as [Hp|Hp].
  { rewrite (bool_decide_false (hd 0 p <> slash)) by (intros Hn; by apply Hn). rewrite bool_decide_true by done. by exists out. }
  rewrite (bool_decide_true (hd 0 p <> slash)), bool_decide_false by done.
  rewrite vstrcpy_stores by lia. cbn [mbind outcome_bind].
  rewrite cstr_app_nul by apply cstr_no_nul. set (w := cstr cwd) in *.
  assert (length (drop (S (length w)) out) = 255 - length w)%nat as Hd by (rewrite length_drop; lia).
  destruct (decide (1 < length w)%nat) as [Hl|Hl].
  - destruct (last w) as [x|] eqn:Hx; [|apply last_None in Hx; rewrite Hx in Hl; simpl in Hl; lia].
    rewrite decide_True, (aget_last _ _ x) by (done || lia). cbn [mbind outcome_bind].
    unfold ends_slash. rewrite Hx. case_decide as Hc.
    + rewrite bool_decide_false by (intros [= ->]; by destruct Hc). destruct (drop (S (length w)) out) as [|y r]; [simpl in Hd; lia|].
      rewrite aset_after. cbn [mbind outcome_bind]. rewrite (cons_middle slash w), app_assoc.
      replace (Z.of_nat (length w) + 1) with (Z.of_nat (length (w ++ [slash]))) by (rewrite length_app; simpl; lia).
      rewrite aset_after. exists (0 :: r). split; [done|]. rewrite !length_app. simpl in *. lia.
    + rewrite bool_decide_true by (f_equal; destruct (decide (x = slash)) as [|Hn]; [done|exfalso; apply Hc; split; [lia|done]]).
      eexists. split; [done|]. rewrite length_app. simpl. lia.
  - rewrite decide_False by lia. cbn [mbind outcome_bind]. rewrite decide_False by lia.
    eexists. split; [done|]. rewrite length_app. simpl. lia.
Qed.

Lemma absolute_app cwd p :
  cwd_ok cwd ->
  let b := base_path (cstr cwd) p in
  absolute (cstr cwd) p = b ++ take (255 - length b) (squeeze (ends_slash b) p).
Proof.
  intros Hcwd b. destruct (base_path_spec cwd p Hcwd) as (Hs & _ & Hl & _). fold b in Hs, Hl.
  unfold absolute. fold b. rewrite squeeze_prefix, take_app by done. by rewrite take_ge by lia.
Qed.

Lemma absolute_no_nul cwd p : cwd_ok cwd -> no_nul p -> no_nul (absolute (cstr cwd) p).
Proof.
  intros Hcwd Hp. destruct (base_path_spec cwd p Hcwd) as (_ & Hn & _ & _).
  unfold absolute. apply Forall_take, squeeze_no_nul, Forall_app. done.
Qed.

Lemma absolute_length cwd p : (length (absolute cwd p) < MGCORE_PATH_MAX)%nat.
Proof. unfold absolute, MGCORE_PATH_MAX. rewrite length_take. lia. Qed.

(** The text [normalize_path] leaves in its buffer. *)
Lemma normalize_path_text cwd p more out :
  cwd_ok cwd -> no_nul p -> p <> [] -> length out = MGCORE_PATH_MAX ->
  exists out', normalize_path cwd (Some (p ++ 0 :: more)) out = Val out'
    /\ cstr out' = absolute (cstr cwd) p.
Proof.
  intros Hcwd Hp Hne Hout. pose proof (absolute_app cwd p Hcwd) as Habs.
  pose proof (absolute_no_nul cwd p Hcwd Hp) as Hann. pose proof (absolute_length (cstr cwd) p) as Hal.
  destruct (base_path_spec cwd p Hcwd) as (_ & _ & Hbl & _).
  destruct (normalize_start_spec cwd p out Hcwd Hout) as (rest & Hst & Hlen).
  destruct (normalize_copy_spec p more _ rest Hp Hlen ltac:(lia)) as (rest' & Hcp & Hlen').
  rewrite <- Habs in Hcp, Hlen'. unfold normalize_path.
  destruct p as [|c p]; [done|]. apply Forall_cons in Hp as [Hc Hp].
  change (aget ((c :: p) ++ 0 :: more) 0) with (Val c). cbn [mbind outcome_bind].
  rewrite decide_False by done. change (hd 0 (c :: p)) with c in Hst. rewrite Hst. cbn [mbind outcome_bind].
  rewrite Hcp. cbn [mbind outcome_bind].
  destruct rest' as [|r rest']; [rewrite app_nil_r in Hlen'; lia|].
  rewrite aset_after. eexists. split; [done|]. by apply cstr_app_nul.
Qed.

Lemma tokens_base cwd p :
  cwd_ok cwd -> is_slash (hd 0 p) = false ->
  tokens (base_path (cstr cwd) p ++ p) = tokens (cstr cwd ++ [slash]) ++ tokens p.
Proof.
  intros Hcwd Hp. unfold base_path. rewrite Hp.
  assert (forall w, ends_slash w = true -> tokens (w ++ p) = tokens (w ++ [slash]) ++ tokens p) as Hends.
  { intros w Hw. apply bool_decide_eq_true, last_Some in Hw as [a ->]. rewrite <- !app_assoc. cbn [app].
    by rewrite (tokens_app a p), (tokens_app a [slash]), tokens_slash_cons, app_nil_r. }
  case_decide as Hl.
  - destruct (ends_slash (cstr cwd)) eqn:He; [by apply Hends|].
    rewrite <- app_assoc. apply tokens_app.
  - apply Hends. destruct Hcwd as [_ _ Ha _].
    destruct (cstr cwd) as [|c [|d r]]; [done| |simpl in Hl; lia]. injection Ha as ->. done.
Qed.

Lemma absolute_head cwd p : cwd_ok cwd -> p <> [] -> head (absolute (cstr cwd) p) = Some slash.
Proof.
  intros Hcwd Hp. unfold absolute. assert (head (base_path (cstr cwd) p ++ p) = Some slash) as Hh.
  { unfold base_path. destruct Hcwd as [_ _ Ha _]. destruct (is_slash (hd 0 p)) eqn:Hs.
    - destruct p as [|c p]; [done|]. apply bool_decide_eq_true in Hs. simpl in Hs. by subst c.
    - destruct (cstr cwd) as [|c w]; [done|]. injection Ha as ->.
      case_decide; [destruct (ends_slash _)|]; done. }
  destruct (base_path (cstr cwd) p ++ p) as [|c r]; [done|]. injection Hh as ->. done.
Qed.

Lemma absolute_single cwd p : single_slashes (absolute cwd p).
Proof. unfold single_slashes, absolute. apply squeeze_take, squeeze_idem. Qed.

(** Looking up the normalized path: follow the components of the path, from the
    root or from the directory the working directory names. *)
Definition lookup_from (cwd p : list Z) (fs : tmpfs) : outcome Z :=
  if is_slash (hd 0 p) then follow fs 0 (tokens p)
  else d ← follow fs 0 (tokens (cwd ++ [slash])); if decide (d < 0) then Val d else follow fs d (tokens p).

Lemma lookup_absolute cwd p fs :
  cwd_ok cwd -> p <> [] -> (length (base_path (cstr cwd) p ++ p) < MGCORE_PATH_MAX)%nat ->
  tmpfs_lookup_path (Some (absolute (cstr cwd) p)) fs = lookup_from (cstr cwd) p fs.
Proof.
  unfold MGCORE_PATH_MAX. intros Hcwd Hp Hl. unfold tmpfs_lookup_path.
  rewrite resolve_follow by by apply absolute_head. unfold absolute.
  rewrite take_ge by (pose proof (squeeze_length false (base_path (cstr cwd) p ++ p)); lia).
  rewrite (tokens_squeeze (base_path (cstr cwd) p ++ p) [] : tokens (squeeze false _) = tokens _).
  unfold lookup_from. destruct (is_slash (hd 0 p)) eqn:Hs.
  - unfold base_path. by rewrite Hs.
  - cbn [app]. rewrite tokens_base by done. apply follow_app. lia.
Qed.

(** * Properties *)

(** C16 normalize_path: for every non-empty path and every working directory of a
    task, the function stays inside its 256-byte buffer and leaves in it an
    absolute path without repeated slashes, the squeezed concatenation of the
    working directory (for a relative path) and the path, cut after 255 bytes.
    When nothing is cut, looking the result up walks the components of the path
    from the root, or, for a relative path, from the directory that the working
    directory names. *)
Theorem normalize_path_resolves (cwd p more out : list Z) :
  cwd_ok cwd -> no_nul p -> p <> [] -> length out = MGCORE_PATH_MAX ->
  exists out', normalize_path cwd (Some (p ++ 0 :: more)) out = Val out'
    /\ head (cstr out') = Some slash /\ single_slashes (cstr out')
    /\ cstr out' = take 255 (squeeze false (base_path (cstr cwd) p ++ p))
    /\ ((length (base_path (cstr cwd) p ++ p) < MGCORE_PATH_MAX)%nat -> forall fs,
          tmpfs_lookup_path (Some (cstr out')) fs = lookup_from (cstr cwd) p fs).
Proof.
  intros Hcwd Hp Hne Hout. destruct (normalize_path_text cwd p more out Hcwd Hp Hne Hout) as (out' & Hn & Hc).
  exists out'. split; [done|]. rewrite Hc. split; [by apply absolute_head|].
  split; [apply absolute_single|]. split; [done|]. intros Hl fs. by apply lookup_absolute.
Qed.

Definition etc_cwd : list Z := str "/etc" ++ replicate 124 0.

Lemma etc_cwd_ok : cwd_ok etc_cwd.
Proof. split; [done|vm_compute; lia|done|done]. Qed.

Lemma normalize_path_resolves_witness :
  exists out', normalize_path etc_cwd (Some (str "motd//x" ++ [0])) (replicate 256 7) = Val out'
    /\ cstr out' = str "/etc/motd/x".
Proof.
  destruct (normalize_path_resolves etc_cwd (str "motd//x") [] (replicate 256 7) etc_cwd_ok)
    as (out' & Hn & _ & _ & Hc & _); [repeat constructor; discriminate|discriminate|reflexivity|].
  exists out'. split; [exact Hn|]. rewrite Hc. vm_compute. reflexivity.
Defined.

(** A path that does not fit is cut, not rejected: 300 bytes name the same file as
    their first 255. *)
Example long_path_is_cut :
  (cstr <$> normalize_path etc_cwd (Some (str "/" ++ replicate 300 97 ++ [0])) (replicate 256 0))
  = Val (str "/" ++ replicate 254 97).
Proof. vm_compute. reflexivity. Qed.
