(* ===== verification/FsFile.v ===== *)
(** Descriptors and open files of [src/kernel/fs.c]: the invariant that ties the
    tasks' descriptor tables to [g_open_files], what each operation does to both,
    and reading and writing files through a descriptor. *)

From Stdlib Require Import ZArith Lia Ascii.
From stdpp Require Import base gmap list strings.
From S2P Require Import Prelude KString Terminal Vmm Task Tmpfs TmpfsPath TmpfsTree TmpfsData Fs FsPath.
Open Scope Z_scope.

(** * The invariant *)

Definition points_to (tt : task_table) (i j : nat) (k : Z) : Prop :=
  exists t, g_tasks tt !! i = Some t /\ t_fds t !! j = Some (Some k).

(** Every open descriptor of every task refers to an entry of its own that is in
    use, and every entry in use belongs to a descriptor. *)
Record files_wf (tt : task_table) (files : list vfs_file) : Prop := {
  fw_length : length files = 128%nat;
  fw_file k f : files !! k = Some f ->
    (f_used f = 0 \/ f_used f = 1 /\ f_refs f = 1) /\ in_u64 (f_offset f);
  fw_open i j k : points_to tt i j k ->
    (3 <= j)%nat /\ 0 <= k /\ exists f, files !! Z.to_nat k = Some f /\ f_used f = 1;
  fw_unshared i j i' j' k : points_to tt i j k -> points_to tt i' j' k -> i = i' /\ j = j';
  fw_owned k f : files !! k = Some f -> f_used f = 1 -> exists i j, points_to tt i j (Z.of_nat k);
}.

Record fsys_wf {C} `{TerminalLaws C} (s : fsys C) : Prop := {
  sw_tasks : tasks_wf (fs_tasks s);
  sw_cwd i t : g_tasks (fs_tasks s) !! i = Some t -> used t -> cwd_ok (t_cwd t);
  sw_tmpfs : fs_wf (fs_tmpfs s);
  sw_files : files_wf (fs_tasks s) (g_open_files s);
  sw_console : term_ok (fs_console s);
}.

(** * Descriptor tables *)

Lemma free_fd_spec n : forall fd fds,
  0 <= fd -> fd + Z.of_nat n <= Z.of_nat (length fds) ->
  (free_fd n fd fds = Val None /\ forall y, fd <= y < fd + Z.of_nat n -> exists k, fds !! Z.to_nat y = Some (Some k))
  \/ exists x, free_fd n fd fds = Val (Some x) /\ fd <= x < fd + Z.of_nat n /\ fds !! Z.to_nat x = Some None
       /\ forall y, fd <= y < x -> exists k, fds !! Z.to_nat y = Some (Some k).
Proof.
  induction n as [|n IH]; intros fd fds H0 Hl; cbn [free_fd].
  - left. split; [done|]. lia.
  - destruct (lookup_lt_is_Some_2 fds (Z.to_nat fd) ltac:(lia)) as [slot Hslot].
    rewrite (aget_Some _ _ _ H0 Hslot). cbn [mbind outcome_bind]. destruct slot as [k|].
    + assert (forall y, fd = y -> exists k, fds !! Z.to_nat y = Some (Some k)) as Hfd by (intros y <-; eauto).
      destruct (IH (fd + 1) fds ltac:(lia) ltac:(lia)) as [[-> Hall]|(x & -> & Hx & Hn & Hall)].
      * left. split; [done|]. intros y Hy. destruct (decide (fd = y)); [by apply Hfd|apply Hall; lia].
      * right. exists x. do 2 (split; [done || lia|]). split; [done|].
        intros y Hy. destruct (decide (fd = y)); [by apply Hfd|apply Hall; lia].
    + right. exists fd. split; [done|]. split; [lia|]. split; [done|]. lia.
Qed.

Section Descriptors.
Context {C : Type} `{TerminalLaws C}.

(** The current task's entry. *)
Lemma current_task (s : fsys C) : fsys_wf s ->
  exists t, task_current (fs_tasks s) = Val t
    /\ g_tasks (fs_tasks s) !! Z.to_nat (g_current_index (fs_tasks s)) = Some t
    /\ cwd_ok (t_cwd t) /\ length (t_fds t) = 32%nat.
Proof.
  intros Hs. pose proof (sw_tasks _ Hs) as Htt. pose proof (wf_current _ Htt) as Hc.
  destruct (slot_exists _ _ Htt Hc) as (t & Ht & Hget). exists t. split; [exact Hget|]. split; [done|].
  destruct (wf_cur_state _ Htt _ Ht) as [Hu _]. split; [by eapply sw_cwd|].
  pose proof (wf_entries _ Htt) as He. rewrite Forall_lookup in He. apply (fds_size _ (He _ _ Ht)).
Qed.

(** Replacing the current task's descriptors or directory. *)
Lemma replace_current_wf (tt : task_table) (t t' : task) :
  tasks_wf tt -> g_tasks tt !! Z.to_nat (g_current_index tt) = Some t ->
  t' = set_fds (t_fds t') (set_cwd (t_cwd t') t) ->
  length (t_fds t') = length (t_fds t) -> length (t_cwd t') = length (t_cwd t) ->
  tasks_wf (with_tasks (<[Z.to_nat (g_current_index tt) := t']> (g_tasks tt)) tt).
Proof.
  intros Htt Ht Heq Hf Hc. pose proof (wf_current _ Htt) as Hb.
  destruct (wf_cur_state _ Htt _ Ht) as [Hu Hr].
  assert (t_pid t' = t_pid t /\ t_state t' = t_state t /\ t_name t' = t_name t) as (Hp & Hst & Hn) by (rewrite Heq; done).
  eapply replace_wf; eauto; [lia|..]; unfold used in *; rewrite ?Hst; try done.
  intros [H1 H2 H3]. split; congruence.
Qed.

Definition set_file (k : nat) (f : vfs_file) (s : fsys C) : fsys C := with_files (<[k := f]> (g_open_files s)) s.

Definition set_current (t : task) (s : fsys C) : fsys C :=
  with_fs_tasks (with_tasks (<[Z.to_nat (g_current_index (fs_tasks s)) := t]> (g_tasks (fs_tasks s))) (fs_tasks s)) s.

Lemma upd_current (f : task -> task) (s : fsys C) t :
  fsys_wf s -> g_tasks (fs_tasks s) !! Z.to_nat (g_current_index (fs_tasks s)) = Some t ->
  upd_task (g_current_index (fs_tasks s)) f (fs_tasks s) = Val (fs_tasks (set_current (f t) s)).
Proof.
  intros Hs Ht. pose proof (wf_current _ (sw_tasks _ Hs)). rewrite (upd_task_Val _ _ _ t) by (done || lia). done.
Qed.

(** Changing an entry in place: identity, use and sharing stay. *)
Lemma set_file_wf (s : fsys C) k f f' :
  fsys_wf s -> g_open_files s !! k = Some f -> f_used f' = f_used f -> f_refs f' = f_refs f ->
  in_u64 (f_offset f') -> fsys_wf (set_file k f' s).
Proof.
  intros [Htt Hcwd Hfs Hfw Hcon] Hk Hu Hr Ho. split; try done. cbn.
  destruct Hfw as [Hl Hf Hop Hun Hown]. split.
  - by rewrite length_insert.
  - intros k' f1 Hk'. apply list_lookup_insert_Some in Hk' as [(<- & <- & _)|[_ Hk']]; [|by eapply Hf].
    split; [|done]. rewrite Hu, Hr. apply (Hf _ _ Hk).
  - intros i j k' Hp. destruct (Hop _ _ _ Hp) as (H3 & H4 & f1 & Hf1 & Hu1). do 2 (split; [done|]).
    destruct (decide (k = Z.to_nat k')) as [->|Hne].
    + exists f'. rewrite list_lookup_insert_eq by by eapply lookup_lt_Some. split; [done|]. congruence.
    + exists f1. by rewrite list_lookup_insert_ne.
  - exact Hun.
  - intros k' f1 Hk' Hu1. apply list_lookup_insert_Some in Hk' as [(<- & <- & _)|[_ Hk']]; [|by eapply Hown].
    eapply Hown; [done|congruence].
Qed.

Lemma points_to_set_current (s : fsys C) t t' i j k :
  g_tasks (fs_tasks s) !! Z.to_nat (g_current_index (fs_tasks s)) = Some t ->
  points_to (fs_tasks (set_current t' s)) i j k <->
  (if decide (i = Z.to_nat (g_current_index (fs_tasks s))) then t_fds t' !! j = Some (Some k)
   else points_to (fs_tasks s) i j k).
Proof.
  intros Ht. unfold points_to. cbn. case_decide as Hi.
  - subst i. rewrite list_lookup_insert_eq by by eapply lookup_lt_Some. naive_solver.
  - by rewrite list_lookup_insert_ne by done.
Qed.

Lemma set_current_wf (s : fsys C) t t' files :
  fsys_wf s -> g_tasks (fs_tasks s) !! Z.to_nat (g_current_index (fs_tasks s)) = Some t ->
  t' = set_fds (t_fds t') (set_cwd (t_cwd t') t) ->
  length (t_fds t') = length (t_fds t) -> cwd_ok (t_cwd t') ->
  files_wf (fs_tasks (set_current t' s)) files ->
  fsys_wf (set_current t' (with_files files s)).
Proof.
  intros [Htt Hcwd Hfs Hfw Hcon] Ht Heq Hf Hc Hfw'. destruct (wf_cur_state _ Htt _ Ht) as [Hu _].
  split; try done; cbn.
  - eapply replace_current_wf; eauto. pose proof (cwd_array _ Hc). pose proof (cwd_array _ (Hcwd _ _ Ht Hu)). congruence.
  - intros i t1 Hi Hu1. apply list_lookup_insert_Some in Hi as [(_ & <- & _)|[_ Hi]]; [done|by eapply Hcwd].
Qed.

(** The descriptors of every entry determine [files_wf]. *)
Lemma files_wf_ext tt tt' files :
  (forall i j k, points_to tt' i j k <-> points_to tt i j k) -> files_wf tt files -> files_wf tt' files.
Proof.
  intros He [H1 H2 H3 H4 H5]. split; [done|done|..].
  - intros i j k Hp%He. by eapply H3.
  - intros i j i' j' k Hp%He Hp'%He. by eapply H4.
  - intros k f Hk Hu. destruct (H5 k f Hk Hu) as (i & j & Hp). exists i, j. by apply He.
Qed.

(** A table whose entries keep their descriptors and have proper directories. *)
Lemma with_tasks_wf (s : fsys C) tt' :
  fsys_wf s -> tasks_wf tt' ->
  (forall i t', g_tasks tt' !! i = Some t' -> exists t, g_tasks (fs_tasks s) !! i = Some t
     /\ t_fds t' = t_fds t /\ (used t' -> cwd_ok (t_cwd t'))) ->
  fsys_wf (with_fs_tasks tt' s).
Proof.
  intros [H1 H2 H3 H4 H5] Htt He. split; try done; cbn.
  - intros i t' Hi Hu. destruct (He i t' Hi) as (t & _ & _ & Hc). by apply Hc.
  - eapply files_wf_ext; [|exact H4]. intros i j k. split.
    + intros (t' & Hi & Hj). destruct (He i t' Hi) as (t & Ht & Hf & _). exists t. by rewrite <- Hf.
    + intros (t & Hi & Hj). destruct (lookup_lt_is_Some_2 (g_tasks tt') i) as [t' Ht'].
      { rewrite (wf_length _ Htt), <- (wf_length _ H1). by eapply lookup_lt_Some. }
      destruct (He i t' Ht') as (t2 & Ht2 & Hf & _). exists t'. split; [done|]. rewrite Hf. congruence.
Qed.

(** ** Opening and closing *)

Definition opened (t : task) (fd : Z) (k : nat) (f : vfs_file) (s : fsys C) : fsys C :=
  set_current (set_fds (<[Z.to_nat fd := Some (Z.of_nat k)]> (t_fds t)) t) (set_file k f s).

Definition closed (t : task) (fd : Z) (k : nat) (s : fsys C) : fsys C :=
  set_current (set_fds (<[Z.to_nat fd := None]> (t_fds t)) t) (set_file k zero_file s).

Lemma opened_wf (s : fsys C) t fd k f0 f :
  fsys_wf s -> g_tasks (fs_tasks s) !! Z.to_nat (g_current_index (fs_tasks s)) = Some t ->
  3 <= fd -> t_fds t !! Z.to_nat fd = Some None ->
  g_open_files s !! k = Some f0 -> f_used f0 = 0 ->
  f_used f = 1 -> f_refs f = 1 -> in_u64 (f_offset f) -> fsys_wf (opened t fd k f s).
Proof.
  intros Hs Ht Hfd Hnone Hk Hu0 Hu Hr Ho. pose proof Hs as [Htt Hcwd Hfs [Hl Hf Hop Hun Hown] Hcon].
  assert (forall i j k', points_to (fs_tasks s) i j k' -> 0 <= k' /\ Z.to_nat k' <> k) as Hfresh.
  { intros i j k' Hp. destruct (Hop _ _ _ Hp) as (_ & H4 & f1 & Hf1 & Hu1). split; [done|]. intros <-. congruence. }
  assert (forall i j k', points_to (fs_tasks (opened t fd k f s)) i j k' ->
    (i = Z.to_nat (g_current_index (fs_tasks s)) /\ j = Z.to_nat fd /\ k' = Z.of_nat k)
    \/ points_to (fs_tasks s) i j k') as Hcases.
  { intros i j k' Hp. apply (points_to_set_current (set_file k f s) t) in Hp; [|done]. case_decide as Hi; [|by right].
    cbn in Hp. apply list_lookup_insert_Some in Hp as [(<- & [= <-] & _)|[_ Hp]]; [by left|right].
    exists t. by rewrite Hi. }
  assert (forall i j k', points_to (fs_tasks s) i j k' -> points_to (fs_tasks (opened t fd k f s)) i j k') as Hold.
  { intros i j k' (t1 & Ht1 & Hj). apply (points_to_set_current (set_file k f s) t); [done|].
    case_decide as Hi; [|by exists t1]. cbn. cbn in Hi. subst i. assert (t1 = t) as -> by congruence.
    rewrite list_lookup_insert_ne; [done|]. congruence. }
  eapply (set_current_wf s t); cbn; try done; [by rewrite length_insert|by eapply Hcwd, wf_cur_state|]. split.
  - by rewrite length_insert.
  - intros k' f1 Hk'. apply list_lookup_insert_Some in Hk' as [(<- & <- & _)|[_ Hk']]; [|by eapply Hf]. by split; [right|].
  - intros i j k' Hp. apply Hcases in Hp as [(-> & -> & ->)|Hp].
    + split; [lia|]. split; [lia|]. exists f. rewrite Nat2Z.id. split; [|done].
      apply list_lookup_insert_eq. by eapply lookup_lt_Some.
    + destruct (Hfresh _ _ _ Hp) as [H0' Hne]. destruct (Hop _ _ _ Hp) as (H3 & _ & f1 & Hf1 & Hu1).
      do 2 (split; [done|]). exists f1. by rewrite list_lookup_insert_ne.
  - intros i j i' j' k' Hp Hp'. apply Hcases in Hp as [(-> & -> & Hk1)|Hp]; apply Hcases in Hp' as [(-> & -> & Hk2)|Hp'];
      [done|..|by eapply Hun].
    + destruct (Hfresh _ _ _ Hp') as [_ Hne]. subst k'. by rewrite Nat2Z.id in Hne.
    + destruct (Hfresh _ _ _ Hp) as [_ Hne]. subst k'. by rewrite Nat2Z.id in Hne.
  - intros k' f1 Hk' Hu1. apply list_lookup_insert_Some in Hk' as [(<- & <- & _)|[_ Hk']].
    + eexists _, _. apply (points_to_set_current (set_file k f s) t); [done|].
      rewrite decide_True by done. cbn. apply list_lookup_insert_eq. by eapply lookup_lt_Some.
    + destruct (Hown _ _ Hk' Hu1) as (i & j & Hp). exists i, j. by apply Hold.
Qed.

Lemma closed_wf (s : fsys C) t fd k :
  fsys_wf s -> g_tasks (fs_tasks s) !! Z.to_nat (g_current_index (fs_tasks s)) = Some t ->
  t_fds t !! Z.to_nat fd = Some (Some (Z.of_nat k)) -> fsys_wf (closed t fd k s).
Proof.
  intros Hs Ht Hfd. pose proof Hs as [Htt Hcwd Hfs [Hl Hf Hop Hun Hown] Hcon].
  set (cur := Z.to_nat (g_current_index (fs_tasks s))) in *.
  assert (points_to (fs_tasks s) cur (Z.to_nat fd) (Z.of_nat k)) as Hmine by (by exists t).
  assert (forall i j k', points_to (fs_tasks (closed t fd k s)) i j k' <->
    points_to (fs_tasks s) i j k' /\ k' <> Z.of_nat k) as Hcases.
  { intros i j k'. unfold closed. rewrite (points_to_set_current (set_file k zero_file s) t) by done.
    cbn [set_file with_files fs_tasks]. fold cur. case_decide as Hi; cbn.
    - subst i. destruct (decide (j = Z.to_nat fd)) as [->|Hj].
      + rewrite list_lookup_insert_eq by by eapply lookup_lt_Some.
        split; [done|]. intros [(t1 & Ht1 & Hj) Hne]. assert (t1 = t) as -> by congruence. congruence.
      + rewrite list_lookup_insert_ne by done. split.
        * intros Hk'. split; [by exists t|]. intros ->. apply Hj.
          by destruct (Hun cur j _ _ _ (ex_intro _ t (conj Ht Hk')) Hmine).
        * intros [(t1 & Ht1 & Hj') _]. congruence.
    - split; [|tauto]. intros Hp. split; [done|]. intros ->. apply Hi. by destruct (Hun _ _ _ _ _ Hp Hmine). }
  eapply (set_current_wf s t); cbn; try done; [by rewrite length_insert|by eapply Hcwd, wf_cur_state|]. split.
  - by rewrite length_insert.
  - intros k' f1 Hk'. apply list_lookup_insert_Some in Hk' as [(<- & <- & _)|[_ Hk']]; [|by eapply Hf]. by split; [left|].
  - intros i j k' [Hp Hne]%Hcases. destruct (Hop _ _ _ Hp) as (H3 & H4 & f1 & Hf1 & Hu1).
    do 2 (split; [done|]). exists f1. rewrite list_lookup_insert_ne; [done|]. intros ->. apply Hne. lia.
  - intros i j i' j' k' [Hp _]%Hcases [Hp' _]%Hcases. by eapply Hun.
  - intros k' f1 Hk' Hu1. apply list_lookup_insert_Some in Hk' as [(_ & <- & _)|[Hne Hk']]; [done|].
    destruct (Hown _ _ Hk' Hu1) as (i & j & Hp). exists i, j. apply Hcases. split; [done|]. lia.
Qed.

(** What a descriptor of the current task refers to. *)
Definition open_at (s : fsys C) (fd : Z) (k : nat) (f : vfs_file) : Prop :=
  exists t, task_current (fs_tasks s) = Val t /\ 3 <= fd < 32
    /\ t_fds t !! Z.to_nat fd = Some (Some (Z.of_nat k)) /\ g_open_files s !! k = Some f
    /\ f_used f = 1 /\ f_refs f = 1.

Lemma lookup_file_spec (s : fsys C) fd : fsys_wf s ->
  lookup_file fd s = Val None
  \/ exists k f, lookup_file fd s = Val (Some (Z.of_nat k)) /\ open_at s fd k f.
Proof.
  intros Hs. destruct (current_task s Hs) as (t & Hcur & Ht & _ & Hl). unfold lookup_file.
  rewrite Hcur. cbn [mbind outcome_bind]. change (Z.of_nat MGCORE_MAX_FDS) with 32. case_decide as Hr; [by left|].
  destruct (lookup_lt_is_Some_2 (t_fds t) (Z.to_nat fd) ltac:(lia)) as [slot Hslot].
  rewrite (aget_Some _ fd _ ltac:(lia) Hslot). destruct slot as [k|]; [right|by left].
  pose proof (sw_files _ Hs) as Hfw.
  destruct (fw_open _ _ Hfw (Z.to_nat (g_current_index (fs_tasks s))) (Z.to_nat fd) k) as (H3 & H4 & f & Hf & Hu);
    [by exists t|]. exists (Z.to_nat k), f. rewrite Z2Nat.id by done. split; [done|]. exists t.
  rewrite Z2Nat.id by done. destruct (fw_file _ _ Hfw _ _ Hf) as [[?|[_ Hrf]] _]; [lia|].
  repeat split; done || lia.
Qed.

Lemma lookup_file_open (s : fsys C) fd k f :
  open_at s fd k f -> lookup_file fd s = Val (Some (Z.of_nat k)) /\ aget (g_open_files s) (Z.of_nat k) = Val f.
Proof.
  intros (t & Hcur & Hfd & Hslot & Hf & _). split.
  - unfold lookup_file. rewrite Hcur. cbn [mbind outcome_bind]. change (Z.of_nat MGCORE_MAX_FDS) with 32.
    rewrite decide_False by lia. by rewrite (aget_Some _ fd _ ltac:(lia) Hslot).
  - by rewrite aget_nat, Hf.
Qed.

(** The open file entry and descriptor of [fs_open_path] once the node is known. *)
Definition open_node (node_id flags : Z) (s : fsys C) : outcome (Z * fsys C) :=
  '(open_id, s) ← alloc_open_file s;
  if decide (open_id < 0) then Val (open_id, s)
  else
    f ← aget (g_open_files s) open_id;
    files ← aset (g_open_files s) open_id (File (f_used f) (f_refs f) node_id (f_offset f) flags);
    attach_fd open_id (with_files files s).

Inductive open_result (node_id flags : Z) (s : fsys C) (t : task) : Z * fsys C -> Prop :=
| open_no_file : Forall (fun f => f_used f = 1) (g_open_files s) ->
    open_result node_id flags s t (- ENFILE, s)
| open_no_fd k f : g_open_files s !! k = Some f -> f_used f = 0 ->
    (forall j, 3 <= j < 32 -> exists k', t_fds t !! Z.to_nat j = Some (Some k')) ->
    open_result node_id flags s t (- EMFILE, set_file k (File 0 1 node_id 0 flags) s)
| open_fd k f fd : g_open_files s !! k = Some f -> f_used f = 0 ->
    (forall k' f', (k' < k)%nat -> g_open_files s !! k' = Some f' -> f_used f' = 1) ->
    3 <= fd < 32 -> t_fds t !! Z.to_nat fd = Some None ->
    (forall j, 3 <= j < fd -> exists k', t_fds t !! Z.to_nat j = Some (Some k')) ->
    open_result node_id flags s t (fd, opened t fd k (File 1 1 node_id 0 flags) s).

Lemma alloc_open_file_spec (s : fsys C) : fsys_wf s ->
  alloc_open_file s = Val (- ENFILE, s) /\ Forall (fun f => f_used f = 1) (g_open_files s)
  \/ exists k f, alloc_open_file s = Val (Z.of_nat k, set_file k (File 1 1 (f_node_id f) 0 (f_flags f)) s)
       /\ g_open_files s !! k = Some f /\ f_used f = 0
       /\ forall k' f', (k' < k)%nat -> g_open_files s !! k' = Some f' -> f_used f' = 1.
Proof.
  intros Hs. unfold alloc_open_file.
  assert (forall k f, g_open_files s !! k = Some f -> bool_decide (f_used f = 0) = false -> f_used f = 1) as Hused.
  { intros k f Hk Hne%bool_decide_eq_false. by destruct (fw_file _ _ (sw_files _ Hs) _ _ Hk) as [[?|[? _]] _]. }
  destruct (first_index _ _ _) as [i|] eqn:Hi; [right|left].
  - apply first_index_Some in Hi as (Hi0 & (f & Hf & Hu) & Hbefore). rewrite Z.sub_0_r in Hf.
    apply bool_decide_eq_true in Hu. exists (Z.to_nat i), f. pose proof (lookup_lt_Some _ _ _ Hf) as Hlt.
    rewrite <- (Z2Nat.id i) by lia. set (k := Z.to_nat i) in *. rewrite !Nat2Z.id.
    rewrite (aget_lookup _ _ _ Hf). cbn [mbind outcome_bind]. rewrite aset_lookup by done.
    do 3 (split; [done|]). intros k' f' Hk' Hf'. eapply Hused; [done|].
    apply (Hbefore (Z.of_nat k')); [lia|]. by rewrite Z.sub_0_r, Nat2Z.id.
  - split; [done|]. rewrite first_index_None, Forall_lookup in Hi. apply Forall_lookup. intros k f Hk.
    eapply Hused; [done|]. by apply (Hi k).
Qed.

(** The entry [k], just filled, gets a descriptor or is given back. *)
Lemma attach_fd_spec (s : fsys C) k f t :
  fsys_wf s -> task_current (fs_tasks s) = Val t -> (k < 128)%nat ->
  let s1 := set_file k f s in
  attach_fd (Z.of_nat k) s1 = Val (- EMFILE, set_file k (File 0 (f_refs f) (f_node_id f) (f_offset f) (f_flags f)) s)
    /\ (forall j, 3 <= j < 32 -> exists k', t_fds t !! Z.to_nat j = Some (Some k'))
  \/ exists fd, attach_fd (Z.of_nat k) s1 = Val (fd, opened t fd k f s)
       /\ 3 <= fd < 32 /\ t_fds t !! Z.to_nat fd = Some None
       /\ forall j, 3 <= j < fd -> exists k', t_fds t !! Z.to_nat j = Some (Some k').
Proof.
  intros Hs Hcur Hk s1. destruct (current_task s Hs) as (t' & Hcur' & Ht & _ & Hl).
  rewrite Hcur in Hcur'. injection Hcur' as <-. pose proof (fw_length _ _ (sw_files _ Hs)) as Hlen.
  unfold attach_fd. change (fs_tasks s1) with (fs_tasks s). rewrite Hcur. cbn [mbind outcome_bind].
  destruct (free_fd_spec (MGCORE_MAX_FDS - 3) 3 (t_fds t) ltac:(lia)) as [[-> Hall]|(x & -> & Hx & Hnone & Hall)];
    [unfold MGCORE_MAX_FDS; lia|..]; cbn [mbind outcome_bind].
  - left. split; [|exact Hall]. cbn [s1 set_file with_files g_open_files].
    rewrite (aget_lookup _ _ f) by (apply list_lookup_insert_eq; lia). cbn [mbind outcome_bind].
    rewrite aset_lookup by (rewrite length_insert; lia). cbn [mbind outcome_bind].
    by rewrite list_insert_insert_eq.
  - right. exists x. split; [|split; [change (Z.of_nat (MGCORE_MAX_FDS - 3)) with 29 in Hx; lia|done]].
    rewrite aset_in_range by (rewrite Hl; change (Z.of_nat (MGCORE_MAX_FDS - 3)) with 29 in Hx; lia).
    cbn [mbind outcome_bind]. rewrite (upd_current _ s t) by done. done.
Qed.

Lemma open_node_spec (s : fsys C) node_id flags t :
  fsys_wf s -> task_current (fs_tasks s) = Val t ->
  exists r, open_node node_id flags s = Val r /\ open_result node_id flags s t r.
Proof.
  intros Hs Hcur. unfold open_node. pose proof (fw_length _ _ (sw_files _ Hs)) as Hlen.
  destruct (alloc_open_file_spec s Hs) as [[-> Hall]|(k & f & -> & Hf & Hu & Hbefore)]; cbn [mbind outcome_bind].
  { rewrite decide_True by (unfold ENFILE; lia). eexists. split; [done|by apply open_no_file]. }
  pose proof (lookup_lt_Some _ _ _ Hf) as Hlt. rewrite decide_False by lia.
  cbn [set_file with_files g_open_files].
  rewrite (aget_lookup _ _ (File 1 1 (f_node_id f) 0 (f_flags f))) by by apply list_lookup_insert_eq.
  cbn [mbind outcome_bind]. rewrite aset_lookup by (rewrite length_insert; lia). cbn [mbind outcome_bind].
  rewrite list_insert_insert_eq. cbn [f_used f_refs f_offset].
  destruct (attach_fd_spec s k (File 1 1 node_id 0 flags) t Hs Hcur ltac:(lia))
    as [[Hr Hall]|(fd & Hr & Hfd & Hnone & Hall)]; (eexists; split; [exact Hr|]).
  - by eapply open_no_fd.
  - by eapply open_fd.
Qed.

(** ** Paths of the current task *)

(** The text [normalize_path] hands to tmpfs. *)
Definition full_path (cwd p : list Z) : list Z := if decide (p = []) then str "/" else absolute cwd p.

Lemma full_path_ok cwd p :
  cwd_ok cwd -> no_nul p -> no_nul (full_path (cstr cwd) p) /\ (length (full_path (cstr cwd) p) < MGCORE_PATH_MAX)%nat.
Proof.
  intros Hc Hp. unfold full_path. case_decide; [split; [by repeat constructor|unfold MGCORE_PATH_MAX; simpl; lia]|].
  split; [by apply absolute_no_nul|apply absolute_length].
Qed.

Lemma resolved_path_spec (s : fsys C) p more t :
  fsys_wf s -> task_current (fs_tasks s) = Val t -> no_nul p ->
  resolved_path (Some (p ++ 0 :: more)) s = Val (Some (full_path (cstr (t_cwd t)) p)).
Proof.
  intros Hs Hcur Hp. destruct (current_task s Hs) as (t' & Hcur' & _ & Hcwd & _).
  rewrite Hcur in Hcur'. injection Hcur' as <-. unfold resolved_path. rewrite Hcur. cbn [mbind outcome_bind].
  unfold full_path. case_decide as Hne.
  - subst p. reflexivity.
  - destruct (normalize_path_text (t_cwd t) p more (replicate MGCORE_PATH_MAX 0)) as (out & -> & Hc);
      [done..|apply length_replicate|]. cbn [mbind outcome_bind]. by rewrite Hc.
Qed.

(** [fs_open_path] is a lookup, a creation if asked for, and [open_node]. *)
Lemma open_path_eq (s : fsys C) p more flags mode t :
  fsys_wf s -> task_current (fs_tasks s) = Val t -> no_nul p ->
  let path := Some (full_path (cstr (t_cwd t)) p) in
  fs_open_path (Some (p ++ 0 :: more)) flags mode s =
    node_id ← tmpfs_lookup_path path (fs_tmpfs s);
    '(node_id, tm) ← (if decide (node_id < 0 /\ Z.land flags O_CREAT <> 0)
                      then tmpfs_create_path path VFS_NODE_FILE (u32 mode) (fs_tmpfs s)
                      else Val (node_id, fs_tmpfs s));
    if decide (node_id < 0) then Val (node_id, with_tmpfs tm s) else open_node node_id flags (with_tmpfs tm s).
Proof. intros Hs Hcur Hp path. unfold fs_open_path. by rewrite (resolved_path_spec s p more t). Qed.

Lemma with_tmpfs_wf (s : fsys C) tm : fsys_wf s -> fs_wf tm -> fsys_wf (with_tmpfs tm s).
Proof. intros [] ?. by split. Qed.

Lemma with_console_wf (s : fsys C) c : fsys_wf s -> term_ok c -> fsys_wf (with_fs_console c s).
Proof. intros [] ?. by split. Qed.

Lemma open_result_wf node_id flags (s : fsys C) t r :
  fsys_wf s -> task_current (fs_tasks s) = Val t -> open_result node_id flags s t r -> fsys_wf (snd r).
Proof.
  intros Hs Hcur Hr. destruct (current_task s Hs) as (t' & Hcur' & Ht & _). rewrite Hcur in Hcur'. injection Hcur' as <-.
  assert (in_u64 0) as Hz by (unfold in_u64; lia).
  inversion Hr as [Hall|k f Hk Hu Hfds|k f fd Hk Hu Hb Hfd Hn Hlow]; subst; simpl; [done| |by eapply opened_wf; eauto; lia].
  pose proof Hs as [Htt Hcwd Hfs [Hl Hf Hop Hun Hown] Hcon]. split; try done. cbn. split.
  - by rewrite length_insert.
  - intros k' f1 Hk'. apply list_lookup_insert_Some in Hk' as [(<- & <- & _)|[_ Hk']]; [by split; [left|]|by eapply Hf].
  - intros i j k' Hp. destruct (Hop _ _ _ Hp) as (H3 & H4 & f1 & Hf1 & Hu1). do 2 (split; [done|]).
    exists f1. rewrite list_lookup_insert_ne; [done|]. intros ->. congruence.
  - exact Hun.
  - intros k' f1 Hk' Hu1. apply list_lookup_insert_Some in Hk' as [(<- & <- & _)|[_ Hk']]; [done|by eapply Hown].
Qed.

(** ** Every operation keeps the invariant *)

Lemma get_node_spec fs id : fs_wf fs ->
  tmpfs_get_node id fs = Val None
  \/ exists n, tmpfs_get_node id fs = Val (Some n) /\ 0 <= id /\ g_nodes fs !! Z.to_nat id = Some n /\ live n.
Proof.
  intros [[kids Hwf] _]. unfold tmpfs_get_node. case_decide as Hr; [by left|].
  destruct (lookup_lt_is_Some_2 (g_nodes fs) (Z.to_nat id)) as [n Hn]; [rewrite (tw_length _ _ Hwf); lia|].
  rewrite (aget_Some _ id _ ltac:(lia) Hn). cbn [mbind outcome_bind]. case_decide as Ht; [by left|right].
  exists n. repeat split; done || lia.
Qed.

Lemma read_total fs id buffer count offset :
  fs_wf fs -> 0 <= count <= Z.of_nat (length buffer) -> 0 <= offset ->
  exists r buffer', tmpfs_read_node id buffer count offset fs = Val (r, buffer').
Proof.
  intros Hfs Hc Ho. destruct (get_node_spec fs id Hfs) as [Hg|(n & Hg & Hid & Hn & Hl)].
  - unfold tmpfs_read_node. rewrite Hg. by eexists _, _.
  - destruct (decide (n_type n = VFS_NODE_FILE)) as [Ht|Ht].
    + rewrite <- (Z2Nat.id id) by done. rewrite (read_node_spec fs _ n) by done. by eexists _, _.
    + unfold tmpfs_read_node. rewrite Hg. cbn [mbind outcome_bind]. rewrite decide_True by done. by eexists _, _.
Qed.

Lemma read_console_spec n : forall i buffer (c : C),
  0 <= i -> i + Z.of_nat n <= Z.of_nat (length buffer) -> term_ok c ->
  exists i' buffer' c', read_console n i buffer c = Val (i', buffer', c') /\ i <= i' <= i + Z.of_nat n
    /\ term_ok c' /\ term_sent c' = term_sent c.
Proof.
  induction n as [|n IH]; intros i buffer c Hi Hl Hc; cbn [read_console].
  - exists i, buffer, c. split; [done|]. split; [lia|done].
  - destruct (read_law c Hc) as (r & c1 & -> & Hc1 & Hs1 & _). cbn [mbind outcome_bind].
    destruct r as [b|]; [|exists i, buffer, c1; split; [done|]; split; [lia|done]].
    rewrite aset_in_range by lia. cbn [mbind outcome_bind].
    destruct (IH (i + 1) (<[Z.to_nat i := b]> buffer) c1) as (i' & b' & c' & -> & Hi' & Hc' & Hs');
      [lia|rewrite length_insert; lia|done|].
    exists i', b', c'. split; [done|]. split; [lia|]. split; [done|congruence].
Qed.

Lemma read_terminal_spec (s : fsys C) buffer count :
  fsys_wf s -> 0 <= count <= Z.of_nat (length buffer) ->
  exists r buffer' s', read_terminal buffer count s = Val (r, buffer', s') /\ fsys_wf s'.
Proof.
  intros Hs Hc. unfold read_terminal.
  destruct (read_console_spec (Z.to_nat count) 0 buffer (fs_console s)) as (i & b & c & -> & _ & Hok & _);
    [done|lia|by apply sw_console|]. cbn [mbind outcome_bind]. eexists _, _, _. split; [done|]. by apply with_console_wf.
Qed.

Lemma write_terminal_spec (s : fsys C) buffer count :
  fsys_wf s -> Forall in_u8 buffer -> 0 <= count <= Z.of_nat (length buffer) ->
  exists s', write_terminal buffer count s = Val (i64 count, s') /\ fsys_wf s'
    /\ term_sent (fs_console s') = term_sent (fs_console s) ++ line_text (take (Z.to_nat count) buffer)
    /\ s' = with_fs_console (fs_console s') s.
Proof.
  intros Hs Hb Hc. unfold write_terminal.
  destruct (write_n_spec buffer count (fs_console s) Hb (sw_console _ Hs) Hc) as (c & -> & Hok & Hsent).
  cbn [mbind outcome_bind]. eexists. split; [done|]. split; [by apply with_console_wf|]. done.
Qed.

Lemma close_spec (s : fsys C) fd t :
  fsys_wf s -> task_current (fs_tasks s) = Val t ->
  (fs_close_fd fd s = Val (if decide (0 <= fd <= 2) then 0 else - EBADF, s) /\ lookup_file fd s = Val None)
  \/ exists k f, open_at s fd k f /\ fs_close_fd fd s = Val (0, closed t fd k s).
Proof.
  intros Hs Hcur. destruct (current_task s Hs) as (t' & Hcur' & Ht & _ & Hl).
  rewrite Hcur in Hcur'. injection Hcur' as <-. unfold fs_close_fd. rewrite Hcur. cbn [mbind outcome_bind].
  destruct (lookup_file_spec s fd Hs) as [Hlk|(k & f & Hlk & Hop)]; rewrite Hlk; cbn [mbind outcome_bind]; [by left|right].
  exists k, f. split; [done|]. destruct Hop as (t1 & Hcur1 & Hfd & Hslot & Hf & Hu & Hr).
  rewrite Hcur in Hcur1. injection Hcur1 as <-. pose proof (lookup_lt_Some _ _ _ Hf) as Hlt.
  rewrite (aget_lookup _ _ _ Hf). cbn [mbind outcome_bind]. rewrite aset_lookup by done. cbn [mbind outcome_bind].
  rewrite Hr. rewrite (decide_True (P := 1 - 1 <= 0)) by lia. rewrite aset_in_range by lia. cbn [mbind outcome_bind].
  rewrite (upd_current _ s t) by done. done.
Qed.

(** Closing undoes opening, but for the contents of the entry. *)
Lemma closed_opened (s : fsys C) t fd k f :
  g_tasks (fs_tasks s) !! Z.to_nat (g_current_index (fs_tasks s)) = Some t ->
  t_fds t !! Z.to_nat fd = Some None ->
  closed (set_fds (<[Z.to_nat fd := Some (Z.of_nat k)]> (t_fds t)) t) fd k (opened t fd k f s)
  = with_files (<[k := zero_file]> (g_open_files s)) s.
Proof.
  intros Ht Hn. unfold closed, opened, set_current, set_file.
  cbn [with_files with_fs_tasks with_tasks fs_tasks g_tasks g_current_index g_open_files fs_tmpfs fs_console].
  rewrite !list_insert_insert_eq.
  cbn [set_fds t_fds t_pid t_ppid t_state t_name runtime_ticks wakeup_tick exit_code t_mm t_cwd].
  rewrite list_insert_insert_eq, (list_insert_id (t_fds t)) by done.
  rewrite (list_insert_id (g_tasks _)) by (rewrite Ht; by destruct t).
  unfold with_files, with_fs_tasks. cbn. by destruct (fs_tasks s).
Qed.

Lemma opened_current (s : fsys C) t fd k f :
  fsys_wf s -> task_current (fs_tasks s) = Val t ->
  task_current (fs_tasks (opened t fd k f s)) = Val (set_fds (<[Z.to_nat fd := Some (Z.of_nat k)]> (t_fds t)) t).
Proof.
  intros Hs Hcur. destruct (current_task s Hs) as (t' & Hcur' & Ht & _). rewrite Hcur in Hcur'. injection Hcur' as <-.
  pose proof (wf_current _ (sw_tasks _ Hs)) as Hci. unfold task_current. cbn. apply aget_Some; [lia|].
  apply list_lookup_insert_eq. by eapply lookup_lt_Some.
Qed.

Lemma opened_open_at (s : fsys C) t fd k f :
  fsys_wf s -> task_current (fs_tasks s) = Val t -> (k < 128)%nat -> 3 <= fd < 32 -> f_used f = 1 -> f_refs f = 1 ->
  open_at (opened t fd k f s) fd k f.
Proof.
  intros Hs Hcur Hk Hfd Hu Hr. eexists. split; [by apply opened_current|]. split; [done|].
  destruct (current_task s Hs) as (t' & Hcur' & _ & _ & Hfl). rewrite Hcur in Hcur'. injection Hcur' as <-.
  split; [cbn; apply list_lookup_insert_eq; lia|]. split; [|done]. cbn. apply list_lookup_insert_eq.
  by rewrite (fw_length _ _ (sw_files _ Hs)).
Qed.

Lemma close_opened (s : fsys C) t fd k f :
  fsys_wf s -> task_current (fs_tasks s) = Val t -> fsys_wf (opened t fd k f s) ->
  3 <= fd < 32 -> t_fds t !! Z.to_nat fd = Some None ->
  fs_close_fd fd (opened t fd k f s) = Val (0, with_files (<[k := zero_file]> (g_open_files s)) s).
Proof.
  intros Hs Hcur Hs2 Hfd Hn.
  destruct (current_task s Hs) as (t' & Hcur' & Ht & _ & Hfl). rewrite Hcur in Hcur'. injection Hcur' as <-.
  pose proof (opened_current s t fd k f Hs Hcur) as Hcur1.
  destruct (close_spec _ fd _ Hs2 Hcur1) as [[_ Hlk]|(k' & f' & Hop & ->)].
  - exfalso. unfold lookup_file in Hlk. rewrite Hcur1 in Hlk. cbn [mbind outcome_bind] in Hlk.
    change (Z.of_nat MGCORE_MAX_FDS) with 32 in Hlk. rewrite decide_False in Hlk by lia. cbn in Hlk.
    rewrite (aget_Some _ fd (Some (Z.of_nat k))) in Hlk; [done|lia|]. apply list_lookup_insert_eq. lia.
  - assert (k' = k) as ->.
    { destruct Hop as (t2 & Hcur2 & _ & Hslot & _). rewrite Hcur1 in Hcur2. injection Hcur2 as <-. cbn in Hslot.
      rewrite list_lookup_insert_eq in Hslot by lia. injection Hslot as Hslot. lia. }
    f_equal. f_equal. by apply closed_opened.
Qed.

Lemma close_keeps_wf (s : fsys C) fd : fsys_wf s -> exists r s', fs_close_fd fd s = Val (r, s') /\ fsys_wf s'.
Proof.
  intros Hs. destruct (current_task s Hs) as (t & Hcur & Ht & _).
  destruct (close_spec s fd t Hs Hcur) as [[-> _]|(k & f & Hop & ->)]; eexists _, _; (split; [done|]); [done|].
  destruct Hop as (t1 & Hcur1 & Hfd & Hslot & _). rewrite Hcur in Hcur1. injection Hcur1 as <-. by eapply closed_wf.
Qed.

(** The entry with another offset. *)
Definition at_offset (offset : Z) (f : vfs_file) : vfs_file :=
  File (f_used f) (f_refs f) (f_node_id f) offset (f_flags f).

Lemma at_offset_wf (s : fsys C) fd k f offset :
  fsys_wf s -> open_at s fd k f -> in_u64 offset -> fsys_wf (set_file k (at_offset offset f) s).
Proof. intros Hs (t & _ & _ & _ & Hf & _) Ho. by eapply set_file_wf. Qed.

Lemma aset_open (s : fsys C) fd k f f' :
  open_at s fd k f -> aset (g_open_files s) (Z.of_nat k) f' = Val (<[k := f']> (g_open_files s)).
Proof. intros (t & _ & _ & _ & Hf & _). apply aset_lookup. by eapply lookup_lt_Some. Qed.

Lemma lseek_keeps_wf (s : fsys C) fd offset whence :
  fsys_wf s -> exists r s', fs_lseek_fd fd offset whence s = Val (r, s') /\ fsys_wf s'.
Proof.
  intros Hs. unfold fs_lseek_fd.
  destruct (lookup_file_spec s fd Hs) as [Hlk|(k & f & Hlk & Hop)]; rewrite Hlk; cbn [mbind outcome_bind]; [by eexists _, _|].
  destruct (lookup_file_open s fd k f Hop) as [_ Hget]. rewrite Hget. cbn [mbind outcome_bind].
  destruct (get_node_spec (fs_tmpfs s) (f_node_id f) (sw_tmpfs _ Hs)) as [Hg|(n & Hg & _)]; rewrite Hg;
    cbn [mbind outcome_bind]; [by eexists _, _|].
  repeat case_decide; rewrite ?(aset_open s fd k f) by done; cbn [mbind outcome_bind]; eexists _, _; (split; [done|]); try done;
    eapply at_offset_wf; eauto with cint.
Qed.

Lemma read_keeps_wf (s : fsys C) fd buffer count :
  fsys_wf s -> 0 <= count <= Z.of_nat (length buffer) ->
  exists r buffer' s', fs_read_fd fd buffer count s = Val (r, buffer', s') /\ fsys_wf s'.
Proof.
  intros Hs Hc. unfold fs_read_fd. pose proof (sw_tmpfs _ Hs) as Hfs.
  destruct (lookup_file_spec s fd Hs) as [Hlk|(k & f & Hlk & Hop)]; rewrite Hlk; cbn [mbind outcome_bind].
  { case_decide; [by apply read_terminal_spec|by eexists _, _, _]. }
  destruct (lookup_file_open s fd k f Hop) as [_ Hget]. rewrite Hget. cbn [mbind outcome_bind].
  destruct (get_node_spec (fs_tmpfs s) (f_node_id f) Hfs) as [Hg|(n & Hg & _)]; rewrite Hg;
    cbn [mbind outcome_bind]; [by eexists _, _, _|].
  case_decide as Hz; [|case_decide as Hd; [by apply read_terminal_spec|]].
  - rewrite awrite_in_range by (rewrite ?length_replicate; lia). cbn [mbind outcome_bind]. by eexists _, _, _.
  - assert (in_u64 (f_offset f)) as Ho.
    { destruct Hop as (t & _ & _ & _ & Hf & _). by destruct (fw_file _ _ (sw_files _ Hs) _ _ Hf). }
    destruct (read_total (fs_tmpfs s) (f_node_id f) buffer count (f_offset f) Hfs Hc) as (r & b & ->);
      [unfold in_u64 in Ho; lia|]. cbn [mbind outcome_bind].
    case_decide; [rewrite (aset_open s fd k f) by done|]; cbn [mbind outcome_bind]; eexists _, _, _; (split; [done|]); [|done].
    eapply at_offset_wf; eauto with cint.
Qed.

Lemma read_console_length n : forall i buffer (c c' : C) i' buffer',
  read_console n i buffer c = Val (i', buffer', c') -> length buffer' = length buffer.
Proof.
  induction n as [|n IH]; intros i buffer c c' i' buffer' Hr; cbn [read_console] in Hr; [by inv_outcome|].
  apply bind_Val_inv in Hr as ([[b|] c1] & _ & Hr); [|by inv_outcome].
  apply bind_Val_inv in Hr as (b1 & Hb & Hr). rewrite (IH _ _ _ _ _ _ Hr). by eapply aset_length.
Qed.

(** Reading keeps the size of the caller's array. *)
Lemma read_fd_length (s s' : fsys C) fd buffer count r buffer' :
  fs_read_fd fd buffer count s = Val (r, buffer', s') -> length buffer' = length buffer.
Proof.
  assert (forall s', read_terminal buffer count s = Val (r, buffer', s') -> length buffer' = length buffer) as Hterm.
  { intros s1 Ht. apply bind_Val_inv in Ht as ([[i b] c] & Ht & Hr). inv_outcome. by eapply read_console_length. }
  intros Hr. apply bind_Val_inv in Hr as (file & _ & Hr). destruct file as [f|].
  2: { case_decide; [by eapply Hterm|by inv_outcome]. }
  apply bind_Val_inv in Hr as (file & _ & Hr). apply bind_Val_inv in Hr as ([n|] & _ & Hr); [|by inv_outcome].
  case_decide; [|case_decide; [by eapply Hterm|]].
  - apply bind_Val_inv in Hr as (b & Hb & Hr). inv_outcome. by eapply awrite_length.
  - apply bind_Val_inv in Hr as ([i b] & Hb & Hr). assert (b = buffer') as ->.
    { case_decide; [apply bind_Val_inv in Hr as (? & _ & Hr)|]; by inv_outcome. }
    apply bind_Val_inv in Hb as ([n'|] & _ & Hb); [|by inv_outcome]. do 2 (case_decide; [by inv_outcome|]).
    apply bind_Val_inv in Hb as (bs & _ & Hb). apply bind_Val_inv in Hb as (b & Hb & He). inv_outcome.
    by eapply awrite_length.
Qed.

Definition write_fits (s : fsys C) (fd count : Z) : Prop :=
  forall k f, open_at s fd k f -> f_offset f + count <= 2 ^ 32 - 256.

Lemma write_keeps_fsys_wf (s : fsys C) fd buffer count :
  fsys_wf s -> Forall in_u8 buffer -> 0 <= count <= Z.of_nat (length buffer) -> write_fits s fd count ->
  exists r s', fs_write_fd fd buffer count s = Val (r, s') /\ fsys_wf s'.
Proof.
  intros Hs Hb Hc Hfit. unfold fs_write_fd. pose proof (sw_tmpfs _ Hs) as Hfs.
  assert (exists r s', write_terminal buffer count s = Val (r, s') /\ fsys_wf s') as Hterm.
  { destruct (write_terminal_spec s buffer count Hs Hb Hc) as (s' & -> & Hs' & _). by eexists _, _. }
  destruct (lookup_file_spec s fd Hs) as [Hlk|(k & f & Hlk & Hop)]; rewrite Hlk; cbn [mbind outcome_bind].
  { case_decide; [done|by eexists _, _]. }
  destruct (lookup_file_open s fd k f Hop) as [_ Hget]. rewrite Hget. cbn [mbind outcome_bind].
  destruct (get_node_spec (fs_tmpfs s) (f_node_id f) Hfs) as [Hg|(n & Hg & _)]; rewrite Hg;
    cbn [mbind outcome_bind]; [by eexists _, _|].
  case_decide; [by eexists _, _|]. case_decide; [done|].
  assert (in_u64 (f_offset f)) as Ho.
  { destruct Hop as (t & _ & _ & _ & Hf & _). by destruct (fw_file _ _ (sw_files _ Hs) _ _ Hf). }
  destruct (write_keeps_wf (fs_tmpfs s) (f_node_id f) buffer count (f_offset f) Hfs) as (r & fs' & -> & Hfs').
  { specialize (Hfit _ _ Hop). unfold in_u64 in Ho. simpl. lia. }
  cbn [mbind outcome_bind]. eexists _, _. split; [done|]. by apply with_tmpfs_wf.
Qed.

(** *** Paths *)

Definition path_overlong (s : fsys C) (p : list Z) : Prop :=
  exists t, task_current (fs_tasks s) = Val t
    /\ overlong (OpCreate (full_path (cstr (t_cwd t)) p) VFS_NODE_FILE 0).

Lemma create_full_path (s : fsys C) p type mode t :
  fsys_wf s -> task_current (fs_tasks s) = Val t -> no_nul p -> type <> VFS_NODE_NONE ->
  let path := Some (full_path (cstr (t_cwd t)) p) in
  (exists r tm, tmpfs_create_path path type mode (fs_tmpfs s) = Val (r, tm) /\ fs_wf tm)
  \/ tmpfs_create_path path type mode (fs_tmpfs s) = Stop Oob /\ path_overlong s p.
Proof.
  intros Hs Hcur Hp Ht path. destruct (current_task s Hs) as (t' & Hcur' & _ & Hcwd & _).
  rewrite Hcur in Hcur'. injection Hcur' as <-. destruct (full_path_ok _ p Hcwd Hp) as [Hn Hl].
  destruct (create_keeps_wf (fs_tmpfs s) (full_path (cstr (t_cwd t)) p) type mode (sw_tmpfs _ Hs))
    as [Hok|[Hst Hov]]; [done|by left|right]. split; [done|]. exists t. by split.
Qed.

Lemma lookup_total fs p : fs_wf fs -> no_nul p ->
  exists r, tmpfs_lookup_path (Some p) fs = Val r /\ (r < 0 \/ live_at fs r).
Proof. intros [[kids Hwf] _] Hp. by apply (resolve_live fs kids). Qed.

(** What an open does once the node is known. *)
Lemma open_tail_wf (s : fsys C) t flags id tm :
  fsys_wf s -> task_current (fs_tasks s) = Val t -> fs_wf tm ->
  exists r s', (if decide (id < 0) then Val (id, with_tmpfs tm s) else open_node id flags (with_tmpfs tm s)) = Val (r, s')
    /\ fsys_wf s'.
Proof.
  intros Hs Hcur Htm. pose proof (with_tmpfs_wf s tm Hs Htm) as Hs1. case_decide; [by eexists _, _|].
  destruct (open_node_spec _ id flags t Hs1 Hcur) as ([r s'] & -> & Hr). exists r, s'. split; [done|].
  exact (open_result_wf _ _ _ t (r, s') Hs1 Hcur Hr).
Qed.

Lemma open_keeps_wf (s : fsys C) p more flags mode :
  fsys_wf s -> no_nul p ->
  (exists r s', fs_open_path (Some (p ++ 0 :: more)) flags mode s = Val (r, s') /\ fsys_wf s')
  \/ fs_open_path (Some (p ++ 0 :: more)) flags mode s = Stop Oob /\ path_overlong s p
     /\ Z.land flags O_CREAT <> 0.
Proof.
  intros Hs Hp. destruct (current_task s Hs) as (t & Hcur & _ & Hcwd & _).
  rewrite (open_path_eq s p more flags mode t) by done.
  destruct (full_path_ok _ p Hcwd Hp) as [Hn Hl].
  destruct (lookup_total (fs_tmpfs s) _ (sw_tmpfs _ Hs) Hn) as (id & -> & _). cbn [mbind outcome_bind].
  case_decide as Hc.
  - destruct (create_full_path s p VFS_NODE_FILE (u32 mode) t) as [(r & tm & -> & Htm)|[-> Hov]];
      [done..|left; by eapply open_tail_wf|]. right. split; [done|]. split; [done|]. by destruct Hc.
  - left. apply (open_tail_wf s t); [done|done|by apply sw_tmpfs].
Qed.

Lemma mkdir_keeps_wf (s : fsys C) p more mode :
  fsys_wf s -> no_nul p ->
  (exists r s', fs_mkdir_path (Some (p ++ 0 :: more)) mode s = Val (r, s') /\ fsys_wf s')
  \/ fs_mkdir_path (Some (p ++ 0 :: more)) mode s = Stop Oob /\ path_overlong s p.
Proof.
  intros Hs Hp. destruct (current_task s Hs) as (t & Hcur & _). unfold fs_mkdir_path.
  rewrite (resolved_path_spec s p more t) by done. cbn [mbind outcome_bind].
  destruct (create_full_path s p VFS_NODE_DIR mode t) as [(r & tm & -> & Htm)|[-> Hov]]; [done..| |by right].
  left. eexists _, _. split; [done|]. by apply with_tmpfs_wf.
Qed.

(** [fs_rmdir_path] and [fs_unlink_path]. *)
Lemma remove_path_keeps_wf (s : fsys C) p more want_dir :
  fsys_wf s -> no_nul p ->
  exists r s', (resolved ← resolved_path (Some (p ++ 0 :: more)) s;
                '(r, t) ← tmpfs_remove_path resolved want_dir (fs_tmpfs s); Val (r, with_tmpfs t s)) = Val (r, s')
    /\ fsys_wf s'.
Proof.
  intros Hs Hp. destruct (current_task s Hs) as (t & Hcur & _ & Hcwd & _).
  rewrite (resolved_path_spec s p more t) by done. cbn [mbind outcome_bind].
  destruct (full_path_ok _ p Hcwd Hp) as [Hn _].
  destruct (remove_keeps_wf (fs_tmpfs s) _ want_dir (sw_tmpfs _ Hs) Hn) as (r & tm & -> & Htm). cbn [mbind outcome_bind].
  eexists _, _. split; [done|]. by apply with_tmpfs_wf.
Qed.

(** *** The working directory *)

Lemma store_cwd_spec cwd r :
  length cwd = 128%nat -> no_nul r -> exists cwd', store_cwd cwd r = Val cwd' /\ length cwd' = 128%nat
    /\ cstr cwd' = take 127 r.
Proof.
  intros Hl Hr. unfold store_cwd. rewrite awrite_in_range by (rewrite ?vstrncpy_length; lia). cbn [mbind outcome_bind].
  change (splice cwd (Z.to_nat 0) (vstrncpy 127 r)) with (vstrncpy 127 r ++ drop (length (vstrncpy 127 r)) cwd).
  rewrite vstrncpy_length. change 127 with (Z.of_nat 127).
  destruct (drop 127 cwd) as [|x [|y l]] eqn:Hd; pose proof (length_drop cwd 127) as Hdl; rewrite Hd, Hl in Hdl; try done.
  rewrite aset_lookup by (rewrite length_app, vstrncpy_length; simpl; lia).
  rewrite insert_app_r_alt by (rewrite vstrncpy_length; lia). rewrite vstrncpy_length. simpl.
  eexists. split; [done|]. split; [by rewrite length_app, vstrncpy_length|].
  unfold vstrncpy. destruct (decide (length r < 127)%nat) as [Hs|Hs].
  - rewrite take_app_ge, (take_ge r) by lia. rewrite <- app_assoc.
    destruct (127 - length r)%nat as [|m] eqn:Hm; [lia|]. by apply cstr_app_nul.
  - rewrite take_app_le by lia. apply cstr_app_nul. by apply Forall_take.
Qed.

Lemma chdir_wf (s : fsys C) t p cwd' :
  fsys_wf s -> task_current (fs_tasks s) = Val t -> no_nul p ->
  length cwd' = 128%nat -> cstr cwd' = take 127 (full_path (cstr (t_cwd t)) p) -> fsys_wf (set_current (set_cwd cwd' t) s).
Proof.
  intros Hs Hcur Hp Hl Hc. destruct (current_task s Hs) as (t' & Hcur' & Ht & Hcwd & _).
  rewrite Hcur in Hcur'. injection Hcur' as <-.
  assert (fsys_wf (set_current (set_cwd cwd' t) (with_files (g_open_files s) s))) as Hres; [|exact Hres].
  eapply (set_current_wf s t); cbn; try done.
  - split; [done|rewrite Hc, length_take; lia| |].
    + rewrite Hc. assert (head (full_path (cstr (t_cwd t)) p) = Some slash) as Hh.
      { unfold full_path. case_decide; [done|by apply absolute_head]. }
      destruct (full_path (cstr (t_cwd t)) p); [done|exact Hh].
    + rewrite Hc. apply squeeze_take. unfold full_path. case_decide; [done|apply absolute_single].
  - destruct (sw_files _ Hs) as [H1 H2 H3 H4 H5].
    assert (forall i j k, points_to (fs_tasks (set_current (set_cwd cwd' t) s)) i j k <-> points_to (fs_tasks s) i j k) as Hpt.
    { intros i j k. rewrite (points_to_set_current s t) by done. case_decide as Hi; [|done]. cbn. subst i.
      split; [by exists t|]. intros (t1 & Ht1 & Hj). by assert (t1 = t) as -> by congruence. }
    split; try done.
    + intros i j k Hk%Hpt. by eapply H3.
    + intros i j i' j' k Hk%Hpt Hk'%Hpt. by eapply H4.
    + intros k f Hk Hu. destruct (H5 k f Hk Hu) as (i & j & Hp'). exists i, j. by apply Hpt.
Qed.

(** [fs_chdir_path] succeeds exactly on directories; it stores the first 127 bytes of
    the full path. *)
Lemma chdir_spec (s : fsys C) p more t :
  fsys_wf s -> task_current (fs_tasks s) = Val t -> no_nul p ->
  let full := full_path (cstr (t_cwd t)) p in
  (exists e, fs_chdir_path (Some (p ++ 0 :: more)) s = Val (e, s) /\ e < 0)
  \/ exists id n cwd', tmpfs_lookup_path (Some full) (fs_tmpfs s) = Val (Z.of_nat id)
       /\ g_nodes (fs_tmpfs s) !! id = Some n /\ n_type n = VFS_NODE_DIR
       /\ fs_chdir_path (Some (p ++ 0 :: more)) s = Val (0, set_current (set_cwd cwd' t) s)
       /\ length cwd' = 128%nat /\ cstr cwd' = take 127 full.
Proof.
  intros Hs Hcur Hp full. destruct (current_task s Hs) as (t' & Hcur' & Ht & Hcwd & _).
  rewrite Hcur in Hcur'. injection Hcur' as <-. destruct (full_path_ok _ p Hcwd Hp) as [Hn _].
  unfold fs_chdir_path. rewrite (resolved_path_spec s p more t) by done. cbn [mbind outcome_bind]. fold full in Hn |- *.
  destruct (lookup_total (fs_tmpfs s) full (sw_tmpfs _ Hs) Hn) as (id & Hid & _). rewrite Hid. cbn [mbind outcome_bind].
  case_decide as Hneg; [left; by eexists|].
  destruct (get_node_spec (fs_tmpfs s) id (sw_tmpfs _ Hs)) as [->|(n & -> & H0' & Hnode & Hlive)]; cbn [mbind outcome_bind];
    [left; eexists; split; [done|unfold ENOTDIR; lia]|].
  case_decide as Hd; [left; eexists; split; [done|unfold ENOTDIR; lia]|]. right.
  rewrite Hcur. cbn [mbind outcome_bind default].
  change (Datatypes.id full) with full.
  destruct (store_cwd_spec (t_cwd t) full (cwd_array _ Hcwd) Hn) as (cwd' & -> & Hl & Hc). cbn [mbind outcome_bind].
  rewrite (upd_current _ s t) by done. exists (Z.to_nat id), n, cwd'. rewrite Z2Nat.id by done.
  by repeat split.
Qed.

(** * Properties *)

Inductive fs_op : Type :=
| FsOpen (path : list Z) (flags mode : Z)
| FsClose (fd : Z)
| FsLseek (fd offset whence : Z)
| FsRead (fd : Z) (buffer : list Z) (count : Z)
| FsWrite (fd : Z) (buffer : list Z) (count : Z)
| FsMkdir (path : list Z) (mode : Z)
| FsRmdir (path : list Z)
| FsUnlink (path : list Z)
| FsChdir (path : list Z).

Definition fs_do (op : fs_op) (s : fsys C) : outcome (Z * fsys C) :=
  match op with
  | FsOpen path flags mode => fs_open_path (Some (path ++ [0])) flags mode s
  | FsClose fd => fs_close_fd fd s
  | FsLseek fd offset whence => fs_lseek_fd fd offset whence s
  | FsRead fd buffer count => '(r, _, s) ← fs_read_fd fd buffer count s; Val (r, s)
  | FsWrite fd buffer count => fs_write_fd fd buffer count s
  | FsMkdir path mode => fs_mkdir_path (Some (path ++ [0])) mode s
  | FsRmdir path => fs_rmdir_path (Some (path ++ [0])) s
  | FsUnlink path => fs_unlink_path (Some (path ++ [0])) s
  | FsChdir path => fs_chdir_path (Some (path ++ [0])) s
  end.

(** Buffers that hold [count] bytes; writes that end below 4 GiB. *)
Definition fs_op_ok (op : fs_op) (s : fsys C) : Prop :=
  match op with
  | FsOpen p _ _ | FsMkdir p _ | FsRmdir p | FsUnlink p | FsChdir p => no_nul p
  | FsRead _ buffer count => 0 <= count <= Z.of_nat (length buffer)
  | FsWrite fd buffer count =>
      Forall in_u8 buffer /\ 0 <= count <= Z.of_nat (length buffer) /\ write_fits s fd count
  | _ => True
  end.

(** The operations that create a node whose last component does not fit. *)
Definition fs_overlong (op : fs_op) (s : fsys C) : Prop :=
  match op with FsOpen p _ _ | FsMkdir p _ => path_overlong s p | _ => False end.

(** C17 The file system invariant (task table, working directories, node tree and
    data arena, and descriptors: each open descriptor of each task owns exactly one
    entry of g_open_files, which is in use with one reference, and no entry in use
    is without descriptor) is kept by open, close, lseek, read, write, mkdir,
    rmdir, unlink and chdir, each of which runs to completion on every branch,
    errors included.  Buffers hold the bytes asked for, and a write must end by
    2^32 - 256 counted from the descriptor's offset: one after a seek beyond that (to
    -1, say) is not covered and can leave the arena.  Within these conditions the one
    exception is the creation of a node whose last component overruns the 32-byte
    name buffer. *)
Theorem fs_operations_keep_invariant (s : fsys C) (op : fs_op) :
  fsys_wf s -> fs_op_ok op s ->
  (exists r s', fs_do op s = Val (r, s') /\ fsys_wf s')
  \/ (fs_do op s = Stop Oob /\ fs_overlong op s).
Proof.
  intros Hs Hok. destruct op as [p flags mode|fd|fd off wh|fd b n|fd b n|p mode|p|p|p]; simpl in Hok |- *.
  - destruct (open_keeps_wf s p [] flags mode Hs Hok) as [Ho|(Ho & Hov & _)]; [by left|by right].
  - left. by apply close_keeps_wf.
  - left. by apply lseek_keeps_wf.
  - left. destruct (read_keeps_wf s fd b n Hs Hok) as (r & b' & s' & -> & Hs'). by eexists _, _.
  - left. destruct Hok as (H1 & H2 & H3). by apply write_keeps_fsys_wf.
  - by apply mkdir_keeps_wf.
  - left. by apply (remove_path_keeps_wf s p [] true).
  - left. by apply (remove_path_keeps_wf s p [] false).
  - left. destruct (current_task s Hs) as (t & Hcur & _).
    destruct (chdir_spec s p [] t Hs Hcur Hok) as [(e & -> & _)|(id & n & cwd & _ & _ & _ & -> & Hl & Hc)].
    + by eexists _, _.
    + eexists _, _. split; [done|]. by eapply chdir_wf.
Qed.

(** A successful open uses the lowest free descriptor from 3 on and the first
    free entry of g_open_files, which starts at offset 0 on the node the path
    names (created if need be); every other descriptor and entry is unchanged.
    Closing that descriptor succeeds, gives the entry back zeroed and restores
    the caller's descriptors. *)
Theorem open_then_close (s s' : fsys C) (t : task) (p : list Z) (flags mode fd : Z) :
  fsys_wf s -> task_current (fs_tasks s) = Val t -> no_nul p ->
  fs_open_path (Some (p ++ [0])) flags mode s = Val (fd, s') -> 0 <= fd ->
  exists k id tm, s' = opened t fd k (File 1 1 id 0 flags) (with_tmpfs tm s)
    /\ 3 <= fd < 32 /\ t_fds t !! Z.to_nat fd = Some None
    /\ (forall j, 3 <= j < fd -> exists k', t_fds t !! Z.to_nat j = Some (Some k'))
    /\ (exists f, g_open_files s !! k = Some f /\ f_used f = 0)
    /\ (tmpfs_lookup_path (Some (full_path (cstr (t_cwd t)) p)) (fs_tmpfs s) = Val id /\ 0 <= id /\ tm = fs_tmpfs s
        \/ tmpfs_create_path (Some (full_path (cstr (t_cwd t)) p)) VFS_NODE_FILE (u32 mode) (fs_tmpfs s) = Val (id, tm))
    /\ fs_close_fd fd s' = Val (0, with_files (<[k := zero_file]> (g_open_files s)) (with_tmpfs tm s)).
Proof.
  intros Hs Hcur Hp Hopen Hfd. rewrite (open_path_eq s p [] flags mode t) in Hopen by done.
  apply bind_Val_inv in Hopen as (id0 & Hid0 & Hopen). apply bind_Val_inv in Hopen as ([id tm] & Hnode & Hopen).
  destruct (current_task s Hs) as (t' & Hcur' & Ht & Hcwd & Hfl). rewrite Hcur in Hcur'. injection Hcur' as <-.
  destruct (decide (id < 0)) as [Hneg|Hpos]; [injection Hopen as <- _; lia|].
  assert (fs_wf tm) as Htm.
  { case_decide; [|injection Hnode as <- <-; by apply sw_tmpfs].
    destruct (create_full_path s p VFS_NODE_FILE (u32 mode) t) as [(r & tm' & Hc & Htm)|[Hc _]]; [done..| |congruence].
    congruence. }
  pose proof (with_tmpfs_wf s tm Hs Htm) as Hs1.
  destruct (open_node_spec (with_tmpfs tm s) id flags t Hs1 Hcur) as (r & Hr & Hres).
  rewrite Hr in Hopen. injection Hopen as ->.
  inversion Hres as [Hall|k f Hk Hu Hfds|k f fd' Hk Hu Hb Hfd' Hn Hlow]; subst; unfold ENFILE, EMFILE in *; try lia.
  exists k, id, tm. do 4 (split; [done|]). split; [by exists f|]. split.
  { case_decide as Hc; [by right|]. injection Hnode as <- <-. left. split; [done|]. split; [lia|done]. }
  apply (close_opened (with_tmpfs tm s)); try done. exact (open_result_wf id flags _ t (fd, _) Hs1 Hcur Hres).
Qed.

(** ** Reading and writing regular files *)

(** The descriptor [fd] is open on the regular file [n], node [id]. *)
Definition open_on (s : fsys C) (fd : Z) (k : nat) (f : vfs_file) (id : nat) (n : vfs_node) : Prop :=
  open_at s fd k f /\ f_node_id f = Z.of_nat id /\ g_nodes (fs_tmpfs s) !! id = Some n /\ n_type n = VFS_NODE_FILE.

Definition file_contents (s : fsys C) (n : vfs_node) : list Z := contents (g_data_arena (fs_tmpfs s)) n.

Lemma open_on_node (s : fsys C) fd k f id n : fsys_wf s -> open_on s fd k f id n ->
  lookup_file fd s = Val (Some (Z.of_nat k)) /\ aget (g_open_files s) (Z.of_nat k) = Val f
  /\ tmpfs_get_node (f_node_id f) (fs_tmpfs s) = Val (Some n) /\ in_u64 (f_offset f).
Proof.
  intros Hs (Hop & Hid & Hn & Ht). destruct (lookup_file_open s fd k f Hop) as [H1 H2].
  split; [done|]. split; [done|]. split.
  - rewrite Hid. apply get_node_live; [done|unfold live; congruence|]. by eapply fs_id_bound; [apply sw_tmpfs|].
  - destruct Hop as (t & _ & _ & _ & Hf & _). by destruct (fw_file _ _ (sw_files _ Hs) _ _ Hf).
Qed.

Lemma write_fd_file (s : fsys C) fd k f id n buffer count :
  fsys_wf s -> open_on s fd k f id n -> 0 <= count <= Z.of_nat (length buffer) ->
  f_offset f + count <= 2 ^ 32 - 256 ->
  fs_write_fd fd buffer count s = Val (- ENOSPC, s)
  \/ exists tm, fs_write_fd fd buffer count s = Val (count, with_tmpfs tm s)
       /\ written id n (f_offset f) (take (Z.to_nat count) buffer) (fs_tmpfs s) tm.
Proof.
  intros Hs Hon Hc He. destruct (open_on_node s fd k f id n Hs Hon) as (Hlk & Hget & Hg & Ho).
  destruct Hon as (Hop & Hid & Hn & Ht). unfold in_u64 in Ho. unfold fs_write_fd.
  rewrite Hlk. cbn [mbind outcome_bind]. rewrite Hget. cbn [mbind outcome_bind]. rewrite Hg. cbn [mbind outcome_bind].
  rewrite !decide_False by (rewrite Ht; by intros [? _]). rewrite Hid.
  destruct (write_node_spec (fs_tmpfs s) id n buffer count (f_offset f) (sw_tmpfs _ Hs) Hn Ht Hc)
    as [[-> _]|(tm & -> & Hw)]; [lia|done| |]; cbn [mbind outcome_bind].
  - left. by destruct s.
  - right. by exists tm.
Qed.

Lemma read_fd_file (s : fsys C) fd k f id n buffer count :
  fsys_wf s -> open_on s fd k f id n -> 0 <= count <= Z.of_nat (length buffer) ->
  let bs := take (Z.to_nat count) (drop (Z.to_nat (f_offset f)) (file_contents s n)) in
  fs_read_fd fd buffer count s
  = Val (Z.of_nat (length bs), splice buffer 0 bs,
         set_file k (at_offset (u64 (f_offset f + Z.of_nat (length bs))) f) s).
Proof.
  intros Hs Hon Hc bs. destruct (open_on_node s fd k f id n Hs Hon) as (Hlk & Hget & Hg & Ho).
  destruct Hon as (Hop & Hid & Hn & Ht). unfold in_u64 in Ho. unfold fs_read_fd.
  rewrite Hlk. cbn [mbind outcome_bind]. rewrite Hget. cbn [mbind outcome_bind]. rewrite Hg. cbn [mbind outcome_bind].
  rewrite !decide_False by (rewrite Ht; by intros [? _]). rewrite Hid.
  rewrite (read_node_spec (fs_tmpfs s) id n) by (done || lia || by apply sw_tmpfs). cbn [mbind outcome_bind].
  rewrite decide_True by lia. fold (file_contents s n). fold bs.
  rewrite (aset_open s fd k f), <- Hid by done. done.
Qed.

Lemma written_open_on (s : fsys C) fd k f id n bs tm :
  open_on s fd k f id n -> written id n (f_offset f) bs (fs_tmpfs s) tm ->
  exists n', open_on (with_tmpfs tm s) fd k f id n'
    /\ file_contents (with_tmpfs tm s) n' = pwrite (file_contents s n) (Z.to_nat (f_offset f)) bs.
Proof.
  intros (Hop & Hid & Hn & Ht) (_ & _ & n' & Hnodes & (_ & _ & _ & Ht' & _) & _ & Hc & _). exists n'.
  split; [|done]. split; [done|]. split; [done|]. cbn. rewrite Hnodes, Ht'. split; [|done].
  apply list_lookup_insert_eq. by eapply lookup_lt_Some.
Qed.

Lemma pwrite_read_back old o bs : take (length bs) (drop o (pwrite old o bs)) = bs.
Proof.
  apply list_eq. intros i. destruct (decide (i < length bs)%nat) as [Hi|Hi].
  - rewrite lookup_take_lt, lookup_drop, pwrite_lookup by done. rewrite decide_True by lia. f_equal. lia.
  - rewrite lookup_take_ge, (lookup_ge_None_2 bs) by lia. done.
Qed.

Lemma splice_all {A} (l bs : list A) : length l = length bs -> splice l 0 bs = bs.
Proof. intros Hl. unfold splice. simpl. by rewrite <- Hl, drop_all, app_nil_r. Qed.

(** File contents through a descriptor: what a successful write stored at the
    descriptor's offset is what the next read of as many bytes returns, into the
    front of the caller's buffer, advancing the offset; the caller may first seek
    back to the offset with lseek, which finds the descriptor already there. *)
Theorem file_write_read_back (s s1 : fsys C) (fd : Z) (k : nat) (f : vfs_file) (id : nat) (n : vfs_node)
  (bs buffer : list Z) :
  fsys_wf s -> open_on s fd k f id n -> length buffer = length bs ->
  f_offset f + Z.of_nat (length bs) <= 2 ^ 32 - 256 ->
  fs_write_fd fd bs (Z.of_nat (length bs)) s = Val (Z.of_nat (length bs), s1) ->
  fs_lseek_fd fd (f_offset f) SEEK_SET s1 = Val (f_offset f, s1)
  /\ exists s2, fs_read_fd fd buffer (Z.of_nat (length bs)) s1 = Val (Z.of_nat (length bs), bs, s2)
       /\ open_at s2 fd k (at_offset (f_offset f + Z.of_nat (length bs)) f).
Proof.
  intros Hs Hon Hbuf He Hw. destruct (open_on_node s fd k f id n Hs Hon) as (_ & _ & _ & Ho). unfold in_u64 in Ho.
  destruct (write_fd_file s fd k f id n bs (Z.of_nat (length bs)) Hs Hon ltac:(lia) He) as [Hw'|(tm & Hw' & Hwr)];
    rewrite Hw in Hw'; [injection Hw' as Hlen _; unfold ENOSPC in Hlen; lia|injection Hw' as ->].
  rewrite Nat2Z.id, firstn_all in Hwr.
  assert (fsys_wf (with_tmpfs tm s)) as Hs1 by (apply with_tmpfs_wf; [done|by destruct Hwr]).
  destruct (written_open_on s fd k f id n bs tm Hon Hwr) as (n' & Hon' & Hc).
  destruct (open_on_node _ fd k f id n' Hs1 Hon') as (Hlk & Hget & Hg & _).
  pose proof Hon' as (Hop & _). split.
  - unfold fs_lseek_fd. rewrite Hlk. cbn [mbind outcome_bind]. rewrite Hget. cbn [mbind outcome_bind].
    rewrite Hg. cbn [mbind outcome_bind]. rewrite decide_True by done. rewrite (aset_open _ fd k f) by done.
    cbn [mbind outcome_bind]. rewrite u64_small by done. rewrite i64_small by lia. f_equal. f_equal.
    destruct Hop as (t & _ & _ & _ & Hf & _). rewrite list_insert_id by (rewrite Hf; by destruct f). by destruct s.
  - rewrite (read_fd_file _ fd k f id n') by (done || lia). rewrite Hc, Nat2Z.id, pwrite_read_back.
    rewrite splice_all by done. eexists. split; [reflexivity|].
    rewrite u64_small by (unfold in_u64; lia). destruct Hop as (t & H1 & H2 & H3 & Hf & H5).
    exists t. do 3 (split; [done|]). split; [|done]. cbn. apply list_lookup_insert_eq. by eapply lookup_lt_Some.
Qed.

(** A write does not move the descriptor's offset: of two consecutive writes the
    second lands on top of the first, and the descriptor still stands where it
    did before both. *)
Theorem consecutive_writes_overwrite (s s1 s2 : fsys C) (fd : Z) (k : nat) (f : vfs_file) (id : nat) (n : vfs_node)
  (a b : list Z) :
  fsys_wf s -> open_on s fd k f id n ->
  f_offset f + Z.of_nat (length a) <= 2 ^ 32 - 256 -> f_offset f + Z.of_nat (length b) <= 2 ^ 32 - 256 ->
  fs_write_fd fd a (Z.of_nat (length a)) s = Val (Z.of_nat (length a), s1) ->
  fs_write_fd fd b (Z.of_nat (length b)) s1 = Val (Z.of_nat (length b), s2) ->
  exists n2, open_on s2 fd k f id n2
    /\ file_contents s2 n2
       = pwrite (pwrite (file_contents s n) (Z.to_nat (f_offset f)) a) (Z.to_nat (f_offset f)) b.
Proof.
  intros Hs Hon Ha Hb Hwa Hwb.
  destruct (write_fd_file s fd k f id n a (Z.of_nat (length a)) Hs Hon ltac:(lia) Ha) as [Hw|(tm & Hw & Hwr)];
    rewrite Hwa in Hw; [injection Hw as Hlen _; unfold ENOSPC in Hlen; lia|injection Hw as ->].
  rewrite Nat2Z.id, firstn_all in Hwr. pose proof Hwr as [Htm _].
  destruct (written_open_on s fd k f id n a tm Hon Hwr) as (n1 & Hon1 & Hc1).
  pose proof (with_tmpfs_wf s tm Hs Htm) as Hs1.
  destruct (write_fd_file _ fd k f id n1 b (Z.of_nat (length b)) Hs1 Hon1 ltac:(lia) Hb) as [Hw|(tm2 & Hw & Hwr2)];
    rewrite Hwb in Hw; [injection Hw as Hlen _; unfold ENOSPC in Hlen; lia|injection Hw as ->].
  rewrite Nat2Z.id, firstn_all in Hwr2.
  destruct (written_open_on _ fd k f id n1 b tm2 Hon1 Hwr2) as (n2 & Hon2 & Hc2).
  exists n2. split; [done|]. by rewrite Hc2, Hc1.
Qed.

(** Standard output: in every well-formed state descriptors 1 and 2 are the
    console; writing sends exactly the bytes given (a newline preceded by a
    carriage return), reports them all and changes nothing else. *)
Theorem stdout_write_sends (s : fsys C) (fd : Z) (buffer : list Z) (count : Z) :
  fsys_wf s -> fd = 1 \/ fd = 2 -> Forall in_u8 buffer -> 0 <= count <= Z.of_nat (length buffer) -> count < 2 ^ 63 ->
  exists c, fs_write_fd fd buffer count s = Val (count, with_fs_console c s)
    /\ term_ok c /\ term_sent c = term_sent (fs_console s) ++ line_text (take (Z.to_nat count) buffer).
Proof.
  intros Hs Hfd Hb Hc Hbig. unfold fs_write_fd.
  destruct (lookup_file_spec s fd Hs) as [Hlk|(k & f & _ & Hop)].
  2:{ destruct Hop as (t & _ & Hr & _). lia. }
  rewrite Hlk. cbn [mbind outcome_bind]. rewrite decide_True by done.
  destruct (write_terminal_spec s buffer count Hs Hb Hc) as (s' & -> & Hs' & Hsent & Heq).
  rewrite i64_small by lia. exists (fs_console s'). split; [by rewrite <- Heq|]. split; [by apply sw_console|done].
Qed.

End Descriptors.

(** * Witnesses *)

Import Transcript.

(** The three tasks of a booted kernel, the demo tree and no open file. *)
Definition demo_fsys : fsys transcript :=
  Fsys demo_fs2 (replicate 128 zero_file) booted (Script (str "ls") []).

Definition pristine (t : task) : bool :=
  bool_decide (t_fds t = replicate 32 None)
  && (bool_decide (t_state t = TASK_UNUSED) || bool_decide (t_cwd t = slash :: replicate 127 0)).

Lemma booted_pristine i t : g_tasks booted !! i = Some t ->
  t_fds t = replicate 32 None /\ (used t -> t_cwd t = slash :: replicate 127 0).
Proof.
  assert (forallb pristine (g_tasks booted) = true) as Hall by (vm_compute; reflexivity).
  intros Ht. rewrite forallb_forall in Hall. specialize (Hall t).
  apply list_elem_of_lookup_2, list_elem_of_In, Hall, andb_true_iff in Ht as [Hf%bool_decide_eq_true Hc].
  split; [done|]. intros Hu. apply orb_true_iff in Hc as [Hc|Hc]; apply bool_decide_eq_true in Hc; done.
Qed.

Lemma demo_fsys_wf : fsys_wf demo_fsys.
Proof.
  split; cbn [demo_fsys fs_tasks fs_tmpfs g_open_files fs_console].
  - apply task_reachable_wf. exact booted_reachable.
  - intros i t Ht Hu. destruct (booted_pristine i t Ht) as [_ Hc]. rewrite Hc by done.
    split; [done|vm_compute; lia|done|done].
  - exact demo_fs2_wf.
  - assert (forall i j k, ~ points_to booted i j k) as Hno.
    { intros i j k (t & Ht & Hj). destruct (booted_pristine i t Ht) as [Hf _]. rewrite Hf in Hj.
      apply lookup_replicate in Hj as [Hj _]. done. }
    split.
    + done.
    + intros k f Hk. apply lookup_replicate in Hk as [-> _]. split; [by left|]. unfold in_u64. simpl. lia.
    + intros i j k Hp. by apply Hno in Hp.
    + intros i j i' j' k Hp. by apply Hno in Hp.
    + intros k f Hk Hu. apply lookup_replicate in Hk as [-> _]. done.
  - repeat constructor; discriminate.
Qed.

Definition ok_state (o : outcome (Z * fsys transcript)) : fsys transcript :=
  match o with Val (_, s) => s | Stop _ => demo_fsys end.

(** [/etc/motd] opened. *)
Definition motd_open : fsys transcript := ok_state (fs_do (FsOpen (str "/etc/motd") 0 0) demo_fsys).

Lemma motd_bytes : no_nul (str "/etc/motd").
Proof. repeat constructor; discriminate. Qed.

Lemma motd_open_wf : fsys_wf motd_open.
Proof.
  destruct (open_keeps_wf demo_fsys (str "/etc/motd") [] 0 0 demo_fsys_wf motd_bytes) as [(r & s' & Hr & Hs)|(Hr & _)].
  - unfold motd_open, fs_do. change (str "/etc/motd" ++ [0]) with (str "/etc/motd" ++ 0 :: []). by rewrite Hr.
  - exfalso. vm_compute in Hr. discriminate.
Qed.

Lemma fs_operations_keep_invariant_witness :
  (exists r s', fs_do (FsOpen (str "etc/motd") 0 0) demo_fsys = Val (r, s') /\ fsys_wf s')
  \/ (fs_do (FsOpen (str "etc/motd") 0 0) demo_fsys = Stop Oob
      /\ fs_overlong (FsOpen (str "etc/motd") 0 0) demo_fsys).
Proof.
  apply fs_operations_keep_invariant; [exact demo_fsys_wf|]. repeat constructor; discriminate.
Defined.

Definition boot_task : task := nth (Z.to_nat (g_current_index booted)) (g_tasks booted) zero_task.

Lemma boot_task_current : task_current (fs_tasks demo_fsys) = Val boot_task.
Proof. vm_compute. reflexivity. Qed.

Lemma open_then_close_witness :
  exists k tm, fs_close_fd 3 motd_open = Val (0, with_files (<[k := zero_file]> (g_open_files demo_fsys)) (with_tmpfs tm demo_fsys)).
Proof.
  destruct (open_then_close demo_fsys motd_open boot_task (str "/etc/motd") 0 0 3 demo_fsys_wf boot_task_current)
    as (k & id & tm & _ & _ & _ & _ & _ & _ & Hclose).
  - exact motd_bytes.
  - vm_compute. reflexivity.
  - discriminate.
  - exists k, tm. exact Hclose.
Defined.

Lemma motd_open_on : open_on motd_open 3 0 (File 1 1 2 0 0) 2 motd_node.
Proof.
  split; [|split; [reflexivity|split; [vm_compute; reflexivity|vm_compute; reflexivity]]].
  exists (nth (Z.to_nat (g_current_index booted)) (g_tasks (fs_tasks motd_open)) zero_task).
  repeat split; (lia || (vm_compute; reflexivity)).
Qed.

Definition motd_ab : fsys transcript := ok_state (fs_write_fd 3 (str "ab") 2 motd_open).
Definition motd_c : fsys transcript := ok_state (fs_write_fd 3 (str "c") 1 motd_ab).

Lemma file_write_read_back_witness :
  exists s2, fs_read_fd 3 [0; 0] 2 motd_ab = Val (2, str "ab", s2).
Proof.
  destruct (file_write_read_back motd_open motd_ab 3 0 (File 1 1 2 0 0) 2 motd_node (str "ab") [0; 0])
    as (_ & s2 & Hr & _).
  - exact motd_open_wf.
  - exact motd_open_on.
  - reflexivity.
  - vm_compute. discriminate.
  - vm_compute. reflexivity.
  - exists s2. exact Hr.
Defined.

Lemma consecutive_writes_overwrite_witness :
  exists n2, open_on motd_c 3 0 (File 1 1 2 0 0) 2 n2 /\ file_contents motd_c n2 = str "cb".
Proof.
  destruct (consecutive_writes_overwrite motd_open motd_ab motd_c 3 0 (File 1 1 2 0 0) 2 motd_node (str "ab") (str "c"))
    as (n2 & Hon & Hc).
  - exact motd_open_wf.
  - exact motd_open_on.
  - vm_compute. discriminate.
  - vm_compute. discriminate.
  - vm_compute. reflexivity.
  - vm_compute. reflexivity.
  - exists n2. split; [exact Hon|]. rewrite Hc. vm_compute. reflexivity.
Defined.

Lemma stdout_write_sends_witness :
  exists c, fs_write_fd 1 (str "hi" ++ [10]) 3 demo_fsys = Val (3, with_fs_console c demo_fsys)
    /\ term_sent c = str "hi" ++ [13; 10].
Proof.
  destruct (stdout_write_sends demo_fsys 1 (str "hi" ++ [10]) 3 demo_fsys_wf) as (c & Hw & _ & Hc).
  - by left.
  - repeat constructor; discriminate.
  - simpl. lia.
  - lia.
  - exists c. split; [exact Hw|]. rewrite Hc. reflexivity.
Defined.

(** Reading [/dev/null] takes what was typed at the console. *)
Example dev_null_reads_the_console :
  ('(_, t) ← tmpfs_create_path (Some (str "/null")) VFS_NODE_CHARDEV 438 demo_fs2;
   s ← init_device_node (str "/null") DEV_NULL (with_tmpfs t demo_fsys);
   '(fd, s) ← fs_open_path (Some (str "/null" ++ [0])) 0 0 s;
   '(r, buffer, s) ← fs_read_fd fd [0; 0; 0; 0] 4 s;
   Val (r, buffer)) = Val (2, str "ls" ++ [0; 0]).
Proof. vm_compute. reflexivity. Qed.
