(* ===== verification/FsView.v ===== *)
(** [src/kernel/fs.c] against what it promises a program: files named by paths, read
    and written through numbered descriptors that remember a place.

    [desk] is what the current task sees: the volume of [TmpfsView.v], its open
    descriptors with node number and offset, its working directory and the console.
    [serve] is what each call does to it; the descriptor table, [g_open_files] and the
    node table of the code answer as [serve] does. *)

From Stdlib Require Import ZArith Lia Ascii.
From stdpp Require Import base gmap list strings.
From S2P Require Import Prelude KString Terminal Vmm Task Tmpfs TmpfsPath TmpfsTree TmpfsData TmpfsView Fs FsPath FsFile.
Open Scope Z_scope.

(** * Desks *)

Record desk (C : Type) := Desk {
  d_volume : volume;
  d_open : gmap Z (Z * Z);
  d_used : nat;
  d_cwd : list Z;
  d_console : C;
}.
Arguments Desk {C}.
Arguments d_volume {C}.
Arguments d_open {C}.
Arguments d_used {C}.
Arguments d_cwd {C}.
Arguments d_console {C}.

Inductive call :=
| Open (path : list Z) (flags mode : Z)
| Close (fd : Z)
| Seek (fd offset whence : Z)
| ReadFd (fd count : Z)
| WriteFd (fd : Z) (bs : list Z)
| Mkdir (path : list Z) (mode : Z)
| Rmdir (path : list Z)
| Unlink (path : list Z)
| Chdir (path : list Z)
| StatPath (path : list Z)
| StatFd (fd : Z)
| Getcwd.

(** The entry a node number belongs to. *)
Definition by_id (id : Z) (v : volume) : option (list (list Z) * entry) :=
  head (filter (fun p => e_id p.2 = id) (map_to_list (entries v))).

Definition is_device (e : entry) (devices : list Z) : Prop :=
  e_type e = VFS_NODE_CHARDEV /\ e_device e ∈ devices.
#[export] Instance is_device_dec e devices : Decision (is_device e devices).
Proof. unfold is_device. apply _. Defined.

(** The lowest descriptor from 3 on that is not open. *)
Definition lowest_fd {C} (d : desk C) : option Z :=
  first_index (fun fd => bool_decide (d_open d !! fd = None)) (seqZ 3 29) 3.

Section Serve.
Context {C : Type} `{Terminal C}.

Definition d_path (d : desk C) (p : list Z) : list (list Z) := tokens (full_path (d_cwd d) p).

Definition on_volume (v : volume) (d : desk C) : desk C := Desk v (d_open d) (d_used d) (d_cwd d) (d_console d).
Definition on_open (o : gmap Z (Z * Z)) (d : desk C) : desk C := Desk (d_volume d) o (d_used d) (d_cwd d) (d_console d).

(** Entries of g_open_files are shared by all tasks; [d_used] of the 128 are taken. *)
Definition serve_descriptor (id : Z) (d : desk C) : Z * desk C :=
  if decide (d_used d = 128%nat) then (- ENFILE, d)
  else match lowest_fd d with
  | None => (- EMFILE, d)
  | Some fd => (fd, Desk (d_volume d) (<[fd := (id, 0)]> (d_open d)) (S (d_used d)) (d_cwd d) (d_console d))
  end.

Definition serve_open (ts : list (list Z)) (flags mode : Z) (d : desk C) : Z * desk C :=
  let id := v_lookup ts (d_volume d) in
  let '(id, v) := if decide (id < 0 /\ Z.land flags O_CREAT <> 0)
                  then v_create ts VFS_NODE_FILE (u32 mode) (d_volume d) else (id, d_volume d) in
  if decide (id < 0) then (id, on_volume v d) else serve_descriptor id (on_volume v d).

Definition serve_close (fd : Z) (d : desk C) : Z * desk C :=
  match d_open d !! fd with
  | None => (if decide (0 <= fd <= 2) then 0 else - EBADF, d)
  | Some _ => (0, Desk (d_volume d) (delete fd (d_open d)) (pred (d_used d)) (d_cwd d) (d_console d))
  end.

Definition serve_seek (fd offset whence : Z) (d : desk C) : Z * desk C :=
  match d_open d !! fd with
  | None => (- EBADF, d)
  | Some (id, place) =>
      match by_id id (d_volume d) with
      | None => (- EBADF, d)
      | Some (_, e) =>
          let seek target := (i64 target, on_open (<[fd := (id, target)]> (d_open d)) d) in
          if decide (whence = SEEK_SET) then seek (u64 offset)
          else if decide (whence = SEEK_CUR) then seek (u64 (place + u64 offset))
          else if decide (whence = SEEK_END) then seek (u64 (Z.of_nat (length (e_bytes e)) + u64 offset))
          else (- EINVAL, d)
      end
  end.

(** What the terminal has ready, at most [n] characters. *)
Fixpoint typed (n : nat) (c : C) : outcome (list Z * C) :=
  match n with
  | O => Val ([], c)
  | S n =>
      '(byte, c) ← console_try_read_char c;
      match byte with
      | None => Val ([], c)
      | Some b => '(bs, c) ← typed n c; Val (b :: bs, c)
      end
  end.

Definition type_in (count : Z) (d : desk C) : outcome (Z * list Z * desk C) :=
  '(bs, c) ← typed (Z.to_nat count) (d_console d);
  Val (Z.of_nat (length bs), bs, Desk (d_volume d) (d_open d) (d_used d) (d_cwd d) c).

Definition type_out (bs : list Z) (d : desk C) : outcome (Z * desk C) :=
  c ← console_write_n bs (Z.of_nat (length bs)) (d_console d);
  Val (i64 (Z.of_nat (length bs)), Desk (d_volume d) (d_open d) (d_used d) (d_cwd d) c).

Definition serve_read (fd count : Z) (d : desk C) : outcome (Z * list Z * desk C) :=
  match d_open d !! fd with
  | None => if decide (fd = 0) then type_in count d else Val (- EBADF, [], d)
  | Some (id, place) =>
      match by_id id (d_volume d) with
      | None => Val (- EBADF, [], d)
      | Some (ts, e) =>
          if decide (is_device e [DEV_ZERO]) then Val (i64 count, replicate (Z.to_nat count) 0, d)
          else if decide (is_device e [DEV_NULL; DEV_CONSOLE; DEV_TTY]) then type_in count d
          else
            let '(i, bs) := v_read ts place count (d_volume d) in
            Val (i, bs, if decide (i >= 0) then on_open (<[fd := (id, u64 (place + i))]> (d_open d)) d else d)
      end
  end.

Definition serve_write (fd : Z) (bs : list Z) (d : desk C) : outcome (Z * desk C) :=
  match d_open d !! fd with
  | None => if decide (fd = 1 \/ fd = 2) then type_out bs d else Val (- EBADF, d)
  | Some (id, place) =>
      match by_id id (d_volume d) with
      | None => Val (- EBADF, d)
      | Some (ts, e) =>
          if decide (is_device e [DEV_NULL]) then Val (i64 (Z.of_nat (length bs)), d)
          else if decide (is_device e [DEV_CONSOLE; DEV_TTY]) then type_out bs d
          else let '(r, v) := v_write ts place bs (d_volume d) in Val (r, on_volume v d)
      end
  end.

Definition serve_chdir (p : list Z) (d : desk C) : Z * desk C :=
  match entries (d_volume d) !! d_path d p with
  | None => (- ENOENT, d)
  | Some e =>
      if decide (e_type e <> VFS_NODE_DIR) then (- ENOTDIR, d)
      else (0, Desk (d_volume d) (d_open d) (d_used d) (take 127 (full_path (d_cwd d) p)) (d_console d))
  end.

(** What stat tells: number, links, mode, size, and the size in blocks. *)
Definition describe (e : entry) : list Z :=
  let size := Z.of_nat (length (e_bytes e)) in
  [u64 (e_id e + 1); 1; e_mode e; i64 size; 4096; i64 (u64 (size + 511) / 512)].

Definition serve_stat (e : option entry) : Z * list Z :=
  match e with Some e => (0, describe e) | None => (- EINVAL, []) end.

Definition serve_fstat (fd : Z) (d : desk C) : Z * list Z :=
  match d_open d !! fd with
  | None => (- EBADF, [])
  | Some (id, _) => serve_stat (snd <$> by_id id (d_volume d))
  end.

Definition quietly {A} (o : outcome (Z * A)) : outcome (Z * list Z * A) := '(z, a) ← o; Val (z, [], a).

Definition serve_path (f : volume -> Z * volume) (d : desk C) : Z * desk C :=
  let '(z, v) := f (d_volume d) in (z, on_volume v d).

Definition serve (r : call) (d : desk C) : outcome (Z * list Z * desk C) :=
  match r with
  | Open p flags mode => quietly (Val (serve_open (d_path d p) flags mode d))
  | Close fd => quietly (Val (serve_close fd d))
  | Seek fd offset whence => quietly (Val (serve_seek fd offset whence d))
  | ReadFd fd count => serve_read fd count d
  | WriteFd fd bs => quietly (serve_write fd bs d)
  | Mkdir p mode => quietly (Val (serve_path (v_create (d_path d p) VFS_NODE_DIR mode) d))
  | Rmdir p => quietly (Val (serve_path (v_remove (d_path d p) true) d))
  | Unlink p => quietly (Val (serve_path (v_remove (d_path d p) false) d))
  | Chdir p => quietly (Val (serve_chdir p d))
  | StatPath p => Val (serve_stat (entries (d_volume d) !! d_path d p), d)
  | StatFd fd => Val (serve_fstat fd d, d)
  | Getcwd => Val (0, d_cwd d, d)
  end.

Definition clear_stat : mgcore_stat := Stat 0 0 0 0 0 0.
(** The fields of a buffer that was filled. *)
Definition stat_fields (r : Z * option mgcore_stat) : Z * list Z :=
  match r with
  | (0, Some st) => (0, [st_ino st; st_nlink st; st_mode st; st_size st; st_blksize st; st_blocks st])
  | (z, _) => (z, [])
  end.

(** The same call made of fs.c; a read gets a buffer of the size asked for. *)
Definition issue (r : call) (s : fsys C) : outcome (Z * list Z * fsys C) :=
  match r with
  | Open p flags mode => quietly (fs_open_path (Some (p ++ [0])) flags mode s)
  | Close fd => quietly (fs_close_fd fd s)
  | Seek fd offset whence => quietly (fs_lseek_fd fd offset whence s)
  | ReadFd fd count =>
      '(i, buffer, s) ← fs_read_fd fd (replicate (Z.to_nat count) 0) count s;
      Val (i, take (Z.to_nat i) buffer, s)
  | WriteFd fd bs => quietly (fs_write_fd fd bs (Z.of_nat (length bs)) s)
  | Mkdir p mode => quietly (fs_mkdir_path (Some (p ++ [0])) mode s)
  | Rmdir p => quietly (fs_rmdir_path (Some (p ++ [0])) s)
  | Unlink p => quietly (fs_unlink_path (Some (p ++ [0])) s)
  | Chdir p => quietly (fs_chdir_path (Some (p ++ [0])) s)
  | StatPath p => r ← fs_stat_path (Some (p ++ [0])) (Some clear_stat) s; Val (stat_fields r, s)
  | StatFd fd => r ← fs_fstat_fd fd (Some clear_stat) s; Val (stat_fields r, s)
  | Getcwd => cwd ← fs_getcwd s; Val (0, cstr cwd, s)
  end.

(** Paths that, made absolute, are written as [path_of] writes them: no [.] or [..],
    no slash at the end, nothing too long. *)
Definition plain_path (d : desk C) (p : list Z) : Prop :=
  no_nul p /\ good_path (d_path d p) /\ full_path (d_cwd d) p = path_of (d_path d p).
#[export] Instance plain_path_dec d p : Decision (plain_path d p).
Proof. unfold plain_path, no_nul. apply _. Defined.

(** Counts are sizes of buffers; writes end below 4 GiB. *)
Definition call_ok (r : call) (d : desk C) : Prop :=
  match r with
  | Open p _ _ | Mkdir p _ | Rmdir p | Unlink p | Chdir p | StatPath p => plain_path d p
  | ReadFd _ count => 0 <= count < 2 ^ 63
  | WriteFd fd bs =>
      Forall in_u8 bs /\ default 0 (snd <$> d_open d !! fd) + Z.of_nat (length bs) <= 2 ^ 32 - 256
  | Close _ | Seek _ _ _ | StatFd _ | Getcwd => True
  end.
#[export] Instance call_ok_dec r d : Decision (call_ok r d).
Proof. destruct r; simpl; unfold in_u8; apply _. Defined.

Fixpoint serves (rs : list call) (d : desk C) : outcome (list (Z * list Z) * desk C) :=
  match rs with
  | [] => Val ([], d)
  | r :: rs => '(a, d) ← serve r d; '(l, d) ← serves rs d; Val (a :: l, d)
  end.

Fixpoint issues (rs : list call) (s : fsys C) : outcome (list (Z * list Z) * fsys C) :=
  match rs with
  | [] => Val ([], s)
  | r :: rs => '(a, s) ← issue r s; '(l, s) ← issues rs s; Val (a :: l, s)
  end.

Fixpoint calls_ok (rs : list call) (d : desk C) : Prop :=
  match rs with
  | [] => True
  | r :: rs => call_ok r d /\ match serve r d with Val (_, d) => calls_ok rs d | Stop _ => True end
  end.
#[export] Instance calls_ok_dec rs : forall d, Decision (calls_ok rs d).
Proof. induction rs as [|r rs IH]; intros d; cbn [calls_ok]; [|destruct (serve r d) as [[a d']|]]; apply _. Defined.

End Serve.

(** * What the tables show *)

(** Node number and offset of the open file behind a descriptor. *)
Definition place_at {C} (s : fsys C) (fd : Z) : option (Z * Z) :=
  match lookup_file fd s with
  | Val (Some k) => (fun f => (f_node_id f, f_offset f)) <$> g_open_files s !! Z.to_nat k
  | _ => None
  end.

Definition counted (f : vfs_file) : nat := if decide (f_used f = 1) then 1%nat else 0%nat.
Definition used_files (files : list vfs_file) : nat := sum_list_with counted files.

Record models {C} `{TerminalLaws C} (s : fsys C) (d : desk C) : Prop := {
  md_wf : fsys_wf s;
  md_volume : shows (fs_tmpfs s) (d_volume d);
  md_open fd : d_open d !! fd = place_at s fd;
  md_used : d_used d = used_files (g_open_files s);
  md_cwd t : task_current (fs_tasks s) = Val t -> cstr (t_cwd t) = d_cwd d;
  md_console : d_console d = fs_console s;
}.

Lemma used_files_insert files k f f' : files !! k = Some f ->
  (used_files (<[k := f']> files) + counted f = used_files files + counted f')%nat.
Proof.
  revert k. unfold used_files. induction files as [|g files IH]; intros [|k] Hk; try done.
  - injection Hk as ->. cbn. lia.
  - specialize (IH k Hk). change (<[S k := f']> (g :: files)) with (g :: <[k := f']> files).
    cbn [sum_list_with]. lia.
Qed.

Lemma used_files_all files : Forall (fun f => f_used f = 1) files -> used_files files = length files.
Proof.
  unfold used_files. induction 1 as [|f files Hf _ IH]; cbn; [done|]. rewrite IH. unfold counted.
  by rewrite decide_True.
Qed.

Lemma used_files_room files k f : files !! k = Some f -> f_used f <> 1 -> (used_files files < length files)%nat.
Proof.
  intros Hk Hf. pose proof (used_files_insert files k f (File 1 0 0 0 0) Hk) as Hi. 
  assert (counted f = 0%nat /\ counted (File 1 0 0 0 0) = 1%nat) as [Hf0 Hf1].
  { unfold counted. by rewrite decide_False. }
  assert (forall l, (used_files l <= length l)%nat) as Hle.
  { intros l. induction l as [|g l IH]; [done|]. change (counted g + used_files l <= S (length l))%nat.
    assert (counted g <= 1)%nat by (unfold counted; case_decide; lia). lia. }
  specialize (Hle (<[k := File 1 0 0 0 0]> files)). rewrite length_insert in Hle. lia.
Qed.

(** The entry a node number belongs to is the one [tmpfs_get_node] finds. *)
Lemma by_id_spec fs v id : shows fs v ->
  (tmpfs_get_node id fs = Val None /\ by_id id v = None)
  \/ exists ts n k, tmpfs_get_node id fs = Val (Some n) /\ by_id id v = Some (ts, entry_of (g_data_arena fs) k n)
       /\ id = Z.of_nat k /\ g_nodes fs !! k = Some n /\ live n /\ Forall component ts
       /\ entries v !! ts = Some (entry_of (g_data_arena fs) k n).
Proof.
  intros Hs. pose proof (sh_wf _ _ Hs) as Hfs. pose proof Hfs as [[kids Hwf] _].
  assert (forall ts e, (ts, e) ∈ filter (fun p => e_id p.2 = id) (map_to_list (entries v)) ->
    exists k n, id = Z.of_nat k /\ at_path fs ts k /\ g_nodes fs !! k = Some n /\ live n
      /\ e = entry_of (g_data_arena fs) k n) as Hin.
  { intros ts e [Hid (k & n & Hk & Hn & ->)%elem_of_map_to_list%(sh_entry _ _ Hs)]%list_elem_of_filter.
    exists k, n. destruct (at_path_live fs kids Hwf ts k Hk) as (n' & Hn' & Hl).
    assert (n' = n) as -> by congruence. done. }
  unfold by_id. destruct (filter _ _) as [|[ts e] l] eqn:Hf; cbn [head].
  - left. split; [|done]. destruct (get_node_spec fs id Hfs) as [|(n & _ & Hid & Hn & Hl)]; [done|exfalso].
    destruct (sh_all _ _ Hs _ n Hn Hl) as [ts Hts]. pose proof (shows_entry fs v ts _ n Hs Hts Hn) as He.
    assert ((ts, entry_of (g_data_arena fs) (Z.to_nat id) n) ∈ filter (fun p => e_id p.2 = id) (map_to_list (entries v)))
      as Hmem; [|rewrite Hf in Hmem; by apply not_elem_of_nil in Hmem].
    apply list_elem_of_filter. split; [cbn; lia|]. by apply elem_of_map_to_list.
  - right. destruct (Hin ts e) as (k & n & -> & Hk & Hn & Hl & ->); [left|].
    exists ts, n, k. split; [by apply get_node_live; [..|eapply fs_id_bound]|]. pose proof Hk as [Hts _].
    do 5 (split; [done|]). by apply shows_entry.
Qed.

(** * What the operations do to the places *)

Section Places.
Context {C : Type} `{TerminalLaws C}.

Lemma place_open (s : fsys C) fd k f : open_at s fd k f -> place_at s fd = Some (f_node_id f, f_offset f).
Proof.
  intros Hop. destruct (lookup_file_open s fd k f Hop) as [Hlk _]. unfold place_at. rewrite Hlk, Nat2Z.id.
  destruct Hop as (t & _ & _ & _ & -> & _). done.
Qed.

Lemma open_at_inj (s : fsys C) fd fd' k f f' : fsys_wf s -> open_at s fd k f -> open_at s fd' k f' -> fd = fd'.
Proof.
  intros Hs (t & Hcur & Hr & Hslot & _) (t' & Hcur' & Hr' & Hslot' & _).
  destruct (current_task s Hs) as (t1 & Hcur1 & Ht & _). rewrite Hcur in Hcur1. injection Hcur1 as <-.
  rewrite Hcur in Hcur'. injection Hcur' as <-.
  destruct (fw_unshared _ _ (sw_files _ Hs) _ _ _ _ _ (ex_intro _ t (conj Ht Hslot)) (ex_intro _ t (conj Ht Hslot'))).
  lia.
Qed.

(** Filling an entry of [g_open_files]: only the descriptor that refers to it sees
    the new place. *)
Lemma place_set_file (s : fsys C) k f' fd : fsys_wf s ->
  place_at (set_file k f' s) fd
  = if decide (lookup_file fd s = Val (Some (Z.of_nat k))) then Some (f_node_id f', f_offset f') else place_at s fd.
Proof.
  intros Hs. unfold place_at. change (lookup_file fd (set_file k f' s)) with (lookup_file fd s).
  destruct (lookup_file_spec s fd Hs) as [->|(k2 & f2 & -> & (t & _ & _ & _ & Hf & _))]; [by rewrite decide_False|].
  rewrite Nat2Z.id. cbn [set_file with_files g_open_files].
  case_decide as Hk.
  - injection Hk as Hk. assert (k2 = k) as -> by lia. rewrite list_lookup_insert_eq; [done|by eapply lookup_lt_Some].
  - rewrite list_lookup_insert_ne; [done|]. intros <-. by apply Hk.
Qed.

Lemma place_seek (s : fsys C) fd k f o fd' : fsys_wf s -> open_at s fd k f ->
  place_at (set_file k (at_offset o f) s) fd' = if decide (fd' = fd) then Some (f_node_id f, o) else place_at s fd'.
Proof.
  intros Hs Hop. rewrite place_set_file by done. cbn [at_offset f_node_id f_offset].
  destruct (lookup_file_open s fd k f Hop) as [Hlk _]. case_decide as Hk; case_decide as Hfd; try done.
  - destruct (lookup_file_spec s fd' Hs) as [Hlk'|(k2 & f2 & Hlk' & Hop')]; rewrite Hk in Hlk'; [done|].
    injection Hlk' as Hlk'. apply Nat2Z.inj in Hlk' as <-. by destruct Hfd; eapply open_at_inj.
  - subst fd'. by destruct Hk.
Qed.

Lemma set_current_task (s : fsys C) t t' :
  fsys_wf s -> task_current (fs_tasks s) = Val t -> task_current (fs_tasks (set_current t' s)) = Val t'.
Proof.
  intros Hs Hcur. destruct (current_task s Hs) as (t1 & Hcur1 & Ht & _).
  pose proof (wf_current _ (sw_tasks _ Hs)) as Hci. unfold task_current. cbn. apply aget_Some; [lia|].
  apply list_lookup_insert_eq. by eapply lookup_lt_Some.
Qed.

Lemma lookup_set_current (s : fsys C) t t' fd' :
  fsys_wf s -> task_current (fs_tasks s) = Val t -> length (t_fds t') = 32%nat ->
  lookup_file fd' (set_current t' s)
  = if decide (fd' < 0 \/ fd' >= 32) then Val None else aget (t_fds t') fd'.
Proof.
  intros Hs Hcur Hl. unfold lookup_file. by rewrite (set_current_task s t).
Qed.

(** Changing one slot of the current task's descriptors. *)
Lemma lookup_slot (s : fsys C) t fd slot fd' :
  fsys_wf s -> task_current (fs_tasks s) = Val t -> 0 <= fd < 32 ->
  lookup_file fd' (set_current (set_fds (<[Z.to_nat fd := slot]> (t_fds t)) t) s)
  = if decide (fd' = fd) then Val slot else lookup_file fd' s.
Proof.
  intros Hs Hcur Hfd. destruct (current_task s Hs) as (t1 & Hcur1 & Ht & _ & Hl). rewrite Hcur in Hcur1. injection Hcur1 as <-.
  rewrite (lookup_set_current s t) by (done || (cbn; by rewrite length_insert)). cbn [set_fds t_fds].
  unfold lookup_file. rewrite Hcur. cbn [mbind outcome_bind]. change (Z.of_nat MGCORE_MAX_FDS) with 32.
  case_decide as Hr; [by rewrite decide_False by lia|]. case_decide as He.
  - subst fd'. apply aget_Some; [lia|]. apply list_lookup_insert_eq. lia.
  - destruct (lookup_lt_is_Some_2 (t_fds t) (Z.to_nat fd') ltac:(lia)) as [x Hx].
    rewrite (aget_Some (t_fds t) fd' x ltac:(lia) Hx). apply aget_Some; [lia|]. rewrite list_lookup_insert_ne; [done|lia].
Qed.

Lemma place_opened (s : fsys C) t fd k f0 f fd' :
  fsys_wf s -> task_current (fs_tasks s) = Val t -> 3 <= fd < 32 ->
  g_open_files s !! k = Some f0 -> f_used f0 <> 1 ->
  place_at (opened t fd k f s) fd' = if decide (fd' = fd) then Some (f_node_id f, f_offset f) else place_at s fd'.
Proof.
  intros Hs Hcur Hfd Hk Hu. unfold place_at at 1, opened.
  change (lookup_file fd' (set_current ?x (set_file k f s))) with (lookup_file fd' (set_current x s)).
  rewrite lookup_slot by (done || lia).
  change (g_open_files (set_current ?x (set_file k f s))) with (<[k := f]> (g_open_files s)).
  case_decide as He.
  - rewrite Nat2Z.id, list_lookup_insert_eq; [done|by eapply lookup_lt_Some].
  - unfold place_at. destruct (lookup_file_spec s fd' Hs) as [->|(k2 & f2 & -> & (_ & _ & _ & _ & Hf & Hu2 & _))]; [done|].
    rewrite Nat2Z.id, list_lookup_insert_ne; [done|]. intros <-. congruence.
Qed.

Lemma place_closed (s : fsys C) t fd k f fd' :
  fsys_wf s -> task_current (fs_tasks s) = Val t -> open_at s fd k f ->
  place_at (closed t fd k s) fd' = if decide (fd' = fd) then None else place_at s fd'.
Proof.
  intros Hs Hcur Hop. pose proof Hop as (t1 & _ & Hfd & _). unfold place_at at 1, closed.
  change (lookup_file fd' (set_current ?x (set_file k zero_file s))) with (lookup_file fd' (set_current x s)).
  rewrite lookup_slot by (done || lia).
  change (g_open_files (set_current ?x (set_file k zero_file s))) with (<[k := zero_file]> (g_open_files s)).
  case_decide as He; [done|]. unfold place_at.
  destruct (lookup_file_spec s fd' Hs) as [->|(k2 & f2 & -> & Hop2)]; [done|].
  rewrite Nat2Z.id, list_lookup_insert_ne; [done|]. intros <-. apply He. by eapply open_at_inj.
Qed.

(** A free slot of the current task is a descriptor without place. *)
Lemma slot_place (s : fsys C) t fd : fsys_wf s -> task_current (fs_tasks s) = Val t -> 3 <= fd < 32 ->
  t_fds t !! Z.to_nat fd = Some None <-> place_at s fd = None.
Proof.
  intros Hs Hcur Hfd. destruct (current_task s Hs) as (t1 & Hcur1 & Ht & _ & Hl). rewrite Hcur in Hcur1. injection Hcur1 as <-.
  destruct (lookup_lt_is_Some_2 (t_fds t) (Z.to_nat fd) ltac:(lia)) as [x Hx].
  assert (lookup_file fd s = Val x) as Hlk.
  { unfold lookup_file. rewrite Hcur. cbn [mbind outcome_bind]. change (Z.of_nat MGCORE_MAX_FDS) with 32.
    rewrite decide_False by lia. apply aget_Some; [lia|done]. }
  destruct (lookup_file_spec s fd Hs) as [Hn|(k & f & Hsome & Hop)].
  - rewrite Hlk in Hn. injection Hn as ->. unfold place_at. rewrite Hlk. done.
  - rewrite Hlk in Hsome. injection Hsome as ->. rewrite (place_open s fd k f Hop), Hx. done.
Qed.

End Places.

(** * Each call answers as the desk does *)

Section Answers.
Context {C : Type} `{TerminalLaws C}.

Lemma models_tmpfs (s : fsys C) d tm v : models s d -> shows tm v -> models (with_tmpfs tm s) (on_volume v d).
Proof. intros [] Hv. split; try done. by apply with_tmpfs_wf; [|apply (sh_wf _ _ Hv)]. Qed.

Lemma models_console (s : fsys C) d c : models s d -> term_ok c ->
  models (with_fs_console c s) (Desk (d_volume d) (d_open d) (d_used d) (d_cwd d) c).
Proof. intros [] Hc. split; try done. by apply with_console_wf. Qed.

Lemma models_seek (s : fsys C) d fd k f o : models s d -> open_at s fd k f -> in_u64 o ->
  models (set_file k (at_offset o f) s) (on_open (<[fd := (f_node_id f, o)]> (d_open d)) d).
Proof.
  intros Hm Hop Ho. pose proof (md_wf _ _ Hm) as Hs. split.
  - by eapply at_offset_wf.
  - apply (md_volume _ _ Hm).
  - intros fd'. cbn [on_open d_open]. rewrite (place_seek s fd k f) by done. case_decide as He.
    + subst fd'. by rewrite lookup_insert_eq.
    + rewrite lookup_insert_ne by done. apply (md_open _ _ Hm).
  - cbn [on_open d_used set_file with_files g_open_files]. rewrite (md_used _ _ Hm).
    destruct Hop as (_ & _ & _ & _ & Hf & _). pose proof (used_files_insert _ k f (at_offset o f) Hf) as Hc.
    assert (counted (at_offset o f) = counted f) by done. lia.
  - apply (md_cwd _ _ Hm).
  - apply (md_console _ _ Hm).
Qed.

Lemma models_open_at (s : fsys C) d fd : models s d ->
  (lookup_file fd s = Val None /\ d_open d !! fd = None)
  \/ exists k f, open_at s fd k f /\ lookup_file fd s = Val (Some (Z.of_nat k))
       /\ aget (g_open_files s) (Z.of_nat k) = Val f /\ in_u64 (f_offset f)
       /\ d_open d !! fd = Some (f_node_id f, f_offset f).
Proof.
  intros Hm. pose proof (md_wf _ _ Hm) as Hs. rewrite (md_open _ _ Hm).
  destruct (lookup_file_spec s fd Hs) as [Hlk|(k & f & Hlk & Hop)]; [left|right].
  - split; [done|]. unfold place_at. by rewrite Hlk.
  - exists k, f. destruct (lookup_file_open s fd k f Hop) as [_ Hget]. rewrite (place_open s fd k f Hop).
    do 3 (split; [done|]). split; [|done]. destruct Hop as (_ & _ & _ & _ & Hf & _).
    by destruct (fw_file _ _ (sw_files _ Hs) _ _ Hf).
Qed.

Lemma models_task (s : fsys C) d : models s d ->
  exists t, task_current (fs_tasks s) = Val t /\ cstr (t_cwd t) = d_cwd d.
Proof.
  intros Hm. destruct (current_task s (md_wf _ _ Hm)) as (t & Hcur & _). exists t.
  split; [done|]. by apply (md_cwd _ _ Hm).
Qed.

Lemma models_path (s : fsys C) d p more : models s d -> plain_path d p ->
  resolved_path (Some (p ++ 0 :: more)) s = Val (Some (path_of (d_path d p))).
Proof.
  intros Hm (Hp & _ & Hpath). destruct (models_task s d Hm) as (t & Hcur & Hcwd).
  rewrite (resolved_path_spec s p more t (md_wf _ _ Hm) Hcur Hp), Hcwd. by rewrite <- Hpath.
Qed.

(** ** Closing and seeking *)

Lemma close_answers (s : fsys C) d fd : models s d ->
  exists s', fs_close_fd fd s = Val ((serve_close fd d).1, s') /\ models s' (serve_close fd d).2.
Proof.
  intros Hm. pose proof (md_wf _ _ Hm) as Hs. destruct (models_task s d Hm) as (t & Hcur & Hcwd).
  unfold serve_close. destruct (close_spec s fd t Hs Hcur) as [[-> Hlk]|(k & f & Hop & ->)].
  - destruct (models_open_at s d fd Hm) as [[_ ->]|(k & f & _ & Hlk' & _)]; [|congruence]. by exists s.
  - rewrite (md_open _ _ Hm), (place_open s fd k f Hop). exists (closed t fd k s). split; [done|].
    destruct (current_task s Hs) as (t1 & Hcur1 & Ht & _). rewrite Hcur in Hcur1. injection Hcur1 as <-.
    pose proof Hop as (t1 & Hcur1 & _ & Hslot & Hf & Hu & _). rewrite Hcur in Hcur1. injection Hcur1 as <-. split.
    + by eapply closed_wf.
    + apply (md_volume _ _ Hm).
    + intros fd'. cbn [d_open snd]. rewrite (place_closed s t fd k f) by done. case_decide as He.
      * subst fd'. by rewrite lookup_delete_eq.
      * rewrite lookup_delete_ne by done. apply (md_open _ _ Hm).
    + cbn [snd d_used]. rewrite (md_used _ _ Hm). pose proof (used_files_insert _ k f zero_file Hf) as Hc.
      assert (counted f = 1%nat) as Hc1 by (unfold counted; by rewrite decide_True).
      change (g_open_files (closed t fd k s)) with (<[k := zero_file]> (g_open_files s)).
      change (counted zero_file) with 0%nat in Hc. lia.
    + intros t' Ht'. cbn [snd d_cwd]. rewrite <- Hcwd. unfold closed in Ht'.
      change (set_current ?x (set_file k zero_file s)) with (set_file k zero_file (set_current x s)) in Ht'.
      cbn [set_file with_files fs_tasks] in Ht'. rewrite (set_current_task s t) in Ht' by done. by injection Ht' as <-.
    + apply (md_console _ _ Hm).
Qed.

Lemma live_size (s : fsys C) k n : fsys_wf s -> g_nodes (fs_tmpfs s) !! k = Some n -> live n ->
  Z.of_nat (length (contents (g_data_arena (fs_tmpfs s)) n)) = n_size n.
Proof.
  intros Hs Hn Hl. pose proof (sw_tmpfs _ Hs) as [_ Hd]. pose proof (dw_extent _ Hd k n Hn Hl) as He.
  rewrite (contents_length _ _ _ He). unfold extent_ok in He. destruct (n_data n); lia.
Qed.

Lemma seek_answers (s : fsys C) d fd offset whence : models s d ->
  exists s', fs_lseek_fd fd offset whence s = Val ((serve_seek fd offset whence d).1, s')
    /\ models s' (serve_seek fd offset whence d).2.
Proof.
  intros Hm. pose proof (md_wf _ _ Hm) as Hs. unfold fs_lseek_fd, serve_seek.
  destruct (models_open_at s d fd Hm) as [[-> ->]|(k & f & Hop & -> & Hget & _ & ->)]; cbn [mbind outcome_bind];
    [by exists s|]. rewrite Hget. cbn [mbind outcome_bind].
  destruct (by_id_spec (fs_tmpfs s) (d_volume d) (f_node_id f) (md_volume _ _ Hm))
    as [[-> ->]|(ts & n & k' & -> & -> & _ & Hn & Hl & _)]; cbn [mbind outcome_bind]; [by exists s|].
  cbn [e_bytes entry_of]. rewrite (live_size s k' n Hs Hn Hl).
  repeat case_decide; rewrite ?(aset_open s fd k f) by done; cbn [mbind outcome_bind fst snd];
    eexists; (split; [done|]); try done; apply models_seek; eauto with cint.
Qed.

(** ** Reading and writing *)

Lemma device_one (a : gmap Z Z) k n x :
  is_device (entry_of a k n) [x] <-> n_type n = VFS_NODE_CHARDEV /\ device_id n = x.
Proof. unfold is_device. cbn. by rewrite list_elem_of_singleton. Qed.

Lemma device_two (a : gmap Z Z) k n x y :
  is_device (entry_of a k n) [x; y] <-> n_type n = VFS_NODE_CHARDEV /\ (device_id n = x \/ device_id n = y).
Proof. unfold is_device. cbn. set_solver. Qed.

Lemma device_three (a : gmap Z Z) k n x y z :
  is_device (entry_of a k n) [x; y; z]
  <-> n_type n = VFS_NODE_CHARDEV /\ (device_id n = x \/ device_id n = y \/ device_id n = z).
Proof. unfold is_device. cbn. set_solver. Qed.

(** Characters go to the front of the buffer, whatever it held. *)
Lemma read_console_typed n : forall pre rest (c : C), (n <= length rest)%nat -> term_ok c ->
  exists bs c', typed n c = Val (bs, c') /\ term_ok c'
    /\ read_console n (Z.of_nat (length pre)) (pre ++ rest) c
       = Val (Z.of_nat (length pre + length bs), pre ++ bs ++ drop (length bs) rest, c').
Proof.
  induction n as [|n IH]; intros pre rest c Hn Hc; cbn [typed read_console].
  { exists [], c. by rewrite Nat.add_0_r. }
  destruct (read_law c Hc) as (r & c1 & -> & Hc1 & _). cbn [mbind outcome_bind]. destruct r as [b|].
  2: { exists [], c1. by rewrite Nat.add_0_r. }
  destruct rest as [|x rest]; cbn [length] in Hn; [lia|].
  rewrite aset_lookup by (rewrite length_app; simpl; lia). cbn [mbind outcome_bind].
  rewrite insert_app_r_alt, Nat.sub_diag by done. change (pre ++ <[0%nat := b]> (x :: rest)) with (pre ++ [b] ++ rest). rewrite app_assoc.
  destruct (IH (pre ++ [b]) rest c1) as (bs & c' & -> & Hc' & Hr); [lia|done|].
  rewrite length_app in Hr. cbn [length] in Hr. replace (Z.of_nat (length pre) + 1) with (Z.of_nat (length pre + 1)) by lia.
  rewrite Hr. cbn [mbind outcome_bind]. exists (b :: bs), c'. split; [done|]. split; [done|].
  replace (length pre + 1 + length bs)%nat with (length pre + length (b :: bs))%nat by (cbn; lia).
  by rewrite <- app_assoc.
Qed.

(** The answer to a read, and the bytes at the front of the buffer. *)
Definition answers_read (serving : outcome (Z * list Z * desk C)) (run : outcome (Z * list Z * fsys C))
  (buffer : list Z) : Prop :=
  exists z bs d' s', serving = Val (z, bs, d') /\ length bs = Z.to_nat z
    /\ run = Val (z, splice buffer 0 bs, s') /\ models s' d'.

Lemma type_in_answers (s : fsys C) d buffer count : models s d -> 0 <= count <= Z.of_nat (length buffer) ->
  answers_read (type_in count d) (read_terminal buffer count s) buffer.
Proof.
  intros Hm Hc. unfold answers_read, type_in, read_terminal. rewrite (md_console _ _ Hm).
  destruct (read_console_typed (Z.to_nat count) [] buffer (fs_console s)) as (bs & c & -> & Hok & Hr);
    [lia|exact (sw_console _ (md_wf _ _ Hm))|].
  change (Z.of_nat (length [])) with 0 in Hr. rewrite !app_nil_l in Hr. rewrite Hr. cbn [mbind outcome_bind].
  do 4 eexists. split; [reflexivity|]. split; [lia|]. split; [reflexivity|]. by apply models_console.
Qed.

Lemma write_n_take bs count (c : C) : 0 <= count <= Z.of_nat (length bs) ->
  console_write_n bs count c = console_write_n (take (Z.to_nat count) bs) count c.
Proof.
  intros Hc. unfold console_write_n. apply for_loop_ext. intros i t Hi.
  destruct (lookup_lt_is_Some_2 bs (Z.to_nat i) ltac:(lia)) as [x Hx].
  rewrite (aget_Some bs i x), (aget_Some (take _ bs) i x); [done|lia| |lia|done].
  by rewrite lookup_take_lt by lia.
Qed.

Lemma type_out_answers (s : fsys C) d buffer count :
  models s d -> 0 <= count <= Z.of_nat (length buffer) -> Forall in_u8 (take (Z.to_nat count) buffer) ->
  exists z d' s', type_out (take (Z.to_nat count) buffer) d = Val (z, d')
    /\ write_terminal buffer count s = Val (z, s') /\ models s' d'.
Proof.
  intros Hm Hc Hb. unfold type_out, write_terminal. rewrite (md_console _ _ Hm), (write_n_take buffer) by done.
  set (bs := take (Z.to_nat count) buffer) in *.
  assert (Z.of_nat (length bs) = count) as -> by (unfold bs; rewrite length_take; lia).
  destruct (write_n_spec bs count (fs_console s) Hb) as (c & -> & Hok & _);
    [exact (sw_console _ (md_wf _ _ Hm))|unfold bs; rewrite length_take; lia|].
  cbn [mbind outcome_bind]. do 3 eexists. do 2 (split; [reflexivity|]). by apply models_console.
Qed.

Lemma read_answers (s : fsys C) d fd buffer count :
  models s d -> 0 <= count < 2 ^ 63 -> count <= Z.of_nat (length buffer) ->
  answers_read (serve_read fd count d) (fs_read_fd fd buffer count s) buffer.
Proof.
  intros Hm Hc Hlen. pose proof (type_in_answers s d buffer count Hm ltac:(lia)) as Hin.
  assert (forall e, e < 0 -> answers_read (Val (e, [], d)) (Val (e, buffer, s)) buffer) as Hbad.
  { intros e He. exists e, [], d, s. split; [done|]. split; [cbn; lia|done]. }
  unfold fs_read_fd, serve_read.
  destruct (models_open_at s d fd Hm) as [[-> ->]|(k & f & Hop & -> & Hget & Ho & ->)]; cbn [mbind outcome_bind].
  { case_decide; [exact Hin|]. by apply Hbad. }
  rewrite Hget. cbn [mbind outcome_bind].
  destruct (by_id_spec (fs_tmpfs s) (d_volume d) (f_node_id f) (md_volume _ _ Hm))
    as [[-> ->]|(ts & n & k' & -> & -> & Hid & Hn & Hl & Hts & He)]; cbn [mbind outcome_bind]; [by apply Hbad|].
  case_decide as Hz; rewrite device_one in Hz; [rewrite (decide_True _ _ Hz)|rewrite (decide_False _ _ Hz)].
  { rewrite awrite_in_range by (rewrite ?length_replicate; lia). cbn [mbind outcome_bind].
    rewrite i64_small by lia. exists count, (replicate (Z.to_nat count) 0), d, s.
    split; [done|]. by rewrite length_replicate. }
  case_decide as Hd; rewrite device_three in Hd;
    [rewrite (decide_True _ _ Hd); exact Hin|rewrite (decide_False _ _ Hd)].
  unfold in_u64 in Ho. assert (v_lookup ts (d_volume d) = f_node_id f) as Hlk by (unfold v_lookup; by rewrite He, Hid).
  pose proof (read_answer (fs_tmpfs s) (d_volume d) ts (f_offset f) count buffer (md_volume _ _ Hm) Hts
                ltac:(lia) ltac:(lia)) as Hr.
  rewrite Hlk in Hr. rewrite Hr. cbn [mbind outcome_bind].
  pose proof (v_read_length ts (f_offset f) count (d_volume d)) as Hbs.
  destruct (v_read ts (f_offset f) count (d_volume d)) as [z bs]. cbn [fst snd] in *.
  case_decide; [rewrite (aset_open s fd k f) by done|]; cbn [mbind outcome_bind];
    do 4 eexists; do 2 (split; [done|]); (split; [reflexivity|]); [apply models_seek; auto with cint|done].
Qed.

Lemma write_answers (s : fsys C) d fd buffer count :
  let bs := take (Z.to_nat count) buffer in
  models s d -> 0 <= count <= Z.of_nat (length buffer) -> call_ok (WriteFd fd bs) d ->
  exists z d' s', serve_write fd bs d = Val (z, d') /\ fs_write_fd fd buffer count s = Val (z, s') /\ models s' d'.
Proof.
  intros bs Hm Hc [Hb Hfit]. pose proof (type_out_answers s d buffer count Hm Hc Hb) as Hout. fold bs in Hout.
  assert (Z.of_nat (length bs) = count) as Hlen by (unfold bs; rewrite length_take; lia).
  unfold fs_write_fd, serve_write.
  destruct (models_open_at s d fd Hm) as [[-> ->]|(k & f & Hop & -> & Hget & Ho & Hplace)]; cbn [mbind outcome_bind].
  { case_decide; [exact Hout|]. by exists (- EBADF), d, s. }
  rewrite Hplace in *. cbn in Hfit. rewrite Hget. cbn [mbind outcome_bind].
  destruct (by_id_spec (fs_tmpfs s) (d_volume d) (f_node_id f) (md_volume _ _ Hm))
    as [[-> ->]|(ts & n & k' & -> & -> & Hid & Hn & Hl & Hts & He)]; cbn [mbind outcome_bind];
    [by exists (- EBADF), d, s|].
  case_decide as Hz; rewrite device_one in Hz;
    [rewrite (decide_True _ _ Hz), Hlen; by do 3 eexists|rewrite (decide_False _ _ Hz)].
  case_decide as Hd; rewrite device_two in Hd;
    [rewrite (decide_True _ _ Hd); exact Hout|rewrite (decide_False _ _ Hd)].
  unfold in_u64 in Ho. rewrite Hlen in Hfit.
  destruct (write_answer (fs_tmpfs s) (d_volume d) ts (f_offset f) buffer count (md_volume _ _ Hm) Hts)
    as (tm & Hw & Hv); [lia..|]. fold bs in Hw, Hv.
  assert (v_lookup ts (d_volume d) = f_node_id f) as Hlk by (unfold v_lookup; by rewrite He, Hid).
  rewrite Hlk in Hw. rewrite Hw. cbn [mbind outcome_bind].
  destruct (v_write ts (f_offset f) bs (d_volume d)) as [z v]. cbn [fst snd] in *.
  do 3 eexists. do 2 (split; [reflexivity|]). by apply models_tmpfs.
Qed.

(** ** Paths *)

Lemma mkdir_answers (s : fsys C) d p mode more : models s d -> plain_path d p ->
  exists s', fs_mkdir_path (Some (p ++ 0 :: more)) mode s
      = Val ((serve_path (v_create (d_path d p) VFS_NODE_DIR mode) d).1, s')
    /\ models s' (serve_path (v_create (d_path d p) VFS_NODE_DIR mode) d).2.
Proof.
  intros Hm Hp. unfold fs_mkdir_path, serve_path. rewrite (models_path s d p more) by done. cbn [mbind outcome_bind].
  destruct (create_answer (fs_tmpfs s) (d_volume d) (d_path d p) VFS_NODE_DIR mode (md_volume _ _ Hm))
    as (tm & -> & Hv); [by destruct Hp as (_ & ? & _)|done|]. cbn [mbind outcome_bind].
  destruct (v_create _ _ _ _) as [z v]. eexists. split; [reflexivity|]. by apply models_tmpfs.
Qed.

(** [fs_rmdir_path] and [fs_unlink_path]. *)
Lemma remove_path_answers (s : fsys C) d p want_dir more : models s d -> plain_path d p ->
  exists s', (resolved ← resolved_path (Some (p ++ 0 :: more)) s;
              '(r, t) ← tmpfs_remove_path resolved want_dir (fs_tmpfs s); Val (r, with_tmpfs t s))
      = Val ((serve_path (v_remove (d_path d p) want_dir) d).1, s')
    /\ models s' (serve_path (v_remove (d_path d p) want_dir) d).2.
Proof.
  intros Hm Hp. unfold serve_path. rewrite (models_path s d p more) by done. cbn [mbind outcome_bind].
  destruct (remove_answer (fs_tmpfs s) (d_volume d) (d_path d p) want_dir (md_volume _ _ Hm))
    as (tm & -> & Hv); [by destruct Hp as (_ & ? & _)|]. cbn [mbind outcome_bind].
  destruct (v_remove _ _ _) as [z v]. eexists. split; [reflexivity|]. by apply models_tmpfs.
Qed.

(** ** Opening *)

Lemma lowest_fd_is (d : desk C) fd :
  3 <= fd < 32 -> d_open d !! fd = None -> (forall j, 3 <= j < fd -> d_open d !! j <> None) -> lowest_fd d = Some fd.
Proof.
  intros Hfd Hfree Hlow. unfold lowest_fd.
  assert (forall j, 3 <= j < 32 -> seqZ 3 29 !! Z.to_nat (j - 3) = Some j) as Hseq.
  { intros j Hj. apply lookup_seqZ. lia. }
  destruct (first_index _ _ _) as [j|] eqn:Hj.
  - apply first_index_Some in Hj as (Hr & (x & Hx & Hnone) & Hbefore). rewrite length_seqZ in Hr.
    rewrite Hseq in Hx by lia. injection Hx as <-. apply bool_decide_eq_true in Hnone.
    destruct (Z.lt_trichotomy j fd) as [Hlt|[->|Hgt]]; [by destruct (Hlow j ltac:(lia))|done|].
    pose proof (Hbefore fd fd ltac:(lia) (Hseq fd Hfd)) as Hb. by apply bool_decide_eq_false in Hb.
  - rewrite first_index_None, Forall_lookup in Hj. specialize (Hj _ _ (Hseq fd Hfd)).
    by apply bool_decide_eq_false in Hj.
Qed.

Lemma no_fd_left (d : desk C) : (forall j, 3 <= j < 32 -> d_open d !! j <> None) -> lowest_fd d = None.
Proof.
  intros Hall. apply first_index_None, Forall_lookup. intros i j [-> Hi]%lookup_seqZ.
  apply bool_decide_eq_false. apply Hall. lia.
Qed.

Lemma unused_place (s : fsys C) k f fd : fsys_wf s -> g_open_files s !! k = Some f -> f_used f = 0 ->
  lookup_file fd s <> Val (Some (Z.of_nat k)).
Proof.
  intros Hs Hk Hu Hlk. destruct (lookup_file_spec s fd Hs) as [?|(k2 & f2 & Hlk2 & (_ & _ & _ & _ & Hf & Hu2 & _))];
    [congruence|]. rewrite Hlk in Hlk2. injection Hlk2 as Hk2. assert (k2 = k) as -> by lia. congruence.
Qed.

Lemma descriptor_answers (s : fsys C) d id flags : models s d ->
  exists s', open_node id flags s = Val ((serve_descriptor id d).1, s') /\ models s' (serve_descriptor id d).2.
Proof.
  intros Hm. pose proof (md_wf _ _ Hm) as Hs. destruct (models_task s d Hm) as (t & Hcur & Hcwd).
  destruct (open_node_spec s id flags t Hs Hcur) as ([z s'] & -> & Hres).
  pose proof (open_result_wf id flags s t _ Hs Hcur Hres) as Hs'. cbn [snd] in Hs'.
  pose proof (fw_length _ _ (sw_files _ Hs)) as Hlen. unfold serve_descriptor. rewrite (md_used _ _ Hm).
  assert (forall j k', 3 <= j < 32 -> t_fds t !! Z.to_nat j = Some (Some k') -> d_open d !! j <> None) as Htaken.
  { intros j k' Hj Hk' Hn. rewrite (md_open _ _ Hm) in Hn. apply (slot_place s t j Hs Hcur Hj) in Hn. congruence. }
  inversion Hres as [Hall|k f Hk Hu Hfds|k f fd Hk Hu Hb Hfd Hn Hlow]; subst z s'.
  - rewrite (used_files_all _ Hall), decide_True by done. by exists s.
  - pose proof (used_files_room _ k f Hk ltac:(lia)). rewrite decide_False by lia. rewrite no_fd_left.
    2: { intros j Hj. destruct (Hfds j Hj) as [k' Hk']. by apply (Htaken j k'). }
    eexists. split; [reflexivity|]. cbn [snd]. destruct Hm. split; try done.
    + intros fd. rewrite place_set_file by done. rewrite decide_False by by eapply unused_place. done.
    + cbn [set_file with_files g_open_files]. pose proof (used_files_insert _ k f (File 0 1 id 0 flags) Hk) as Hc.
      assert (counted f = 0%nat) as Hf0 by (unfold counted; by rewrite decide_False by lia).
      change (counted (File 0 1 id 0 flags)) with 0%nat in Hc. lia.
  - pose proof (used_files_room _ k f Hk ltac:(lia)). rewrite decide_False by lia. rewrite (lowest_fd_is d fd Hfd).
    2: { rewrite (md_open _ _ Hm). by apply (slot_place s t fd Hs Hcur). }
    2: { intros j Hj. destruct (Hlow j Hj) as [k' Hk']. apply (Htaken j k'); [lia|done]. }
    eexists. split; [reflexivity|]. cbn [snd]. split; [done|apply (md_volume _ _ Hm)|..|apply (md_console _ _ Hm)].
    + intros fd'. cbn [d_open]. rewrite (place_opened s t fd k f) by (done || lia). case_decide as He.
      * subst fd'. by rewrite lookup_insert_eq.
      * rewrite lookup_insert_ne by done. apply (md_open _ _ Hm).
    + change (g_open_files (opened t fd k ?f' s)) with (<[k := f']> (g_open_files s)). cbn [d_used].
      pose proof (used_files_insert _ k f (File 1 1 id 0 flags) Hk) as Hc.
      assert (counted f = 0%nat) as Hf0 by (unfold counted; by rewrite decide_False by lia).
      change (counted (File 1 1 id 0 flags)) with 1%nat in Hc. lia.
    + intros t' Ht'. rewrite (opened_current s t) in Ht' by done. by injection Ht' as <-.
Qed.

Lemma open_answers (s : fsys C) d p flags mode more : models s d -> plain_path d p ->
  exists s', fs_open_path (Some (p ++ 0 :: more)) flags mode s = Val ((serve_open (d_path d p) flags mode d).1, s')
    /\ models s' (serve_open (d_path d p) flags mode d).2.
Proof.
  intros Hm (Hp & Hgood & Hpath). pose proof (md_wf _ _ Hm) as Hs. destruct (models_task s d Hm) as (t & Hcur & Hcwd).
  rewrite (open_path_eq s p more flags mode t) by done. rewrite Hcwd, Hpath. unfold serve_open.
  rewrite (shows_lookup _ _ _ (md_volume _ _ Hm) Hgood). cbn [mbind outcome_bind].
  assert (forall id tm v, shows tm v ->
    exists s', (if decide (id < 0) then Val (id, with_tmpfs tm s) else open_node id flags (with_tmpfs tm s))
        = Val ((if decide (id < 0) then (id, on_volume v d) else serve_descriptor id (on_volume v d)).1, s')
      /\ models s' (if decide (id < 0) then (id, on_volume v d) else serve_descriptor id (on_volume v d)).2) as Htail.
  { intros id tm v Hv. pose proof (models_tmpfs s d tm v Hm Hv) as Hm1. case_decide; [by eexists|].
    by apply descriptor_answers. }
  case_decide.
  - destruct (create_answer (fs_tmpfs s) (d_volume d) (d_path d p) VFS_NODE_FILE (u32 mode) (md_volume _ _ Hm))
      as (tm & -> & Hv); [done..|]. cbn [mbind outcome_bind]. destruct (v_create _ _ _ _) as [id v]. by apply Htail.
  - apply Htail, (md_volume _ _ Hm).
Qed.

(** ** The working directory *)

Lemma chdir_answers (s : fsys C) d p more : models s d -> plain_path d p ->
  exists s', fs_chdir_path (Some (p ++ 0 :: more)) s = Val ((serve_chdir p d).1, s') /\ models s' (serve_chdir p d).2.
Proof.
  intros Hm Hplain. pose proof Hplain as (Hp & Hgood & Hpath). pose proof (md_wf _ _ Hm) as Hs.
  destruct (models_task s d Hm) as (t & Hcur & Hcwd). pose proof (md_volume _ _ Hm) as Hv.
  unfold fs_chdir_path, serve_chdir. rewrite (models_path s d p more) by done. cbn [mbind outcome_bind default].
  rewrite (shows_lookup _ _ _ Hv Hgood). cbn [mbind outcome_bind]. unfold v_lookup.
  destruct (shows_cases _ _ _ Hv (proj1 Hgood)) as [(-> & _)|(k & n & -> & _ & Hn & Hl)].
  { rewrite decide_True by (unfold ENOENT; lia). by exists s. }
  cbn [e_id e_type entry_of]. rewrite decide_False by lia.
  rewrite (get_node_live _ k n Hn Hl) by by eapply fs_id_bound; [apply (sh_wf _ _ Hv)|]. cbn [mbind outcome_bind].
  case_decide; [by exists s|]. rewrite Hcur. cbn [mbind outcome_bind].
  destruct (current_task s Hs) as (t1 & Hcur1 & Ht & Hok & Hfl). rewrite Hcur in Hcur1. injection Hcur1 as <-.
  destruct (full_path_ok _ p Hok Hp) as [Hnul _]. rewrite Hcwd in Hnul.
  destruct (store_cwd_spec (t_cwd t) (full_path (d_cwd d) p) (cwd_array _ Hok) Hnul) as (cwd' & Hst & Hlen & Hc).
  unfold id. rewrite <- Hpath, Hst. cbn [mbind outcome_bind]. rewrite (upd_current _ s t) by done.
  cbn [mbind outcome_bind fst snd]. exists (set_current (set_cwd cwd' t) s). split; [reflexivity|].
  assert (fsys_wf (set_current (set_cwd cwd' t) s)) as Hs'
    by (apply (chdir_wf s t p cwd' Hs Hcur Hp Hlen); by rewrite Hcwd).
  split; [exact Hs'|done|..|apply (md_used _ _ Hm)| |apply (md_console _ _ Hm)].
  - intros fd. cbn [d_open]. rewrite (md_open _ _ Hm). unfold place_at.
    rewrite (lookup_set_current s t) by done.
    unfold lookup_file. by rewrite Hcur.
  - intros t' Ht'. rewrite (set_current_task s t) in Ht' by done. by injection Ht' as <-.
Qed.

(** ** Looking *)

Lemma fill_describe (s : fsys C) d k n : models s d -> g_nodes (fs_tmpfs s) !! k = Some n -> live n ->
  stat_fields (fill_stat_from_node (Some n) (Some clear_stat))
  = (0, describe (entry_of (g_data_arena (fs_tmpfs s)) k n)).
Proof.
  intros Hm Hn Hl. unfold describe. cbn [e_id e_mode e_bytes entry_of].
  rewrite (live_size s k n (md_wf _ _ Hm) Hn Hl). cbn. by rewrite (sh_number _ _ (md_volume _ _ Hm) k n Hn Hl).
Qed.

Lemma stat_answers (s : fsys C) d p more : models s d -> plain_path d p ->
  (r ← fs_stat_path (Some (p ++ 0 :: more)) (Some clear_stat) s; Val (stat_fields r, s))
  = Val (serve_stat (entries (d_volume d) !! d_path d p), s).
Proof.
  intros Hm Hplain. pose proof Hplain as (_ & Hgood & _). pose proof (md_volume _ _ Hm) as Hv.
  unfold fs_stat_path. rewrite (models_path s d p more) by done. cbn [mbind outcome_bind].
  rewrite (shows_lookup _ _ _ Hv Hgood). cbn [mbind outcome_bind]. unfold v_lookup.
  destruct (shows_cases _ _ _ Hv (proj1 Hgood)) as [(-> & _)|(k & n & -> & _ & Hn & Hl)].
  - rewrite missing_node. reflexivity.
  - cbn [e_id entry_of]. rewrite (get_node_live _ k n Hn Hl) by by eapply fs_id_bound; [apply (sh_wf _ _ Hv)|].
    cbn [mbind outcome_bind serve_stat]. by rewrite (fill_describe s d k n).
Qed.

Lemma fstat_answers (s : fsys C) d fd : models s d ->
  (r ← fs_fstat_fd fd (Some clear_stat) s; Val (stat_fields r, s)) = Val (serve_fstat fd d, s).
Proof.
  intros Hm. unfold fs_fstat_fd, serve_fstat.
  destruct (models_open_at s d fd Hm) as [[-> ->]|(k & f & Hop & -> & Hget & _ & ->)]; cbn [mbind outcome_bind]; [done|].
  rewrite Hget. cbn [mbind outcome_bind].
  destruct (by_id_spec (fs_tmpfs s) (d_volume d) (f_node_id f) (md_volume _ _ Hm))
    as [[-> ->]|(ts & n & k' & -> & -> & _ & Hn & Hl & _)]; cbn [mbind outcome_bind]; [done|].
  by rewrite (fill_describe s d k' n).
Qed.

(** A machine on which nothing was opened. *)
Lemma models_fresh t (tt : task_table) (c : C) v cwd :
  fsys_wf (Fsys t (replicate 128 zero_file) tt c) -> shows t v ->
  (forall k, task_current tt = Val k -> cstr (t_cwd k) = cwd) ->
  models (Fsys t (replicate 128 zero_file) tt c) (Desk v ∅ 0 cwd c).
Proof.
  intros Hs Hv Hcwd. split; try done.
  intros fd. cbn [d_open]. rewrite lookup_empty. unfold place_at.
  destruct (lookup_file_spec _ fd Hs) as [->|(k & f & _ & (_ & _ & _ & _ & Hf & Hu & _))]; [done|].
  change (replicate 128 zero_file !! k = Some f) in Hf. by apply lookup_replicate in Hf as [-> _].
Qed.

(** * Properties *)

Lemma quietly_answers (o : outcome (Z * fsys C)) z (d : desk C) s' :
  o = Val (z, s') -> models s' d ->
  exists a d' s', quietly (Val (z, d)) = Val (a, d') /\ quietly o = Val (a, s') /\ models s' d'.
Proof. intros -> Hm. by exists (z, []), d, s'. Qed.

Lemma issue_answers r (s : fsys C) d : models s d -> call_ok r d ->
  exists a d' s', serve r d = Val (a, d') /\ issue r s = Val (a, s') /\ models s' d'.
Proof.
  intros Hm Hok. destruct r as [p flags mode|fd|fd offset whence|fd count|fd bs|p mode|p|p|p|p|fd|];
    cbn [call_ok] in Hok; cbn [serve issue].
  - destruct (open_answers s d p flags mode [] Hm Hok) as (s' & He & Hm').
    destruct (serve_open _ _ _ _) as [z d']. by eapply quietly_answers.
  - destruct (close_answers s d fd Hm) as (s' & He & Hm'). destruct (serve_close _ _) as [z d']. by eapply quietly_answers.
  - destruct (seek_answers s d fd offset whence Hm) as (s' & He & Hm').
    destruct (serve_seek _ _ _ _) as [z d']. by eapply quietly_answers.
  - destruct (read_answers s d fd (replicate (Z.to_nat count) 0) count Hm Hok) as (z & bs & d' & s' & -> & Hl & -> & Hm');
      [rewrite length_replicate; lia|]. cbn [mbind outcome_bind]. rewrite take_splice by done.
    by exists (z, bs), d', s'.
  - pose proof (write_answers s d fd bs (Z.of_nat (length bs)) Hm ltac:(lia)) as Hw.
    rewrite Nat2Z.id, take_ge in Hw by done. destruct (Hw Hok) as (z & d' & s' & -> & He & Hm').
    by eapply quietly_answers.
  - destruct (mkdir_answers s d p mode [] Hm Hok) as (s' & He & Hm').
    destruct (serve_path _ _) as [z d']. by eapply quietly_answers.
  - destruct (remove_path_answers s d p true [] Hm Hok) as (s' & He & Hm').
    destruct (serve_path _ _) as [z d']. by eapply quietly_answers.
  - destruct (remove_path_answers s d p false [] Hm Hok) as (s' & He & Hm').
    destruct (serve_path _ _) as [z d']. by eapply quietly_answers.
  - destruct (chdir_answers s d p [] Hm Hok) as (s' & He & Hm').
    destruct (serve_chdir _ _) as [z d']. by eapply quietly_answers.
  - rewrite (stat_answers s d p [] Hm Hok). by exists (serve_stat (entries (d_volume d) !! d_path d p)), d, s.
  - rewrite (fstat_answers s d fd Hm). by exists (serve_fstat fd d), d, s.
  - destruct (models_task s d Hm) as (t & Hcur & Hcwd). unfold fs_getcwd. rewrite Hcur. cbn [mbind outcome_bind].
    rewrite Hcwd. by exists (0, d_cwd d), d, s.
Qed.

(** C4 Files through descriptors.  Whatever a task does with open, close, lseek,
    read, write, stat, fstat, mkdir, rmdir, unlink, chdir and getcwd, in whatever
    order, fs.c and the tables behind it (descriptors, g_open_files, the node table,
    the data arena) answer exactly as the desk does: a map from paths to entries and
    a map from descriptors to a node and an offset.  The lowest free descriptor is
    handed out, offsets move with reads and seeks and with nothing else, null, zero
    and terminal nodes answer as devices, relative paths start from the working
    directory, and every refusal comes with the same error number.  (For paths
    without . and .. or a trailing slash, whose components fit the code's arrays;
    writes end below 4 GiB.) *)
Theorem fs_refines_desk (s : fsys C) (d : desk C) (rs : list call) :
  models s d -> calls_ok rs d ->
  exists as' d' s', serves rs d = Val (as', d') /\ issues rs s = Val (as', s') /\ models s' d'.
Proof.
  revert s d. induction rs as [|r rs IH]; intros s d Hm Hok; cbn [serves issues]; [by exists [], d, s|].
  cbn [calls_ok] in Hok. destruct Hok as [Hr Hrest].
  destruct (issue_answers r s d Hm Hr) as (a & d1 & s1 & He & -> & Hm1). rewrite He in Hrest |- *.
  cbn [mbind outcome_bind]. destruct (IH s1 d1 Hm1 Hrest) as (l & d2 & s2 & -> & -> & Hm2).
  cbn [mbind outcome_bind]. by exists (a :: l), d2, s2.
Qed.

End Answers.

(** * Witnesses *)

Import Transcript.

(** A booted kernel with an empty file system; [ls] waits at the keyboard. *)
Definition fresh_fsys : fsys transcript := with_tmpfs fresh_tmpfs demo_fsys.
Definition fresh_desk : desk transcript := Desk blank ∅ 0 (str "/") (Script (str "ls") []).

Lemma fresh_models : models fresh_fsys fresh_desk.
Proof.
  pose proof (with_tmpfs_wf demo_fsys _ demo_fsys_wf fresh_fs_wf) as Hs.
  apply (models_fresh fresh_tmpfs booted (Script (str "ls") []) blank (str "/") Hs fresh_shows).
  intros t Ht. vm_compute in Ht. injection Ht as <-. vm_compute. reflexivity.
Qed.

Definition demo_calls : list call :=
  [Mkdir (str "/etc") 493; Chdir (str "etc"); Open (str "motd") O_CREAT 420; WriteFd 3 (str "hello");
   Open (str "/etc/motd") 0 0; ReadFd 4 4; ReadFd 3 2; Seek 4 0 SEEK_CUR; Close 3; ReadFd 3 1;
   WriteFd 1 (str "ok"); ReadFd 0 8; Open (str "none") 0 0; Rmdir (str "/etc"); Chdir (str "motd");
   StatFd 4; StatPath (str "none"); Getcwd].

Definition demo_replies : list (Z * list Z) :=
  [(1, []); (0, []); (3, []); (5, []); (4, []); (4, str "hell"); (2, str "he"); (4, []); (0, []); (- EBADF, []);
   (2, []); (2, str "ls"); (- ENOENT, []); (- ENOTEMPTY, []); (- ENOTDIR, []);
   (0, [3; 1; 420; 5; 4096; 1]); (- EINVAL, []); (0, str "/etc")].

Definition replies {A} (o : outcome (list (Z * list Z) * A)) : option (list (Z * list Z)) :=
  match o with Val (l, _) => Some l | Stop _ => None end.

Lemma fs_refines_desk_witness :
  exists d' s', serves demo_calls fresh_desk = Val (demo_replies, d')
    /\ issues demo_calls fresh_fsys = Val (demo_replies, s') /\ models s' d'.
Proof.
  destruct (fs_refines_desk fresh_fsys fresh_desk demo_calls fresh_models) as (l & d' & s' & Hd & Hs & Hm).
  - apply (bool_decide_unpack _). vm_compute. reflexivity.
  - assert (replies (serves demo_calls fresh_desk) = Some demo_replies) as Hl by (vm_compute; reflexivity).
    rewrite Hd in Hl. cbn [replies] in Hl. apply (inj Some) in Hl. rewrite Hl in Hd, Hs.
    exists d', s'. exact (conj Hd (conj Hs Hm)).
Defined.

(** A removed file's node goes to the next file created, and with it the descriptors
    still open on it: reading descriptor 3, opened on [/a], gives what was written
    to [/b]. *)
Example stale_descriptor :
  replies (issues [Open (str "/a") O_CREAT 420; Unlink (str "/a"); Open (str "/b") O_CREAT 384;
                   WriteFd 4 (str "secret"); ReadFd 3 6] fresh_fsys)
  = Some [(3, []); (0, []); (4, []); (6, []); (6, str "secret")].
Proof. vm_compute. reflexivity. Qed.
