(* ===== verification/Cpio.v ===== *)
(** The initramfs unpacker of [src/kernel/fs.c]: reading back the hexadecimal
    fields, unpacking a well-formed archive entry by entry, and its behaviour on
    any bytes whatever. *)

From Stdlib Require Import ZArith Lia Ascii.
From stdpp Require Import base gmap list strings.
From S2P Require Import Prelude KString Terminal Vmm Task Tmpfs TmpfsPath TmpfsTree TmpfsData TmpfsView Fs FsPath FsFile FsView.
Open Scope Z_scope.
Import Fmt.

(** * Hexadecimal fields *)

(** The [n] lowest hexadecimal digits of [v], most significant first, as cpio writes
    them. *)
Fixpoint hex_digits (upper : bool) (n : nat) (v : Z) : list Z :=
  match n with
  | O => []
  | S n => hex_digits upper n (v / 16) ++ [digit_char upper (v mod 16)]
  end.

Lemma lor_nibble acc d : 0 <= d < 16 -> Z.lor (16 * acc) d = 16 * acc + d.
Proof.
  intros Hd. rewrite <- Z.add_lor_land. assert (Z.land (16 * acc) d = 0) as ->; [|lia].
  replace (16 * acc) with (Z.shiftl acc 4) by (rewrite Z.shiftl_mul_pow2; lia).
  apply Z.bits_inj'. intros i Hi. rewrite Z.land_spec, Z.bits_0.
  destruct (decide (i < 4)) as [Hlt|Hge]; [by rewrite Z.shiftl_spec_low|].
  destruct (decide (d = 0)) as [->|Hd0]; [by rewrite Z.bits_0, andb_false_r|].
  rewrite (Z.bits_above_log2 d i), andb_false_r; [done|lia|].
  apply Z.log2_lt_pow2; [lia|]. apply Z.lt_le_trans with (2 ^ 4); [lia|]. apply Z.pow_le_mono_r; lia.
Qed.

Lemma digit_char_cases upper d : 0 <= d < 16 ->
  digit_char upper d = 48 + d /\ d < 10 \/ digit_char upper d = (if upper then 55 else 87) + d /\ 10 <= d.
Proof.
  intros Hd. assert (forall u, forallb (fun n => let d := Z.of_nat n in
    bool_decide (digit_char u d = 48 + d /\ d < 10 \/ digit_char u d = (if u then 55 else 87) + d /\ 10 <= d))
    (seq 0 16) = true) as Hall by (intros []; vm_compute; reflexivity).
  specialize (Hall upper). rewrite forallb_forall in Hall. specialize (Hall (Z.to_nat d)).
  assert (In (Z.to_nat d) (seq 0 16)) as Hin by (apply in_seq; lia).
  apply Hall, bool_decide_eq_true in Hin. by rewrite Z2Nat.id in Hin by lia.
Qed.

Lemma parse_hex_digit upper d acc text :
  0 <= d < 16 -> 0 <= acc < 2 ^ 28 ->
  parse_hex (digit_char upper d :: text) acc = parse_hex text (16 * acc + d).
Proof.
  intros Hd Ha. cbn [parse_hex]. rewrite Z.shiftl_mul_pow2, u32_small by (unfold in_u32; lia).
  replace (acc * 2 ^ 4) with (16 * acc) by lia.
  assert (forall x, x = d -> Z.lor (16 * acc) x = 16 * acc + d) as Hor by (intros x ->; by apply lor_nibble).
  destruct (digit_char_cases upper d Hd) as [[-> Hlt]|[-> Hge]].
  - rewrite decide_True by lia. by rewrite Hor by lia.
  - rewrite decide_False by (destruct upper; lia). destruct upper.
    + rewrite decide_False, decide_True by lia. by rewrite Hor by lia.
    + rewrite decide_True by lia. by rewrite Hor by lia.
Qed.

Lemma parse_hex_digits upper n : forall v acc text,
  0 <= v < 16 ^ Z.of_nat n -> 0 <= acc -> acc * 16 ^ Z.of_nat n + v < 2 ^ 32 ->
  parse_hex (hex_digits upper n v ++ text) acc = parse_hex text (acc * 16 ^ Z.of_nat n + v).
Proof.
  induction n as [|n IH]; intros v acc text Hv Ha Hb.
  - simpl in *. f_equal. lia.
  - rewrite Nat2Z.inj_succ, Z.pow_succ_r in * by lia. cbn [hex_digits]. rewrite <- app_assoc. cbn [app].
    assert (0 < 16 ^ Z.of_nat n) as Hpos by (apply Z.pow_pos_nonneg; lia).
    pose proof (Z.div_mod v 16 ltac:(lia)) as Hdm. pose proof (Z.mod_pos_bound v 16 ltac:(lia)).
    assert (0 <= v / 16 < 16 ^ Z.of_nat n) as Hq by (split; [apply Z.div_pos; lia|apply Z.div_lt_upper_bound; lia]).
    rewrite IH by nia. rewrite parse_hex_digit by nia. f_equal. nia.
Qed.

(** * Archives *)

Record entry := Entry {
  e_mode : Z;
  e_name : list Z;
  e_data : list Z;
  e_ino : list Z;
  e_owner : list Z;
  e_device : list Z;
  e_check : list Z;
}.

Definition pad4 (n : nat) : list Z := replicate ((4 - n mod 4) mod 4) 0.

(** A header in the "newc" format. *)
Definition header (e : entry) : list Z :=
  str "070701" ++ e_ino e ++ hex_digits true 8 (e_mode e) ++ e_owner e
  ++ hex_digits true 8 (Z.of_nat (length (e_data e))) ++ e_device e
  ++ hex_digits true 8 (Z.of_nat (length (e_name e) + 1)) ++ e_check e.

Definition render_entry (e : entry) : list Z :=
  header e ++ e_name e ++ 0 :: pad4 (111 + length (e_name e)) ++ e_data e ++ pad4 (length (e_data e)).

Record entry_valid (e : entry) : Prop := {
  ev_mode : in_u32 (e_mode e);
  ev_name : no_nul (e_name e);
  ev_size : Z.of_nat (length (e_name e)) + Z.of_nat (length (e_data e)) < 2 ^ 31;
  ev_ino : length (e_ino e) = 8%nat;
  ev_owner : length (e_owner e) = 32%nat;
  ev_device : length (e_device e) = 32%nat;
  ev_check : length (e_check e) = 8%nat;
}.

Definition S_IFDIR : Z := 4.
(** The file type in bits 12 to 15 of the mode is that of a directory. *)
Definition is_directory (e : entry) : bool := bool_decide ((e_mode e / 2 ^ 12) mod 2 ^ 4 = S_IFDIR).

(** Where an entry goes in the tree: a directory, or a file with the entry's data. *)
Definition place (e : entry) (path : option (list Z)) (t : tmpfs) : outcome tmpfs :=
  if is_directory e then '(_, t) ← tmpfs_create_path path VFS_NODE_DIR (e_mode e) t; Val t
  else
    '(id, t) ← tmpfs_create_path path VFS_NODE_FILE (e_mode e) t;
    if bool_decide (id < 0 \/ e_data e = []) then Val t
    else '(_, t) ← tmpfs_write_node id (e_data e) (Z.of_nat (length (e_data e))) 0 t; Val t.

(** What mounting one entry means. *)
Definition mount_one {C} `{Terminal C} (e : entry) (s : fsys C) : outcome (fsys C) :=
  if decide (e_name e = str ".") then Val s
  else
    path ← resolved_path (Some (e_name e ++ [0])) s;
    t ← place e path (fs_tmpfs s);
    Val (with_tmpfs t s).

Fixpoint mount_all {C} `{Terminal C} (es : list entry) (s : fsys C) : outcome (fsys C) :=
  match es with
  | [] => Val s
  | e :: es => s ← mount_one e s; mount_all es s
  end.

(** The same on a volume, for names under the directory [cwd]. *)
Definition unpack_one (cwd : list Z) (e : entry) (v : volume) : volume :=
  let ts := tokens (full_path cwd (e_name e)) in
  if decide (e_name e = str ".") then v
  else if is_directory e then (v_create ts VFS_NODE_DIR (e_mode e) v).2
  else
    let '(id, v) := v_create ts VFS_NODE_FILE (e_mode e) v in
    if bool_decide (id < 0 \/ e_data e = []) then v else (v_write ts 0 (e_data e) v).2.

Definition unpack (cwd : list Z) (es : list entry) (v : volume) : volume :=
  foldl (fun v e => unpack_one cwd e v) v es.

(** * Reading an entry back *)

Lemma round4_nat (n : nat) : Z.of_nat n < 2 ^ 32 - 4 -> round4 (Z.of_nat n) = Z.of_nat (n + length (pad4 n)).
Proof.
  intros Hn. unfold round4, pad4. rewrite length_replicate, u32_small by (unfold in_u32; lia).
  change 3 with (2 ^ 2 - 1) at 2. rewrite u32_align_mask by (unfold in_u32; lia).
  rewrite (Z.mod_small (_ + _)) by lia. change (2 ^ 2) with 4.
  assert (Z.of_nat ((4 - n mod 4) mod 4) = (4 - Z.of_nat n mod 4) mod 4) as Hm.
  { rewrite Nat2Z.inj_mod, Nat2Z.inj_sub by (pose proof (Nat.mod_upper_bound n 4); lia). by rewrite Nat2Z.inj_mod. }
  rewrite Nat2Z.inj_add, Hm. Z.div_mod_to_equations. lia.
Qed.

Lemma hex_digits_length upper n v : length (hex_digits upper n v) = n.
Proof. revert v. induction n as [|n IH]; intros v; simpl; [done|]. rewrite length_app, IH. simpl. lia. Qed.

Lemma parse_field upper v out : in_u32 v -> parse_cpio_hex (hex_digits upper 8 v) out = (0, v).
Proof.
  unfold in_u32. intros Hv. unfold parse_cpio_hex. rewrite <- (app_nil_r (hex_digits upper 8 v)).
  by rewrite parse_hex_digits by (simpl; lia).
Qed.

Lemma slice_at {A} (a x b : list A) k n : length a = k -> length x = n -> take n (drop k (a ++ x ++ b)) = x.
Proof. intros <- <-. by rewrite drop_app_length, take_app_length. Qed.

Lemma header_length e : entry_valid e -> length (header e) = 110%nat.
Proof.
  intros [_ _ _ H1 H2 H3 H4]. unfold header. rewrite !length_app, !hex_digits_length, H1, H2, H3, H4. done.
Qed.

Lemma header_fields e : entry_valid e ->
  cpio_header (header e) = (e_mode e, Z.of_nat (length (e_data e)), Z.of_nat (length (e_name e) + 1)).
Proof.
  intros [Hm Hn Hs H1 H2 H3 H4]. unfold cpio_header, header.
  assert (take 8 (drop 14 (header e)) = hex_digits true 8 (e_mode e)) as E1.
  { unfold header. rewrite (app_assoc (str _)). apply slice_at; [by rewrite length_app, H1|apply hex_digits_length]. }
  assert (take 8 (drop 54 (header e)) = hex_digits true 8 (Z.of_nat (length (e_data e)))) as E2.
  { unfold header. rewrite (app_assoc (str _)), (app_assoc (_ ++ _)), (app_assoc (_ ++ _)).
    apply slice_at; [by rewrite !length_app, hex_digits_length, H1, H2|apply hex_digits_length]. }
  assert (take 8 (drop 94 (header e)) = hex_digits true 8 (Z.of_nat (length (e_name e) + 1))) as E3.
  { unfold header. rewrite (app_assoc (str _)), (app_assoc (_ ++ _)), (app_assoc (_ ++ _)), (app_assoc (_ ++ _)),
      (app_assoc (_ ++ _)).
    apply slice_at; [by rewrite !length_app, !hex_digits_length, H1, H2, H3|apply hex_digits_length]. }
  fold (header e). rewrite E1, E2, E3, !parse_field by (done || unfold in_u32; lia). done.
Qed.

Lemma header_magic e : vstrncmp 6 (header e) (str "070701") = 0.
Proof. reflexivity. Qed.

Lemma mem_strcmp_spec p : forall more r, no_nul p -> no_nul r ->
  exists v, mem_strcmp (p ++ 0 :: more) r = Val v /\ (v = 0 <-> p = r).
Proof.
  induction p as [|a p IH]; intros more r Hp Hr; cbn [app mem_strcmp].
  - rewrite decide_True by by left. eexists. split; [done|].
    destruct r as [|b r]; simpl; [done|]. apply Forall_cons in Hr as [Hb _]. split; [lia|done].
  - apply Forall_cons in Hp as [Ha Hp]. case_decide as Hc.
    + eexists. split; [done|]. destruct r as [|b r]; simpl in *; [split; [lia|done]|].
      split; [lia|]. intros [= -> ->]. lia.
    + destruct r as [|b r]; simpl in Hc; [exfalso; apply Hc; by right|].
      apply Forall_cons in Hr as [Hb Hr]. assert (a = b) as -> by (destruct (decide (a = b)); [done|exfalso; apply Hc; by right]).
      destruct (IH more r Hp Hr) as (v & Hv & Heq). exists v. split; [exact Hv|]. rewrite Heq. split; [by intros ->|by intros [= ->]].
Qed.

Lemma trailer_no_nul : no_nul (str "TRAILER!!!").
Proof. repeat constructor; discriminate. Qed.

Lemma dot_no_nul : no_nul (str ".").
Proof. repeat constructor; discriminate. Qed.

(** ** What a pointer into the archive is used for *)

Section Mount.
Context {C : Type} `{Terminal C}.

Lemma normalize_copy_more p : forall more out n,
  normalize_copy (p ++ 0 :: more) out n = normalize_copy (p ++ [0]) out n.
Proof.
  induction p as [|c p IH]; intros more out n; cbn [app normalize_copy].
  - by rewrite !decide_False by (intros [? _]; done).
  - case_decide; [|done]. destruct (if decide (n > 0) then _ else _) as [x|]; [|done]. cbn [mbind outcome_bind].
    case_decide; [apply IH|]. destruct (aset out n c) as [o|]; [|done]. cbn [mbind outcome_bind]. apply IH.
Qed.

Lemma resolved_path_more p more (s : fsys C) :
  resolved_path (Some (p ++ 0 :: more)) s = resolved_path (Some (p ++ [0])) s.
Proof.
  unfold resolved_path. destruct (task_current (fs_tasks s)) as [t|]; [|done]. cbn [mbind outcome_bind].
  unfold normalize_path. destruct p as [|c p]; [done|].
  change (aget ((c :: p) ++ 0 :: more) 0) with (Val c). change (aget ((c :: p) ++ [0]) 0) with (Val c).
  cbn [mbind outcome_bind]. case_decide; [done|].
  destruct (normalize_start _ _ _) as [[o l]|]; [|done]. cbn [mbind outcome_bind]. by rewrite normalize_copy_more.
Qed.

Lemma aread_front {A} (l more : list A) : aread (l ++ more) 0 (Z.of_nat (length l)) = aread l 0 (Z.of_nat (length l)).
Proof.
  destruct l as [|x l]; [done|]. rewrite !aread_in_range by (rewrite ?length_app; lia). f_equal.
  change (Z.to_nat 0) with 0%nat. by rewrite !drop_0, Nat2Z.id, take_app_length, firstn_all.
Qed.

Lemma mount_entry_more path mode data more (s : fsys C) :
  mount_entry path mode (Z.of_nat (length data)) (data ++ more) s
  = mount_entry path mode (Z.of_nat (length data)) data s.
Proof.
  unfold mount_entry. case_decide; [done|].
  destruct (tmpfs_create_path path VFS_NODE_FILE mode (fs_tmpfs s)) as [[id t]|]; [|done]. cbn [mbind outcome_bind].
  case_decide; [|done]. f_equal. unfold tmpfs_write_node.
  destruct (tmpfs_get_node id t) as [[n|]|]; [|done..]. cbn [mbind outcome_bind]. case_decide; [done|].
  destruct (grow id n _ t) as [[fs|]|]; [|done..]. cbn [mbind outcome_bind]. by rewrite aread_front.
Qed.

Lemma mode_type mode : in_u32 mode -> Z.land mode 61440 = 16384 <-> (mode / 2 ^ 12) mod 2 ^ 4 = S_IFDIR.
Proof.
  intros Hm. unfold in_u32 in Hm. change 61440 with (Z.shiftl (Z.ones 4) 12).
  assert (Z.land mode (Z.shiftl (Z.ones 4) 12) = (mode / 2 ^ 12) mod 2 ^ 4 * 2 ^ 12) as ->; [|unfold S_IFDIR; lia].
  rewrite <- Z.land_ones, <- Z.shiftr_div_pow2, <- Z.shiftl_mul_pow2 by lia.
  apply Z.bits_inj'. intros i Hi. rewrite Z.land_spec, !Z.shiftl_spec, Z.land_spec by lia.
  destruct (decide (i < 12)) as [Hlt|Hge].
  - rewrite !(Z.testbit_neg_r _ (i - 12)) by lia. by rewrite andb_false_r.
  - rewrite Z.shiftr_spec by lia. by replace (i - 12 + 12) with i by lia.
Qed.

Lemma mount_entry_place e path (s : fsys C) : in_u32 (e_mode e) ->
  mount_entry path (e_mode e) (Z.of_nat (length (e_data e))) (e_data e) s
  = t ← place e path (fs_tmpfs s); Val (with_tmpfs t s).
Proof.
  intros Hm. unfold mount_entry, place, is_directory. pose proof (mode_type (e_mode e) Hm) as Ht.
  case_decide as Hd; case_bool_decide as Hd'; try tauto.
  - by destruct (tmpfs_create_path _ _ _ _) as [[r t]|].
  - destruct (tmpfs_create_path _ _ _ _) as [[id t]|]; [|done]. cbn [mbind outcome_bind].
    assert (Z.of_nat (length (e_data e)) <> 0 <-> e_data e <> []) as Hlen by (destruct (e_data e); simpl; split; intros; (done || lia)).
    destruct (decide (id < 0 \/ e_data e = [])) as [Hb|Hb].
    + rewrite bool_decide_eq_true_2, decide_False; [done| |done]. intros [Hi Hl]. destruct Hb; [lia|tauto].
    + rewrite bool_decide_eq_false_2, decide_True; [|split; [lia|tauto]|done].
      by destruct (tmpfs_write_node _ _ _ _ _) as [[r t']|].
Qed.

(** ** One turn of the loop *)

(** What the loop finds when an entry stands at its cursor. *)
Lemma entry_at e pre post : entry_valid e ->
  let archive := pre ++ render_entry e ++ post in
  let cursor := Z.of_nat (length pre) in
  let data := cursor + round4 (110 + Z.of_nat (length (e_name e) + 1)) in
  aread archive cursor 110 = Val (header e)
  /\ (exists more, drop (Z.to_nat (cursor + 110)) archive = e_name e ++ 0 :: more)
  /\ (exists more, drop (Z.to_nat data) archive = e_data e ++ more)
  /\ cursor + 110 + Z.of_nat (length (e_name e) + 1) <= data
  /\ data + Z.of_nat (length (e_data e)) <= data + round4 (Z.of_nat (length (e_data e)))
  /\ data + round4 (Z.of_nat (length (e_data e))) = cursor + Z.of_nat (length (render_entry e)).
Proof.
  intros Hv archive cursor data. pose proof (header_length e Hv) as Hl. pose proof (ev_size _ Hv) as Hs.
  assert (round4 (110 + Z.of_nat (length (e_name e) + 1))
          = Z.of_nat (111 + length (e_name e) + length (pad4 (111 + length (e_name e))))) as Hr1.
  { rewrite <- round4_nat by lia. f_equal. lia. }
  assert (round4 (Z.of_nat (length (e_data e))) = Z.of_nat (length (e_data e) + length (pad4 (length (e_data e))))) as Hr2.
  { apply round4_nat. lia. }
  assert (archive = pre ++ header e ++ (e_name e ++ 0 :: pad4 (111 + length (e_name e)) ++ e_data e
            ++ pad4 (length (e_data e))) ++ post) as Harch.
  { unfold archive, render_entry. by rewrite <- !app_assoc. }
  split; [|split; [|split; [|split; [|split]]]].
  - rewrite Harch. replace 110 with (Z.of_nat (length (header e))) by lia. apply aread_app.
  - exists (pad4 (111 + length (e_name e)) ++ e_data e ++ pad4 (length (e_data e)) ++ post).
    rewrite Harch, app_assoc, drop_app_length' by (rewrite length_app; unfold cursor; lia).
    rewrite <- app_assoc. simpl. by rewrite <- !app_assoc.
  - exists (pad4 (length (e_data e)) ++ post).
    assert (archive = (pre ++ header e ++ e_name e ++ 0 :: pad4 (111 + length (e_name e)))
              ++ e_data e ++ pad4 (length (e_data e)) ++ post) as Harch2.
    { rewrite Harch. rewrite <- !app_assoc. simpl. by rewrite <- !app_assoc. }
    rewrite Harch2. apply drop_app_length'. rewrite !length_app. cbn [length]. unfold data, cursor. rewrite Hr1. lia.
  - unfold data. rewrite Hr1. lia.
  - rewrite Hr2. lia.
  - unfold data. rewrite Hr1, Hr2. unfold render_entry. rewrite !length_app. cbn [length]. rewrite !length_app. lia.
Qed.

Lemma mount_step e pre post size fuel (s : fsys C) :
  entry_valid e -> e_name e <> str "TRAILER!!!" ->
  Z.of_nat (length pre + length (render_entry e)) <= size ->
  mount_loop (S fuel) (pre ++ render_entry e ++ post) size (Z.of_nat (length pre)) s
  = s' ← mount_one e s;
    mount_loop fuel (pre ++ render_entry e ++ post) size (Z.of_nat (length (pre ++ render_entry e))) s'.
Proof.
  intros Hv Ht Hsize. destruct (entry_at e pre post Hv) as (Hh & (m1 & Hname) & (m2 & Hdata) & Hlt & Hle & Hend).
  set (archive := pre ++ render_entry e ++ post) in *. pose proof (ev_name _ Hv) as Hn.
  assert (Z.of_nat (length (pre ++ render_entry e)) = Z.of_nat (length pre) + Z.of_nat (length (render_entry e))) as Hlen
    by (rewrite length_app; lia).
  cbn [mount_loop]. rewrite decide_False by lia. rewrite Hh. cbn [mbind outcome_bind].
  rewrite decide_False by (rewrite header_magic; intros Hx; by apply Hx).
  rewrite (header_fields e Hv). rewrite decide_False by lia. rewrite Hname.
  destruct (mem_strcmp_spec (e_name e) m1 _ Hn trailer_no_nul) as (v1 & -> & Hv1). cbn [mbind outcome_bind].
  rewrite decide_False by (intros Hx; by apply Ht, Hv1).
  destruct (mem_strcmp_spec (e_name e) m1 _ Hn dot_no_nul) as (v2 & -> & Hv2). cbn [mbind outcome_bind].
  unfold mount_one. destruct (decide (v2 = 0)) as [Hd|Hd].
  - rewrite decide_True by by apply Hv2. cbn [mbind outcome_bind]. by rewrite Hend, Hlen.
  - rewrite decide_False by (intros Hx; by apply Hd, Hv2). rewrite resolved_path_more.
    destruct (resolved_path _ s) as [path|]; [|done]. cbn [mbind outcome_bind].
    rewrite decide_False by lia. rewrite Hdata, mount_entry_more, mount_entry_place by apply (ev_mode _ Hv).
    destruct (place e path _) as [t|]; [|done]. cbn [mbind outcome_bind]. by rewrite Hend, Hlen.
Qed.

Lemma mount_trailer e pre post size fuel (s : fsys C) :
  entry_valid e -> e_name e = str "TRAILER!!!" ->
  Z.of_nat (length pre + length (render_entry e)) <= size ->
  mount_loop (S fuel) (pre ++ render_entry e ++ post) size (Z.of_nat (length pre)) s = Val (0, s).
Proof.
  intros Hv Ht Hsize. destruct (entry_at e pre post Hv) as (Hh & (m1 & Hname) & _ & Hlt & Hle & Hend).
  cbn [mount_loop]. rewrite decide_False by lia. rewrite Hh. cbn [mbind outcome_bind].
  rewrite decide_False by (rewrite header_magic; intros Hx; by apply Hx).
  rewrite (header_fields e Hv). rewrite decide_False by lia. rewrite Hname.
  destruct (mem_strcmp_spec (e_name e) m1 _ (ev_name _ Hv) trailer_no_nul) as (v1 & -> & Hv1). cbn [mbind outcome_bind].
  by rewrite decide_True by by apply Hv1.
Qed.

Lemma mount_entries es : forall pre trailer post size fuel (s : fsys C),
  Forall entry_valid es -> Forall (fun e => e_name e <> str "TRAILER!!!") es ->
  entry_valid trailer -> e_name trailer = str "TRAILER!!!" ->
  let body := (es ≫= render_entry) ++ render_entry trailer in
  Z.of_nat (length (pre ++ body)) <= size -> (length es < fuel)%nat ->
  mount_loop fuel (pre ++ body ++ post) size (Z.of_nat (length pre)) s
  = s' ← mount_all es s; Val (0, s').
Proof.
  induction es as [|e es IH]; intros pre trailer post size fuel s Hv Hn Ht Htn body Hsize Hfuel;
    (destruct fuel as [|fuel]; [simpl in Hfuel; lia|]).
  - rewrite length_app in Hsize. by apply mount_trailer.
  - apply Forall_cons in Hv as [Hve Hv]. apply Forall_cons in Hn as [Hne Hn].
    assert (body = render_entry e ++ (es ≫= render_entry) ++ render_entry trailer) as Hbody
      by (unfold body; rewrite bind_cons; by rewrite <- app_assoc).
    rewrite Hbody, <- (app_assoc (render_entry e)), mount_step; [|done|done|].
    2:{ rewrite Hbody, !length_app in Hsize. lia. }
    cbn [mount_all]. destruct (mount_one e s) as [s1|]; [|done]. cbn [mbind outcome_bind].
    rewrite (app_assoc pre). apply IH; try done; [|simpl in Hfuel; lia].
    by rewrite Hbody, app_assoc in Hsize.
Qed.

Lemma mount_run (es : list entry) (trailer : entry) (post : list Z) (size : Z) (s : fsys C) :
  Forall entry_valid es -> Forall (fun e => e_name e <> str "TRAILER!!!") es ->
  entry_valid trailer -> e_name trailer = str "TRAILER!!!" ->
  let body := (es ≫= render_entry) ++ render_entry trailer in
  Z.of_nat (length body) <= size ->
  fs_mount_initramfs (body ++ post) size s = s' ← mount_all es s; Val (0, s').
Proof.
  intros Hv Hn Ht Htn body Hsize. unfold fs_mount_initramfs.
  apply (mount_entries es []); try done.
  assert (forall l, Forall entry_valid l -> (length l <= length (l ≫= render_entry))%nat) as Hlen.
  { intros l Hl. induction Hl as [|e l He Hl IH]; [done|]. rewrite bind_cons, length_app. simpl.
    enough (0 < length (render_entry e))%nat by lia. unfold render_entry. rewrite length_app, header_length by done. lia. }
  specialize (Hlen es Hv). unfold body in Hsize. rewrite length_app in Hsize.
  assert (0 < length (render_entry trailer))%nat; [|lia].
  unfold render_entry. rewrite length_app, header_length by done. lia.
Qed.

End Mount.

(** ** Mounting on a volume *)

Section Shown.
Context {C : Type} `{TerminalLaws C}.

(** [plain_path] of a directory. *)
Definition plain_under (cwd p : list Z) : Prop :=
  no_nul p /\ good_path (tokens (full_path cwd p)) /\ full_path cwd p = path_of (tokens (full_path cwd p)).
#[export] Instance plain_under_dec cwd p : Decision (plain_under cwd p).
Proof. unfold plain_under, no_nul. apply _. Defined.

Definition plain_name (cwd : list Z) (e : entry) : Prop := e_name e = str "." \/ plain_under cwd (e_name e).
#[export] Instance plain_name_dec cwd e : Decision (plain_name cwd e).
Proof. unfold plain_name. apply _. Defined.

Lemma place_shows e ts t v : entry_valid e -> good_path ts -> shows t v ->
  exists t', place e (Some (path_of ts)) t = Val t'
    /\ shows t' (if is_directory e then (v_create ts VFS_NODE_DIR (e_mode e) v).2
                 else let '(id, v) := v_create ts VFS_NODE_FILE (e_mode e) v in
                      if bool_decide (id < 0 \/ e_data e = []) then v else (v_write ts 0 (e_data e) v).2).
Proof.
  intros Hv Hts Ht. unfold place. destruct (is_directory e).
  { destruct (create_answer t v ts VFS_NODE_DIR (e_mode e) Ht Hts) as (t1 & -> & Ht1); [done|]. by exists t1. }
  destruct (create_answer t v ts VFS_NODE_FILE (e_mode e) Ht Hts) as (t1 & -> & Ht1); [done|]. cbn [mbind outcome_bind].
  pose proof (v_create_lookup ts VFS_NODE_FILE (e_mode e) v) as Hlk.
  destruct (v_create ts VFS_NODE_FILE (e_mode e) v) as [id v1]. cbn [fst snd] in *.
  case_bool_decide as Hc; [by exists t1|]. pose proof (ev_size _ Hv).
  destruct (write_answer t1 v1 ts 0 (e_data e) (Z.of_nat (length (e_data e))) Ht1 (proj1 Hts)) as (t2 & Hw & Ht2); [lia..|].
  rewrite Nat2Z.id, take_ge in Hw, Ht2 by done. rewrite Hlk in Hw by (destruct (decide (id < 0)); [by destruct Hc; left|lia]).
  rewrite Hw. by exists t2.
Qed.

Lemma mount_all_shows es : forall (s : fsys C) d, models s d ->
  Forall entry_valid es -> Forall (plain_name (d_cwd d)) es ->
  exists s', mount_all es s = Val s' /\ models s' (on_volume (unpack (d_cwd d) es (d_volume d)) d).
Proof.
  induction es as [|e es IH]; intros s d Hm Hv Hp; cbn [mount_all unpack foldl]; [exists s; by destruct d|].
  apply Forall_cons in Hv as [Hve Hv]. apply Forall_cons in Hp as [Hpe Hp].
  assert (exists s1, mount_one e s = Val s1 /\ models s1 (on_volume (unpack_one (d_cwd d) e (d_volume d)) d)) as (s1 & -> & Hm1).
  { unfold mount_one, unpack_one. case_decide as Hdot; [exists s; by destruct d|].
    destruct Hpe as [?|Hplain]; [done|]. rewrite (models_path s d _ [] Hm Hplain). cbn [mbind outcome_bind].
    unfold d_path.
    destruct (place_shows e _ _ _ Hve (proj1 (proj2 Hplain)) (md_volume _ _ Hm)) as (t & -> & Ht). cbn [mbind outcome_bind].
    eexists. split; [done|]. by apply models_tmpfs. }
  cbn [mbind outcome_bind]. exact (IH s1 _ Hm1 Hv Hp).
Qed.


End Shown.

(** * Any archive whatever *)

Lemma parse_hex_u32 text : forall acc v, in_u32 acc -> parse_hex text acc = Some v -> in_u32 v.
Proof.
  assert (forall acc d, 0 <= d < 16 -> in_u32 (Z.lor (u32 (Z.shiftl acc 4)) d)) as Hlor.
  { intros acc d Hd. unfold u32, wrap, in_u32. rewrite Z.shiftl_mul_pow2 by lia.
    replace (2 ^ 32) with (2 ^ 28 * 2 ^ 4) by lia. rewrite Z.mul_mod_distr_r by lia.
    rewrite (Z.mul_comm _ (2 ^ 4)). change (2 ^ 4) with 16. rewrite lor_nibble by done.
    pose proof (Z.mod_pos_bound acc (2 ^ 28) ltac:(lia)). lia. }
  induction text as [|c text IH]; intros acc v Ha; cbn [parse_hex]; [by intros [= <-]|].
  repeat case_decide; [..|done]; apply IH; apply Hlor; lia.
Qed.

Lemma parse_cpio_hex_u32 text : in_u32 (snd (parse_cpio_hex text 0)).
Proof.
  unfold parse_cpio_hex. assert (in_u32 0) as Hz by (unfold in_u32; lia).
  destruct (parse_hex text 0) as [v|] eqn:Hp; simpl; [|done]. by eapply parse_hex_u32.
Qed.

Lemma cpio_header_u32 h m f n : cpio_header h = (m, f, n) -> in_u32 m /\ in_u32 f /\ in_u32 n.
Proof. intros [= <- <- <-]. split_and!; apply parse_cpio_hex_u32. Qed.

Lemma round4_bounds x : 0 <= x < 2 ^ 32 - 4 -> x <= round4 x.
Proof.
  intros Hx. rewrite <- (Z2Nat.id x) by lia. rewrite round4_nat by lia. lia.
Qed.

Lemma round4_nonneg x : 0 <= round4 x.
Proof. unfold round4. apply Z.land_nonneg. left. pose proof (u32_range (x + 3)) as Hr. unfold in_u32 in Hr. lia. Qed.

Lemma nul_inside l : 0 ∈ l -> exists p more, l = p ++ 0 :: more /\ no_nul p.
Proof.
  induction l as [|c l IH]; intros Hin; [by apply not_elem_of_nil in Hin|].
  destruct (decide (c = 0)) as [->|Hc]; [exists [], l; split; [done|constructor]|].
  apply elem_of_cons in Hin as [Hin|Hin]; [congruence|].
  destruct (IH Hin) as (p & more & -> & Hp). exists (c :: p), more. split; [done|]. by constructor.
Qed.

(** The names of the entries the unpacker comes to, in order: those at its cursor,
    from header to header, up to the trailer, the end of the module or a header it
    refuses.  [fuel] bounds their number. *)
Fixpoint names_met (fuel : nat) (archive : list Z) (size cursor : Z) : list (list Z) :=
  match fuel with
  | O => []
  | S fuel =>
      let header := take 110 (drop (Z.to_nat cursor) archive) in
      let '(mode, file_size, name_size) := cpio_header header in
      let name := cstr (drop (Z.to_nat (cursor + 110)) archive) in
      let data := cursor + round4 (110 + name_size) in
      if decide (cursor + 110 > size \/ take 6 header <> str "070701"
                 \/ name_size = 0 \/ cursor + 110 + name_size > size \/ name = str "TRAILER!!!") then []
      else if decide (name = str ".") then names_met fuel archive size (data + round4 file_size)
      else if decide (data + file_size > size) then []
      else name :: names_met fuel archive size (data + round4 file_size)
  end.

(** An entry of the archive has a name whose last component does not fit a node. *)
Definition overrunning_name (archive : list Z) (size : Z) (cwd : list Z) : Prop :=
  Exists (fun name => overlong (OpCreate (full_path cwd name) VFS_NODE_FILE 0)) (names_met (Z.to_nat size) archive size 0).

Lemma strncmp_whole r : forall l, no_nul r -> (length r <= length l)%nat ->
  vstrncmp (length r) l r = 0 <-> take (length r) l = r.
Proof.
  induction r as [|b r IH]; intros l Hr Hl; [done|]. destruct l as [|a l]; cbn [length] in Hl; [lia|].
  apply Forall_cons in Hr as [Hb Hr]. cbn [length vstrncmp take hd tl]. case_decide as Hc.
  - split; [lia|]. intros [= -> _]. lia.
  - rewrite IH by (done || lia). assert (a = b) as -> by lia. split; [by intros ->|by intros [= ->]].
Qed.

Lemma magic_no_nul : no_nul (str "070701").
Proof. repeat constructor; discriminate. Qed.

Section Hostile.
Context {C : Type} `{TerminalLaws C}.

Lemma mount_entry_safe (s : fsys C) p path mode file_size data t :
  fsys_wf s -> task_current (fs_tasks s) = Val t -> no_nul p ->
  path = Some (full_path (cstr (t_cwd t)) p) -> 0 <= file_size <= Z.of_nat (length data) -> file_size < 2 ^ 31 ->
  (exists tm, mount_entry path mode file_size data s = Val (with_tmpfs tm s) /\ fs_wf tm)
  \/ mount_entry path mode file_size data s = Stop Oob /\ path_overlong s p.
Proof.
  intros Hs Hcur Hp -> Hf Hb. unfold mount_entry. case_decide as Hd.
  - destruct (create_full_path s p VFS_NODE_DIR mode t) as [(r & tm & -> & Htm)|[-> Hov]]; [done..| |by right].
    left. by exists tm.
  - destruct (create_full_path s p VFS_NODE_FILE mode t) as [(r & tm & -> & Htm)|[-> Hov]]; [done..| |by right].
    left. cbn [mbind outcome_bind]. case_decide as Hr; [|by exists tm].
    destruct (write_keeps_wf tm r data file_size 0 Htm) as (r' & tm' & -> & Htm'); [simpl; lia|]. by exists tm'.
Qed.

Lemma mount_loop_safe fuel : forall (archive : list Z) size cursor (s : fsys C) t,
  fsys_wf s -> task_current (fs_tasks s) = Val t -> 0 <= cursor -> size - cursor <= Z.of_nat fuel -> size <= 2 ^ 31 - 1 ->
  size <= Z.of_nat (length archive) -> 0 ∈ drop (Z.to_nat size) archive ->
  (exists r s', mount_loop fuel archive size cursor s = Val (r, s') /\ fsys_wf s' /\ (r = 0 \/ r = - EINVAL))
  \/ (mount_loop fuel archive size cursor s = Stop Oob
      /\ Exists (fun name => overlong (OpCreate (full_path (cstr (t_cwd t)) name) VFS_NODE_FILE 0))
           (names_met fuel archive size cursor)).
Proof.
  induction fuel as [|fuel IH]; intros archive size cursor s t Hs Hcur Hcpos Hfuel Hbig Hlen Hnul; cbn [mount_loop].
  { rewrite decide_True by lia. left. eexists _, _. split; [done|]. split; [done|by left]. }
  match goal with |- _ \/ (_ /\ ?b) => assert (forall r, r = 0 \/ r = - EINVAL ->
    (exists r' s', Val (r, s) = Val (r', s') /\ fsys_wf s' /\ (r' = 0 \/ r' = - EINVAL)) \/ (Val (r, s) = Stop Oob /\ b)) as Hret
    by (intros r Hr; left; by eexists _, _) end.
  case_decide as Hdone; [by apply Hret; left|]. rewrite aread_in_range by lia. cbn [mbind outcome_bind].
  change (Z.to_nat 110) with 110%nat. set (header := take 110 _) in *. case_decide as Hmagic; [by apply Hret; right|].
  destruct (cpio_header header) as [[mode file_size] name_size] eqn:Hh. pose proof (cpio_header_u32 _ _ _ _ Hh) as (Hm & Hfs & Hns).
  unfold in_u32 in *. case_decide as Hsz; [by apply Hret; right|].
  destruct (nul_inside (drop (Z.to_nat (cursor + 110)) archive)) as (p & more & Hdrop & Hp).
  { replace (drop (Z.to_nat size) archive) with (drop (Z.to_nat (size - (cursor + 110))) (drop (Z.to_nat (cursor + 110)) archive)) in Hnul
      by (rewrite drop_drop; f_equal; lia).
    rewrite <- (take_drop (Z.to_nat (size - (cursor + 110))) (drop (Z.to_nat (cursor + 110)) archive)). apply elem_of_app. by right. }
  rewrite Hdrop. destruct (mem_strcmp_spec p more _ Hp trailer_no_nul) as (v1 & -> & Hv1). cbn [mbind outcome_bind].
  case_decide; [by apply Hret; left|].
  destruct (mem_strcmp_spec p more _ Hp dot_no_nul) as (v2 & -> & Hv2). cbn [mbind outcome_bind].
  pose proof (round4_bounds (110 + name_size) ltac:(lia)) as Hr1. pose proof (round4_nonneg file_size) as Hr2.
  cbn [names_met]. change (Z.to_nat 110) with 110%nat. fold header. rewrite Hh, Hdrop, cstr_app_nul by done.
  rewrite (decide_False (P := cursor + 110 > size \/ _)).
  2: { pose proof (strncmp_whole (str "070701") header magic_no_nul) as Hw. change (length (str "070701")) with 6%nat in Hw.
       assert (6 <= length header)%nat as Hhl by (unfold header; rewrite length_take, length_drop; lia).
       specialize (Hw Hhl). intros [?|[Hne|[?|[?|Ht]]]]; [lia| |lia|lia|tauto].
       by apply Hne, Hw. }
  case_decide as Hdot.
  { rewrite (decide_True (P := p = str ".")) by tauto. eapply IH; try done; lia. }
  rewrite (decide_False (P := p = str ".")) by tauto.
  rewrite (resolved_path_spec s p more t) by done. cbn [mbind outcome_bind].
  case_decide as Hend; [left; eexists _, _; split; [done|]; split; [done|by right]|]. rewrite Exists_cons.
  destruct (mount_entry_safe s p _ mode file_size (drop (Z.to_nat (cursor + round4 (110 + name_size))) archive) t Hs Hcur Hp eq_refl)
    as [(tm & -> & Htm)|[-> Hov]]; [rewrite length_drop; lia|lia| |].
  - cbn [mbind outcome_bind].
    destruct (IH archive size (cursor + round4 (110 + name_size) + round4 file_size) (with_tmpfs tm s) t (with_tmpfs_wf s tm Hs Htm) Hcur)
      as [Hok|[Hst Hov]]; [lia|lia|done..|by left|]. right. split; [done|by right].
  - right. split; [done|]. left. destruct Hov as (t' & Ht' & Hov). rewrite Hcur in Ht'. by injection Ht' as <-.
Qed.

(** C19 Unpacking any bytes whatever, well-formed or not: for a module below 2 GiB that
    lies in memory and is followed somewhere by a NUL, fs_mount_initramfs always
    ends, returns 0 or -EINVAL, reads nothing outside that memory and leaves the
    file system well-formed; the one exception is an archive one of whose entries
    (reached from header to header before the trailer, the end or a header that is
    refused) has a name whose last component overruns the 32-byte name buffer. *)
Theorem mount_initramfs_any_bytes (archive : list Z) (size : Z) (s : fsys C) (t : task) :
  fsys_wf s -> task_current (fs_tasks s) = Val t ->
  0 <= size <= 2 ^ 31 - 1 -> size <= Z.of_nat (length archive) -> 0 ∈ drop (Z.to_nat size) archive ->
  (exists r s', fs_mount_initramfs archive size s = Val (r, s') /\ fsys_wf s' /\ (r = 0 \/ r = - EINVAL))
  \/ (fs_mount_initramfs archive size s = Stop Oob /\ overrunning_name archive size (cstr (t_cwd t))).
Proof. intros Hs Hcur Hsize Hlen Hnul. apply mount_loop_safe; done || lia. Qed.

(** A path shorter than a name buffer overruns nothing. *)
Lemma short_path_fits path type mode : (length path < MGCORE_NAME_MAX)%nat -> ~ overlong (OpCreate path type mode).
Proof. intros Hl (a & core & tail & [-> _ _ _] & Hlong). rewrite !length_app in *. cbn in Hl. rewrite !length_app in Hl. lia. Qed.

End Hostile.

(** * Witnesses *)

Import Transcript.

Definition demo_entry (mode : Z) (name data : list Z) : entry :=
  Entry mode name data (replicate 8 48) (replicate 32 48) (replicate 32 48) (replicate 8 48).

Lemma demo_entry_valid mode name data :
  in_u32 mode -> no_nul name -> Z.of_nat (length name) + Z.of_nat (length data) < 2 ^ 31 ->
  entry_valid (demo_entry mode name data).
Proof. intros. by split. Qed.

Definition bin_dir : entry := demo_entry 16877 (str "bin") [].
Definition bin_sh : entry := demo_entry 33261 (str "bin/sh") (str "#!").
Definition cpio_end : entry := demo_entry 0 (str "TRAILER!!!") [].

Lemma demo_entries_valid : Forall entry_valid [bin_dir; bin_sh] /\ entry_valid cpio_end.
Proof.
  assert (no_nul (str "bin") /\ no_nul (str "bin/sh")) as [H1 H2] by (split; repeat constructor; discriminate).
  split; [repeat apply Forall_cons_2; [..|constructor]|]; apply demo_entry_valid;
    try done; try (unfold in_u32; lia); try (simpl; lia). exact trailer_no_nul.
Qed.

Definition demo_archive : list Z := ([bin_dir; bin_sh] ≫= render_entry) ++ render_entry cpio_end.


(** What the demo archive puts into an empty volume. *)
Example demo_unpacked :
  v_read [str "bin"; str "sh"] 0 9 (unpack (str "/") [bin_dir; bin_sh] blank) = (2, str "#!")
  /\ v_lookup [str "bin"] (unpack (str "/") [bin_dir; bin_sh] blank) = 1.
Proof. vm_compute. done. Qed.

Example mounted_file_is_there :
  ('(r, s) ← fs_mount_initramfs demo_archive (Z.of_nat (length demo_archive)) demo_fsys;
   '(fd, s) ← fs_open_path (Some (str "/bin/sh" ++ [0])) 0 0 s;
   '(n, buffer, s) ← fs_read_fd fd [0; 0; 0; 0] 4 s;
   Val (r, n, buffer)) = Val (0, 2, str "#!" ++ [0; 0]).
Proof. vm_compute. reflexivity. Qed.

(** The demo archive has no such name. *)
Lemma demo_names_fit : ~ overrunning_name (demo_archive ++ [0]) (Z.of_nat (length demo_archive)) (str "/").
Proof.
  unfold overrunning_name. assert (names_met (Z.to_nat (Z.of_nat (length demo_archive))) (demo_archive ++ [0])
    (Z.of_nat (length demo_archive)) 0 = [str "bin"; str "bin/sh"]) as -> by (vm_compute; reflexivity).
  rewrite !Exists_cons, Exists_nil. intros [Ho|[Ho|[]]]; revert Ho; apply short_path_fits; vm_compute; lia.
Qed.

Lemma mount_initramfs_any_bytes_witness :
  exists r s', fs_mount_initramfs (demo_archive ++ [0]) (Z.of_nat (length demo_archive)) demo_fsys = Val (r, s')
    /\ fsys_wf s' /\ (r = 0 \/ r = - EINVAL).
Proof.
  destruct (mount_initramfs_any_bytes (demo_archive ++ [0]) (Z.of_nat (length demo_archive)) demo_fsys boot_task demo_fsys_wf
    boot_task_current) as [Hok|[_ Hov]]; [split; vm_compute; congruence|rewrite length_app; lia| |exact Hok|].
  - rewrite Nat2Z.id, drop_app_length. apply list_elem_of_here.
  - exfalso. apply demo_names_fit. exact Hov.
Defined.
