(* ===== verification/BootFs.v ===== *)
(** The first files ([src/kernel/fs.c]: fs_init, and the initramfs over it): what the
    start of the kernel finds in the tree.

    [fs_init] leaves [system_volume], the four directories and the four device nodes
    ([TmpfsView.v] says what it means that a tree shows a volume); unpacking the
    module adds the archive's files to it ([Cpio.v]). *)

From Stdlib Require Import ZArith Lia Ascii.
From stdpp Require Import base gmap list strings.
From S2P Require Import Prelude KString Terminal Vmm Tmpfs TmpfsPath TmpfsTree TmpfsData TmpfsView Task Fs FsPath FsFile FsView Cpio.
Open Scope Z_scope.
Import Fmt.

(** * The tree of a kernel that has just started *)

Definition directory (id mode : Z) : TmpfsView.entry := TmpfsView.Entry id VFS_NODE_DIR mode [] 0 0.
Definition device (id dev : Z) : TmpfsView.entry := TmpfsView.Entry id VFS_NODE_CHARDEV 438 [] 0 dev.

Definition system_volume : volume :=
  Volume (list_to_map
    [ ([], directory 0 493);
      ([str "dev"], directory 1 493); ([str "bin"], directory 2 493);
      ([str "tmp"], directory 3 511); ([str "etc"], directory 4 493);
      ([str "dev"; str "console"], device 5 1); ([str "dev"; str "tty"], device 6 2);
      ([str "dev"; str "null"], device 7 3); ([str "dev"; str "zero"], device 8 4) ]) 0.

(** One device node more. *)
Definition v_device (ts : list (list Z)) (dev : Z) (v : volume) : volume :=
  let v := (v_create ts VFS_NODE_CHARDEV 438 v).2 in
  match entries v !! ts with
  | Some e => put ts (TmpfsView.Entry (e_id e) (e_type e) (TmpfsView.e_mode e) (e_bytes e) (e_room e) dev) 0 v
  | None => v
  end.

(** The nodes are made one after the other. *)
Definition made : volume :=
  v_device [str "dev"; str "zero"] 4 (v_device [str "dev"; str "null"] 3
    (v_device [str "dev"; str "tty"] 2 (v_device [str "dev"; str "console"] 1
      (v_create [str "etc"] VFS_NODE_DIR 493 (v_create [str "tmp"] VFS_NODE_DIR 511
        (v_create [str "bin"] VFS_NODE_DIR 493 (v_create [str "dev"] VFS_NODE_DIR 493 blank).2).2).2).2))).

Lemma made_system : made = system_volume.
Proof. vm_compute. reflexivity. Qed.

(** Marking a node as a device. *)
Lemma set_device_wf fs id n d : fs_wf fs -> g_nodes fs !! id = Some n ->
  fs_wf (with_nodes (<[id := set_device d n]> (g_nodes fs)) fs).
Proof.
  intros [[kids Ht] [Hm He Hd Hs Hf]] Hn.
  assert (forall i m, <[id := set_device d n]> (g_nodes fs) !! i = Some m ->
    exists k, g_nodes fs !! i = Some k /\ (m = k \/ m = set_device d k)) as Hback.
  { intros i m Hi. apply list_lookup_insert_Some in Hi as [(<- & <- & _)|[_ Hi]]; [exists n; auto|exists m; auto]. }
  split; [exists kids; by eapply replace_same_links|]. split; cbn [with_nodes g_nodes g_data_arena g_data_offset]; try done.
  - intros i m (k & Hk & [-> | ->])%Hback Hl; exact (He i k Hk Hl).
  - intros i j m1 m2 (k1 & Hk1 & [-> | ->])%Hback (k2 & Hk2 & [-> | ->])%Hback Hl1 Hl2 Hij;
      exact (Hd i j k1 k2 Hk1 Hk2 Hl1 Hl2 Hij).
  - intros i m (k & Hk & [-> | ->])%Hback Hl; exact (Hs i k Hk Hl).
Qed.

Section Files.
Context {C : Type} `{TerminalLaws C}.
Implicit Types s : fsys C.

Lemma init_directory_shows ts mode s v : shows (fs_tmpfs s) v -> good_path ts ->
  exists t, init_directory (path_of ts) mode s = Val (with_tmpfs t s) /\ shows t (v_create ts VFS_NODE_DIR mode v).2.
Proof.
  intros Hs Hts. unfold init_directory. destruct (create_answer _ v ts VFS_NODE_DIR mode Hs Hts) as (t & -> & Ht); [done|].
  by exists t.
Qed.

Lemma set_device_shows t v ts id n dev : shows t v -> at_path t ts id -> g_nodes t !! id = Some n ->
  shows (with_nodes (<[id := set_device dev n]> (g_nodes t)) t) (put ts (entry_of (g_data_arena t) id (set_device dev n)) 0 v).
Proof.
  intros Hs Hat Hn. pose proof (sh_wf _ _ Hs) as Hfs. pose proof Hfs as [[kids Hwf] _].
  set (t' := with_nodes _ t). apply (written_shows t t' kids v ts id n (set_device dev n)); try done.
  - by apply set_device_wf.
  - intros i m Hi Hm. split; [|done]. cbn. by rewrite list_lookup_insert_ne.
  - cbn. lia.
Qed.

Lemma init_device_shows ts dev s v : shows (fs_tmpfs s) v -> good_path ts ->
  exists t, init_device_node (path_of ts) dev s = Val (with_tmpfs t s) /\ shows t (v_device ts dev v).
Proof.
  intros Hs Hts. unfold init_device_node, v_device.
  destruct (create_answer _ v ts VFS_NODE_CHARDEV 438 Hs Hts) as (t & -> & Ht); [done|]. cbn [mbind outcome_bind].
  pose proof (v_create_lookup ts VFS_NODE_CHARDEV 438 v) as Hnew.
  destruct (v_create ts VFS_NODE_CHARDEV 438 v) as [r v1]. cbn [fst snd] in *.
  assert ((if decide (r < 0) then tmpfs_lookup_path (Some (path_of ts)) t else Val r) = Val (v_lookup ts v1)) as ->.
  { case_decide; [by apply shows_lookup|]. rewrite Hnew; [done|lia]. }
  cbn [mbind outcome_bind]. unfold v_lookup.
  destruct (shows_cases t v1 ts Ht (proj1 Hts)) as [(-> & _)|(d & n & -> & Hd & Hn & Hl)].
  - rewrite missing_node. by exists t.
  - cbn [e_id entry_of]. rewrite (get_node_live t d n Hn Hl (fs_id_bound _ _ _ (sh_wf _ _ Ht) Hn)).
    cbn [mbind outcome_bind]. rewrite (upd_node_Val _ _ _ n Hn). cbn [mbind outcome_bind]. eexists. split; [done|].
    by apply (set_device_shows t v1 ts d n dev).
Qed.

Lemma fs_init_spec s : g_data_arena (fs_tmpfs s) = ∅ -> term_ok (fs_console s) ->
  exists t c, fs_init s = Val (Fsys t (g_open_files s) (fs_tasks s) c) /\ shows t system_volume /\ term_ok c.
Proof.
  intros Ha Hc. unfold fs_init. assert (tmpfs_init (fs_tmpfs s) = Val fresh_tmpfs) as ->.
  { unfold tmpfs_init. rewrite Ha. vm_compute. reflexivity. }
  cbn [mbind outcome_bind]. assert (shows (fs_tmpfs (with_tmpfs fresh_tmpfs s)) blank) as T0 by exact fresh_shows.
  assert (forall path ts mode s' v, shows (fs_tmpfs s') v -> path = path_of ts -> bool_decide (good_path ts) = true ->
    exists t, init_directory path mode s' = Val (with_tmpfs t s')
      /\ shows (fs_tmpfs (with_tmpfs t s')) (v_create ts VFS_NODE_DIR mode v).2) as Hdir.
  { intros path ts mode s' v Hs' -> Hg%bool_decide_eq_true. by apply init_directory_shows. }
  assert (forall path ts dev s' v, shows (fs_tmpfs s') v -> path = path_of ts -> bool_decide (good_path ts) = true ->
    exists t, init_device_node path dev s' = Val (with_tmpfs t s') /\ shows (fs_tmpfs (with_tmpfs t s')) (v_device ts dev v)) as Hdev.
  { intros path ts dev s' v Hs' -> Hg%bool_decide_eq_true. by apply init_device_shows. }
  destruct (Hdir (str "/dev") [str "dev"] 493 _ _ T0 eq_refl eq_refl) as (t1 & -> & T1). cbn [mbind outcome_bind].
  destruct (Hdir (str "/bin") [str "bin"] 493 _ _ T1 eq_refl eq_refl) as (t2 & -> & T2). cbn [mbind outcome_bind].
  destruct (Hdir (str "/tmp") [str "tmp"] 511 _ _ T2 eq_refl eq_refl) as (t3 & -> & T3). cbn [mbind outcome_bind].
  destruct (Hdir (str "/etc") [str "etc"] 493 _ _ T3 eq_refl eq_refl) as (t4 & -> & T4). cbn [mbind outcome_bind].
  destruct (Hdev (str "/dev/console") [str "dev"; str "console"] DEV_CONSOLE _ _ T4 eq_refl eq_refl) as (t5 & -> & T5). cbn [mbind outcome_bind].
  destruct (Hdev (str "/dev/tty") [str "dev"; str "tty"] DEV_TTY _ _ T5 eq_refl eq_refl) as (t6 & -> & T6). cbn [mbind outcome_bind].
  destruct (Hdev (str "/dev/null") [str "dev"; str "null"] DEV_NULL _ _ T6 eq_refl eq_refl) as (t7 & -> & T7). cbn [mbind outcome_bind].
  destruct (Hdev (str "/dev/zero") [str "dev"; str "zero"] DEV_ZERO _ _ T7 eq_refl eq_refl) as (t8 & -> & T8). cbn [mbind outcome_bind].
  match goal with |- context [console_writeln _ _ (fs_console ?x)] => set (s9 := x) in * end.
  destruct (line_prints (str "fs: tmpfs root mounted") eq_refl (fs_console s9) Hc) as (c & o & -> & Hok & _).
  exists t8, c. split; [done|]. split; [|done]. rewrite <- made_system. exact T8.
Qed.

(** Unpacking only changes the tree. *)
Lemma mount_entry_tree path mode size data s s' : mount_entry path mode size data s = Val s' -> exists t, s' = with_tmpfs t s.
Proof.
  unfold mount_entry. case_decide; intros Hm; inv_outcome; destruct a as [id t]; [by inv_outcome; exists t|].
  case_decide; inv_outcome; [|by exists t]. destruct a as [r t']. inv_outcome. by exists t'.
Qed.

Lemma mount_loop_tree fuel archive size : forall cursor s r s',
  mount_loop fuel archive size cursor s = Val (r, s') -> exists t, s' = with_tmpfs t s.
Proof.
  assert (forall s, exists t, s = with_tmpfs t s) as Hsame by (intros [t0 f0 k0 c0]; by exists t0).
  induction fuel as [|fuel IH]; intros cursor s r s'; cbn [mount_loop]; (case_decide; [intros [= <- <-]; apply Hsame|]); [done|].
  intros Hm. apply bind_Val_inv in Hm as (header & _ & Hm). case_decide; [injection Hm as <- <-; apply Hsame|].
  destruct (cpio_header header) as [[mode fsize] nsize]. case_decide; [injection Hm as <- <-; apply Hsame|].
  apply bind_Val_inv in Hm as (trailer & _ & Hm). case_decide; [injection Hm as <- <-; apply Hsame|].
  apply bind_Val_inv in Hm as (dot & _ & Hm). case_decide; [by eapply IH|].
  apply bind_Val_inv in Hm as (path & _ & Hm). case_decide; [injection Hm as <- <-; apply Hsame|].
  apply bind_Val_inv in Hm as (s1 & He & Hm). apply mount_entry_tree in He as [t1 ->]. apply IH in Hm as [t2 ->]. by exists t2.
Qed.

(** Tasks that have neither opened a file nor changed directory. *)
Definition pristine_tasks (tt : task_table) : Prop := tasks_wf tt /\ forallb pristine (g_tasks tt) = true.

Lemma fresh_fsys_wf t tt c : fs_wf t -> pristine_tasks tt -> term_ok c -> fsys_wf (Fsys t (replicate 128 zero_file) tt c : fsys C).
Proof.
  intros Ht [Hwf Hall] Hc.
  assert (forall i k, g_tasks tt !! i = Some k -> t_fds k = replicate 32 None /\ (used k -> t_cwd k = slash :: replicate 127 0)) as Hp.
  { intros i k Hk. rewrite forallb_forall in Hall. specialize (Hall k).
    apply list_elem_of_lookup_2, list_elem_of_In, Hall, andb_true_iff in Hk as [Hf%bool_decide_eq_true Hcwd].
    split; [done|]. intros Hu. apply orb_true_iff in Hcwd as [Hcwd|Hcwd]; apply bool_decide_eq_true in Hcwd; done. }
  assert (forall i j k, ~ points_to tt i j k) as Hno.
  { intros i j k (x & Hx & Hj). destruct (Hp i x Hx) as [Hf _]. rewrite Hf in Hj. apply lookup_replicate in Hj as [Hj _]. done. }
  split; cbn [fs_tasks fs_tmpfs g_open_files fs_console]; try done.
  - intros i k Hk Hu. destruct (Hp i k Hk) as [_ Hcwd]. rewrite Hcwd by done. split; [done|vm_compute; lia|done|done].
  - split.
    + done.
    + intros k f Hk. apply lookup_replicate in Hk as [-> _]. split; [by left|]. unfold in_u64. cbn. lia.
    + intros i j k Hk. by apply Hno in Hk.
    + intros i j i' j' k Hk. by apply Hno in Hk.
    + intros k f Hk Hu. apply lookup_replicate in Hk as [-> _]. done.
Qed.

End Files.

(** The task table during the start, and at its end. *)
Definition first_table : task_table := match task_init static_tasks with Val t => t | Stop _ => static_tasks end.

Lemma first_table_init : task_init static_tasks = Val first_table.
Proof. unfold first_table. destruct (task_init_wf 1 ltac:(lia)) as (tt & Hi & _). change (Tasks _ 1 0 0) with static_tasks in Hi. by rewrite Hi. Qed.

Lemma first_table_pristine : pristine_tasks first_table.
Proof.
  split; [|vm_compute; reflexivity]. apply task_reachable_wf, reach_task_init, first_table_init.
Qed.

Lemma booted_tasks_pristine : pristine_tasks booted.
Proof. split; [exact (task_reachable_wf _ booted_reachable)|vm_compute; reflexivity]. Qed.

Lemma first_table_current : exists k, task_current first_table = Val k /\ cstr (t_cwd k) = str "/".
Proof.
  destruct (task_current first_table) as [k|] eqn:Hk; [|by vm_compute in Hk].
  exists k. split; [done|]. vm_compute in Hk. injection Hk as <-. vm_compute. reflexivity.
Qed.

(** * The initramfs over it *)

(** Entries before a trailer, as cpio writes them. *)
Definition sealed (es : list entry) (trailer : entry) : Prop :=
  Forall entry_valid es /\ Forall (fun e => e_name e <> str "TRAILER!!!") es
  /\ entry_valid trailer /\ e_name trailer = str "TRAILER!!!".

Section Mounted.
Context {C : Type} `{TerminalLaws C}.

(** A tree is that of the initramfs when it is what unpacking the module over the
    system's volume leaves; for a well-formed archive of plain names it shows the
    system's volume with the archive's directories and files put in. *)
Record unpacked (archive : list Z) (size : Z) (t : tmpfs) : Prop := {
  up_mounted : exists (s s' : fsys C) r, shows (fs_tmpfs s) system_volume
    /\ fs_mount_initramfs archive size s = Val (r, s') /\ fs_tmpfs s' = t;
  up_entries es trailer post : sealed es trailer ->
    archive = ((es ≫= render_entry) ++ render_entry trailer) ++ post ->
    Z.of_nat (length ((es ≫= render_entry) ++ render_entry trailer)) <= size ->
    Forall (plain_name (str "/")) es -> shows t (unpack (str "/") es system_volume);
}.

Definition first_tree (module : option (Z * Z)) (memory : Z -> list Z) (t : tmpfs) : Prop :=
  match module with
  | None => shows t system_volume
  | Some (first, last) => unpacked (memory first) (u32 (last - first)) t
  end.

Lemma mount_first_tree (t : tmpfs) (c : C) archive size :
  shows t system_volume -> term_ok c ->
  0 <= size <= 2 ^ 31 - 1 -> size <= Z.of_nat (length archive) -> 0 ∈ drop (Z.to_nat size) archive ->
  let s := Fsys t (replicate 128 zero_file) first_table c in
  (exists r t', fs_mount_initramfs archive size s = Val (r, with_tmpfs t' s) /\ fs_wf t' /\ unpacked archive size t')
  \/ (fs_mount_initramfs archive size s = Stop Oob /\ overrunning_name archive size (str "/")).
Proof.
  intros Ht Hc Hsize Hlen Hnul s. destruct first_table_current as (k & Hcur & Hcwd).
  assert (fsys_wf s) as Hs by exact (fresh_fsys_wf t first_table c (sh_wf _ _ Ht) first_table_pristine Hc).
  destruct (mount_loop_safe (Z.to_nat size) archive size 0 s k Hs Hcur) as [(r & s' & Hr & Hs' & _)|[Hst Hov]]; [lia|lia|lia|exact Hlen|exact Hnul| |].
  - left. destruct (mount_loop_tree _ _ _ _ _ _ _ Hr) as [t' ->]. exists r, t'. split; [exact Hr|]. split; [exact (sw_tmpfs _ Hs')|].
    split; [by exists s, (with_tmpfs t' s), r|].
    intros es trailer post (Hv & Hn & Htr & Htn) -> Hl Hp.
    assert (models s (Desk system_volume ∅ 0 (str "/") c)) as Hm.
    { apply models_fresh; [done..|]. intros k' Hk'. rewrite Hcur in Hk'. by injection Hk' as <-. }
    destruct (mount_all_shows es s _ Hm Hv Hp) as (s1 & Hall & Hm1).
    pose proof (mount_run es trailer post size s Hv Hn Htr Htn Hl) as Hrun. rewrite Hall in Hrun.
    unfold fs_mount_initramfs in Hrun. rewrite Hr in Hrun. injection Hrun as -> <-. exact (md_volume _ _ Hm1).
  - right. split; [exact Hst|]. unfold overrunning_name. by rewrite <- Hcwd.
Qed.

End Mounted.
