(* ===== verification/Elf.v ===== *)
(** [src/kernel/elf.c]: recognising an ELF image, in memory and in a file.

    The image's [base] is the data pointer itself and is left out.  The file is
    read into a block of the kernel heap of [Util.v], which is never given
    back. *)

From Stdlib Require Import ZArith Lia.
From stdpp Require Import base gmap list strings.
From S2P Require Import Prelude KString Util Terminal Vmm Task Tmpfs TmpfsPath TmpfsTree TmpfsData Fs FsPath FsFile.
Open Scope Z_scope.

(** [src/kernel/elf.c:10-10] ELF_MAGIC *)
Definition ELF_MAGIC : list Z := 127 :: str "ELF".
(** [src/kernel/elf.c:11-11] ELFCLASS64 *)
Definition ELFCLASS64 : Z := 2.
(** [src/kernel/elf.c:12-12] EM_X86_64 *)
Definition EM_X86_64 : Z := 62.

(** [src/kernel/elf.c:14-29] elf64_header; the offsets of the fields the code reads *)
Definition elf64_header_size : Z := 64.
Definition off_machine : Z := 18.
Definition off_entry : Z := 24.

(** [include/mgcore/elf.h:8-12] elf_image *)
Record elf_image := Image {
  img_size : Z;
  img_entry : Z;
}.

(** [src/kernel/elf.c:34-51] elf_parse_image, with a non-null [out] *)
Definition elf_parse_image (data : option (list Z)) (size : Z) : outcome (Z * option elf_image) :=
  match data with
  | None => Val (- EINVAL, None)
  | Some d =>
      if decide (size < elf64_header_size) then Val (- EINVAL, None)
      else
        ident ← aread d 0 16;
        if decide (take 4 ident <> ELF_MAGIC) then Val (- ENOEXEC, None)
        else
          class ← aget ident 4;
          if decide (class <> ELFCLASS64) then Val (- ENOEXEC, None)
          else
            machine ← le_load d off_machine 2;
            if decide (machine <> EM_X86_64) then Val (- ENOEXEC, None)
            else
              entry ← le_load d off_entry 8;
              Val (0, Some (Image size entry))
  end.

Definition zero_stat : mgcore_stat := Stat 0 0 0 0 0 0.

Section Elf.
Context {C : Type} `{Terminal C}.

(** Closing the descriptor and returning [status]. *)
Definition close_with (status : Z) (fd : Z) (s : fsys C) (h : heap_state)
  : outcome (Z * option elf_image * fsys C * heap_state) :=
  '(_, s) ← fs_close_fd fd s; Val (status, None, s, h).

(** [src/kernel/elf.c:53-78] elf_probe_path *)
Definition elf_probe_path (path : option (list Z)) (s : fsys C) (h : heap_state)
  : outcome (Z * option elf_image * fsys C * heap_state) :=
  '(fd, s) ← fs_open_path path 0 0 s;
  if decide (fd < 0) then Val (fd, None, s, h)
  else
    '(status, statbuf) ← fs_fstat_fd fd (Some zero_stat) s;
    if decide (status < 0) then close_with status fd s h
    else
      let size := u64 (st_size (default zero_stat statbuf)) in
      '(block, h) ← kalloc h size;
      match block with
      | None => close_with (- ENOMEM) fd s h
      | Some p =>
          '(r, buffer, s) ← fs_read_fd fd (drop (Z.to_nat p) (g_kernel_heap h)) size s;
          let h := Heap (take (Z.to_nat p) (g_kernel_heap h) ++ buffer) (g_heap_offset h) in
          if decide (r < 0) then close_with (- EIO) fd s h
          else
            '(_, s) ← fs_close_fd fd s;
            '(status, image) ← elf_parse_image (Some buffer) size;
            Val (status, image, s, h)
      end.

End Elf.

(** * Images *)

(** The start of an image: [ident] is the rest of the identification, [kind] the
    type field, [after] the header from behind the entry point on. *)
Definition image_bytes (ident kind version : list Z) (machine entry : Z) (after : list Z) : list Z :=
  (ELF_MAGIC ++ ident) ++ kind ++ le_bytes 2 machine ++ version ++ le_bytes 8 entry ++ after.

Lemma parse_image_bytes ident kind version machine entry after size more :
  length ident = 12%nat -> length kind = 2%nat -> length version = 4%nat -> (32 <= length after)%nat ->
  in_u16 machine -> in_u64 entry -> 64 <= size ->
  elf_parse_image (Some (image_bytes ident kind version machine entry after ++ more)) size
  = Val (if decide (nth 0 ident 0 = ELFCLASS64 /\ machine = EM_X86_64) then (0, Some (Image size entry))
         else (- ENOEXEC, None)).
Proof.
  intros Hi Hk Hv Ha Hm He Hs. unfold elf_parse_image, elf64_header_size.
  rewrite (decide_False (P := size < 64)) by lia. set (d := image_bytes _ _ _ _ _ _ ++ more).
  assert (aread d 0 16 = Val (ELF_MAGIC ++ ident)) as ->.
  { change 0 with (Z.of_nat (length (@nil Z))). replace 16 with (Z.of_nat (length (ELF_MAGIC ++ ident)))
      by (rewrite length_app, Hi; done).
    unfold d, image_bytes. rewrite <- (app_assoc (ELF_MAGIC ++ ident)). apply (aread_app []). }
  cbn [mbind outcome_bind]. rewrite (decide_False (P := take 4 _ <> _)) by (intros Hn; by apply Hn).
  destruct ident as [|class ident]; [done|]. change (aget (ELF_MAGIC ++ class :: ident) 4) with (Val class).
  cbn [mbind outcome_bind nth].
  assert (le_load d off_machine 2 = Val machine) as ->.
  { apply (le_load_at _ ((ELF_MAGIC ++ class :: ident) ++ kind) (version ++ le_bytes 8 entry ++ after ++ more)); try done.
    - unfold d, image_bytes. by rewrite <- !app_assoc.
    - rewrite !length_app, Hi, Hk. done. }
  assert (le_load d off_entry 8 = Val entry) as ->.
  { apply (le_load_at _ ((ELF_MAGIC ++ class :: ident) ++ kind ++ le_bytes 2 machine ++ version) (after ++ more)); try done.
    - unfold d, image_bytes. by rewrite <- !app_assoc.
    - rewrite !length_app, Hi, Hk, Hv, le_bytes_length. done. }
  cbn [mbind outcome_bind]. repeat case_decide; try done; naive_solver.
Qed.

Lemma parse_total d size : size <= Z.of_nat (length d) -> exists r, elf_parse_image (Some d) size = Val r.
Proof.
  intros Hl. unfold elf_parse_image, elf64_header_size. case_decide; [by eexists|].
  rewrite aread_in_range by lia. cbn [mbind outcome_bind]. case_decide; [by eexists|].
  destruct (aget_in_range (take (Z.to_nat 16) (drop (Z.to_nat 0) d)) 4) as [c ->].
  { rewrite length_take, length_drop. lia. }
  cbn [mbind outcome_bind]. case_decide; [by eexists|].
  unfold le_load, off_machine, off_entry. rewrite !aread_in_range by lia. cbn [mbind outcome_bind fmap outcome_fmap].
  case_decide; by eexists.
Qed.

(** * Probing a file *)

Section Probe.
Context {C : Type} `{TerminalLaws C}.

Lemma open_existing (s : fsys C) p t id fd s1 :
  fsys_wf s -> task_current (fs_tasks s) = Val t -> no_nul p ->
  tmpfs_lookup_path (Some (full_path (cstr (t_cwd t)) p)) (fs_tmpfs s) = Val (Z.of_nat id) ->
  fs_open_path (Some (p ++ [0])) 0 0 s = Val (fd, s1) -> 0 <= fd ->
  exists k f0, s1 = opened t fd k (File 1 1 (Z.of_nat id) 0 0) s /\ (k < 128)%nat /\ 3 <= fd < 32
    /\ t_fds t !! Z.to_nat fd = Some None /\ g_open_files s !! k = Some f0 /\ f_used f0 = 0.
Proof.
  intros Hs Hcur Hp Hlk Hopen Hfd. rewrite (open_path_eq s p [] 0 0 t), Hlk in Hopen by done.
  cbn [mbind outcome_bind] in Hopen. rewrite decide_False in Hopen by (intros [? _]; lia).
  cbn [mbind outcome_bind] in Hopen. rewrite decide_False in Hopen by lia.
  replace (with_tmpfs (fs_tmpfs s) s) with s in Hopen by by destruct s.
  destruct (open_node_spec s (Z.of_nat id) 0 t Hs Hcur) as (r & Hr & Hres). rewrite Hr in Hopen. injection Hopen as ->.
  inversion Hres as [Hall|k f Hk Hu Hfds|k f fd' Hk Hu Hb Hfd' Hn Hlow]; subst; unfold ENFILE, EMFILE in *; try lia.
  exists k, f. split; [done|]. split; [|done].
  rewrite <- (fw_length _ _ (sw_files _ Hs)). by eapply lookup_lt_Some.
Qed.

(** The block [kalloc] hands out is a range of the heap. *)
Lemma heap_block h size : heap_wf h -> 0 < size -> g_heap_offset h + round16 size <= KERNEL_HEAP_SIZE ->
  exists h1, kalloc h size = Val (Some (g_heap_offset h), h1) /\ g_heap_offset h1 = g_heap_offset h + round16 size
    /\ size <= Z.of_nat (length (drop (Z.to_nat (g_heap_offset h)) (g_kernel_heap h1)))
    /\ length (g_kernel_heap h1) = length (g_kernel_heap h).
Proof.
  intros Hh Hs Hf. pose proof (round16_bounds size) as Hb. rewrite kalloc_fits by done. eexists. split; [done|].
  split; [done|]. cbn [g_kernel_heap]. pose proof (heap_length _ Hh) as Hl. pose proof (heap_range _ Hh) as Hr.
  rewrite length_drop, splice_length by (rewrite length_replicate; lia). split; [lia|done].
Qed.

Lemma file_size (s : fsys C) id n :
  fsys_wf s -> g_nodes (fs_tmpfs s) !! id = Some n -> n_type n = VFS_NODE_FILE -> file_contents s n <> [] ->
  n_size n = Z.of_nat (length (file_contents s n)) /\ 0 < n_size n <= TMPFS_DATA_ARENA_SIZE.
Proof.
  intros Hs Hn Ht Hbs. pose proof (sw_tmpfs _ Hs) as [_ Hdata]. assert (live n) as Hlive by (unfold live; congruence).
  pose proof (dw_extent _ Hdata id n Hn Hlive) as Hext. pose proof (dw_mark _ Hdata) as Hmark.
  pose proof (contents_length _ (g_data_arena (fs_tmpfs s)) n Hext) as Hlen. fold (file_contents s n) in Hlen.
  assert (length (file_contents s n) <> O) by by destruct (file_contents s n).
  unfold extent_ok in Hext. destruct (n_data n); lia.
Qed.

Lemma fstat_file (s : fsys C) fd k f id n st :
  fsys_wf s -> open_on s fd k f id n -> file_contents s n <> [] ->
  exists st', fs_fstat_fd fd (Some st) s = Val (0, Some st')
    /\ u64 (st_size st') = Z.of_nat (length (file_contents s n)).
Proof.
  intros Hs Hon Hbs. destruct (open_on_node s fd k f id n Hs Hon) as (Hlf & Hget & Hnode & _).
  destruct Hon as (_ & _ & Hn & Ht). destruct (file_size s id n Hs Hn Ht Hbs) as [Hsz Hb]. unfold TMPFS_DATA_ARENA_SIZE in Hb.
  unfold fs_fstat_fd. rewrite Hlf. cbn [mbind outcome_bind]. rewrite Hget. cbn [mbind outcome_bind].
  rewrite Hnode. eexists. split; [done|]. cbn [st_size]. rewrite i64_small, u64_small by (unfold in_u64; lia). done.
Qed.

(** Reading the whole of a file just opened. *)
Lemma read_whole (s : fsys C) fd k f id n buffer :
  fsys_wf s -> open_on s fd k f id n -> f_offset f = 0 ->
  Z.of_nat (length (file_contents s n)) <= Z.of_nat (length buffer) ->
  exists o, fs_read_fd fd buffer (Z.of_nat (length (file_contents s n))) s
    = Val (Z.of_nat (length (file_contents s n)), file_contents s n ++ drop (length (file_contents s n)) buffer,
           set_file k (at_offset o f) s) /\ in_u64 o.
Proof.
  intros Hs Hon Ho Hl. rewrite (read_fd_file s fd k f id n) by (done || lia). rewrite Ho. change (Z.to_nat 0) with 0%nat.
  rewrite drop_0, Nat2Z.id, firstn_all. eexists. split; [done|]. auto with cint.
Qed.

Lemma set_opened (s : fsys C) t fd k f f' : set_file k f' (opened t fd k f s) = opened t fd k f' s.
Proof.
  unfold opened, set_file, set_current, with_files, with_fs_tasks, with_tasks. cbn -[insert].
  by rewrite list_insert_insert_eq.
Qed.

(** ** Probing whatever the path names *)

Lemma open_plain (s : fsys C) p more mode :
  fsys_wf s -> no_nul p -> exists r s', fs_open_path (Some (p ++ 0 :: more)) 0 mode s = Val (r, s') /\ fsys_wf s'.
Proof. intros Hs Hp. destruct (open_keeps_wf s p more 0 mode Hs Hp) as [?|(_ & _ & Hf)]; [done|by destruct Hf]. Qed.

Lemma node_size (s : fsys C) id n :
  fsys_wf s -> g_nodes (fs_tmpfs s) !! id = Some n -> live n -> 0 <= n_size n <= TMPFS_DATA_ARENA_SIZE.
Proof.
  intros Hs Hn Hl. pose proof (sw_tmpfs _ Hs) as [_ Hd]. pose proof (dw_extent _ Hd id n Hn Hl) as He.
  pose proof (dw_mark _ Hd). unfold extent_ok in He. destruct (n_data n); unfold TMPFS_DATA_ARENA_SIZE in *; lia.
Qed.

Lemma fstat_total (s : fsys C) fd st :
  fsys_wf s -> exists r st', fs_fstat_fd fd (Some st) s = Val (r, Some st')
    /\ (r = - EBADF \/ r = - EINVAL \/ r = 0 /\ 0 <= st_size st' <= TMPFS_DATA_ARENA_SIZE).
Proof.
  intros Hs. unfold fs_fstat_fd. pose proof (sw_tmpfs _ Hs) as Hfs.
  destruct (lookup_file_spec s fd Hs) as [-> |(k & f & Hlk & Hop)]; cbn [mbind outcome_bind].
  { eexists _, _. split; [done|by left]. }
  destruct (lookup_file_open s fd k f Hop) as [-> Hget]. cbn [mbind outcome_bind]. rewrite Hget. cbn [mbind outcome_bind].
  destruct (get_node_spec (fs_tmpfs s) (f_node_id f) Hfs) as [-> |(n & -> & _ & Hn & Hl)]; cbn [mbind outcome_bind];
    eexists _, _; (split; [done|right]); [by left|right]. split; [done|].
  pose proof (node_size s _ n Hs Hn Hl) as Hb. unfold TMPFS_DATA_ARENA_SIZE in *. cbn [st_size].
  rewrite i64_small by lia. lia.
Qed.

Lemma close_with_probe (e : Z) fd (s : fsys C) h :
  fsys_wf s -> heap_wf h -> exists status image s' h', close_with e fd s h = Val (status, image, s', h')
    /\ fsys_wf s' /\ heap_wf h'.
Proof.
  intros Hs Hh. unfold close_with. destruct (close_keeps_wf s fd Hs) as (r & s' & -> & Hs').
  by exists e, None, s', h.
Qed.

(** Every request below 2^63 is answered. *)
Lemma kalloc_total h size : heap_wf h -> 0 <= size < 2 ^ 63 ->
  kalloc h size = Val (None, h)
  \/ exists h1, kalloc h size = Val (Some (g_heap_offset h), h1) /\ heap_wf h1
       /\ size <= Z.of_nat (length (drop (Z.to_nat (g_heap_offset h)) (g_kernel_heap h1))).
Proof.
  intros Hh Hs. destruct (decide (size = 0 \/ KERNEL_HEAP_SIZE < g_heap_offset h + round16 size)) as [Hr|Hr].
  - left. by apply kalloc_refused.
  - right. destruct (heap_block h size Hh) as (h1 & Hk & Ho & Hl & Hlen); [lia..|]. exists h1. split; [done|]. split; [|done].
    destruct Hh as [H1 H2 H3]. pose proof (round16_bounds size ltac:(lia)) as [Hb Hm].
    split; rewrite ?Ho; [by rewrite Hlen|lia|]. rewrite Z.add_mod, H3, Hm by lia. done.
Qed.

(** Probing keeps the file system and the heap in order and always answers. *)
Lemma elf_probe_keeps_wf (s : fsys C) h p more :
  fsys_wf s -> heap_wf h -> no_nul p ->
  exists status image s' h', elf_probe_path (Some (p ++ 0 :: more)) s h = Val (status, image, s', h')
    /\ fsys_wf s' /\ heap_wf h'.
Proof.
  intros Hs Hh Hp. unfold elf_probe_path.
  destruct (open_plain s p more 0 Hs Hp) as (fd & s1 & -> & Hs1). cbn [mbind outcome_bind].
  case_decide; [by eexists _, _, _, _|].
  destruct (fstat_total s1 fd zero_stat Hs1) as (r & st & -> & Hst). cbn [mbind outcome_bind].
  case_decide as Hneg; [by apply close_with_probe|]. cbn [default]. change (Datatypes.id st) with st.
  destruct Hst as [-> |[-> |[-> Hsz]]]; [by unfold EBADF in Hneg|by unfold EINVAL in Hneg|].
  unfold TMPFS_DATA_ARENA_SIZE in Hsz. rewrite u64_small by (unfold in_u64; lia).
  destruct (kalloc_total h (st_size st) Hh) as [-> |(h1 & -> & Hh1 & Hl)]; [lia|..]; cbn [mbind outcome_bind];
    [by apply close_with_probe|].
  set (block := drop (Z.to_nat (g_heap_offset h)) (g_kernel_heap h1)) in *.
  destruct (read_keeps_wf s1 fd block (st_size st) Hs1) as (n & buffer & s2 & Hr & Hs2); [lia|]. rewrite Hr.
  cbn [mbind outcome_bind]. apply read_fd_length in Hr.
  assert (heap_wf (Heap (take (Z.to_nat (g_heap_offset h)) (g_kernel_heap h1) ++ buffer) (g_heap_offset h1))) as Hh2.
  { destruct Hh1 as [Hh1 Hh2 Hh3]. split; cbn [g_kernel_heap g_heap_offset]; [|done|done].
    rewrite length_app, Hr. unfold block. by rewrite <- length_app, take_drop. }
  case_decide.
  - eapply close_with_probe; eauto.
  - destruct (close_keeps_wf s2 fd Hs2) as (rc & s3 & -> & Hs3). cbn [mbind outcome_bind].
    destruct (parse_total buffer (st_size st)) as ([status image] & ->); [lia|]. cbn [mbind outcome_bind].
    by eexists _, _, _, _.
Qed.

(** Probing an executable: for a regular file with contents [bs] that opens and
    whose contents fit in the rest of the kernel heap, elf_probe_path answers what
    elf_parse_image answers for the whole file, closes the descriptor it opened
    and leaves files, tasks and every other open file as they were; the block of
    the heap it read into, the size rounded up to 16, is gone for good. *)
Theorem elf_probe_reads_whole_file (s s1 : fsys C) (h : heap_state) (t : task) (p : list Z) (id : nat) (n : vfs_node) (fd : Z) :
  fsys_wf s -> heap_wf h -> task_current (fs_tasks s) = Val t -> no_nul p ->
  tmpfs_lookup_path (Some (full_path (cstr (t_cwd t)) p)) (fs_tmpfs s) = Val (Z.of_nat id) ->
  g_nodes (fs_tmpfs s) !! id = Some n -> n_type n = VFS_NODE_FILE ->
  fs_open_path (Some (p ++ [0])) 0 0 s = Val (fd, s1) -> 0 <= fd ->
  let bs := file_contents s n in
  bs <> [] -> g_heap_offset h + round16 (Z.of_nat (length bs)) <= KERNEL_HEAP_SIZE ->
  exists k rest h2 status image,
    elf_probe_path (Some (p ++ [0])) s h
      = Val (status, image, with_files (<[k := zero_file]> (g_open_files s)) s, h2)
    /\ (exists f0, g_open_files s !! k = Some f0 /\ f_used f0 = 0)
    /\ elf_parse_image (Some (bs ++ rest)) (Z.of_nat (length bs)) = Val (status, image)
    /\ g_heap_offset h2 = g_heap_offset h + round16 (Z.of_nat (length bs)).
Proof.
  intros Hs Hh Hcur Hp Hlk Hn Ht Hopen Hfd bs Hbs Hroom.
  destruct (open_existing s p t id fd s1 Hs Hcur Hp Hlk Hopen Hfd) as (k & f0 & -> & Hk & Hfd3 & Hnone & Hf0 & Hu0).
  assert (forall o, in_u64 o -> fsys_wf (opened t fd k (File 1 1 (Z.of_nat id) o 0) s)) as Hwf.
  { intros o Ho. destruct (current_task s Hs) as (t' & Hcur' & Htl & _). rewrite Hcur in Hcur'. injection Hcur' as <-.
    eapply opened_wf; eauto. lia. }
  assert (in_u64 0) as Hz by (unfold in_u64; lia). pose proof (Hwf 0 Hz) as Hs1.
  set (f := File 1 1 (Z.of_nat id) 0 0) in *. set (s1 := opened t fd k f s) in *.
  assert (open_on s1 fd k f id n) as Hon by (split; [by apply opened_open_at|done]).
  assert (0 < length bs)%nat as Hpos by (destruct bs; [done|simpl; lia]).
  unfold elf_probe_path. rewrite Hopen. cbn [mbind outcome_bind]. rewrite decide_False by lia.
  destruct (fstat_file s1 fd k f id n zero_stat Hs1 Hon Hbs) as (st & -> & Hst). cbn [mbind outcome_bind].
  rewrite decide_False by lia. cbn [default]. change (Datatypes.id st) with st. rewrite Hst.
  change (file_contents s1 n) with bs.
  destruct (heap_block h (Z.of_nat (length bs)) Hh ltac:(lia) Hroom) as (h1 & -> & Hoff & Hblk & _). cbn [mbind outcome_bind].
  destruct (read_whole s1 fd k f id n (drop (Z.to_nat (g_heap_offset h)) (g_kernel_heap h1)) Hs1 Hon eq_refl Hblk)
    as (o & Hr & Ho).
  change (file_contents s1 n) with bs in Hr. rewrite Hr. cbn [mbind outcome_bind]. rewrite decide_False by lia.
  set (rest := drop (length bs) _). subst s1. rewrite set_opened, (close_opened s t fd k) by (done || by apply Hwf).
  cbn [mbind outcome_bind].
  destruct (parse_total (bs ++ rest) (Z.of_nat (length bs))) as [[status image] Hp']; [rewrite length_app; lia|].
  rewrite Hp'. cbn [mbind outcome_bind]. exists k, rest. eexists _, status, image.
  split; [done|]. split; [by exists f0|]. done.
Qed.

End Probe.

(** * Witness *)

Import Transcript.

Definition tiny_elf : list Z :=
  image_bytes (2 :: replicate 11 0) [2; 0] [1; 0; 0; 0] 62 0x401000 (replicate 32 0).

Lemma tiny_elf_bytes : Forall in_u8 tiny_elf.
Proof. vm_compute. repeat constructor; discriminate. Qed.

Definition elf_fsys : fsys transcript := ok_state (fs_write_fd 3 tiny_elf 64 motd_open).

Lemma elf_fsys_wf : fsys_wf elf_fsys.
Proof.
  destruct (write_keeps_fsys_wf motd_open 3 tiny_elf 64 motd_open_wf tiny_elf_bytes) as (r & s' & Hw & Hs).
  - split; [done|]. vm_compute. discriminate.
  - intros k f Hop. pose proof motd_open_on as [Hop' _].
    destruct Hop as (t & Hcur & _ & Hslot & Hf & _). destruct Hop' as (t' & Hcur' & _ & Hslot' & Hf' & _).
    rewrite Hcur in Hcur'. injection Hcur' as <-. rewrite Hslot in Hslot'. injection Hslot' as Hk.
    apply Nat2Z.inj in Hk. subst k. rewrite Hf in Hf'. injection Hf' as ->. simpl. lia.
  - unfold elf_fsys. by rewrite Hw.
Qed.

Definition elf_task : task := nth (Z.to_nat (g_current_index (fs_tasks elf_fsys))) (g_tasks (fs_tasks elf_fsys)) zero_task.
Definition elf_node : vfs_node := nth 2 (g_nodes (fs_tmpfs elf_fsys)) zero_node.
Definition elf_opened : fsys transcript := ok_state (fs_open_path (Some (str "/etc/motd" ++ [0])) 0 0 elf_fsys).

Lemma elf_probe_reads_whole_file_witness :
  exists k rest h2 status image,
    elf_probe_path (Some (str "/etc/motd" ++ [0])) elf_fsys heap_init
      = Val (status, image, with_files (<[k := zero_file]> (g_open_files elf_fsys)) elf_fsys, h2)
    /\ elf_parse_image (Some (tiny_elf ++ rest)) 64 = Val (status, image).
Proof.
  destruct (elf_probe_reads_whole_file elf_fsys elf_opened heap_init elf_task (str "/etc/motd") 2 elf_node 4)
    as (k & rest & h2 & status & image & Hr & _ & Hp & _).
  - exact elf_fsys_wf.
  - exact heap_init_wf.
  - vm_compute. reflexivity.
  - exact motd_bytes.
  - vm_compute. reflexivity.
  - vm_compute. reflexivity.
  - vm_compute. reflexivity.
  - vm_compute. reflexivity.
  - discriminate.
  - vm_compute. discriminate.
  - vm_compute. discriminate.
  - exists k, rest, h2, status, image. split; [exact Hr|].
    assert (file_contents elf_fsys elf_node = tiny_elf) as Hc by (vm_compute; reflexivity).
    rewrite Hc in Hp. exact Hp.
Defined.

(** The image in it is recognised with its entry point. *)
Example tiny_elf_entry rest :
  elf_parse_image (Some (tiny_elf ++ rest)) 64 = Val (0, Some (Image 64 0x401000)).
Proof.
  unfold tiny_elf. rewrite parse_image_bytes; try done; try (simpl; lia); unfold in_u16, in_u64; lia.
Qed.
