(* ===== verification/Abi.v ===== *)
(** The system call numbers: [src/syscall/unistd.h] on the kernel's side and
    [lib/libc/include/sys/syscall.h] on the programs', with the calls
    [src/syscall/syscall_impl.c] defines as not implemented. *)

From Stdlib Require Import ZArith Lia.
From stdpp Require Import base list.
From S2P Require Import Prelude.
Open Scope Z_scope.

(** * The kernel's numbers *)

(** [src/syscall/unistd.h:4-4] __NR_read *)
Definition __NR_read : Z := 0.
(** [src/syscall/unistd.h:5-5] __NR_write *)
Definition __NR_write : Z := 1.
(** [src/syscall/unistd.h:6-6] __NR_open *)
Definition __NR_open : Z := 2.
(** [src/syscall/unistd.h:7-7] __NR_close *)
Definition __NR_close : Z := 3.
(** [src/syscall/unistd.h:8-8] __NR_stat *)
Definition __NR_stat : Z := 4.
(** [src/syscall/unistd.h:9-9] __NR_fstat *)
Definition __NR_fstat : Z := 5.
(** [src/syscall/unistd.h:10-10] __NR_lstat *)
Definition __NR_lstat : Z := 6.
(** [src/syscall/unistd.h:11-11] __NR_poll *)
Definition __NR_poll : Z := 7.
(** [src/syscall/unistd.h:12-12] __NR_lseek *)
Definition __NR_lseek : Z := 8.
(** [src/syscall/unistd.h:13-13] __NR_mmap *)
Definition __NR_mmap : Z := 9.
(** [src/syscall/unistd.h:14-14] __NR_mprotect *)
Definition __NR_mprotect : Z := 10.
(** [src/syscall/unistd.h:15-15] __NR_munmap *)
Definition __NR_munmap : Z := 11.
(** [src/syscall/unistd.h:16-16] __NR_brk *)
Definition __NR_brk : Z := 12.
(** [src/syscall/unistd.h:17-17] __NR_rt_sigaction *)
Definition __NR_rt_sigaction : Z := 13.
(** [src/syscall/unistd.h:18-18] __NR_rt_sigprocmask *)
Definition __NR_rt_sigprocmask : Z := 14.
(** [src/syscall/unistd.h:19-19] __NR_ioctl *)
Definition __NR_ioctl : Z := 16.
(** [src/syscall/unistd.h:20-20] __NR_pread64 *)
Definition __NR_pread64 : Z := 17.
(** [src/syscall/unistd.h:21-21] __NR_pwrite64 *)
Definition __NR_pwrite64 : Z := 18.
(** [src/syscall/unistd.h:22-22] __NR_readv *)
Definition __NR_readv : Z := 19.
(** [src/syscall/unistd.h:23-23] __NR_writev *)
Definition __NR_writev : Z := 20.
(** [src/syscall/unistd.h:24-24] __NR_access *)
Definition __NR_access : Z := 21.
(** [src/syscall/unistd.h:25-25] __NR_pipe *)
Definition __NR_pipe : Z := 22.
(** [src/syscall/unistd.h:26-26] __NR_sched_yield *)
Definition __NR_sched_yield : Z := 24.
(** [src/syscall/unistd.h:27-27] __NR_mremap *)
Definition __NR_mremap : Z := 25.
(** [src/syscall/unistd.h:28-28] __NR_msync *)
Definition __NR_msync : Z := 26.
(** [src/syscall/unistd.h:29-29] __NR_mincore *)
Definition __NR_mincore : Z := 27.
(** [src/syscall/unistd.h:30-30] __NR_madvise *)
Definition __NR_madvise : Z := 28.
(** [src/syscall/unistd.h:31-31] __NR_dup *)
Definition __NR_dup : Z := 32.
(** [src/syscall/unistd.h:32-32] __NR_dup2 *)
Definition __NR_dup2 : Z := 33.
(** [src/syscall/unistd.h:33-33] __NR_nanosleep *)
Definition __NR_nanosleep : Z := 35.
(** [src/syscall/unistd.h:34-34] __NR_getpid *)
Definition __NR_getpid : Z := 39.
(** [src/syscall/unistd.h:35-35] __NR_socket *)
Definition __NR_socket : Z := 41.
(** [src/syscall/unistd.h:36-36] __NR_connect *)
Definition __NR_connect : Z := 42.
(** [src/syscall/unistd.h:37-37] __NR_signal *)
Definition __NR_signal : Z := 48.
(** [src/syscall/unistd.h:38-38] __NR_clone *)
Definition __NR_clone : Z := 56.
(** [src/syscall/unistd.h:39-39] __NR_fork *)
Definition __NR_fork : Z := 57.
(** [src/syscall/unistd.h:40-40] __NR_vfork *)
Definition __NR_vfork : Z := 58.
(** [src/syscall/unistd.h:41-41] __NR_execve *)
Definition __NR_execve : Z := 59.
(** [src/syscall/unistd.h:42-42] __NR_exit *)
Definition __NR_exit : Z := 60.
(** [src/syscall/unistd.h:43-43] __NR_wait4 *)
Definition __NR_wait4 : Z := 61.
(** [src/syscall/unistd.h:44-44] __NR_kill *)
Definition __NR_kill : Z := 62.
(** [src/syscall/unistd.h:45-45] __NR_uname *)
Definition __NR_uname : Z := 63.
(** [src/syscall/unistd.h:46-46] __NR_fcntl *)
Definition __NR_fcntl : Z := 72.
(** [src/syscall/unistd.h:47-47] __NR_getcwd *)
Definition __NR_getcwd : Z := 79.
(** [src/syscall/unistd.h:48-48] __NR_chdir *)
Definition __NR_chdir : Z := 80.
(** [src/syscall/unistd.h:49-49] __NR_mkdir *)
Definition __NR_mkdir : Z := 83.
(** [src/syscall/unistd.h:50-50] __NR_rmdir *)
Definition __NR_rmdir : Z := 84.
(** [src/syscall/unistd.h:51-51] __NR_creat *)
Definition __NR_creat : Z := 85.
(** [src/syscall/unistd.h:52-52] __NR_link *)
Definition __NR_link : Z := 86.
(** [src/syscall/unistd.h:53-53] __NR_unlink *)
Definition __NR_unlink : Z := 87.
(** [src/syscall/unistd.h:54-54] __NR_readlink *)
Definition __NR_readlink : Z := 89.
(** [src/syscall/unistd.h:55-55] __NR_gettimeofday *)
Definition __NR_gettimeofday : Z := 96.
(** [src/syscall/unistd.h:56-56] __NR_reboot *)
Definition __NR_reboot : Z := 169.
(** [src/syscall/unistd.h:57-57] __NR_openat *)
Definition __NR_openat : Z := 257.

(** * The C library's numbers *)

(** [lib/libc/include/sys/syscall.h:6-6] SYS_read *)
Definition SYS_read : Z := 0.
(** [lib/libc/include/sys/syscall.h:7-7] SYS_write *)
Definition SYS_write : Z := 1.
(** [lib/libc/include/sys/syscall.h:8-8] SYS_open *)
Definition SYS_open : Z := 2.
(** [lib/libc/include/sys/syscall.h:9-9] SYS_close *)
Definition SYS_close : Z := 3.
(** [lib/libc/include/sys/syscall.h:10-10] SYS_stat *)
Definition SYS_stat : Z := 4.
(** [lib/libc/include/sys/syscall.h:11-11] SYS_fstat *)
Definition SYS_fstat : Z := 5.
(** [lib/libc/include/sys/syscall.h:12-12] SYS_lseek *)
Definition SYS_lseek : Z := 8.
(** [lib/libc/include/sys/syscall.h:13-13] SYS_mmap *)
Definition SYS_mmap : Z := 9.
(** [lib/libc/include/sys/syscall.h:14-14] SYS_mprotect *)
Definition SYS_mprotect : Z := 10.
(** [lib/libc/include/sys/syscall.h:15-15] SYS_munmap *)
Definition SYS_munmap : Z := 11.
(** [lib/libc/include/sys/syscall.h:16-16] SYS_brk *)
Definition SYS_brk : Z := 12.
(** [lib/libc/include/sys/syscall.h:17-17] SYS_rt_sigaction *)
Definition SYS_rt_sigaction : Z := 13.
(** [lib/libc/include/sys/syscall.h:18-18] SYS_ioctl *)
Definition SYS_ioctl : Z := 16.
(** [lib/libc/include/sys/syscall.h:19-19] SYS_sched_yield *)
Definition SYS_sched_yield : Z := 24.
(** [lib/libc/include/sys/syscall.h:20-20] SYS_nanosleep *)
Definition SYS_nanosleep : Z := 35.
(** [lib/libc/include/sys/syscall.h:21-21] SYS_getpid *)
Definition SYS_getpid : Z := 39.
(** [lib/libc/include/sys/syscall.h:22-22] SYS_signal *)
Definition SYS_signal : Z := 48.
(** [lib/libc/include/sys/syscall.h:23-23] SYS_execve *)
Definition SYS_execve : Z := 59.
(** [lib/libc/include/sys/syscall.h:24-24] SYS_exit *)
Definition SYS_exit : Z := 60.
(** [lib/libc/include/sys/syscall.h:25-25] SYS_wait4 *)
Definition SYS_wait4 : Z := 61.
(** [lib/libc/include/sys/syscall.h:26-26] SYS_kill *)
Definition SYS_kill : Z := 62.
(** [lib/libc/include/sys/syscall.h:27-27] SYS_uname *)
Definition SYS_uname : Z := 63.
(** [lib/libc/include/sys/syscall.h:28-28] SYS_getcwd *)
Definition SYS_getcwd : Z := 79.
(** [lib/libc/include/sys/syscall.h:29-29] SYS_chdir *)
Definition SYS_chdir : Z := 80.
(** [lib/libc/include/sys/syscall.h:30-30] SYS_mkdir *)
Definition SYS_mkdir : Z := 83.
(** [lib/libc/include/sys/syscall.h:31-31] SYS_rmdir *)
Definition SYS_rmdir : Z := 84.
(** [lib/libc/include/sys/syscall.h:32-32] SYS_unlink *)
Definition SYS_unlink : Z := 87.
(** [lib/libc/include/sys/syscall.h:33-33] SYS_gettimeofday *)
Definition SYS_gettimeofday : Z := 96.
(** [lib/libc/include/sys/syscall.h:34-34] SYS_reboot *)
Definition SYS_reboot : Z := 169.
(** [lib/libc/include/sys/syscall.h:35-35] SYS_openat *)
Definition SYS_openat : Z := 257.

(** * The lists *)

(** Every number of unistd.h, in its order. *)
Definition kernel_numbers : list Z :=
  [ __NR_read; __NR_write; __NR_open; __NR_close; __NR_stat; __NR_fstat; __NR_lstat; __NR_poll; __NR_lseek;
    __NR_mmap; __NR_mprotect; __NR_munmap; __NR_brk; __NR_rt_sigaction; __NR_rt_sigprocmask; __NR_ioctl;
    __NR_pread64; __NR_pwrite64; __NR_readv; __NR_writev; __NR_access; __NR_pipe; __NR_sched_yield;
    __NR_mremap; __NR_msync; __NR_mincore; __NR_madvise; __NR_dup; __NR_dup2; __NR_nanosleep; __NR_getpid;
    __NR_socket; __NR_connect; __NR_signal; __NR_clone; __NR_fork; __NR_vfork; __NR_execve; __NR_exit;
    __NR_wait4; __NR_kill; __NR_uname; __NR_fcntl; __NR_getcwd; __NR_chdir; __NR_mkdir; __NR_rmdir;
    __NR_creat; __NR_link; __NR_unlink; __NR_readlink; __NR_gettimeofday; __NR_reboot; __NR_openat ].

(** Every number of the C library's header, in its order. *)
Definition libc_numbers : list Z :=
  [ SYS_read; SYS_write; SYS_open; SYS_close; SYS_stat; SYS_fstat; SYS_lseek; SYS_mmap; SYS_mprotect;
    SYS_munmap; SYS_brk; SYS_rt_sigaction; SYS_ioctl; SYS_sched_yield; SYS_nanosleep; SYS_getpid;
    SYS_signal; SYS_execve; SYS_exit; SYS_wait4; SYS_kill; SYS_uname; SYS_getcwd; SYS_chdir; SYS_mkdir;
    SYS_rmdir; SYS_unlink; SYS_gettimeofday; SYS_reboot; SYS_openat ].

(** [src/syscall/syscall_impl.c:245-266] the calls that only answer -ENOSYS *)
Definition unimplemented_numbers : list Z :=
  [ __NR_lstat; __NR_poll; __NR_pread64; __NR_pwrite64; __NR_readv; __NR_writev; __NR_access; __NR_pipe;
    __NR_mremap; __NR_msync; __NR_mincore; __NR_madvise; __NR_dup; __NR_dup2; __NR_socket; __NR_connect;
    __NR_clone; __NR_vfork; __NR_fcntl; __NR_creat; __NR_link; __NR_readlink ].

(** No number is used twice, and all of them fit the table of 512 entries. *)
Lemma kernel_numbers_ok : NoDup kernel_numbers /\ Forall (fun nr => 0 <= nr < 512) kernel_numbers.
Proof. split; apply (bool_decide_eq_true_1 _); vm_compute; reflexivity. Qed.

(** The C library's header agrees with the kernel's: the same names have the same
    numbers. *)
Lemma libc_numbers_agree :
  libc_numbers =
  [ __NR_read; __NR_write; __NR_open; __NR_close; __NR_stat; __NR_fstat; __NR_lseek; __NR_mmap;
    __NR_mprotect; __NR_munmap; __NR_brk; __NR_rt_sigaction; __NR_ioctl; __NR_sched_yield; __NR_nanosleep;
    __NR_getpid; __NR_signal; __NR_execve; __NR_exit; __NR_wait4; __NR_kill; __NR_uname; __NR_getcwd;
    __NR_chdir; __NR_mkdir; __NR_rmdir; __NR_unlink; __NR_gettimeofday; __NR_reboot; __NR_openat ].
Proof. reflexivity. Qed.
