(* ===== verification/Syscall.v ===== *)
(** [src/syscall/syscall_impl.c], [src/syscall/syscall_table.c],
    [src/syscall/unistd.h], [src/kernel/syscall.c] and
    [src/kernel/syscall_arch.c]: the system calls and their dispatch.

    The state is everything the calls reach: the node tree, the open files, the
    kernel heap, the world of [Sched.v] (tasks, console, tick count) and the
    memory user pointers address, as the list of its bytes from address 0.  The
    kernel's own arrays are not part of that memory: a pointer into them is out
    of bounds here.  Six 64-bit registers are six numbers below [2^64]; the
    result is the [long] in rax. *)

From Stdlib Require Import ZArith Lia Ascii.
From stdpp Require Import base gmap list strings.
From S2P Require Import Prelude KString Util Pmm Vmm Terminal Ports Task Sched Tmpfs Fs Elf Abi.
Open Scope Z_scope.
Import Fmt.

Record kernel (C M : Type) := Kernel {
  k_tmpfs : tmpfs;
  k_files : list vfs_file;
  k_heap : heap_state;
  k_mem : list Z;
  k_world : world C M;
}.
Arguments Kernel {C M}.
Arguments k_tmpfs {C M}.
Arguments k_files {C M}.
Arguments k_heap {C M}.
Arguments k_mem {C M}.
Arguments k_world {C M}.

(** The registers of a call: rdi, rsi, rdx, r10, r8, r9. *)
Record regs := Regs { a0 : Z; a1 : Z; a2 : Z; a3 : Z; a4 : Z; a5 : Z }.

(** [src/syscall/syscall_impl.c:13-13] AT_FDCWD *)
Definition AT_FDCWD : Z := -100.

(** [include/mgcore/syscall.h:8-14] mgcore_utsname, a field of 65 bytes *)
Definition uts_field (s : list Z) : list Z := s ++ replicate (65 - length s) 0.
(** [src/syscall/syscall_impl.c:19-24] copy_uname, the bytes of the structure *)
Definition uts_bytes : list Z :=
  uts_field (str "MGCORE") ++ uts_field (str "mgcore") ++ uts_field (str "0.1")
  ++ uts_field (str "linux-like syscall scaffold") ++ uts_field (str "x86_64").

(** [include/mgcore/syscall.h:26-42] mgcore_stat, the bytes of the structure *)
Definition stat_bytes (st : mgcore_stat) : list Z :=
  le_bytes 8 0 ++ le_bytes 8 (st_ino st) ++ le_bytes 8 (st_nlink st) ++ le_bytes 4 (st_mode st)
  ++ le_bytes 4 0 ++ le_bytes 4 0 ++ le_bytes 4 0 ++ le_bytes 8 0 ++ le_bytes 8 (u64 (st_size st))
  ++ le_bytes 8 (st_blksize st) ++ le_bytes 8 (u64 (st_blocks st)) ++ replicate 48 0.

(** [include/mgcore/syscall.h:16-19] mgcore_timeval, the bytes of the structure *)
Definition timeval_bytes (sec usec : Z) : list Z := le_bytes 8 (u64 sec) ++ le_bytes 8 (u64 usec).

Section Syscall.
Context {C : Type} `{Terminal C} {M : Type} `{Ports M}.

(** ** Field updates and user memory *)

Definition k_fsys (k : kernel C M) : fsys C :=
  Fsys (k_tmpfs k) (k_files k) (w_tasks (k_world k)) (w_console (k_world k)).
Definition put_fsys (s : fsys C) (k : kernel C M) : kernel C M :=
  Kernel (fs_tmpfs s) (g_open_files s) (k_heap k) (k_mem k)
    (with_task_table (fs_tasks s) (with_console (fs_console s) (k_world k))).
Definition put_heap (h : heap_state) (k : kernel C M) : kernel C M :=
  Kernel (k_tmpfs k) (k_files k) h (k_mem k) (k_world k).
Definition put_mem (m : list Z) (k : kernel C M) : kernel C M :=
  Kernel (k_tmpfs k) (k_files k) (k_heap k) m (k_world k).
Definition put_world (w : world C M) (k : kernel C M) : kernel C M :=
  Kernel (k_tmpfs k) (k_files k) (k_heap k) (k_mem k) w.
Definition put_tasks (t : task_table) (k : kernel C M) : kernel C M :=
  put_world (with_task_table t (k_world k)) k.

(** The memory from the address [p] on. *)
Definition mem_at (p : Z) (m : list Z) : list Z :=
  if decide (0 <= p < Z.of_nat (length m)) then drop (Z.to_nat p) m else [].
(** A [const char *] argument. *)
Definition path_at (p : Z) (k : kernel C M) : option (list Z) :=
  if decide (p = 0) then None else Some (mem_at p (k_mem k)).
(** The string a non-null pointer addresses; it must end inside the memory. *)
Definition string_at (p : Z) (k : kernel C M) : outcome (option (list Z)) :=
  if decide (p = 0) then Val None
  else if decide (0 ∈ mem_at p (k_mem k)) then Val (Some (cstr (mem_at p (k_mem k))))
  else Stop Oob.
Definition store (p : Z) (bs : list Z) (k : kernel C M) : outcome (kernel C M) :=
  m ← awrite (k_mem k) p bs; Val (put_mem m k).

Definition result : Type := power (Z * kernel C M).
Definition ok (r : Z) (k : kernel C M) : outcome result := Val (Running (r, k)).
(** A call into the file system that returns a status. *)
Definition on_fs (f : fsys C -> outcome (Z * fsys C)) (k : kernel C M) : outcome result :=
  '(r, s) ← f (k_fsys k); ok r (put_fsys s k).

(** ** The calls *)

(** [src/syscall/syscall_impl.c:34-37] sys_read *)
Definition sys_read (r : regs) (k : kernel C M) : outcome result :=
  '(n, buffer, s) ← fs_read_fd (i32 (a0 r)) (mem_at (a1 r) (k_mem k)) (a2 r) (k_fsys k);
  let k := put_fsys s k in
  ok n (put_mem (match mem_at (a1 r) (k_mem k) with
                 | [] => k_mem k
                 | _ => take (Z.to_nat (a1 r)) (k_mem k) ++ buffer
                 end) k).

(** [src/syscall/syscall_impl.c:39-42] sys_write *)
Definition sys_write (r : regs) (k : kernel C M) : outcome result :=
  on_fs (fs_write_fd (i32 (a0 r)) (mem_at (a1 r) (k_mem k)) (a2 r)) k.

(** [src/syscall/syscall_impl.c:44-47] sys_open *)
Definition sys_open (r : regs) (k : kernel C M) : outcome result :=
  on_fs (fs_open_path (path_at (a0 r) k) (i32 (a1 r)) (i32 (a2 r))) k.

(** [src/syscall/syscall_impl.c:49-55] sys_openat *)
Definition sys_openat (r : regs) (k : kernel C M) : outcome result :=
  if decide (i64 (a0 r) <> AT_FDCWD) then ok (- ENOSYS) k
  else on_fs (fs_open_path (path_at (a1 r) k) (i32 (a2 r)) (i32 (a3 r))) k.

(** [src/syscall/syscall_impl.c:57-60] sys_close *)
Definition sys_close (r : regs) (k : kernel C M) : outcome result :=
  on_fs (fs_close_fd (i32 (a0 r))) k.

(** Storing the structure a stat call filled. *)
Definition store_stat (p : Z) (answer : Z * option mgcore_stat) (k : kernel C M) : outcome result :=
  match answer with
  | (0, Some st) => k ← store p (stat_bytes st) k; ok 0 k
  | (status, _) => ok status k
  end.
Definition stat_buffer (p : Z) : option mgcore_stat := if decide (p = 0) then None else Some zero_stat.

(** [src/syscall/syscall_impl.c:62-65] sys_stat *)
Definition sys_stat (r : regs) (k : kernel C M) : outcome result :=
  answer ← fs_stat_path (path_at (a0 r) k) (stat_buffer (a1 r)) (k_fsys k);
  store_stat (a1 r) answer k.

(** [src/syscall/syscall_impl.c:67-70] sys_fstat *)
Definition sys_fstat (r : regs) (k : kernel C M) : outcome result :=
  answer ← fs_fstat_fd (i32 (a0 r)) (stat_buffer (a1 r)) (k_fsys k);
  store_stat (a1 r) answer k.

(** [src/syscall/syscall_impl.c:72-75] sys_lseek *)
Definition sys_lseek (r : regs) (k : kernel C M) : outcome result :=
  on_fs (fs_lseek_fd (i32 (a0 r)) (i64 (a1 r)) (i32 (a2 r))) k.

(** Update of the current task's entry. *)
Definition upd_current_task (f : task -> task) (k : kernel C M) : outcome (kernel C M) :=
  let tasks := w_tasks (k_world k) in
  tasks ← upd_task (g_current_index tasks) f tasks; Val (put_tasks tasks k).
Definition the_current (k : kernel C M) : outcome task := task_current (w_tasks (k_world k)).

(** [src/syscall/syscall_impl.c:77-82] sys_mmap *)
Definition sys_mmap (r : regs) (k : kernel C M) : outcome result :=
  t ← the_current k;
  let '(region, mm) := vmm_reserve_range (Some (t_mm t)) (a1 r) (i32 (a2 r)) in
  k ← upd_current_task (set_mm (default (t_mm t) mm)) k;
  ok (if decide (region <> 0) then i64 region else - ENOMEM) k.

(** [src/syscall/syscall_impl.c:84-87] sys_mprotect *)
Definition sys_mprotect (r : regs) (k : kernel C M) : outcome result := ok 0 k.

(** [src/syscall/syscall_impl.c:89-92] sys_munmap *)
Definition sys_munmap (r : regs) (k : kernel C M) : outcome result :=
  t ← the_current k; ok (vmm_unmap (Some (t_mm t)) (a0 r) (a1 r)) k.

(** [src/syscall/syscall_impl.c:94-105] sys_brk *)
Definition sys_brk (r : regs) (k : kernel C M) : outcome result :=
  t ← the_current k;
  let mm := t_mm t in
  if decide (a0 r = 0) then ok (i64 (brk_current mm)) k
  else if decide (a0 r < brk_base mm) then ok (i64 (brk_current mm)) k
  else
    k ← upd_current_task (set_mm (AddressSpace (brk_base mm) (a0 r) (next_mmap_base mm))) k;
    ok (i64 (a0 r)) k.

(** [src/syscall/syscall_impl.c:107-110] sys_rt_sigaction *)
Definition sys_rt_sigaction (r : regs) (k : kernel C M) : outcome result := ok 0 k.

(** [src/syscall/syscall_impl.c:112-115] sys_signal *)
Definition sys_signal (r : regs) (k : kernel C M) : outcome result :=
  ok (if decide (a0 r < 32) then 0 else - EINVAL) k.

(** [src/syscall/syscall_impl.c:117-120] sys_ioctl *)
Definition sys_ioctl (r : regs) (k : kernel C M) : outcome result := ok 0 k.

(** [src/syscall/syscall_impl.c:122-125] sys_sched_yield *)
Definition sys_sched_yield (r : regs) (k : kernel C M) : outcome result := ok 0 k.

(** [src/syscall/syscall_impl.c:132-135] sys_nanosleep, the ticks to sleep; the
    signed product is the wrapped one compilers produce *)
Definition sleep_ticks (tv_sec tv_nsec : Z) : Z :=
  let ticks := u64 (u64 (tv_sec * MGCORE_HZ) + u64 (Z.quot tv_nsec (Z.quot 1000000000 MGCORE_HZ))) in
  if decide (ticks = 0) then 1 else ticks.

(** [src/syscall/syscall_impl.c:127-139] sys_nanosleep *)
Definition sys_nanosleep (r : regs) (k : kernel C M) : outcome result :=
  ticks ← (if decide (a0 r = 0) then Val 1
           else
             sec ← le_load (k_mem k) (a0 r) 8;
             nsec ← le_load (k_mem k) (a0 r + 8) 8;
             Val (sleep_ticks (i64 sec) (i64 nsec)));
  tasks ← task_sleep_until (u64 (scheduler_uptime_ticks (k_world k) + ticks)) (w_tasks (k_world k));
  ok 0 (put_tasks tasks k).

(** [src/syscall/syscall_impl.c:141-144] sys_getpid *)
Definition sys_getpid (r : regs) (k : kernel C M) : outcome result :=
  pid ← task_current_pid (w_tasks (k_world k)); ok pid k.

(** [src/syscall/syscall_impl.c:146-151] sys_fork *)
Definition sys_fork (r : regs) (k : kernel C M) : outcome result :=
  t ← the_current k;
  '(child, tasks) ← task_spawn_user (cstr (t_name t)) (w_tasks (k_world k));
  let k := put_tasks tasks k in
  match child with
  | None => ok (- ENOMEM) k
  | Some i => c ← aget (g_tasks tasks) i; ok (t_pid c) k
  end.

(** [src/syscall/syscall_impl.c:153-163] sys_execve *)
Definition sys_execve (r : regs) (k : kernel C M) : outcome result :=
  '(status, image, s, h) ← elf_probe_path (path_at (a0 r) k) (k_fsys k) (k_heap k);
  let k := put_heap h (put_fsys s k) in
  if decide (status < 0) then ok status k
  else
    path ← string_at (a0 r) k;
    w ← print (console_printf (str "execve: %s entry=%p" ++ [10])
                 [VaStr path; VaWord (img_entry (default (Image 0 0) image))]) (k_world k);
    ok 0 (put_world w k).

(** [src/syscall/syscall_impl.c:165-169] sys_exit *)
Definition sys_exit (r : regs) (k : kernel C M) : outcome result :=
  tasks ← task_exit (i32 (a0 r)) (w_tasks (k_world k)); ok 0 (put_tasks tasks k).

(** [src/syscall/syscall_impl.c:174-182] sys_wait4, the loop; [n] pids from [i] on
    are left *)
Fixpoint wait_loop (n : nat) (i : Z) (status_ptr current_pid : Z) (k : kernel C M) : outcome result :=
  match n with
  | O => ok (- ECHILD) k
  | S n =>
      let tasks := w_tasks (k_world k) in
      match task_find i tasks with
      | None => wait_loop n (i + 1) status_ptr current_pid k
      | Some j =>
          t ← aget (g_tasks tasks) j;
          if decide (t_ppid t = current_pid /\ t_state t = TASK_ZOMBIE) then
            k ← (if decide (status_ptr <> 0) then store status_ptr (le_bytes 4 (u32 (exit_code t * 256))) k
                 else Val k);
            ok (t_pid t) k
          else wait_loop n (i + 1) status_ptr current_pid k
      end
  end.

(** [src/syscall/syscall_impl.c:171-184] sys_wait4 *)
Definition sys_wait4 (r : regs) (k : kernel C M) : outcome result :=
  pid ← task_current_pid (w_tasks (k_world k));
  wait_loop (MGCORE_MAX_TASKS - 1) 1 (a1 r) pid k.

(** [src/syscall/syscall_impl.c:186-189] sys_kill *)
Definition sys_kill (r : regs) (k : kernel C M) : outcome result :=
  ok (signal_send (i32 (a0 r)) (i32 (a1 r)) (w_tasks (k_world k))) k.

(** [src/syscall/syscall_impl.c:15-26] copy_uname *)
Definition copy_uname (name : Z) (k : kernel C M) : outcome result :=
  if decide (name = 0) then ok (- EFAULT) k
  else k ← store name uts_bytes k; ok 0 k.

(** [src/syscall/syscall_impl.c:191-194] sys_uname *)
Definition sys_uname (r : regs) (k : kernel C M) : outcome result := copy_uname (a0 r) k.

(** [src/syscall/syscall_impl.c:196-205] sys_getcwd *)
Definition sys_getcwd (r : regs) (k : kernel C M) : outcome result :=
  cwd ← fs_getcwd (k_fsys k);
  let length := Z.of_nat (length (cstr cwd)) + 1 in
  if decide (a0 r = 0 \/ a1 r < length) then ok (- EINVAL) k
  else
    bs ← aread cwd 0 length;
    k ← store (a0 r) bs k;
    ok (i64 (a0 r)) k.

(** [src/syscall/syscall_impl.c:207-210] sys_chdir *)
Definition sys_chdir (r : regs) (k : kernel C M) : outcome result := on_fs (fs_chdir_path (path_at (a0 r) k)) k.
(** [src/syscall/syscall_impl.c:212-215] sys_mkdir *)
Definition sys_mkdir (r : regs) (k : kernel C M) : outcome result :=
  on_fs (fs_mkdir_path (path_at (a0 r) k) (u32 (a1 r))) k.
(** [src/syscall/syscall_impl.c:217-220] sys_rmdir *)
Definition sys_rmdir (r : regs) (k : kernel C M) : outcome result := on_fs (fs_rmdir_path (path_at (a0 r) k)) k.
(** [src/syscall/syscall_impl.c:222-225] sys_unlink *)
Definition sys_unlink (r : regs) (k : kernel C M) : outcome result := on_fs (fs_unlink_path (path_at (a0 r) k)) k.

(** [src/syscall/syscall_impl.c:227-237] sys_gettimeofday *)
Definition sys_gettimeofday (r : regs) (k : kernel C M) : outcome result :=
  let ms := scheduler_uptime_ms (k_world k) in
  if decide (a0 r = 0) then ok (- EFAULT) k
  else k ← store (a0 r) (timeval_bytes (ms / 1000) (u64 (ms mod 1000 * 1000))) k; ok 0 k.

(** [src/syscall/syscall_impl.c:239-243] sys_reboot *)
Definition sys_reboot (r : regs) (k : kernel C M) : outcome result :=
  w ← print (console_writeln (str "reboot: requested") []) (k_world k);
  match kernel_reboot w with
  | Running w => Val (Running (0, put_world w k))
  | Halted w => Val (Halted (0, put_world w k))
  | Rebooted w => Val (Rebooted (0, put_world w k))
  end.

(** [src/syscall/syscall_impl.c:28-32] UNIMPLEMENTED; lines 245-266 define twenty-two
    such calls, none of which is in the table *)
Definition unimplemented (r : regs) (k : kernel C M) : outcome result := ok (- ENOSYS) k.

(** ** The table *)

Definition handler : Type := regs -> kernel C M -> outcome result.

(** [src/syscall/unistd.h:59-59] MGCORE_SYSCALL_MAX *)
Definition MGCORE_SYSCALL_MAX : nat := 512.

(** [src/syscall/syscall_table.c:39-71] g_syscall_table, its designated initialisers *)
Definition syscall_entries : list (Z * handler) :=
  [ (__NR_read, sys_read); (__NR_write, sys_write); (__NR_open, sys_open); (__NR_close, sys_close);
    (__NR_stat, sys_stat); (__NR_fstat, sys_fstat); (__NR_lseek, sys_lseek); (__NR_mmap, sys_mmap);
    (__NR_mprotect, sys_mprotect); (__NR_munmap, sys_munmap); (__NR_brk, sys_brk);
    (__NR_rt_sigaction, sys_rt_sigaction); (__NR_ioctl, sys_ioctl); (__NR_sched_yield, sys_sched_yield);
    (__NR_nanosleep, sys_nanosleep); (__NR_getpid, sys_getpid); (__NR_signal, sys_signal);
    (__NR_fork, sys_fork); (__NR_execve, sys_execve); (__NR_exit, sys_exit); (__NR_wait4, sys_wait4);
    (__NR_kill, sys_kill); (__NR_uname, sys_uname); (__NR_getcwd, sys_getcwd); (__NR_chdir, sys_chdir);
    (__NR_mkdir, sys_mkdir); (__NR_rmdir, sys_rmdir); (__NR_unlink, sys_unlink);
    (__NR_gettimeofday, sys_gettimeofday); (__NR_reboot, sys_reboot); (__NR_openat, sys_openat) ].

Fixpoint init_entries (entries : list (Z * handler)) (table : list (option handler)) : list (option handler) :=
  match entries with
  | [] => table
  | (nr, h) :: entries => init_entries entries (<[Z.to_nat nr := Some h]> table)
  end.

(** [src/syscall/syscall_table.c:39-71] g_syscall_table *)
Definition g_syscall_table : list (option handler) :=
  init_entries syscall_entries (replicate MGCORE_SYSCALL_MAX None).

(** [src/syscall/syscall_table.c:73-73] g_syscall_table_count *)
Definition g_syscall_table_count : Z := Z.of_nat (length g_syscall_table).

(** [src/kernel/syscall.c:15-20] syscall_dispatch *)
Definition syscall_dispatch (nr : Z) (r : regs) (k : kernel C M) : outcome result :=
  if decide (nr >= g_syscall_table_count) then ok (- ENOSYS) k
  else
    entry ← aget g_syscall_table nr;
    match entry with
    | None => ok (- ENOSYS) k
    | Some h => h r k
    end.

(** ** Switching the calls on *)

(** [src/kernel/syscall_arch.c:7-11] write_msr: the register, eax and edx *)
Definition write_msr (msr value : Z) : Z * Z * Z := (msr, u32 value, u32 (Z.shiftr value 32)).

(** [src/kernel/syscall_arch.c:13-19] syscall_arch_init; [syscall_entry] is the address
    of the assembly entry point *)
Definition syscall_arch_init (syscall_entry : Z) : list (Z * Z * Z) :=
  let star := Z.lor (Z.shiftl 0x18 48) (Z.shiftl 0x08 32) in
  [write_msr 0xC0000081 star; write_msr 0xC0000082 syscall_entry;
   write_msr 0xC0000084 0x200; write_msr 0xC0000080 0x1].

(** [src/kernel/syscall.c:10-13] syscall_init *)
Definition syscall_init (syscall_entry : Z) (w : world C M) : outcome (list (Z * Z * Z) * world C M) :=
  w ← print (console_printf (str "syscall: table ready (%u entries)" ++ [10])
               [VaWord (u32 g_syscall_table_count)]) w;
  Val (syscall_arch_init syscall_entry, w).

End Syscall.

(** * Dispatch *)

Section Dispatch.
Context {C : Type} `{Terminal C} {M : Type} `{Ports M}.
Implicit Types k : kernel C M.

Lemma init_entries_length entries : forall table : list (option (@handler C M)),
  length (init_entries entries table) = length table.
Proof. induction entries as [|[nr h] entries IH]; intros table; cbn [init_entries]; [done|]. by rewrite IH, length_insert. Qed.

Lemma init_entries_lookup entries : forall (table : list (option (@handler C M))) n,
  (forall nr h, (nr, h) ∈ entries -> 0 <= nr < Z.of_nat (length table)) -> NoDup (entries.*1) ->
  init_entries entries table !! n
  = match list_find (fun e => e.1 = Z.of_nat n) entries with
    | Some (_, (_, h)) => Some (Some h)
    | None => table !! n
    end.
Proof.
  induction entries as [|[nr h] entries IH]; intros table n Hr Hd; cbn [init_entries list_find]; [done|].
  inversion_clear Hd as [|? ? Hnin Hd']. assert (0 <= nr < Z.of_nat (length table)) as Hnr by (eapply Hr; left).
  rewrite IH; [| |done].
  2: { intros nr' h' Hin. rewrite length_insert. eapply Hr. by right. }
  cbn [fst]. destruct (decide (nr = Z.of_nat n)) as [->|Hne].
  - destruct (list_find _ entries) as [[j [nr' h']]|] eqn:Hfind; cbn.
    + apply list_find_Some in Hfind as (Hj & Heq & _). cbn in Heq. subst nr'. exfalso. apply Hnin.
      apply list_elem_of_fmap. exists (Z.of_nat n, h'). split; [done|]. by eapply list_elem_of_lookup_2.
    + rewrite Nat2Z.id. apply list_lookup_insert_eq. lia.
  - destruct (list_find _ entries) as [[j [nr' h']]|] eqn:Hfind; cbn; [done|].
    rewrite list_lookup_insert_ne; [done|lia].
Qed.

Lemma entries_range nr (h : @handler C M) : (nr, h) ∈ syscall_entries -> 0 <= nr < 512.
Proof.
  intros Hin. assert (Forall (fun e : Z * @handler C M => 0 <= e.1 < 512) syscall_entries) as Hall.
  { apply (bool_decide_eq_true_1 _). vm_compute. reflexivity. }
  rewrite Forall_forall in Hall. by apply (Hall (nr, h)).
Qed.

Lemma entries_distinct : NoDup ((@syscall_entries C _ M _).*1).
Proof. apply (bool_decide_eq_true_1 _). vm_compute. reflexivity. Qed.

(** The kernel's numbers are those with a handler, those of the calls that are only
    stubs, and rt_sigprocmask, which has neither; every number the C library uses
    has a handler. *)
Lemma numbers_partition :
  Forall (fun nr => nr ∈ (@syscall_entries C _ M _).*1 \/ nr ∈ unimplemented_numbers \/ nr = __NR_rt_sigprocmask)
    kernel_numbers
  /\ Forall (fun nr => nr ∉ (@syscall_entries C _ M _).*1) (__NR_rt_sigprocmask :: unimplemented_numbers)
  /\ Forall (fun nr => nr ∈ (@syscall_entries C _ M _).*1) libc_numbers.
Proof. split_and!; apply (bool_decide_eq_true_1 _); vm_compute; reflexivity. Qed.

Lemma dispatch_unknown nr r k :
  0 <= nr -> (forall h, (nr, h) ∉ syscall_entries) -> syscall_dispatch nr r k = ok (- ENOSYS) k.
Proof.
  intros Hnr Hno. unfold syscall_dispatch, g_syscall_table_count. case_decide as Hb; [done|].
  assert (g_syscall_table !! Z.to_nat nr = Some None) as Hl.
  { unfold g_syscall_table in *. rewrite init_entries_length in Hb. rewrite init_entries_lookup.
    - destruct (list_find _ _) as [[j [nr' h]]|] eqn:Hf.
      + apply list_find_Some in Hf as (Hj & He & _). cbn in He. rewrite Z2Nat.id in He by done. subst nr'.
        exfalso. eapply Hno. by eapply list_elem_of_lookup_2.
      + apply lookup_replicate. rewrite length_replicate in Hb. split; [done|lia].
    - intros nr' h Hin%entries_range. rewrite length_replicate. unfold MGCORE_SYSCALL_MAX. lia.
    - apply entries_distinct. }
  by rewrite (aget_Some _ _ _ Hnr Hl).
Qed.

Lemma dispatch_known nr (h : @handler C M) r k : (nr, h) ∈ syscall_entries -> syscall_dispatch nr r k = h r k.
Proof.
  intros Hin. pose proof (entries_range nr h Hin) as Hr. unfold syscall_dispatch, g_syscall_table_count, g_syscall_table.
  rewrite init_entries_length, length_replicate. rewrite decide_False by (unfold MGCORE_SYSCALL_MAX; lia).
  assert (init_entries syscall_entries (replicate MGCORE_SYSCALL_MAX None) !! Z.to_nat nr = Some (Some h)) as Hl.
  { rewrite init_entries_lookup.
    - destruct (list_find _ _) as [[j [nr' h']]|] eqn:Hf.
      + apply list_find_Some in Hf as (Hj & He & _). cbn in He. rewrite Z2Nat.id in He by lia. subst nr'.
        apply list_elem_of_lookup in Hin as [j' Hj'].
        assert (j = j') as <-; [|congruence]. eapply NoDup_lookup; [exact entries_distinct|..];
          rewrite list_lookup_fmap; [rewrite Hj|rewrite Hj']; done.
      + eapply list_find_None in Hf. rewrite Forall_forall in Hf. apply Hf in Hin. cbn in Hin. lia.
    - intros nr' h' Hin'%entries_range. rewrite length_replicate. unfold MGCORE_SYSCALL_MAX. lia.
    - apply entries_distinct. }
  by rewrite (aget_Some _ _ _ (proj1 Hr) Hl).
Qed.

Lemma dispatch_cases nr r k : 0 <= nr ->
  (exists h, (nr, h) ∈ syscall_entries /\ syscall_dispatch nr r k = h r k)
  \/ syscall_dispatch nr r k = ok (- ENOSYS) k.
Proof.
  intros Hnr. destruct (decide (nr ∈ (@syscall_entries C _ M _).*1)) as [Hin|Hno].
  - left. apply list_elem_of_fmap in Hin as ([nr' h] & -> & Hin). exists h. split; [done|]. by apply dispatch_known.
  - right. apply dispatch_unknown; [done|]. intros h Hin. apply Hno. apply list_elem_of_fmap. by exists (nr, h).
Qed.

(** C22 Dispatch by number: a number with an entry in the table runs exactly that
    handler on the registers; every other number, those beyond the table and those
    whose calls are defined but not entered included, answers -ENOSYS and changes
    nothing. *)
Theorem syscall_dispatch_by_number (nr : Z) (r : regs) k :
  0 <= nr ->
  match list_find (fun e => e.1 = nr) syscall_entries with
  | Some (_, (_, h)) => syscall_dispatch nr r k = h r k
  | None => syscall_dispatch nr r k = ok (- ENOSYS) k
  end.
Proof.
  intros Hnr. destruct (list_find _ _) as [[j [nr' h]]|] eqn:Hf.
  - apply list_find_Some in Hf as (Hj & He & _). cbn in He. subst nr'. apply dispatch_known. by eapply list_elem_of_lookup_2.
  - apply dispatch_unknown; [done|]. intros h Hin. eapply list_find_None in Hf. rewrite Forall_forall in Hf.
    by apply (Hf _ Hin).
Qed.

End Dispatch.

Import Transcript Bench.

(** A machine before anything was set up. *)
Definition cold_kernel : kernel transcript bench :=
  Kernel (Tmpfs [] ∅ 0) [] (Heap [] 0) [] (World (Sched 0 0 0 0) 0 static_tasks (Pmm [] 0 0) false (Script [] []) (Machine [] [])).

Lemma syscall_dispatch_by_number_witness :
  syscall_dispatch 63 (Regs 0 0 0 0 0 0) cold_kernel = sys_uname (Regs 0 0 0 0 0 0) cold_kernel.
Proof. exact (syscall_dispatch_by_number 63 (Regs 0 0 0 0 0 0) cold_kernel ltac:(discriminate)). Defined.
