(* ===== verification/SyscallSpec.v ===== *)
(** What the system calls of [Syscall.v] do: the kernel invariant they keep, the
    dispatch by number, waiting for children, the working directory. *)

From Stdlib Require Import ZArith Lia Ascii.
From stdpp Require Import base gmap list strings.
From S2P Require Import Prelude KString Util Vmm Terminal Ports Task Sched Tmpfs TmpfsPath TmpfsTree TmpfsData Fs FsPath FsFile Elf Syscall.
Open Scope Z_scope.

Section Spec.
Context {C : Type} `{TerminalLaws C} {M : Type} `{Ports M}.
Implicit Types k : kernel C M.

(** * The invariant *)

Record kernel_wf k : Prop := {
  kw_fsys : fsys_wf (k_fsys k);
  kw_heap : heap_wf (k_heap k);
}.

Lemma fsys_put (s : fsys C) k : k_fsys (put_fsys s k) = s.
Proof. by destruct s. Qed.

Lemma put_fsys_wf (s : fsys C) k : kernel_wf k -> fsys_wf s -> kernel_wf (put_fsys s k).
Proof. intros [_ Hh] Hs. split; [by rewrite fsys_put|done]. Qed.

Lemma put_mem_wf m k : kernel_wf k -> kernel_wf (put_mem m k).
Proof. by intros []. Qed.

Lemma put_tasks_fsys tt k : k_fsys (put_tasks tt k) = with_fs_tasks tt (k_fsys k).
Proof. done. Qed.

(** The answer of a call that completed in a well-formed state. *)
Definition completes (o : outcome (@result C M)) : Prop :=
  exists p, o = Val p /\ kernel_wf (power_state p).2.

Lemma completes_ok r k : kernel_wf k -> completes (ok r k).
Proof. intros Hk. exists (Running (r, k)). by split. Qed.

Lemma completes_fs f k :
  kernel_wf k -> (exists r s', f (k_fsys k) = Val (r, s') /\ fsys_wf s') -> completes (on_fs f k).
Proof.
  intros Hk (r & s' & Hf & Hs'). unfold on_fs. rewrite Hf. cbn [mbind outcome_bind].
  apply completes_ok. by apply put_fsys_wf.
Qed.

(** * User memory *)

Definition in_mem (p n : Z) k : Prop := 0 <= p /\ 0 <= n /\ p + n <= Z.of_nat (length (k_mem k)).
(** A buffer of [n] bytes; an empty one may be anywhere. *)
Definition buffer_ok (p n : Z) k : Prop := n = 0 \/ in_mem p n k.
(** A structure of [n] bytes, or the null pointer. *)
Definition struct_ok (p n : Z) k : Prop := p = 0 \/ in_mem p n k.

(** The pointer addresses the string [path], a null pointer the empty one. *)
Definition names (p : Z) (path : list Z) k : Prop :=
  no_nul path /\
  match path_at p k with
  | None => path = []
  | Some bytes => exists more, bytes = path ++ 0 :: more
  end.

Lemma mem_at_length p n k : in_mem p n k -> n <= Z.of_nat (length (mem_at p (k_mem k))).
Proof. intros (H1' & H2' & H3'). unfold mem_at. case_decide; [rewrite length_drop; lia|simpl; lia]. Qed.

Lemma buffer_length p n k : buffer_ok p n k -> 0 <= n <= Z.of_nat (length (mem_at p (k_mem k))).
Proof. intros [-> |Hb]; [lia|]. split; [by destruct Hb as (_ & ? & _)|by apply mem_at_length]. Qed.

Lemma mem_store_wf p bs k : kernel_wf k -> in_mem p (Z.of_nat (length bs)) k ->
  exists m, store p bs k = Val (put_mem m k) /\ kernel_wf (put_mem m k).
Proof.
  intros Hk (H1' & H2' & H3'). unfold store. rewrite awrite_in_range by lia. cbn [mbind outcome_bind].
  eexists. split; [done|]. by apply put_mem_wf.
Qed.

Lemma completes_store p bs r k : kernel_wf k -> in_mem p (Z.of_nat (length bs)) k ->
  completes (k ← store p bs k; ok r k).
Proof.
  intros Hk Hp. destruct (mem_store_wf p bs k Hk Hp) as (m & -> & Hk'). cbn [mbind outcome_bind]. by apply completes_ok.
Qed.

Lemma struct_in_mem p n k : struct_ok p n k -> p <> 0 -> in_mem p n k.
Proof. by intros [-> |?] ?. Qed.

(** A path argument is a path the file system's lemmas are about: a null pointer
    resolves like an empty string. *)
Lemma path_arg p path k : names p path k ->
  exists more, forall s : fsys C, resolved_path (path_at p k) s = resolved_path (Some (path ++ 0 :: more)) s.
Proof.
  intros [_ Hm]. destruct (path_at p k) as [bytes|]; [destruct Hm as [more ->]; by exists more|]. subst path. by exists [].
Qed.

(** * The invariant is kept *)

Lemma names_string p path k : names p path k -> exists o, string_at p k = Val o
  /\ forall s, o = Some s -> s = path.
Proof.
  intros [Hn Hm]. unfold string_at, path_at in *. case_decide as Hp; [by eexists|]. destruct Hm as [more Hm]. rewrite Hm.
  rewrite decide_True by set_solver. eexists. split; [done|]. intros s [= <-]. by apply cstr_app_nul.
Qed.

Lemma read_completes r k : kernel_wf k -> buffer_ok (a1 r) (a2 r) k -> completes (sys_read r k).
Proof.
  intros Hk Hb%buffer_length. unfold sys_read.
  destruct (read_keeps_wf (k_fsys k) (i32 (a0 r)) _ _ (kw_fsys _ Hk) Hb) as (n & b & s' & -> & Hs').
  cbn [mbind outcome_bind]. by apply completes_ok, put_mem_wf, put_fsys_wf.
Qed.

Lemma write_completes r k :
  kernel_wf k -> buffer_ok (a1 r) (a2 r) k -> Forall in_u8 (k_mem k) ->
  write_fits (k_fsys k) (i32 (a0 r)) (a2 r) -> completes (sys_write r k).
Proof.
  intros Hk Hb%buffer_length Hm Hf. apply completes_fs; [done|]. apply write_keeps_fsys_wf; [by apply kw_fsys| |done|done].
  unfold mem_at. case_decide; [by apply Forall_drop|constructor].
Qed.

(** The path calls, whose null argument is the empty path. *)
Lemma open_completes p path flags mode k :
  kernel_wf k -> names p path k ->
  completes (on_fs (fs_open_path (path_at p k) flags mode) k)
  \/ on_fs (fs_open_path (path_at p k) flags mode) k = Stop Oob /\ path_overlong (k_fsys k) path.
Proof.
  intros Hk Hn. destruct (path_arg p path k Hn) as [more Hp].
  assert (fs_open_path (path_at p k) flags mode (k_fsys k) = fs_open_path (Some (path ++ 0 :: more)) flags mode (k_fsys k)) as He.
  { unfold fs_open_path. by rewrite Hp. }
  destruct (open_keeps_wf (k_fsys k) path more flags mode (kw_fsys _ Hk) (proj1 Hn)) as [Ho|(Ho & Hov & _)].
  - left. apply completes_fs; [done|]. by rewrite He.
  - right. unfold on_fs. by rewrite He, Ho.
Qed.

Lemma mkdir_completes p path mode k :
  kernel_wf k -> names p path k ->
  completes (on_fs (fs_mkdir_path (path_at p k) mode) k)
  \/ on_fs (fs_mkdir_path (path_at p k) mode) k = Stop Oob /\ path_overlong (k_fsys k) path.
Proof.
  intros Hk Hn. destruct (path_arg p path k Hn) as [more Hp].
  assert (fs_mkdir_path (path_at p k) mode (k_fsys k) = fs_mkdir_path (Some (path ++ 0 :: more)) mode (k_fsys k)) as He.
  { unfold fs_mkdir_path. by rewrite Hp. }
  destruct (mkdir_keeps_wf (k_fsys k) path more mode (kw_fsys _ Hk) (proj1 Hn)) as [Ho|[Ho Hov]].
  - left. apply completes_fs; [done|]. by rewrite He.
  - right. unfold on_fs. by rewrite He, Ho.
Qed.

Lemma remove_completes p path k :
  kernel_wf k -> names p path k ->
  completes (on_fs (fs_rmdir_path (path_at p k)) k) /\ completes (on_fs (fs_unlink_path (path_at p k)) k).
Proof.
  intros Hk Hn. destruct (path_arg p path k Hn) as [more Hp]. split; apply completes_fs; try done;
    unfold fs_rmdir_path, fs_unlink_path; rewrite Hp; by apply remove_path_keeps_wf; [apply kw_fsys|apply Hn].
Qed.

Lemma chdir_completes p path k : kernel_wf k -> names p path k -> completes (on_fs (fs_chdir_path (path_at p k)) k).
Proof.
  intros Hk Hn. destruct (path_arg p path k Hn) as [more Hp]. pose proof (kw_fsys _ Hk) as Hs. apply completes_fs; [done|].
  assert (fs_chdir_path (path_at p k) (k_fsys k) = fs_chdir_path (Some (path ++ 0 :: more)) (k_fsys k)) as ->.
  { unfold fs_chdir_path. by rewrite Hp. }
  destruct (current_task (k_fsys k) Hs) as (t & Hcur & _).
  destruct (chdir_spec (k_fsys k) path more t Hs Hcur (proj1 Hn)) as [(e & -> & _)|(id & n & cwd & _ & _ & _ & -> & Hl & Hc)].
  - by eexists _, _.
  - eexists _, _. split; [done|]. eapply chdir_wf; eauto. apply Hn.
Qed.

(** ** Calls that change the caller's own entry *)

Lemma current_entry k : kernel_wf k -> exists t, the_current k = Val t
  /\ g_tasks (w_tasks (k_world k)) !! Z.to_nat (g_current_index (w_tasks (k_world k))) = Some t
  /\ cwd_ok (t_cwd t).
Proof.
  intros Hk. destruct (current_task (k_fsys k) (kw_fsys _ Hk)) as (t & Hc & Ht & Hcwd & _). by exists t.
Qed.

(** Changes that leave descriptors and directory alone. *)
Record own_change (f : task -> task) : Prop := {
  oc_pid t : t_pid (f t) = t_pid t;
  oc_name t : t_name (f t) = t_name t;
  oc_fds t : t_fds (f t) = t_fds t;
  oc_cwd t : t_cwd (f t) = t_cwd t;
  oc_state t : t_state (f t) = t_state t \/ t_state (f t) = TASK_ZOMBIE \/ t_state (f t) = TASK_SLEEPING;
}.

Lemma own_change_wf f k t : own_change f -> kernel_wf k -> the_current k = Val t ->
  let tt := w_tasks (k_world k) in
  exists tt', upd_task (g_current_index tt) f tt = Val tt' /\ kernel_wf (put_tasks tt' k)
    /\ tt' = with_tasks (<[Z.to_nat (g_current_index tt) := f t]> (g_tasks tt)) tt.
Proof.
  intros [Hpid Hname Hfds Hcwd Hst] Hk Hc tt. destruct (current_entry k Hk) as (t' & Hc' & Ht & Hok).
  rewrite Hc in Hc'. injection Hc' as <-. fold tt in Ht. pose proof (sw_tasks _ (kw_fsys _ Hk)) as Hwf.
  change (fs_tasks (k_fsys k)) with tt in Hwf. pose proof (wf_current _ Hwf) as Hcr.
  rewrite (upd_task_Val _ _ _ t) by (done || lia). eexists. split; [done|]. split; [|done].
  split; [|apply Hk]. rewrite put_tasks_fsys. destruct (wf_cur_state _ Hwf _ Ht) as [Hu Hr].
  assert (used (f t) /\ t_state (f t) <> TASK_RUNNABLE) as [Hu' Hr'].
  { unfold used in *. destruct (Hst t) as [-> |[-> | ->]]; done. }
  apply with_tasks_wf; [apply Hk|eapply replace_wf; eauto; [lia|]|].
  - intros [E1 E2 E3]. split; by rewrite ?Hname, ?Hcwd, ?Hfds.
  - intros i t1 Hi. cbn in Hi. change (fs_tasks (k_fsys k)) with tt.
    apply list_lookup_insert_Some in Hi as [(<- & <- & _)|[_ Hi]].
    + exists t. split; [done|]. rewrite Hcwd. by split.
    + exists t1. split; [done|]. split; [done|]. intros Hu1. by apply (sw_cwd _ (kw_fsys _ Hk) i).
Qed.

Lemma own_mm mm : own_change (set_mm mm).
Proof. by split; auto. Qed.
Lemma own_zombie status : own_change (fun t => set_exit_code status (set_state TASK_ZOMBIE t)).
Proof. by split; auto. Qed.
Lemma own_sleep tick : own_change (fun t => set_wakeup_tick tick (set_state TASK_SLEEPING t)).
Proof. by split; auto. Qed.

Lemma upd_current_completes f k r : own_change f -> kernel_wf k -> completes (k ← upd_current_task f k; ok r k).
Proof.
  intros Hf Hk. destruct (current_entry k Hk) as (t & Hc & _).
  destruct (own_change_wf f k t Hf Hk Hc) as (tt' & Hu & Hk' & _). unfold upd_current_task. rewrite Hu.
  cbn [mbind outcome_bind]. by apply completes_ok.
Qed.

Lemma mmap_completes r k : kernel_wf k -> completes (sys_mmap r k).
Proof.
  intros Hk. destruct (current_entry k Hk) as (t & Hc & _). unfold sys_mmap. rewrite Hc. cbn [mbind outcome_bind].
  destruct (vmm_reserve_range _ _ _) as [region mm]. by apply upd_current_completes; [apply own_mm|].
Qed.

Lemma brk_completes r k : kernel_wf k -> completes (sys_brk r k).
Proof.
  intros Hk. destruct (current_entry k Hk) as (t & Hc & _). unfold sys_brk. rewrite Hc. cbn [mbind outcome_bind].
  do 2 (case_decide; [by apply completes_ok|]). by apply upd_current_completes; [apply own_mm|].
Qed.

Lemma exit_completes r k : kernel_wf k -> completes (sys_exit r k).
Proof.
  intros Hk. destruct (current_entry k Hk) as (t & Hc & _). unfold sys_exit, task_exit.
  destruct (own_change_wf _ k t (own_zombie (i32 (a0 r))) Hk Hc) as (tt' & -> & Hk' & _).
  cbn [mbind outcome_bind]. by apply completes_ok.
Qed.

Lemma load_in_mem p n off size k : in_mem p n k -> 0 <= off -> 0 <= size -> off + size <= n ->
  exists v, le_load (k_mem k) (p + off) size = Val v.
Proof. intros (H1' & H2' & H3') ???. unfold le_load. rewrite aread_in_range by lia. by eexists. Qed.

Lemma nanosleep_completes r k : kernel_wf k -> struct_ok (a0 r) 16 k -> completes (sys_nanosleep r k).
Proof.
  intros Hk Hp. destruct (current_entry k Hk) as (t & Hc & _). unfold sys_nanosleep, task_sleep_until.
  assert (forall ticks, completes
    (tasks ← upd_task (g_current_index (w_tasks (k_world k)))
       (fun t => set_wakeup_tick (u64 (scheduler_uptime_ticks (k_world k) + ticks)) (set_state TASK_SLEEPING t))
       (w_tasks (k_world k)); ok 0 (put_tasks tasks k))) as Hsleep.
  { intros ticks. set (tick := u64 _).
    destruct (own_change_wf _ k t (own_sleep tick) Hk Hc) as (tt' & -> & Hk' & _).
    cbn [mbind outcome_bind]. by apply completes_ok. }
  case_decide as Hz; [apply Hsleep|]. apply struct_in_mem in Hp; [|done].
  destruct (load_in_mem _ _ 0 8 k Hp) as [sec Hsec]; [lia..|]. rewrite Z.add_0_r in Hsec. rewrite Hsec.
  destruct (load_in_mem _ _ 8 8 k Hp) as [nsec Hnsec]; [lia..|]. cbn [mbind outcome_bind]. rewrite Hnsec.
  cbn [mbind outcome_bind]. apply Hsleep.
Qed.

(** ** fork *)

Lemma fill_entry_fields pid name state t t' :
  fill_entry pid name state t = Val t' ->
  t_fds t' = t_fds t /\ vstrcpy (t_cwd t) (str "/") = Val (t_cwd t').
Proof.
  intros Hf. apply bind_Val_inv in Hf as (n & _ & Hf). apply bind_Val_inv in Hf as (n' & _ & Hf).
  apply bind_Val_inv in Hf as (cwd & Hcwd & Hf). by inv_outcome.
Qed.

Lemma root_cwd_ok cwd cwd' : length cwd = 128%nat -> vstrcpy cwd (str "/") = Val cwd' -> cwd_ok cwd'.
Proof.
  intros Hl Hc. unfold vstrcpy in Hc. rewrite awrite_in_range in Hc by (simpl; lia). injection Hc as <-.
  assert (cstr (splice cwd (Z.to_nat 0) (str "/" ++ [0])) = str "/") as He by done.
  split; rewrite ?He; [|vm_compute; lia|done|done]. rewrite splice_length; [done|simpl; lia].
Qed.

(** The child's entry: descriptors untouched, the root as its directory. *)
Lemma spawn_entries name tt r tt' :
  tasks_wf tt -> task_spawn_user name tt = Val (r, tt') ->
  (forall i, r = Some i -> exists c, aget (g_tasks tt') i = Val c)
  /\ forall i t', g_tasks tt' !! i = Some t' -> exists t, g_tasks tt !! i = Some t /\ t_fds t' = t_fds t
       /\ (t' = t \/ cwd_ok (t_cwd t')).
Proof.
  intros Hwf Hs. apply bind_Val_inv in Hs as ([child tt1] & Ha & Hs). unfold task_alloc in Ha.
  destruct (first_index _ _ _) as [i|]; [|inv_outcome; split; [done|]; intros j t' Hj; exists t'; by auto].
  apply bind_Val_inv in Ha as (entry & He & Ha). apply bind_Val_inv in Ha as (entry' & Hf & Ha).
  apply bind_Val_inv in Ha as (ts & Hts & Ha). inv_outcome. apply aset_Val in Hts as [Hr ->].
  rename Ha0 into Hu. cbn in Hu. rewrite (upd_task_Val _ _ _ entry') in Hu by (lia || (cbn; apply list_lookup_insert_eq; lia)).
  injection Hu as <-. cbn [g_tasks with_tasks]. rewrite list_insert_insert_eq. split.
  - intros i' [= <-]. eexists. apply aget_Some; [lia|]. apply list_lookup_insert_eq. lia.
  - intros j t' Hj. apply list_lookup_insert_Some in Hj as [(<- & <- & _)|[_ Hj]]; [|exists t'; by auto].
    apply aget_Val in He as [_ He]. apply fill_entry_fields in Hf as [Hfd Hcwd].
    exists entry. split; [done|]. split; [done|]. right. eapply root_cwd_ok; [|exact Hcwd].
    pose proof (wf_entries _ Hwf) as Hall. by destruct (Forall_lookup_1 _ _ _ _ Hall He).
Qed.

Lemma spawn_wf name tt' r k : kernel_wf k -> task_spawn_user name (w_tasks (k_world k)) = Val (r, tt') ->
  kernel_wf (put_tasks tt' k).
Proof.
  intros Hk Hs. pose proof (sw_tasks _ (kw_fsys _ Hk)) as Hwf. change (fs_tasks (k_fsys k)) with (w_tasks (k_world k)) in Hwf.
  destruct (task_spawn_spec name _ Hwf) as (r' & tt2 & Hs' & Hwf' & _). rewrite Hs in Hs'. injection Hs' as <- <-.
  destruct (spawn_entries name _ r tt' Hwf Hs) as [_ He]. split; [|apply Hk].
  rewrite put_tasks_fsys. apply with_tasks_wf; [apply Hk|done|].
  intros i t' Hi. destruct (He i t' Hi) as (t & Ht & Hf & Hc). exists t. split; [done|]. split; [done|].
  intros Hu. destruct Hc as [-> |Hc]; [|done]. by apply (sw_cwd _ (kw_fsys _ Hk) i).
Qed.

Lemma fork_completes r k : kernel_wf k -> completes (sys_fork r k).
Proof.
  intros Hk. destruct (current_entry k Hk) as (t & Hc & _). unfold sys_fork. rewrite Hc. cbn [mbind outcome_bind].
  pose proof (sw_tasks _ (kw_fsys _ Hk)) as Hwf. change (fs_tasks (k_fsys k)) with (w_tasks (k_world k)) in Hwf.
  destruct (task_spawn_spec (cstr (t_name t)) _ Hwf) as (c & tt' & Hs & _). rewrite Hs. cbn [mbind outcome_bind].
  pose proof (spawn_wf _ tt' c k Hk Hs) as Hk'. destruct (spawn_entries _ _ c tt' Hwf Hs) as [Hget _].
  destruct c as [i|]; [|by apply completes_ok]. destruct (Hget i eq_refl) as [e ->]. cbn [mbind outcome_bind].
  by apply completes_ok.
Qed.

(** ** The calls that fill a structure *)

Lemma stat_bytes_length st : length (stat_bytes st) = 120%nat.
Proof. unfold stat_bytes. rewrite !length_app, !le_bytes_length. done. Qed.

Lemma store_stat_completes p answer k :
  kernel_wf k -> struct_ok p 120 k -> (answer.1 = 0 -> is_Some answer.2 -> p <> 0) -> completes (store_stat p answer k).
Proof.
  intros Hk Hp Hz. destruct answer as [r st]. unfold store_stat.
  destruct r, st; try (by apply completes_ok). apply completes_store; [done|]. rewrite stat_bytes_length.
  apply struct_in_mem; [done|]. by apply Hz.
Qed.

Lemma fill_stat_null node st : fill_stat_from_node node None = (0, st) -> False.
Proof. by destruct node. Qed.

Lemma stat_completes r path k :
  kernel_wf k -> names (a0 r) path k -> struct_ok (a1 r) 120 k -> completes (sys_stat r k).
Proof.
  intros Hk Hn Hp. destruct (path_arg _ path k Hn) as [more Hres]. pose proof (kw_fsys _ Hk) as Hs.
  unfold sys_stat, fs_stat_path. rewrite Hres. destruct (current_task (k_fsys k) Hs) as (t & Hcur & _ & Hcwd & _).
  rewrite (resolved_path_spec (k_fsys k) path more t) by (done || apply Hn). cbn [mbind outcome_bind].
  destruct (full_path_ok _ path Hcwd (proj1 Hn)) as [Hnn _].
  destruct (lookup_total (fs_tmpfs (k_fsys k)) _ (sw_tmpfs _ Hs) Hnn) as (id & -> & _). cbn [mbind outcome_bind].
  destruct (get_node_spec (fs_tmpfs (k_fsys k)) id (sw_tmpfs _ Hs)) as [-> |(n & -> & _)]; cbn [mbind outcome_bind];
    apply store_stat_completes; try done; unfold stat_buffer; case_decide; done.
Qed.

Lemma fstat_completes r k : kernel_wf k -> struct_ok (a1 r) 120 k -> completes (sys_fstat r k).
Proof.
  intros Hk Hp. pose proof (kw_fsys _ Hk) as Hs. unfold sys_fstat, fs_fstat_fd.
  assert (forall st, completes (store_stat (a1 r) (- EBADF, st) k)) as Hbad by (intros; by apply store_stat_completes).
  destruct (lookup_file_spec (k_fsys k) (i32 (a0 r)) Hs) as [-> |(j & f & Hlk & Hop)]; cbn [mbind outcome_bind]; [apply Hbad|].
  destruct (lookup_file_open (k_fsys k) _ j f Hop) as [-> Hget]. cbn [mbind outcome_bind]. rewrite Hget. cbn [mbind outcome_bind].
  destruct (get_node_spec (fs_tmpfs (k_fsys k)) (f_node_id f) (sw_tmpfs _ Hs)) as [-> |(n & -> & _)]; cbn [mbind outcome_bind];
    apply store_stat_completes; try done; unfold stat_buffer; case_decide; done.
Qed.

Lemma uname_completes r k : kernel_wf k -> struct_ok (a0 r) 325 k -> completes (sys_uname r k).
Proof.
  intros Hk Hp. unfold sys_uname, copy_uname. case_decide; [by apply completes_ok|].
  apply completes_store; [done|]. by apply struct_in_mem.
Qed.

Lemma gettimeofday_completes r k : kernel_wf k -> struct_ok (a0 r) 16 k -> completes (sys_gettimeofday r k).
Proof.
  intros Hk Hp. unfold sys_gettimeofday. case_decide; [by apply completes_ok|].
  apply completes_store; [done|]. unfold timeval_bytes. rewrite length_app, !le_bytes_length. by apply struct_in_mem.
Qed.

Lemma getcwd_completes r k : kernel_wf k -> struct_ok (a0 r) (a1 r) k -> completes (sys_getcwd r k).
Proof.
  intros Hk Hp. destruct (current_entry k Hk) as (t & Hc & _ & Hok). unfold sys_getcwd, fs_getcwd.
  change (task_current (fs_tasks (k_fsys k))) with (the_current k). rewrite Hc. cbn [mbind outcome_bind].
  case_decide as Hz; [by apply completes_ok|].
  pose proof (cwd_array _ Hok). pose proof (cwd_terminated _ Hok).
  rewrite aread_in_range by lia. cbn [mbind outcome_bind]. apply completes_store; [done|].
  destruct Hp as [? |(H1' & H2' & H3')]; [lia|]. rewrite length_take, length_drop. repeat split; lia.
Qed.

(** ** execve, reboot, wait4 *)

Lemma put_world_wf (w : world C M) k :
  kernel_wf k -> w_tasks w = w_tasks (k_world k) -> term_ok (w_console w) -> kernel_wf (put_world w k).
Proof.
  intros [[F1 F2 F3 F4 F5] Hh] Ht Hc. split; [|done].
  split; cbn [k_fsys put_world k_world k_tmpfs k_files fs_tasks fs_tmpfs g_open_files fs_console]; rewrite ?Ht; done.
Qed.

Lemma print_completes f k (g : world C M -> outcome result) :
  kernel_wf k -> prints f ->
  (forall w, kernel_wf (put_world w k) -> completes (g w)) -> completes (w ← print f (k_world k); g w).
Proof.
  intros Hk Hf Hg. destruct (print_spec f (k_world k) Hf) as (c & -> & Hc); [exact (sw_console _ (kw_fsys _ Hk))|].
  cbn [mbind outcome_bind]. apply Hg. by apply put_world_wf.
Qed.

Lemma reboot_completes r k : kernel_wf k -> completes (sys_reboot r k).
Proof.
  intros Hk. unfold sys_reboot. apply print_completes; [done|by apply writeln_prints; [eexists|repeat constructor; vm_compute|]|].
  intros w Hw. unfold kernel_reboot. eexists. split; [done|]. cbn [power_state snd].
  split; [|apply Hk]. destruct (kw_fsys _ Hw) as [F1 F2 F3 F4 F5]. split; assumption.
Qed.

Lemma execve_completes r path k :
  kernel_wf k -> names (a0 r) path k -> Forall in_u8 path -> completes (sys_execve r k).
Proof.
  intros Hk Hn Hb. destruct (path_arg _ path k Hn) as [more Hres].
  assert (elf_probe_path (path_at (a0 r) k) (k_fsys k) (k_heap k)
          = elf_probe_path (Some (path ++ 0 :: more)) (k_fsys k) (k_heap k)) as He.
  { unfold elf_probe_path, fs_open_path. by rewrite Hres. }
  destruct (elf_probe_keeps_wf (k_fsys k) (k_heap k) path more (kw_fsys _ Hk) (kw_heap _ Hk) (proj1 Hn))
    as (status & image & s' & h' & Hp & Hs' & Hh').
  unfold sys_execve. rewrite He, Hp. cbn [mbind outcome_bind].
  assert (kernel_wf (put_heap h' (put_fsys s' k))) as Hk'.
  { split; [|done]. change (fsys_wf (k_fsys (put_fsys s' k))). by rewrite fsys_put. }
  case_decide; [by apply completes_ok|]. destruct (names_string _ path k Hn) as (o & Ho & Hpath).
  change (string_at (a0 r) (put_heap h' (put_fsys s' k))) with (string_at (a0 r) k). rewrite Ho. cbn [mbind outcome_bind].
  apply print_completes; [done| |].
  - apply printf_prints; [reflexivity|reflexivity|]. repeat constructor. destruct o as [b|]; [|done].
    simpl. by rewrite (Hpath b).
  - intros w Hw. by apply completes_ok.
Qed.

Lemma wait_loop_completes n : forall i status_ptr pid k,
  kernel_wf k -> struct_ok status_ptr 4 k -> completes (wait_loop n i status_ptr pid k).
Proof.
  induction n as [|n IH]; intros i status_ptr pid k Hk Hp; cbn [wait_loop]; [by apply completes_ok|].
  destruct (task_find i (w_tasks (k_world k))) as [j|] eqn:Hf; [|by apply IH].
  apply task_find_Some in Hf as (Hj & t & Ht & _). rewrite (aget_Some _ _ _ Hj Ht). cbn [mbind outcome_bind].
  case_decide; [|by apply IH]. case_decide as Hz.
  - destruct (mem_store_wf status_ptr (le_bytes 4 (u32 (exit_code t * 256))) k Hk) as (m & -> & Hk').
    { rewrite le_bytes_length. by apply struct_in_mem. }
    cbn [mbind outcome_bind]. by apply completes_ok.
  - cbn [mbind outcome_bind]. by apply completes_ok.
Qed.

Lemma with_current_pid k (f : Z -> outcome result) :
  kernel_wf k -> (forall pid, completes (f pid)) -> completes (pid ← task_current_pid (w_tasks (k_world k)); f pid).
Proof.
  intros Hk Hf. destruct (current_entry k Hk) as (t & Hc & _). unfold task_current_pid.
  change (task_current (w_tasks (k_world k))) with (the_current k). rewrite Hc. cbn [mbind outcome_bind]. apply Hf.
Qed.

(** * Properties *)

(** What a call needs of its arguments: buffers and structures inside the user
    memory, paths that are strings; a written buffer holds bytes, and a write does
    not end beyond 4 GiB. *)
Definition valid_call (nr : Z) (r : regs) k : Prop :=
  match nr with
  | 0 => buffer_ok (a1 r) (a2 r) k
  | 1 => buffer_ok (a1 r) (a2 r) k /\ Forall in_u8 (k_mem k) /\ write_fits (k_fsys k) (i32 (a0 r)) (a2 r)
  | 4 => (exists path, names (a0 r) path k) /\ struct_ok (a1 r) 120 k
  | 5 => struct_ok (a1 r) 120 k
  | 35 => struct_ok (a0 r) 16 k
  | 59 => exists path, names (a0 r) path k /\ Forall in_u8 path
  | 61 => struct_ok (a1 r) 4 k
  | 63 => struct_ok (a0 r) 325 k
  | 79 => struct_ok (a0 r) (a1 r) k
  | 96 => struct_ok (a0 r) 16 k
  | 257 => exists path, names (a1 r) path k
  | 2 | 80 | 83 | 84 | 87 => exists path, names (a0 r) path k
  | _ => True
  end.

(** The calls that create a node whose last component does not fit. *)
Definition call_overlong (nr : Z) (r : regs) k : Prop :=
  match nr with
  | 2 | 83 => exists path, names (a0 r) path k /\ path_overlong (k_fsys k) path
  | 257 => exists path, names (a1 r) path k /\ path_overlong (k_fsys k) path
  | _ => False
  end.

Lemma syscalls_wf (nr : Z) (r : regs) k :
  kernel_wf k -> 0 <= nr -> valid_call nr r k ->
  completes (syscall_dispatch nr r k)
  \/ (syscall_dispatch nr r k = Stop Oob /\ call_overlong nr r k).
Proof.
  intros Hk Hnr Hv. destruct (dispatch_cases nr r k Hnr) as [(h & Hin & ->)| ->]; [|left; by apply completes_ok].
  unfold syscall_entries in Hin. rewrite !elem_of_cons, elem_of_nil in Hin.
  repeat (destruct Hin as [Hin|Hin]; [injection Hin as -> ->; cbn in Hv |- *|]); [..|done];
    try (left; by apply completes_ok).
  - left. by apply read_completes.
  - destruct Hv as (Hb & Hm & Hf). left. by apply write_completes.
  - destruct Hv as [path Hn]. destruct (open_completes _ path (i32 (a1 r)) (i32 (a2 r)) k Hk Hn); [by left|right; naive_solver].
  - left. apply completes_fs; [done|]. apply close_keeps_wf, Hk.
  - destruct Hv as [[path Hn] Hp]. left. by eapply stat_completes.
  - left. by apply fstat_completes.
  - left. apply completes_fs; [done|]. apply lseek_keeps_wf, Hk.
  - left. by apply mmap_completes.
  - left. destruct (current_entry k Hk) as (t & Hc & _). unfold sys_munmap. rewrite Hc. by apply completes_ok.
  - left. by apply brk_completes.
  - left. by apply nanosleep_completes.
  - left. by apply with_current_pid; [|intros; apply completes_ok].
  - left. by apply fork_completes.
  - destruct Hv as (path & Hn & Hb). left. by eapply execve_completes.
  - left. by apply exit_completes.
  - left. apply with_current_pid; [done|]. intros pid. by apply wait_loop_completes.
  - left. by apply uname_completes.
  - left. by apply getcwd_completes.
  - destruct Hv as [path Hn]. left. by eapply chdir_completes.
  - destruct Hv as [path Hn]. destruct (mkdir_completes _ path (u32 (a1 r)) k Hk Hn); [by left|right; naive_solver].
  - destruct Hv as [path Hn]. left. by eapply remove_completes.
  - destruct Hv as [path Hn]. left. by eapply remove_completes.
  - left. by apply gettimeofday_completes.
  - left. by apply reboot_completes.
  - destruct Hv as [path Hn]. unfold sys_openat. case_decide; [left; by apply completes_ok|].
    destruct (open_completes _ path (i32 (a2 r)) (i32 (a3 r)) k Hk Hn); [by left|right; naive_solver].
Qed.

(** C23 Every system call, known or unknown, runs to completion and leaves the kernel
    (file system, descriptors, working directories, task table, heap, console) in a
    well-formed state, on every path including its errors, when its arguments and the
    file it works on are as [valid_call] says: pointers are null or lead to whole
    strings, buffers and structures in the program's memory (bytes for write and
    execve), and a write, counted from the offset of its descriptor, ends by
    2^32 - 256, so one after a seek beyond that is not covered.  Within these
    conditions the one exception is the creation of a node whose last component
    overruns the 32-byte name buffer. *)
Theorem syscalls_keep_invariant (nr : Z) (r : regs) k :
  kernel_wf k -> 0 <= nr -> valid_call nr r k ->
  completes (syscall_dispatch nr r k)
  \/ (syscall_dispatch nr r k = Stop Oob /\ call_overlong nr r k).
Proof. apply syscalls_wf. Qed.

(** ** Waiting for a child *)

Definition zombie_child (parent pid : Z) (tt : task_table) (t : task) : Prop :=
  (exists i, g_tasks tt !! i = Some t) /\ used t /\ t_pid t = pid /\ t_ppid t = parent /\ t_state t = TASK_ZOMBIE.

Lemma task_find_unique pid tt i t : tasks_wf tt -> g_tasks tt !! i = Some t -> used t -> t_pid t = pid ->
  task_find pid tt = Some (Z.of_nat i).
Proof.
  intros Hwf Hi Hu Hp. destruct (task_find pid tt) as [j|] eqn:Hf.
  - apply task_find_Some in Hf as (Hj & t' & Ht' & Hu' & Hp'). f_equal.
    assert (Z.to_nat j = i) by (eapply (wf_unique _ Hwf); eauto; congruence). lia.
  - apply first_index_None in Hf. rewrite Forall_lookup in Hf. apply Hf in Hi. by apply bool_decide_eq_false in Hi as [].
Qed.

(** What is stored for a zombie, if anything. *)
Definition status_stored (status_ptr : Z) (z : task) k : kernel C M :=
  if decide (status_ptr = 0) then k
  else put_mem (splice (k_mem k) (Z.to_nat status_ptr) (le_bytes 4 (u32 (exit_code z * 256)))) k.

Lemma wait_loop_spec n : forall i status_ptr pid k,
  kernel_wf k -> struct_ok status_ptr 4 k -> let tt := w_tasks (k_world k) in
  (exists c z, i <= c < i + Z.of_nat n /\ zombie_child pid c tt z
     /\ (forall j z', i <= j < c -> ~ zombie_child pid j tt z')
     /\ wait_loop n i status_ptr pid k = ok c (status_stored status_ptr z k))
  \/ (forall j z', i <= j < i + Z.of_nat n -> ~ zombie_child pid j tt z') /\ wait_loop n i status_ptr pid k = ok (- ECHILD) k.
Proof.
  induction n as [|n IH]; intros i status_ptr pid k Hk Hp tt; cbn [wait_loop].
  { right. split; [lia|done]. }
  pose proof (sw_tasks _ (kw_fsys _ Hk)) as Hwf. change (fs_tasks (k_fsys k)) with tt in Hwf.
  assert ((forall z, ~ zombie_child pid i tt z) ->
    (exists c z, i <= c < i + Z.of_nat (S n) /\ zombie_child pid c tt z
       /\ (forall j z', i <= j < c -> ~ zombie_child pid j tt z')
       /\ wait_loop n (i + 1) status_ptr pid k = ok c (status_stored status_ptr z k))
    \/ (forall j z', i <= j < i + Z.of_nat (S n) -> ~ zombie_child pid j tt z')
       /\ wait_loop n (i + 1) status_ptr pid k = ok (- ECHILD) k) as Hnext.
  { intros Hno. destruct (IH (i + 1) status_ptr pid k Hk Hp) as [(c & z & Hc & Hz & Hb & ->)|[Hb ->]]; [left|right].
    - exists c, z. split; [lia|]. split; [done|]. split; [|done]. intros j z' Hj.
      destruct (decide (j = i)) as [->|]; [by apply Hno|]. apply Hb. lia.
    - split; [|done]. intros j z' Hj. destruct (decide (j = i)) as [->|]; [by apply Hno|]. apply Hb. lia. }
  fold tt. destruct (task_find i tt) as [j|] eqn:Hf.
  2: { apply Hnext. intros z ((s & Hs) & Hu & Hpid & _). rewrite (task_find_unique i tt s z) in Hf by done. done. }
  apply task_find_Some in Hf as Hfj. destruct Hfj as (Hj & t & Ht & Hu & Hpid).
  rewrite (aget_Some _ _ _ Hj Ht). cbn [mbind outcome_bind]. case_decide as Hz.
  - left. exists i, t. split; [lia|]. split; [destruct Hz; repeat split; eauto|]. split; [lia|].
    unfold status_stored. destruct (decide (status_ptr = 0)) as [->|Hne].
    + rewrite decide_False by (by intros []). cbn [mbind outcome_bind]. by rewrite Hpid.
    + rewrite decide_True by done. unfold store. apply struct_in_mem in Hp; [|done]. destruct Hp as (P1 & P2 & P3).
      rewrite awrite_in_range by (rewrite ?le_bytes_length; lia). cbn [mbind outcome_bind]. by rewrite Hpid.
  - apply Hnext. intros z ((s & Hs) & Huz & Hpz & Hppid & Hst). apply Hz.
    rewrite (task_find_unique i tt s z) in Hf by done. injection Hf as <-. rewrite Nat2Z.id in Ht.
    assert (t = z) as -> by congruence. done.
Qed.

(** C24 wait4 answers with the lowest pid below 32 among the caller's dead children,
    storing its exit code shifted left by eight when the status pointer is not
    null, and with -ECHILD when there is none, whatever pid and options ask for.
    It does not release the child: the task table is unchanged, so that waiting
    again returns the same pid. *)
Theorem wait4_lowest_zombie (r : regs) k (t : task) :
  kernel_wf k -> the_current k = Val t -> struct_ok (a1 r) 4 k ->
  let tt := w_tasks (k_world k) in
  (exists c z k', 1 <= c < 32 /\ zombie_child (t_pid t) c tt z
     /\ (forall j z', 1 <= j < c -> ~ zombie_child (t_pid t) j tt z')
     /\ sys_wait4 r k = ok c k' /\ k' = status_stored (a1 r) z k
     /\ w_tasks (k_world k') = tt
     /\ forall r', a1 r' = 0 -> sys_wait4 r' k' = ok c k')
  \/ ((forall j z', 1 <= j < 32 -> ~ zombie_child (t_pid t) j tt z') /\ sys_wait4 r k = ok (- ECHILD) k).
Proof.
  intros Hk Hc Hp tt.
  assert (forall r k', the_current k' = Val t -> sys_wait4 r k' = wait_loop 31 1 (a1 r) (t_pid t) k') as Hw.
  { intros r' k' Hc'. unfold sys_wait4, task_current_pid. unfold the_current in Hc'. by rewrite Hc'. }
  rewrite (Hw r k Hc). destruct (wait_loop_spec 31 1 (a1 r) (t_pid t) k Hk Hp) as [(c & z & Hr & Hz & Hb & He)|[Hb He]];
    [left|right; split; [exact Hb|exact He]].
  set (k' := status_stored (a1 r) z k). assert (w_tasks (k_world k') = tt) as Ht.
  { unfold k', status_stored. by case_decide. }
  assert (kernel_wf k') as Hk'. { unfold k', status_stored. case_decide; [done|by apply put_mem_wf]. }
  exists c, z, k'. split; [lia|]. split; [done|]. split; [done|]. split; [exact He|]. split; [done|]. split; [done|].
  intros r' Hr'. rewrite Hw, Hr' by (unfold the_current; rewrite Ht; exact Hc).
  destruct (wait_loop_spec 31 1 0 (t_pid t) k' Hk') as [(c' & z' & Hr2 & Hz' & Hb' & He')|[Hb' _]]; [by left|..].
  - rewrite Ht in Hz', Hb'. assert (c' = c) as ->; [|exact He'].
    destruct (Z.lt_trichotomy c' c) as [Hlt|[-> |Hlt]]; [|done|].
    + by destruct (Hb c' z'); [lia|].
    + by destruct (Hb' c z); [lia|].
  - rewrite Ht in Hb'. by destruct (Hb' c z); [lia|].
Qed.

(** ** The working directory *)

(** C25 The working directory set by chdir is the one getcwd reports: after a chdir
    that succeeds, getcwd into a buffer that is long enough returns the buffer,
    which holds the absolute path of the directory, cut to its first 127 bytes,
    with its NUL; a shorter buffer is refused and left alone. *)
Theorem chdir_then_getcwd (k k' : kernel C M) (t : task) (path : list Z) (p buf size : Z) :
  kernel_wf k -> the_current k = Val t -> p <> 0 -> names p path k ->
  sys_chdir (Regs p 0 0 0 0 0) k = ok 0 k' ->
  buf <> 0 -> in_mem buf size k -> 
  let dir := take 127 (full_path (cstr (t_cwd t)) path) in
  (Z.of_nat (length dir) < size ->
     exists k'', sys_getcwd (Regs buf size 0 0 0 0) k' = ok (i64 buf) k'' /\ cstr (mem_at buf (k_mem k'')) = dir)
  /\ (size <= Z.of_nat (length dir) -> sys_getcwd (Regs buf size 0 0 0 0) k' = ok (- EINVAL) k').
Proof.
  intros Hk Hc Hp Hn Hch Hbuf Hin dir. destruct (path_arg p path k Hn) as [more Hres]. pose proof (kw_fsys _ Hk) as Hs.
  assert (fs_chdir_path (path_at p k) (k_fsys k) = fs_chdir_path (Some (path ++ 0 :: more)) (k_fsys k)) as He.
  { unfold fs_chdir_path. by rewrite Hres. }
  unfold sys_chdir, on_fs in Hch. cbn [a0] in Hch. rewrite He in Hch.
  destruct (chdir_spec (k_fsys k) path more t Hs Hc (proj1 Hn)) as [(e & Hr & Hneg)|(id & n & cwd & _ & _ & _ & Hr & Hl & Hcwd)];
    rewrite Hr in Hch; cbn [mbind outcome_bind] in Hch; injection Hch as Hch; [lia|]. subst k'.
  fold dir in Hcwd. set (k' := put_fsys _ k). assert (fs_getcwd (k_fsys k') = Val cwd) as Hg.
  { unfold k'. rewrite fsys_put. destruct (current_task (k_fsys k) Hs) as (t' & _ & Ht & _).
    unfold fs_getcwd, task_current, set_current, with_fs_tasks, with_tasks. cbn [fs_tasks g_tasks g_current_index].
    rewrite (aget_Some _ _ (set_cwd cwd t)); [done|apply (wf_current _ (sw_tasks _ Hs))|].
    apply list_lookup_insert_eq. by eapply lookup_lt_Some. }
  unfold sys_getcwd. cbn [a0 a1]. rewrite Hg. cbn [mbind outcome_bind]. rewrite Hcwd.
  assert (length dir <= 127)%nat as Hd by (unfold dir; rewrite length_take; lia). destruct Hin as (I1 & I2 & I3). split.
  - intros Hsz. rewrite decide_False by (intros [?|?]; lia). rewrite aread_in_range by lia. cbn [mbind outcome_bind].
    replace (take _ (drop (Z.to_nat 0) cwd)) with (dir ++ [0]).
    2: { change (drop (Z.to_nat 0) cwd) with cwd. rewrite <- Hcwd. replace (Z.to_nat _) with (S (length (cstr cwd))) by lia.
         symmetry. apply cstr_take. rewrite Hcwd. lia. }
    unfold store. change (k_mem k') with (k_mem k). rewrite awrite_in_range by (rewrite ?length_app; simpl; lia).
    cbn [mbind outcome_bind]. eexists. split; [done|]. cbn [put_mem k_mem]. unfold mem_at.
    rewrite splice_length by (rewrite length_app; simpl; lia). rewrite decide_True by lia.
    unfold splice. rewrite drop_app_length' by (rewrite length_take; lia). rewrite <- app_assoc.
    apply cstr_app_nul. rewrite <- Hcwd. apply cstr_no_nul.
  - intros Hsz. by rewrite decide_True by lia.
Qed.

End Spec.

(** * Witnesses *)

Import Transcript Bench.

(** A booted machine; the user memory holds a path and some room. *)
Definition user_memory : list Z := replicate 16 7 ++ str "/etc" ++ [0] ++ replicate 43 7.
Definition demo_kernel : kernel transcript bench :=
  Kernel demo_fs2 (replicate 128 zero_file) heap_init user_memory
    (with_task_table booted (with_console (Script (str "ls") []) demo_world)).

Lemma demo_kernel_wf : kernel_wf demo_kernel.
Proof. split; [exact demo_fsys_wf|exact heap_init_wf]. Qed.

Lemma demo_names : names 16 (str "/etc") demo_kernel.
Proof. split; [repeat constructor; discriminate|]. by exists (replicate 43 7). Qed.

Lemma syscalls_keep_invariant_witness :
  completes (syscall_dispatch 84 (Regs 16 0 0 0 0 0) demo_kernel)
  \/ (syscall_dispatch 84 (Regs 16 0 0 0 0 0) demo_kernel = Stop Oob /\ call_overlong 84 (Regs 16 0 0 0 0 0) demo_kernel).
Proof.
  apply (syscalls_keep_invariant 84 (Regs 16 0 0 0 0 0) demo_kernel demo_kernel_wf); [lia|].
  exists (str "/etc"). exact demo_names.
Defined.

(** [init], whose parent is the boot task, has exited with status 3. *)
Definition init_gone : task_table :=
  match task_kill 3 3 booted with Val (_, after) => after | Stop _ => booted end.
Definition bereaved : kernel transcript bench := put_tasks init_gone demo_kernel.

Lemma bereaved_wf : kernel_wf bereaved.
Proof.
  split; [|exact heap_init_wf]. change (fsys_wf (with_fs_tasks init_gone demo_fsys)).
  destruct (task_kill_spec 3 3 booted (task_reachable_wf _ booted_reachable)) as (r & tt & Hk & [_ Hwf] & _ & Hcase).
  assert (init_gone = tt) as -> by (unfold init_gone; by rewrite Hk).
  apply with_tasks_wf; [exact demo_fsys_wf|exact Hwf|].
  intros i t' Hi. change (fs_tasks demo_fsys) with booted. destruct Hcase as [[-> _]|(_ & j & t & Ht & _ & Hu & ->)].
  - exists t'. split; [done|]. split; [done|]. intros Hu. by apply (sw_cwd _ demo_fsys_wf i).
  - cbn in Hi. apply list_lookup_insert_Some in Hi as [(<- & <- & _)|[_ Hi]].
    + exists t. split; [done|]. split; [done|]. intros _. exact (sw_cwd _ demo_fsys_wf j t Ht Hu).
    + exists t'. split; [done|]. split; [done|]. intros Hu'. by apply (sw_cwd _ demo_fsys_wf i).
Qed.

Lemma wait4_lowest_zombie_witness :
  let tt := w_tasks (k_world bereaved) in
  (exists c z k', 1 <= c < 32 /\ zombie_child (t_pid boot_task) c tt z
     /\ (forall j z', 1 <= j < c -> ~ zombie_child (t_pid boot_task) j tt z')
     /\ sys_wait4 (Regs 0 40 0 0 0 0) bereaved = ok c k' /\ k' = status_stored 40 z bereaved
     /\ w_tasks (k_world k') = tt
     /\ forall r', a1 r' = 0 -> sys_wait4 r' k' = ok c k')
  \/ ((forall j z', 1 <= j < 32 -> ~ zombie_child (t_pid boot_task) j tt z')
      /\ sys_wait4 (Regs 0 40 0 0 0 0) bereaved = ok (- ECHILD) bereaved).
Proof.
  apply (wait4_lowest_zombie (Regs 0 40 0 0 0 0) bereaved boot_task bereaved_wf); [reflexivity|].
  right. vm_compute. repeat split; discriminate.
Defined.

Example init_is_waited_for :
  match sys_wait4 (Regs 0 40 0 0 0 0) bereaved with
  | Val (Running (pid, k')) => (pid, take 4 (drop 40 (k_mem k'))) = (3, [0; 3; 0; 0])
  | _ => False
  end.
Proof. vm_compute. reflexivity. Qed.

Definition etc_fsys : fsys transcript := ok_state (fs_do (FsChdir (str "/etc")) demo_fsys).
Definition in_etc : kernel transcript bench := put_fsys etc_fsys demo_kernel.

Lemma chdir_etc : fs_chdir_path (Some (str "/etc" ++ [0] ++ replicate 43 7)) demo_fsys = Val (0, etc_fsys).
Proof. vm_compute. reflexivity. Qed.

Lemma sys_chdir_etc : sys_chdir (Regs 16 0 0 0 0 0) demo_kernel = ok 0 in_etc.
Proof.
  unfold sys_chdir, on_fs. change (path_at _ demo_kernel) with (Some (str "/etc" ++ [0] ++ replicate 43 7)).
  change (k_fsys demo_kernel) with demo_fsys. by rewrite chdir_etc.
Qed.

Lemma chdir_then_getcwd_witness :
  let dir := take 127 (full_path (cstr (t_cwd boot_task)) (str "/etc")) in
  (Z.of_nat (length dir) < 20 ->
     exists k'', sys_getcwd (Regs 30 20 0 0 0 0) in_etc = ok (i64 30) k'' /\ cstr (mem_at 30 (k_mem k'')) = dir)
  /\ (20 <= Z.of_nat (length dir) -> sys_getcwd (Regs 30 20 0 0 0 0) in_etc = ok (- EINVAL) in_etc).
Proof.
  apply (chdir_then_getcwd demo_kernel in_etc boot_task (str "/etc") 16 30 20 demo_kernel_wf);
    [reflexivity|discriminate|exact demo_names|exact sys_chdir_etc|discriminate|].
  repeat split; discriminate.
Defined.
