(* ===== verification/Libc.v ===== *)
(** The user side of the system calls: [lib/libc] and the programs of
    [userspace].

    A program's memory is the user memory of [Syscall.v], so a string literal is an
    address where its bytes lie; which address is the linker's choice and a
    parameter.  The syscall instruction enters the dispatcher with the six argument
    registers (syscall_entry.asm passes them on as they are); a wrapper with fewer
    arguments leaves the others as they happen to be ([junk]). *)

From Stdlib Require Import ZArith Lia Ascii.
From stdpp Require Import base gmap list strings.
From S2P Require Import Prelude KString Util Pmm Vmm Terminal Ports Task Sched Tmpfs TmpfsData Fs FsPath FsFile Elf Abi Syscall SyscallSpec.
Open Scope Z_scope.

Record process (C M : Type) := Process { errno : Z; p_kernel : kernel C M }.
Arguments Process {C M}.
Arguments errno {C M}.
Arguments p_kernel {C M}.

(** [lib/libc/syscall.c:5-11] normalize_result; the answer and errno *)
Definition normalize_result (result errno : Z) : Z * Z :=
  if decide (result < 0 /\ result > -4096) then (-1, i32 (- result)) else (result, errno).

(** [lib/libc/string.c:3-9] memcpy *)
Definition memcpy (dst src n : Z) (m : list Z) : outcome (list Z) :=
  for_loop (Z.to_nat n) 0 (fun i m => c ← aget m (src + i); aset m (dst + i) c) m.
(** [lib/libc/string.c:11-16] memset *)
Definition memset (dst c n : Z) (m : list Z) : outcome (list Z) :=
  for_loop (Z.to_nat n) 0 (fun i m => aset m (dst + i) (u8 c)) m.

(** [lib/libc/string.c:18-22] strlen, the loop; [fuel] bounds the bytes looked at *)
Fixpoint strlen_loop (fuel : nat) (m : list Z) (s n : Z) : outcome Z :=
  match fuel with
  | O => Stop OutOfFuel
  | S fuel => c ← aget m (s + n); if decide (c = 0) then Val n else strlen_loop fuel m s (n + 1)
  end.
(** [lib/libc/string.c:18-22] strlen; a string ends within the memory *)
Definition strlen (s : Z) (m : list Z) : outcome Z := strlen_loop (S (length m)) m s 0.

Section Libc.
Context {C : Type} `{Terminal C} {M : Type} `{Ports M} (junk : regs).
Notation run A := (process C M -> outcome (power (A * process C M))).

(** The syscall instruction and normalize_result around it. *)
Definition trap (nr : Z) (r : regs) : run Z := fun p =>
  q ← syscall_dispatch nr r (p_kernel p);
  Val (match q with
       | Running (result, k) => let '(answer, e) := normalize_result result (errno p) in Running (answer, Process e k)
       | Halted (result, k) => Halted (result, Process (errno p) k)
       | Rebooted (result, k) => Rebooted (result, Process (errno p) k)
       end).

(** [lib/libc/syscall.c:13-17] __syscall0 *)
Definition __syscall0 (nr : Z) : run Z := trap nr junk.
(** [lib/libc/syscall.c:19-23] __syscall1 *)
Definition __syscall1 (nr x0 : Z) : run Z := trap nr (Regs x0 (a1 junk) (a2 junk) (a3 junk) (a4 junk) (a5 junk)).
(** [lib/libc/syscall.c:25-29] __syscall2 *)
Definition __syscall2 (nr x0 x1 : Z) : run Z := trap nr (Regs x0 x1 (a2 junk) (a3 junk) (a4 junk) (a5 junk)).
(** [lib/libc/syscall.c:31-35] __syscall3 *)
Definition __syscall3 (nr x0 x1 x2 : Z) : run Z := trap nr (Regs x0 x1 x2 (a3 junk) (a4 junk) (a5 junk)).
(** [lib/libc/syscall.c:37-47] __syscall6 *)
Definition __syscall6 (nr x0 x1 x2 x3 x4 x5 : Z) : run Z := trap nr (Regs x0 x1 x2 x3 x4 x5).

(** The answer of a wrapper that returns [int]. *)
Definition as_int (f : run Z) : run Z := fun p =>
  q ← f p;
  Val (match q with
       | Running (x, p) => Running (i32 x, p)
       | stopped => stopped
       end).

(** ** The wrappers, on 64-bit registers: an [int] argument is sign-extended *)

(** [lib/libc/unistd.c:7-7] read *)
Definition read (fd buffer count : Z) : run Z := __syscall3 SYS_read (u64 fd) buffer count.
(** [lib/libc/unistd.c:8-8] write *)
Definition write (fd buffer count : Z) : run Z := __syscall3 SYS_write (u64 fd) buffer count.
(** [lib/libc/unistd.c:9-9] open *)
Definition open (path flags mode : Z) : run Z := as_int (__syscall3 SYS_open path (u64 flags) (u64 mode)).
(** [lib/libc/unistd.c:10-10] close *)
Definition close (fd : Z) : run Z := as_int (__syscall1 SYS_close (u64 fd)).
(** [lib/libc/unistd.c:11-11] lseek *)
Definition lseek (fd offset whence : Z) : run Z := __syscall3 SYS_lseek (u64 fd) (u64 offset) (u64 whence).
(** [lib/libc/unistd.c:12-12] chdir *)
Definition chdir (path : Z) : run Z := as_int (__syscall1 SYS_chdir path).
(** [lib/libc/unistd.c:13-13] getcwd *)
Definition getcwd (buffer size : Z) : run Z := __syscall2 SYS_getcwd buffer size.
(** [lib/libc/unistd.c:14-14] mkdir *)
Definition mkdir (path mode : Z) : run Z := as_int (__syscall2 SYS_mkdir path mode).
(** [lib/libc/unistd.c:15-15] rmdir *)
Definition rmdir (path : Z) : run Z := as_int (__syscall1 SYS_rmdir path).
(** [lib/libc/unistd.c:16-16] unlink *)
Definition unlink (path : Z) : run Z := as_int (__syscall1 SYS_unlink path).
(** [lib/libc/unistd.c:17-17] getpid *)
Definition getpid : run Z := as_int (__syscall0 SYS_getpid).
(** [lib/libc/unistd.c:18-18] stat *)
Definition stat (path st : Z) : run Z := as_int (__syscall2 SYS_stat path st).
(** [lib/libc/unistd.c:19-19] fstat *)
Definition fstat (fd st : Z) : run Z := as_int (__syscall2 SYS_fstat (u64 fd) st).
(** [lib/libc/unistd.c:20-20] gettimeofday *)
Definition gettimeofday (tv tz : Z) : run Z := as_int (__syscall2 SYS_gettimeofday tv tz).
(** [lib/libc/unistd.c:21-21] kill *)
Definition kill (pid signum : Z) : run Z := as_int (__syscall2 SYS_kill (u64 pid) (u64 signum)).
(** [lib/libc/unistd.c:22-22] _exit: after the call the program only halts *)
Definition _exit (status : Z) : run unit := fun p =>
  q ← __syscall1 SYS_exit (u64 status) p;
  Val (match q with
       | Running (_, p) => Halted (tt, p)
       | Halted (_, p) => Halted (tt, p)
       | Rebooted (_, p) => Rebooted (tt, p)
       end).

(** ** Programs *)

Definition seq_run {A B} (d : B) (f : run A) (g : A -> run B) : run B := fun p =>
  q ← f p;
  match q with
  | Running (a, p) => g a p
  | Halted (_, p) => Val (Halted (d, p))
  | Rebooted (_, p) => Val (Rebooted (d, p))
  end.

(** [userspace/init.c:3-7] puts_fd; the function of the same name in shell.c is the
    same *)
Definition puts_fd (fd s : Z) : run unit := fun p =>
  len ← strlen s (k_mem (p_kernel p));
  seq_run tt (write fd s len) (fun _ p => Val (Running (tt, p))) p.

(** [userspace/init.c:9-15] main, on the addresses of its two literals *)
Definition init_main (line1 line2 : Z) : run Z :=
  seq_run 0 (puts_fd 1 line1) (fun _ => seq_run 0 (puts_fd 1 line2) (fun _ p => Val (Running (0, p)))).

(** [userspace/shell.c:9-15] main, on the addresses of its two literals *)
Definition shell_main (line1 line2 : Z) : run Z :=
  seq_run 0 (puts_fd 1 line1) (fun _ => seq_run 0 (puts_fd 1 line2) (fun _ p => Val (Running (0, p)))).

(** [userspace/test_programs/hello.c:3-9] main; [message] is the address of the array,
    whose size is one more than its text *)
Definition hello_main (message size : Z) : run Z :=
  seq_run 0 (write 1 message (size - 1)) (fun _ p => Val (Running (0, p))).

End Libc.

(** ** errno *)

Lemma normalize_result_cases r e : -2 ^ 63 <= r < 2 ^ 63 ->
  (normalize_result r e = (r, e) /\ (0 <= r \/ r <= -4096)) \/ (exists n, 1 <= n < 4096 /\ r = - n /\ normalize_result r e = (-1, n)).
Proof.
  intros Hr. unfold normalize_result. case_decide; [right|left; split; [done|lia]].
  exists (- r). split; [lia|]. split; [lia|]. f_equal. unfold i32, swrap. rewrite Z.mod_small by lia. lia.
Qed.

(** ** What the programs print *)

Lemma strlen_loop_spec m s text : forall fuel n, (length text < fuel)%nat -> no_nul text -> 0 <= s + n ->
  (exists rest, drop (Z.to_nat (s + n)) m = text ++ 0 :: rest) ->
  strlen_loop fuel m s n = Val (n + Z.of_nat (length text)).
Proof.
  induction text as [|c text IH]; intros fuel n Hf Hn Hp [rest Hd]; (destruct fuel as [|fuel]; [cbn in Hf; lia|]);
    cbn [strlen_loop].
  - assert (aget m (s + n) = Val 0) as ->.
    { apply aget_Some; [done|]. by rewrite <- (Nat.add_0_r (Z.to_nat _)), <- lookup_drop, Hd. }
    cbn [mbind outcome_bind]. rewrite decide_True by done. f_equal. cbn. lia.
  - inversion_clear Hn as [|? ? Hc Hn'].
    assert (aget m (s + n) = Val c) as ->.
    { apply aget_Some; [done|]. by rewrite <- (Nat.add_0_r (Z.to_nat _)), <- lookup_drop, Hd. }
    cbn [mbind outcome_bind]. rewrite decide_False by done. rewrite (IH fuel (n + 1)); [f_equal; cbn [length]; lia| | |lia|].
    + cbn [length] in Hf. lia.
    + done.
    + exists rest. replace (Z.to_nat (s + (n + 1))) with (Z.to_nat (s + n) + 1)%nat by lia. by rewrite <- drop_drop, Hd.
Qed.

Section Prints.
Context {C : Type} `{TerminalLaws C} {M : Type} `{Ports M}.
Implicit Types k : kernel C M.

(** The NUL-terminated string at an address of user memory. *)
Definition literal (s : Z) (text : list Z) k : Prop :=
  0 < s /\ no_nul text /\ exists rest, drop (Z.to_nat s) (k_mem k) = text ++ 0 :: rest.

Definition console_sent k : list Z := term_sent (w_console (k_world k)).

(** User memory holds bytes. *)
Definition mem_ok k : Prop := Forall in_u8 (k_mem k) /\ Z.of_nat (length (k_mem k)) < 2 ^ 63.

(** Writing a string to the console changes only the console. *)
Lemma write_literal k s text e junk : kernel_wf k -> mem_ok k -> literal s text k ->
  exists k', write junk 1 s (Z.of_nat (length text)) (Process e k)
      = Val (Running (Z.of_nat (length text), Process e k'))
    /\ kernel_wf k' /\ k_mem k' = k_mem k /\ console_sent k' = console_sent k ++ line_text text.
Proof.
  intros Hk [Hb Hm] (Hs & Hn & rest & Hd).
  assert (length (k_mem k) = Z.to_nat s + (length text + S (length rest)))%nat as Hlen.
  { apply (f_equal length) in Hd. rewrite length_drop, length_app in Hd. cbn [length] in Hd. lia. }
  assert (mem_at s (k_mem k) = text ++ 0 :: rest) as Hat by (unfold mem_at; rewrite decide_True by lia; exact Hd).
  destruct (stdout_write_sends (k_fsys k) 1 (text ++ 0 :: rest) (Z.of_nat (length text)) (kw_fsys _ Hk)) as (c & Hw & Hc & Hsent).
  - by left.
  - rewrite <- Hd. by apply Forall_drop.
  - rewrite length_app. lia.
  - lia.
  - assert (sys_write (Regs 1 s (Z.of_nat (length text)) (a3 junk) (a4 junk) (a5 junk)) k
      = ok (Z.of_nat (length text)) (put_fsys (with_fs_console c (k_fsys k)) k)) as Hsys.
    { unfold sys_write, on_fs. cbn [a0 a1 a2]. rewrite Hat. change (i32 1) with 1. rewrite Hw. reflexivity. }
    exists (put_fsys (with_fs_console c (k_fsys k)) k). split; [|split; [|split; [done|]]].
    + unfold write, __syscall3, trap. cbn [p_kernel]. change (u64 1) with 1.
      rewrite (dispatch_known 1 sys_write) by (right; left). rewrite Hsys. cbn [ok mbind outcome_bind].
      unfold normalize_result. rewrite decide_False by lia. reflexivity.
    + apply put_fsys_wf; [done|]. apply with_console_wf; [by apply kw_fsys|done].
    + unfold console_sent. cbn [put_fsys k_world with_task_table with_console w_console fs_console with_fs_console]. rewrite Hsent.
      rewrite Nat2Z.id, take_app_length. done.
Qed.

Lemma puts_spec k s text e junk : kernel_wf k -> mem_ok k -> literal s text k ->
  exists k', puts_fd junk 1 s (Process e k) = Val (Running (tt, Process e k'))
    /\ kernel_wf k' /\ k_mem k' = k_mem k /\ console_sent k' = console_sent k ++ line_text text.
Proof.
  intros Hk Hm Hl. destruct (write_literal k s text e junk Hk Hm Hl) as (k' & Hw & Hk' & Hmem & Hs). exists k'.
  split; [|done]. destruct Hl as (Hpos & Hn & rest & Hd). unfold puts_fd, strlen. cbn [p_kernel].
  rewrite (strlen_loop_spec _ _ text).
  - cbn [mbind outcome_bind]. unfold seq_run. rewrite Z.add_0_l, Hw. reflexivity.
  - apply (f_equal length) in Hd. rewrite length_drop, length_app in Hd. cbn [length] in Hd. lia.
  - done.
  - lia.
  - exists rest. by rewrite Z.add_0_r.
Qed.

(** The first program speaks: from every well-formed kernel state whose user memory
    holds the two literals of init.c, main of init runs through libc and the system
    call dispatcher to its end, returns 0, leaves errno and the memory alone, and has
    sent exactly its two lines to the console. *)
Theorem init_prints_its_lines (junk : regs) (line1 line2 e : Z) k :
  let text1 := str "MGCORE init: bootstrapped userspace placeholder" ++ [10] in
  let text2 := str "MGCORE init: intended next step is exec /bin/shell" ++ [10] in
  kernel_wf k -> mem_ok k -> literal line1 text1 k -> literal line2 text2 k ->
  exists k', init_main junk line1 line2 (Process e k) = Val (Running (0, Process e k'))
    /\ kernel_wf k' /\ k_mem k' = k_mem k
    /\ console_sent k' = console_sent k ++ line_text text1 ++ line_text text2.
Proof.
  intros text1 text2 Hk Hm H1' H2'. unfold init_main, seq_run.
  destruct (puts_spec k line1 text1 e junk Hk Hm H1') as (k1 & -> & Hk1 & Hmem1 & Hs1). cbn [mbind outcome_bind].
  assert (mem_ok k1) as Hm1 by (unfold mem_ok; by rewrite Hmem1).
  assert (literal line2 text2 k1) as H3' by (unfold literal; by rewrite Hmem1).
  destruct (puts_spec k1 line2 text2 e junk Hk1 Hm1 H3') as (k2 & -> & Hk2 & Hmem2 & Hs2). cbn [mbind outcome_bind].
  exists k2. split; [done|]. split; [done|]. split; [congruence|]. by rewrite Hs2, Hs1, <- app_assoc.
Qed.

End Prints.

Import Transcript Ports.Bench.

(** The program's memory: the literals at 16 and 80. *)
Definition init_memory : list Z :=
  replicate 16 0 ++ str "MGCORE init: bootstrapped userspace placeholder" ++ [10] ++ replicate 16 0
  ++ str "MGCORE init: intended next step is exec /bin/shell" ++ [10] ++ replicate 13 0.
Definition init_kernel : kernel transcript bench := put_mem init_memory demo_kernel.

Lemma init_kernel_wf : kernel_wf init_kernel.
Proof. apply put_mem_wf, demo_kernel_wf. Qed.

Lemma init_prints_its_lines_witness :
  exists k', init_main (Regs 0 0 0 0 0 0) 16 80 (Process 0 init_kernel) = Val (Running (0, Process 0 k'))
    /\ kernel_wf k' /\ k_mem k' = init_memory
    /\ console_sent k' = [] ++ line_text (str "MGCORE init: bootstrapped userspace placeholder" ++ [10])
         ++ line_text (str "MGCORE init: intended next step is exec /bin/shell" ++ [10]).
Proof.
  apply (init_prints_its_lines (Regs 0 0 0 0 0 0) 16 80 0 init_kernel init_kernel_wf).
  - split; [|vm_compute; congruence]. change (k_mem init_kernel) with init_memory. vm_compute. repeat constructor; congruence.
  - split; [lia|]. split; [vm_compute; repeat constructor; congruence|].
    exists (drop 65 init_memory). vm_compute. reflexivity.
  - split; [lia|]. split; [vm_compute; repeat constructor; congruence|].
    exists (drop 132 init_memory). vm_compute. reflexivity.
Defined.

(** A failing call sets errno: there is no file /none. *)
Example missing_file_sets_errno :
  match open (Regs 0 0 0 0 0 0) 16 0 0 (Process 0 (put_mem (replicate 16 0 ++ str "/none" ++ replicate 8 0) demo_kernel)) with
  | Val (Running (r, p)) => (r, errno p) = (-1, ENOENT)
  | _ => False
  end.
Proof. vm_compute. reflexivity. Qed.
