(* ===== verification/Inet.v ===== *)
(** The data formats of [src/kernel/net.c]: big-endian fields, the Internet
    checksum, dotted addresses.

    A frame is the list of its bytes; a field read or written outside it is out
    of bounds. *)

From Stdlib Require Import ZArith Lia Ascii.
From stdpp Require Import base list strings.
From S2P Require Import Prelude KString.
Open Scope Z_scope.
Import Fmt.

(** [src/kernel/net.c:154-156] be16_load *)
Definition be16_load (l : list Z) (p : Z) : outcome Z :=
  b0 ← aget l p; b1 ← aget l (p + 1);
  Val (Z.lor (Z.shiftl b0 8) b1).

(** [src/kernel/net.c:158-160] be32_load *)
Definition be32_load (l : list Z) (p : Z) : outcome Z :=
  b0 ← aget l p; b1 ← aget l (p + 1); b2 ← aget l (p + 2); b3 ← aget l (p + 3);
  Val (Z.lor (Z.lor (Z.lor (Z.shiftl b0 24) (Z.shiftl b1 16)) (Z.shiftl b2 8)) b3).

(** The bytes of a field, most significant first. *)
Definition be16 (value : Z) : list Z := [Z.land (Z.shiftr value 8) 0xFF; Z.land value 0xFF].
Definition be32 (value : Z) : list Z :=
  [Z.land (Z.shiftr value 24) 0xFF; Z.land (Z.shiftr value 16) 0xFF;
   Z.land (Z.shiftr value 8) 0xFF; Z.land value 0xFF].

(** [src/kernel/net.c:162-165] be16_store *)
Definition be16_store (l : list Z) (p value : Z) : outcome (list Z) := awrite l p (be16 value).
(** [src/kernel/net.c:167-172] be32_store *)
Definition be32_store (l : list Z) (p value : Z) : outcome (list Z) := awrite l p (be32 value).

(** [src/kernel/net.c:177-182] checksum16, the sum: pairs of bytes, then the odd one *)
Fixpoint sum_words (data : list Z) (sum : Z) : Z :=
  match data with
  | [] => sum
  | [a] => u32 (sum + Z.shiftl a 8)
  | a :: b :: data => sum_words data (u32 (sum + Z.lor (Z.shiftl a 8) b))
  end.

(** [src/kernel/net.c:183-185] checksum16, the carries; [n] rounds at most *)
Fixpoint fold_carries (n : nat) (sum : Z) : outcome Z :=
  if decide (Z.shiftr sum 16 = 0) then Val sum
  else
    match n with
    | O => Stop OutOfFuel
    | S n => fold_carries n (u32 (Z.land sum 0xFFFF + Z.shiftr sum 16))
    end.

(** [src/kernel/net.c:174-187] checksum16 *)
Definition checksum16 (data : list Z) : outcome Z :=
  sum ← fold_carries 2 (sum_words data 0);
  Val (u16 (u32_not sum)).

(** [src/kernel/net.c:189-195] format_ip *)
Definition format_ip (ip : Z) (out : list Z) (out_size : Z) : outcome (list Z) :=
  let a := Z.land (Z.shiftr ip 24) 0xFF in
  let b := Z.land (Z.shiftr ip 16) 0xFF in
  let c := Z.land (Z.shiftr ip 8) 0xFF in
  let d := Z.land ip 0xFF in
  '(out, _) ← ksnprintf out out_size (str "%u.%u.%u.%u") [VaWord a; VaWord b; VaWord c; VaWord d];
  Val out.

(** [src/kernel/net.c:207-227] parse_ipv4, the loop; the result is [part], [value] and
    [octet], or [None] for the early [return 0] *)
Fixpoint parse_ipv4_loop (text : list Z) (value octet part : Z) : option (Z * Z * Z) :=
  match text with
  | [] => Some (part, value, octet)
  | c :: text =>
      if decide (48 <= c <= 57) then
        let octet := u32 (u32 (octet * 10) + (c - 48)) in
        if decide (octet > 255) then None else parse_ipv4_loop text value octet part
      else if decide (c = chr "."%char) then
        if decide (part >= 3) then None
        else parse_ipv4_loop text (Z.lor (u32 (Z.shiftl value 8)) octet) 0 (part + 1)
      else None
  end.

(** [src/kernel/net.c:197-235] parse_ipv4; [None] is the result 0, with [*out_ip]
    untouched *)
Definition parse_ipv4 (text : option (list Z)) : option Z :=
  match text with
  | None | Some [] => None
  | Some text =>
      '(part, value, octet) ← parse_ipv4_loop text 0 0 0;
      if decide (part <> 3) then None else Some (Z.lor (u32 (Z.shiftl value 8)) octet)
  end.

(** * Fields *)

Lemma lor_shift a b k : 0 <= k -> 0 <= b < 2 ^ k -> Z.lor (Z.shiftl a k) b = a * 2 ^ k + b.
Proof.
  intros Hk Hb. rewrite Z.shiftl_mul_pow2 by done.
  enough (Z.land (a * 2 ^ k) b = 0) as Hz by (pose proof (Z.add_lor_land (a * 2 ^ k) b); lia).
  apply Z.bits_inj'. intros i Hi. rewrite Z.land_spec, Z.bits_0. destruct (decide (i < k)).
  - by rewrite Z.mul_pow2_bits_low.
  - rewrite <- (Z.mod_small b (2 ^ k)) by done. rewrite Z.mod_pow2_bits_high by lia. apply andb_false_r.
Qed.

Lemma byte_of v k : 0 <= k -> Z.land (Z.shiftr v k) 0xFF = v / 2 ^ k mod 256.
Proof. intros Hk. rewrite Z.shiftr_div_pow2 by done. change 0xFF with (Z.ones 8). by rewrite Z.land_ones. Qed.

Lemma low_byte v : Z.land v 0xFF = v mod 256.
Proof. change 0xFF with (Z.ones 8). by rewrite Z.land_ones. Qed.

Lemma be16_value v : in_u16 v -> Z.lor (Z.shiftl (Z.land (Z.shiftr v 8) 0xFF) 8) (Z.land v 0xFF) = v.
Proof.
  intros Hv. rewrite byte_of, low_byte by lia. rewrite lor_shift; [|lia|cint].
  unfold in_u16 in Hv. pow2. Z.div_mod_to_equations. lia.
Qed.

(** The bits of two fields below each other. *)
Lemma lor_field a b k w : 0 <= k -> 0 <= w -> 0 <= b < 2 ^ w ->
  Z.lor (Z.shiftl a (k + w)) (Z.shiftl b k) = Z.shiftl (a * 2 ^ w + b) k.
Proof. intros Hk Hw Hb. rewrite Z.add_comm, <- Z.shiftl_shiftl, <- Z.shiftl_lor, lor_shift by lia. done. Qed.

Lemma be32_value v : in_u32 v ->
  Z.lor (Z.lor (Z.lor (Z.shiftl (Z.land (Z.shiftr v 24) 0xFF) 24) (Z.shiftl (Z.land (Z.shiftr v 16) 0xFF) 16))
           (Z.shiftl (Z.land (Z.shiftr v 8) 0xFF) 8)) (Z.land v 0xFF) = v.
Proof.
  intros Hv. rewrite !byte_of, low_byte by lia.
  rewrite (lor_field _ _ 16 8) by (lia || cint). rewrite (lor_field _ _ 8 8) by (lia || cint).
  rewrite lor_shift by (lia || cint). unfold in_u32 in Hv. pow2. change (2 ^ 24) with 16777216.
  Z.div_mod_to_equations. lia.
Qed.

(** A field that was laid out is read back. *)
Lemma aget_field {A} (pre bs post : list A) (i : nat) x : bs !! i = Some x ->
  aget (pre ++ bs ++ post) (Z.of_nat (length pre) + Z.of_nat i) = Val x.
Proof.
  intros Hx. apply aget_Some; [lia|]. rewrite lookup_app_r by lia. rewrite lookup_app_l by (apply lookup_lt_Some in Hx; lia).
  by replace (Z.to_nat _ - length pre)%nat with i by lia.
Qed.

Lemma be16_load_at pre v post p : in_u16 v -> p = Z.of_nat (length pre) -> be16_load (pre ++ be16 v ++ post) p = Val v.
Proof.
  intros Hv ->. pose proof (aget_field pre (be16 v) post) as Hg. unfold be16_load.
  pose proof (Hg 0%nat _ eq_refl) as Hg0. rewrite Z.add_0_r in Hg0. rewrite Hg0.
  pose proof (Hg 1%nat _ eq_refl) as Hg1. change (Z.of_nat 1) with 1 in Hg1. rewrite Hg1.
  cbn [mbind outcome_bind]. by rewrite be16_value.
Qed.

Lemma be32_load_at pre v post p : in_u32 v -> p = Z.of_nat (length pre) -> be32_load (pre ++ be32 v ++ post) p = Val v.
Proof.
  intros Hv ->. pose proof (aget_field pre (be32 v) post) as Hg. unfold be32_load.
  pose proof (Hg 0%nat _ eq_refl) as Hg0. rewrite Z.add_0_r in Hg0. rewrite Hg0.
  pose proof (Hg 1%nat _ eq_refl) as Hg1. pose proof (Hg 2%nat _ eq_refl) as Hg2. pose proof (Hg 3%nat _ eq_refl) as Hg3.
  change (Z.of_nat 1) with 1 in Hg1. change (Z.of_nat 2) with 2 in Hg2. change (Z.of_nat 3) with 3 in Hg3.
  rewrite Hg1, Hg2, Hg3. cbn [mbind outcome_bind]. by rewrite be32_value.
Qed.

Lemma be16_bytes v : Forall in_u8 (be16 v).
Proof. repeat constructor; rewrite ?byte_of, ?low_byte by lia; cint. Qed.
Lemma be32_bytes v : Forall in_u8 (be32 v).
Proof. repeat constructor; rewrite ?byte_of, ?low_byte by lia; cint. Qed.

(** Loads inside a frame succeed. *)
Lemma be16_load_total l p : 0 <= p -> p + 2 <= Z.of_nat (length l) -> exists v, be16_load l p = Val v.
Proof.
  intros. unfold be16_load. destruct (aget_in_range l p) as [a ->]; [lia|].
  destruct (aget_in_range l (p + 1)) as [b ->]; [lia|]. by eexists.
Qed.
Lemma be32_load_total l p : 0 <= p -> p + 4 <= Z.of_nat (length l) -> exists v, be32_load l p = Val v.
Proof.
  intros. unfold be32_load. destruct (aget_in_range l p) as [a ->]; [lia|].
  destruct (aget_in_range l (p + 1)) as [b ->]; [lia|]. destruct (aget_in_range l (p + 2)) as [c ->]; [lia|].
  destruct (aget_in_range l (p + 3)) as [d ->]; [lia|]. by eexists.
Qed.

(** * The checksum *)

(** The 16-bit big-endian words of the data, an odd byte at the end padded. *)
Fixpoint word_sum (data : list Z) : Z :=
  match data with
  | [] => 0
  | [a] => a * 256
  | a :: b :: data => a * 256 + b + word_sum data
  end.

(** One's-complement reduction to 16 bits: the representative between 1 and 65535,
    0 only for 0. *)
Definition ones (s : Z) : Z := if decide (s = 0) then 0 else (s - 1) mod 65535 + 1.

Lemma pair_ind {A} (P : list A -> Prop) :
  P [] -> (forall a, P [a]) -> (forall a b l, P l -> P (a :: b :: l)) -> forall l, P l.
Proof.
  intros H0 H1 H2 l. enough (P l /\ forall a, P (a :: l)) as [? _] by done.
  induction l as [|b l [IH IHa]]; split; auto.
Qed.

Lemma word_sum_range data : Forall in_u8 data ->
  0 <= word_sum data <= 65535 * Z.of_nat (length data).
Proof.
  induction data as [|a|a b data IH] using pair_ind; intros Hd; cbn [word_sum length].
  - lia.
  - apply Forall_cons in Hd as [Ha _]. unfold in_u8 in Ha. pow2. lia.
  - apply Forall_cons in Hd as [Ha Hd]. apply Forall_cons in Hd as [Hb Hd]. specialize (IH Hd).
    unfold in_u8 in *. pow2. lia.
Qed.

Lemma sum_words_spec data : forall sum, Forall in_u8 data -> 0 <= sum ->
  sum + 65535 * Z.of_nat (length data) < 2 ^ 32 -> sum_words data sum = sum + word_sum data.
Proof.
  induction data as [|a|a b data IH] using pair_ind; intros sum Hd Hs Hl; cbn [word_sum sum_words length] in *.
  - lia.
  - apply Forall_cons in Hd as [Ha _]. rewrite Z.shiftl_mul_pow2 by lia. change (2 ^ 8) with 256.
    unfold in_u8 in Ha. pow2. rewrite u32_small; unfold in_u32; pow2; lia.
  - apply Forall_cons in Hd as [Ha Hd]. apply Forall_cons in Hd as [Hb Hd].
    rewrite lor_shift by (lia || apply Hb). unfold in_u8 in Ha, Hb. pow2.
    rewrite u32_small by (unfold in_u32; pow2; lia). rewrite IH by (done || lia). lia.
Qed.

Lemma fold_step s : 0 <= s < 2 ^ 32 -> Z.shiftr s 16 = s / 65536 /\ Z.land s 0xFFFF = s mod 65536.
Proof.
  intros Hs. rewrite Z.shiftr_div_pow2 by lia. change 0xFFFF with (Z.ones 16). by rewrite Z.land_ones by lia.
Qed.

Lemma ones_small s : 0 <= s < 65536 -> ones s = s.
Proof. intros Hs. unfold ones. case_decide; [by subst|]. rewrite Z.mod_small by lia. lia. Qed.

Lemma ones_step s : 0 <= s -> ones (s mod 65536 + s / 65536) = ones s.
Proof.
  intros Hs. unfold ones. pose proof (Z.div_mod s 65536 ltac:(lia)) as Hdm. pose proof (Z.mod_pos_bound s 65536 ltac:(lia)).
  pose proof (Z.div_pos s 65536 Hs ltac:(lia)). repeat case_decide; try lia. f_equal.
  replace (s - 1) with (s mod 65536 + s / 65536 - 1 + s / 65536 * 65535) by lia. by rewrite Z.mod_add by lia.
Qed.

(** Two rounds of carries are enough for any 32-bit sum. *)
Lemma fold_carries_spec s : 0 <= s < 2 ^ 32 -> fold_carries 2 s = Val (ones s).
Proof.
  intros Hs. pow2. cbn [fold_carries]. destruct (fold_step s Hs) as [-> ->].
  case_decide as H1. { rewrite ones_small; [done|]. Z.div_mod_to_equations. lia. }
  rewrite u32_small by cint. set (s1 := s mod 65536 + s / 65536).
  assert (0 <= s1 <= 131070) as Hs1 by (subst s1; Z.div_mod_to_equations; lia).
  destruct (fold_step s1) as [-> ->]; [pow2; lia|].
  case_decide as H2. { rewrite <- (ones_step s), ones_small; [done| |lia]. fold s1. Z.div_mod_to_equations. lia. }
  rewrite u32_small by cint. set (s2 := s1 mod 65536 + s1 / 65536).
  assert (0 <= s2 < 65536) as Hs2 by (subst s2; Z.div_mod_to_equations; lia).
  destruct (fold_step s2) as [-> _]; [pow2; lia|]. rewrite decide_True by (apply Z.div_small; lia).
  rewrite <- (ones_step s) by lia. fold s1. rewrite <- (ones_step s1) by lia. fold s2. by rewrite ones_small.
Qed.

Lemma ones_range s : 0 <= s -> 0 <= ones s < 65536.
Proof. intros Hs. unfold ones. case_decide; [lia|]. pose proof (Z.mod_pos_bound (s - 1) 65535). lia. Qed.

Lemma checksum_value data : Forall in_u8 data -> Z.of_nat (length data) <= 65535 ->
  checksum16 data = Val (65535 - ones (word_sum data)).
Proof.
  intros Hd Hl. pose proof (word_sum_range data Hd) as Hw. unfold checksum16.
  rewrite sum_words_spec by (done || (pow2; lia)). rewrite fold_carries_spec by (pow2; lia). cbn [mbind outcome_bind].
  pose proof (ones_range (word_sum data)) as Ho. rewrite Z.add_0_l. f_equal. unfold u32_not, Z.lnot.
  set (o := ones _) in *. cint.
Qed.

Lemma word_sum_app pre post : Nat.Even (length pre) -> word_sum (pre ++ post) = word_sum pre + word_sum post.
Proof.
  induction pre as [|a|a b pre IH] using pair_ind; intros He; cbn [word_sum app].
  - done.
  - destruct He as [n Hn]. simpl in Hn. lia.
  - rewrite IH; [lia|]. destruct He as [n Hn]. exists (n - 1)%nat. simpl in Hn. lia.
Qed.

Lemma word_sum_be16 v post : in_u16 v -> word_sum (be16 v ++ post) = v + word_sum post.
Proof.
  intros Hv. cbn [be16 app word_sum]. rewrite byte_of, low_byte by lia. unfold in_u16 in Hv. pow2.
  Z.div_mod_to_equations. lia.
Qed.

(** A checksum stored where the sum had zeros makes the whole sum to zero. *)
Lemma checksum_verifies pre post c :
  Nat.Even (length pre) -> Forall in_u8 pre -> Forall in_u8 post ->
  Z.of_nat (length (pre ++ be16 0 ++ post)) <= 65535 ->
  checksum16 (pre ++ be16 0 ++ post) = Val c -> in_u16 c /\ checksum16 (pre ++ be16 c ++ post) = Val 0.
Proof.
  intros He Hpre Hpost Hl. assert (forall v, Forall in_u8 (pre ++ be16 v ++ post)) as Hb.
  { intros v. apply Forall_app. split; [done|]. apply Forall_app. split; [apply be16_bytes|done]. }
  assert (forall v, length (pre ++ be16 v ++ post) = length (pre ++ be16 0 ++ post)) as Hlen.
  { intros v. rewrite !length_app. done. }
  rewrite checksum_value by done. rewrite word_sum_app, word_sum_be16 by (done || (unfold in_u16; lia)).
  intros [= <-]. pose proof (word_sum_range pre Hpre). pose proof (word_sum_range post Hpost).
  set (s := word_sum pre + (0 + word_sum post)). assert (0 <= s) as Hs by (subst s; lia).
  pose proof (ones_range s Hs) as Ho. assert (in_u16 (65535 - ones s)) as Hc by (unfold in_u16; pow2; lia).
  split; [done|]. rewrite checksum_value by (done || by rewrite Hlen). f_equal.
  rewrite word_sum_app, word_sum_be16 by done.
  replace (word_sum pre + _) with (s + (65535 - ones s)) by (subst s; lia).
  unfold ones in *. destruct (decide (s = 0)) as [Hz|Hz]; [by rewrite Hz|]. rewrite decide_False by lia.
  replace (s + _ - 1) with (65534 + (s - 1) / 65535 * 65535).
  2: { pose proof (Z.div_mod (s - 1) 65535). lia. }
  rewrite Z.mod_add by lia. done.
Qed.

(** * Properties *)

(** C26 The checksum is the one's complement of the one's-complement sum of the
    data's 16-bit words, for any data up to 65535 bytes; the carry loop always
    ends.  Data with the checksum stored in a field of zeros (at an even offset)
    sums to zero, which is the test the receiver makes. *)
Theorem checksum16_ones_complement (data pre post : list Z) (c : Z) :
  Forall in_u8 data -> Z.of_nat (length data) <= 65535 ->
  checksum16 data = Val (65535 - ones (word_sum data))
  /\ (data = pre ++ be16 0 ++ post -> Nat.Even (length pre) -> checksum16 data = Val c ->
      checksum16 (pre ++ be16 c ++ post) = Val 0).
Proof.
  intros Hd Hl. split; [by apply checksum_value|]. intros -> He Hc.
  apply Forall_app in Hd as [Hpre Hd]. apply Forall_app in Hd as [_ Hpost].
  by destruct (checksum_verifies pre post c He Hpre Hpost Hl Hc).
Qed.

Lemma checksum16_ones_complement_witness :
  checksum16 ([69; 0; 1] ++ [255] ++ be16 0 ++ [7]) = Val (65535 - ones (word_sum [69; 0; 1; 255; 0; 0; 7]))
  /\ ([69; 0; 1; 255; 0; 0; 7] = [69; 0; 1; 255] ++ be16 0 ++ [7] -> Nat.Even 4 ->
      checksum16 [69; 0; 1; 255; 0; 0; 7] = Val 45824 -> checksum16 ([69; 0; 1; 255] ++ be16 45824 ++ [7]) = Val 0).
Proof.
  apply (checksum16_ones_complement [69; 0; 1; 255; 0; 0; 7] [69; 0; 1; 255] [7] 45824).
  - repeat constructor; discriminate.
  - simpl. lia.
Defined.

(** ** Dotted addresses *)

(** The digits of one part, as the loop accumulates them. *)
Fixpoint eat_digits (ds : list Z) (octet : Z) : option Z :=
  match ds with
  | [] => Some octet
  | c :: ds =>
      if decide (48 <= c <= 57) then
        let octet := octet * 10 + (c - 48) in
        if decide (octet > 255) then None else eat_digits ds octet
      else None
  end.

Lemma parse_digits ds : forall rest value octet part o,
  0 <= octet <= 255 -> eat_digits ds octet = Some o ->
  0 <= o <= 255 /\ parse_ipv4_loop (ds ++ rest) value octet part = parse_ipv4_loop rest value o part.
Proof.
  induction ds as [|c ds IH]; intros rest value octet part o Ho He; cbn [eat_digits app parse_ipv4_loop] in *.
  - injection He as <-. done.
  - case_decide as Hc; [|done]. rewrite !u32_small by (unfold in_u32; pow2; rewrite ?u32_small; unfold in_u32; pow2; lia).
    case_decide; [done|]. apply IH; [lia|done].
Qed.

Definition octet_text (v : Z) : list Z := num_text false 10 v.

Lemma eat_octet v : 0 <= v < 256 -> eat_digits (octet_text v) 0 = Some v /\ Forall (fun c => c <> 0) (octet_text v)
  /\ (length (octet_text v) <= 3)%nat.
Proof.
  intros Hv.
  assert (forallb (fun v => bool_decide (eat_digits (octet_text v) 0 = Some v)
    && forallb (fun c => bool_decide (c <> 0)) (octet_text v) && bool_decide (length (octet_text v) <= 3)%nat)
    (seqZ 0 256) = true) as Hall by (vm_compute; reflexivity).
  rewrite forallb_forall in Hall. specialize (Hall v).
  destruct (andb_prop _ _ (Hall ltac:(apply list_elem_of_In, elem_of_seqZ; lia))) as [[He Hn]%andb_prop Hl].
  apply bool_decide_eq_true in He. apply bool_decide_eq_true in Hl. split; [done|]. split; [|done].
  apply Forall_forall. intros c Hc. rewrite forallb_forall in Hn. apply list_elem_of_In, Hn in Hc.
  by apply bool_decide_eq_true in Hc.
Qed.

Lemma parse_octet v rest value part : 0 <= v < 256 ->
  parse_ipv4_loop (octet_text v ++ rest) value 0 part = parse_ipv4_loop rest value v part.
Proof. intros Hv. destruct (eat_octet v Hv) as [He _]. by destruct (parse_digits _ rest value 0 part v ltac:(lia) He). Qed.

Lemma parse_dot rest value octet part : 0 <= value < 2 ^ 24 -> 0 <= octet < 256 -> part < 3 ->
  parse_ipv4_loop (46 :: rest) value octet part = parse_ipv4_loop rest (value * 256 + octet) 0 (part + 1).
Proof.
  intros Hv Ho Hp. cbn [parse_ipv4_loop]. rewrite decide_False by lia. rewrite decide_True by done. rewrite decide_False by lia.
  rewrite u32_small. { by rewrite lor_shift by (pow2; lia). }
  rewrite Z.shiftl_mul_pow2 by lia. unfold in_u32. pow2. change (2 ^ 24) with 16777216 in Hv. lia.
Qed.

(** The text of an address. *)
Definition dotted (ip : Z) : list Z :=
  octet_text (ip / 2 ^ 24 mod 256) ++ 46 :: octet_text (ip / 2 ^ 16 mod 256)
  ++ 46 :: octet_text (ip / 2 ^ 8 mod 256) ++ 46 :: octet_text (ip mod 256).

Lemma parse_dotted ip : in_u32 ip -> parse_ipv4 (Some (dotted ip)) = Some ip.
Proof.
  intros Hip. unfold parse_ipv4. destruct (dotted ip) as [|c l] eqn:Hd.
  { apply (f_equal length) in Hd. unfold dotted in Hd. rewrite length_app in Hd. simpl in Hd. lia. }
  rewrite <- Hd. clear c l Hd. unfold dotted. unfold in_u32 in Hip. pow2. change (2 ^ 24) with 16777216. change (2 ^ 8) with 256.
  assert (forall x, 0 <= x mod 256 < 256) as Hm by (intros; apply Z.mod_pos_bound; lia).
  assert (2 ^ 24 = 16777216) as H24 by done.
  rewrite parse_octet by done. rewrite parse_dot by (rewrite ?H24; pose proof (Hm (ip / 16777216)); lia).
  rewrite parse_octet by done.
  rewrite parse_dot by (rewrite ?H24; pose proof (Hm (ip / 16777216)); pose proof (Hm (ip / 65536)); lia).
  rewrite parse_octet by done.
  rewrite parse_dot by (rewrite ?H24; pose proof (Hm (ip / 16777216)); pose proof (Hm (ip / 65536)); pose proof (Hm (ip / 256)); lia).
  rewrite <- (app_nil_r (octet_text (ip mod 256))), parse_octet by done. cbn [parse_ipv4_loop mbind option_bind].
  rewrite decide_False by (intros Hf; by apply Hf). f_equal. rewrite u32_small.
  - rewrite lor_shift by (change (2 ^ 8) with 256; auto; lia). change (2 ^ 8) with 256.
    Z.div_mod_to_equations. lia.
  - rewrite Z.shiftl_mul_pow2 by lia. unfold in_u32. pow2. Z.div_mod_to_equations. lia.
Qed.

Lemma render_ip a b c d :
  render (str "%u.%u.%u.%u") [VaWord a; VaWord b; VaWord c; VaWord d]
  = Some (num_text false 10 (u64 a) ++ 46 :: num_text false 10 (u64 b) ++ 46 :: num_text false 10 (u64 c)
          ++ 46 :: num_text false 10 (u64 d) ++ []).
Proof. reflexivity. Qed.

Lemma format_ip_spec ip out out_size : in_u32 ip -> 16 <= out_size <= Z.of_nat (length out) ->
  exists out', format_ip ip out out_size = Val out' /\ cstr out' = dotted ip /\ length out' = length out.
Proof.
  intros Hip Hs. unfold format_ip, ksnprintf.
  assert (forall x, 0 <= x mod 256 < 256) as Hm by (intros; apply Z.mod_pos_bound; lia).
  assert (render (str "%u.%u.%u.%u") [VaWord (Z.land (Z.shiftr ip 24) 255); VaWord (Z.land (Z.shiftr ip 16) 255);
    VaWord (Z.land (Z.shiftr ip 8) 255); VaWord (Z.land ip 255)] = Some (dotted ip)) as Hr.
  { rewrite !byte_of, low_byte, render_ip by lia. unfold dotted, octet_text.
    assert (forall x, u64 (x mod 256) = x mod 256) as Hu by (intros x; apply u64_small; unfold in_u64; pow2; pose proof (Hm x); lia).
    rewrite !Hu.
    by rewrite app_nil_r. }
  assert (no_nul (dotted ip) /\ (length (dotted ip) <= 15)%nat) as [Hn Hl].
  { unfold dotted. destruct (eat_octet _ (Hm (ip / 2 ^ 24))) as (_ & N1 & L1). destruct (eat_octet _ (Hm (ip / 2 ^ 16))) as (_ & N2 & L2).
    destruct (eat_octet _ (Hm (ip / 2 ^ 8))) as (_ & N3 & L3). destruct (eat_octet _ (Hm ip)) as (_ & N4 & L4). split.
    - unfold no_nul. repeat (apply Forall_app; split; [done|]; constructor; [done|]). done.
    - rewrite !length_app. cbn [length]. rewrite !length_app. cbn [length]. rewrite !length_app. cbn [length]. lia. }
  rewrite (kvsnprintf_spec out out_size _ _ (dotted ip)) by (done || lia || (repeat constructor; discriminate)).
  cbn [mbind outcome_bind]. eexists. split; [done|]. unfold printed. rewrite Nat.min_l by lia. rewrite firstn_all. split.
  - by apply cstr_app_nul.
  - rewrite length_app. cbn [length]. rewrite length_drop. lia.
Qed.

(** C27 The printed form of an address is read back as that address: format_ip into a
    buffer of 16 bytes or more stores the dotted form with its NUL, and parse_ipv4
    accepts it and yields the address. *)
Theorem format_parse_ipv4 (ip : Z) (out : list Z) (out_size : Z) :
  in_u32 ip -> 16 <= out_size <= Z.of_nat (length out) ->
  exists out', format_ip ip out out_size = Val out' /\ cstr out' = dotted ip
    /\ length out' = length out /\ parse_ipv4 (Some (cstr out')) = Some ip.
Proof.
  intros Hip Hs. destruct (format_ip_spec ip out out_size Hip Hs) as (out' & Hf & Hc & Hl).
  exists out'. rewrite Hc. split; [done|]. split; [done|]. split; [done|]. by apply parse_dotted.
Qed.

Lemma format_parse_ipv4_witness :
  exists out', format_ip 0x0A00020F (replicate 20 0) 20 = Val out' /\ cstr out' = dotted 0x0A00020F
    /\ length out' = length (replicate 20 0) /\ parse_ipv4 (Some (cstr out')) = Some 0x0A00020F.
Proof. apply (format_parse_ipv4 0x0A00020F (replicate 20 0) 20); [split; reflexivity || discriminate|simpl; lia]. Defined.

(** Parts without digits count as zero. *)
Example empty_parts_accepted : parse_ipv4 (Some (str "...")) = Some 0 /\ parse_ipv4 (Some (str "1..2.")) = Some 0x01000200.
Proof. split; reflexivity. Qed.
