(* ===== verification/NetConst.v ===== *)
(** The constants of [src/kernel/net.c]: PCI and RTL8139 registers, protocol numbers,
    DHCP message and option codes. *)

From Stdlib Require Import ZArith.
Open Scope Z_scope.

(** [src/kernel/net.c:10-10] PCI_CONFIG_ADDRESS *)
Definition PCI_CONFIG_ADDRESS : Z := 0xCF8.
(** [src/kernel/net.c:11-11] PCI_CONFIG_DATA *)
Definition PCI_CONFIG_DATA : Z := 0xCFC.
(** [src/kernel/net.c:13-13] NET_MAX_ADAPTERS *)
Definition NET_MAX_ADAPTERS : Z := 8.
(** [src/kernel/net.c:14-14] NET_MAX_ARP_CACHE *)
Definition NET_MAX_ARP_CACHE : Z := 4.
(** [src/kernel/net.c:16-16] RTL8139_VENDOR_ID *)
Definition RTL8139_VENDOR_ID : Z := 0x10EC.
(** [src/kernel/net.c:17-17] RTL8139_DEVICE_ID *)
Definition RTL8139_DEVICE_ID : Z := 0x8139.
(** [src/kernel/net.c:19-19] RTL_REG_IDR0 *)
Definition RTL_REG_IDR0 : Z := 0x00.
(** [src/kernel/net.c:20-20] RTL_REG_MAR0 *)
Definition RTL_REG_MAR0 : Z := 0x08.
(** [src/kernel/net.c:21-21] RTL_REG_TSD0 *)
Definition RTL_REG_TSD0 : Z := 0x10.
(** [src/kernel/net.c:22-22] RTL_REG_TSAD0 *)
Definition RTL_REG_TSAD0 : Z := 0x20.
(** [src/kernel/net.c:23-23] RTL_REG_RBSTART *)
Definition RTL_REG_RBSTART : Z := 0x30.
(** [src/kernel/net.c:24-24] RTL_REG_CR *)
Definition RTL_REG_CR : Z := 0x37.
(** [src/kernel/net.c:25-25] RTL_REG_CAPR *)
Definition RTL_REG_CAPR : Z := 0x38.
(** [src/kernel/net.c:26-26] RTL_REG_CBR *)
Definition RTL_REG_CBR : Z := 0x3A.
(** [src/kernel/net.c:27-27] RTL_REG_IMR *)
Definition RTL_REG_IMR : Z := 0x3C.
(** [src/kernel/net.c:28-28] RTL_REG_ISR *)
Definition RTL_REG_ISR : Z := 0x3E.
(** [src/kernel/net.c:29-29] RTL_REG_TCR *)
Definition RTL_REG_TCR : Z := 0x40.
(** [src/kernel/net.c:30-30] RTL_REG_RCR *)
Definition RTL_REG_RCR : Z := 0x44.
(** [src/kernel/net.c:31-31] RTL_REG_CONFIG1 *)
Definition RTL_REG_CONFIG1 : Z := 0x52.
(** [src/kernel/net.c:33-33] RTL_CR_BUFE *)
Definition RTL_CR_BUFE : Z := 0x01.
(** [src/kernel/net.c:34-34] RTL_CR_TE *)
Definition RTL_CR_TE : Z := 0x04.
(** [src/kernel/net.c:35-35] RTL_CR_RE *)
Definition RTL_CR_RE : Z := 0x08.
(** [src/kernel/net.c:36-36] RTL_CR_RST *)
Definition RTL_CR_RST : Z := 0x10.
(** [src/kernel/net.c:38-38] RTL_ISR_ROK *)
Definition RTL_ISR_ROK : Z := 0x0001.
(** [src/kernel/net.c:39-39] RTL_ISR_RER *)
Definition RTL_ISR_RER : Z := 0x0002.
(** [src/kernel/net.c:40-40] RTL_ISR_TOK *)
Definition RTL_ISR_TOK : Z := 0x0004.
(** [src/kernel/net.c:41-41] RTL_ISR_TER *)
Definition RTL_ISR_TER : Z := 0x0008.
(** [src/kernel/net.c:42-42] RTL_ISR_RXOVW *)
Definition RTL_ISR_RXOVW : Z := 0x0010.
(** [src/kernel/net.c:43-43] RTL_ISR_FIFOOVW *)
Definition RTL_ISR_FIFOOVW : Z := 0x0040.
(** [src/kernel/net.c:44-44] RTL_ISR_LENCHG *)
Definition RTL_ISR_LENCHG : Z := 0x2000.
(** [src/kernel/net.c:45-45] RTL_ISR_SERR *)
Definition RTL_ISR_SERR : Z := 0x8000.
(** [src/kernel/net.c:49-49] RTL_TX_DESC_COUNT *)
Definition RTL_TX_DESC_COUNT : Z := 4.
(** [src/kernel/net.c:51-51] ETH_TYPE_ARP *)
Definition ETH_TYPE_ARP : Z := 0x0806.
(** [src/kernel/net.c:52-52] ETH_TYPE_IPV4 *)
Definition ETH_TYPE_IPV4 : Z := 0x0800.
(** [src/kernel/net.c:53-53] ARP_HTYPE_ETHERNET *)
Definition ARP_HTYPE_ETHERNET : Z := 1.
(** [src/kernel/net.c:54-54] ARP_PTYPE_IPV4 *)
Definition ARP_PTYPE_IPV4 : Z := 0x0800.
(** [src/kernel/net.c:55-55] ARP_OPER_REQUEST *)
Definition ARP_OPER_REQUEST : Z := 1.
(** [src/kernel/net.c:56-56] ARP_OPER_REPLY *)
Definition ARP_OPER_REPLY : Z := 2.
(** [src/kernel/net.c:57-57] IP_PROTO_ICMP *)
Definition IP_PROTO_ICMP : Z := 1.
(** [src/kernel/net.c:58-58] IP_PROTO_UDP *)
Definition IP_PROTO_UDP : Z := 17.
(** [src/kernel/net.c:60-60] UDP_PORT_DHCP_SERVER *)
Definition UDP_PORT_DHCP_SERVER : Z := 67.
(** [src/kernel/net.c:61-61] UDP_PORT_DHCP_CLIENT *)
Definition UDP_PORT_DHCP_CLIENT : Z := 68.
(** [src/kernel/net.c:63-63] DHCP_OP_REQUEST *)
Definition DHCP_OP_REQUEST : Z := 1.
(** [src/kernel/net.c:64-64] DHCP_OP_REPLY *)
Definition DHCP_OP_REPLY : Z := 2.
(** [src/kernel/net.c:65-65] DHCP_HTYPE_ETHERNET *)
Definition DHCP_HTYPE_ETHERNET : Z := 1.
(** [src/kernel/net.c:66-66] DHCP_MAGIC_COOKIE *)
Definition DHCP_MAGIC_COOKIE : Z := 0x63825363.
(** [src/kernel/net.c:68-68] DHCP_OPTION_MSG_TYPE *)
Definition DHCP_OPTION_MSG_TYPE : Z := 53.
(** [src/kernel/net.c:69-69] DHCP_OPTION_REQ_IP *)
Definition DHCP_OPTION_REQ_IP : Z := 50.
(** [src/kernel/net.c:70-70] DHCP_OPTION_SERVER_ID *)
Definition DHCP_OPTION_SERVER_ID : Z := 54.
(** [src/kernel/net.c:71-71] DHCP_OPTION_SUBNET_MASK *)
Definition DHCP_OPTION_SUBNET_MASK : Z := 1.
(** [src/kernel/net.c:72-72] DHCP_OPTION_ROUTER *)
Definition DHCP_OPTION_ROUTER : Z := 3.
(** [src/kernel/net.c:73-73] DHCP_OPTION_PARAM_REQ_LIST *)
Definition DHCP_OPTION_PARAM_REQ_LIST : Z := 55.
(** [src/kernel/net.c:74-74] DHCP_OPTION_END *)
Definition DHCP_OPTION_END : Z := 255.
(** [src/kernel/net.c:76-76] DHCP_MSG_DISCOVER *)
Definition DHCP_MSG_DISCOVER : Z := 1.
(** [src/kernel/net.c:77-77] DHCP_MSG_OFFER *)
Definition DHCP_MSG_OFFER : Z := 2.
(** [src/kernel/net.c:78-78] DHCP_MSG_REQUEST *)
Definition DHCP_MSG_REQUEST : Z := 3.
(** [src/kernel/net.c:79-79] DHCP_MSG_ACK *)
Definition DHCP_MSG_ACK : Z := 5.
(** [src/kernel/net.c:81-81] NET_IPV4_ANY *)
Definition NET_IPV4_ANY : Z := 0x00000000.
