(* ===== verification/Net.v ===== *)
(** [src/kernel/net.c]: the RTL8139 driver and the protocols over it (ARP, IPv4,
    ICMP echo, UDP, a DHCP client).

    The file's static variables are grouped by what they serve.  The receive
    buffer is memory the adapter writes on its own, so it is read from the
    machine ([Nic]); so are the bus addresses of the two static buffers, which
    the linker chooses.  A packet pointer is the list of the bytes from it on,
    passed with the length the code passes.  [hlt] is a parameter: what happens
    between a [hlt] and the instruction after it, that is, interrupts. *)

From Stdlib Require Import ZArith Lia Ascii.
From stdpp Require Import base list strings.
From S2P Require Import Prelude KString Pmm Vmm Terminal Ports Task Sched Inet NetConst.
Open Scope Z_scope.
Import Fmt.

(** [src/kernel/net.c:57-58] RTL_TX_BUFFER_SIZE *)
Definition RTL_TX_BUFFER_SIZE : Z := 2048.
(** [src/kernel/net.c:56-56] RTL_RX_BUFFER_SIZE *)
Definition RTL_RX_BUFFER_SIZE : Z := 8192 + 16 + 1500.
(** [src/kernel/net.c:81-82] NET_IPV4_BROADCAST *)
Definition NET_IPV4_BROADCAST : Z := 0xFFFFFFFF.
(** [src/kernel/net.c:84-84] NET_DEFAULT_IP *)
Definition NET_DEFAULT_IP : Z := 0x0A00020F.
(** [src/kernel/net.c:85-85] NET_DEFAULT_GW *)
Definition NET_DEFAULT_GW : Z := 0x0A000202.
(** [src/kernel/net.c:86-86] NET_DEFAULT_MASK *)
Definition NET_DEFAULT_MASK : Z := 0xFFFFFF00.

(** [src/kernel/net.c:88-97] net_adapter *)
Record net_adapter := Adapter {
  ad_bus : Z; ad_slot : Z; ad_func : Z;
  vendor_id : Z; ad_device_id : Z;
  bar0 : Z; irq_line : Z; bound : bool;
}.

(** [src/kernel/net.c:99-104] arp_entry *)
Record arp_entry := Arp { arp_ip : Z; arp_mac : list Z; arp_valid : bool; updated_tick : Z }.

(** [src/kernel/net.c:106-114] ping_wait *)
Record ping_wait := Ping {
  ping_active : bool; identifier : Z; sequence : Z; target_ip : Z;
  received : bool; reply_ttl : Z; reply_ms : Z;
}.

(** [src/kernel/net.c:141-150] dhcp_lease *)
Record dhcp_lease := Lease {
  dhcp_active : bool; xid : Z; offered_ip : Z; server_ip : Z; subnet_mask : Z; router : Z;
  got_offer : bool; got_ack : bool;
}.

(** [src/kernel/net.c:119-127] the driver's variables *)
Record rtl8139 := Rtl {
  g_rtl_io_base : Z; g_rtl_irq_line : Z; g_rtl_ready : bool; g_mac : list Z;
  g_tx_buffer : list (list Z); g_rx_read_offset : Z; g_tx_index : Z;
}.

(** [src/kernel/net.c:129-132] the interface's addresses *)
Record interface := Interface { g_ip_addr : Z; g_ip_gw : Z; g_ip_mask : Z; g_connected : bool }.

(** [src/kernel/net.c:134-136] the frame counters *)
Record counters := Counters { g_rx_frames : Z; g_tx_frames : Z; g_rx_dropped : Z }.

(** [src/kernel/net.c:116-152] all of it, with the adapters found *)
Record net_state := Net {
  g_adapters : list net_adapter; g_adapter_count : Z;
  n_rtl : rtl8139; n_if : interface; n_counters : counters;
  g_arp_cache : list arp_entry; g_ping_wait : ping_wait; g_dhcp : dhcp_lease;
}.

Definition zero_arp : arp_entry := Arp 0 (replicate 6 0) false 0.
Definition zero_ping : ping_wait := Ping false 0 0 0 false 0 0.
Definition zero_dhcp : dhcp_lease := Lease false 0 0 0 0 0 false false.

(** What the driver shares with the adapter besides ports. *)
Class Nic (M : Type) := {
  g_rx_buffer : M -> list Z;
  rx_address : M -> Z;
  tx_address : M -> Z -> Z;
}.

(** The network code with the world it runs in. *)
Record nsys (C M : Type) := NSys { n_net : net_state; n_world : world C M }.
Arguments NSys {C M}.
Arguments n_net {C M}.
Arguments n_world {C M}.

Definition with_rtl (r : rtl8139) (n : net_state) : net_state :=
  Net (g_adapters n) (g_adapter_count n) r (n_if n) (n_counters n) (g_arp_cache n) (g_ping_wait n) (g_dhcp n).
Definition with_if (i : interface) (n : net_state) : net_state :=
  Net (g_adapters n) (g_adapter_count n) (n_rtl n) i (n_counters n) (g_arp_cache n) (g_ping_wait n) (g_dhcp n).
Definition with_counters (c : counters) (n : net_state) : net_state :=
  Net (g_adapters n) (g_adapter_count n) (n_rtl n) (n_if n) c (g_arp_cache n) (g_ping_wait n) (g_dhcp n).
Definition with_arp (a : list arp_entry) (n : net_state) : net_state :=
  Net (g_adapters n) (g_adapter_count n) (n_rtl n) (n_if n) (n_counters n) a (g_ping_wait n) (g_dhcp n).
Definition with_ping (p : ping_wait) (n : net_state) : net_state :=
  Net (g_adapters n) (g_adapter_count n) (n_rtl n) (n_if n) (n_counters n) (g_arp_cache n) p (g_dhcp n).
Definition with_dhcp (d : dhcp_lease) (n : net_state) : net_state :=
  Net (g_adapters n) (g_adapter_count n) (n_rtl n) (n_if n) (n_counters n) (g_arp_cache n) (g_ping_wait n) d.
Definition with_adapters (a : list net_adapter) (count : Z) (n : net_state) : net_state :=
  Net a count (n_rtl n) (n_if n) (n_counters n) (g_arp_cache n) (g_ping_wait n) (g_dhcp n).

Definition mac_of (n : net_state) : list Z := g_mac (n_rtl n).
Definition ip_of (n : net_state) : Z := g_ip_addr (n_if n).

(** [kmemcpy] of the six bytes of a MAC address into a frame. *)
Definition put_mac (frame : list Z) (off : Z) (mac : list Z) : outcome (list Z) :=
  bs ← aread mac 0 6; awrite frame off bs.

(** ** The ARP cache *)

(** [src/kernel/net.c:300-309] arp_cache_update, the search: the entry of the address,
    or the first free one ([None]: the cache is full) *)
Fixpoint arp_slot (cache : list arp_entry) (i : Z) (ip : Z) (free_slot : option Z) : Z + option Z :=
  match cache with
  | [] => inr free_slot
  | e :: cache =>
      if decide (arp_valid e = true /\ arp_ip e = ip) then inl i
      else arp_slot cache (i + 1) ip
             (if decide (arp_valid e = false /\ free_slot = None) then Some i else free_slot)
  end.

(** [src/kernel/net.c:296-319] arp_cache_update; [mac] holds six bytes *)
Definition arp_cache_update (ip : Z) (mac : list Z) (now : Z) (cache : list arp_entry)
  : outcome (list arp_entry) :=
  bs ← aread mac 0 6;
  match arp_slot cache 0 ip None with
  | inl i =>
      e ← aget cache i;
      aset cache i (Arp (arp_ip e) bs (arp_valid e) now)
  | inr free_slot => aset cache (default 0 free_slot) (Arp ip bs true now)
  end.

(** [src/kernel/net.c:321-330] arp_cache_lookup; the address found *)
Definition arp_cache_lookup (ip : Z) (cache : list arp_entry) : option (list Z) :=
  arp_mac <$> head (filter (fun e => arp_valid e = true /\ arp_ip e = ip) cache).

(** ** DHCP options *)

(** [src/kernel/net.c:455-482] dhcp_parse_options, the loop; [fuel] bounds the number
    of options.  The lease and the message type are the accumulators. *)
Fixpoint dhcp_options_loop (fuel : nat) (options : list Z) (length i : Z) (d : dhcp_lease) (msg_type : Z)
  : outcome (dhcp_lease * Z) :=
  if decide (i >= length) then Val (d, msg_type)
  else
    match fuel with
    | O => Stop OutOfFuel
    | S fuel =>
        code ← aget options i;
        let i := i + 1 in
        if decide (code = DHCP_OPTION_END) then Val (d, msg_type)
        else if decide (code = 0) then dhcp_options_loop fuel options length i d msg_type
        else if decide (i >= length) then Val (d, msg_type)
        else
          opt_len ← aget options i;
          let i := i + 1 in
          if decide (i + opt_len > length) then Val (d, msg_type)
          else if decide (code = DHCP_OPTION_MSG_TYPE /\ opt_len = 1) then
            t ← aget options i;
            dhcp_options_loop fuel options length (i + opt_len) d t
          else if decide (code = DHCP_OPTION_SERVER_ID /\ opt_len = 4) then
            v ← be32_load options i;
            dhcp_options_loop fuel options length (i + opt_len)
              (Lease (dhcp_active d) (xid d) (offered_ip d) v (subnet_mask d) (router d) (got_offer d) (got_ack d)) msg_type
          else if decide (code = DHCP_OPTION_SUBNET_MASK /\ opt_len = 4) then
            v ← be32_load options i;
            dhcp_options_loop fuel options length (i + opt_len)
              (Lease (dhcp_active d) (xid d) (offered_ip d) (server_ip d) v (router d) (got_offer d) (got_ack d)) msg_type
          else if decide (code = DHCP_OPTION_ROUTER /\ opt_len >= 4) then
            v ← be32_load options i;
            dhcp_options_loop fuel options length (i + opt_len)
              (Lease (dhcp_active d) (xid d) (offered_ip d) (server_ip d) (subnet_mask d) v (got_offer d) (got_ack d)) msg_type
          else dhcp_options_loop fuel options length (i + opt_len) d msg_type
    end.

(** [src/kernel/net.c:451-482] dhcp_parse_options *)
Definition dhcp_parse_options (options : list Z) (length : Z) (d : dhcp_lease) : outcome (dhcp_lease * Z) :=
  dhcp_options_loop (Z.to_nat length) options length 0 d 0.

(** [src/kernel/net.c:509-527] dhcp_process_packet, accepting an offer or an
    acknowledgement *)
Definition dhcp_accept (ack : bool) (yiaddr : Z) (d : dhcp_lease) : dhcp_lease :=
  Lease (dhcp_active d) (xid d) yiaddr (server_ip d)
    (if decide (subnet_mask d = 0) then NET_DEFAULT_MASK else subnet_mask d)
    (if decide (router d = 0) then NET_DEFAULT_GW else router d)
    (if ack then got_offer d else true) (if ack then true else got_ack d).

(** [kmemcmp] of six bytes, as a test for equality *)
Definition same_mac (l : list Z) (off : Z) (mac : list Z) : outcome bool :=
  a ← aread l off 6; b ← aread mac 0 6; Val (bool_decide (a = b)).

(** [src/kernel/net.c:484-528] dhcp_process_packet *)
Definition dhcp_process_packet (payload : list Z) (length : Z) (mac : list Z) (d : dhcp_lease) : outcome dhcp_lease :=
  if decide (dhcp_active d = false \/ length < 240) then Val d
  else
    op ← aget payload 0; htype ← aget payload 1; hlen ← aget payload 2;
    if decide (op <> DHCP_OP_REPLY \/ htype <> DHCP_HTYPE_ETHERNET \/ hlen <> 6) then Val d
    else
      id ← be32_load payload 4;
      if decide (id <> xid d) then Val d
      else
        mine ← same_mac payload 28 mac;
        if negb mine then Val d
        else
          cookie ← be32_load payload 236;
          if decide (cookie <> DHCP_MAGIC_COOKIE) then Val d
          else
            yiaddr ← be32_load payload 16;
            '(d, msg_type) ← dhcp_parse_options (drop 240 payload) (length - 240) d;
            if decide (msg_type = DHCP_MSG_OFFER) then Val (dhcp_accept false yiaddr d)
            else if decide (msg_type = DHCP_MSG_ACK) then Val (dhcp_accept true yiaddr d)
            else Val d.

(** [src/kernel/net.c:601-606] route_next_hop *)
Definition route_next_hop (dst_ip : Z) (i : interface) : Z :=
  if decide (Z.land dst_ip (g_ip_mask i) = Z.land (g_ip_addr i) (g_ip_mask i)) then dst_ip else g_ip_gw i.

Section Net.
Context {C : Type} `{Terminal C} {M : Type} `{Ports M} `{Nic M}.

Definition put_net (n : net_state) (s : nsys C M) : nsys C M := NSys n (n_world s).
Definition put_hw (h : M) (s : nsys C M) : nsys C M := NSys (n_net s) (with_ports h (n_world s)).
Definition hw (s : nsys C M) : M := w_ports (n_world s).
Definition uptime (s : nsys C M) : Z := scheduler_uptime_ticks (n_world s).

(** Flags put together with [|]. *)
Definition bits (flags : list Z) : Z := fold_right Z.lor 0 flags.

(** A register of the adapter: [(uint16_t)(g_rtl_io_base + offset)]. *)
Definition reg (offset : Z) (n : net_state) : Z := u16 (g_rtl_io_base (n_rtl n) + offset).

(** ** The PCI configuration space *)

(** [src/kernel/net.c:238-242] pci_config_read32, the address *)
Definition pci_address (bus slot func offset : Z) : Z :=
  Z.lor (Z.lor (Z.lor (Z.lor (2 ^ 31) (Z.shiftl bus 16)) (Z.shiftl slot 11)) (Z.shiftl func 8)) (Z.land offset 0xFC).
(** [src/kernel/net.c:237-245] pci_config_read32 *)
Definition pci_config_read32 (bus slot func offset : Z) (h : M) : Z * M :=
  io_in32 PCI_CONFIG_DATA (io_out32 PCI_CONFIG_ADDRESS (pci_address bus slot func offset) h).
(** [src/kernel/net.c:247-255] pci_config_write32 *)
Definition pci_config_write32 (bus slot func offset value : Z) (h : M) : M :=
  io_out32 PCI_CONFIG_DATA value (io_out32 PCI_CONFIG_ADDRESS (pci_address bus slot func offset) h).

(** ** Sending *)

(** [src/kernel/net.c:284-289] rtl_send_raw_frame, waiting for the adapter *)
Fixpoint tx_poll (n : nat) (port : Z) (h : M) : M :=
  match n with
  | O => h
  | S n =>
      let '(tsd, h) := io_in32 port h in
      if decide (Z.land tsd (2 ^ 15) <> 0) then h else tx_poll n port h
  end.

(** [src/kernel/net.c:261-294] rtl_send_raw_frame *)
Definition rtl_send_raw_frame (frame : list Z) (length : Z) (s : nsys C M) : outcome (Z * nsys C M) :=
  let n := n_net s in
  let r := n_rtl n in
  if decide (g_rtl_ready r = false \/ length = 0 \/ length > RTL_TX_BUFFER_SIZE) then Val (-1, s)
  else
    let send_length := if decide (length < 60) then 60 else length in
    slot ← aget (g_tx_buffer r) (g_tx_index r);
    slot ← awrite slot 0 (replicate (Z.to_nat send_length) 0);
    bs ← aread frame 0 length;
    slot ← awrite slot 0 bs;
    slots ← aset (g_tx_buffer r) (g_tx_index r) slot;
    let h := io_out32 (reg (RTL_REG_TSAD0 + g_tx_index r * 4) n) (u32 (tx_address (hw s) (g_tx_index r))) (hw s) in
    let h := io_out32 (reg (RTL_REG_TSD0 + g_tx_index r * 4) n) (u32 send_length) h in
    let h := tx_poll (Z.to_nat 100000) (reg (RTL_REG_TSD0 + g_tx_index r * 4) n) h in
    let r := Rtl (g_rtl_io_base r) (g_rtl_irq_line r) (g_rtl_ready r) (g_mac r) slots (g_rx_read_offset r)
               ((g_tx_index r + 1) mod RTL_TX_DESC_COUNT) in
    let c := n_counters n in
    let n := with_counters (Counters (g_rx_frames c) (u64 (g_tx_frames c + 1)) (g_rx_dropped c)) (with_rtl r n) in
    Val (0, put_net n (put_hw h s)).

(** [src/kernel/net.c:337-346] arp_send_request, the fields both ARP messages share *)
Definition arp_fields (oper : Z) (n : net_state) (frame : list Z) : outcome (list Z) :=
  frame ← put_mac frame 6 (mac_of n);
  frame ← be16_store frame 12 ETH_TYPE_ARP;
  frame ← be16_store frame 14 ARP_HTYPE_ETHERNET;
  frame ← be16_store frame 16 ARP_PTYPE_IPV4;
  frame ← aset frame 18 6;
  frame ← aset frame 19 4;
  frame ← be16_store frame 20 oper;
  frame ← put_mac frame 22 (mac_of n);
  be32_store frame 28 (ip_of n).

(** [src/kernel/net.c:332-351] arp_send_request *)
Definition arp_send_request (target_ip : Z) (s : nsys C M) : outcome (Z * nsys C M) :=
  frame ← awrite (replicate 42 0) 0 (replicate 6 0xFF);
  frame ← arp_fields ARP_OPER_REQUEST (n_net s) frame;
  frame ← awrite frame 32 (replicate 6 0);
  frame ← be32_store frame 38 target_ip;
  rtl_send_raw_frame frame 42 s.

(** [src/kernel/net.c:353-372] arp_send_reply *)
Definition arp_send_reply (target_mac : list Z) (target_ip : Z) (s : nsys C M) : outcome (Z * nsys C M) :=
  frame ← put_mac (replicate 42 0) 0 target_mac;
  frame ← arp_fields ARP_OPER_REPLY (n_net s) frame;
  frame ← put_mac frame 32 target_mac;
  frame ← be32_store frame 38 target_ip;
  rtl_send_raw_frame frame 42 s.

(** [src/kernel/net.c:381-393] ip_send_icmp_echo, the Ethernet and IP headers without
    their checksum; lines 427-439 of ip_send_udp write the same fields *)
Definition ip_fields (dst_mac : list Z) (total_length ident protocol src_ip dst_ip : Z) (n : net_state) (frame : list Z)
  : outcome (list Z) :=
  frame ← put_mac frame 0 dst_mac;
  frame ← put_mac frame 6 (mac_of n);
  frame ← be16_store frame 12 ETH_TYPE_IPV4;
  frame ← aset frame 14 0x45;
  frame ← aset frame 15 0;
  frame ← be16_store frame 16 total_length;
  frame ← be16_store frame 18 ident;
  frame ← be16_store frame 20 0;
  frame ← aset frame 22 64;
  frame ← aset frame 23 protocol;
  frame ← be32_store frame 26 src_ip;
  be32_store frame 30 dst_ip.

(** [src/kernel/net.c:381-394] ip_send_icmp_echo, the headers; lines 427-440 of
    ip_send_udp *)
Definition ip_header (dst_mac : list Z) (total_length ident protocol src_ip dst_ip : Z) (n : net_state) (frame : list Z)
  : outcome (list Z) :=
  frame ← ip_fields dst_mac total_length ident protocol src_ip dst_ip n frame;
  header ← aread frame 14 20;
  sum ← checksum16 header;
  be16_store frame 24 sum.

(** [src/kernel/net.c:374-406] ip_send_icmp_echo *)
Definition ip_send_icmp_echo (target_ip : Z) (dst_mac : list Z) (identifier sequence : Z) (s : nsys C M)
  : outcome (Z * nsys C M) :=
  frame ← ip_header dst_mac 52 sequence 1 (ip_of (n_net s)) target_ip (n_net s) (replicate 66 0);
  frame ← aset frame 34 8;
  frame ← aset frame 35 0;
  frame ← be16_store frame 38 identifier;
  frame ← be16_store frame 40 sequence;
  frame ← awrite frame 42 (seqZ 8 24);
  icmp ← aread frame 34 32;
  sum ← checksum16 icmp;
  frame ← be16_store frame 36 sum;
  rtl_send_raw_frame frame 66 s.

(** [src/kernel/net.c:408-449] ip_send_udp; [payload] holds [payload_length] bytes *)
Definition ip_send_udp (src_ip dst_ip src_port dst_port : Z) (payload : list Z) (payload_length : Z) (dst_mac : list Z)
    (s : nsys C M) : outcome (Z * nsys C M) :=
  if decide (payload_length > 548) then Val (-1, s)
  else
    let total_payload := 8 + payload_length in
    let frame_len := 14 + 20 + total_payload in
    frame ← ip_header dst_mac (u16 (20 + total_payload)) (Z.land (uptime s) 0xFFFF) IP_PROTO_UDP src_ip dst_ip (n_net s)
              (replicate 590 0);
    frame ← be16_store frame 34 src_port;
    frame ← be16_store frame 36 dst_port;
    frame ← be16_store frame 38 (u16 total_payload);
    frame ← be16_store frame 40 0;
    bs ← aread payload 0 payload_length;
    frame ← awrite frame 42 bs;
    rtl_send_raw_frame frame frame_len s.

(** [src/kernel/net.c:535-542] dhcp_send_discover, the fixed part of the message; lines
    571-578 of dhcp_send_request are the same *)
Definition dhcp_message (n : net_state) : outcome (list Z) :=
  payload ← aset (replicate 300 0) 0 DHCP_OP_REQUEST;
  payload ← aset payload 1 DHCP_HTYPE_ETHERNET;
  payload ← aset payload 2 6;
  payload ← be32_store payload 4 (xid (g_dhcp n));
  payload ← be16_store payload 10 0x8000;
  payload ← put_mac payload 28 (mac_of n);
  be32_store payload 236 DHCP_MAGIC_COOKIE.

(** [src/kernel/net.c:530-560] dhcp_send_discover *)
Definition dhcp_send_discover (s : nsys C M) : outcome (Z * nsys C M) :=
  payload ← dhcp_message (n_net s);
  payload ← awrite payload 240 [DHCP_OPTION_MSG_TYPE; 1; DHCP_MSG_DISCOVER; DHCP_OPTION_PARAM_REQ_LIST; 3; DHCP_OPTION_SUBNET_MASK;
                                DHCP_OPTION_ROUTER; DHCP_OPTION_SERVER_ID; DHCP_OPTION_END];
  ip_send_udp NET_IPV4_ANY NET_IPV4_BROADCAST UDP_PORT_DHCP_CLIENT UDP_PORT_DHCP_SERVER payload 249 (replicate 6 0xFF) s.

(** [src/kernel/net.c:562-599] dhcp_send_request *)
Definition dhcp_send_request (s : nsys C M) : outcome (Z * nsys C M) :=
  let d := g_dhcp (n_net s) in
  if decide (got_offer d = false \/ server_ip d = 0 \/ offered_ip d = 0) then Val (-1, s)
  else
    payload ← dhcp_message (n_net s);
    payload ← awrite payload 240 [DHCP_OPTION_MSG_TYPE; 1; DHCP_MSG_REQUEST; DHCP_OPTION_REQ_IP; 4];
    payload ← be32_store payload 245 (offered_ip d);
    payload ← awrite payload 249 [DHCP_OPTION_SERVER_ID; 4];
    payload ← be32_store payload 251 (server_ip d);
    payload ← aset payload 255 DHCP_OPTION_END;
    ip_send_udp NET_IPV4_ANY NET_IPV4_BROADCAST UDP_PORT_DHCP_CLIENT UDP_PORT_DHCP_SERVER payload 256 (replicate 6 0xFF) s.

(** ** Receiving *)

(** [src/kernel/net.c:608-636] net_process_arp *)
Definition net_process_arp (payload : list Z) (length : Z) (s : nsys C M) : outcome (nsys C M) :=
  if decide (length < 28) then Val s
  else
    htype ← be16_load payload 0;
    ptype ← be16_load payload 2;
    oper ← be16_load payload 6;
    hlen ← aget payload 4; plen ← aget payload 5;
    if decide (htype <> ARP_HTYPE_ETHERNET \/ ptype <> ARP_PTYPE_IPV4 \/ hlen <> 6 \/ plen <> 4) then Val s
    else
      sha ← aread payload 8 6;
      sip ← be32_load payload 14;
      tip ← be32_load payload 24;
      cache ← arp_cache_update sip sha (uptime s) (g_arp_cache (n_net s));
      let s := put_net (with_arp cache (n_net s)) s in
      if decide (oper = ARP_OPER_REQUEST /\ tip = ip_of (n_net s)) then
        '(_, s) ← arp_send_reply sha sip s; Val s
      else Val s.

(** [src/kernel/net.c:638-667] net_process_icmp *)
Definition net_process_icmp (ip : list Z) (ip_length : Z) (s : nsys C M) : outcome (nsys C M) :=
  b0 ← aget ip 0;
  let ihl := Z.land b0 0x0F * 4 in
  if decide (ip_length < 20 \/ ihl < 20 \/ ip_length < ihl + 8) then Val s
  else
    let icmp := drop (Z.to_nat ihl) ip in
    let icmp_length := ip_length - ihl in
    bs ← aread icmp 0 icmp_length;
    sum ← checksum16 bs;
    if decide (sum <> 0) then Val s
    else
      type ← aget icmp 0;
      ident ← be16_load icmp 4;
      seq ← be16_load icmp 6;
      let p := g_ping_wait (n_net s) in
      if decide (type = 0 /\ ping_active p = true /\ identifier p = ident /\ sequence p = seq) then
        ttl ← aget ip 8;
        let p := Ping (ping_active p) (identifier p) (sequence p) (target_ip p) true ttl
                   (u32 (scheduler_uptime_ms (n_world s))) in
        Val (put_net (with_ping p (n_net s)) s)
      else Val s.

(** [src/kernel/net.c:669-691] net_process_udp *)
Definition net_process_udp (ip : list Z) (ip_length : Z) (s : nsys C M) : outcome (nsys C M) :=
  b0 ← aget ip 0;
  let ihl := Z.land b0 0x0F * 4 in
  if decide (ip_length < 20 \/ ihl < 20 \/ ip_length < ihl + 8) then Val s
  else
    let udp := drop (Z.to_nat ihl) ip in
    udp_len ← be16_load udp 4;
    if decide (udp_len < 8 \/ ip_length < ihl + udp_len) then Val s
    else
      src_port ← be16_load udp 0;
      dst_port ← be16_load udp 2;
      if decide (src_port = UDP_PORT_DHCP_SERVER /\ dst_port = UDP_PORT_DHCP_CLIENT) then
        d ← dhcp_process_packet (drop 8 udp) (udp_len - 8) (mac_of (n_net s)) (g_dhcp (n_net s));
        Val (put_net (with_dhcp d (n_net s)) s)
      else Val s.

(** [src/kernel/net.c:693-740] net_process_ipv4 *)
Definition net_process_ipv4 (payload : list Z) (length : Z) (s : nsys C M) : outcome (nsys C M) :=
  if decide (length < 20) then Val s
  else
    b0 ← aget payload 0;
    let version := Z.land (Z.shiftr b0 4) 0x0F in
    let ihl := Z.land b0 0x0F * 4 in
    if decide (version <> 4 \/ ihl < 20 \/ length < ihl) then Val s
    else
      total_length ← be16_load payload 2;
      if decide (total_length < ihl \/ total_length > length) then Val s
      else
        header ← aread payload 0 ihl;
        sum ← checksum16 header;
        if decide (sum <> 0) then Val s
        else
          flags_fragment ← be16_load payload 6;
          if decide (Z.land flags_fragment 0x3FFF <> 0) then Val s
          else
            dst_ip ← be32_load payload 16;
            protocol ← aget payload 9;
            let mine := ip_of (n_net s) in
            if decide (protocol = IP_PROTO_UDP) then
              if decide (dst_ip = mine \/ dst_ip = NET_IPV4_BROADCAST \/ mine = NET_IPV4_ANY)
              then net_process_udp payload total_length s else Val s
            else if decide (dst_ip <> mine) then Val s
            else if decide (protocol = IP_PROTO_ICMP) then net_process_icmp payload total_length s
            else Val s.

(** [src/kernel/net.c:742-756] net_process_frame *)
Definition net_process_frame (frame : list Z) (length : Z) (s : nsys C M) : outcome (nsys C M) :=
  if decide (length < 14) then Val s
  else
    eth_type ← be16_load frame 12;
    if decide (eth_type = ETH_TYPE_ARP) then net_process_arp (drop 14 frame) (length - 14) s
    else if decide (eth_type = ETH_TYPE_IPV4) then net_process_ipv4 (drop 14 frame) (length - 14) s
    else Val s.

Definition count_rx (n : net_state) : net_state :=
  let c := n_counters n in with_counters (Counters (u64 (g_rx_frames c + 1)) (g_tx_frames c) (g_rx_dropped c)) n.
Definition count_dropped (n : net_state) : net_state :=
  let c := n_counters n in with_counters (Counters (g_rx_frames c) (g_tx_frames c) (u64 (g_rx_dropped c + 1))) n.
Definition set_rx_offset (o : Z) (n : net_state) : net_state :=
  let r := n_rtl n in
  with_rtl (Rtl (g_rtl_io_base r) (g_rtl_irq_line r) (g_rtl_ready r) (g_mac r) (g_tx_buffer r) o (g_tx_index r)) n.

(** [src/kernel/net.c:784-785] rtl_poll_rx, the offset behind a packet *)
Definition next_rx_offset (offset length : Z) : Z :=
  u16 (Z.land (u32 (offset + length + 4 + 3)) (u32_not 3)) mod 8192.

(** [src/kernel/net.c:765-787] rtl_poll_rx, one turn of the loop; the flag tells whether
    a packet was processed *)
Definition poll_packet (s : nsys C M) : outcome (bool * nsys C M) :=
  let '(cr, h) := io_in8 (reg RTL_REG_CR (n_net s)) (hw s) in
  let s := put_hw h s in
  if decide (Z.land cr RTL_CR_BUFE <> 0) then Val (false, s)
  else
    let offset := g_rx_read_offset (n_rtl (n_net s)) in
    let packet := drop (Z.to_nat offset) (g_rx_buffer (hw s)) in
    status ← le_load packet 0 2;
    length ← le_load packet 2 2;
    if decide (length < 4 \/ length > 1792) then Val (false, put_net (count_dropped (n_net s)) s)
    else
      s ← (if decide (Z.land status 1 <> 0) then
             s ← net_process_frame (drop 4 packet) (length - 4) s;
             Val (put_net (count_rx (n_net s)) s)
           else Val (put_net (count_dropped (n_net s)) s));
      let offset := next_rx_offset offset length in
      let s := put_net (set_rx_offset offset (n_net s)) s in
      Val (true, put_hw (io_out16 (reg RTL_REG_CAPR (n_net s)) (Z.land (u32 (offset - 16)) 0x1FFF) (hw s)) s).

(** [src/kernel/net.c:765-793] rtl_poll_rx, the loop; [n] more packets may follow the
    next one *)
Fixpoint poll_loop (n : nat) (s : nsys C M) : outcome (nsys C M) :=
  '(more, s) ← poll_packet s;
  if (more : bool) then match n with O => Val s | S n => poll_loop n s end else Val s.

(** [src/kernel/net.c:758-793] rtl_poll_rx *)
Definition rtl_poll_rx (s : nsys C M) : outcome (nsys C M) :=
  if g_rtl_ready (n_rtl (n_net s)) then poll_loop 64 s else Val s.

(** ** Bringing the adapter up *)

(** [src/kernel/net.c:797-801] rtl_wait_for_reset_clear, the loop *)
Fixpoint reset_poll (n : nat) (port : Z) (h : M) : bool * M :=
  match n with
  | O => (false, h)
  | S n =>
      let '(cr, h) := io_in8 port h in
      if decide (Z.land cr RTL_CR_RST = 0) then (true, h) else reset_poll n port h
  end.

(** [src/kernel/net.c:795-803] rtl_wait_for_reset_clear *)
Definition rtl_wait_for_reset_clear (s : nsys C M) : bool * nsys C M :=
  let '(ok, h) := reset_poll (Z.to_nat 1000000) (reg RTL_REG_CR (n_net s)) (hw s) in (ok, put_hw h s).

(** [src/kernel/net.c:841-843] rtl_hw_init, reading the address; [n] bytes are left *)
Fixpoint read_mac (n : nat) (i : Z) (s : nsys C M) : outcome (nsys C M) :=
  match n with
  | O => Val s
  | S n =>
      let '(b, h) := io_in8 (reg (RTL_REG_IDR0 + i) (n_net s)) (hw s) in
      let r := n_rtl (n_net s) in
      mac ← aset (g_mac r) i b;
      let r := Rtl (g_rtl_io_base r) (g_rtl_irq_line r) (g_rtl_ready r) mac (g_tx_buffer r) (g_rx_read_offset r) (g_tx_index r) in
      read_mac n (i + 1) (put_net (with_rtl r (n_net s)) (put_hw h s))
  end.

Definition out8 (offset value : Z) (s : nsys C M) : nsys C M := put_hw (io_out8 (reg offset (n_net s)) value (hw s)) s.
Definition out16 (offset value : Z) (s : nsys C M) : nsys C M := put_hw (io_out16 (reg offset (n_net s)) value (hw s)) s.
Definition out32 (offset value : Z) (s : nsys C M) : nsys C M := put_hw (io_out32 (reg offset (n_net s)) value (hw s)) s.

(** [src/kernel/net.c:805-848] rtl_hw_init *)
Definition rtl_hw_init (a : net_adapter) (s : nsys C M) : outcome (bool * nsys C M) :=
  let r := n_rtl (n_net s) in
  let r := Rtl (u16 (Z.land (bar0 a) (u32_not 3))) (irq_line a) (g_rtl_ready r) (g_mac r) (g_tx_buffer r)
             (g_rx_read_offset r) (g_tx_index r) in
  let s := put_net (with_rtl r (n_net s)) s in
  if decide (Z.land (bar0 a) 1 = 0) then Val (false, s)
  else
    let '(command, h) := pci_config_read32 (ad_bus a) (ad_slot a) (ad_func a) 0x04 (hw s) in
    let h := pci_config_write32 (ad_bus a) (ad_slot a) (ad_func a) 0x04 (Z.lor command 5) h in
    let s := out8 RTL_REG_CR RTL_CR_RST (out8 RTL_REG_CONFIG1 0 (put_hw h s)) in
    let '(ok, s) := rtl_wait_for_reset_clear s in
    if negb ok then Val (false, s)
    else
      let s := out32 RTL_REG_RBSTART (u32 (rx_address (hw s))) s in
      let s := out16 RTL_REG_ISR 0xFFFF (out16 RTL_REG_IMR
                 (bits [RTL_ISR_ROK; RTL_ISR_RER; RTL_ISR_TOK; RTL_ISR_TER;
                        RTL_ISR_RXOVW; RTL_ISR_FIFOOVW; RTL_ISR_LENCHG; RTL_ISR_SERR]) s) in
      let s := out32 RTL_REG_TCR 0x03000700 (out32 RTL_REG_RCR
                 (bits [2 ^ 7; 2 ^ 3; 2 ^ 2; 2 ^ 1; 2 ^ 0; Z.shiftl 7 13]) s) in
      let s := put_net (set_rx_offset 0 (n_net s)) s in
      let s := out8 RTL_REG_CR (bits [RTL_CR_RE; RTL_CR_TE]) (out16 RTL_REG_CAPR 0xFFF0 s) in
      s ← read_mac 6 0 s;
      let r := n_rtl (n_net s) in
      let r := Rtl (g_rtl_io_base r) (g_rtl_irq_line r) true (g_mac r) (g_tx_buffer r) (g_rx_read_offset r) 0 in
      Val (true, put_net (with_rtl r (n_net s)) s).

(** [src/kernel/net.c:986-1006] net_init, an Ethernet controller that was found *)
Definition add_adapter (bus slot func vendor device : Z) (s : nsys C M) : outcome (nsys C M) :=
  let n := n_net s in
  if decide (g_adapter_count n < NET_MAX_ADAPTERS) then
    let i := g_adapter_count n in
    let '(bar0, h) := pci_config_read32 bus slot func 0x10 (hw s) in
    let '(irq_reg, h) := pci_config_read32 bus slot func 0x3C h in
    let a := Adapter bus slot func vendor device bar0 (Z.land irq_reg 0xFF) false in
    adapters ← aset (g_adapters n) i a;
    let s := put_net (with_adapters adapters (i + 1) n) (put_hw h s) in
    if decide (g_rtl_ready (n_rtl (n_net s)) = false /\ vendor = RTL8139_VENDOR_ID /\ device = RTL8139_DEVICE_ID) then
      '(ok, s) ← rtl_hw_init a s;
      if (ok : bool) then
        adapters ← aset (g_adapters (n_net s)) i (Adapter bus slot func vendor device bar0 (Z.land irq_reg 0xFF) true);
        Val (put_net (with_adapters adapters (g_adapter_count (n_net s)) (n_net s)) s)
      else Val s
    else Val s
  else Val s.

(** [src/kernel/net.c:963-985] net_init, one function of a device *)
Definition probe_function (bus slot func : Z) (s : nsys C M) : outcome (nsys C M) :=
  let '(id, h) := pci_config_read32 bus slot func 0x00 (hw s) in
  let vendor := Z.land id 0xFFFF in
  let device := Z.land (Z.shiftr id 16) 0xFFFF in
  if decide (vendor = 0xFFFF) then Val (put_hw h s)
  else
    let '(class_reg, h) := pci_config_read32 bus slot func 0x08 h in
    let s := put_hw h s in
    if decide (Z.land (Z.shiftr class_reg 24) 0xFF <> 2 \/ Z.land (Z.shiftr class_reg 16) 0xFF <> 0) then Val s
    else add_adapter bus slot func vendor device s.

(** [src/kernel/net.c:950-1008] net_init, one slot *)
Definition probe_slot (bus slot : Z) (s : nsys C M) : outcome (nsys C M) :=
  let '(id, h) := pci_config_read32 bus slot 0 0x00 (hw s) in
  if decide (Z.land id 0xFFFF = 0xFFFF) then Val (put_hw h s)
  else
    let '(reg0c, h) := pci_config_read32 bus slot 0 0x0C h in
    let header := Z.land (Z.shiftr reg0c 16) 0xFF in
    for_loop (if decide (Z.land header 0x80 <> 0) then 8 else 1) 0 (probe_function bus slot) (put_hw h s).

(** [src/kernel/net.c:935-946] net_init, the variables *)
Definition net_reset (n : net_state) : net_state :=
  let r := n_rtl n in
  Net (g_adapters n) 0
    (Rtl (g_rtl_io_base r) (g_rtl_irq_line r) false (g_mac r) (g_tx_buffer r) (g_rx_read_offset r) (g_tx_index r))
    (Interface 0 NET_DEFAULT_GW NET_DEFAULT_MASK false) (Counters 0 0 0)
    (replicate 4 zero_arp) zero_ping zero_dhcp.

Definition print_net (f : C -> outcome C) (s : nsys C M) : outcome (nsys C M) :=
  w ← print f (n_world s); Val (NSys (n_net s) w).

(** [src/kernel/net.c:931-1014] net_init *)
Definition net_init (s : nsys C M) : outcome (nsys C M) :=
  let s := put_net (net_reset (n_net s)) s in
  s ← for_loop 256 0 (fun bus s => for_loop 32 0 (probe_slot bus) s) s;
  s ← print_net (console_printf (str "net: ethernet adapters detected=%u" ++ [10]) [VaWord (u32 (g_adapter_count (n_net s)))]) s;
  let r := n_rtl (n_net s) in
  if g_rtl_ready r then
    print_net (console_printf (str "net0: rtl8139 ready io=0x%x irq=%u mac=%x:%x:%x:%x:%x:%x" ++ [10])
      (VaWord (g_rtl_io_base r) :: VaWord (g_rtl_irq_line r) :: (VaWord <$> take 6 (g_mac r)))) s
  else print_net (console_writeln (str "net0: rtl8139 not bound") []) s.

(** [src/kernel/net.c:1042-1057] net_handle_irq *)
Definition net_handle_irq (s : nsys C M) : outcome (nsys C M) :=
  if g_rtl_ready (n_rtl (n_net s)) then
    let '(isr, h) := io_in16 (reg RTL_REG_ISR (n_net s)) (hw s) in
    let s := put_hw h s in
    if decide (isr = 0) then Val s
    else
      let s := out16 RTL_REG_ISR isr s in
      if decide (Z.land isr (bits [RTL_ISR_ROK; RTL_ISR_RER; RTL_ISR_RXOVW; RTL_ISR_FIFOOVW; RTL_ISR_LENCHG]) <> 0) then rtl_poll_rx s else Val s
  else Val s.

(** ** Waiting for the network

    Each loop gives up when the clock has advanced by its timeout; [fuel] bounds
    the number of times it halts the processor.  An interrupt taken meanwhile may
    stop the machine, and then the call does not return. *)

(** What a call leaves when the machine went on, or stopped, while it waited. *)
Definition resume {B} (d : B) (p : power (nsys C M)) (k : nsys C M -> outcome (power (B * nsys C M)))
  : outcome (power (B * nsys C M)) :=
  match p with
  | Running s => k s
  | Halted s => Val (Halted (d, s))
  | Rebooted s => Val (Rebooted (d, s))
  end.

(** The rest of a computation whose first part may have stopped the machine. *)
Definition andthen {A B} (d : B) (p : power (A * nsys C M)) (k : A -> nsys C M -> outcome (power (B * nsys C M)))
  : outcome (power (B * nsys C M)) :=
  match p with
  | Running (a, s) => k a s
  | Halted (_, s) => Val (Halted (d, s))
  | Rebooted (_, s) => Val (Rebooted (d, s))
  end.

Context (hlt : nsys C M -> outcome (power (nsys C M))).

Definition expired (start timeout : Z) (s : nsys C M) : bool := bool_decide (u64 (uptime s - start) >= timeout).

(** [src/kernel/net.c:862-877] net_resolve_arp, the loop *)
Fixpoint resolve_loop (fuel : nat) (target_ip start timeout next_probe : Z) (s : nsys C M)
  : outcome (power (option (list Z) * nsys C M)) :=
  if expired start timeout s then Val (Running (None, s))
  else
    match fuel with
    | O => Stop OutOfFuel
    | S fuel =>
        let now := uptime s in
        '(next_probe, s) ← (if decide (now >= next_probe) then
                              '(_, s) ← arp_send_request target_ip s; Val (u64 (now + 50), s)
                            else Val (next_probe, s));
        s ← rtl_poll_rx s;
        match arp_cache_lookup target_ip (g_arp_cache (n_net s)) with
        | Some mac => Val (Running (Some mac, s))
        | None =>
            p ← hlt s;
            resume None p (resolve_loop fuel target_ip start timeout next_probe)
        end
    end.

(** [src/kernel/net.c:854-878] net_resolve_arp; the address found *)
Definition net_resolve_arp (fuel : nat) (target_ip timeout_ticks : Z) (s : nsys C M)
  : outcome (power (option (list Z) * nsys C M)) :=
  match arp_cache_lookup target_ip (g_arp_cache (n_net s)) with
  | Some mac => Val (Running (Some mac, s))
  | None => resolve_loop fuel target_ip (uptime s) timeout_ticks (uptime s) s
  end.

(** [src/kernel/net.c:896-903] net_dhcp_acquire, waiting until the lease satisfies
    [have] or the time is up; the loop of lines 914-925 waits in the same way *)
Fixpoint dhcp_wait (fuel : nat) (have : dhcp_lease -> bool) (start timeout : Z) (s : nsys C M)
  : outcome (power (bool * nsys C M)) :=
  if expired start timeout s then Val (Running (false, s))
  else
    match fuel with
    | O => Stop OutOfFuel
    | S fuel =>
        s ← rtl_poll_rx s;
        if have (g_dhcp (n_net s)) then Val (Running (true, s))
        else p ← hlt s; resume false p (dhcp_wait fuel have start timeout)
    end.

Definition set_dhcp_active (b : bool) (s : nsys C M) : nsys C M :=
  let d := g_dhcp (n_net s) in
  put_net (with_dhcp (Lease b (xid d) (offered_ip d) (server_ip d) (subnet_mask d) (router d) (got_offer d) (got_ack d)) (n_net s)) s.

(** [src/kernel/net.c:918-921] net_dhcp_acquire, taking the lease *)
Definition take_lease (s : nsys C M) : nsys C M :=
  let n := n_net s in
  let d := g_dhcp n in
  let mask := if decide (subnet_mask d <> 0) then subnet_mask d else NET_DEFAULT_MASK in
  let gw := if decide (router d <> 0) then router d else NET_DEFAULT_GW in
  set_dhcp_active false (put_net (with_if (Interface (offered_ip d) gw mask (g_connected (n_if n))) n) s).

(** [src/kernel/net.c:880-929] net_dhcp_acquire *)
Definition net_dhcp_acquire (fuel : nat) (timeout_ticks : Z) (s : nsys C M) : outcome (power (bool * nsys C M)) :=
  if g_rtl_ready (n_rtl (n_net s)) then
    let id := u32 (Z.lxor (u64 (Z.shiftl (uptime s) 16)) 0x4D474443) in
    let s := put_net (with_dhcp (Lease true id 0 0 0 0 false false) (n_net s)) s in
    '(status, s) ← dhcp_send_discover s;
    if decide (status <> 0) then Val (Running (false, set_dhcp_active false s))
    else
      p ← dhcp_wait fuel got_offer (uptime s) timeout_ticks s;
      andthen false p (fun _ s =>
        if negb (got_offer (g_dhcp (n_net s))) then Val (Running (false, set_dhcp_active false s))
        else
          '(status, s) ← dhcp_send_request s;
          if decide (status <> 0) then Val (Running (false, set_dhcp_active false s))
          else
            p ← dhcp_wait fuel got_ack (uptime s) timeout_ticks s;
            andthen false p (fun acked s =>
              if (acked : bool) then Val (Running (true, take_lease s))
              else Val (Running (false, set_dhcp_active false s))))
  else Val (Running (false, s)).

Definition ip_text (ip : Z) : outcome (list Z) := out ← format_ip ip (replicate 20 0) 20; Val (cstr out).
Definition finished (s : outcome (nsys C M)) : outcome (power (unit * nsys C M)) := s ← s; Val (Running (tt, s)).

(** [src/kernel/net.c:1016-1040] net_startup_connect *)
Definition net_startup_connect (fuel : nat) (s : nsys C M) : outcome (power (unit * nsys C M)) :=
  if g_rtl_ready (n_rtl (n_net s)) then
    s ← print_net (console_writeln (str "net0: startup DHCP begin") []) s;
    p ← net_dhcp_acquire fuel 300 s;
    andthen tt p (fun leased s =>
      let i := n_if (n_net s) in
      let i := if (leased : bool) then Interface (g_ip_addr i) (g_ip_gw i) (g_ip_mask i) true
               else Interface NET_DEFAULT_IP NET_DEFAULT_GW NET_DEFAULT_MASK true in
      let s := put_net (with_if i (n_net s)) s in
      ip ← ip_text (g_ip_addr i);
      gw ← ip_text (g_ip_gw i);
      finished (print_net (console_printf
        (if (leased : bool) then str "net0: DHCP lease acquired ip=%s gw=%s" ++ [10]
         else str "net0: DHCP timeout, fallback static ip=%s gw=%s" ++ [10])
        [VaStr (Some ip); VaStr (Some gw)]) s))
  else Val (Running (tt, s)).

(** [src/kernel/net.c:1093-1106] net_scan_nearby *)
Definition net_scan_nearby (fuel : nat) (s : nsys C M) : outcome (power (unit * nsys C M)) :=
  if g_rtl_ready (n_rtl (n_net s)) then
    s ← rtl_poll_rx s;
    p ← net_resolve_arp fuel (g_ip_gw (n_if (n_net s))) 100 s;
    andthen tt p (fun mac s =>
      finished (print_net (console_writeln
        (match mac with Some _ => str "scan: gateway ARP reachable" | None => str "scan: gateway ARP timeout" end) []) s))
  else finished (print_net (console_writeln (str "scan: net0 down (rtl8139 not ready)") []) s).

(** [src/kernel/net.c:1136-1155] net_connect_target *)
Definition net_connect_target (fuel : nat) (target : option (list Z)) (s : nsys C M) : outcome (power (Z * nsys C M)) :=
  match target with
  | None | Some [] => Val (Running (-1, s))
  | Some target =>
      if negb (g_rtl_ready (n_rtl (n_net s))) then Val (Running (-2, s))
      else if decide (vstrcmp target (str "net0") <> 0 /\ vstrcmp target (str "default") <> 0 /\ vstrcmp target (str "up") <> 0)
      then Val (Running (-4, s))
      else
        p ← net_resolve_arp fuel (g_ip_gw (n_if (n_net s))) 100 s;
        andthen (-3) p (fun mac s =>
          match mac with
          | None => Val (Running (-3, s))
          | Some _ =>
              let i := n_if (n_net s) in
              Val (Running (0, put_net (with_if (Interface (g_ip_addr i) (g_ip_gw i) (g_ip_mask i) true) (n_net s)) s))
          end)
  end.

(** ** ping *)

(** [src/kernel/net.c:1177-1179] net_ping, the loopback replies; [n] are left *)
Fixpoint loopback_replies (n : nat) (seq : Z) (s : nsys C M) : outcome (nsys C M) :=
  match n with
  | O => Val s
  | S n =>
      s ← print_net (console_printf (str "64 bytes from 127.0.0.1: icmp_seq=%u ttl=64 time=0 ms" ++ [10]) [VaWord (u32 (seq + 1))]) s;
      loopback_replies n (seq + 1) s
  end.

Definition set_ping_active (b : bool) (s : nsys C M) : nsys C M :=
  let p := g_ping_wait (n_net s) in
  put_net (with_ping (Ping b (identifier p) (sequence p) (target_ip p) (received p) (reply_ttl p) (reply_ms p)) (n_net s)) s.

(** [src/kernel/net.c:1225-1239] net_ping, waiting for one reply *)
Fixpoint ping_wait_loop (fuel : nat) (ip : list Z) (seq start_ms start_ticks : Z) (s : nsys C M)
  : outcome (power (bool * nsys C M)) :=
  if expired start_ticks MGCORE_HZ s then Val (Running (false, s))
  else
    match fuel with
    | O => Stop OutOfFuel
    | S fuel =>
        s ← rtl_poll_rx s;
        let p := g_ping_wait (n_net s) in
        if received p then
          let rtt := u64 (scheduler_uptime_ms (n_world s) - start_ms) in
          s ← print_net (console_printf (str "64 bytes from %s: icmp_seq=%u ttl=%u time=%u ms" ++ [10])
                           [VaStr (Some ip); VaWord (u32 (seq + 1)); VaWord (reply_ttl p); VaWord (u32 rtt)]) s;
          Val (Running (true, s))
        else
          q ← hlt s; resume false q (ping_wait_loop fuel ip seq start_ms start_ticks)
    end.

(** [src/kernel/net.c:1208-1246] net_ping, the loop; [n] requests are left *)
Fixpoint ping_loop (fuel n : nat) (seq dst_ip : Z) (dst_mac ip : list Z) (ident received : Z) (s : nsys C M)
  : outcome (power (Z * nsys C M)) :=
  match n with
  | O => Val (Running (received, s))
  | S n =>
      let start_ms := scheduler_uptime_ms (n_world s) in
      let start_ticks := uptime s in
      let s := put_net (with_ping (Ping true ident (u16 (seq + 1)) dst_ip false 0 0) (n_net s)) s in
      '(status, s) ← ip_send_icmp_echo dst_ip dst_mac ident (u16 (seq + 1)) s;
      if decide (status <> 0) then
        s ← print_net (console_printf (str "icmp_seq=%u send failed" ++ [10]) [VaWord (u32 (seq + 1))]) s;
        ping_loop fuel n (seq + 1) dst_ip dst_mac ip ident received (set_ping_active false s)
      else
        p ← ping_wait_loop fuel ip seq start_ms start_ticks s;
        andthen received p (fun ok s =>
          s ← (if (ok : bool) then Val s
               else print_net (console_printf (str "icmp_seq=%u timeout" ++ [10]) [VaWord (u32 (seq + 1))]) s);
          ping_loop fuel n (seq + 1) dst_ip dst_mac ip ident (if (ok : bool) then received + 1 else received)
            (set_ping_active false s))
  end.

(** [src/kernel/net.c:1161-1255] net_ping *)
Definition net_ping (fuel : nat) (target : option (list Z)) (count : Z) (s : nsys C M) : outcome (power (Z * nsys C M)) :=
  let fail (text : list Z) (s : nsys C M) := s ← print_net (console_writeln text []) s; Val (Running (-1, s)) in
  match target with
  | None | Some [] => fail (str "ping: target required") s
  | Some target =>
      if decide (vstrcmp target (str "localhost") = 0 \/ vstrcmp target (str "127.0.0.1") = 0) then
        s ← print_net (console_writeln (str "PING localhost (loopback):") []) s;
        s ← loopback_replies (Z.to_nat (if decide (count <> 0) then count else 4)) 0 s;
        Val (Running (0, s))
      else
        match parse_ipv4 (Some target) with
        | None => fail (str "ping: target must be literal IPv4 (example: 8.8.8.8)") s
        | Some dst_ip =>
            if negb (g_rtl_ready (n_rtl (n_net s))) then fail (str "ping: network adapter down") s
            else
              let count := if decide (count = 0) then 4 else count in
              let next_hop := route_next_hop dst_ip (n_if (n_net s)) in
              p ← net_resolve_arp fuel next_hop 200 s;
              andthen (-1) p (fun mac s =>
                match mac with
                | None =>
                    ip ← ip_text next_hop;
                    s ← print_net (console_printf (str "ping: ARP resolve failed for next-hop %s" ++ [10]) [VaStr (Some ip)]) s;
                    Val (Running (-1, s))
                | Some dst_mac =>
                    ip ← ip_text dst_ip;
                    s ← print_net (console_printf (str "PING %s from net0:" ++ [10]) [VaStr (Some ip)]) s;
                    let ident := Z.lxor (Z.land (uptime s) 0xFFFF) 0x4D47 in
                    p ← ping_loop fuel (Z.to_nat count) 0 dst_ip dst_mac ip ident 0 s;
                    andthen (-1) p (fun received s =>
                      s ← print_net (console_printf (str "--- %s ping statistics ---" ++ [10]) [VaStr (Some ip)]) s;
                      s ← print_net (console_printf (str "%u packets transmitted, %u received, %u%% packet loss" ++ [10])
                            [VaWord (u32 count); VaWord (u32 received);
                             VaWord (u32 (u64 (u64 (count - received) * 100) / count))]) s;
                      Val (Running (if decide (received > 0) then 0 else -1, s)))
                end)
        end
  end.

(** ** Reports *)

(** [src/kernel/net.c:1059-1061] net_adapter_count *)
Definition net_adapter_count (s : nsys C M) : Z := g_adapter_count (n_net s).
(** [src/kernel/net.c:1157-1159] net_connected_name *)
Definition net_connected_name (s : nsys C M) : option (list Z) :=
  if g_connected (n_if (n_net s)) then Some (str "net0") else None.

(** [src/kernel/net.c:1071-1081] net_dump_adapters, one line *)
Definition dump_adapter (i : Z) (s : nsys C M) : outcome (nsys C M) :=
  a ← aget (g_adapters (n_net s)) i;
  print_net (console_printf (str "eth%u: pci=%u:%u.%u vendor=%x device=%x irq=%u driver=%s state=%s" ++ [10])
    [VaWord (u32 i); VaWord (ad_bus a); VaWord (ad_slot a); VaWord (ad_func a); VaWord (vendor_id a);
     VaWord (ad_device_id a); VaWord (irq_line a);
     VaStr (Some (if decide (vendor_id a = RTL8139_VENDOR_ID /\ ad_device_id a = RTL8139_DEVICE_ID) then str "rtl8139" else str "unbound"));
     VaStr (Some (if bound a then str "up" else str "down"))]) s.

(** [src/kernel/net.c:1063-1083] net_dump_adapters *)
Definition net_dump_adapters (s : nsys C M) : outcome (nsys C M) :=
  if decide (g_adapter_count (n_net s) = 0) then
    print_net (console_writeln (str "net: no ethernet controller detected") []) s
  else for_loop (Z.to_nat (g_adapter_count (n_net s))) 0 dump_adapter s.

(** [src/kernel/net.c:1085-1091] net_dump_driver_tools *)
Definition net_dump_driver_tools (s : nsys C M) : outcome (nsys C M) :=
  s ← print_net (console_writeln (str "network drivers:") []) s;
  s ← print_net (console_writeln (str "  rtl8139       : implemented (active target)") []) s;
  s ← print_net (console_writeln (str "  e1000/e1000e  : not implemented") []) s;
  s ← print_net (console_writeln (str "  virtio-net    : not implemented") []) s;
  print_net (console_writeln (str "  ne2k-pci      : not implemented") []) s.

(** [src/kernel/net.c:1108-1134] net_dump_nearby *)
Definition net_dump_nearby (s : nsys C M) : outcome (nsys C M) :=
  let n := n_net s in
  ip ← ip_text (g_ip_addr (n_if n));
  gw ← ip_text (g_ip_gw (n_if n));
  mask ← ip_text (g_ip_mask (n_if n));
  let arp_count := Z.of_nat (length (filter (fun e => arp_valid e = true) (g_arp_cache n))) in
  s ← print_net (console_printf (str "net0: driver=rtl8139 state=%s connected=%s" ++ [10])
        [VaStr (Some (if g_rtl_ready (n_rtl n) then str "up" else str "down"));
         VaStr (Some (if g_connected (n_if n) then str "yes" else str "no"))]) s;
  s ← print_net (console_printf (str "net0: ip=%s mask=%s gw=%s" ++ [10]) [VaStr (Some ip); VaStr (Some mask); VaStr (Some gw)]) s;
  print_net (console_printf (str "net0: rx=%u tx=%u drop=%u arp_entries=%u" ++ [10])
    [VaWord (u32 (g_rx_frames (n_counters n))); VaWord (u32 (g_tx_frames (n_counters n)));
     VaWord (u32 (g_rx_dropped (n_counters n))); VaWord arp_count]) s.

End Net.
