(* ===== verification/NetSpec.v ===== *)
(** What the network code of [Net.v] does: its invariant, that no bytes the adapter
    can deliver make it read outside its buffers, and what it sends. *)

From Stdlib Require Import ZArith Lia Ascii.
From stdpp Require Import base list strings.
From S2P Require Import Prelude KString Pmm Vmm Terminal Ports Task Sched Inet NetConst Net.
Open Scope Z_scope.

(** What the adapter leaves in the receive buffer: bytes, as many as the buffer has. *)
Class NicLaws (M : Type) `{Nic M} := {
  rx_length h : Z.of_nat (length (g_rx_buffer h)) = RTL_RX_BUFFER_SIZE;
  rx_bytes h : Forall in_u8 (g_rx_buffer h);
}.

(** * The invariant *)

Record net_wf (n : net_state) : Prop := {
  nw_mac : length (mac_of n) = 6%nat;
  nw_cache : length (g_arp_cache n) = 4%nat;
  nw_macs : Forall (fun e => length (arp_mac e) = 6%nat) (g_arp_cache n);
  nw_slots : length (g_tx_buffer (n_rtl n)) = 4%nat;
  nw_slot : Forall (fun b => Z.of_nat (length b) = RTL_TX_BUFFER_SIZE) (g_tx_buffer (n_rtl n));
  nw_index : 0 <= g_tx_index (n_rtl n) < 4;
  nw_adapters : 0 <= g_adapter_count n <= Z.of_nat (length (g_adapters n));
  nw_offset : 0 <= g_rx_read_offset (n_rtl n) < 8192 /\ g_rx_read_offset (n_rtl n) mod 4 = 0;
}.

(** ** The ARP cache *)

Lemma arp_slot_range cache : forall i ip free_slot,
  (forall f, free_slot = Some f -> 0 <= f < i) -> 0 <= i ->
  match arp_slot cache i ip free_slot with
  | inl j => i <= j < i + Z.of_nat (length cache)
             /\ exists e, cache !! Z.to_nat (j - i) = Some e /\ arp_valid e = true /\ arp_ip e = ip
             /\ forall k e', (k < Z.to_nat (j - i))%nat -> cache !! k = Some e' -> ~ (arp_valid e' = true /\ arp_ip e' = ip)
  | inr None => free_slot = None /\ Forall (fun e => arp_valid e = true /\ arp_ip e <> ip) cache
  | inr (Some f) => 0 <= f < i + Z.of_nat (length cache)
      /\ (free_slot = Some f \/ free_slot = None /\ i <= f /\ exists e, cache !! Z.to_nat (f - i) = Some e /\ arp_valid e = false)
      /\ Forall (fun e => ~ (arp_valid e = true /\ arp_ip e = ip)) cache
  end.
Proof.
  induction cache as [|e cache IH]; intros i ip free_slot Hf Hi; cbn [arp_slot length].
  { destruct free_slot as [f|]; [|by split]. specialize (Hf f eq_refl). split; [lia|]. split; [by left|done]. }
  case_decide as Hhit.
  { split; [lia|]. exists e. rewrite Z.sub_diag. repeat split; try apply Hhit; try done. intros k e' Hk. lia. }
  set (free' := if decide _ then Some i else free_slot).
  assert (forall f, free' = Some f -> 0 <= f < i + 1) as Hf'.
  { intros f. unfold free'. case_decide; [intros [= <-]; lia|]. intros Hs%Hf. lia. }
  specialize (IH (i + 1) ip free' Hf' ltac:(lia)). destruct (arp_slot cache (i + 1) ip free') as [j|[f|]].
  - destruct IH as (Hj & e' & He' & Hv & Hip & Hb). split; [lia|]. exists e'.
    replace (Z.to_nat (j - i)) with (S (Z.to_nat (j - (i + 1)))) by lia. split; [done|]. split; [done|]. split; [done|].
    intros [|k] e2 Hk H2; [by injection H2 as <-|]. apply (Hb k); [lia|done].
  - destruct IH as (Hfr & Hfree & Hall). split; [lia|]. split; [|by constructor].
    unfold free' in Hfree. case_decide as Hd; [|destruct Hfree as [?|(Hn & Hif & e' & He' & Hv)]; [by left|]].
    + right. destruct Hd as [Hv Hnone], Hfree as [[= <-]|[? _]]; [|done]. split; [done|]. split; [lia|].
      exists e. by rewrite Z.sub_diag.
    + right. split; [done|]. split; [lia|]. exists e'. by replace (Z.to_nat (f - i)) with (S (Z.to_nat (f - (i + 1)))) by lia.
  - destruct IH as [Hn Hall]. unfold free' in Hn. case_decide as Hd; [done|]. split; [done|]. constructor; [|done].
    destruct (arp_valid e); [|naive_solver]. split; [done|]. naive_solver.
Qed.

(** The entry an update writes. *)
Lemma arp_update_spec ip mac now cache :
  length cache = 4%nat -> length mac = 6%nat ->
  exists i e, arp_cache_update ip mac now cache = Val (<[i := Arp ip mac true now]> cache) /\ cache !! i = Some e
    /\ (arp_valid e = true /\ arp_ip e = ip \/ Forall (fun e => ~ (arp_valid e = true /\ arp_ip e = ip)) cache)
    /\ (arp_valid e = true -> arp_ip e <> ip -> i = 0%nat /\ Forall (fun e => arp_valid e = true) cache)
    /\ forall k e', (k < i)%nat -> cache !! k = Some e' -> ~ (arp_valid e' = true /\ arp_ip e' = ip).
Proof.
  intros Hl Hm. unfold arp_cache_update. rewrite aread_in_range by lia. cbn [mbind outcome_bind].
  assert (take (Z.to_nat 6) (drop (Z.to_nat 0) mac) = mac) as -> by (change (Z.to_nat 0) with 0%nat; rewrite drop_0; apply take_ge; lia).
  pose proof (arp_slot_range cache 0 ip None ltac:(done) ltac:(lia)) as Hslot. rewrite Hl in Hslot.
  destruct (arp_slot cache 0 ip None) as [i|[f|]].
  - destruct Hslot as (Hi & e & He & Hv & Hip & Hb). rewrite Z.sub_0_r in *. rewrite (aget_Some _ _ e) by (done || lia).
    cbn [mbind outcome_bind]. rewrite aset_in_range by (rewrite Hl; lia). rewrite Hv, Hip.
    exists (Z.to_nat i), e. split; [done|]. split; [done|]. split; [by left|]. split; [done|exact Hb].
  - destruct Hslot as (Hf & Hfree & Hall). cbn [default]. change (Datatypes.id f) with f.
    rewrite aset_in_range by (rewrite Hl; lia).
    destruct Hfree as [?|(_ & _ & e & He & Hv)]; [done|]. rewrite Z.sub_0_r in He.
    exists (Z.to_nat f), e. split; [done|]. split; [done|]. split; [by right|]. split; [congruence|].
    intros k e' _ Hk. rewrite Forall_lookup in Hall. by eapply Hall.
  - destruct Hslot as [_ Hall]. cbn [default]. rewrite aset_in_range by (rewrite Hl; lia).
    destruct (lookup_lt_is_Some_2 cache 0) as [e He]; [lia|]. exists 0%nat, e. split; [done|]. split; [done|].
    assert (Forall (fun e => ~ (arp_valid e = true /\ arp_ip e = ip)) cache) as Hno.
    { eapply Forall_impl; [exact Hall|]. naive_solver. }
    split; [by right|]. split; [|intros; lia]. intros _ _. split; [done|]. eapply Forall_impl; [exact Hall|]. naive_solver.
Qed.

Lemma lookup_first ip (cache : list arp_entry) i e :
  cache !! i = Some e -> arp_valid e = true -> arp_ip e = ip ->
  (forall k e', (k < i)%nat -> cache !! k = Some e' -> ~ (arp_valid e' = true /\ arp_ip e' = ip)) ->
  arp_cache_lookup ip cache = Some (arp_mac e).
Proof.
  unfold arp_cache_lookup. revert i. induction cache as [|e0 cache IH]; intros [|i] Hi Hv Hip Hb; try done.
  - injection Hi as ->. rewrite filter_cons_True by done. done.
  - rewrite filter_cons_False by (by apply (Hb 0%nat); [lia|]). apply (IH i); try done.
    intros k e' Hk Hl. apply (Hb (S k)); [lia|done].
Qed.

Lemma arp_update_wf ip mac now cache :
  length cache = 4%nat -> length mac = 6%nat -> Forall (fun e => length (arp_mac e) = 6%nat) cache ->
  exists cache', arp_cache_update ip mac now cache = Val cache' /\ length cache' = 4%nat
    /\ Forall (fun e => length (arp_mac e) = 6%nat) cache' /\ arp_cache_lookup ip cache' = Some mac.
Proof.
  intros Hl Hm Hall. destruct (arp_update_spec ip mac now cache Hl Hm) as (i & e & -> & He & _ & _ & Hb).
  eexists. split; [done|]. pose proof (lookup_lt_Some _ _ _ He) as Hlt. split; [by rewrite length_insert|].
  split; [by apply Forall_insert|].
  apply (lookup_first ip _ i (Arp ip mac true now)); [by apply list_lookup_insert_eq|done|done|].
  intros k e' Hk. rewrite list_lookup_insert_ne by lia. by apply Hb.
Qed.

(** * No read outside a packet *)

Lemma checksum_total l : exists c, checksum16 l = Val c.
Proof.
  assert (forall l sum, in_u32 sum -> in_u32 (sum_words l sum)) as Hr.
  { clear. induction l as [|a|a b l IH] using pair_ind; intros sum Hs; cbn [sum_words]; auto with cint. }
  unfold checksum16. rewrite fold_carries_spec; [by eexists|]. apply Hr. unfold in_u32. lia.
Qed.

Ltac total l := let v := fresh "v" in let E := fresh "E" in destruct l as [v E]; rewrite E; cbn [mbind outcome_bind].

Lemma byte_at l i : Forall in_u8 l -> 0 <= i < Z.of_nat (length l) -> exists b, aget l i = Val b /\ in_u8 b.
Proof.
  intros Hb Hi. destruct (aget_in_range l i Hi) as [b E]. exists b. split; [done|].
  apply aget_Val in E as [_ E]. by eapply Forall_lookup_1.
Qed.

Lemma dhcp_options_total fuel : forall options len i d t,
  Forall in_u8 options -> len <= Z.of_nat (length options) -> 0 <= i -> len - i <= Z.of_nat fuel ->
  exists r, dhcp_options_loop fuel options len i d t = Val r.
Proof.
  induction fuel as [|fuel IH]; intros options len i d t Hb Hl Hi Hf; cbn [dhcp_options_loop].
  { rewrite decide_True by lia. by eexists. }
  case_decide; [by eexists|]. destruct (byte_at options i Hb ltac:(lia)) as (code & -> & _). cbn [mbind outcome_bind].
  case_decide; [by eexists|]. case_decide; [apply IH; auto; lia|]. case_decide; [by eexists|].
  destruct (byte_at options (i + 1) Hb ltac:(lia)) as (n & -> & Hn). unfold in_u8 in Hn. cbn [mbind outcome_bind].
  case_decide; [by eexists|]. repeat case_decide; try (apply IH; auto; lia).
  - total (aget_in_range options (i + 1 + 1) ltac:(lia)). apply IH; auto; lia.
  - total (be32_load_total options (i + 1 + 1) ltac:(lia) ltac:(lia)). apply IH; auto; lia.
  - total (be32_load_total options (i + 1 + 1) ltac:(lia) ltac:(lia)). apply IH; auto; lia.
  - total (be32_load_total options (i + 1 + 1) ltac:(lia) ltac:(lia)). apply IH; auto; lia.
Qed.

Lemma dhcp_packet_total payload len mac d :
  Forall in_u8 payload -> len <= Z.of_nat (length payload) -> length mac = 6%nat ->
  exists d', dhcp_process_packet payload len mac d = Val d'.
Proof.
  intros Hb Hl Hm. unfold dhcp_process_packet. case_decide as Hd; [by eexists|].
  assert (240 <= len) as Hlen by (apply Z.nlt_ge; intros ?; apply Hd; by right).
  total (aget_in_range payload 0 ltac:(lia)). total (aget_in_range payload 1 ltac:(lia)). total (aget_in_range payload 2 ltac:(lia)).
  case_decide; [by eexists|]. total (be32_load_total payload 4 ltac:(lia) ltac:(lia)). case_decide; [by eexists|].
  unfold same_mac. rewrite !aread_in_range by lia. cbn [mbind outcome_bind]. case_bool_decide; cbn [negb]; [|by eexists].
  total (be32_load_total payload 236 ltac:(lia) ltac:(lia)). case_decide; [by eexists|].
  total (be32_load_total payload 16 ltac:(lia) ltac:(lia)). unfold dhcp_parse_options.
  destruct (dhcp_options_total (Z.to_nat (len - 240)) (drop 240 payload) (len - 240) 0 d 0) as [[d' t] ->];
    [by apply Forall_drop|rewrite length_drop; lia|lia|lia|]. cbn [mbind outcome_bind].
  repeat case_decide; by eexists.
Qed.

(** * Sending *)

Lemma awrite_total (l bs : list Z) p : 0 <= p -> p + Z.of_nat (length bs) <= Z.of_nat (length l) ->
  exists l', awrite l p bs = Val l' /\ length l' = length l.
Proof. intros. rewrite awrite_in_range by done. eexists. split; [done|]. apply splice_length. lia. Qed.

Lemma aset_total (l : list Z) p x : 0 <= p < Z.of_nat (length l) -> exists l', aset l p x = Val l' /\ length l' = length l.
Proof. intros. rewrite aset_in_range by done. eexists. split; [done|]. apply length_insert. Qed.

Lemma put_mac_total (l mac : list Z) p : length mac = 6%nat -> 0 <= p -> p + 6 <= Z.of_nat (length l) ->
  exists l', put_mac l p mac = Val l' /\ length l' = length l.
Proof.
  intros Hm Hp Hl. unfold put_mac. rewrite aread_in_range by lia. cbn [mbind outcome_bind]. apply awrite_total; [done|].
  rewrite length_take, length_drop. lia.
Qed.

(** One store of a frame under construction. *)
Ltac store_total :=
  match goal with
  | |- context [put_mac ?l ?p ?m] => destruct (put_mac_total l m p) as (? & -> & ?)
  | |- context [be16_store ?l ?p ?v] =>
      change (be16_store l p v) with (awrite l p (be16 v)); destruct (awrite_total l (be16 v) p) as (? & -> & ?)
  | |- context [be32_store ?l ?p ?v] =>
      change (be32_store l p v) with (awrite l p (be32 v)); destruct (awrite_total l (be32 v) p) as (? & -> & ?)
  | |- context [awrite ?l ?p ?b] => destruct (awrite_total l b p) as (? & -> & ?)
  | |- context [aset ?l ?p ?x] => destruct (aset_total l p x) as (? & -> & ?)
  end; [try (cbn [length be16 be32]; lia)..|cbn [mbind outcome_bind]].

Section Send.
Context {C : Type} `{Terminal C} {M : Type} `{Ports M} `{Nic M}.
Implicit Types s : nsys C M.

(** A frame went out: the next of the four slots holds it, padded with zeros to 60
    bytes, and the frame is counted. *)
Definition transmitted (frame : list Z) (n n' : net_state) : Prop :=
  exists slot, let r := n_rtl n in
    n' = with_counters (Counters (g_rx_frames (n_counters n)) (u64 (g_tx_frames (n_counters n) + 1)) (g_rx_dropped (n_counters n)))
           (with_rtl (Rtl (g_rtl_io_base r) (g_rtl_irq_line r) (g_rtl_ready r) (g_mac r)
              (<[Z.to_nat (g_tx_index r) := slot]> (g_tx_buffer r)) (g_rx_read_offset r) ((g_tx_index r + 1) mod 4)) n)
    /\ Z.of_nat (length slot) = RTL_TX_BUFFER_SIZE
    /\ take (Nat.max 60 (length frame)) slot = frame ++ replicate (60 - length frame) 0.

Lemma send_spec frame s : net_wf (n_net s) ->
  (rtl_send_raw_frame frame (Z.of_nat (length frame)) s = Val (-1, s)
    /\ (g_rtl_ready (n_rtl (n_net s)) = false \/ frame = [] \/ Z.of_nat (length frame) > RTL_TX_BUFFER_SIZE))
  \/ exists s', rtl_send_raw_frame frame (Z.of_nat (length frame)) s = Val (0, s') /\ transmitted frame (n_net s) (n_net s')
      /\ n_world s' = with_ports (hw s') (n_world s).
Proof.
  intros Hwf. unfold rtl_send_raw_frame. case_decide as Hd.
  { left. split; [done|]. destruct Hd as [?|[Hz|?]]; [by left| |by right; right]. right. left. apply nil_length_inv. lia. }
  right. assert (0 < Z.of_nat (length frame) <= 2048) as Hl.
  { unfold RTL_TX_BUFFER_SIZE in Hd. split; [destruct frame; [exfalso; apply Hd; by right; left|simpl; lia]|].
    apply Z.nlt_ge. intros ?. apply Hd. right. right. lia. }
  destruct (lookup_lt_is_Some_2 (g_tx_buffer (n_rtl (n_net s))) (Z.to_nat (g_tx_index (n_rtl (n_net s))))) as [slot Hslot].
  { rewrite (nw_slots _ Hwf). pose proof (nw_index _ Hwf). lia. }
  pose proof (nw_index _ Hwf) as Hi. pose proof (nw_slots _ Hwf) as Hn.
  pose proof (Forall_lookup_1 _ _ _ _ (nw_slot _ Hwf) Hslot) as Hsl. simpl in Hsl. unfold RTL_TX_BUFFER_SIZE in Hsl.
  rewrite (aget_Some _ _ slot) by (done || lia). cbn [mbind outcome_bind].
  set (sl := if decide _ then _ else _). assert (sl = Z.max 60 (Z.of_nat (length frame))) as Hmax by (subst sl; case_decide; lia).
  rewrite Hmax. clear sl Hmax.
  rewrite awrite_in_range by (rewrite ?length_replicate; lia). cbn [mbind outcome_bind].
  rewrite aread_in_range by lia. cbn [mbind outcome_bind].
  assert (take (Z.to_nat (Z.of_nat (length frame))) (drop (Z.to_nat 0) frame) = frame) as ->.
  { rewrite Nat2Z.id. change (Z.to_nat 0) with 0%nat. rewrite drop_0. apply firstn_all. }
  rewrite awrite_in_range by (rewrite ?splice_length; rewrite ?length_replicate; lia). cbn [mbind outcome_bind].
  rewrite aset_in_range by lia. cbn [mbind outcome_bind]. eexists. split; [done|]. split; [|done].
  eexists. split; [reflexivity|]. split.
  - rewrite !splice_length; rewrite ?splice_length; rewrite ?length_replicate; unfold RTL_TX_BUFFER_SIZE; lia.
  - change (Z.to_nat 0) with 0%nat. unfold splice. rewrite !take_0. cbn [app Nat.add].
    rewrite take_app_ge by lia. f_equal. rewrite drop_app_le by (rewrite length_replicate; lia). rewrite drop_replicate.
    rewrite take_app_le by (rewrite length_replicate; lia). rewrite take_replicate. f_equal. lia.
Qed.

Lemma transmitted_wf frame n n' : net_wf n -> transmitted frame n n' -> net_wf n'.
Proof.
  intros [W1 W2 W3 W4 W5 W6 W7] (slot & -> & Hl & _). split; try done; cbn.
  - by rewrite length_insert.
  - by apply Forall_insert.
  - apply Z.mod_pos_bound. lia.
Qed.

(** What a step of the network code leaves: an invariant state, and of the world
    only the hardware changed. *)
Definition goes_on (s : nsys C M) (o : outcome (nsys C M)) : Prop :=
  exists s', o = Val s' /\ net_wf (n_net s') /\ n_world s' = with_ports (hw s') (n_world s).

Lemma world_same s : n_world s = with_ports (hw s) (n_world s).
Proof. by destruct s as [n []]. Qed.

Lemma goes_on_same s n : net_wf n -> goes_on s (Val (put_net n s)).
Proof. intros Hn. eexists. split; [done|]. split; [done|]. exact (world_same s). Qed.

Lemma goes_on_here s : net_wf (n_net s) -> goes_on s (Val s).
Proof. intros Hn. eexists. split; [done|]. split; [done|]. apply world_same. Qed.

Lemma goes_on_trans s s1 o : n_world s1 = with_ports (hw s1) (n_world s) -> goes_on s1 o -> goes_on s o.
Proof.
  intros Hw (s2 & -> & Hn & Hw2). exists s2. split; [done|]. split; [done|]. rewrite Hw2, Hw. done.
Qed.

Lemma send_goes_on frame s : net_wf (n_net s) ->
  exists r s', rtl_send_raw_frame frame (Z.of_nat (length frame)) s = Val (r, s') /\ net_wf (n_net s')
    /\ n_world s' = with_ports (hw s') (n_world s).
Proof.
  intros Hwf. destruct (send_spec frame s Hwf) as [[-> _]|(s' & -> & Ht & Hw)].
  - eexists _, _. split; [done|]. split; [done|]. apply world_same.
  - eexists _, _. split; [done|]. split; [by eapply transmitted_wf|done].
Qed.

Lemma arp_fields_total oper n frame : net_wf n -> length frame = 42%nat ->
  exists f, arp_fields oper n frame = Val f /\ length f = 42%nat.
Proof. intros Hwf Hl. pose proof (nw_mac _ Hwf). unfold arp_fields. do 9 store_total. eexists. split; [done|]. congruence. Qed.

Lemma arp_reply_goes_on mac ip s : net_wf (n_net s) -> length mac = 6%nat ->
  exists r s', arp_send_reply mac ip s = Val (r, s') /\ net_wf (n_net s') /\ n_world s' = with_ports (hw s') (n_world s).
Proof.
  intros Hwf Hm. unfold arp_send_reply. assert (length (replicate 42 0) = 42%nat) as Hf by apply length_replicate.
  store_total. destruct (arp_fields_total ARP_OPER_REPLY (n_net s) x Hwf ltac:(congruence)) as (f & -> & Hlf). cbn [mbind outcome_bind].
  do 2 store_total. assert (length x1 = 42%nat) as Hx by congruence. change 42 with (Z.of_nat 42). rewrite <- Hx.
  by apply send_goes_on.
Qed.

(** ** Receiving *)

Lemma process_arp_goes_on payload len s :
  net_wf (n_net s) -> Forall in_u8 payload -> len <= Z.of_nat (length payload) -> goes_on s (net_process_arp payload len s).
Proof.
  intros Hwf Hb Hl. unfold net_process_arp. case_decide; [by apply goes_on_here|].
  total (be16_load_total payload 0 ltac:(lia) ltac:(lia)). total (be16_load_total payload 2 ltac:(lia) ltac:(lia)).
  total (be16_load_total payload 6 ltac:(lia) ltac:(lia)). total (aget_in_range payload 4 ltac:(lia)).
  total (aget_in_range payload 5 ltac:(lia)). case_decide; [by apply goes_on_here|].
  rewrite aread_in_range by lia. cbn [mbind outcome_bind]. set (sha := take _ _).
  assert (length sha = 6%nat) as Hsha by (unfold sha; rewrite length_take, length_drop; lia).
  total (be32_load_total payload 14 ltac:(lia) ltac:(lia)). total (be32_load_total payload 24 ltac:(lia) ltac:(lia)).
  destruct (arp_update_wf v4 sha (uptime s) (g_arp_cache (n_net s)) (nw_cache _ Hwf) Hsha (nw_macs _ Hwf))
    as (cache & -> & Hc & Hm & _). cbn [mbind outcome_bind].
  assert (net_wf (with_arp cache (n_net s))) as Hwf' by (destruct Hwf; by split).
  case_decide; [|by apply goes_on_same].
  destruct (arp_reply_goes_on sha v4 (put_net (with_arp cache (n_net s)) s) Hwf' Hsha) as (r & s' & -> & Hn & Hw).
  cbn [mbind outcome_bind]. exists s'. split; [done|]. split; [done|]. rewrite Hw. done.
Qed.

Lemma process_icmp_goes_on ip len s :
  net_wf (n_net s) -> Forall in_u8 ip -> 20 <= len <= Z.of_nat (length ip) -> goes_on s (net_process_icmp ip len s).
Proof.
  intros Hwf Hb Hl. unfold net_process_icmp. total (aget_in_range ip 0 ltac:(lia)). set (ihl := Z.land v 15 * 4).
  case_decide as Hd; [by apply goes_on_here|]. assert (20 <= ihl /\ ihl + 8 <= len) as [Hi1 Hi2] by (clear -Hd Hl; lia).
  assert (Z.of_nat (length (drop (Z.to_nat ihl) ip)) = Z.of_nat (length ip) - ihl) as Hdl by (rewrite length_drop; lia).
  rewrite aread_in_range by lia. cbn [mbind outcome_bind]. set (bs := take _ _). total (checksum_total bs).
  case_decide; [by apply goes_on_here|].
  total (aget_in_range (drop (Z.to_nat ihl) ip) 0 ltac:(lia)).
  total (be16_load_total (drop (Z.to_nat ihl) ip) 4 ltac:(lia) ltac:(lia)).
  total (be16_load_total (drop (Z.to_nat ihl) ip) 6 ltac:(lia) ltac:(lia)).
  case_decide; [|by apply goes_on_here]. total (aget_in_range ip 8 ltac:(lia)).
  apply goes_on_same. by destruct Hwf.
Qed.

Lemma be16_load_range l p v : Forall in_u8 l -> be16_load l p = Val v -> in_u16 v.
Proof.
  intros Hb Hv. unfold be16_load in Hv. inv_outcome. apply aget_Val in Ha as [_ Ha], Ha0 as [_ Ha0].
  pose proof (Forall_lookup_1 _ _ _ _ Hb Ha) as R1. pose proof (Forall_lookup_1 _ _ _ _ Hb Ha0) as R2.
  rewrite lor_shift by (lia || apply R2). unfold in_u8, in_u16 in *. pow2. lia.
Qed.

Lemma process_udp_goes_on ip len s :
  net_wf (n_net s) -> Forall in_u8 ip -> 20 <= len <= Z.of_nat (length ip) -> goes_on s (net_process_udp ip len s).
Proof.
  intros Hwf Hb Hl. unfold net_process_udp. total (aget_in_range ip 0 ltac:(lia)). set (ihl := Z.land v 15 * 4).
  case_decide as Hd; [by apply goes_on_here|]. assert (20 <= ihl /\ ihl + 8 <= len) as [Hi1 Hi2] by (clear -Hd Hl; lia).
  set (udp := drop (Z.to_nat ihl) ip).
  assert (Z.of_nat (length udp) = Z.of_nat (length ip) - ihl) as Hdl by (unfold udp; rewrite length_drop; lia).
  assert (Forall in_u8 udp) as Hub by by apply Forall_drop.
  total (be16_load_total udp 4 ltac:(lia) ltac:(lia)).
  case_decide as Hd2; [by apply goes_on_here|]. assert (8 <= v0 /\ ihl + v0 <= len) as [Hu1 Hu2] by (clear -Hd2; lia).
  total (be16_load_total udp 0 ltac:(lia) ltac:(lia)). total (be16_load_total udp 2 ltac:(lia) ltac:(lia)).
  case_decide; [|by apply goes_on_here].
  destruct (dhcp_packet_total (drop 8 udp) (v0 - 8) (mac_of (n_net s)) (g_dhcp (n_net s))) as [d ->];
    [by apply Forall_drop|rewrite length_drop; lia|by apply nw_mac|]. cbn [mbind outcome_bind].
  apply goes_on_same. by destruct Hwf.
Qed.

Lemma process_ipv4_goes_on payload len s :
  net_wf (n_net s) -> Forall in_u8 payload -> len <= Z.of_nat (length payload) -> goes_on s (net_process_ipv4 payload len s).
Proof.
  intros Hwf Hb Hl. unfold net_process_ipv4. case_decide; [by apply goes_on_here|].
  total (aget_in_range payload 0 ltac:(lia)). set (ihl := Z.land v 15 * 4).
  case_decide as Hd; [by apply goes_on_here|]. assert (20 <= ihl <= len) as Hi by (clear -Hd; lia).
  total (be16_load_total payload 2 ltac:(lia) ltac:(lia)).
  case_decide as Hd2; [by apply goes_on_here|]. assert (ihl <= v0 <= len) as Ht by (clear -Hd2; lia).
  rewrite aread_in_range by lia. cbn [mbind outcome_bind]. set (bs := take _ _). total (checksum_total bs).
  case_decide; [by apply goes_on_here|]. total (be16_load_total payload 6 ltac:(lia) ltac:(lia)).
  case_decide; [by apply goes_on_here|]. total (be32_load_total payload 16 ltac:(lia) ltac:(lia)).
  total (aget_in_range payload 9 ltac:(lia)).
  repeat case_decide; try (by apply goes_on_here); [apply process_udp_goes_on|apply process_icmp_goes_on]; auto; lia.
Qed.

Lemma process_frame_goes_on frame len s :
  net_wf (n_net s) -> Forall in_u8 frame -> len <= Z.of_nat (length frame) -> goes_on s (net_process_frame frame len s).
Proof.
  intros Hwf Hb Hl. unfold net_process_frame. case_decide; [by apply goes_on_here|].
  total (be16_load_total frame 12 ltac:(lia) ltac:(lia)).
  repeat case_decide; try (by apply goes_on_here); [apply process_arp_goes_on|apply process_ipv4_goes_on];
    auto using Forall_drop; rewrite length_drop; lia.
Qed.

(** ** The receive ring *)

Lemma next_offset_eq offset len :
  0 <= offset < 8192 -> 4 <= len <= 1792 -> next_rx_offset offset len = ((offset + len + 7) / 4 * 4) mod 8192.
Proof.
  intros Ho Hl. unfold next_rx_offset. replace (offset + len + 4 + 3) with (offset + len + 7) by lia.
  change (u32_not 3) with (u32_not (2 ^ 2 - 1)). rewrite u32_align_mask by lia.
  rewrite (u32_small (offset + len + 7)) by (unfold in_u32; pow2; lia).
  rewrite (Z.mod_small (offset + len + 7)) by (pow2; lia). change (2 ^ 2) with 4.
  rewrite u16_small; [done|]. unfold in_u16. pow2. Z.div_mod_to_equations. lia.
Qed.

Lemma next_offset_range offset len :
  0 <= offset < 8192 -> 4 <= len <= 1792 ->
  0 <= next_rx_offset offset len < 8192 /\ next_rx_offset offset len mod 4 = 0.
Proof.
  intros Ho Hl. rewrite next_offset_eq by done. split; [apply Z.mod_pos_bound; lia|]. Z.div_mod_to_equations. lia.
Qed.

Lemma set_offset_wf o n : net_wf n -> 0 <= o < 8192 -> o mod 4 = 0 -> net_wf (set_rx_offset o n).
Proof. intros [] ? ?. by split. Qed.

Lemma counted_wf n : net_wf n -> net_wf (count_rx n) /\ net_wf (count_dropped n).
Proof. intros []. by split. Qed.

(** The packets lie inside the buffer. *)
Definition packets_fit (bound : Z) : Prop :=
  forall (h : M) o len, 0 <= o < 8192 -> o mod 4 = 0 -> le_load (drop (Z.to_nat o) (g_rx_buffer h)) 2 2 = Val len ->
    4 <= len <= 1792 -> len <= bound.

Context `{!NicLaws M}.

Lemma rx_drop_length (h : M) o : 0 <= o < 8192 ->
  Z.of_nat (length (drop (Z.to_nat o) (g_rx_buffer h))) = RTL_RX_BUFFER_SIZE - o.
Proof. intros Ho. pose proof (rx_length h) as Hl. unfold RTL_RX_BUFFER_SIZE in *. rewrite length_drop. lia. Qed.

Lemma poll_packet_goes_on s : packets_fit 1520 -> net_wf (n_net s) ->
  exists more s', poll_packet s = Val (more, s') /\ net_wf (n_net s') /\ n_world s' = with_ports (hw s') (n_world s).
Proof.
  intros Hfit Hwf. unfold poll_packet. destruct (io_in8 (reg RTL_REG_CR (n_net s)) (hw s)) as [cr h]. set (s1 := put_hw h s).
  case_decide; [by eexists _, _|]. destruct (nw_offset _ Hwf) as [Ho Ho4]. change (n_net s1) with (n_net s).
  set (o := g_rx_read_offset (n_rtl (n_net s))) in *. set (packet := drop (Z.to_nat o) (g_rx_buffer (hw s1))).
  pose proof (rx_drop_length (hw s1) o Ho) as Hlen. fold packet in Hlen. unfold RTL_RX_BUFFER_SIZE in Hlen.
  assert (Forall in_u8 packet) as Hpb by (apply Forall_drop, rx_bytes).
  assert (exists status, le_load packet 0 2 = Val status) as [status ->].
  { unfold le_load. rewrite aread_in_range by lia. by eexists. }
  assert (exists len, le_load packet 2 2 = Val len) as [len Hl].
  { unfold le_load. rewrite aread_in_range by lia. by eexists. }
  rewrite Hl. cbn [mbind outcome_bind]. case_decide as Hd; [eexists _, _; split; [done|]; by split; [apply counted_wf|]|].
  assert (4 <= len <= 1792) as Hr by (clear -Hd; lia). specialize (Hfit (hw s1) o len Ho Ho4 Hl Hr).
  assert (goes_on s1 (if decide (Z.land status 1 <> 0) then
    s2 ← net_process_frame (drop 4 packet) (len - 4) s1; Val (put_net (count_rx (n_net s2)) s2)
    else Val (put_net (count_dropped (n_net s)) s1))) as (s2 & -> & Hn2 & Hw2).
  { case_decide; [|by apply goes_on_same, counted_wf].
    destruct (process_frame_goes_on (drop 4 packet) (len - 4) s1 Hwf) as (s2 & -> & Hn2 & Hw2);
      [by apply Forall_drop|rewrite length_drop; Z.div_mod_to_equations; lia|]. cbn [mbind outcome_bind].
    eexists. split; [done|]. split; [by apply counted_wf|done]. }
  cbn [mbind outcome_bind]. eexists _, _. split; [done|]. destruct (next_offset_range o len Ho Hr) as [R1 R2].
  split; [by apply set_offset_wf|]. cbn. by rewrite Hw2.
Qed.

Lemma poll_loop_goes_on n : packets_fit 1520 -> forall s, net_wf (n_net s) -> goes_on s (poll_loop n s).
Proof.
  intros Hfit. induction n as [|n IH]; intros s Hwf; cbn [poll_loop];
    destruct (poll_packet_goes_on s Hfit Hwf) as (more & s' & -> & Hwf' & Hw); cbn [mbind outcome_bind];
    destruct more; try (by exists s').
  apply (goes_on_trans s s'); [done|]. by apply IH.
Qed.

(** [k] packets taken from the ring one after the other. *)
Inductive taken : nat -> nsys C M -> nsys C M -> Prop :=
| taken_none s : taken 0 s s
| taken_one k s s1 s' : poll_packet s = Val (true, s1) -> taken k s1 s' -> taken (S k) s s'.

(** Polling ends where the ring is empty or a packet's length is refused, or when it
    has taken [most] packets. *)
Definition drained (most : nat) (s s' : nsys C M) : Prop :=
  exists k s1, taken k s s1 /\ ((k < most)%nat /\ poll_packet s1 = Val (false, s') \/ k = most /\ s' = s1).

Lemma poll_loop_drains n : forall s s', poll_loop n s = Val s' -> drained (S n) s s'.
Proof.
  induction n as [|n IH]; intros s s' Hp; cbn [poll_loop] in Hp; apply bind_Val_inv in Hp as ([[] s1] & Hs & Hp).
  - injection Hp as <-. exists 1%nat, s1. split; [by eapply taken_one; [|constructor]|by right].
  - injection Hp as <-. exists 0%nat, s. split; [constructor|]. left. split; [lia|done].
  - destruct (IH s1 s' Hp) as (k & s2 & Ht & Hend). exists (S k), s2. split; [by eapply taken_one|].
    destruct Hend as [[Hk He]|[-> ->]]; [left; split; [lia|done]|by right].
  - injection Hp as <-. exists 0%nat, s. split; [constructor|]. left. split; [lia|done].
Qed.


End Send.

(** * What is sent *)

(** An Ethernet frame with an ARP message. *)
Definition arp_frame (oper : Z) (dst sha : list Z) (spa : Z) (tha : list Z) (tpa : Z) : list Z :=
  dst ++ sha ++ be16 0x0806 ++ be16 1 ++ be16 0x0800 ++ [6; 4] ++ be16 oper ++ sha ++ be32 spa ++ tha ++ be32 tpa.

Lemma six (l : list Z) : length l = 6%nat -> exists a b c d e f, l = [a; b; c; d; e; f].
Proof. do 7 (destruct l as [|? l]; try done). intros _. by eexists _, _, _, _, _, _. Qed.

(** The bytes of a field, as unknowns. *)
Ltac atoms16 v := let a := fresh "h" in let b := fresh "l" in
  change (be16 v) with [Z.land (Z.shiftr v 8) 0xFF; Z.land v 0xFF];
  generalize (Z.land (Z.shiftr v 8) 0xFF) (Z.land v 0xFF); intros a b.
Ltac atoms32 v := let a := fresh "q" in let b := fresh "q" in let c := fresh "q" in let d := fresh "q" in
  change (be32 v) with [Z.land (Z.shiftr v 24) 0xFF; Z.land (Z.shiftr v 16) 0xFF; Z.land (Z.shiftr v 8) 0xFF; Z.land v 0xFF];
  generalize (Z.land (Z.shiftr v 24) 0xFF) (Z.land (Z.shiftr v 16) 0xFF) (Z.land (Z.shiftr v 8) 0xFF) (Z.land v 0xFF); intros a b c d.

(** Evaluate a read or the leading writes of a buffer whose bytes are variables. *)
Ltac eval_aread p n :=
  match goal with |- context [aread ?l p n] =>
    let v := eval vm_compute in (aread l p n) in change (aread l p n) with v; cbn [mbind outcome_bind] end.
Ltac eval_awrites :=
  repeat match goal with
  | |- context [mbind _ (aset ?l ?p ?x)] =>
      let v := eval vm_compute in (aset l p x) in change (aset l p x) with v; cbn [mbind outcome_bind]
  | |- context [mbind _ (awrite ?l ?p ?x)] =>
      let v := eval vm_compute in (awrite l p x) in change (awrite l p x) with v; cbn [mbind outcome_bind]
  end.

Section Sent.
Context {C : Type} `{Terminal C} {M : Type} `{Ports M} `{Nic M}.
Implicit Types s : nsys C M.

Lemma arp_fields_bytes oper n dst : net_wf n -> length dst = 6%nat ->
  arp_fields oper n (dst ++ replicate 36 0)
  = Val (dst ++ mac_of n ++ be16 0x0806 ++ be16 1 ++ be16 0x0800 ++ [6; 4] ++ be16 oper ++ mac_of n ++ be32 (ip_of n) ++ replicate 10 0).
Proof.
  intros Hwf Hd. destruct (six _ (nw_mac _ Hwf)) as (a & b & c & d & e & f & Hm).
  destruct (six _ Hd) as (a' & b' & c' & d' & e' & f' & ->). unfold arp_fields, be16_store, be32_store. rewrite Hm.
  atoms16 oper. atoms32 (ip_of n). reflexivity.
Qed.

Lemma arp_reply_frame mac ip s : net_wf (n_net s) -> length mac = 6%nat ->
  arp_send_reply mac ip s = rtl_send_raw_frame (arp_frame 2 mac (mac_of (n_net s)) (ip_of (n_net s)) mac ip) 42 s.
Proof.
  intros Hwf Hm. unfold arp_send_reply.
  assert (put_mac (replicate 42 0) 0 mac = Val (mac ++ replicate 36 0)) as ->.
  { destruct (six _ Hm) as (? & ? & ? & ? & ? & ? & ->). reflexivity. }
  cbn [mbind outcome_bind]. rewrite arp_fields_bytes by done. cbn [mbind outcome_bind]. unfold arp_frame.
  destruct (six _ (nw_mac _ Hwf)) as (a & b & c & d & e & f & ->). destruct (six _ Hm) as (a' & b' & c' & d' & e' & f' & ->).
  unfold be32_store. atoms32 ip. atoms32 (ip_of (n_net s)). reflexivity.
Qed.

Lemma arp_request_frame ip s : net_wf (n_net s) ->
  arp_send_request ip s = rtl_send_raw_frame (arp_frame 1 (replicate 6 0xFF) (mac_of (n_net s)) (ip_of (n_net s)) (replicate 6 0) ip) 42 s.
Proof.
  intros Hwf. unfold arp_send_request. change (awrite (replicate 42 0) 0 (replicate 6 255)) with (Val (replicate 6 255 ++ replicate 36 0)).
  cbn [mbind outcome_bind]. rewrite arp_fields_bytes by done. cbn [mbind outcome_bind]. unfold arp_frame.
  destruct (six _ (nw_mac _ Hwf)) as (a & b & c & d & e & f & ->).
  unfold be32_store. atoms32 ip. atoms32 (ip_of (n_net s)). reflexivity.
Qed.

Lemma arp_frame_length oper dst sha spa tha tpa : length dst = 6%nat -> length sha = 6%nat -> length tha = 6%nat ->
  length (arp_frame oper dst sha spa tha tpa) = 42%nat.
Proof. intros H1' H2' H3'. unfold arp_frame. rewrite !length_app, H1', H2', H3'. done. Qed.

Lemma aread_at (l pre bs post : list Z) off n :
  l = pre ++ bs ++ post -> off = Z.of_nat (length pre) -> n = Z.of_nat (length bs) -> aread l off n = Val bs.
Proof. intros -> -> ->. apply aread_app. Qed.

(** The fields of an ARP message, as the receiver reads them. *)
Lemma arp_message_fields oper sha spa tha tpa pad :
  in_u16 oper -> in_u32 spa -> in_u32 tpa -> length sha = 6%nat -> length tha = 6%nat ->
  let m := be16 1 ++ be16 0x0800 ++ [6; 4] ++ be16 oper ++ sha ++ be32 spa ++ tha ++ be32 tpa ++ pad in
  be16_load m 0 = Val 1 /\ be16_load m 2 = Val 0x0800 /\ be16_load m 6 = Val oper /\ aget m 4 = Val 6 /\ aget m 5 = Val 4
  /\ aread m 8 6 = Val sha /\ be32_load m 14 = Val spa /\ be32_load m 24 = Val tpa.
Proof.
  intros Ho Hs Ht Hsl Htl m. unfold m. split; [done|]. split; [done|]. split.
  { apply (be16_load_at (be16 1 ++ be16 0x0800 ++ [6; 4])); done. }
  split; [done|]. split; [done|]. split.
  { apply (aread_at _ (be16 1 ++ be16 0x0800 ++ [6; 4] ++ be16 oper) sha (be32 spa ++ tha ++ be32 tpa ++ pad)); [done|done|lia]. }
  split.
  - rewrite !app_assoc, <- (app_assoc _ tha), <- !app_assoc. rewrite !app_assoc.
    rewrite <- (app_assoc _ (be32 tpa) pad), <- (app_assoc _ tha), <- (app_assoc _ (be32 spa)).
    apply be32_load_at; [done|]. rewrite !length_app, Hsl. done.
  - rewrite !app_assoc. rewrite <- (app_assoc _ (be32 tpa) pad). apply be32_load_at; [done|].
    rewrite !length_app, Hsl, Htl. done.
Qed.

(** ** ICMP echo *)

(** An IP header and an ICMP echo message as bytes. *)
Definition ip_head (len ident protocol c src dst : Z) : list Z :=
  (([0x45; 0] ++ be16 len ++ be16 ident ++ be16 0 ++ [64; protocol]) ++ be16 c ++ be32 src ++ be32 dst).
Definition icmp_echo (type ident seq c : Z) : list Z := [type; 0] ++ be16 c ++ be16 ident ++ be16 seq ++ seqZ 8 24.

Lemma ip_fields_bytes dst ident src dip n : net_wf n -> length dst = 6%nat ->
  ip_fields dst 52 ident 1 src dip n (replicate 66 0)
  = Val (dst ++ mac_of n ++ be16 0x0800 ++ ip_head 52 ident 1 0 src dip ++ replicate 32 0).
Proof.
  intros Hwf Hd. destruct (six _ (nw_mac _ Hwf)) as (a & b & c & d & e & f & Hm).
  destruct (six _ Hd) as (a' & b' & c' & d' & e' & f' & ->). unfold ip_fields, ip_head, be16_store, be32_store. rewrite Hm.
  atoms16 ident. atoms32 src. atoms32 dip. reflexivity.
Qed.

Lemma ip_head_bytes len ident protocol c src dst : in_u8 protocol -> Forall in_u8 (ip_head len ident protocol c src dst).
Proof.
  intros Hp. unfold ip_head. repeat (apply Forall_app; split); try apply be16_bytes; try apply be32_bytes;
    repeat constructor; unfold in_u8 in *; try lia.
Qed.

Lemma icmp_echo_bytes type ident seq c : in_u8 type -> Forall in_u8 (icmp_echo type ident seq c).
Proof.
  intros Ht. unfold icmp_echo. repeat (apply Forall_app; split); try apply be16_bytes.
  - repeat constructor; unfold in_u8 in *; try lia.
  - apply Forall_forall. intros x Hx%elem_of_seqZ. unfold in_u8. lia.
Qed.

Lemma ip_head_checksum len ident protocol src dst : in_u8 protocol ->
  exists c, in_u16 c /\ checksum16 (ip_head len ident protocol 0 src dst) = Val c
    /\ checksum16 (ip_head len ident protocol c src dst) = Val 0.
Proof.
  intros Hp. destruct (checksum_total (ip_head len ident protocol 0 src dst)) as [c Hc]. exists c.
  pose proof (ip_head_bytes len ident protocol 0 src dst Hp) as Hb. unfold ip_head in *.
  apply Forall_app in Hb as [Hpre Hb]. apply Forall_app in Hb as [_ Hpost].
  destruct (checksum_verifies ([69; 0] ++ be16 len ++ be16 ident ++ be16 0 ++ [64; protocol]) (be32 src ++ be32 dst) c) as [H1' H2'];
    [by exists 5%nat|done|done|vm_compute; discriminate|done|]. by split.
Qed.

Lemma icmp_echo_checksum type ident seq : in_u8 type ->
  exists c, in_u16 c /\ checksum16 (icmp_echo type ident seq 0) = Val c /\ checksum16 (icmp_echo type ident seq c) = Val 0.
Proof.
  intros Ht. destruct (checksum_total (icmp_echo type ident seq 0)) as [c Hc]. exists c.
  pose proof (icmp_echo_bytes type ident seq 0 Ht) as Hb. unfold icmp_echo in *.
  apply Forall_app in Hb as [Hpre Hb]. apply Forall_app in Hb as [_ Hpost].
  destruct (checksum_verifies [type; 0] (be16 ident ++ be16 seq ++ seqZ 8 24) c) as [H1' H2'];
    [by exists 1%nat|done|done|vm_compute; discriminate|done|]. by split.
Qed.

Lemma ip_header_bytes dst ident src dip n c : net_wf n -> length dst = 6%nat ->
  checksum16 (ip_head 52 ident 1 0 src dip) = Val c ->
  ip_header dst 52 ident 1 src dip n (replicate 66 0)
  = Val (dst ++ mac_of n ++ be16 0x0800 ++ ip_head 52 ident 1 c src dip ++ replicate 32 0).
Proof.
  intros Hwf Hd Hc. unfold ip_header. rewrite ip_fields_bytes by done. cbn [mbind outcome_bind].
  destruct (six _ (nw_mac _ Hwf)) as (m1 & m2 & m3 & m4 & m5 & m6 & ->).
  destruct (six _ Hd) as (d1 & d2 & d3 & d4 & d5 & d6 & ->).
  revert Hc. generalize checksum16 as sum. intros sum. unfold be16_store, ip_head. change (be16 0x0800) with [8; 0]. change (be16 52) with [0; 52].
  change (be16 0) with [0; 0]. atoms32 src. atoms32 dip. atoms16 ident. intros Hsum.
  eval_aread 14 20. cbn [app] in Hsum. rewrite Hsum. cbn [mbind outcome_bind]. atoms16 c. reflexivity.
Qed.

(** The bytes of an ICMP echo request as ip_send_icmp_echo lays them out. *)
Lemma echo_frame ident seq target dst s c1 c2 :
  net_wf (n_net s) -> length dst = 6%nat ->
  checksum16 (ip_head 52 seq 1 0 (ip_of (n_net s)) target) = Val c1 -> checksum16 (icmp_echo 8 ident seq 0) = Val c2 ->
  ip_send_icmp_echo target dst ident seq s
  = rtl_send_raw_frame (dst ++ mac_of (n_net s) ++ be16 0x0800 ++ ip_head 52 seq 1 c1 (ip_of (n_net s)) target ++ icmp_echo 8 ident seq c2)
      66 s.
Proof.
  intros Hwf Hd Hc1 Hc2. unfold ip_send_icmp_echo. rewrite (ip_header_bytes _ _ _ _ _ c1) by done. cbn [mbind outcome_bind].
  destruct (six _ (nw_mac _ Hwf)) as (m1 & m2 & m3 & m4 & m5 & m6 & ->).
  destruct (six _ Hd) as (d1 & d2 & d3 & d4 & d5 & d6 & ->). clear Hc1. revert Hc2. generalize checksum16 as sum. intros sum.
  unfold be16_store, ip_head, icmp_echo. atoms32 (ip_of (n_net s)). atoms32 target. atoms16 seq. atoms16 ident. atoms16 c1.
  change (be16 0) with [0; 0]. change (be16 52) with [0; 52]. change (be16 0x0800) with [8; 0].
  let v := eval vm_compute in (seqZ 8 24) in change (seqZ 8 24) with v.
  generalize (rtl_send_raw_frame (C := C) (M := M)) as send. intros send Hsum. eval_awrites.
  eval_aread 34 32. cbn [app] in Hsum. rewrite Hsum. cbn [mbind outcome_bind]. atoms16 c2. eval_awrites. reflexivity.
Qed.

(** C30 An echo request is sent whole: with the adapter up, the next transmit slot
    holds the Ethernet header, the IP header and the ICMP message with the
    identifier and sequence number asked for, and both checksums verify, that is,
    summing the header and the message the way a receiver does gives zero. *)
Theorem icmp_echo_verifies (target ident seq : Z) (dst : list Z) (s : nsys C M) :
  net_wf (n_net s) -> g_rtl_ready (n_rtl (n_net s)) = true -> length dst = 6%nat ->
  exists c1 c2 s',
    let header := ip_head 52 seq 1 c1 (ip_of (n_net s)) target in let message := icmp_echo 8 ident seq c2 in
    ip_send_icmp_echo target dst ident seq s = Val (0, s')
    /\ transmitted (dst ++ mac_of (n_net s) ++ be16 0x0800 ++ header ++ message) (n_net s) (n_net s')
    /\ checksum16 header = Val 0 /\ checksum16 message = Val 0.
Proof.
  intros Hwf Hup Hd.
  destruct (ip_head_checksum 52 seq 1 (ip_of (n_net s)) target) as (c1 & _ & Hc1 & Hv1); [unfold in_u8; lia|].
  destruct (icmp_echo_checksum 8 ident seq) as (c2 & _ & Hc2 & Hv2); [unfold in_u8; lia|].
  set (frame := dst ++ mac_of (n_net s) ++ be16 0x0800 ++ ip_head 52 seq 1 c1 (ip_of (n_net s)) target ++ icmp_echo 8 ident seq c2).
  assert (length frame = 66%nat) as Hlen.
  { unfold frame, ip_head, icmp_echo. rewrite !length_app, Hd, (nw_mac _ Hwf). reflexivity. }
  destruct (send_spec frame s Hwf) as [[_ Hbad]|(s' & Hsend & Htr & _)].
  { exfalso. rewrite Hup, Hlen in Hbad. destruct Hbad as [?|[Hnil|?]]; [done|by rewrite Hnil in Hlen|done]. }
  exists c1, c2, s'. split; [|by split]. rewrite (echo_frame _ _ _ _ _ c1 c2) by done. fold frame.
  rewrite Hlen in Hsend. exact Hsend.
Qed.

(** C29 With the adapter up, an ARP request for the interface's own address is answered:
    the sender's address is in the cache afterwards, and the next transmit slot holds the ARP reply addressed to the sender, from the
    interface's hardware and protocol addresses, padded to 60 bytes. *)
Theorem arp_request_answered (s : nsys C M) (dst mac tha pad : list Z) (ip : Z) :
  net_wf (n_net s) -> g_rtl_ready (n_rtl (n_net s)) = true -> in_u32 ip -> in_u32 (ip_of (n_net s)) ->
  length dst = 6%nat -> length mac = 6%nat -> length tha = 6%nat ->
  let frame := arp_frame 1 dst mac ip tha (ip_of (n_net s)) ++ pad in
  exists cache s', net_process_frame frame (Z.of_nat (length frame)) s = Val s'
    /\ net_wf (n_net s')
    /\ arp_cache_lookup ip (g_arp_cache (n_net s')) = Some mac
    /\ transmitted (arp_frame 2 mac (mac_of (n_net s)) (ip_of (n_net s)) mac ip) (with_arp cache (n_net s)) (n_net s').
Proof.
  intros Hwf Hup Hip Hmy Hdst Hmac Htha frame.
  assert (Z.of_nat (length frame) = 42 + Z.of_nat (length pad)) as Hlen.
  { unfold frame. rewrite length_app, arp_frame_length by done. lia. }
  destruct (arp_update_wf ip mac (uptime s) (g_arp_cache (n_net s)) (nw_cache _ Hwf) Hmac (nw_macs _ Hwf))
    as (cache & Hcache & Hc & Hms & Hfound).
  set (n1 := with_arp cache (n_net s)). assert (net_wf n1) as Hwf1 by (destruct Hwf; by split).
  pose proof (send_spec (arp_frame 2 mac (mac_of n1) (ip_of n1) mac ip) (put_net n1 s) Hwf1) as Hsend.
  rewrite arp_frame_length in Hsend by (done || apply (nw_mac _ Hwf1)).
  destruct Hsend as [[_ Hbad]|(s' & Hsend & Htr & Hw)].
  { exfalso. change (n_rtl (n_net (put_net n1 s))) with (n_rtl (n_net s)) in Hbad. rewrite Hup in Hbad.
    destruct Hbad as [?|[Hnil|Hbig]]; [done| |].
    - apply (f_equal length) in Hnil. rewrite arp_frame_length in Hnil by (done || apply (nw_mac _ Hwf1)). done.
    - unfold RTL_TX_BUFFER_SIZE in Hbig. lia. }
  exists cache, s'. split.
  - unfold net_process_frame. rewrite decide_False by lia.
    assert (be16_load frame 12 = Val 0x0806) as -> .
    { unfold frame, arp_frame. rewrite <- !app_assoc. rewrite (app_assoc dst mac).
      apply be16_load_at; [unfold in_u16; lia|]. rewrite length_app, Hdst, Hmac. done. }
    cbn [mbind outcome_bind]. rewrite decide_True by done. unfold net_process_arp. rewrite decide_False by lia.
    assert (drop 14 frame = be16 1 ++ be16 0x0800 ++ [6; 4] ++ be16 1 ++ mac ++ be32 ip ++ tha ++ be32 (ip_of (n_net s)) ++ pad) as ->.
    { unfold frame, arp_frame. rewrite <- !app_assoc. rewrite (app_assoc dst mac), (app_assoc (dst ++ mac)).
      apply drop_app_length'. rewrite !length_app, Hdst, Hmac. done. }
    destruct (arp_message_fields 1 mac ip tha (ip_of (n_net s)) pad) as (-> & -> & -> & -> & -> & -> & -> & ->);
      [done..|]. cbn [mbind outcome_bind]. rewrite decide_False by (intros [?|[?|[?|?]]]; done).
    rewrite Hcache. cbn [mbind outcome_bind]. rewrite decide_True by done. fold n1.
    rewrite arp_reply_frame by done. change (Z.of_nat 42) with 42 in Hsend. change (n_net (put_net n1 s)) with n1. by rewrite Hsend.
  - split; [by eapply transmitted_wf|]. split; [|done]. destruct Htr as (slot & -> & _). done.
Qed.

End Sent.

(** * Waiting ends *)

Section Wait.
Context {C : Type} `{Terminal C} {M : Type} `{Ports M} `{NicLaws M}.
Implicit Types s : nsys C M.
Context (hlt : nsys C M -> outcome (power (nsys C M))).

(** What the interrupts need of the rest of the machine; polling the adapter, which
    only uses ports, does not disturb it. *)
Context (ok : world C M -> Prop) (ok_ports : forall h w, ok w -> ok (with_ports h w)).

(** The timer interrupt wakes the processor: every halt ends at the next tick, or
    stops the machine for good. *)
Definition hlt_wakes : Prop :=
  forall s, net_wf (n_net s) -> ok (n_world s) -> 0 <= uptime s < 2 ^ 64 - 1 -> exists p, hlt s = Val p
    /\ (forall s', p = Running s' -> net_wf (n_net s') /\ ok (n_world s') /\ uptime s' = uptime s + 1).

(** A wait of at most [fuel] halts. *)
Definition bounded_wait (start timeout : Z) (fuel : nat) s : Prop :=
  0 <= start <= uptime s /\ uptime s <= start + timeout < 2 ^ 64 /\ timeout - (uptime s - start) <= Z.of_nat fuel.

Lemma not_expired start timeout fuel s : bounded_wait start timeout fuel s -> expired start timeout s = false ->
  exists fuel', fuel = S fuel' /\ uptime s - start < timeout.
Proof.
  intros (Hs & Hu & Hf) He. unfold expired in He. apply bool_decide_eq_false in He.
  rewrite u64_small in He by (unfold in_u64; lia). destruct fuel as [|fuel]; [lia|]. exists fuel. lia.
Qed.

Lemma uptime_ports s s' : n_world s' = with_ports (hw s') (n_world s) -> uptime s' = uptime s.
Proof. intros Hw. unfold uptime, scheduler_uptime_ticks. by rewrite Hw. Qed.

Lemma arp_request_goes_on ip s : net_wf (n_net s) ->
  exists r s', arp_send_request ip s = Val (r, s') /\ net_wf (n_net s') /\ n_world s' = with_ports (hw s') (n_world s).
Proof.
  intros Hwf. rewrite arp_request_frame by done. change 42 with (Z.of_nat 42).
  rewrite <- (arp_frame_length 1 (replicate 6 255) (mac_of (n_net s)) (ip_of (n_net s)) (replicate 6 0) ip)
    by (done || apply (nw_mac _ Hwf)).
  by apply send_goes_on.
Qed.

Lemma poll_goes_on s : packets_fit 1520 -> net_wf (n_net s) ->
  exists s', rtl_poll_rx s = Val s' /\ net_wf (n_net s') /\ n_world s' = with_ports (hw s') (n_world s).
Proof.
  intros Hfit Hwf. assert (goes_on s (rtl_poll_rx s)) as (s' & Hp & Hn & Hw).
  { unfold rtl_poll_rx. destruct (g_rtl_ready _); [by apply poll_loop_goes_on|by apply goes_on_here]. }
  by exists s'.
Qed.

(** Using the ports keeps the rest of the machine. *)
Lemma same_world s s' : n_world s' = with_ports (hw s') (n_world s) -> ok (n_world s) ->
  ok (n_world s') /\ uptime s' = uptime s.
Proof. intros Hw Hok. split; [rewrite Hw; by apply ok_ports|by apply uptime_ports]. Qed.

(** The cache holds hardware addresses. *)
Lemma lookup_length ip (cache : list arp_entry) mac : Forall (fun e => length (arp_mac e) = 6%nat) cache ->
  arp_cache_lookup ip cache = Some mac -> length mac = 6%nat.
Proof.
  intros Hall. unfold arp_cache_lookup. destruct (filter _ cache) as [|e l] eqn:Hf; [done|]. intros [= <-].
  rewrite Forall_forall in Hall. apply Hall. assert (e ∈ e :: l) as He by apply list_elem_of_here.
  rewrite <- Hf in He. by apply list_elem_of_filter in He as [_ He].
Qed.

Lemma resolve_loop_spec ip start timeout fuel : packets_fit 1520 -> hlt_wakes -> forall next_probe s,
  net_wf (n_net s) -> ok (n_world s) -> bounded_wait start timeout fuel s ->
  exists p, resolve_loop hlt fuel ip start timeout next_probe s = Val p
    /\ forall r s', p = Running (r, s') -> net_wf (n_net s') /\ ok (n_world s') /\ uptime s <= uptime s' <= start + timeout
         /\ (forall mac, r = Some mac -> length mac = 6%nat).
Proof.
  intros Hfit Hwake. induction fuel as [|fuel IH]; intros next_probe s Hwf Hok Hb; cbn [resolve_loop];
    (destruct (expired start timeout s) eqn:He;
      [eexists; split; [done|]; intros r s' [= <- <-]; destruct Hb as (_ & ? & _); split_and!; try done; lia|]);
    destruct (not_expired _ _ _ _ Hb He) as (f & [= Hff] & Ht).
  subst f.
  assert (exists np s1, (if decide (uptime s >= next_probe) then
      '(_, s0) ← arp_send_request ip s; Val (u64 (uptime s + 50), s0) else Val (next_probe, s)) = Val (np, s1)
      /\ net_wf (n_net s1) /\ ok (n_world s1) /\ uptime s1 = uptime s) as (np & s1 & -> & Hwf1 & Hok1 & Hu1).
  { case_decide; [|by exists next_probe, s].
    destruct (arp_request_goes_on ip s Hwf) as (r & s1 & -> & Hn & Hw). cbn [mbind outcome_bind].
    eexists _, s1. split; [done|]. split; [done|]. by apply same_world. }
  cbn [mbind outcome_bind]. destruct (poll_goes_on s1 Hfit Hwf1) as (s2 & -> & Hwf2 & Hw2). cbn [mbind outcome_bind].
  destruct (same_world _ _ Hw2 Hok1) as [Hok2 Hu2]. destruct Hb as (B1 & B2 & B3).
  destruct (arp_cache_lookup ip _) as [mac|] eqn:Hmac.
  { eexists. split; [done|]. intros r s' [= <- <-]. split; [done|]. split; [done|]. split; [lia|]. intros m [= <-].
    exact (lookup_length _ _ _ (nw_macs _ Hwf2) Hmac). }
  destruct (Hwake s2 Hwf2 Hok2) as (p & -> & Hp); [lia|]. cbn [mbind outcome_bind].
  destruct p as [s3|s3|s3]; cbn [resume]; [|by eexists..]. destruct (Hp s3 eq_refl) as (Hwf3 & Hok3 & Hu3).
  destruct (IH np s3 Hwf3 Hok3) as (p & -> & Hp'); [unfold bounded_wait; lia|].
  exists p. split; [done|]. intros r s' Hr. destruct (Hp' r s' Hr) as (? & ? & ? & ?). split_and!; try done; lia.
Qed.

Lemma resolve_loop_ends ip start timeout fuel next_probe s : packets_fit 1520 -> hlt_wakes ->
  net_wf (n_net s) -> ok (n_world s) -> bounded_wait start timeout fuel s ->
  exists p, resolve_loop hlt fuel ip start timeout next_probe s = Val p.
Proof.
  intros Hfit Hwake Hn Ho Hb. destruct (resolve_loop_spec ip start timeout fuel Hfit Hwake next_probe s Hn Ho Hb) as (p & Hp & _). by exists p.
Qed.

Lemma dhcp_wait_ends have start timeout fuel : packets_fit 1520 -> hlt_wakes -> forall s,
  net_wf (n_net s) -> ok (n_world s) -> bounded_wait start timeout fuel s ->
  exists p, dhcp_wait hlt fuel have start timeout s = Val p
    /\ forall b s', p = Running (b, s') -> net_wf (n_net s') /\ ok (n_world s') /\ uptime s <= uptime s' <= start + timeout
         /\ (b = true -> have (g_dhcp (n_net s')) = true).
Proof.
  intros Hfit Hwake. induction fuel as [|fuel IH]; intros s Hwf Hok Hb; cbn [dhcp_wait];
    (destruct (expired start timeout s) eqn:He;
      [eexists; split; [done|]; intros b s' [= <- <-]; destruct Hb as (_ & ? & _); split_and!; try done; lia|]);
    destruct (not_expired _ _ _ _ Hb He) as (f & [= Hff] & Ht).
  subst f. destruct (poll_goes_on s Hfit Hwf) as (s2 & -> & Hwf2 & Hw2). cbn [mbind outcome_bind].
  destruct (same_world _ _ Hw2 Hok) as [Hok2 Hu2]. destruct Hb as (B1 & B2 & B3).
  destruct (have (g_dhcp (n_net s2))) eqn:Hhave.
  { eexists. split; [done|]. intros b s' [= <- <-]. split_and!; try done; lia. }
  destruct (Hwake s2 Hwf2 Hok2) as (p & -> & Hp); [lia|]. cbn [mbind outcome_bind].
  destruct p as [s3|s3|s3]; cbn [resume]; [|by eexists..]. destruct (Hp s3 eq_refl) as (Hwf3 & Hok3 & Hu3).
  destruct (IH s3 Hwf3 Hok3) as (p & -> & Hp'). { unfold bounded_wait. lia. }
  exists p. split; [done|]. intros b s' Hr. destruct (Hp' b s' Hr) as (? & ? & ? & ?). split_and!; try done; lia.
Qed.

Lemma ip_header_total dst len id proto src dip n frame : net_wf n -> length dst = 6%nat -> (34 <= length frame)%nat ->
  exists f, ip_header dst len id proto src dip n frame = Val f /\ length f = length frame.
Proof.
  intros Hwf Hd Hl. pose proof (nw_mac _ Hwf). unfold ip_header.
  assert (exists f, ip_fields dst len id proto src dip n frame = Val f /\ length f = length frame) as (f & -> & Hf).
  { unfold ip_fields. do 12 store_total. eexists. split; [done|]. congruence. }
  cbn [mbind outcome_bind]. rewrite aread_in_range by lia. cbn [mbind outcome_bind].
  set (h := take _ _). destruct (checksum_total h) as [c ->]. cbn [mbind outcome_bind].
  destruct (awrite_total f (be16 c) 24) as (f' & Hf' & Hl'); [lia|cbn [length be16]; lia|]. exists f'. split; [exact Hf'|congruence].
Qed.

Lemma udp_goes_on src dip sp dp payload n dst s :
  net_wf (n_net s) -> length dst = 6%nat -> 0 <= n <= Z.of_nat (length payload) ->
  exists r s', ip_send_udp src dip sp dp payload n dst s = Val (r, s') /\ net_wf (n_net s')
    /\ n_world s' = with_ports (hw s') (n_world s).
Proof.
  intros Hwf Hd Hn. unfold ip_send_udp. case_decide; [eexists _, _; split; [done|]; split; [done|apply world_same]|].
  assert (length (replicate 590 0) = 590%nat) as Hr by apply length_replicate.
  destruct (ip_header_total dst (u16 (20 + (8 + n))) (Z.land (uptime s) 65535) IP_PROTO_UDP src dip (n_net s) (replicate 590 0) Hwf Hd
    ltac:(lia)) as (f & -> & Hf). cbn [mbind outcome_bind]. do 4 store_total.
  rewrite aread_in_range by lia. cbn [mbind outcome_bind]. store_total; [rewrite length_take, length_drop; lia|].
  set (out := take (Z.to_nat (14 + 20 + (8 + n))) x3).
  assert (rtl_send_raw_frame x3 (14 + 20 + (8 + n)) s = rtl_send_raw_frame out (Z.of_nat (length out)) s) as ->.
  { assert (Z.of_nat (length out) = 14 + 20 + (8 + n)) as Hlo by (unfold out; rewrite length_take; lia).
    unfold rtl_send_raw_frame. rewrite Hlo. case_decide; [done|].
    assert (aread x3 0 (14 + 20 + (8 + n)) = aread out 0 (14 + 20 + (8 + n))) as ->; [|done].
    rewrite !aread_in_range by lia. f_equal. change (Z.to_nat 0) with 0%nat. rewrite !drop_0. unfold out. rewrite take_take.
    by rewrite Nat.min_id. }
  by apply send_goes_on.
Qed.

Lemma dhcp_message_total n : net_wf n -> exists p, dhcp_message n = Val p /\ length p = 300%nat.
Proof.
  intros Hwf. pose proof (nw_mac _ Hwf). assert (length (replicate 300 0) = 300%nat) as Hr by apply length_replicate.
  unfold dhcp_message. do 6 store_total.
  destruct (awrite_total x4 (be32 0x63825363) 236) as (f & Hf & Hlf); [lia|cbn [length be32]; lia|].
  exists f. split; [exact Hf|]. congruence.
Qed.

Lemma discover_goes_on s : net_wf (n_net s) ->
  exists r s', dhcp_send_discover s = Val (r, s') /\ net_wf (n_net s') /\ n_world s' = with_ports (hw s') (n_world s).
Proof.
  intros Hwf. unfold dhcp_send_discover. destruct (dhcp_message_total _ Hwf) as (p & -> & Hp). cbn [mbind outcome_bind].
  store_total. apply udp_goes_on; [done|done|lia].
Qed.

Lemma request_goes_on s : net_wf (n_net s) ->
  exists r s', dhcp_send_request s = Val (r, s') /\ net_wf (n_net s') /\ n_world s' = with_ports (hw s') (n_world s).
Proof.
  intros Hwf. unfold dhcp_send_request. case_decide; [eexists _, _; split; [done|]; split; [done|apply world_same]|].
  destruct (dhcp_message_total _ Hwf) as (p & -> & Hp). cbn [mbind outcome_bind].
  do 5 store_total. apply udp_goes_on; [done|done|lia].
Qed.

Lemma with_dhcp_wf d n : net_wf n -> net_wf (with_dhcp d n).
Proof. intros []. by split. Qed.

Lemma with_if_wf i n : net_wf n -> net_wf (with_if i n).
Proof. intros []. by split. Qed.

(** A request is only sent for an offer. *)
Lemma request_offered s s' : dhcp_send_request s = Val (0, s') ->
  got_offer (g_dhcp (n_net s)) = true /\ server_ip (g_dhcp (n_net s)) <> 0 /\ offered_ip (g_dhcp (n_net s)) <> 0.
Proof.
  unfold dhcp_send_request. case_decide as Hd; [discriminate|]. intros _.
  destruct (got_offer _); [|by destruct Hd; left]. split_and!; [done|..]; intros E; apply Hd; auto.
Qed.

(** How a lease comes about: an offer is on record with a server and an address, the
    request for it is sent, and the wait that follows ends with an acknowledgement. *)
Definition leased_after_offer (fuel : nat) (timeout : Z) (s' : nsys C M) : Prop :=
  exists s2 s3 s4,
    (got_offer (g_dhcp (n_net s2)) = true /\ server_ip (g_dhcp (n_net s2)) <> 0 /\ offered_ip (g_dhcp (n_net s2)) <> 0)
    /\ dhcp_send_request s2 = Val (0, s3)
    /\ dhcp_wait hlt fuel got_ack (uptime s3) timeout s3 = Val (Running (true, s4))
    /\ s' = take_lease s4.

(** Acquiring a lease: it returns, or the machine stops meanwhile. *)
Lemma dhcp_acquire_ends (fuel : nat) (timeout : Z) (s : nsys C M) :
  packets_fit (M := M) 1520 -> hlt_wakes -> net_wf (n_net s) -> ok (n_world s) ->
  0 <= uptime s -> 0 <= timeout <= Z.of_nat fuel -> uptime s + 2 * timeout < 2 ^ 64 ->
  exists p, net_dhcp_acquire hlt fuel timeout s = Val p
    /\ forall b s', p = Running (b, s') -> net_wf (n_net s') /\ ok (n_world s')
         /\ (b = true -> got_ack (g_dhcp (n_net s')) = true /\ ip_of (n_net s') = offered_ip (g_dhcp (n_net s'))
              /\ leased_after_offer fuel timeout s').
Proof.
  intros Hfit Hwake Hwf Hok Hu Hfuel Hsmall.
  assert (forall s1, net_wf (n_net s1) -> ok (n_world s1) -> exists p, Val (Running (false, s1)) = Val p
      /\ forall b s', p = Running (b, s') -> net_wf (n_net s') /\ ok (n_world s')
         /\ (b = true -> got_ack (g_dhcp (n_net s')) = true /\ ip_of (n_net s') = offered_ip (g_dhcp (n_net s'))
              /\ leased_after_offer fuel timeout s')) as Hno.
  { intros s1 Hn1 Ho1. eexists. split; [done|]. intros b s' [= <- <-]. done. }
  unfold net_dhcp_acquire. destruct (g_rtl_ready _); [|by apply Hno]. set (s0 := put_net _ s).
  assert (net_wf (n_net s0)) as Hwf0 by (by apply with_dhcp_wf).
  destruct (discover_goes_on s0 Hwf0) as (r & s1 & -> & Hwf1 & Hw1). cbn [mbind outcome_bind].
  destruct (same_world _ _ Hw1 Hok) as [Hok1 Hu1]. change (uptime s0) with (uptime s) in Hu1.
  case_decide; [by apply Hno; [apply with_dhcp_wf|]|].
  destruct (dhcp_wait_ends got_offer (uptime s1) timeout fuel Hfit Hwake s1 Hwf1 Hok1) as (p & -> & Hp);
    [unfold bounded_wait; lia|]. cbn [mbind outcome_bind].
  destruct p as [[b s2]|[b s2]|[b s2]]; cbn [andthen]; [|by eexists..].
  destruct (Hp b s2 eq_refl) as (Hwf2 & Hok2 & Hu2 & _).
  destruct (got_offer (g_dhcp (n_net s2))); cbn [negb]; [|by apply Hno; [apply with_dhcp_wf|]].
  destruct (request_goes_on s2 Hwf2) as (r2 & s3 & Hreq & Hwf3 & Hw3). rewrite Hreq. cbn [mbind outcome_bind].
  destruct (same_world _ _ Hw3 Hok2) as [Hok3 Hu3]. case_decide as Hr2; [by apply Hno; [apply with_dhcp_wf|]|].
  destruct (dhcp_wait_ends got_ack (uptime s3) timeout fuel Hfit Hwake s3 Hwf3 Hok3) as (p & Hwait & Hp3);
    [unfold bounded_wait; lia|]. rewrite Hwait. cbn [mbind outcome_bind].
  destruct p as [[b3 s4]|[b3 s4]|[b3 s4]]; cbn [andthen]; [|by eexists..].
  destruct (Hp3 b3 s4 eq_refl) as (Hwf4 & Hok4 & _ & Hack). destruct b3; [|by apply Hno; [apply with_dhcp_wf|]].
  eexists. split; [done|]. intros b' s' [= <- <-]. split; [by apply with_dhcp_wf, with_if_wf|]. split; [exact Hok4|].
  intros _. split; [by apply Hack|]. split; [done|]. assert (r2 = 0) as -> by (by destruct (decide (r2 = 0))).
  exists s2, s3, s4. split; [by eapply request_offered|]. split; [exact Hreq|]. by split.
Qed.


End Wait.

(** * An interface on a test bench *)

Module NetDemo.
Import Terminal.Transcript Ports.Bench.

(** An ARP request from 10.0.2.2 for 10.0.2.15, as the adapter delivers it: status,
    length, frame, checksum; the rest of the receive buffer is zero. *)
Definition demo_mac : list Z := [0x52; 0x54; 0; 0x12; 0x34; 0x56].
Definition gateway_mac : list Z := [0x52; 0x55; 10; 0; 2; 2].
Definition gateway_ip : Z := 0x0A000202.
Definition demo_request : list Z :=
  arp_frame 1 (replicate 6 255) gateway_mac gateway_ip (replicate 6 0) NET_DEFAULT_IP ++ replicate 18 0.
Definition demo_rx : list Z :=
  [1; 0; 64; 0] ++ demo_request ++ [1; 2; 3; 4] ++ replicate (Z.to_nat (RTL_RX_BUFFER_SIZE - 68)) 0.

#[local] Instance demo_nic : Nic bench := {
  g_rx_buffer _ := demo_rx; rx_address _ := 0x200000; tx_address _ i := 0x203000 + i * 2048;
}.
#[local] Instance demo_nic_laws : NicLaws bench.
Proof.
  split; intros h; [vm_compute; reflexivity|].
  assert (forallb (fun b => bool_decide (in_u8 b)) demo_rx = true) as Hb by (vm_compute; reflexivity).
  rewrite forallb_forall in Hb. apply Forall_forall. intros b Hin%list_elem_of_In.
  specialize (Hb b Hin). by apply bool_decide_eq_true in Hb.
Qed.

(** A boolean form of [packets_fit] for one buffer. *)
Definition packet_fits (buffer : list Z) (k : nat) : bool :=
  match le_load (drop (4 * k) buffer) 2 2 with
  | Val len => bool_decide (len < 4) || bool_decide (1792 < len) || bool_decide (len <= 1520)
  | Stop _ => true
  end.

Lemma demo_packets_fit : packets_fit (M := bench) 1520.
Proof.
  intros h o len Ho Ho4 Hl Hr. change (g_rx_buffer h) with demo_rx in Hl.
  assert (forallb (packet_fits demo_rx) (seq 0 2048) = true) as Hall by (vm_compute; reflexivity).
  rewrite forallb_forall in Hall. specialize (Hall (Z.to_nat (o / 4))).
  assert (In (Z.to_nat (o / 4)) (seq 0 2048)) as Hin by (apply in_seq; Z.div_mod_to_equations; lia).
  specialize (Hall Hin). unfold packet_fits in Hall.
  replace (4 * Z.to_nat (o / 4))%nat with (Z.to_nat o) in Hall by (Z.div_mod_to_equations; lia).
  rewrite Hl in Hall. rewrite !orb_true_iff, !bool_decide_eq_true in Hall. lia.
Qed.

Definition demo_net : net_state :=
  Net [] 0 (Rtl 0xC000 11 true demo_mac (replicate 4 (replicate 2048 0)) 0 0)
    (Interface NET_DEFAULT_IP NET_DEFAULT_GW NET_DEFAULT_MASK true) (Counters 0 0 0) (replicate 4 zero_arp) zero_ping zero_dhcp.
Definition demo_system (script : list Z) : nsys transcript bench :=
  NSys demo_net (with_ports (Machine script []) demo_world).

Lemma demo_net_wf : net_wf demo_net.
Proof. split; try reflexivity; try (repeat constructor); cbn; lia. Qed.


(** The request is answered when it is polled, and the second packet is not there. *)
Example request_polled :
  match rtl_poll_rx (demo_system [0]) with
  | Val s => (arp_cache_lookup gateway_ip (g_arp_cache (n_net s)), g_rx_frames (n_counters (n_net s)),
              g_rx_read_offset (n_rtl (n_net s)), take 42 <$> (g_tx_buffer (n_rtl (n_net s)) !! 0%nat))
             = (Some gateway_mac, 1, 68, Some (arp_frame 2 gateway_mac demo_mac NET_DEFAULT_IP gateway_mac gateway_ip))
  | Stop _ => False
  end.
Proof. vm_compute. reflexivity. Qed.

Lemma arp_request_answered_witness :
  let s := demo_system [] in
  let frame := arp_frame 1 (replicate 6 255) gateway_mac gateway_ip (replicate 6 0) (ip_of (n_net s)) ++ replicate 18 0 in
  exists cache s', net_process_frame frame (Z.of_nat (length frame)) s = Val s'
    /\ net_wf (n_net s') /\ arp_cache_lookup gateway_ip (g_arp_cache (n_net s')) = Some gateway_mac
    /\ transmitted (arp_frame 2 gateway_mac (mac_of (n_net s)) (ip_of (n_net s)) gateway_mac gateway_ip)
         (with_arp cache (n_net s)) (n_net s').
Proof.
  apply (arp_request_answered (demo_system []) (replicate 6 255) gateway_mac (replicate 6 0) (replicate 18 0) gateway_ip
    demo_net_wf); try reflexivity; vm_compute; split; congruence.
Defined.

Lemma icmp_echo_verifies_witness :
  exists c1 c2 s',
    let header := ip_head 52 1 1 c1 NET_DEFAULT_IP gateway_ip in let message := icmp_echo 8 0x4D47 1 c2 in
    ip_send_icmp_echo gateway_ip gateway_mac 0x4D47 1 (demo_system []) = Val (0, s')
    /\ transmitted (gateway_mac ++ demo_mac ++ be16 0x0800 ++ header ++ message) demo_net (n_net s')
    /\ checksum16 header = Val 0 /\ checksum16 message = Val 0.
Proof. apply (icmp_echo_verifies gateway_ip 0x4D47 1 gateway_mac (demo_system []) demo_net_wf); reflexivity. Defined.

(** A halt that ends with the next tick of the clock, with nothing else happening. *)
Definition next_tick (s : nsys transcript bench) : outcome (power (nsys transcript bench)) :=
  let w := n_world s in
  let c := w_sched w in
  let w := with_sched (Sched (u64 (g_uptime_ticks c + 1)) (g_memguard_boot_free_pages c)
                         (g_memguard_prev_free_pages c) (g_memguard_critical_streak c)) w in
  Val (Running (NSys (n_net s) w)).

Lemma next_tick_wakes : hlt_wakes next_tick (fun _ => True).
Proof.
  intros s Hwf _ Hu. eexists. split; [reflexivity|]. intros s' [= <-]. split; [done|]. split; [done|].
  unfold uptime, scheduler_uptime_ticks in *. cbn. by rewrite u64_small by (unfold in_u64; lia).
Qed.


End NetDemo.

(** * A packet that leads past the receive buffer *)

Module NetOverrun.
Import Terminal.Transcript Ports.Bench.

(** A packet of 1792 bytes, the longest the driver's check accepts, at the last
    offset of the ring: an ICMP message of 1750 bytes, of which the buffer behind
    the ring has room for 1482. *)
Definition long_packet : list Z :=
  [1; 0; 0; 7] ++ NetDemo.demo_mac ++ NetDemo.gateway_mac ++ be16 0x0800
  ++ ip_head 1770 7 1 0x5BFC NetDemo.gateway_ip NET_DEFAULT_IP ++ replicate 1482 0.
Definition long_rx : list Z := replicate 8188 0 ++ long_packet.

#[local] Instance long_nic : Nic bench := {
  g_rx_buffer _ := long_rx; rx_address _ := 0x200000; tx_address _ i := 0x203000 + i * 2048;
}.

(** Without the bound on the length, polling reads outside the buffer: the check
    against 1792 is not enough for a buffer of 8192 + 16 + 1500 bytes. *)
Example long_packet_overruns :
  Z.of_nat (length long_rx) = RTL_RX_BUFFER_SIZE
  /\ rtl_poll_rx (NSys (set_rx_offset 8188 NetDemo.demo_net) (with_ports (Machine [0] []) demo_world)) = Stop Oob.
Proof. vm_compute. split; reflexivity. Qed.

End NetOverrun.
