(* ===== verification/NetBoot.v ===== *)
(** Bringing the network up: net_init of [Net.v] finds the adapters and starts the
    driver without leaving its arrays, and net_startup_connect returns, whatever
    devices and packets there are. *)

From Stdlib Require Import ZArith Lia Ascii.
From stdpp Require Import base list strings.
From S2P Require Import Prelude KString Pmm Vmm Terminal Ports Task Sched Inet NetConst Net NetSpec.
Open Scope Z_scope.
Import Fmt.

Section NetBoot.
Context {C : Type} `{TerminalLaws C} {M : Type} `{PortsLaws M} `{NicLaws M}.
Implicit Types s : nsys C M.

(** * Probing *)

(** The table of adapters in order, besides what the driver needs. *)
Definition probing (n : net_state) : Prop := net_wf n /\ length (g_adapters n) = 8%nat /\ 0 <= g_adapter_count n <= 8.

(** A step that only talks to devices and changes the network state. *)
Definition probes s (o : outcome (nsys C M)) : Prop :=
  exists s', o = Val s' /\ probing (n_net s') /\ n_world s' = with_ports (hw s') (n_world s).

Lemma probes_here s : probing (n_net s) -> probes s (Val s).
Proof. intros Hp. exists s. split; [done|]. split; [done|apply world_same]. Qed.

Lemma probes_from s s1 o : n_world s1 = with_ports (hw s1) (n_world s) -> probes s1 o -> probes s o.
Proof. intros Hw (s2 & -> & Hp & Hw2). exists s2. split; [done|]. split; [done|]. rewrite Hw2, Hw. done. Qed.

Lemma with_adapters_probing n l c : probing n -> length l = 8%nat -> 0 <= c <= 8 -> probing (with_adapters l c n).
Proof. intros ([] & _ & _) Hl Hc. split; [|done]. split; try done. cbn. lia. Qed.

(** The driver's variables other than the transmit slots and the receive offset. *)
Lemma with_rtl_probing n base irq ready mac : probing n -> length mac = 6%nat ->
  probing (with_rtl (Rtl base irq ready mac (g_tx_buffer (n_rtl n)) (g_rx_read_offset (n_rtl n)) (g_tx_index (n_rtl n))) n).
Proof. intros ([] & Hl & Hc) Hm. split; [by split|done]. Qed.

Lemma set_offset_probing n : probing n -> probing (set_rx_offset 0 n).
Proof. intros ([] & Hl & Hc). split; [split; cbn; done || lia|done]. Qed.

Lemma read_mac_probes k : forall i s, probing (n_net s) -> 0 <= i -> i + Z.of_nat k <= 6 -> probes s (read_mac k i s).
Proof.
  induction k as [|k IH]; intros i s Hp Hi Hk; cbn [read_mac]; [by apply probes_here|].
  destruct (io_in8 (reg (RTL_REG_IDR0 + i) (n_net s)) (hw s)) as [b h]. pose proof Hp as ([Hm] & _ & _). unfold mac_of in Hm.
  rewrite aset_in_range by lia. cbn [mbind outcome_bind]. match goal with |- context [read_mac k (i + 1) ?x] => set (s1 := x) end.
  apply (probes_from s s1); [done|]. apply IH; [|lia..]. apply (with_rtl_probing (n_net s)); [done|]. by rewrite length_insert.
Qed.

Lemma rtl_hw_init_probes a s : probing (n_net s) ->
  exists ok s', rtl_hw_init a s = Val (ok, s') /\ probing (n_net s') /\ n_world s' = with_ports (hw s') (n_world s).
Proof.
  intros Hp. unfold rtl_hw_init. set (s1 := put_net _ s). assert (probing (n_net s1)) as Hp1.
  { apply (with_rtl_probing (n_net s)); [done|]. by destruct Hp as ([] & _ & _). }
  case_decide; [exists false, s1; split; [done|]; split; [done|exact (world_same s)]|]. destruct (pci_config_read32 _ _ _ 0x04 (hw s1)) as [command h].
  set (s2 := out8 RTL_REG_CR RTL_CR_RST _). assert (probing (n_net s2)) as Hp2 by exact Hp1.
  unfold rtl_wait_for_reset_clear. destruct (reset_poll _ _ (hw s2)) as [ok h3]. destruct ok; cbn [negb]; [|by eexists _, _].
  set (s3 := put_hw h3 s2).
  match goal with |- context [read_mac 6 0 ?x] => set (s4 := x) end.
  assert (probing (n_net s4)) as Hp4 by exact (set_offset_probing _ Hp2).
  destruct (read_mac_probes 6 0 s4 Hp4 ltac:(lia) ltac:(lia)) as (s5 & -> & Hp5 & Hw5). cbn [mbind outcome_bind].
  eexists _, _. split; [done|]. split.
  - destruct Hp5 as ([] & Hl & Hc). split; [split; cbn; done || lia|done].
  - cbn. rewrite Hw5. done.
Qed.

Lemma add_adapter_probes bus slot func vendor device s : probing (n_net s) ->
  probes s (add_adapter bus slot func vendor device s).
Proof.
  intros Hp. pose proof Hp as (_ & Hl & Hc). unfold add_adapter, NET_MAX_ADAPTERS. case_decide; [|by apply probes_here].
  destruct (pci_config_read32 bus slot func 0x10 (hw s)) as [bar h]. destruct (pci_config_read32 bus slot func 0x3C h) as [irq h2].
  rewrite aset_in_range by lia. cbn [mbind outcome_bind].
  match goal with |- context [rtl_hw_init ?x ?y] => set (s1 := y); set (a := x) end.
  assert (probing (n_net s1)) as Hp1 by (apply with_adapters_probing; [done|by rewrite length_insert|lia]).
  apply (probes_from s s1); [done|]. case_decide; [|by apply probes_here].
  destruct (rtl_hw_init_probes a s1 Hp1) as (ok & s2 & -> & Hp2 & Hw2). cbn [mbind outcome_bind]. pose proof Hp2 as (_ & Hl2 & Hc2).
  destruct ok; [|by exists s2]. rewrite aset_in_range by lia. cbn [mbind outcome_bind]. eexists. split; [done|]. split; [|exact Hw2].
  apply with_adapters_probing; [done|by rewrite length_insert|done].
Qed.

Lemma probe_function_probes bus slot func s : probing (n_net s) -> probes s (probe_function bus slot func s).
Proof.
  intros Hp. unfold probe_function. destruct (pci_config_read32 bus slot func 0x00 (hw s)) as [id h].
  case_decide; [by exists (put_hw h s)|]. destruct (pci_config_read32 bus slot func 0x08 h) as [class h2].
  apply (probes_from s (put_hw h2 s)); [done|]. case_decide; [by apply probes_here|by apply add_adapter_probes].
Qed.

(** A loop of steps. *)
Lemma loop_probes k f i s : (forall j s1, probing (n_net s1) -> probes s1 (f j s1)) -> probing (n_net s) -> probes s (for_loop k i f s).
Proof.
  intros Hf Hp.
  destruct (for_loop_inv (fun _ s1 => probing (n_net s1) /\ n_world s1 = with_ports (hw s1) (n_world s)) k i f s)
    as (s' & -> & Hp' & Hw').
  - split; [done|apply world_same].
  - intros j s1 _ [Hp1 Hw1]. destruct (Hf j s1 Hp1) as (s2 & -> & Hp2 & Hw2). exists s2. split; [done|]. split; [done|].
    rewrite Hw2, Hw1. done.
  - by exists s'.
Qed.

Lemma probe_slot_probes bus slot s : probing (n_net s) -> probes s (probe_slot bus slot s).
Proof.
  intros Hp. unfold probe_slot. destruct (pci_config_read32 bus slot 0 0x00 (hw s)) as [id h].
  case_decide; [by exists (put_hw h s)|]. destruct (pci_config_read32 bus slot 0 0x0C h) as [reg0c h2].
  apply (probes_from s (put_hw h2 s)); [done|]. apply loop_probes; [|done]. intros. by apply probe_function_probes.
Qed.

(** * net_init *)

Lemma print_net_spec f s : prints f -> term_ok (w_console (n_world s)) ->
  exists c, print_net f s = Val (NSys (n_net s) (with_console c (n_world s))) /\ term_ok c.
Proof.
  intros Hf Hs. unfold print_net. destruct (print_spec f (n_world s) Hf Hs) as (c & -> & Hc). by exists c.
Qed.

(** Whatever the PCI bus answers, probing ends with the table of adapters, the ARP
    cache and the transmit slots in order. *)
Lemma net_init_spec s : probing (net_reset (n_net s)) -> term_ok (w_console (n_world s)) ->
  exists s' c, net_init s = Val s' /\ probing (n_net s') /\ n_world s' = with_console c (with_ports (hw s') (n_world s)) /\ term_ok c.
Proof.
  intros Hp Hc. unfold net_init. set (s0 := put_net _ s).
  destruct (loop_probes 256 (fun bus s => for_loop 32 0 (probe_slot bus) s) 0 s0) as (s1 & -> & Hp1 & Hw1);
    [intros bus s1 Hs1; apply loop_probes; [intros; by apply probe_slot_probes|done]|exact Hp|]. cbn [mbind outcome_bind].
  assert (term_ok (w_console (n_world s1))) as Hc1 by (rewrite Hw1; exact Hc).
  destruct (print_net_spec (console_printf (str "net: ethernet adapters detected=%u" ++ [10]) [VaWord (u32 (g_adapter_count (n_net s1)))]) s1)
    as (c2 & -> & Hc2); [apply printf_prints; [reflexivity|reflexivity|repeat constructor]|done|]. cbn [mbind outcome_bind].
  set (s2 := NSys (n_net s1) (with_console c2 (n_world s1))).
  assert (exists s' c, (if g_rtl_ready (n_rtl (n_net s2)) then
      print_net (console_printf (str "net0: rtl8139 ready io=0x%x irq=%u mac=%x:%x:%x:%x:%x:%x" ++ [10])
        (VaWord (g_rtl_io_base (n_rtl (n_net s2))) :: VaWord (g_rtl_irq_line (n_rtl (n_net s2)))
         :: (VaWord <$> take 6 (g_mac (n_rtl (n_net s2)))))) s2
      else print_net (console_writeln (str "net0: rtl8139 not bound") []) s2) = Val s'
    /\ n_net s' = n_net s1 /\ n_world s' = with_console c (n_world s1) /\ term_ok c) as (s3 & c3 & Hr & Hn3 & Hw3 & Hc3).
  { destruct (g_rtl_ready _).
    - pose proof Hp1 as ([Hm] & _). unfold mac_of in Hm. change (n_net s2) with (n_net s1).
      destruct (g_mac (n_rtl (n_net s1))) as [|m0 [|m1 [|m2 [|m3 [|m4 [|m5 [|]]]]]]]; try done.
      match goal with |- context [print_net ?f s2] => destruct (print_net_spec f s2) as (c3 & -> & Hc3) end;
        [apply printf_prints; [reflexivity|reflexivity|repeat constructor]|done|]. by eexists _, c3.
    - destruct (print_net_spec (console_writeln (str "net0: rtl8139 not bound") []) s2) as (c3 & -> & Hc3);
        [apply writeln_prints; [by eexists|vm_compute; repeat constructor; discriminate|constructor]|done|]. by eexists _, c3. }
  cbn zeta. rewrite Hr. exists s3, c3. split; [done|]. rewrite Hn3. split; [done|]. split; [|done].
  unfold hw. rewrite Hw3. cbn. by rewrite Hw1.
Qed.

(** * net_startup_connect *)

Lemma ip_text_total ip : exists t, ip_text ip = Val t /\ Forall in_u8 t.
Proof.
  unfold ip_text, format_ip, ksnprintf. set (args := [_; _; _; _]).
  destruct (fits_render _ (str "%u.%u.%u.%u") args (Nat.le_refl _) eq_refl) as [o Ho].
  rewrite (kvsnprintf_spec _ 20 _ args o) by (rewrite ?length_replicate; done || lia || (repeat constructor; discriminate)).
  cbn [mbind outcome_bind]. eexists. split; [done|]. apply printed_bytes; [|by apply Forall_replicate].
  eapply (render_bytes _ (str "%u.%u.%u.%u") args); [apply Nat.le_refl|vm_compute; repeat constructor; discriminate| |done].
  repeat constructor.
Qed.

Section Startup.
Context (hlt : nsys C M -> outcome (power (nsys C M))).
Context (ok : world C M -> Prop) (ok_ports : forall h w, ok w -> ok (with_ports h w)).
Context (ok_console : forall w, ok w -> term_ok (w_console w)).
Context (ok_print : forall c w, ok w -> term_ok c -> ok (with_console c w)).

Lemma startup_ends (fuel : nat) s : packets_fit (M := M) 1520 -> hlt_wakes hlt ok -> net_wf (n_net s) -> ok (n_world s) ->
  0 <= uptime s < 2 ^ 63 -> (300 <= fuel)%nat ->
  exists p, net_startup_connect hlt fuel s = Val p
    /\ forall s', p = Running (tt, s') -> net_wf (n_net s') /\ ok (n_world s').
Proof.
  intros Hfit Hwake Hn Ho Hu Hf. unfold net_startup_connect. destruct (g_rtl_ready _).
  2:{ eexists. split; [done|]. by intros s' [= <-]. }
  destruct (print_net_spec (console_writeln (str "net0: startup DHCP begin") []) s) as (c & -> & Hc);
    [apply writeln_prints; [by eexists|vm_compute; repeat constructor; discriminate|constructor]|by apply ok_console|].
  cbn [mbind outcome_bind]. set (s1 := NSys _ _). change (uptime s) with (uptime s1) in Hu.
  destruct (dhcp_acquire_ends hlt ok ok_ports fuel 300 s1 Hfit Hwake Hn) as (p & -> & Hp); [by apply ok_print|lia..|].
  cbn [mbind outcome_bind]. destruct p as [[leased s2]|[leased s2]|[leased s2]]; cbn [andthen]; [|by eexists..].
  destruct (Hp leased s2 eq_refl) as (Hn2 & Ho2 & _). match goal with |- context [ip_text (g_ip_addr ?x)] => set (i := x) end.
  destruct (ip_text_total (g_ip_addr i)) as (ip & -> & Hip). destruct (ip_text_total (g_ip_gw i)) as (gw & -> & Hgw).
  cbn [mbind outcome_bind]. unfold finished. set (s3 := put_net _ s2).
  match goal with |- context [print_net ?f s3] => destruct (print_net_spec f s3) as (c4 & -> & Hc4) end;
    [|by apply ok_console|].
  - destruct leased; apply printf_prints; (reflexivity || (constructor; [done|]; constructor; [done|constructor])).
  - cbn [mbind outcome_bind]. eexists. split; [done|]. intros s' [= <-]. split; [by apply with_if_wf|]. by apply ok_print.
Qed.

End Startup.
End NetBoot.
