(* ===== verification/NetCmds.v ===== *)
(** The network commands end ([src/kernel/net.c]: net_scan_nearby, net_connect_target,
    net_ping and the reports).

    [returns] is what a call that waits promises its caller: it returns, or the
    machine stops meanwhile; when it returns the network state is in order, the
    world still satisfies [ok], and the clock has not advanced by more than the
    call's timeouts.  Sequences and waits compose through its lemmas. *)

From Stdlib Require Import ZArith Lia Ascii.
From stdpp Require Import base gmap list strings.
From S2P Require Import Prelude KString Terminal Ports Task Sched Inet NetConst Net NetSpec NetBoot.
Open Scope Z_scope.
Import Fmt.

Section Commands.
Context {C : Type} `{TerminalLaws C} {M : Type} `{PortsLaws M} `{!Nic M, !NicLaws M}.
Implicit Types s : nsys C M.
Context (hlt : nsys C M -> outcome (power (nsys C M))).
Context (ok : world C M -> Prop) (ok_ports : forall h w, ok w -> ok (with_ports h w)).
Context (ok_console : forall w, ok w -> term_ok (w_console w)).
Context (ok_print : forall c w, ok w -> term_ok c -> ok (with_console c w)).
Context (fits_buffer : packets_fit (M := M) 1520) (wakes : hlt_wakes hlt ok).

Definition fine s : Prop := net_wf (n_net s) /\ ok (n_world s).
(** From [s] to [s'] in at most [b] ticks. *)
Definition within (b : Z) s s' : Prop := uptime s <= uptime s' <= uptime s + b.

Definition returns {A} (b : Z) s (o : outcome (power (A * nsys C M))) (Q : A -> nsys C M -> Prop) : Prop :=
  exists p, o = Val p /\ forall a s', p = Running (a, s') -> fine s' /\ within b s s' /\ Q a s'.

(** A call that does not wait. *)
Definition prompt s (o : outcome (nsys C M)) : Prop := exists s', o = Val s' /\ fine s' /\ uptime s' = uptime s.

Lemma returns_now {A} b s s' (a : A) Q : fine s' -> within b s s' -> Q a s' -> returns b s (Val (Running (a, s'))) Q.
Proof. intros Hf Hw HQ. eexists. split; [done|]. intros a' s2 [= <- <-]. done. Qed.

Lemma returns_andthen {A B} b1 b2 b s o (k : A -> nsys C M -> outcome (power (B * nsys C M))) d Q Q' :
  returns b1 s o Q -> (forall a s1, fine s1 -> within b1 s s1 -> Q a s1 -> returns b2 s1 (k a s1) Q') -> b1 + b2 <= b ->
  returns b s (p ← o; andthen d p k) Q'.
Proof.
  intros (p & -> & Hp) Hk Hb. cbn [mbind outcome_bind].
  destruct p as [[a s1]|[a s1]|[a s1]]; cbn [andthen]; [|by eexists..]. destruct (Hp a s1 eq_refl) as (Hf & Hw & HQ).
  destruct (Hk a s1 Hf Hw HQ) as (p & -> & Hp'). exists p. split; [done|]. intros a' s2 Hr.
  destruct (Hp' a' s2 Hr) as (? & ? & ?). split; [done|]. split; [|done]. unfold within in *. lia.
Qed.

Lemma returns_prompt {A} b s o (k : nsys C M -> outcome (power (A * nsys C M))) Q :
  prompt s o -> (forall s1, fine s1 -> uptime s1 = uptime s -> returns b s1 (k s1) Q) -> returns b s (s1 ← o; k s1) Q.
Proof.
  intros (s1 & -> & Hf & Hu) Hk. cbn [mbind outcome_bind]. destruct (Hk s1 Hf Hu) as (p & -> & Hp). exists p. split; [done|].
  intros a s2 Hr. destruct (Hp a s2 Hr) as (? & ? & ?). split; [done|]. split; [|done]. unfold within in *. lia.
Qed.

Lemma prompt_bind s o (k : nsys C M -> outcome (nsys C M)) :
  prompt s o -> (forall s1, fine s1 -> uptime s1 = uptime s -> prompt s1 (k s1)) -> prompt s (s1 ← o; k s1).
Proof.
  intros (s1 & -> & Hf & Hu) Hk. cbn [mbind outcome_bind]. destruct (Hk s1 Hf Hu) as (s2 & -> & Hf2 & Hu2).
  exists s2. split; [done|]. split; [done|congruence].
Qed.

Lemma within_now b s : 0 <= b -> within b s s.
Proof. unfold within. lia. Qed.

(** ** Steps *)

Lemma print_prompt_call f s : prints f -> fine s -> prompt s (print_net f s).
Proof.
  intros Hf [Hn Ho]. destruct (print_net_spec f s Hf (ok_console _ Ho)) as (c & -> & Hc). eexists. split; [done|].
  split; [|done]. split; [exact Hn|by apply ok_print].
Qed.

Lemma goes_on_prompt s o : fine s -> goes_on s o -> prompt s o.
Proof.
  intros [Hn Ho] (s' & -> & Hn' & Hw). exists s'. split; [done|]. unfold fine. split; [split; [done|]|].
  - rewrite Hw. by apply ok_ports.
  - by apply uptime_ports.
Qed.

Lemma poll_prompt s : fine s -> prompt s (rtl_poll_rx s).
Proof.
  intros Hs. pose proof Hs as [Hn _]. destruct (poll_goes_on s fits_buffer Hn) as (s' & Hr & Hn' & Hw).
  apply goes_on_prompt; [done|]. by exists s'.
Qed.

(** Printing, by computation. *)
Lemma print_line l s : is_Some (render_braces l []) -> fine s -> prompt s (print_net (console_writeln l []) s).
Proof. intros Hl. apply print_prompt_call. apply prints_bind; [by apply braces_fits|apply prints_any]. Qed.
Lemma print_format l args s : fits l args = true -> fmt_bytes l = true -> fine s -> prompt s (print_net (console_printf l args) s).
Proof. intros Hl Hb. apply print_prompt_call. by apply printf_fits. Qed.

(** ** Resolving an address *)

Lemma resolve_returns (fuel : nat) ip timeout s : fine s -> 0 <= timeout <= Z.of_nat fuel -> 0 <= uptime s ->
  uptime s + timeout < 2 ^ 64 ->
  returns timeout s (net_resolve_arp hlt fuel ip timeout s) (fun r _ => forall mac, r = Some mac -> length mac = 6%nat).
Proof.
  intros [Hn Ho] Ht Hu Hb. unfold net_resolve_arp. destruct (arp_cache_lookup ip _) as [mac|] eqn:Hmac.
  { apply returns_now; [done|apply within_now; lia|]. intros m [= <-]. exact (lookup_length _ _ _ (nw_macs _ Hn) Hmac). }
  destruct (resolve_loop_spec hlt ok ok_ports ip (uptime s) timeout fuel fits_buffer wakes (uptime s) s Hn Ho) as (p & -> & Hp);
    [unfold bounded_wait; lia|]. exists p. split; [done|]. intros r s' Hr. destruct (Hp r s' Hr) as (? & ? & ? & ?). done.
Qed.

Lemma scan_returns (fuel : nat) s : fine s -> (100 <= fuel)%nat -> 0 <= uptime s < 2 ^ 63 ->
  returns 100 s (net_scan_nearby hlt fuel s) (fun _ _ => True).
Proof.
  intros Hs Hf Hu. unfold net_scan_nearby. destruct (g_rtl_ready _).
  - apply returns_prompt; [by apply poll_prompt|]. intros s1 Hs1 Hu1.
    eapply (returns_andthen 100 0); [apply resolve_returns; [done|lia..]| |lia]. intros mac s2 Hs2 _ _.
    unfold finished. apply returns_prompt; [destruct mac; by apply print_line|]. intros s3 Hs3 Hu3.
    by apply returns_now; [|apply within_now|].
  - unfold finished. apply returns_prompt; [by apply print_line|]. intros s3 Hs3 Hu3. by apply returns_now; [|apply within_now|].
Qed.

Lemma connect_returns (fuel : nat) target s : fine s -> (100 <= fuel)%nat -> 0 <= uptime s < 2 ^ 63 ->
  returns 100 s (net_connect_target hlt fuel target s) (fun _ _ => True).
Proof.
  intros Hs Hf Hu. assert (forall r s1, fine s1 -> returns 0 s1 (Val (Running (r, s1))) (fun (_ : Z) _ => True)) as Hnow.
  { intros r s1 Hs1. by apply returns_now; [|apply within_now|]. }
  assert (forall r, returns 100 s (Val (Running (r, s))) (fun (_ : Z) _ => True)) as Hat.
  { intros r. by apply returns_now; [|apply within_now|]. }
  unfold net_connect_target. destruct target as [[|c target]|]; [by apply Hat| |by apply Hat].
  destruct (negb _); [by apply Hat|]. case_decide; [by apply Hat|].
  eapply (returns_andthen 100 0); [apply resolve_returns; [done|lia..]| |lia]. intros [mac|] s1 [Hn1 Ho1] Hw _; [|by apply Hnow].
  apply returns_now; [|exact (within_now 0 s1 (Z.le_refl 0))|done]. split; [by apply with_if_wf|exact Ho1].
Qed.

(** ** Ping *)

Lemma with_ping_wf p n : net_wf n -> net_wf (with_ping p n).
Proof. intros []. by split. Qed.

Lemma echo_prompt target dst ident seq s : fine s -> length dst = 6%nat ->
  exists r s', ip_send_icmp_echo target dst ident seq s = Val (r, s') /\ fine s' /\ uptime s' = uptime s.
Proof.
  intros [Hn Ho] Hd.
  destruct (ip_head_checksum 52 seq 1 (ip_of (n_net s)) target) as (c1 & _ & Hc1 & _); [unfold in_u8; lia|].
  destruct (icmp_echo_checksum 8 ident seq) as (c2 & _ & Hc2 & _); [unfold in_u8; lia|].
  rewrite (echo_frame _ _ _ _ _ c1 c2) by done. set (frame := dst ++ _).
  assert (length frame = 66%nat) as Hlen.
  { unfold frame, ip_head, icmp_echo. rewrite !length_app, Hd, (nw_mac _ Hn). reflexivity. }
  destruct (send_goes_on frame s Hn) as (r & s' & Hr & Hn' & Hw). rewrite Hlen in Hr. exists r, s'. split; [exact Hr|].
  split; [split; [done|]; rewrite Hw; by apply ok_ports|by apply uptime_ports].
Qed.

Lemma ping_wait_returns ip seq start_ms start fuel : forall s, fine s -> bounded_wait start 100 fuel s ->
  returns (start + 100 - uptime s) s (ping_wait_loop hlt fuel ip seq start_ms start s) (fun _ _ => True).
Proof.
  induction fuel as [|fuel IH]; intros s Hs Hb; cbn [ping_wait_loop]; change MGCORE_HZ with 100;
    (destruct (expired start 100 s) eqn:He;
      [apply returns_now; [done|apply within_now; destruct Hb; lia|done]|]);
    destruct (not_expired _ _ _ _ Hb He) as (f & [= Hff] & Ht).
  subst f. apply returns_prompt; [by apply poll_prompt|]. intros s1 Hs1 Hu1. destruct Hb as (B1 & B2 & B3).
  destruct (received _).
  - apply returns_prompt; [by apply print_format|]. intros s2 Hs2 Hu2. apply returns_now; [done| |done]. unfold within. lia.
  - destruct Hs1 as [Hn1 Ho1]. destruct (wakes s1 Hn1 Ho1) as (p & -> & Hp); [lia|]. cbn [mbind outcome_bind].
    destruct p as [s2|s2|s2]; cbn [resume]; [|by eexists..]. destruct (Hp s2 eq_refl) as (Hn2 & Ho2 & Hu2).
    destruct (IH s2) as (p & -> & Hp'); [by split|unfold bounded_wait; lia|]. exists p. split; [done|].
    intros r s' Hr. destruct (Hp' r s' Hr) as (? & ? & ?). split; [done|]. split; [|done]. unfold within in *. lia.
Qed.

Lemma ping_loop_returns (fuel n : nat) dst_ip dst_mac ip ident : length dst_mac = 6%nat -> (100 <= fuel)%nat ->
  forall seq received s, fine s -> 0 <= uptime s -> uptime s + 100 * Z.of_nat n < 2 ^ 64 ->
  returns (100 * Z.of_nat n) s (ping_loop hlt fuel n seq dst_ip dst_mac ip ident received s) (fun _ _ => True).
Proof.
  intros Hd Hf. induction n as [|n IH]; intros seq received s Hs Hu Hb; cbn [ping_loop];
    [apply returns_now; [done|by apply within_now|done]|].
  set (s0 := put_net _ s). assert (fine s0) as Hs0 by (destruct Hs; split; [by apply with_ping_wf|done]).
  destruct (echo_prompt dst_ip dst_mac ident (u16 (seq + 1)) s0 Hs0 Hd) as (status & s1 & -> & Hs1 & Hu1). cbn [mbind outcome_bind].
  change (uptime s0) with (uptime s) in Hu1.
  assert (forall sq rc s2, fine s2 -> within 100 s s2 -> returns (100 * Z.of_nat n) s2
    (ping_loop hlt fuel n sq dst_ip dst_mac ip ident rc (set_ping_active false s2)) (fun _ _ => True)) as Hrest.
  { intros sq rc s2 [Hn2 Ho2] Hw2. apply (IH sq rc (set_ping_active false s2)); [split; [by apply with_ping_wf|done]|..];
      change (uptime (set_ping_active false s2)) with (uptime s2); unfold within in Hw2; lia. }
  case_decide.
  - destruct (print_format (str "icmp_seq=%u send failed" ++ [10]) [VaWord (u32 (seq + 1))] s1 eq_refl eq_refl Hs1) as (s2 & -> & Hs2 & Hu2).
    cbn [mbind outcome_bind]. destruct (Hrest (seq + 1) received s2 Hs2) as (p & -> & Hp); [unfold within; lia|].
    exists p. split; [done|]. intros r s' Hr. destruct (Hp r s' Hr) as (? & ? & ?). split; [done|]. split; [|done].
    unfold within in *. lia.
  - destruct (returns_andthen 100 (100 * Z.of_nat n) (100 * Z.of_nat (S n)) s1
      (ping_wait_loop hlt fuel ip seq (scheduler_uptime_ms (n_world s)) (uptime s) s1)
      (fun (ok : bool) s => s ← (if ok then Val s
          else print_net (console_printf (str "icmp_seq=%u timeout" ++ [10]) [VaWord (u32 (seq + 1))]) s);
         ping_loop hlt fuel n (seq + 1) dst_ip dst_mac ip ident (if ok then received + 1 else received) (set_ping_active false s))
      received (fun _ _ => True) (fun _ _ => True)) as (p & Hr & Hp).
    + destruct (ping_wait_returns ip seq (scheduler_uptime_ms (n_world s)) (uptime s) fuel s1 Hs1) as (p & -> & Hp);
        [unfold bounded_wait; lia|]. exists p. split; [done|]. intros r s' Hr. destruct (Hp r s' Hr) as (? & ? & ?).
      split; [done|]. split; [|done]. unfold within in *. lia.
    + intros b s2 Hs2 Hw2 _. apply returns_prompt; [destruct b; [by exists s2|by apply print_format]|].
      intros s3 Hs3 Hu3. apply Hrest; [done|]. unfold within in *. lia.
    + lia.
    + exists p. split; [exact Hr|]. intros r s' Hrun. destruct (Hp r s' Hrun) as (? & ? & ?). split; [done|]. split; [|done].
      unfold within in *. lia.
Qed.

Lemma loopback_prompt n : forall seq s, fine s -> prompt s (loopback_replies n seq s).
Proof.
  induction n as [|n IH]; intros seq s Hs; cbn [loopback_replies]; [by exists s|].
  apply prompt_bind; [by apply print_format|]. intros. by apply IH.
Qed.

Lemma ping_returns (fuel : nat) target count s : fine s -> (200 <= fuel)%nat -> 0 <= count ->
  0 <= uptime s -> uptime s + 100 * count < 2 ^ 63 ->
  returns (600 + 100 * count) s (net_ping hlt fuel target count s) (fun _ _ => True).
Proof.
  intros Hs Hf Hc Hu Hb. assert (0 <= 600 + 100 * count) as Hb0 by lia.
  assert (forall l, is_Some (render_braces l []) -> forall b s1, 0 <= b -> fine s1 ->
    returns b s1 (s2 ← print_net (console_writeln l []) s1; Val (Running (-1, s2))) (fun _ _ => True)) as Hfail.
  { intros l Hl b s1 Hb1 Hs1. apply returns_prompt; [by apply print_line|]. intros. by apply returns_now; [|apply within_now|]. }
  unfold net_ping. destruct target as [[|c target]|]; [by apply Hfail| |by apply Hfail]. case_decide as Hlocal.
  { apply returns_prompt; [by apply print_line|]. intros s1 Hs1 Hu1. apply returns_prompt; [by apply loopback_prompt|].
    intros s2 Hs2 Hu2. by apply returns_now; [|apply within_now|]. }
  destruct (parse_ipv4 _) as [dst_ip|]; [|by apply Hfail]. destruct (negb _); [by apply Hfail|].
  set (n := if decide (count = 0) then 4 else count). assert (0 <= n <= count + 4) as Hn by (unfold n; case_decide; lia).
  cbn zeta. eapply (returns_andthen 200 (100 * n)); [apply resolve_returns; [done|lia..]| |lia]. intros [mac|] s1 Hs1 Hw1 Hmac.
  - destruct (ip_text_total dst_ip) as (ip & -> & _). cbn [mbind outcome_bind]. apply returns_prompt; [by apply print_format|].
    intros s2 Hs2 Hu2. unfold within in Hw1.
    eapply (returns_andthen (100 * n) 0).
    + replace (100 * n) with (100 * Z.of_nat (Z.to_nat n)) by lia. apply ping_loop_returns; [by apply Hmac|lia|done|lia..].
    + intros r s3 Hs3 Hw3 _. apply returns_prompt; [by apply print_format|]. intros s4 Hs4 Hu4.
      apply returns_prompt; [by apply print_format|]. intros s5 Hs5 Hu5. by apply returns_now; [|apply within_now|].
    + lia.
  - destruct (ip_text_total (route_next_hop dst_ip (n_if (n_net s)))) as (ip & -> & _). cbn [mbind outcome_bind].
    apply returns_prompt; [by apply print_format|]. intros. apply returns_now; [done|apply within_now; lia|done].
Qed.

(** ** Reports *)

Lemma dump_adapters_prompt s : fine s -> prompt s (net_dump_adapters s).
Proof.
  intros Hs. unfold net_dump_adapters. case_decide; [by apply print_line|]. pose proof (nw_adapters _ (proj1 Hs)) as Hc.
  destruct (for_loop_inv (fun _ s1 => fine s1 /\ uptime s1 = uptime s /\ n_net s1 = n_net s) (Z.to_nat (g_adapter_count (n_net s))) 0
    dump_adapter s) as (s' & -> & Hs' & Hu' & _); [done| |by exists s'].
  intros i s1 Hi (Hs1 & Hu1 & Hn1). unfold dump_adapter. rewrite Hn1.
  destruct (aget_in_range (g_adapters (n_net s)) i) as [a ->]; [lia|]. cbn [mbind outcome_bind].
  match goal with |- context [print_net (console_printf ?l ?x) s1] =>
    destruct (print_net_spec (console_printf l x) s1) as (c & -> & Hc') end; [by apply printf_fits|by apply ok_console, Hs1|].
  eexists. split; [done|]. split; [split; [apply Hs1|by apply ok_print; [apply Hs1|]]|]. by split.
Qed.

Lemma dump_tools_prompt s : fine s -> prompt s (net_dump_driver_tools s).
Proof.
  intros Hs. unfold net_dump_driver_tools.
  do 4 (apply prompt_bind; [by apply print_line|]; intros). by apply print_line.
Qed.

Lemma dump_nearby_prompt s : fine s -> prompt s (net_dump_nearby s).
Proof.
  intros Hs. unfold net_dump_nearby. destruct (ip_text_total (g_ip_addr (n_if (n_net s)))) as (ip & -> & _).
  destruct (ip_text_total (g_ip_gw (n_if (n_net s)))) as (gw & -> & _).
  destruct (ip_text_total (g_ip_mask (n_if (n_net s)))) as (mask & -> & _). cbn [mbind outcome_bind]. cbn zeta.
  do 2 (apply prompt_bind; [by apply print_format|]; intros). by apply print_format.
Qed.

End Commands.
