(* ===== verification/Dhcp.v ===== *)
(** The DHCP client of [src/kernel/net.c] against the format of the messages: a
    reply built from its fields and options is read back as those fields and
    options, and it changes the lease as its message type says. *)

From Stdlib Require Import ZArith Lia Ascii.
From stdpp Require Import base list strings.
From S2P Require Import Prelude Inet NetConst Net NetSpec.
Open Scope Z_scope.

(** ** Options *)

(** An option as a server writes it; [Other] is any option the client skips. *)
Inductive dhcp_item :=
| Pad
| MsgType (t : Z)
| ServerId (ip : Z)
| SubnetMask (ip : Z)
| Router (ip : Z) (more : list Z)
| Other (code : Z) (data : list Z).

Definition encode_item (o : dhcp_item) : list Z :=
  match o with
  | Pad => [0]
  | MsgType t => [53; 1; t]
  | ServerId ip => [54; 4] ++ be32 ip
  | SubnetMask ip => [1; 4] ++ be32 ip
  | Router ip more => [3; 4 + Z.of_nat (length more)] ++ be32 ip ++ more
  | Other code data => [code; Z.of_nat (length data)] ++ data
  end.
Definition encode_items (l : list dhcp_item) : list Z := concat (encode_item <$> l).

(** Addresses are 32 bits wide, lengths fit their byte, and the options the client
    knows are written with the other constructors. *)
Definition item_ok (o : dhcp_item) : Prop :=
  match o with
  | Pad => True
  | MsgType t => in_u8 t
  | ServerId ip | SubnetMask ip => in_u32 ip
  | Router ip more => in_u32 ip /\ (length more <= 251)%nat
  | Other code data => 1 <= code <= 254 /\ (length data <= 255)%nat
      /\ ~ (code = 53 /\ length data = 1%nat) /\ ~ ((code = 54 \/ code = 1) /\ length data = 4%nat)
      /\ ~ (code = 3 /\ (4 <= length data)%nat)
  end.

(** What an option does to the lease and to the message type. *)
Definition apply_item (r : dhcp_lease * Z) (o : dhcp_item) : dhcp_lease * Z :=
  let '(d, t) := r in
  match o with
  | Pad | Other _ _ => (d, t)
  | MsgType t' => (d, t')
  | ServerId ip => (Lease (dhcp_active d) (xid d) (offered_ip d) ip (subnet_mask d) (router d) (got_offer d) (got_ack d), t)
  | SubnetMask ip => (Lease (dhcp_active d) (xid d) (offered_ip d) (server_ip d) ip (router d) (got_offer d) (got_ack d), t)
  | Router ip _ => (Lease (dhcp_active d) (xid d) (offered_ip d) (server_ip d) (subnet_mask d) ip (got_offer d) (got_ack d), t)
  end.

(** What the options of a reply say: the last of each kind, or what was known before. *)
Definition last_given (pick : dhcp_item -> option Z) (items : list dhcp_item) (known : Z) : Z :=
  default known (last (omap pick items)).

Definition type_given (items : list dhcp_item) : Z := last_given (fun o => match o with MsgType t => Some t | _ => None end) items 0.
Definition server_given := last_given (fun o => match o with ServerId ip => Some ip | _ => None end).
Definition mask_given := last_given (fun o => match o with SubnetMask ip => Some ip | _ => None end).
Definition router_given := last_given (fun o => match o with Router ip _ => Some ip | _ => None end).

Lemma last_given_cons pick o items known : last_given pick (o :: items) known = last_given pick items (default known (pick o)).
Proof.
  unfold last_given. cbn [omap list_omap]. destruct (pick o) as [x|]; [|done]. rewrite last_cons. cbn. by destruct (last _).
Qed.

Lemma apply_items_given items : forall d t,
  fold_left apply_item items (d, t)
  = (Lease (dhcp_active d) (xid d) (offered_ip d) (server_given items (server_ip d)) (mask_given items (subnet_mask d))
       (router_given items (router d)) (got_offer d) (got_ack d),
     last_given (fun o => match o with MsgType t => Some t | _ => None end) items t).
Proof.
  unfold server_given, mask_given, router_given. induction items as [|o items IH]; intros d t; [by destruct d|].
  cbn [fold_left]. rewrite !last_given_cons. destruct o; cbn [apply_item]; apply IH.
Qed.

(** The fixed part of a reply: everything the client reads, and the fields it does
    not read as they come. *)
Record dhcp_reply := Reply {
  hops : Z; r_xid : Z; secs_flags_ciaddr : list Z; yiaddr : Z; siaddr_giaddr : list Z;
  chaddr : list Z; names : list Z;
}.
Definition encode_reply (r : dhcp_reply) : list Z :=
  [2; 1; 6; hops r] ++ be32 (r_xid r) ++ secs_flags_ciaddr r ++ be32 (yiaddr r) ++ siaddr_giaddr r
    ++ chaddr r ++ names r ++ be32 0x63825363.
Definition reply_ok (r : dhcp_reply) : Prop :=
  in_u32 (r_xid r) /\ length (secs_flags_ciaddr r) = 8%nat /\ in_u32 (yiaddr r) /\ length (siaddr_giaddr r) = 8%nat
  /\ length (chaddr r) = 6%nat /\ length (names r) = 202%nat.

Lemma encode_reply_length r : reply_ok r -> length (encode_reply r) = 240%nat.
Proof. intros (_ & H1 & _ & H2 & H3 & H4). unfold encode_reply. rewrite !length_app, H1, H2, H3, H4. reflexivity. Qed.

Lemma encode_item_pos o : (1 <= length (encode_item o))%nat.
Proof. destruct o; cbn; lia. Qed.

(** ** Parsing *)

Lemma aget_at_next {A} (pre post : list A) x y p : p = Z.of_nat (length pre) + 1 -> aget (pre ++ x :: y :: post) p = Val y.
Proof.
  intros ->. change (x :: y :: post) with ([x] ++ y :: post). rewrite app_assoc. apply aget_at.
  rewrite length_app. cbn [length]. lia.
Qed.

Lemma be32_load_behind pre a b v post p : in_u32 v -> p = Z.of_nat (length pre) + 2 ->
  be32_load (pre ++ a :: b :: be32 v ++ post) p = Val v.
Proof.
  intros Hv ->. change (a :: b :: be32 v ++ post) with ([a; b] ++ be32 v ++ post). rewrite app_assoc. apply be32_load_at; [done|].
  rewrite length_app. cbn [length]. lia.
Qed.

Ltac behind :=
  rewrite ?(aget_at_next _ _ _ _ _ eq_refl);
  cbn [mbind outcome_bind];
  match goal with |- context [be32_load _ ?p] => rewrite be32_load_behind by (done || lia) | _ => idtac end;
  cbn [mbind outcome_bind].

Ltac codes :=
  unfold DHCP_OPTION_END, DHCP_OPTION_MSG_TYPE, DHCP_OPTION_SERVER_ID, DHCP_OPTION_SUBNET_MASK, DHCP_OPTION_ROUTER,
    DHCP_OP_REPLY, DHCP_HTYPE_ETHERNET, DHCP_MAGIC_COOKIE, DHCP_MSG_OFFER, DHCP_MSG_ACK.

Ltac lengths := rewrite ?length_app in *; cbn [length be32] in *; rewrite ?length_app in *; cbn [length be32] in *; lia.

(** One option is read as one step of the loop. *)
Lemma options_step o pre rest fuel d t len : item_ok o ->
  len = Z.of_nat (length (pre ++ encode_item o ++ rest)) ->
  dhcp_options_loop (S fuel) (pre ++ encode_item o ++ rest) len (Z.of_nat (length pre)) d t
  = (let '(d', t') := apply_item (d, t) o in
     dhcp_options_loop fuel (pre ++ encode_item o ++ rest) len (Z.of_nat (length (pre ++ encode_item o))) d' t').
Proof.
  intros Hok Hlen. cbn [dhcp_options_loop]. codes.
  destruct o as [|t'|ip|ip|ip more|code data]; cbn [encode_item app apply_item] in *;
    (rewrite decide_False by lengths); rewrite (aget_at _ _ _ _ eq_refl); cbn [mbind outcome_bind].
  - rewrite decide_False, decide_True by lia. f_equal. lengths.
  - do 3 rewrite decide_False by lengths. behind. rewrite decide_False by lengths. rewrite decide_True by done.
    change (53 :: 1 :: t' :: rest) with ([53; 1] ++ t' :: rest). rewrite app_assoc, aget_at by lengths.
    cbn [mbind outcome_bind]. rewrite <- app_assoc. f_equal. lengths.
  - do 3 rewrite decide_False by lengths. behind. do 2 rewrite decide_False by lengths. rewrite decide_True by done.
    behind. f_equal. lengths.
  - do 3 rewrite decide_False by lengths. behind. do 3 rewrite decide_False by lengths. rewrite decide_True by done.
    behind. f_equal. lengths.
  - destruct Hok as [Hip Hmore]. rewrite <- (app_assoc (be32 ip)).
    do 3 rewrite decide_False by lengths. behind. do 4 rewrite decide_False by lengths. rewrite decide_True by lia.
    behind. f_equal. lengths.
  - destruct Hok as (Hcode & Hd & N1 & N2 & N3).
    do 3 rewrite decide_False by lengths. behind. do 5 rewrite decide_False by lengths. f_equal. lengths.
Qed.

Lemma options_read items : forall pre rest fuel d t, Forall item_ok items -> (length items < fuel)%nat ->
  let l := pre ++ encode_items items ++ 255 :: rest in
  dhcp_options_loop fuel l (Z.of_nat (length l)) (Z.of_nat (length pre)) d t = Val (fold_left apply_item items (d, t)).
Proof.
  induction items as [|o items IH]; intros pre rest fuel d t Hok Hf l; (destruct fuel as [|fuel]; [cbn in Hf; lia|]).
  - cbn [dhcp_options_loop]. rewrite decide_False by (unfold l; rewrite length_app; cbn [length encode_items fmap list_fmap concat app]; lia).
    unfold l, encode_items. cbn [fmap list_fmap concat app]. rewrite (aget_at _ _ _ _ eq_refl). cbn [mbind outcome_bind].
    by rewrite decide_True.
  - inversion_clear Hok as [|? ? Ho Hos].
    assert (l = pre ++ encode_item o ++ encode_items items ++ 255 :: rest) as ->.
    { unfold l, encode_items. cbn [fmap list_fmap concat]. by rewrite <- !app_assoc. }
    rewrite (options_step o pre _ fuel d t _ Ho eq_refl). cbn [fold_left]. destruct (apply_item (d, t) o) as [d' t'].
    rewrite (app_assoc pre). apply IH; [done|]. cbn [length] in Hf. lia.
Qed.

Lemma encode_items_length items : (length items <= length (encode_items items))%nat.
Proof.
  induction items as [|o items IH]; [done|]. unfold encode_items in *. cbn [fmap list_fmap concat length]. rewrite length_app.
  pose proof (encode_item_pos o). lia.
Qed.

(** ** Replies *)

(** The fields of a reply, where the client looks for them. *)
Lemma reply_fields r rest : reply_ok r ->
  let payload := encode_reply r ++ rest in
  be32_load payload 4 = Val (r_xid r) /\ be32_load payload 16 = Val (yiaddr r) /\ aread payload 28 6 = Val (chaddr r)
  /\ be32_load payload 236 = Val 0x63825363 /\ drop 240 payload = rest.
Proof.
  intros Hok. pose proof (encode_reply_length r Hok) as Hlen. destruct Hok as (R1 & R2 & R3 & R4 & R5 & R6). cbn zeta.
  split_and!; [..|by apply drop_app_length'].
  all: unfold encode_reply; rewrite <- !app_assoc.
  - apply be32_load_at; [done|reflexivity].
  - rewrite (app_assoc [_; _; _; _]), (app_assoc ([_; _; _; _] ++ _)). apply be32_load_at; [done|].
    rewrite !length_app, R2. reflexivity.
  - rewrite (app_assoc [_; _; _; _]), (app_assoc ([_; _; _; _] ++ _)), (app_assoc (([_; _; _; _] ++ _) ++ _)),
      (app_assoc ((([_; _; _; _] ++ _) ++ _) ++ _)).
    eapply aread_at; [reflexivity|rewrite !length_app, R2, R4; reflexivity|by rewrite R5].
  - rewrite (app_assoc [_; _; _; _]), (app_assoc ([_; _; _; _] ++ _)), (app_assoc (([_; _; _; _] ++ _) ++ _)),
      (app_assoc ((([_; _; _; _] ++ _) ++ _) ++ _)), (app_assoc (((([_; _; _; _] ++ _) ++ _) ++ _) ++ _)),
      (app_assoc ((((([_; _; _; _] ++ _) ++ _) ++ _) ++ _) ++ _)).
    apply be32_load_at; [unfold in_u32; lia|rewrite !length_app, R2, R4, R5, R6; reflexivity].
Qed.

(** A dotted address. *)
Definition dotted (a b c d : Z) : Z := a * 2 ^ 24 + b * 2 ^ 16 + c * 2 ^ 8 + d.

(** The lease after a reply.  An offer (type 2) or an acknowledgement (type 5) gives the
    address the reply is for, 255.255.255.0 where no mask is known and 10.0.2.2 where
    no router is; server, mask and router are the last the options name. *)
Definition leased (r : dhcp_reply) (items : list dhcp_item) (d : dhcp_lease) : dhcp_lease :=
  let grants := bool_decide (type_given items = 2 \/ type_given items = 5) in
  let mask := mask_given items (subnet_mask d) in
  let gateway := router_given items (router d) in
  {| dhcp_active := dhcp_active d;
     xid := xid d;
     offered_ip := if grants then yiaddr r else offered_ip d;
     server_ip := server_given items (server_ip d);
     subnet_mask := if grants && bool_decide (mask = 0) then dotted 255 255 255 0 else mask;
     router := if grants && bool_decide (gateway = 0) then dotted 10 0 2 2 else gateway;
     got_offer := got_offer d || bool_decide (type_given items = 2);
     got_ack := got_ack d || bool_decide (type_given items = 5) |}.

Lemma accept_leased r items d :
  (let '(d', t) := fold_left apply_item items (d, 0) in
   if decide (t = 2) then dhcp_accept false (yiaddr r) d' else if decide (t = 5) then dhcp_accept true (yiaddr r) d' else d')
  = leased r items d.
Proof.
  rewrite apply_items_given. fold (type_given items). unfold leased, dhcp_accept.
  generalize (type_given items); intros t. generalize (mask_given items (subnet_mask d)) (router_given items (router d)); intros m g.
  cbn [dhcp_active xid offered_ip server_ip subnet_mask router got_offer got_ack].
  destruct (decide (t = 2)) as [->|H2]; [|destruct (decide (t = 5)) as [->|H5]].
  - change (bool_decide (2 = 5)) with false. rewrite !decide_bool_decide, orb_true_r, (orb_false_r (got_ack d)). done.
  - change (bool_decide (5 = 2)) with false. rewrite !decide_bool_decide, orb_true_r, (orb_false_r (got_offer d)). done.
  - rewrite (bool_decide_eq_false_2 (t = 2 \/ t = 5)), (bool_decide_eq_false_2 (t = 2)), (bool_decide_eq_false_2 (t = 5)) by tauto.
    by rewrite !orb_false_r.
Qed.

(** C31 A reply from a DHCP server (its fixed fields and its options, laid out as the
    format says) is taken in exactly when a lease is being asked for and the
    transaction and the hardware address are this client's; the lease then is
    [leased]: an offer or an acknowledgement gives the address in yiaddr and sets its
    flag, with 255.255.255.0 and 10.0.2.2 where no mask or router is known; the last
    server, mask, router and message type before the end mark count, whatever other
    options stand between them; any other message type only leaves what the options
    set.  Otherwise the lease does not change. *)
Theorem dhcp_reply_outcome (r : dhcp_reply) (items : list dhcp_item) (rest mac : list Z) (d : dhcp_lease) :
  reply_ok r -> Forall item_ok items -> length mac = 6%nat ->
  let payload := encode_reply r ++ encode_items items ++ 255 :: rest in
  dhcp_process_packet payload (Z.of_nat (length payload)) mac d
  = Val (if dhcp_active d && bool_decide (r_xid r = xid d) && bool_decide (chaddr r = mac) then leased r items d else d).
Proof.
  intros Hr Hitems Hmac. rewrite <- (accept_leased r items d). cbn zeta. set (opts := encode_items items ++ 255 :: rest).
  pose proof (encode_reply_length r Hr) as Hlen.
  destruct (reply_fields r opts Hr) as (Hxid & Hyi & Hch & Hcookie & Hdrop).
  set (payload := encode_reply r ++ opts) in *. assert (Z.of_nat (length payload) = 240 + Z.of_nat (length opts)) as Hn.
  { unfold payload. rewrite length_app, Hlen. lia. }
  unfold dhcp_process_packet. codes. destruct (dhcp_active d); cbn [andb]; [|by rewrite decide_True by (by left)].
  rewrite decide_False by (intros [?|?]; [done|lia]).
  change (aget payload 0) with (Val 2). change (aget payload 1) with (Val 1). change (aget payload 2) with (Val 6).
  cbn [mbind outcome_bind]. rewrite decide_False by lia. rewrite Hxid.
  cbn [mbind outcome_bind]. case_bool_decide as Hx; cbn [andb]; [|by rewrite decide_True].
  rewrite decide_False by (intros E; by apply E). unfold same_mac. rewrite Hch, aread_in_range by lia. cbn [mbind outcome_bind].
  rewrite drop_0, take_ge by lia. case_bool_decide; cbn [negb andb]; [|done]. rewrite Hcookie, Hyi, Hdrop.
  cbn [mbind outcome_bind]. rewrite decide_False by (intros E; by apply E). unfold dhcp_parse_options.
  replace (Z.of_nat (length payload) - 240) with (Z.of_nat (length opts)) by lia.
  assert (dhcp_options_loop (Z.to_nat (Z.of_nat (length opts))) opts (Z.of_nat (length opts)) 0 d 0
    = Val (fold_left apply_item items (d, 0))) as ->.
  { apply (options_read items [] rest); [done|]. unfold opts. rewrite length_app. cbn [length].
    pose proof (encode_items_length items). lia. }
  cbn [mbind outcome_bind]. destruct (fold_left apply_item items (d, 0)) as [d' t]. repeat case_decide; done.
Qed.

(** An offer as QEMU's server makes it. *)
Definition demo_reply : dhcp_reply :=
  Reply 0 0x4D474443 (replicate 8 0) NET_DEFAULT_IP (replicate 8 0) NetDemo.demo_mac (replicate 202 0).
Definition demo_items : list dhcp_item :=
  [MsgType 2; ServerId NetDemo.gateway_ip; Other 51 (be32 86400); Pad; Router NetDemo.gateway_ip []].
Definition asking : dhcp_lease := Lease true 0x4D474443 0 0 0 0 false false.

Lemma dhcp_reply_outcome_witness :
  let payload := encode_reply demo_reply ++ encode_items demo_items ++ 255 :: replicate 20 0 in
  dhcp_process_packet payload (Z.of_nat (length payload)) NetDemo.demo_mac asking
  = Val (Lease true 0x4D474443 NET_DEFAULT_IP NetDemo.gateway_ip NET_DEFAULT_MASK NetDemo.gateway_ip true false).
Proof.
  refine (eq_trans (dhcp_reply_outcome demo_reply demo_items (replicate 20 0) NetDemo.demo_mac asking _ _ _) _).
  - split_and!; try reflexivity; vm_compute; split; congruence.
  - repeat constructor; cbn; try lia; vm_compute; intuition congruence.
  - reflexivity.
  - vm_compute. reflexivity.
Defined.

(** An acknowledgement is accepted without an offer before it. *)
Example ack_without_offer :
  dhcp_process_packet (encode_reply demo_reply ++ encode_items [MsgType 5] ++ [255]) 244 NetDemo.demo_mac asking
  = Val (Lease true 0x4D474443 NET_DEFAULT_IP 0 NET_DEFAULT_MASK NET_DEFAULT_GW false true).
Proof. vm_compute. reflexivity. Qed.
