(* ===== verification/Interrupt.v ===== *)
(** [src/kernel/interrupt.c]: the descriptor table, the interrupt controller and the
    timer, and the dispatch of an interrupt to its driver.

    The variables of the keyboard and mouse drivers and of this file live beside
    the console ([drivers]), which stays a terminal and a display; so the network
    code of [Net.v], generic in the console, can be interrupted while it waits.
    The stubs of interrupt_stubs.asm are their addresses, a parameter of
    interrupt_init. *)

From Stdlib Require Import ZArith Lia Ascii.
From stdpp Require Import base list strings.
From S2P Require Import Prelude KString Pmm Vmm Terminal Ports Console Screen Display Ps2 Keyboard Mouse Task Sched NetConst Net NetSpec.
Open Scope Z_scope.
Import Fmt.

(** [src/kernel/interrupt.c:13-21] idt_entry *)
Record idt_entry := Gate {
  offset_low : Z; selector : Z; ist : Z; type_attr : Z; offset_mid : Z; offset_high : Z; zero : Z;
}.
(** [src/kernel/interrupt.c:23-26] idt_pointer *)
Record idt_pointer := Idtr { limit : Z; base : Z }.

(** [include/mgcore/interrupt.h:6-27] interrupt_frame *)
Record interrupt_frame := Frame {
  r15 : Z; r14 : Z; r13 : Z; r12 : Z; r11 : Z; r10 : Z; r9 : Z; r8 : Z; rsi : Z; rdi : Z; rbp : Z;
  rdx : Z; rcx : Z; rbx : Z; rax : Z;
  vector : Z; error_code : Z; rip : Z; cs : Z; rflags : Z;
}.

(** The console with the variables of the drivers that interrupts run, the
    descriptor table (line 30), the register that points to it and the tick counter
    (line 31). *)
Record drivers (C : Type) := Drivers {
  dr_console : C;
  dr_keyboard : keyboard;
  dr_mouse : mouse;
  g_idt : list idt_entry;
  dr_idtr : idt_pointer;
  g_timer_ticks : Z;
}.
Arguments Drivers {C}.
Arguments dr_console {C}.
Arguments dr_keyboard {C}.
Arguments dr_mouse {C}.
Arguments g_idt {C}.
Arguments dr_idtr {C}.
Arguments g_timer_ticks {C}.

(** ** The descriptor table *)

(** [src/kernel/interrupt.c:33-42] idt_set_gate, the entry *)
Definition gate (address : Z) (type : Z) : idt_entry :=
  Gate (u16 (Z.land address 0xFFFF)) 0x08 0 type (u16 (Z.land (Z.shiftr address 16) 0xFFFF))
    (u32 (Z.land (Z.shiftr address 32) 0xFFFFFFFF)) 0.

(** [src/kernel/interrupt.c:33-42] idt_set_gate *)
Definition idt_set_gate (v address type : Z) (idt : list idt_entry) : outcome (list idt_entry) :=
  aset idt v (gate address type).

(** The address a gate leads to, as the processor puts it together. *)
Definition gate_target (g : idt_entry) : Z := offset_low g + offset_mid g * 2 ^ 16 + offset_high g * 2 ^ 32.

Section Ports.
Context {M : Type} `{Ports M}.

Definition out_wait (p v : Z) (h : M) : M := io_wait (io_out8 p v h).

(** [src/kernel/interrupt.c:44-64] pic_remap *)
Definition pic_remap (h : M) : M :=
  let h := out_wait 0x20 0x11 h in
  let h := out_wait 0xA0 0x11 h in
  let h := out_wait 0x21 0x20 h in
  let h := out_wait 0xA1 0x28 h in
  let h := out_wait 0x21 0x04 h in
  let h := out_wait 0xA1 0x02 h in
  let h := out_wait 0x21 0x01 h in
  let h := out_wait 0xA1 0x01 h in
  io_out8 0xA1 0xE7 (io_out8 0x21 0xF8 h).

(** [src/kernel/interrupt.c:66-71] pit_program *)
Definition pit_program (hz : Z) (h : M) : M :=
  let divisor := u16 (1193182 / hz) in
  io_out8 0x40 (u8 (Z.shiftr divisor 8)) (io_out8 0x40 (u8 (Z.land divisor 0xFF)) (io_out8 0x43 0x36 h)).

(** [src/kernel/interrupt.c:73-78] pic_send_eoi *)
Definition pic_send_eoi (v : Z) (h : M) : M :=
  io_out8 0x20 0x20 (if decide (v >= 40) then io_out8 0xA0 0x20 h else h).

End Ports.

Section Lift.
Context {C : Type} `{Terminal C} `{!Display C}.

Definition with_display (c : C) (d : drivers C) : drivers C :=
  Drivers c (dr_keyboard d) (dr_mouse d) (g_idt d) (dr_idtr d) (g_timer_ticks d).
Definition on_console (f : C -> outcome C) (d : drivers C) : outcome (drivers C) :=
  c ← f (dr_console d); Val (with_display c d).

#[export] Instance drivers_terminal : Terminal (drivers C) := {
  console_putc x := on_console (console_putc x);
  console_try_read_char d := '(r, c) ← console_try_read_char (dr_console d); Val (r, with_display c d);
}.
#[export] Instance drivers_display : Display (drivers C) := {
  enqueue_input x := on_console (enqueue_input x);
  scroll_view n := on_console (scroll_view n);
  set_color_hex fg bg := on_console (set_color_hex fg bg);
  reset_color := on_console reset_color;
  clear_screen := on_console clear_screen;
}.

End Lift.

(** ** Dispatch *)

Section Interrupts.
Context {C : Type} `{Terminal C} `{!Display C} {M : Type} `{Ports M} `{!Nic M}.
Notation system := (nsys (drivers C) M).

Definition desk (s : system) : drivers C := w_console (n_world s).
Definition put_desk (d : drivers C) (s : system) : system := NSys (n_net s) (with_console d (n_world s)).

(** [src/kernel/interrupt.c:80-94] interrupt_init; the addresses of the stubs and of
    the table are the linker's *)
Definition interrupt_init (isr_stub_table : list Z) (idt_address : Z) (s : system) : outcome system :=
  idt ← for_loop 45 0 (fun i idt => stub ← aget isr_stub_table i; idt_set_gate (u8 i) stub 0x8E idt) (g_idt (desk s));
  let d := desk s in
  let d := Drivers (dr_console d) (dr_keyboard d) (dr_mouse d) idt (Idtr (16 * 256 - 1) idt_address) (g_timer_ticks d) in
  Val (put_hw (pit_program MGCORE_HZ (pic_remap (hw s))) (put_desk d s)).

(** The machine after a part of it ran, with the network state it had. *)
Definition lift (n : net_state) (p : power (world (drivers C) M)) : power system :=
  match p with
  | Running w => Running (NSys n w)
  | Halted w => Halted (NSys n w)
  | Rebooted w => Rebooted (NSys n w)
  end.

Definition eoi (v : Z) (s : system) : system := put_hw (pic_send_eoi (u8 v) (hw s)) s.

(** [src/kernel/interrupt.c:105-110] interrupt_dispatch, the timer; when the memory guard
    stops the machine there is no way back *)
Definition timer_interrupt (s : system) : outcome (power system) :=
  let d := desk s in
  let d := Drivers (dr_console d) (dr_keyboard d) (dr_mouse d) (g_idt d) (dr_idtr d) (u64 (g_timer_ticks d + 1)) in
  p ← scheduler_tick (n_world (put_desk d s));
  Val (match lift (n_net s) p with Running s => Running (eoi 32 s) | stopped => stopped end).

(** [src/kernel/interrupt.c:112-116] interrupt_dispatch, the keyboard *)
Definition keyboard_interrupt (s : system) : outcome (power system) :=
  let d := desk s in
  '(kb, c, h) ← keyboard_handle_irq (dr_keyboard d) (dr_console d) (hw s);
  Val (Running (eoi 33 (put_hw h (put_desk (Drivers c kb (dr_mouse d) (g_idt d) (dr_idtr d) (g_timer_ticks d)) s)))).

(** [src/kernel/interrupt.c:124-128] interrupt_dispatch, the mouse *)
Definition mouse_interrupt (s : system) : outcome (power system) :=
  let d := desk s in
  '(m, c, h) ← mouse_handle_irq (dr_mouse d) (dr_console d) (hw s);
  Val (Running (eoi 44 (put_hw h (put_desk (Drivers c (dr_keyboard d) m (g_idt d) (dr_idtr d) (g_timer_ticks d)) s)))).

(** [src/kernel/interrupt.c:130-136] interrupt_dispatch, an exception *)
Definition exception (f : interrupt_frame) (s : system) : outcome (power system) :=
  w ← print (console_printf (str "exception %u err=%u rip=%p" ++ [10])
        [VaWord (u32 (vector f)); VaWord (u32 (error_code f)); VaWord (rip f)]) (n_world s);
  p ← kernel_panic (str "unhandled processor exception") w;
  Val (lift (n_net s) p).

(** [src/kernel/interrupt.c:104-137] interrupt_dispatch *)
Definition interrupt_dispatch (f : interrupt_frame) (s : system) : outcome (power system) :=
  if decide (vector f = 32) then timer_interrupt s
  else if decide (vector f = 33) then keyboard_interrupt s
  else if decide (vector f = 43) then s ← net_handle_irq s; Val (Running (eoi 43 s))
  else if decide (vector f = 44) then mouse_interrupt s
  else if decide (vector f < 32) then exception f s
  else Val (Running s).

(** [src/kernel/interrupt.c:139-141] timer_ticks *)
Definition timer_ticks (s : system) : Z := g_timer_ticks (desk s).

(** Interrupts in the order they come, until the machine stops. *)
Fixpoint interrupts (fs : list interrupt_frame) (s : system) : outcome (power system) :=
  match fs with
  | [] => Val (Running s)
  | f :: fs =>
      p ← interrupt_dispatch f s;
      match p with Running s => interrupts fs s | stopped => Val stopped end
  end.

End Interrupts.

(** * What interrupts keep *)

Section DriverLaws.
Context {C : Type} `{DisplayLaws C}.

#[export] Program Instance drivers_terminal_laws : TerminalLaws (drivers C) := {
  term_ok d := term_ok (dr_console d) /\ mouse_wf (dr_mouse d) /\ length (g_idt d) = 256%nat;
  term_sent d := term_sent (dr_console d);
}.
Next Obligation.
  intros x d Hx [Hd Hm]. destruct (putc_law x (dr_console d) Hx Hd) as (c & Hr & Hok & Hs). exists (with_display c d).
  cbn [console_putc drivers_terminal]. unfold on_console. by rewrite Hr.
Qed.
Next Obligation.
  intros x d [Hd Hm]. destruct (putc_any x (dr_console d) Hd) as (c & o & Hr & Hok & Hs). exists (with_display c d), o.
  cbn [console_putc drivers_terminal]. unfold on_console. by rewrite Hr.
Qed.
Next Obligation.
  intros d [Hd Hm]. destruct (read_law (dr_console d) Hd) as (r & c & Hr & Hok & Hs & Hb). exists r, (with_display c d).
  cbn [console_try_read_char drivers_terminal]. by rewrite Hr.
Qed.

Lemma on_console_prints f : prints f -> prints (on_console f).
Proof.
  intros Hf d [Hd Hm]. destruct (Hf (dr_console d) Hd) as (c & o & Hr & Hok & Hs). exists (with_display c d), o.
  unfold on_console. by rewrite Hr.
Qed.

#[export] Program Instance drivers_display_laws : DisplayLaws (drivers C).
Next Obligation.
  intros x d Hx [Hd Hm]. destruct (enqueue_law x (dr_console d) Hx Hd) as (c & Hr & Hok & Hs). exists (with_display c d).
  cbn [enqueue_input drivers_display]. unfold on_console. by rewrite Hr.
Qed.
Next Obligation.
  intros n d [Hd Hm]. destruct (scroll_law n (dr_console d) Hd) as (c & Hr & Hok & Hs). exists (with_display c d).
  cbn [scroll_view drivers_display]. unfold on_console. by rewrite Hr.
Qed.
Next Obligation. intros fg bg. apply on_console_prints, set_color_law. Qed.
Next Obligation. apply on_console_prints, reset_color_law. Qed.
Next Obligation. apply on_console_prints, clear_law. Qed.

End DriverLaws.

(** The keyboard driver on any byte. *)
Lemma translate_total kb x : 0 <= x -> exists c, translate_scancode kb x = Val c /\ in_u8 c.
Proof.
  intros Hx. unfold translate_scancode. case_decide; [exists 0; split; [done|unfold in_u8; lia]|].
  assert (length g_keymap = 128%nat) as Hl by reflexivity.
  destruct (aget_in_range g_keymap x) as [e He]; [lia|]. rewrite He. cbn [mbind outcome_bind].
  assert (forallb (fun e => bool_decide (in_u8 (normal e) /\ in_u8 (shifted e))) g_keymap = true) as Hall by (vm_compute; reflexivity).
  rewrite forallb_forall in Hall. apply aget_Val in He as [_ He].
  apply list_elem_of_lookup_2, list_elem_of_In, Hall, bool_decide_eq_true in He as [Hn Hs].
  case_decide; [exists 0; split; [done|unfold in_u8; lia]|]. eexists. split; [done|]. by destruct (g_shift_active kb).
Qed.

Lemma take_scancode_total kb x : in_u8 x -> exists kb' c, take_scancode x kb = Val (kb', c) /\ in_u8 c.
Proof.
  intros Hx. unfold take_scancode. assert (in_u8 0) as H0 by (unfold in_u8; lia).
  repeat case_decide; try (eexists _, _; by split).
  - destruct (g_extended_sequence kb).
    + eexists _, _. split; [done|]. unfold translate_extended_scancode, INPUT_KEY_CTRL_P, INPUT_KEY_CTRL_N, INPUT_KEY_CTRL_B,
        INPUT_KEY_CTRL_F, in_u8. repeat case_decide; lia.
    + eexists _, _. split; [done|]. unfold INPUT_KEY_ESC, in_u8. lia.
  - destruct (g_extended_sequence kb).
    + eexists _, _. split; [done|]. unfold translate_extended_scancode, INPUT_KEY_CTRL_P, INPUT_KEY_CTRL_N, INPUT_KEY_CTRL_B,
        INPUT_KEY_CTRL_F, in_u8. repeat case_decide; lia.
    + destruct (translate_total kb x) as (c & -> & Hc); [unfold in_u8 in Hx; lia|]. cbn [mbind outcome_bind].
      eexists _, _. split; [done|]. unfold apply_ctrl_translation, INPUT_KEY_ESC, in_u8 in *.
      destruct (g_ctrl_active kb); cbn [negb]; [|lia]. change (chr "a"%char) with 97. change (chr "z"%char) with 122.
      change (chr "A"%char) with 65. change (chr "Z"%char) with 90. repeat case_decide; lia.
Qed.

Section Keeps.
Context {C : Type} `{DisplayLaws C} {M : Type} `{PortsLaws M} `{NicLaws M}.
Implicit Types s : nsys (drivers C) M.

(** Network state, task table, console and mouse packet in order. *)
Definition system_ok s : Prop := net_wf (n_net s) /\ world_ok (n_world s).

Lemma keyboard_irq_spec kb (t : C) (h : M) : term_ok t ->
  exists kb' t' h', keyboard_handle_irq kb t h = Val (kb', t', h') /\ term_ok t' /\ term_sent t' = term_sent t.
Proof.
  intros Ht. unfold keyboard_handle_irq. destruct (output_full h) as [full h1]. destruct full; cbn [negb]; [|by eexists _, _, _].
  pose proof (io_in8_range PS2_DATA_PORT h1) as Hx. destruct (io_in8 PS2_DATA_PORT h1) as [x h2]. cbn [fst] in Hx.
  destruct (take_scancode_total kb x Hx) as (kb' & c & -> & Hc). cbn [mbind outcome_bind].
  case_decide; [|by eexists _, _, _]. destruct (enqueue_law c t Hc Ht) as (t' & -> & Hok & Hs). by eexists _, _, _.
Qed.

Lemma put_desk_ok d s : system_ok s -> term_ok d -> system_ok (put_desk d s).
Proof. intros [Hn [Ht _]] Hd. by split. Qed.

Lemma put_hw_ok h s : system_ok s -> system_ok (put_hw h s).
Proof. done. Qed.

Lemma keyboard_interrupt_spec s : system_ok s ->
  exists s', keyboard_interrupt s = Val (Running s') /\ system_ok s' /\ uptime s' = uptime s.
Proof.
  intros Hs. destruct (proj2 (proj2 Hs)) as [Hc Hm]. unfold keyboard_interrupt.
  destruct (keyboard_irq_spec (dr_keyboard (desk s)) (dr_console (desk s)) (hw s) Hc) as (kb & c & h & -> & Hok & _).
  cbn [mbind outcome_bind]. eexists. split; [done|]. split; [|done]. apply put_hw_ok, put_hw_ok, put_desk_ok; [done|]. by split.
Qed.

Lemma mouse_interrupt_spec s : system_ok s ->
  exists s', mouse_interrupt s = Val (Running s') /\ system_ok s' /\ uptime s' = uptime s.
Proof.
  intros Hs. destruct (proj2 (proj2 Hs)) as (Hc & Hm & Hi). unfold mouse_interrupt.
  destruct (mouse_irq_spec (dr_mouse (desk s)) (dr_console (desk s)) (hw s) Hm Hc) as (m & c & h & -> & Hm' & Hok & _).
  cbn [mbind outcome_bind]. eexists. split; [done|]. split; [|done]. apply put_hw_ok, put_hw_ok, put_desk_ok; [done|]. by split_and!.
Qed.

Lemma net_interrupt_spec s : packets_fit (M := M) 1520 -> system_ok s ->
  exists s', net_handle_irq s = Val s' /\ system_ok s' /\ n_world s' = with_ports (hw s') (n_world s).
Proof.
  intros Hfit [Hn Hw]. unfold net_handle_irq. destruct (g_rtl_ready _); [|exists s; split; [done|]; split; [done|apply world_same]].
  destruct (io_in16 (reg RTL_REG_ISR (n_net s)) (hw s)) as [isr h]. case_decide; [by exists (put_hw h s)|].
  match goal with |- context [rtl_poll_rx ?x] => set (s1 := x) end. case_decide; [|by exists s1].
  destruct (poll_goes_on s1 Hfit Hn) as (s2 & Hr & Hn2 & Hw2). exists s2. split; [done|].
  assert (n_world s2 = with_ports (hw s2) (n_world s)) as Hw3 by (rewrite Hw2; done). split; [|done].
  split; [done|]. by rewrite Hw3.
Qed.

Lemma guard_uptime (w w' : world (drivers C) M) : memory_guard_tick w = Val (Running w') -> g_uptime_ticks (w_sched w') = g_uptime_ticks (w_sched w).
Proof.
  unfold memory_guard_tick. intros Hg. case_decide; [by injection Hg as <-|].
  destruct (critical (w_pmm w)); cbn [negb] in Hg; [|by injection Hg as <-].
  destruct (negb _ || bool_decide _); case_decide; inv_outcome; try (apply print_sched in Ha as [-> _]); try done.
  by apply safeboot_not_running in Hg.
Qed.

(** A stop: the machine is halted or resetting, as the policy says, with interrupts
    off. *)
Definition down s (p : power (nsys (drivers C) M)) : Prop :=
  (if decide (w_action (n_world s) = SAFEBOOT_ACTION_SHUTDOWN) then exists s', p = Halted s' else exists s', p = Rebooted s')
  /\ w_interrupts (n_world (power_state p)) = false.

Lemma stopped_down s (w : world (drivers C) M) p : w_action w = w_action (n_world s) ->
  stopped (bool_decide (w_action w = SAFEBOOT_ACTION_SHUTDOWN)) p -> down s (lift (n_net s) p).
Proof.
  intros Ha [Hp Hi]. unfold down. rewrite Ha in Hp. case_bool_decide; destruct Hp as [w' ->]; cbn in *.
  - rewrite decide_True by done. split; [by eexists|done].
  - rewrite decide_False by done. split; [by eexists|done].
Qed.

Lemma tick_ok (w : world (drivers C) M) : world_ok w ->
  exists p, scheduler_tick w = Val p
    /\ ((exists w', p = Running w' /\ world_ok w' /\ g_uptime_ticks (w_sched w') = u64 (g_uptime_ticks (w_sched w) + 1))
        \/ stopped (bool_decide (w_action w = SAFEBOOT_ACTION_SHUTDOWN)) p).
Proof.
  intros [Ht Hc]. unfold scheduler_tick. set (now := u64 _).
  destruct (tick_spec now (w_tasks w) Ht) as (next & _ & _ & He).
  pose proof (tick_wf now _ _ Ht He) as Ht'. cbn [w_tasks with_sched]. rewrite He. cbn [mbind outcome_bind].
  match goal with |- context [memory_guard_tick ?x] => set (w1 := x) end.
  case_decide; [|eexists; split; [done|]; left; by exists w1].
  assert (world_ok w1) as Hok1 by (by split). destruct (guard_spec w1 Hok1) as (p & Hp & Hcase). exists p. split; [done|].
  destruct Hcase as [(_ & Hs & _)|(_ & w' & -> & Hok' & _)]; [by right|]. left. exists w'. split; [done|]. split; [done|].
  exact (guard_uptime _ _ Hp).
Qed.

Lemma timer_interrupt_spec s : system_ok s ->
  exists p, timer_interrupt s = Val p
    /\ ((exists s', p = Running s' /\ system_ok s' /\ uptime s' = u64 (uptime s + 1)) \/ down s p).
Proof.
  intros [Hn [Ht Hc]]. unfold timer_interrupt. set (d := Drivers _ _ _ _ _ _).
  assert (world_ok (n_world (put_desk d s))) as Hok by (by split).
  destruct (tick_ok _ Hok) as (p & -> & Hcase). cbn [mbind outcome_bind]. eexists. split; [done|].
  destruct Hcase as [(w' & -> & Hok' & Hu)|Hstop].
  - left. eexists. split; [done|]. split; [by split|exact Hu].
  - right. pose proof (stopped_down s _ _ eq_refl Hstop) as Hdown.
    destruct p as [w'|w'|w']; [|exact Hdown..]. exfalso. destruct Hstop as [Hs _]. by case_bool_decide; destruct Hs.
Qed.

Lemma exception_spec f s : system_ok s -> exists p, exception f s = Val p /\ down s p.
Proof.
  intros [Hn [Ht Hc]]. unfold exception.
  edestruct (print_spec (console_printf (str "exception %u err=%u rip=%p" ++ [10])
    [VaWord (u32 (vector f)); VaWord (u32 (error_code f)); VaWord (rip f)]) (n_world s)) as (c & -> & Hc1);
    [apply printf_prints; [reflexivity|reflexivity|repeat constructor]|done|]. cbn [mbind outcome_bind]. unfold kernel_panic.
  set (w1 := with_console c (n_world s)).
  edestruct (print_spec (console_printf ([10] ++ str "PANIC: %s" ++ [10]) [VaStr (Some (str "unhandled processor exception"))]) w1)
    as (c2 & -> & Hc2); [apply printf_prints; [reflexivity|reflexivity|]|done|].
  { repeat constructor; vm_compute; congruence. }
  cbn [mbind outcome_bind]. set (w2 := with_console c2 w1).
  destruct (safeboot_trigger_spec (Some (str "kernel panic")) (task_find_likely_memory_leaker (w_tasks w1)) w2)
    as (p & -> & Hstop & _); [by split|repeat constructor; vm_compute; congruence|].
  cbn [mbind outcome_bind]. eexists. split; [done|]. apply (stopped_down s w2 p eq_refl Hstop).
Qed.

Lemma interrupt_dispatch_spec f s : packets_fit (M := M) 1520 -> system_ok s -> 0 <= vector f ->
  exists p, interrupt_dispatch f s = Val p
    /\ ((exists s', p = Running s' /\ system_ok s' /\ 32 <= vector f
           /\ uptime s' = if decide (vector f = 32) then u64 (uptime s + 1) else uptime s)
        \/ vector f <= 32 /\ down s p).
Proof.
  intros Hfit Hs Hv. unfold interrupt_dispatch. case_decide as H32; [|case_decide as H33; [|case_decide as H43; [|case_decide as H44]]].
  - destruct (timer_interrupt_spec s Hs) as (p & -> & Hcase). exists p. split; [done|].
    destruct Hcase as [(s' & -> & Hok & Hu)|Hd]; [left|right; split; [lia|done]]. exists s'. split; [done|]. split; [done|]. split; [lia|done].
  - destruct (keyboard_interrupt_spec s Hs) as (s' & -> & Hok & Hu). eexists. split; [done|]. left. exists s'.
    split; [done|]. split; [done|]. split; [lia|done].
  - destruct (net_interrupt_spec s Hfit Hs) as (s' & -> & Hok & Hw). cbn [mbind outcome_bind]. eexists. split; [done|]. left.
    exists (eoi 43 s'). split; [done|]. split; [done|]. split; [lia|].
    change (uptime (eoi 43 s')) with (uptime s'). by apply uptime_ports.
  - destruct (mouse_interrupt_spec s Hs) as (s' & -> & Hok & Hu). eexists. split; [done|]. left. exists s'.
    split; [done|]. split; [done|]. split; [lia|done].
  - case_decide.
    + destruct (exception_spec f s Hs) as (p & -> & Hd). exists p. split; [done|]. right. split; [lia|done].
    + eexists. split; [done|]. left. exists s. split; [done|]. split; [done|]. split; [lia|done].
Qed.

(** The timer interrupts among some. *)
Definition ticks (fs : list interrupt_frame) : Z := Z.of_nat (length (filter (fun f => vector f = 32) fs)).


(** A processor halted with interrupts on and only the timer running is woken by
    the next tick, as the waiting loops of the network code need. *)
Definition timer_frame : interrupt_frame := Frame 0 0 0 0 0 0 0 0 0 0 0 0 0 0 0 32 0 0 8 0x202.

Lemma timer_wakes : hlt_wakes (C := drivers C) (M := M) (interrupt_dispatch timer_frame) world_ok.
Proof.
  intros s Hn Hw Hu. unfold interrupt_dispatch. rewrite decide_True by done.
  destruct (timer_interrupt_spec s) as (p & -> & Hcase); [by split|]. exists p. split; [done|]. intros s' ->.
  destruct Hcase as [(s2 & [= <-] & [Hn2 Hw2] & Hu2)|[Hd _]]; [|case_decide; by destruct Hd].
  split; [done|]. split; [done|]. rewrite Hu2. apply u64_small. unfold in_u64. lia.
Qed.

End Keeps.

(** * The descriptor table *)

Lemma gate_target_eq a type : in_u64 a -> gate_target (gate a type) = a.
Proof.
  intros Ha. unfold gate_target, gate, in_u64 in *. cbn [offset_low offset_mid offset_high].
  change 0xFFFF with (Z.ones 16). change 0xFFFFFFFF with (Z.ones 32). rewrite !Z.land_ones, !Z.shiftr_div_pow2 by lia.
  assert (forall x w, 0 <= w -> wrap w (x mod 2 ^ w) = x mod 2 ^ w) as Hw.
  { intros x w Hw. unfold wrap. apply Z.mod_mod. lia. }
  unfold u16, u32. rewrite !Hw by lia. change (2 ^ 16) with 65536. change (2 ^ 32) with 4294967296.
  change (2 ^ 64) with 18446744073709551616 in Ha. Z.div_mod_to_equations. lia.
Qed.

Section Table.
Context {C : Type} `{Terminal C} {M : Type} `{Ports M}.

Lemma set_gates (stubs : list Z) (idt : list idt_entry) : (45 <= length stubs)%nat -> (45 <= length idt)%nat ->
  for_loop 45 0 (fun i idt => stub ← aget stubs i; idt_set_gate (u8 i) stub 0x8E idt) idt
  = Val (((fun a => gate a 0x8E) <$> take 45 stubs) ++ drop 45 idt).
Proof.
  intros Hs Hi. destruct (for_loop_inv (fun i idt' => idt' = ((fun a => gate a 0x8E) <$> take (Z.to_nat i) stubs) ++ drop (Z.to_nat i) idt)
    45 0 (fun i idt => stub ← aget stubs i; idt_set_gate (u8 i) stub 0x8E idt) idt) as (idt' & Hr & ->).
  - cbn. by rewrite drop_0.
  - intros i idt' Hi' ->. destruct (aget_in_range stubs i) as [a Ha]; [lia|]. rewrite Ha. cbn [mbind outcome_bind].
    apply aget_Val in Ha as [_ Ha]. unfold idt_set_gate. rewrite u8_small by (unfold in_u8; lia).
    rewrite aset_in_range by (rewrite length_app, length_fmap, length_take, length_drop; lia). eexists. split; [done|].
    replace (Z.to_nat (i + 1)) with (S (Z.to_nat i)) by lia. rewrite (take_S_r _ _ _ Ha), fmap_app, <- app_assoc.
    rewrite insert_app_r_alt by (rewrite length_fmap, length_take; lia). f_equal.
    rewrite length_fmap, length_take. replace (_ - _)%nat with 0%nat by lia.
    destruct (drop (Z.to_nat i) idt) as [|g rest] eqn:Hd.
    { apply (f_equal length) in Hd. rewrite length_drop in Hd. cbn in Hd. lia. }
    replace (drop (S (Z.to_nat i)) idt) with (drop 1 (drop (Z.to_nat i) idt)) by (rewrite drop_drop; f_equal; lia).
    by rewrite Hd.
  - exact Hr.
Qed.

(** After interrupt_init the first 45 gates lead to the interrupt stubs: each is a
    present 64-bit interrupt gate in the kernel's code segment whose offset fields,
    put together, are the stub's address; the remaining gates are as they were, and
    the register covers the 256 gates of 16 bytes exactly. *)
Theorem interrupt_init_gates (stubs : list Z) (idt_address : Z) (s : nsys (drivers C) M) :
  length (g_idt (desk s)) = 256%nat -> length stubs = 45%nat -> Forall in_u64 stubs ->
  exists s', interrupt_init stubs idt_address s = Val s'
    /\ (forall (v : nat) a, stubs !! v = Some a -> exists g, g_idt (desk s') !! v = Some g
          /\ gate_target g = a /\ selector g = 8 /\ type_attr g = 0x8E /\ ist g = 0)
    /\ (forall v : nat, (45 <= v)%nat -> g_idt (desk s') !! v = g_idt (desk s) !! v)
    /\ dr_idtr (desk s') = Idtr (256 * 16 - 1) idt_address.
Proof.
  intros Hi Hs Ha. unfold interrupt_init. rewrite set_gates by lia. cbn [mbind outcome_bind]. eexists. split; [done|].
  rewrite (take_ge stubs) by lia. split; [|split; [|done]]; cbn.
  - intros v a Hv. exists (gate a 0x8E). split; [|split; [apply gate_target_eq; by eapply Forall_lookup_1|done]].
    apply lookup_app_l_Some. by rewrite list_lookup_fmap, Hv.
  - intros v Hv. rewrite lookup_app_r by (rewrite length_fmap; lia). rewrite lookup_drop, length_fmap, Hs. f_equal. lia.
Qed.

End Table.

(** * A machine on a test bench *)

Module InterruptDemo.
Import Terminal.Transcript Display.Plain Ports.Bench.

#[local] Existing Instance NetDemo.demo_nic.
#[local] Existing Instance NetDemo.demo_nic_laws.

Definition demo_drivers : drivers transcript :=
  Drivers (Script [] []) idle static_mouse (replicate 256 (Gate 0 0 0 0 0 0 0)) (Idtr 0 0) 0.
Definition demo_machine (script : list Z) : nsys (drivers transcript) bench :=
  NSys NetDemo.demo_net (World (Sched 0 5000 90 0) SAFEBOOT_ACTION_SHUTDOWN booted low_memory true demo_drivers (Machine script [])).

Lemma demo_machine_ok script : system_ok (demo_machine script).
Proof.
  split; [exact NetDemo.demo_net_wf|]. split; [exact (task_reachable_wf _ booted_reachable)|].
  split; [constructor|]. split; [exact static_mouse_wf|reflexivity].
Qed.

Definition irq (v : Z) : interrupt_frame := Frame 0 0 0 0 0 0 0 0 0 0 0 0 0 0 0 v 0 0 8 0x202.

(** A tick, the key a pressed and released, a packet from the network, a spurious
    interrupt, a divide error and a tick that never comes. *)
Definition demo_interrupts : list interrupt_frame := irq <$> [32; 33; 33; 43; 39; 0; 32].
Definition demo_script : list Z := [1; 0x1E; 1; 0x9E; 1; 0].


(** The divide error stops it with the key typed, the packet taken and one tick
    counted. *)
Example demo_interrupts_run :
  match interrupts demo_interrupts (demo_machine demo_script) with
  | Val (Halted s) => (uptime s, typed (dr_console (desk s)), g_rx_frames (n_counters (n_net s))) = (1, [97], 1)
  | _ => False
  end.
Proof. vm_compute. reflexivity. Qed.

(** Waiting for an address with the timer running ends. *)
Example arp_wait_under_timer (ip : Z) : exists p,
  net_resolve_arp (interrupt_dispatch timer_frame) 100 ip 100 (demo_machine [0]) = Val p.
Proof.
  unfold net_resolve_arp. destruct (arp_cache_lookup ip _); [by eexists|].
  apply (resolve_loop_ends (interrupt_dispatch timer_frame) world_ok); try done.
  - exact NetDemo.demo_packets_fit.
  - exact timer_wakes.
  - apply demo_machine_ok.
  - apply demo_machine_ok.
Qed.

Definition demo_stubs : list Z := (fun i => 0x100000 + 16 * i) <$> seqZ 0 45.

Lemma interrupt_init_gates_witness : exists s', interrupt_init demo_stubs 0x110000 (demo_machine []) = Val s'
    /\ (forall (v : nat) a, demo_stubs !! v = Some a -> exists g, g_idt (desk s') !! v = Some g
          /\ gate_target g = a /\ selector g = 8 /\ type_attr g = 0x8E /\ ist g = 0)
    /\ (forall v : nat, (45 <= v)%nat -> g_idt (desk s') !! v = g_idt (desk (demo_machine [])) !! v)
    /\ dr_idtr (desk s') = Idtr 4095 0x110000.
Proof.
  apply (interrupt_init_gates demo_stubs 0x110000 (demo_machine [])); try reflexivity.
  apply Forall_fmap, Forall_forall. intros i Hi%elem_of_seqZ. unfold in_u64. cbn. lia.
Defined.

End InterruptDemo.
