(* ===== verification/Builtin.v ===== *)
(** [src/cli/commands/builtin.c]: the commands of the monitor.

    The state of a command is everything it reaches: the kernel of [Syscall.v], the
    network state and the swap accounting.  A command gets its argument strings as
    lists of bytes without their NUL, [argc] of them, and answers with its status or
    stops the machine.  [hlt] and [fuel] are those of the waiting network code. *)

From Stdlib Require Import ZArith Lia Ascii.
From stdpp Require Import base gmap list strings.
From S2P Require Import Prelude KString Util Pmm Vmm Swap Terminal Ports Console Screen Display Task Sched Tmpfs Fs Syscall NetConst Net.
Open Scope Z_scope.
Import Fmt.

Record monitor (C M : Type) := Monitor {
  m_kernel : kernel C M;
  m_net : net_state;
  m_swap : swap_state;
}.
Arguments Monitor {C M}.
Arguments m_kernel {C M}.
Arguments m_net {C M}.
Arguments m_swap {C M}.

(** [src/cli/commands/builtin.c:20-26] parse_u32, the loop *)
Fixpoint parse_digits_u32 (p : list Z) (value : Z) : option Z :=
  match p with
  | [] => Some value
  | c :: p =>
      if decide (c < chr "0"%char \/ c > chr "9"%char) then None
      else parse_digits_u32 p (u64 (u64 (value * 10) + u64 (c - chr "0"%char)))
  end.
(** [src/cli/commands/builtin.c:14-29] parse_u32, with a non-null result pointer *)
Definition parse_u32 (text : list Z) : option Z :=
  match text with [] => None | _ => parse_digits_u32 text 0 end.

(** [src/cli/commands/builtin.c:351-367] k_commands, the names and help texts *)
Definition command_help : list (list Z * list Z) :=
  [ (str "help", str "list built-in monitor commands"); (str "clear", str "clear VGA/serial console");
    (str "echo", str "echo arguments"); (str "sysinfo", str "show scheduler uptime");
    (str "tasks", str "show current task table"); (str "fsls", str "list root tmpfs entries");
    (str "meminfo", str "show physical memory and swap usage");
    (str "swap", str "manage swap: status|on [pages]|off|use <pages>");
    (str "eth", str "show detected ethernet controllers"); (str "nearby", str "scan and show live network status");
    (str "connect", str "bring up net0: connect <net0|default|up>"); (str "ping", str "ping <ipv4> [count]");
    (str "mgctl", str "system utility: net/power status and control"); (str "shutdown", str "halt the machine");
    (str "reboot", str "reboot the machine") ].

Section Commands.
Context {C : Type} `{Terminal C} `{!Display C} {M : Type} `{Ports M} `{!Nic M}.
Context (hlt : nsys C M -> outcome (power (nsys C M))) (fuel : nat).
Notation monitor := (monitor C M).

(** ** The parts of the state *)

Definition m_world (m : monitor) : world C M := k_world (m_kernel m).
Definition put_m_world (w : world C M) (m : monitor) : monitor := Monitor (put_world w (m_kernel m)) (m_net m) (m_swap m).
Definition put_swap (s : swap_state) (m : monitor) : monitor := Monitor (m_kernel m) (m_net m) s.
Definition m_sys (m : monitor) : nsys C M := NSys (m_net m) (m_world m).
Definition put_sys (s : nsys C M) (m : monitor) : monitor :=
  Monitor (put_world (n_world s) (m_kernel m)) (n_net s) (m_swap m).

Definition status : Type := power (Z * monitor).
Definition answer (r : Z) (m : monitor) : outcome status := Val (Running (r, m)).
Definition tell (f : C -> outcome C) (m : monitor) : outcome monitor :=
  w ← print f (m_world m); Val (put_m_world w m).
(** A line and a status. *)
Definition say (text : list Z) (r : Z) (m : monitor) : outcome status :=
  m ← tell (console_writeln text []) m; answer r m.
Definition sayf (fmt : list Z) (args : list va) (r : Z) (m : monitor) : outcome status :=
  m ← tell (console_printf (fmt ++ [10]) args) m; answer r m.
(** A network function that does not wait, and one that does. *)
Definition on_sys (f : nsys C M -> outcome (nsys C M)) (m : monitor) : outcome monitor :=
  s ← f (m_sys m); Val (put_sys s m).
Definition on_net {A} (p : power (A * nsys C M)) (m : monitor) (k : A -> monitor -> outcome status) : outcome status :=
  match p with
  | Running (a, s) => k a (put_sys s m)
  | Halted (_, s) => Val (Halted (0, put_sys s m))
  | Rebooted (_, s) => Val (Rebooted (0, put_sys s m))
  end.
Definition stop_machine (p : power (world C M)) (m : monitor) : outcome status :=
  Val (match p with
       | Running w => Running (0, put_m_world w m)
       | Halted w => Halted (0, put_m_world w m)
       | Rebooted w => Rebooted (0, put_m_world w m)
       end).

(** ** Simple commands *)

(** [src/cli/commands/builtin.c:31-41] print_mem_line *)
Definition print_mem_line (label : list Z) (pages : Z) (m : monitor) : outcome monitor :=
  let kib := u64 (pages * 4) in
  tell (console_printf (str "%s: %u pages (%u KiB, %u.%u MiB)" ++ [10])
    [VaStr (Some label); VaWord (u32 pages); VaWord (u32 kib); VaWord (u32 (kib / 1024));
     VaWord (u32 (kib mod 1024 * 100 / 1024))]) m.

(** [src/cli/commands/builtin.c:43-54] cmd_help *)
Definition cmd_help (argv : list (list Z)) (m : monitor) : outcome status :=
  m ← for_loop (length command_help) 0 (fun i m =>
        '(name, help) ← aget command_help i;
        tell (console_printf (str "%s - %s" ++ [10]) [VaStr (Some name); VaStr (Some help)]) m) m;
  answer 0 m.

(** [src/cli/commands/builtin.c:56-61] cmd_clear *)
Definition cmd_clear (argv : list (list Z)) (m : monitor) : outcome status := m ← tell clear_screen m; answer 0 m.

(** [src/cli/commands/builtin.c:65-70] cmd_echo, the arguments from one on; each is the
    pattern of [console_write] *)
Fixpoint echo_args (args : list (list Z)) (m : monitor) : outcome monitor :=
  match args with
  | [] => Val m
  | a :: args =>
      m ← tell (console_write a []) m;
      m ← (match args with [] => Val m | _ => tell (console_putc (chr " "%char)) m end);
      echo_args args m
  end.
(** [src/cli/commands/builtin.c:63-73] cmd_echo *)
Definition cmd_echo (argv : list (list Z)) (m : monitor) : outcome status :=
  m ← echo_args (tail argv) m; m ← tell (console_putc 10) m; answer 0 m.

(** [src/cli/commands/builtin.c:75-80] cmd_sysinfo *)
Definition cmd_sysinfo (argv : list (list Z)) (m : monitor) : outcome status :=
  w ← scheduler_dump (m_world m); answer 0 (put_m_world w m).
(** [src/cli/commands/builtin.c:82-87] cmd_tasks *)
Definition cmd_tasks (argv : list (list Z)) (m : monitor) : outcome status :=
  m ← tell (task_dump (w_tasks (m_world m))) m; answer 0 m.
(** [src/cli/commands/builtin.c:89-94] cmd_fsls *)
Definition cmd_fsls (argv : list (list Z)) (m : monitor) : outcome status :=
  s ← fs_dump_root (k_fsys (m_kernel m)); answer 0 (Monitor (put_fsys s (m_kernel m)) (m_net m) (m_swap m)).

(** [src/cli/commands/builtin.c:96-115] cmd_meminfo *)
Definition cmd_meminfo (argv : list (list Z)) (m : monitor) : outcome status :=
  let p := w_pmm (m_world m) in
  let s := m_swap m in
  m ← tell (console_writeln (str "memory overview:") []) m;
  m ← print_mem_line (str "  ram.total") (pmm_total_pages p) m;
  m ← print_mem_line (str "  ram.used ") (pmm_used_pages p) m;
  m ← print_mem_line (str "  ram.free ") (pmm_free_pages p) m;
  m ← tell (console_printf (str "  swap.state: %s" ++ [10])
        [VaStr (Some (if decide (swap_is_enabled s <> 0) then str "on" else str "off"))]) m;
  m ← print_mem_line (str "  swap.total") (swap_total_pages s) m;
  m ← print_mem_line (str "  swap.used ") (swap_used_pages s) m;
  m ← print_mem_line (str "  swap.free ") (swap_free_pages s) m;
  answer 0 m.

(** ** swap *)

(** [src/cli/commands/builtin.c:117-119] swap_print_usage, and the status -1 of its callers *)
Definition swap_print_usage (m : monitor) : outcome status :=
  say (str "usage: swap status | on [pages] | off | use <pages>") (-1) m.

Definition named (arg : list Z) (word : list Z) : bool := bool_decide (vstrcmp arg word = 0).

(** [src/cli/commands/builtin.c:139-150] cmd_swap, swapping on *)
Definition swap_on (args : list (list Z)) (m : monitor) : outcome status :=
  match (match args with [] => Some 0 | text :: _ => parse_u32 text end) with
  | None => say (str "swap: invalid page count") (-1) m
  | Some pages =>
      let '(rc, s) := swap_enable pages (m_swap m) in
      let m := put_swap s m in
      if decide (rc <> 0) then say (str "swap: enable failed (set pages > 0)") (-1) m
      else sayf (str "swap: enabled total=%u pages") [VaWord (u32 (swap_total_pages s))] 0 m
  end.

(** [src/cli/commands/builtin.c:160-176] cmd_swap, recording usage *)
Definition swap_use (args : list (list Z)) (m : monitor) : outcome status :=
  match (match args with [] => None | text :: _ => parse_u32 text end) with
  | None => say (str "swap: invalid page count") (-1) m
  | Some pages =>
      let '(rc, s) := swap_set_used_pages pages (m_swap m) in
      let m := put_swap s m in
      if decide (rc = -1) then say (str "swap: currently off (use 'swap on' first)") (-1) m
      else if decide (rc = -2) then say (str "swap: usage exceeds configured capacity") (-1) m
      else sayf (str "swap: used=%u free=%u pages") [VaWord (u32 (swap_used_pages s)); VaWord (u32 (swap_free_pages s))] 0 m
  end.

(** [src/cli/commands/builtin.c:121-181] cmd_swap *)
Definition cmd_swap (argv : list (list Z)) (m : monitor) : outcome status :=
  match argv with
  | _ :: verb :: args =>
      let s := m_swap m in
      if named verb (str "status") then
        sayf (str "swap: state=%s total=%u used=%u free=%u pages")
          [VaStr (Some (if decide (swap_is_enabled s <> 0) then str "on" else str "off"));
           VaWord (u32 (swap_total_pages s)); VaWord (u32 (swap_used_pages s)); VaWord (u32 (swap_free_pages s))] 0 m
      else if named verb (str "on") then swap_on args m
      else if named verb (str "off") then say (str "swap: disabled") 0 (put_swap (swap_disable s) m)
      else if named verb (str "use") then swap_use args m
      else swap_print_usage m
  | _ => swap_print_usage m
  end.

(** ** Network commands *)

(** [src/cli/commands/builtin.c:183-188] cmd_eth *)
Definition cmd_eth (argv : list (list Z)) (m : monitor) : outcome status := m ← on_sys net_dump_adapters m; answer 0 m.

(** [src/cli/commands/builtin.c:190-196] cmd_nearby *)
Definition cmd_nearby (argv : list (list Z)) (m : monitor) : outcome status :=
  p ← net_scan_nearby hlt fuel (m_sys m);
  on_net p m (fun _ m => m ← on_sys net_dump_nearby m; answer 0 m).

(** [src/cli/commands/builtin.c:198-223] cmd_connect *)
Definition cmd_connect (argv : list (list Z)) (m : monitor) : outcome status :=
  match argv with
  | _ :: target :: _ =>
      p ← net_connect_target hlt fuel (Some target) (m_sys m);
      on_net p m (fun rc m =>
        if decide (rc = -2) then say (str "connect: no ethernet adapter detected") (-1) m
        else if decide (rc = -3) then say (str "connect: gateway unresolved, run 'mgctl net scan' and retry") (-1) m
        else if decide (rc = -4) then say (str "connect: invalid target (use net0/default/up)") (-1) m
        else if decide (rc <> 0) then say (str "connect: invalid target") (-1) m
        else sayf (str "connect: connected to %s") [VaStr (net_connected_name (m_sys m))] 0 m)
  | _ => say (str "usage: connect <net0|default|up>") (-1) m
  end.

(** [src/cli/commands/builtin.c:225-236] cmd_ping *)
Definition cmd_ping (argv : list (list Z)) (m : monitor) : outcome status :=
  match argv with
  | _ :: target :: args =>
      match (match args with [] => Some 4 | text :: _ => parse_u32 text end) with
      | None => say (str "ping: invalid count") (-1) m
      | Some count => p ← net_ping hlt fuel (Some target) count (m_sys m); on_net p m answer
      end
  | _ => say (str "usage: ping <target> [count]") (-1) m
  end.

(** ** mgctl *)

(** [src/cli/commands/builtin.c:238-244] mgctl_usage, and the status -1 of its callers *)
Definition mgctl_usage (m : monitor) : outcome status :=
  m ← tell (console_writeln (str "mgctl usage:") []) m;
  m ← tell (console_writeln (str "  mgctl status") []) m;
  m ← tell (console_writeln (str "  mgctl net tools|adapters|scan|nearby|connect <net0|default|up>") []) m;
  m ← tell (console_writeln (str "  mgctl power shutdown|reboot") []) m;
  say (str "  mgctl power safe status|reboot|shutdown") (-1) m.

Definition policy (m : monitor) : list Z :=
  if decide (safeboot_get_action (m_world m) = SAFEBOOT_ACTION_SHUTDOWN) then str "shutdown" else str "reboot".

(** [src/cli/commands/builtin.c:260-291] cmd_mgctl, net *)
Definition mgctl_net (args : list (list Z)) (m : monitor) : outcome status :=
  match args with
  | [] => mgctl_usage m
  | verb :: rest =>
      if named verb (str "tools") then m ← on_sys net_dump_driver_tools m; answer 0 m
      else if named verb (str "adapters") then m ← on_sys net_dump_adapters m; answer 0 m
      else if named verb (str "scan") then cmd_nearby [] m
      else if named verb (str "nearby") then m ← on_sys net_dump_nearby m; answer 0 m
      else if named verb (str "connect") then
        match rest with
        | [] => say (str "mgctl net connect: target required (net0/default/up)") (-1) m
        | target :: _ => cmd_connect [verb; target] m
        end
      else mgctl_usage m
  end.

(** [src/cli/commands/builtin.c:298-320] cmd_mgctl, power safe *)
Definition mgctl_safe (args : list (list Z)) (m : monitor) : outcome status :=
  match args with
  | [] => mgctl_usage m
  | verb :: _ =>
      if named verb (str "status") then sayf (str "mgctl: safe boot policy=%s") [VaStr (Some (policy m))] 0 m
      else if named verb (str "reboot") then
        say (str "mgctl: safe boot policy set to reboot") 0
          (put_m_world (safeboot_set_action SAFEBOOT_ACTION_REBOOT (m_world m)) m)
      else if named verb (str "shutdown") then
        say (str "mgctl: safe boot policy set to shutdown") 0
          (put_m_world (safeboot_set_action SAFEBOOT_ACTION_SHUTDOWN (m_world m)) m)
      else mgctl_usage m
  end.

(** [src/cli/commands/builtin.c:293-331] cmd_mgctl, power *)
Definition mgctl_power (args : list (list Z)) (m : monitor) : outcome status :=
  match args with
  | [] => mgctl_usage m
  | verb :: rest =>
      if named verb (str "safe") then mgctl_safe rest m
      else if named verb (str "shutdown") then
        m ← tell (console_writeln (str "mgctl: shutdown requested") []) m; stop_machine (kernel_halt (m_world m)) m
      else if named verb (str "reboot") then
        m ← tell (console_writeln (str "mgctl: reboot requested") []) m; stop_machine (kernel_reboot (m_world m)) m
      else mgctl_usage m
  end.

(** [src/cli/commands/builtin.c:246-335] cmd_mgctl *)
Definition cmd_mgctl (argv : list (list Z)) (m : monitor) : outcome status :=
  match argv with
  | _ :: verb :: args =>
      if named verb (str "status") then
        sayf (str "mgctl: adapters=%u connected=%s safeboot=%s")
          [VaWord (u32 (net_adapter_count (m_sys m)));
           VaStr (Some (default (str "none") (net_connected_name (m_sys m)))); VaStr (Some (policy m))] 0 m
      else if named verb (str "net") then mgctl_net args m
      else if named verb (str "power") then mgctl_power args m
      else mgctl_usage m
  | _ => mgctl_usage m
  end.

(** [src/cli/commands/builtin.c:337-342] cmd_shutdown *)
Definition cmd_shutdown (argv : list (list Z)) (m : monitor) : outcome status :=
  m ← tell (console_writeln (str "shutdown: powering down (halt)") []) m; stop_machine (kernel_halt (m_world m)) m.
(** [src/cli/commands/builtin.c:344-349] cmd_reboot *)
Definition cmd_reboot (argv : list (list Z)) (m : monitor) : outcome status :=
  m ← tell (console_writeln (str "reboot: restarting system") []) m; stop_machine (kernel_reboot (m_world m)) m.

(** [src/cli/commands/builtin.c:351-367] k_commands, the functions *)
Definition command_fns : list (list (list Z) -> monitor -> outcome status) :=
  [cmd_help; cmd_clear; cmd_echo; cmd_sysinfo; cmd_tasks; cmd_fsls; cmd_meminfo; cmd_swap; cmd_eth; cmd_nearby;
   cmd_connect; cmd_ping; cmd_mgctl; cmd_shutdown; cmd_reboot].

(** [src/cli/commands/builtin.c:351-374] k_commands as commands_get_all returns it: names
    and functions *)
Definition k_commands : list (list Z * (list (list Z) -> monitor -> outcome status)) := zip command_help.*1 command_fns.

End Commands.
