(* ===== verification/Cli.v ===== *)
(** [src/cli/shell.c]: the monitor's line editor and the dispatch of a line to its
    command.

    [g_line] is an array that the editor and the splitting of a line into words both
    write; an [argv] entry is an index into it.  The local variables of cli_run are
    part of [cli].  One turn of its loop is [cli_step]; the loop never ends, so runs
    of it are counted. *)

From Stdlib Require Import ZArith Lia Ascii.
From stdpp Require Import base gmap list strings.
From S2P Require Import Prelude KString Util Pmm Vmm Swap Terminal Ports Console Screen Display Keyboard Task Sched.
From S2P Require Import Tmpfs Fs Syscall NetConst Net Builtin.
Open Scope Z_scope.
Import Fmt.

(** [include/mgcore/cli.h:6-6] CLI_MAX_LINE *)
Definition CLI_MAX_LINE : Z := 128.
(** [include/mgcore/cli.h:7-7] CLI_MAX_ARGS *)
Definition CLI_MAX_ARGS : Z := 16.

(** [src/cli/shell.c:7-9] the line, the last line, and the variables of cli_run (lines
    94-96) *)
Record cli := Cli {
  g_line : list Z; g_last_line : list Z; g_has_last_line : bool;
  l_length : Z; l_cursor : Z; esc_state : Z;
}.

Definition static_cli : cli := Cli (replicate 128 0) (replicate 128 0) false 0 0 0.

(** ** Words *)

Definition is_blank (c : Z) : bool := bool_decide (c = 32 \/ c = 9).

(** [src/cli/shell.c:40-42] dispatch_line, skipping blanks *)
Fixpoint skip_blanks (fuel : nat) (line : list Z) (i : Z) : outcome Z :=
  match fuel with
  | O => Stop OutOfFuel
  | S fuel => c ← aget line i; if is_blank c then skip_blanks fuel line (i + 1) else Val i
  end.
(** [src/cli/shell.c:47-49] dispatch_line, skipping a word *)
Fixpoint skip_word (fuel : nat) (line : list Z) (i : Z) : outcome Z :=
  match fuel with
  | O => Stop OutOfFuel
  | S fuel => c ← aget line i; if decide (c <> 0 /\ is_blank c = false) then skip_word fuel line (i + 1) else Val i
  end.

(** [src/cli/shell.c:39-53] dispatch_line, the splitting; [n] more words fit, [fuel]
    covers the line *)
Fixpoint split_line (n fuel : nat) (line : list Z) (i : Z) : outcome (list Z * list Z) :=
  match n with
  | O => Val ([], line)
  | S n =>
      c ← aget line i;
      if decide (c = 0) then Val ([], line)
      else
        i ← skip_blanks fuel line i;
        c ← aget line i;
        if decide (c = 0) then Val ([], line)
        else
          j ← skip_word fuel line i;
          d ← aget line j;
          '(line, j) ← (if decide (d <> 0) then line ← aset line j 0; Val (line, j + 1) else Val (line, j));
          '(argv, line) ← split_line n fuel line j;
          Val (i :: argv, line)
  end.

Section Shell.
Context {C : Type} `{Terminal C} `{!Display C} {M : Type} `{Ports M} `{!Nic M}.
Context (hlt : nsys C M -> outcome (power (nsys C M))) (fuel : nat).
Notation monitor := (monitor C M).

(** [src/cli/shell.c:13-19] print_prompt *)
Definition print_prompt (t : C) : outcome C :=
  t ← set_color_hex 0x57D6FF 0 t;
  t ← console_write (str "[mgcore-x86_64]") [] t;
  t ← set_color_hex 0xFFD166 0 t;
  t ← console_write (str "_# ") [] t;
  reset_color t.

(** [src/cli/shell.c:21-29] render_line *)
Definition render_line (line : list Z) (len cur : Z) (t : C) : outcome C :=
  t ← console_putc 13 t;
  t ← print_prompt t;
  t ← console_write_n line len t;
  t ← console_putc 32 t;
  t ← console_putc 13 t;
  t ← print_prompt t;
  console_write_n line cur t.

(** [src/cli/shell.c:59-66] dispatch_line, the command *)
Definition run_command (argv : list (list Z)) (m : monitor) : outcome (power (Z * monitor)) :=
  match argv with
  | [] => answer 0 m
  | name :: _ =>
      match list_find (fun e => vstrcmp e.1 name = 0) (k_commands hlt fuel) with
      | Some (_, (_, fn)) => fn argv m
      | None => m ← tell (console_printf (str "unknown command: %s" ++ [10]) [VaStr (Some name)]) m; answer (-1) m
      end
  end.

(** [src/cli/shell.c:31-67] dispatch_line; the line comes back cut into words *)
Definition dispatch_line (line : list Z) (m : monitor) : outcome (list Z * power (Z * monitor)) :=
  '(argv, line) ← split_line (Z.to_nat CLI_MAX_ARGS) (length line) line 0;
  p ← run_command ((fun i => cstr (drop (Z.to_nat i) line)) <$> argv) m;
  Val (line, p).

(** [src/cli/shell.c:69-91] cli_init *)
Definition cli_init (t : C) : outcome C :=
  t ← set_color_hex 0xFFFFFF 0 t; t ← console_writeln [] [] t;
  t ← set_color_hex 0x6EE7B7 0 t;
  t ← console_writeln (str "           _______       ___________________________________") [] t;
  t ← set_color_hex 0xFDE68A 0 t;
  t ← console_writeln (str "          /  >    f     Github      : github.com/magercode") [] t;
  t ← console_writeln (str "         |  _   _l      Telegram    : t.me/xigmachat") [] t;
  t ← set_color_hex 0x93C5FD 0 t;
  t ← console_writeln (str "        /` m__x_/") [] t;
  t ← console_writeln (str "       /         |") [] t;
  t ← console_writeln (str "      /   /     /") [] t;
  t ← console_writeln (str "     |    | |  |") [] t;
  t ← console_writeln (str "  /~~~|    | |  |") [] t;
  t ← console_writeln (str "  | (~~\___\_)__)") [] t;
  t ← console_writeln (str "  \___/") [] t;
  t ← console_writeln [] [] t;
  t ← set_color_hex 0x57D6FF 0 t;
  t ← console_writef (str "{} {}") [VaStr (Some (str "MGCore")); VaStr (Some (str "x86_64"))] t;
  t ← console_putc 10 t; t ← console_writeln [] [] t;
  reset_color t.

(** ** The editor *)

(** The editor after a turn, and the machine. *)
Definition turn : Type := power (cli * monitor).
Definition next (s : cli) (m : monitor) : outcome turn := Val (Running (s, m)).

Definition with_line (line : list Z) (len cur : Z) (s : cli) : cli :=
  Cli line (g_last_line s) (g_has_last_line s) len cur (esc_state s).
Definition with_esc (e : Z) (s : cli) : cli :=
  Cli (g_line s) (g_last_line s) (g_has_last_line s) (l_length s) (l_cursor s) e.
Definition with_last (last : list Z) (s : cli) : cli :=
  Cli (g_line s) last true (l_length s) (l_cursor s) (esc_state s).

(** A new line and its picture. *)
Definition show (s : cli) (m : monitor) : outcome turn :=
  m ← tell (render_line (g_line s) (l_length s) (l_cursor s)) m; next s m.
Definition erase (s : cli) : outcome cli := line ← aset (g_line s) 0 0; Val (with_line line 0 0 s).

(** [src/cli/shell.c:141-155] cli_run, the newline *)
Definition enter (s : cli) (m : monitor) : outcome turn :=
  line ← aset (g_line s) (l_length s) 0;
  m ← tell (console_putc 10) m;
  '(line, p) ← dispatch_line line m;
  match p with
  | Running (_, m) =>
      s ← (if decide (l_length s > 0) then
             last ← awrite (g_last_line s) 0 (vstrncpy (Z.to_nat (CLI_MAX_LINE - 1)) (cstr line));
             last ← aset last (CLI_MAX_LINE - 1) 0;
             Val (with_last last s)
           else Val s);
      s ← erase (with_line line (l_length s) (l_cursor s) s);
      m ← tell print_prompt m;
      next s m
  | Halted (_, m) => Val (Halted (s, m))
  | Rebooted (_, m) => Val (Rebooted (s, m))
  end.

(** [src/cli/shell.c:188-197] cli_run, recalling the last line *)
Definition recall (s : cli) (m : monitor) : outcome turn :=
  if g_has_last_line s then
    line ← awrite (g_line s) 0 (vstrncpy (Z.to_nat (CLI_MAX_LINE - 1)) (cstr (g_last_line s)));
    line ← aset line (CLI_MAX_LINE - 1) 0;
    let len := Z.of_nat (length (cstr line)) in
    show (with_line line len len s) m
  else next s m.

(** [src/cli/shell.c:205-218] cli_run, deleting the character before the cursor *)
Definition delete_back (s : cli) (m : monitor) : outcome turn :=
  if decide (l_cursor s = 0) then next s m
  else
    line ← for_loop (Z.to_nat (l_length s - l_cursor s)) (l_cursor s - 1)
             (fun i line => c ← aget line (i + 1); aset line i c) (g_line s);
    line ← aset line (l_length s - 1) 0;
    show (with_line line (l_length s - 1) (l_cursor s - 1) s) m.

(** [src/cli/shell.c:221-223] cli_run, making room; [n] characters are left to move *)
Fixpoint shift_right (n : nat) (i : Z) (line : list Z) : outcome (list Z) :=
  match n with
  | O => Val line
  | S n => c ← aget line (i - 1); line ← aset line i c; shift_right n (i - 1) line
  end.
(** [src/cli/shell.c:219-229] cli_run, inserting a character *)
Definition insert_char (c : Z) (s : cli) (m : monitor) : outcome turn :=
  if decide (l_length s + 1 < CLI_MAX_LINE) then
    line ← shift_right (Z.to_nat (l_length s - l_cursor s)) (l_length s) (g_line s);
    line ← aset line (l_cursor s) c;
    line ← aset line (l_length s + 1) 0;
    show (with_line line (l_length s + 1) (l_cursor s + 1) s) m
  else next s m.

(** [src/cli/shell.c:134-229] cli_run, a character outside escape sequences *)
Definition plain_key (c : Z) (s : cli) (m : monitor) : outcome turn :=
  if decide (c = 13) then next s m
  else if decide (c = INPUT_KEY_ESC) then next (with_esc 1 s) m
  else if decide (c = 10) then enter s m
  else if decide (c = INPUT_KEY_CTRL_C) then
    m ← tell (console_write (str "^C" ++ [10]) []) m;
    s ← erase s;
    m ← tell print_prompt m;
    next s m
  else if decide (c = INPUT_KEY_CTRL_A) then show (with_line (g_line s) (l_length s) 0 s) m
  else if decide (c = INPUT_KEY_CTRL_E) then show (with_line (g_line s) (l_length s) (l_length s) s) m
  else if decide (c = INPUT_KEY_CTRL_B) then
    if decide (l_cursor s > 0) then show (with_line (g_line s) (l_length s) (l_cursor s - 1) s) m else next s m
  else if decide (c = INPUT_KEY_CTRL_F) then
    if decide (l_cursor s < l_length s) then show (with_line (g_line s) (l_length s) (l_cursor s + 1) s) m else next s m
  else if decide (c = INPUT_KEY_CTRL_P) then recall s m
  else if decide (c = INPUT_KEY_CTRL_N) then s ← erase s; show s m
  else if decide ((c = 8 \/ c = 0x7F) /\ l_length s > 0) then delete_back s m
  else insert_char c s m.

(** [src/cli/shell.c:121-132] cli_run, the letter of an escape sequence *)
Definition arrow_key (c : Z) : Z :=
  if decide (c = chr "A"%char) then INPUT_KEY_CTRL_P
  else if decide (c = chr "B"%char) then INPUT_KEY_CTRL_N
  else if decide (c = chr "C"%char) then INPUT_KEY_CTRL_F
  else if decide (c = chr "D"%char) then INPUT_KEY_CTRL_B
  else c.

(** [src/cli/shell.c:106-229] cli_run, one character *)
Definition cli_key (raw : Z) (s : cli) (m : monitor) : outcome turn :=
  let c := u8 raw in
  if decide (esc_state s = 1) then
    if decide (c = chr "["%char) then next (with_esc 2 s) m
    else
      s ← erase s;
      m ← tell (render_line (g_line s) (l_length s) (l_cursor s)) m;
      next (with_esc 0 s) m
  else if decide (esc_state s = 2) then plain_key (arrow_key c) (with_esc 0 s) m
  else plain_key c s m.

(** [src/cli/shell.c:99-230] cli_run, one turn of the loop *)
Definition cli_step (s : cli) (m : monitor) : outcome turn :=
  '(r, c) ← console_try_read_char (w_console (m_world m));
  let m := put_m_world (with_console c (m_world m)) m in
  match r with
  | Some raw => cli_key raw s m
  | None =>
      p ← hlt (m_sys m);
      Val (match p with
           | Running n => Running (s, put_sys n m)
           | Halted n => Halted (s, put_sys n m)
           | Rebooted n => Rebooted (s, put_sys n m)
           end)
  end.

(** [src/cli/shell.c:93-231] cli_run, its first [n] turns *)
Fixpoint cli_turns (n : nat) (s : cli) (m : monitor) : outcome turn :=
  match n with
  | O => next s m
  | S n =>
      p ← cli_step s m;
      match p with Running (s, m) => cli_turns n s m | stopped => Val stopped end
  end.
Definition cli_run (n : nat) (s : cli) (m : monitor) : outcome turn :=
  m ← tell print_prompt m; cli_turns n (Cli (g_line s) (g_last_line s) (g_has_last_line s) 0 0 0) m.

(** Characters one after the other. *)
Fixpoint cli_keys (keys : list Z) (s : cli) (m : monitor) : outcome turn :=
  match keys with
  | [] => next s m
  | c :: keys =>
      p ← cli_key c s m;
      match p with Running (s, m) => cli_keys keys s m | stopped => Val stopped end
  end.

End Shell.
