(* ===== verification/CliSpec.v ===== *)
(** What the line editor of [Cli.v] does: it refines an editor on the characters
    before and after the cursor, and a newline runs the command the line names on
    the line's words. *)

From Stdlib Require Import ZArith Lia Ascii.
From stdpp Require Import base gmap list strings.
From S2P Require Import Prelude KString Util Pmm Vmm Swap Terminal Ports Console Screen Display Keyboard Task Sched.
From S2P Require Import Tmpfs Fs Syscall SyscallSpec NetConst Net NetSpec Builtin Cli.
Open Scope Z_scope.
Import Fmt.

(** * The abstract editor *)

(** The characters before and after the cursor, how much of an escape sequence has
    been seen, and the line the recall key brings back. *)
Record editor := Editor { before : list Z; after : list Z; escape : Z; recalled : option (list Z) }.
Definition e_text (e : editor) : list Z := before e ++ after e.
Definition at_cursor (b a : list Z) (e : editor) : editor := Editor b a (escape e) (recalled e).

(** A character outside escape sequences, newline apart.  A line holds 127
    characters.  Backspace and delete remove the character before the cursor, but on
    an empty line they are typed like any other character. *)
Definition edit_plain (c : Z) (e : editor) : editor :=
  if decide (c = 13) then e
  else if decide (c = INPUT_KEY_ESC) then Editor (before e) (after e) 1 (recalled e)
  else if decide (c = INPUT_KEY_CTRL_C) then at_cursor [] [] e
  else if decide (c = INPUT_KEY_CTRL_A) then at_cursor [] (e_text e) e
  else if decide (c = INPUT_KEY_CTRL_E) then at_cursor (e_text e) [] e
  else if decide (c = INPUT_KEY_CTRL_B) then
    match last (before e) with Some x => at_cursor (removelast (before e)) (x :: after e) e | None => e end
  else if decide (c = INPUT_KEY_CTRL_F) then
    match after e with x :: a => at_cursor (before e ++ [x]) a e | [] => e end
  else if decide (c = INPUT_KEY_CTRL_P) then
    match recalled e with Some text => at_cursor text [] e | None => e end
  else if decide (c = INPUT_KEY_CTRL_N) then at_cursor [] [] e
  else if decide ((c = 8 \/ c = 127) /\ e_text e <> []) then at_cursor (removelast (before e)) (after e) e
  else if decide (length (e_text e) < 127)%nat then at_cursor (before e ++ [c]) (after e) e
  else e.

Definition edit (c : Z) (e : editor) : editor :=
  if decide (escape e = 1) then
    if decide (c = chr "["%char) then Editor (before e) (after e) 2 (recalled e)
    else Editor [] [] 0 (recalled e)
  else if decide (escape e = 2) then edit_plain (arrow_key c) (Editor (before e) (after e) 0 (recalled e))
  else edit_plain c e.

(** * The editor's arrays *)

(** The state of the code shows an abstract editor. *)
Record edits (s : cli) (e : editor) : Prop := {
  ed_line : length (g_line s) = 128%nat;
  ed_bytes : Forall in_u8 (g_line s);
  ed_text : take (length (e_text e)) (g_line s) = e_text e;
  ed_fits : (length (e_text e) <= 127)%nat;
  ed_length : l_length s = Z.of_nat (length (e_text e));
  ed_cursor : l_cursor s = Z.of_nat (length (before e));
  ed_escape : esc_state s = escape e;
  ed_last : length (g_last_line s) = 128%nat;
  ed_last_bytes : Forall in_u8 (g_last_line s);
  ed_recalled : recalled e = if g_has_last_line s then Some (cstr (g_last_line s)) else None;
  ed_last_end : (length (cstr (g_last_line s)) <= 127)%nat;
}.

Lemma shift_right_spec after : forall pre x rest,
  shift_right (length after) (Z.of_nat (length pre) + Z.of_nat (length after)) (pre ++ after ++ x :: rest)
  = Val (pre ++ hd x after :: after ++ rest).
Proof.
  induction after as [|y after IH] using rev_ind; intros pre x rest; [done|].
  rewrite length_app, Nat.add_comm. cbn [length Nat.add shift_right]. rewrite <- !app_assoc. cbn [app].
  rewrite (app_assoc pre after), (aget_at (pre ++ after)) by (rewrite length_app; lia). cbn [mbind outcome_bind].
  change (y :: x :: rest) with ([y] ++ x :: rest). rewrite (app_assoc (pre ++ after)).
  rewrite aset_at by (rewrite !length_app; cbn [length]; lia). cbn [mbind outcome_bind]. rewrite <- !app_assoc. cbn [app].
  replace (Z.of_nat (length pre) + Z.of_nat (S (length after)) - 1) with (Z.of_nat (length pre) + Z.of_nat (length after)) by lia.
  rewrite IH. f_equal. f_equal. by destruct after.
Qed.

Lemma shift_left_spec after : forall pre x rest,
  exists z : Z, for_loop (length after) (Z.of_nat (length pre)) (fun i line => c ← aget line (i + 1); aset line i c) (pre ++ x :: after ++ rest)
  = Val (pre ++ after ++ z :: rest).
Proof.
  induction after as [|y after IH]; intros pre x rest; [by exists x|]. cbn [length for_loop app].
  change (x :: y :: after ++ rest) with ([x] ++ y :: after ++ rest). rewrite (app_assoc pre).
  rewrite aget_at by (rewrite length_app; cbn [length]; lia). cbn [mbind outcome_bind]. rewrite <- app_assoc. cbn [app].
  rewrite aset_at by done. cbn [mbind outcome_bind]. change (y :: y :: after ++ rest) with ([y] ++ y :: after ++ rest).
  rewrite app_assoc. destruct (IH (pre ++ [y]) y rest) as [z Hz]. exists z.
  rewrite length_app in Hz. cbn [length] in Hz. replace (Z.of_nat (length pre) + 1) with (Z.of_nat (length pre + 1)) by lia.
  rewrite Hz. by rewrite <- app_assoc.
Qed.

(** The array as text and rest. *)
Lemma line_split s e : edits s e -> exists rest, g_line s = e_text e ++ rest /\ (length (e_text e) + length rest = 128)%nat.
Proof.
  intros [Hl _ Ht _ _ _ _ _ _ _ _]. exists (drop (length (e_text e)) (g_line s)). split.
  - rewrite <- Ht at 1. by rewrite take_drop.
  - pose proof (f_equal length Ht) as Hn. rewrite length_take in Hn. rewrite length_drop. lia.
Qed.

(** Changing the line and the cursor. *)
Lemma edits_line s e line b a : edits s e -> length line = 128%nat -> Forall in_u8 line ->
  take (length (b ++ a)) line = b ++ a -> (length (b ++ a) <= 127)%nat ->
  edits (with_line line (Z.of_nat (length (b ++ a))) (Z.of_nat (length b)) s) (at_cursor b a e).
Proof. intros []. by split. Qed.

Lemma edits_moved s e b a : edits s e -> e_text e = b ++ a ->
  edits (with_line (g_line s) (l_length s) (Z.of_nat (length b)) s) (at_cursor b a e).
Proof. intros [] Ht. rewrite Ht in *. by split. Qed.

Lemma edits_escape s e n : edits s e -> edits (with_esc n s) (Editor (before e) (after e) n (recalled e)).
Proof. intros []. by split. Qed.

Lemma bytes_app (l1 l2 : list Z) : Forall in_u8 (l1 ++ l2) <-> Forall in_u8 l1 /\ Forall in_u8 l2.
Proof. apply Forall_app. Qed.

Lemma cstr_bytes l : Forall in_u8 l -> Forall in_u8 (cstr l).
Proof. induction 1 as [|c l Hc _ IH]; cbn [cstr]; [constructor|]. case_decide; [constructor|by constructor]. Qed.

(** ** The operations *)

(** Inserting a character: the part after the cursor moves up by one. *)
Lemma insert_array line b a c rest : line = (b ++ a) ++ rest -> (length (b ++ a) + length rest = 128)%nat ->
  (length (b ++ a) <= 126)%nat -> Forall in_u8 line -> in_u8 c ->
  exists line', (l ← shift_right (length a) (Z.of_nat (length (b ++ a))) line; l ← aset l (Z.of_nat (length b)) c;
                 aset l (Z.of_nat (length (b ++ a)) + 1) 0) = Val line'
    /\ length line' = 128%nat /\ Forall in_u8 line'
    /\ take (length ((b ++ [c]) ++ a)) line' = (b ++ [c]) ++ a.
Proof.
  intros -> Hl Hf Hb Hc. destruct rest as [|x [|y rest]]; [cbn [length] in Hl; lia|cbn [length] in Hl; lia|].
  apply bytes_app in Hb as [Hba Hr]. apply bytes_app in Hba as [Hbb Hba].
  inversion_clear Hr as [|? ? Hx Hr']. inversion_clear Hr' as [|? ? Hy Hr].
  rewrite <- app_assoc. rewrite (length_app b a), Nat2Z.inj_add, shift_right_spec. cbn [mbind outcome_bind].
  rewrite aset_at by done. cbn [mbind outcome_bind].
  replace (b ++ c :: a ++ y :: rest) with ((b ++ c :: a) ++ y :: rest) by (by rewrite <- app_assoc).
  rewrite aset_at by (rewrite length_app; cbn [length]; lia). eexists. split; [done|].
  rewrite length_app in Hl. cbn [length] in Hl. split; [rewrite !length_app; cbn [length]; lia|]. split.
  - apply bytes_app. split; [apply bytes_app; split; [done|by constructor]|constructor; [unfold in_u8; lia|done]].
  - replace ((b ++ [c]) ++ a) with (b ++ c :: a) by (by rewrite <- app_assoc). by rewrite take_app_length.
Qed.

(** Deleting the last character before the cursor: the part after it moves down. *)
Lemma delete_array line b x a rest : line = ((b ++ [x]) ++ a) ++ rest -> (length ((b ++ [x]) ++ a) + length rest = 128)%nat ->
  Forall in_u8 line ->
  exists line', (l ← for_loop (length a) (Z.of_nat (length b)) (fun i line => c ← aget line (i + 1); aset line i c) line;
                 aset l (Z.of_nat (length (b ++ a))) 0) = Val line'
    /\ length line' = 128%nat /\ Forall in_u8 line' /\ take (length (b ++ a)) line' = b ++ a.
Proof.
  intros -> Hl Hb. rewrite <- !app_assoc in Hb |- *. cbn [app].
  destruct (shift_left_spec a b x rest) as [z ->]. cbn [mbind outcome_bind]. rewrite (app_assoc b a), aset_at by done.
  eexists. split; [done|]. rewrite !length_app in Hl. cbn [length] in Hl. split; [rewrite !length_app; cbn [length]; lia|]. split.
  - apply bytes_app in Hb as [Hbb Hb]. inversion_clear Hb as [|? ? Hx Hb']. apply bytes_app in Hb' as [Hba Hr].
    apply bytes_app. split; [by apply bytes_app|]. constructor; [unfold in_u8; lia|done].
  - by rewrite take_app_length.
Qed.

(** Recalling: what kstrncpy leaves is the string, its end marked. *)
Lemma recall_array line last : length line = 128%nat -> no_nul last -> (length last <= 127)%nat -> Forall in_u8 last ->
  exists line', (l ← awrite line 0 (vstrncpy 127 last); aset l 127 0) = Val line'
    /\ length line' = 128%nat /\ Forall in_u8 line' /\ take (length last) line' = last /\ cstr line' = last.
Proof.
  intros Hl Hn Hf Hb. rewrite awrite_in_range by (rewrite ?vstrncpy_length; lia). cbn [mbind outcome_bind].
  unfold splice. rewrite vstrncpy_length. change (Z.to_nat 0) with 0%nat. rewrite take_0. cbn [app Nat.add].
  destruct (drop 127 line) as [|x rest] eqn:Hd.
  { apply (f_equal length) in Hd. rewrite length_drop in Hd. cbn in Hd. lia. }
  assert (rest = []) as ->.
  { apply (f_equal length) in Hd. rewrite length_drop in Hd. cbn [length] in Hd. apply nil_length_inv. lia. }
  rewrite aset_at by (rewrite vstrncpy_length; lia). eexists. split; [done|].
  assert (vstrncpy 127 last ++ [0] = last ++ replicate (128 - length last) 0) as ->.
  { unfold vstrncpy. rewrite take_app_ge by lia. rewrite take_replicate, <- app_assoc. f_equal.
    change [0] with (replicate 1 0). rewrite <- replicate_add. f_equal. lia. }
  split; [rewrite length_app, length_replicate; lia|]. split.
  - apply bytes_app. split; [done|]. apply Forall_replicate. unfold in_u8. lia.
  - split; [by rewrite take_app_length|]. destruct (128 - length last)%nat as [|n] eqn:E; [lia|]. cbn [replicate].
    by apply cstr_app_nul.
Qed.

(** * Keys *)

Section Keys.
Context {C : Type} `{DisplayLaws C} {M : Type} `{Ports M} `{!Nic M}.
Context (hlt : nsys C M -> outcome (power (nsys C M))) (fuel : nat).
Notation monitor := (monitor C M).

(** A machine with another console. *)
Definition m_console (m : monitor) : C := w_console (m_world m).
Definition set_console (c : C) (m : monitor) : monitor := put_m_world (with_console c (m_world m)) m.

Lemma set_console_twice c c' m : set_console c (set_console c' m) = set_console c m.
Proof. done. Qed.

Lemma tell_spec f m : prints f -> term_ok (m_console m) ->
  exists c, tell f m = Val (set_console c m) /\ term_ok c.
Proof.
  intros Hf Hm. destruct (Hf _ Hm) as (c & o & Hr & Hok & _). exists c. split; [|done]. unfold tell, print.
  change (w_console (m_world m)) with (m_console m). by rewrite Hr.
Qed.

Lemma write_prints p : is_Some (render_braces p []) -> Forall in_u8 p -> prints (console_write p []).
Proof. intros. by apply braces_prints. Qed.

Lemma prompt_prints : prints print_prompt.
Proof.
  unfold print_prompt. repeat (apply prints_bind; [first [apply set_color_law
    | apply write_prints; [eexists; reflexivity|vm_compute; repeat constructor; discriminate]]|]). apply reset_color_law.
Qed.

Lemma write_n_prints s n : Forall in_u8 s -> 0 <= n <= Z.of_nat (length s) -> prints (console_write_n s n).
Proof.
  intros Hs Hn t Ht. destruct (write_n_spec s n t Hs Ht Hn) as (t' & Hr & Hok & He). by exists t', (line_text (take (Z.to_nat n) s)).
Qed.

Lemma render_prints line len cur : Forall in_u8 line -> 0 <= len <= Z.of_nat (length line) -> 0 <= cur <= Z.of_nat (length line) ->
  prints (render_line line len cur).
Proof.
  intros Hb Hl Hc. unfold render_line. assert (in_u8 13 /\ in_u8 32) as [H13 H32] by (unfold in_u8; lia).
  apply prints_bind; [by apply prints_putc|]. apply prints_bind; [apply prompt_prints|].
  apply prints_bind; [by apply write_n_prints|]. apply prints_bind; [by apply prints_putc|].
  apply prints_bind; [by apply prints_putc|]. apply prints_bind; [apply prompt_prints|]. by apply write_n_prints.
Qed.

(** A turn that leaves the editor showing [e] and only prints. *)
Definition turns_to (e : editor) (m : monitor) (o : outcome (@turn C M)) : Prop :=
  exists s c, o = Val (Running (s, set_console c m)) /\ edits s e /\ term_ok c.

Lemma show_spec s e m : edits s e -> term_ok (m_console m) -> turns_to e m (show s m).
Proof.
  intros He Hm. unfold show. pose proof (ed_fits _ _ He) as Hf.
  assert (length (before e) <= length (e_text e))%nat as Hbl by (unfold e_text; rewrite length_app; lia).
  destruct (tell_spec (render_line (g_line s) (l_length s) (l_cursor s)) m) as (c & -> & Hc).
  - apply render_prints; [apply He|rewrite (ed_line _ _ He), (ed_length _ _ He); lia|rewrite (ed_line _ _ He), (ed_cursor _ _ He); lia].
  - done.
  - exists s, c. done.
Qed.

Lemma next_spec s e m : edits s e -> term_ok (m_console m) -> turns_to e m (next s m).
Proof.
  intros He Hm. exists s, (m_console m). split; [|done]. unfold next. by destruct m as [[? ? ? ? []] ? ?].
Qed.

Lemma erase_spec s e : edits s e -> exists s', erase s = Val s' /\ edits s' (at_cursor [] [] e).
Proof.
  intros He. unfold erase. pose proof (ed_line _ _ He) as Hl. rewrite aset_in_range by lia. cbn [mbind outcome_bind].
  eexists. split; [done|]. apply (edits_line s e _ [] []); try done.
  - by rewrite length_insert.
  - apply Forall_insert; [apply He|unfold in_u8; lia].
  - cbn. lia.
Qed.

Lemma insert_spec c s e m : edits s e -> in_u8 c -> term_ok (m_console m) ->
  turns_to (if decide (length (e_text e) < 127)%nat then at_cursor (before e ++ [c]) (after e) e else e) m (insert_char c s m).
Proof.
  intros He Hc Hm. unfold insert_char. pose proof (ed_length _ _ He) as Hlen. pose proof (ed_cursor _ _ He) as Hcur.
  rewrite Hlen, Hcur. unfold CLI_MAX_LINE. case_decide; [rewrite decide_True by lia|rewrite decide_False by lia; by apply next_spec].
  destruct (line_split s e He) as (rest & Hline & Hr). unfold e_text in *.
  destruct (insert_array (g_line s) (before e) (after e) c rest Hline Hr) as (line' & Ho & Hl' & Hb' & Ht');
    [lia|apply He|done|].
  replace (Z.to_nat (Z.of_nat (length (before e ++ after e)) - Z.of_nat (length (before e)))) with (length (after e))
    by (rewrite length_app; lia).
  inv_outcome. rewrite Ha. cbn [mbind outcome_bind]. rewrite Ha0. cbn [mbind outcome_bind]. rewrite Ho. cbn [mbind outcome_bind].
  pose proof (edits_line s e line' (before e ++ [c]) (after e) He Hl' Hb' Ht') as Hed.
  replace (Z.of_nat (length (before e ++ after e)) + 1) with (Z.of_nat (length ((before e ++ [c]) ++ after e)))
    by (rewrite !length_app; cbn [length]; lia).
  replace (Z.of_nat (length (before e)) + 1) with (Z.of_nat (length (before e ++ [c]))) by (rewrite length_app; cbn [length]; lia).
  apply show_spec; [|done]. apply Hed. rewrite !length_app in *. cbn [length]. lia.
Qed.

Lemma delete_spec s e m : edits s e -> e_text e <> [] -> term_ok (m_console m) ->
  turns_to (at_cursor (removelast (before e)) (after e) e) m (delete_back s m).
Proof.
  intros He Hne Hm. unfold delete_back. pose proof (ed_length _ _ He) as Hlen. pose proof (ed_cursor _ _ He) as Hcur.
  pose proof (ed_fits _ _ He) as Hfit. rewrite Hlen, Hcur. destruct (before e) as [|x b _] eqn:Hb using rev_ind.
  { rewrite decide_True by done. cbn [removelast]. apply next_spec; [|done].
    destruct e as [b a esc r]. cbn in Hb. subst b. exact He. }
  rewrite decide_False by (rewrite length_app; cbn [length]; lia). rewrite removelast_last.
  destruct (line_split s e He) as (rest & Hline & Hr). unfold e_text in Hline, Hr, Hfit. rewrite Hb in Hline, Hr, Hfit.
  destruct (delete_array (g_line s) b x (after e) rest Hline Hr (ed_bytes _ _ He)) as (line' & Ho & Hl' & Hb' & Ht').
  unfold e_text. rewrite Hb.
  replace (Z.to_nat (Z.of_nat (length ((b ++ [x]) ++ after e)) - Z.of_nat (length (b ++ [x])))) with (length (after e))
    by (rewrite !length_app; cbn [length]; lia).
  replace (Z.of_nat (length (b ++ [x])) - 1) with (Z.of_nat (length b)) by (rewrite length_app; cbn [length]; lia).
  replace (Z.of_nat (length ((b ++ [x]) ++ after e)) - 1) with (Z.of_nat (length (b ++ after e)))
    by (rewrite !length_app; cbn [length]; lia).
  inv_outcome. rewrite Ha. cbn [mbind outcome_bind]. rewrite Ho. cbn [mbind outcome_bind].
  apply show_spec; [|done]. apply edits_line; try done. rewrite !length_app in *. cbn [length] in *. lia.
Qed.

Lemma recall_spec s e m : edits s e -> term_ok (m_console m) ->
  turns_to (match recalled e with Some text => at_cursor text [] e | None => e end) m (recall s m).
Proof.
  intros He Hm. unfold recall. rewrite (ed_recalled _ _ He). destruct (g_has_last_line s); [|by apply next_spec].
  destruct (recall_array (g_line s) (cstr (g_last_line s)) (ed_line _ _ He) (cstr_no_nul _) (ed_last_end _ _ He))
    as (line' & Ho & Hl' & Hb' & Ht' & Hc').
  { apply cstr_bytes, (ed_last_bytes _ _ He). }
  unfold CLI_MAX_LINE. change (Z.to_nat (128 - 1)) with 127%nat. change (128 - 1) with 127. inv_outcome. rewrite Ha.
  cbn [mbind outcome_bind]. rewrite Ho. cbn [mbind outcome_bind]. rewrite Hc'.
  pose proof (edits_line s e line' (cstr (g_last_line s)) [] He Hl' Hb') as Hed. rewrite app_nil_r in Hed.
  apply show_spec; [|done]. apply Hed; [done|]. apply (ed_last_end _ _ He).
Qed.

Lemma interrupt_spec s e m : edits s e -> term_ok (m_console m) ->
  turns_to (at_cursor [] [] e) m
    (m ← tell (console_write (str "^C" ++ [10]) []) m; s ← erase s; m ← tell print_prompt m; next s m).
Proof.
  intros He Hm. destruct (tell_spec (console_write (str "^C" ++ [10]) []) m) as (c1 & -> & Hc1);
    [apply write_prints; [by eexists|repeat constructor; vm_compute; congruence]|done|]. cbn [mbind outcome_bind].
  destruct (erase_spec s e He) as (s' & -> & He'). cbn [mbind outcome_bind].
  destruct (tell_spec print_prompt (set_console c1 m)) as (c2 & -> & Hc2); [apply prompt_prints|done|].
  exists s', c2. done.
Qed.

Lemma left_spec s e m : edits s e -> term_ok (m_console m) ->
  turns_to (match last (before e) with Some x => at_cursor (removelast (before e)) (x :: after e) e | None => e end) m
    (if decide (l_cursor s > 0) then show (with_line (g_line s) (l_length s) (l_cursor s - 1) s) m else next s m).
Proof.
  intros He Hm. rewrite (ed_cursor _ _ He). destruct (before e) as [|x b _] eqn:Hb using rev_ind.
  { rewrite decide_False by (cbn; lia). by apply next_spec. }
  rewrite last_snoc, removelast_last, decide_True by (rewrite length_app; cbn [length]; lia).
  replace (Z.of_nat (length (b ++ [x])) - 1) with (Z.of_nat (length b)) by (rewrite length_app; cbn [length]; lia).
  apply show_spec; [|done]. apply edits_moved; [done|]. unfold e_text. by rewrite Hb, <- app_assoc.
Qed.

Lemma right_spec s e m : edits s e -> term_ok (m_console m) ->
  turns_to (match after e with x :: a => at_cursor (before e ++ [x]) a e | [] => e end) m
    (if decide (l_cursor s < l_length s) then show (with_line (g_line s) (l_length s) (l_cursor s + 1) s) m else next s m).
Proof.
  intros He Hm. pose proof (ed_length _ _ He) as Hlen. pose proof (ed_cursor _ _ He) as Hcur.
  unfold e_text in Hlen. rewrite length_app in Hlen. destruct (after e) as [|x a] eqn:Ha; cbn [length] in Hlen.
  { rewrite decide_False by lia. by apply next_spec. }
  rewrite decide_True by lia. rewrite Hcur.
  replace (Z.of_nat (length (before e)) + 1) with (Z.of_nat (length (before e ++ [x]))) by (rewrite length_app; cbn [length]; lia).
  apply show_spec; [|done]. apply edits_moved; [done|]. unfold e_text. by rewrite Ha, <- app_assoc.
Qed.

Lemma plain_spec c s e m : edits s e -> in_u8 c -> c <> 10 -> term_ok (m_console m) ->
  turns_to (edit_plain c e) m (plain_key hlt fuel c s m).
Proof.
  intros He Hc Hnl Hm. unfold plain_key, edit_plain.
  case_decide; [by apply next_spec|]. case_decide; [apply next_spec; [by apply edits_escape|done]|].
  rewrite (decide_False (P := c = 10)) by done. case_decide; [by apply interrupt_spec|].
  case_decide. { apply show_spec; [|done]. apply (edits_moved s e [] (e_text e)); done. }
  case_decide. { rewrite (ed_length _ _ He). apply show_spec; [|done]. rewrite <- (ed_length _ _ He) at 1.
    apply edits_moved; [done|]. by rewrite app_nil_r. }
  case_decide; [by apply left_spec|]. case_decide; [by apply right_spec|]. case_decide; [by apply recall_spec|].
  case_decide. { destruct (erase_spec s e He) as (s' & -> & He'). cbn [mbind outcome_bind]. by apply show_spec. }
  pose proof (ed_length _ _ He) as Hlen.
  destruct (decide ((c = 8 \/ c = 127) /\ e_text e <> [])) as [[Hbs Hne]|Hno];
    destruct (decide ((c = 8 \/ c = 127) /\ l_length s > 0)) as [[Hbs' Hpos]|Hno'].
  - by apply delete_spec.
  - exfalso. apply Hno'. split; [done|]. destruct (e_text e); [done|cbn [length] in Hlen; lia].
  - exfalso. apply Hno. split; [done|]. intros Hnil. rewrite Hnil in Hlen. cbn in Hlen. lia.
  - by apply insert_spec.
Qed.

Lemma arrow_key_ok c : in_u8 c -> c <> 10 -> in_u8 (arrow_key c) /\ arrow_key c <> 10.
Proof.
  intros Hc Hn. unfold arrow_key, INPUT_KEY_CTRL_P, INPUT_KEY_CTRL_N, INPUT_KEY_CTRL_F, INPUT_KEY_CTRL_B, in_u8 in *.
  repeat case_decide; lia.
Qed.

Lemma key_spec c s e m : edits s e -> in_u8 c -> c <> 10 -> term_ok (m_console m) ->
  turns_to (edit c e) m (cli_key hlt fuel c s m).
Proof.
  intros He Hc Hnl Hm. unfold cli_key, edit. rewrite u8_small by done. rewrite (ed_escape _ _ He). case_decide; [case_decide|case_decide].
  - apply next_spec; [by apply edits_escape|done].
  - destruct (erase_spec s e He) as (s' & -> & He'). cbn [mbind outcome_bind].
    destruct (show_spec s' _ m He' Hm) as (s2 & c2 & Hshow & He2 & Hc2). unfold show in Hshow. inv_outcome. rewrite Ha.
    cbn [mbind outcome_bind]. unfold next in *. injection Hshow as -> ->. eexists _, c2. split; [done|]. split; [|done].
    apply (edits_escape s2 _ 0 He2).
  - destruct (arrow_key_ok c Hc Hnl) as [Ha Hb]. apply plain_spec; [by apply edits_escape|done..].
  - by apply plain_spec.
Qed.

(** The keys of a line, without the newline. *)
Definition edit_keys (keys : list Z) (e : editor) : editor := foldl (fun e c => edit c e) e keys.

(** C34 The line editor is the abstract editor: from a state that shows an abstract
    editor, any sequence of characters other than newline (control keys, arrows and
    broken escape sequences included) is handled without a fault, leaves the rest of
    the machine alone, and ends in a state that shows what the abstract editor makes
    of the same characters; in particular the line never grows past its 127
    characters and the cursor stays inside it. *)
Theorem line_editor_refines (keys : list Z) : forall (s : cli) (e : editor) (m : monitor),
  edits s e -> Forall (fun c => in_u8 c /\ c <> 10) keys -> term_ok (m_console m) ->
  exists s' c, cli_keys hlt fuel keys s m = Val (Running (s', set_console c m))
    /\ edits s' (edit_keys keys e) /\ term_ok c.
Proof.
  induction keys as [|k keys IH]; intros s e m He Hk Hm; cbn [cli_keys].
  { destruct (next_spec s e m He Hm) as (s' & c & -> & ? & ?). by exists s', c. }
  inversion_clear Hk as [|? ? [Hk1 Hk2] Hks]. destruct (key_spec k s e m He Hk1 Hk2 Hm) as (s1 & c1 & -> & He1 & Hc1).
  cbn [mbind outcome_bind]. destruct (IH s1 (edit k e) (set_console c1 m) He1 Hks Hc1) as (s2 & c2 & -> & He2 & Hc2).
  by exists s2, c2.
Qed.

End Keys.

(** * Words *)

(** The words of a text: the longest runs without blanks, [w] being the run so far. *)
Fixpoint words_from (w : list Z) (s : list Z) : list (list Z) :=
  match s with
  | [] => match w with [] => [] | _ => [w] end
  | c :: s =>
      if is_blank c then match w with [] => words_from [] s | _ => w :: words_from [] s end
      else words_from (w ++ [c]) s
  end.
Definition words : list Z -> list (list Z) := words_from [].

Fixpoint span (p : Z -> bool) (l : list Z) : list Z * list Z :=
  match l with
  | [] => ([], [])
  | x :: l' => if p x then let '(a, b) := span p l' in (x :: a, b) else ([], l)
  end.
(** A text up to the end of its first word. *)
Definition lead (s : list Z) : list Z :=
  let '(blanks, s) := span is_blank s in blanks ++ (span (fun c => negb (is_blank c)) s).1.

Lemma span_spec p l : exists a b, span p l = (a, b) /\ l = a ++ b /\ Forall (fun x => p x = true) a
  /\ match b with [] => True | x :: _ => p x = false end.
Proof.
  induction l as [|x l (a & b & IH & -> & Ha & Hb)]; cbn [span]; [by exists [], []|].
  destruct (p x) eqn:Hx; [|by exists [], (x :: a ++ b)]. rewrite IH. exists (x :: a), b. split; [done|]. split; [done|].
  split; [by constructor|done].
Qed.

Lemma words_blanks bl s : Forall (fun c => is_blank c = true) bl -> words (bl ++ s) = words s.
Proof. induction 1 as [|c bl Hc _ IH]; [done|]. unfold words. cbn [app words_from]. by rewrite Hc. Qed.

Lemma words_from_run w s : Forall (fun c => negb (is_blank c) = true) w -> forall acc, words_from acc (w ++ s) = words_from (acc ++ w) s.
Proof.
  induction 1 as [|c w Hc _ IH]; intros acc; [by rewrite app_nil_r|]. cbn [app words_from]. apply negb_true_iff in Hc. rewrite Hc.
  by rewrite IH, <- app_assoc.
Qed.

Lemma words_run w s : Forall (fun c => negb (is_blank c) = true) w -> w <> [] ->
  match s with [] => True | c :: _ => negb (is_blank c) = false end ->
  words (w ++ s) = w :: words (tail s).
Proof.
  intros Hw Hne Hs. unfold words. rewrite words_from_run by done. cbn [app]. destruct w as [|c w]; [done|].
  destruct s as [|b s]; [done|]. cbn [words_from tail]. apply negb_false_iff in Hs. by rewrite Hs.
Qed.

Lemma skip_blanks_spec bl : forall fuel pre y more, (length bl < fuel)%nat -> Forall (fun c => is_blank c = true) bl ->
  is_blank y = false -> skip_blanks fuel (pre ++ bl ++ y :: more) (Z.of_nat (length pre)) = Val (Z.of_nat (length (pre ++ bl))).
Proof.
  induction bl as [|c bl IH]; intros fuel pre y more Hf Hb Hy; (destruct fuel as [|fuel]; [cbn in Hf; lia|]); cbn [skip_blanks app].
  - rewrite aget_at by done. cbn [mbind outcome_bind]. rewrite Hy. by rewrite app_nil_r.
  - inversion_clear Hb as [|? ? Hc Hbl]. rewrite aget_at by done. cbn [mbind outcome_bind]. rewrite Hc.
    replace (Z.of_nat (length pre) + 1) with (Z.of_nat (length (pre ++ [c]))) by (rewrite length_app; cbn [length]; lia).
    change (c :: bl ++ y :: more) with ([c] ++ bl ++ y :: more). rewrite app_assoc. cbn [length] in Hf.
    rewrite IH by (done || lia). by rewrite <- app_assoc.
Qed.

Lemma skip_word_spec w : forall fuel pre y more, (length w < fuel)%nat -> no_nul w -> Forall (fun c => negb (is_blank c) = true) w ->
  y = 0 \/ is_blank y = true -> skip_word fuel (pre ++ w ++ y :: more) (Z.of_nat (length pre)) = Val (Z.of_nat (length (pre ++ w))).
Proof.
  induction w as [|c w IH]; intros fuel pre y more Hf Hn Hb Hy; (destruct fuel as [|fuel]; [cbn in Hf; lia|]); cbn [skip_word app].
  - rewrite aget_at by done. cbn [mbind outcome_bind]. rewrite decide_False; [by rewrite app_nil_r|].
    intros [Hy1 Hy2]. destruct Hy; congruence.
  - inversion_clear Hb as [|? ? Hc Hbl]. inversion_clear Hn as [|? ? Hc0 Hn']. rewrite aget_at by done. cbn [mbind outcome_bind].
    apply negb_true_iff in Hc. rewrite decide_True by done.
    replace (Z.of_nat (length pre) + 1) with (Z.of_nat (length (pre ++ [c]))) by (rewrite length_app; cbn [length]; lia).
    change (c :: w ++ y :: more) with ([c] ++ w ++ y :: more). rewrite app_assoc. cbn [length] in Hf.
    rewrite IH by (done || lia). by rewrite <- app_assoc.
Qed.

(** The string an index of the line starts. *)
Definition word_at (line : list Z) (i : Z) : list Z := cstr (drop (Z.to_nat i) line).

Lemma word_at_app pre l : word_at (pre ++ l) (Z.of_nat (length pre)) = cstr l.
Proof. unfold word_at. rewrite Nat2Z.id. by rewrite drop_app_length. Qed.

Lemma no_nul_app (s t : list Z) : no_nul (s ++ t) <-> no_nul s /\ no_nul t.
Proof. apply Forall_app. Qed.

Lemma is_blank_0 : is_blank 0 = false.
Proof. reflexivity. Qed.

(** A text as its leading blanks, its first word and what follows. *)
Lemma text_parts s : no_nul s -> exists bl w tl, s = bl ++ w ++ tl
  /\ Forall (fun c => is_blank c = true) bl /\ Forall (fun c => negb (is_blank c) = true) w
  /\ match tl with [] => True | c :: _ => negb (is_blank c) = false end /\ (w = [] -> tl = [])
  /\ lead s = bl ++ w.
Proof.
  intros Hn. destruct (span_spec is_blank s) as (bl & s1 & E1 & -> & Hbl & Hhd).
  destruct (span_spec (fun c => negb (is_blank c)) s1) as (w & tl & E2 & -> & Hw & Htl).
  exists bl, w, tl. split_and!; try done.
  - intros ->. destruct tl as [|c tl]; [done|]. cbn [app] in Hhd. cbn beta in Htl. rewrite Hhd in Htl. done.
  - unfold lead. rewrite E1, E2. done.
Qed.

Lemma split_done n fuel pre rest : split_line n fuel (pre ++ 0 :: rest) (Z.of_nat (length pre)) = Val ([], pre ++ 0 :: rest).
Proof. destruct n; [done|]. cbn [split_line]. rewrite aget_at by done. done. Qed.

Lemma skip_first n fuel pre l : l <> [] -> no_nul l -> forall more, split_line (S n) fuel (pre ++ l ++ more) (Z.of_nat (length pre))
  = (i ← skip_blanks fuel (pre ++ l ++ more) (Z.of_nat (length pre));
     c ← aget (pre ++ l ++ more) i;
     if decide (c = 0) then Val ([], pre ++ l ++ more)
     else
       j ← skip_word fuel (pre ++ l ++ more) i;
       d ← aget (pre ++ l ++ more) j;
       '(line, j) ← (if decide (d <> 0) then line ← aset (pre ++ l ++ more) j 0; Val (line, j + 1) else Val (pre ++ l ++ more, j));
       '(argv, line) ← split_line n fuel line j;
       Val (i :: argv, line)).
Proof.
  intros Hne Hn more. destruct l as [|c l]; [done|]. inversion_clear Hn. cbn [split_line app]. rewrite aget_at by done.
  cbn [mbind outcome_bind]. by rewrite decide_False.
Qed.

(** One word is found, and ended with a NUL where a blank follows it. *)
Lemma split_step n fuel pre bl c w y more :
  Forall (fun c => is_blank c = true) bl -> Forall (fun c => negb (is_blank c) = true) (c :: w) -> no_nul bl -> no_nul (c :: w) ->
  y = 0 \/ is_blank y = true -> (length bl + S (length w) < fuel)%nat ->
  split_line (S n) fuel (pre ++ bl ++ (c :: w) ++ y :: more) (Z.of_nat (length pre))
  = (let j := Z.of_nat (length (pre ++ bl ++ c :: w)) in
     '(argv, line) ← (if decide (y <> 0) then split_line n fuel (pre ++ bl ++ (c :: w) ++ 0 :: more) (j + 1)
                      else split_line n fuel (pre ++ bl ++ (c :: w) ++ y :: more) j);
     Val (Z.of_nat (length (pre ++ bl)) :: argv, line)).
Proof.
  intros Hbl Hw Hn1 Hn2 Hy Hf. rewrite (app_assoc bl (c :: w)), skip_first.
  2: { by destruct bl. }
  2: { by apply no_nul_app. }
  rewrite <- (app_assoc bl). inversion_clear Hw as [|? ? Hcb Hw']. apply negb_true_iff in Hcb. inversion_clear Hn2 as [|? ? Hc0 Hn'].
  change ((c :: w) ++ y :: more) with (c :: w ++ y :: more). rewrite skip_blanks_spec by (done || lia). cbn [mbind outcome_bind].
  rewrite (app_assoc pre bl), aget_at by done. cbn [mbind outcome_bind]. rewrite decide_False by done.
  change (c :: w ++ y :: more) with ((c :: w) ++ y :: more).
  rewrite skip_word_spec; [|cbn [length]; lia|by constructor|constructor; [by apply negb_true_iff|done]|done].
  cbn [mbind outcome_bind]. rewrite (app_assoc (pre ++ bl)), aget_at by done. cbn [mbind outcome_bind].
  cbn zeta. case_decide; cbn [mbind outcome_bind]; [rewrite aset_at by done|]; cbn [mbind outcome_bind]; by rewrite <- !app_assoc.
Qed.

(** The cut line: the words where they were, each ended by a NUL. *)
Record cut (n : nat) (pre s rest : list Z) (idx : list Z) (s' : list Z) : Prop := {
  cut_length : length s' = length s;
  cut_bytes : Forall in_u8 s -> Forall in_u8 s';
  cut_words : word_at (pre ++ s' ++ 0 :: rest) <$> idx = take n (words s);
  cut_lead : (0 < n)%nat -> cstr (s' ++ 0 :: rest) = lead s;
}.

Lemma cut_blanks n fuel pre bl rest : Forall (fun c => is_blank c = true) bl -> no_nul bl -> (length bl < fuel)%nat ->
  split_line n fuel (pre ++ bl ++ 0 :: rest) (Z.of_nat (length pre)) = Val ([], pre ++ bl ++ 0 :: rest).
Proof.
  intros Hb Hn Hf. destruct n as [|n]; [done|]. destruct bl as [|b bl]; [apply split_done|].
  rewrite skip_first by done. rewrite skip_blanks_spec by done. cbn [mbind outcome_bind]. rewrite app_assoc, aget_at by done. done.
Qed.

Lemma split_line_spec n : forall fuel pre s rest, no_nul s -> (length s < fuel)%nat ->
  exists idx s', split_line n fuel (pre ++ s ++ 0 :: rest) (Z.of_nat (length pre)) = Val (idx, pre ++ s' ++ 0 :: rest)
    /\ cut n pre s rest idx s'.
Proof.
  induction n as [|n IH]; intros fuel pre s rest Hn Hf.
  { exists [], s. split; [done|]. split; [done|done|done|lia]. }
  destruct (text_parts s Hn) as (bl & w & tl & -> & Hbl & Hw & Htl & Hwt & Hlead).
  apply no_nul_app in Hn as [Hn1 Hn]. apply no_nul_app in Hn as [Hn2 Hn3]. rewrite !length_app in Hf.
  destruct w as [|c w].
  { rewrite (Hwt eq_refl), !app_nil_r in *. exists [], bl. rewrite cut_blanks by (done || lia). split; [done|]. split; try done.
    - rewrite <- (app_nil_r bl). by rewrite words_blanks.
    - intros _. rewrite Hlead. by apply cstr_app_nul. }
  assert (no_nul (bl ++ c :: w)) as Hn12 by (by apply no_nul_app). cbn [length] in Hf.
  rewrite <- !app_assoc. destruct tl as [|b tl]; cbn [app].
  - change (c :: w ++ 0 :: rest) with ((c :: w) ++ 0 :: rest). rewrite split_step by (done || lia || by left).
    cbn zeta. rewrite decide_False by (intros E; by apply E). rewrite !(app_assoc pre). rewrite (app_assoc (pre ++ bl)).
    rewrite split_done. cbn [mbind outcome_bind]. exists [Z.of_nat (length (pre ++ bl))], (bl ++ c :: w).
    rewrite <- !app_assoc. split; [done|]. rewrite app_nil_r in Hlead |- *. split; try done.
    + cbn [fmap list_fmap]. rewrite <- app_assoc, (app_assoc pre), word_at_app, cstr_app_nul by done.
      rewrite words_blanks by done. rewrite <- (app_nil_r (c :: w)). rewrite words_run by done. rewrite app_nil_r.
      by destruct n.
    + intros _. rewrite Hlead. rewrite <- app_assoc. rewrite (app_assoc bl). by apply cstr_app_nul.
  - inversion_clear Hn3 as [|? ? Hb0 Hn3']. apply negb_false_iff in Htl.
    change (c :: w ++ b :: tl ++ 0 :: rest) with ((c :: w) ++ b :: (tl ++ 0 :: rest)).
    rewrite split_step by (done || lia || by right). cbn zeta. rewrite decide_True by done.
    destruct (IH fuel (pre ++ bl ++ (c :: w) ++ [0]) tl rest Hn3') as (idx & s' & Hsp & [K1 K2 K3 K4]); [cbn [length] in Hf; lia|].
    replace (Z.of_nat (length (pre ++ bl ++ c :: w)) + 1) with (Z.of_nat (length (pre ++ bl ++ (c :: w) ++ [0])))
      by (rewrite !length_app; cbn [length]; lia).
    replace (pre ++ bl ++ (c :: w) ++ 0 :: tl ++ 0 :: rest) with ((pre ++ bl ++ (c :: w) ++ [0]) ++ tl ++ 0 :: rest)
      by (by rewrite <- !app_assoc).
    rewrite Hsp. cbn [mbind outcome_bind]. exists (Z.of_nat (length (pre ++ bl)) :: idx), (bl ++ (c :: w) ++ 0 :: s').
    assert ((pre ++ bl ++ (c :: w) ++ [0]) ++ s' ++ 0 :: rest = pre ++ (bl ++ (c :: w) ++ 0 :: s') ++ 0 :: rest) as Eq
      by (by rewrite <- !app_assoc). rewrite Eq in K3 |- *. split; [done|].
    change (bl ++ c :: w ++ b :: tl) with (bl ++ (c :: w) ++ b :: tl). split.
    + rewrite !length_app. cbn [length]. lia.
    + intros [Hb1 Hb2]%bytes_app. apply bytes_app in Hb2 as [Hb2 Hb3]. inversion_clear Hb3.
      apply bytes_app. split; [done|]. apply bytes_app. split; [done|]. constructor; [unfold in_u8; lia|by apply K2].
    + rewrite words_blanks, words_run by (done || by rewrite Htl). cbn [tail firstn fmap list_fmap]. f_equal; [|exact K3].
      rewrite <- app_assoc, (app_assoc pre), word_at_app, <- app_assoc. by apply cstr_app_nul.
    + intros _. rewrite Hlead, <- app_assoc, <- app_assoc, (app_assoc bl). by apply cstr_app_nul.
Qed.

(** * A newline *)

Lemma cstr_le (s rest : list Z) : (length (cstr (s ++ 0%Z :: rest)) <= length s)%nat.
Proof.
  induction s as [|c s IH]; [done|]. cbn [app cstr]. case_decide; cbn [length]; [lia|]. lia.
Qed.

(** A text with its end marked is the C string it holds. *)
Lemma cstr_parts (text rest : list Z) : exists rest',
  text ++ 0 :: rest = cstr text ++ 0 :: rest' /\ (Forall in_u8 rest -> Forall in_u8 text -> Forall in_u8 rest').
Proof.
  induction text as [|c text (rest' & IH & Hb)]; [by exists rest|]. cbn [app cstr]. case_decide as Hc.
  - subst c. exists (text ++ 0 :: rest). split; [done|]. intros Hr Ht. inversion_clear Ht. apply bytes_app. split; [done|].
    constructor; [unfold in_u8; lia|done].
  - exists rest'. cbn [app]. rewrite IH. split; [done|]. intros Hr Ht. inversion_clear Ht. by apply Hb.
Qed.

Section Newline.
Context {C : Type} `{DisplayLaws C} {M : Type} `{Ports M} `{!Nic M}.
Context (hlt : nsys C M -> outcome (power (nsys C M))) (fuel : nat).
Notation monitor := (monitor C M).

Lemma dispatch_line_spec text rest m : (length text <= 127)%nat -> length (text ++ 0 :: rest) = 128%nat ->
  Forall in_u8 (text ++ 0 :: rest) ->
  exists line', dispatch_line hlt fuel (text ++ 0 :: rest) m
      = (p ← run_command hlt fuel (take 16 (words (cstr text))) m; Val (line', p))
    /\ length line' = 128%nat /\ Forall in_u8 line' /\ cstr line' = lead (cstr text) /\ (length (cstr line') <= 127)%nat.
Proof.
  intros Hf Hl Hb. destruct (cstr_parts text rest) as (rest' & Eq & Hbr).
  assert (length (cstr text) <= length text)%nat as Hle by apply cstr_length.
  destruct (split_line_spec 16 128 [] (cstr text) rest' (cstr_no_nul _)) as (idx & s' & Hsp & [K1 K2 K3 K4]); [lia|].
  exists (s' ++ 0 :: rest'). unfold dispatch_line. rewrite Hl, Eq. cbn [app length] in Hsp, K3.
  change (Z.of_nat 0) with 0 in Hsp. change (Z.to_nat CLI_MAX_ARGS) with 16%nat. rewrite Hsp. cbn [mbind outcome_bind].
  fold (word_at (s' ++ 0 :: rest')). change (fun i => cstr (drop (Z.to_nat i) (s' ++ 0 :: rest'))) with (word_at (s' ++ 0 :: rest')).
  rewrite K3. split; [done|]. rewrite Eq in Hl, Hb. apply bytes_app in Hb as [Hb1 Hb2].
  split_and!.
  - rewrite length_app in *. lia.
  - apply bytes_app. split; [by apply K2|done].
  - apply K4. lia.
  - etrans; [apply cstr_le|]. lia.
Qed.

(** The state after a line has been run. *)
Lemma remember_spec s e line : edits s e -> length line = 128%nat -> Forall in_u8 line -> (length (cstr line) <= 127)%nat ->
  exists s', (s ← (if decide (l_length s > 0) then
             last ← awrite (g_last_line s) 0 (vstrncpy (Z.to_nat (CLI_MAX_LINE - 1)) (cstr line));
             last ← aset last (CLI_MAX_LINE - 1) 0;
             Val (with_last last s)
           else Val s);
      erase (with_line line (l_length s) (l_cursor s) s)) = Val s'
    /\ edits s' (Editor [] [] (escape e) (match e_text e with [] => recalled e | _ => Some (cstr line) end)).
Proof.
  intros He Hl Hb Hc. unfold CLI_MAX_LINE. change (Z.to_nat (128 - 1)) with 127%nat. change (128 - 1) with 127.
  pose proof (ed_length _ _ He) as Hlen. assert (in_u8 0) as Hz by (unfold in_u8; lia).
  destruct (e_text e) as [|x text] eqn:Ht; cbn [length] in Hlen.
  - rewrite decide_False by lia. cbn [mbind outcome_bind]. unfold erase, with_line. cbn [g_line].
    rewrite aset_in_range by lia. cbn [mbind outcome_bind]. eexists. split; [done|]. destruct He.
    split; cbn; try done; [by rewrite length_insert|by apply Forall_insert|lia].
  - rewrite decide_True by lia.
    destruct (recall_array (g_last_line s) (cstr line) (ed_last _ _ He) (cstr_no_nul _) Hc) as (last' & Ho & Hl' & Hb' & Ht' & Hc').
    { by apply cstr_bytes. }
    inv_outcome. rewrite Ha. cbn [mbind outcome_bind]. rewrite Ho. cbn [mbind outcome_bind]. unfold erase, with_line. cbn [g_line with_last].
    rewrite aset_in_range by lia. cbn [mbind outcome_bind]. eexists. split; [done|]. destruct He.
    split; cbn; try done; [by rewrite length_insert|by apply Forall_insert|lia|by rewrite Hc'|by rewrite Hc'].
Qed.

(** ** The command a name stands for *)

(** The monitor's commands by name. *)
Definition monitor_command (name : list Z) : option (list (list Z) -> monitor -> outcome (status (C := C) (M := M))) :=
  if decide (name = str "help") then Some cmd_help
  else if decide (name = str "clear") then Some cmd_clear
  else if decide (name = str "echo") then Some cmd_echo
  else if decide (name = str "sysinfo") then Some cmd_sysinfo
  else if decide (name = str "tasks") then Some cmd_tasks
  else if decide (name = str "fsls") then Some cmd_fsls
  else if decide (name = str "meminfo") then Some cmd_meminfo
  else if decide (name = str "swap") then Some cmd_swap
  else if decide (name = str "eth") then Some cmd_eth
  else if decide (name = str "nearby") then Some (cmd_nearby hlt fuel)
  else if decide (name = str "connect") then Some (cmd_connect hlt fuel)
  else if decide (name = str "ping") then Some (cmd_ping hlt fuel)
  else if decide (name = str "mgctl") then Some (cmd_mgctl hlt fuel)
  else if decide (name = str "shutdown") then Some cmd_shutdown
  else if decide (name = str "reboot") then Some cmd_reboot
  else None.

(** Running a line's words: nothing without words, the command of the first word, or a
    message with it and the status -1. *)
Definition run_words (argv : list (list Z)) (m : monitor) : outcome (power (Z * monitor)) :=
  match argv with
  | [] => Val (Running (0, m))
  | name :: _ =>
      match monitor_command name with
      | Some command => command argv m
      | None => m ← tell (console_printf (str "unknown command: %s" ++ [10]) [VaStr (Some name)]) m; Val (Running (-1, m))
      end
  end.

Lemma find_command name : no_nul name ->
  (fun p => p.2.2) <$> list_find (fun e => vstrcmp e.1 name = 0) (k_commands hlt fuel) = monitor_command name.
Proof.
  intros Hn. unfold monitor_command.
  repeat (match goal with |- context [decide (name = ?w)] =>
    let E := fresh "E" in destruct (decide (name = w)) as [E|E]; [rewrite E; reflexivity|] end).
  destruct (list_find _ _) as [[i [w fn]]|] eqn:Hf; [|done]. apply list_find_Some in Hf as (Hi & Hw & _). exfalso. cbn [fst] in Hw.
  unfold k_commands, command_help, command_fns in Hi. cbn [fmap list_fmap zip zip_with fst] in Hi.
  destruct i as [|[|[|[|[|[|[|[|[|[|[|[|[|[|[|i]]]]]]]]]]]]]]]; cbn in Hi; [injection Hi as <- _..|done];
    (apply vstrcmp_0 in Hw; [|repeat constructor; discriminate|done]); subst name; contradiction.
Qed.

Lemma run_command_words argv m : Forall no_nul argv -> run_command hlt fuel argv m = run_words argv m.
Proof.
  intros Hn. unfold run_command, run_words. destruct argv as [|name args]; [done|]. inversion_clear Hn as [|? ? Hname _].
  rewrite <- find_command by done. by destruct (list_find _ _) as [[i [w fn]]|].
Qed.

Lemma words_from_no_nul s : forall w, no_nul w -> no_nul s -> Forall no_nul (words_from w s).
Proof.
  induction s as [|c s IH]; intros w Hw Hs; cbn [words_from].
  { destruct w as [|x w]; [constructor|]. by apply Forall_singleton. }
  inversion_clear Hs as [|? ? Hc Hs']. assert (no_nul (@nil Z)) as Hnil by constructor. destruct (is_blank c).
  - destruct w as [|x w]; [by apply IH|]. constructor; [done|by apply IH].
  - apply IH; [|done]. apply Forall_app. split; [done|by constructor].
Qed.

Lemma newline_runs (s : cli) (e : editor) (m : monitor) :
  edits s e -> escape e = 0 -> term_ok (m_console m) ->
  exists s' c, tell (console_putc 10) m = Val (set_console c m)
    /\ edits s' (Editor [] [] 0 (match e_text e with [] => recalled e | _ => Some (lead (cstr (e_text e))) end))
    /\ cli_key hlt fuel 10 s m
       = (p ← run_command hlt fuel (take 16 (words (cstr (e_text e)))) (set_console c m);
          match p with
          | Running (_, m) => m ← tell print_prompt m; next s' m
          | Halted (_, m) => Val (Halted (s, m))
          | Rebooted (_, m) => Val (Rebooted (s, m))
          end).
Proof.
  intros He Hesc Hm. pose proof (ed_escape _ _ He) as Hes. rewrite Hesc in Hes.
  destruct (tell_spec (console_putc 10) m) as (c & Hnl & Hc); [apply prints_putc; unfold in_u8; lia|done|].
  destruct (line_split s e He) as (rest & Hline & Hr). pose proof (ed_fits _ _ He) as Hfit.
  pose proof (ed_line _ _ He) as Hl. pose proof (ed_bytes _ _ He) as Hby. rewrite Hline in Hl, Hby.
  destruct rest as [|y rest]; [rewrite app_nil_r in Hl; lia|].
  apply bytes_app in Hby as [Hby1 Hby2]. inversion_clear Hby2 as [|? ? Hy Hrest].
  destruct (dispatch_line_spec (e_text e) rest (set_console c m)) as (line & Hd & Hll & Hlb & Hlead & Hlc);
    [done|rewrite length_app in *; cbn [length] in *; lia|apply bytes_app; split; [done|constructor; [unfold in_u8; lia|done]]|].
  destruct (remember_spec s e line He Hll Hlb Hlc) as (s' & Hrem & Hed). rewrite Hesc, Hlead in Hed.
  exists s', c. split; [done|]. split; [done|].
  unfold cli_key. rewrite Hes. change (u8 10) with 10. rewrite decide_False by done. rewrite decide_False by done.
  unfold plain_key. rewrite !decide_False by done. rewrite decide_True by done. unfold enter.
  rewrite Hline, (ed_length _ _ He), aset_at by done. cbn [mbind outcome_bind]. rewrite Hnl. cbn [mbind outcome_bind].
  rewrite Hd. rewrite <- (ed_length _ _ He). destruct (run_command _ _ _ _) as [[[r m2]|[r m2]|[r m2]]|]; cbn [mbind outcome_bind]; try done.
  destruct (if decide (l_length s > 0) then _ else _) as [s1|] eqn:Hs1; cbn [mbind outcome_bind] in Hrem |- *; [|done].
  by rewrite Hrem.
Qed.

(** C35 A newline runs the line.  In a state that shows an abstract editor, outside
    escape sequences, the newline is printed and the first sixteen words of the line
    (blanks separate them, a NUL ends the line) are run: no words do nothing, a first
    word equal to the name of one of the fifteen commands runs that command on the
    words, any other is reported as an unknown command with status -1.  A prompt
    follows unless the command stops the machine.  The new line is empty; unless the
    line was, the recall key now brings back the line up to its first word only,
    because the line has been cut into words by then. *)
Theorem newline_runs_line (s : cli) (e : editor) (m : monitor) :
  edits s e -> escape e = 0 -> term_ok (m_console m) ->
  exists s' c, tell (console_putc 10) m = Val (set_console c m)
    /\ edits s' (Editor [] [] 0 (match e_text e with [] => recalled e | _ => Some (lead (cstr (e_text e))) end))
    /\ cli_key hlt fuel 10 s m
       = (p ← run_words (take 16 (words (cstr (e_text e)))) (set_console c m);
          match p with
          | Running (_, m) => m ← tell print_prompt m; next s' m
          | Halted (_, m) => Val (Halted (s, m))
          | Rebooted (_, m) => Val (Rebooted (s, m))
          end).
Proof.
  intros He Hesc Hm. destruct (newline_runs s e m He Hesc Hm) as (s' & c & Htell & He' & Hkey). exists s', c.
  rewrite run_command_words in Hkey; [done|]. apply Forall_take, words_from_no_nul; [constructor|apply cstr_no_nul].
Qed.

End Newline.

(** * A session on a test bench *)

Module CliDemo.
Import Terminal.Transcript Display.Plain Ports.Bench.

#[local] Existing Instance NetDemo.demo_nic.

Definition demo_monitor : monitor transcript bench := Monitor demo_kernel NetDemo.demo_net (Swap 0 0 false).
Definition no_halt (s : nsys transcript bench) : outcome (power (nsys transcript bench)) := Val (Running s).
Notation keys := (cli_keys no_halt 1).

Definition empty_editor : editor := Editor [] [] 0 None.
Lemma static_edits : edits static_cli empty_editor.
Proof.
  split; try done; [apply Forall_replicate; unfold in_u8; lia|cbn; lia|apply Forall_replicate; unfold in_u8; lia|].
  apply leb_complete. by vm_compute.
Qed.

(** A mistyped word, put right with the left arrow and a backspace. *)
Definition typing : list Z := str "eechj" ++ [27; 91; 68; 8; 8] ++ str "h" ++ [5; 8] ++ str "o ab".

Lemma line_editor_refines_witness : exists s' c, keys typing static_cli demo_monitor = Val (Running (s', set_console c demo_monitor))
  /\ edits s' (edit_keys typing empty_editor) /\ term_ok c.
Proof.
  apply (line_editor_refines no_halt 1 typing static_cli empty_editor demo_monitor static_edits).
  - repeat constructor; vm_compute; congruence.
  - repeat constructor; vm_compute; congruence.
Defined.

(** The editor after a session. *)
Definition after_keys (ks : list Z) (s : cli) : option (cli * list Z) :=
  match keys ks s demo_monitor with
  | Val (Running (s', m)) => Some (s', sent (m_console m))
  | _ => None
  end.
Definition line_of (s : cli) : list Z := take (Z.to_nat (l_length s)) (g_line s).

Example typing_line : (line_of ∘ fst <$> after_keys typing static_cli) = Some (e_text (edit_keys typing empty_editor)).
Proof. vm_compute. reflexivity. Qed.

(** The line [echo ab] with the cursor at its end. *)
Definition echo_line : cli := Cli (str "echo ab" ++ replicate 121 0) (replicate 128 0) false 7 7 0.
Definition echo_editor : editor := Editor (str "echo ab") [] 0 None.
Lemma echo_edits : edits echo_line echo_editor.
Proof.
  split; try done; [by repeat constructor; vm_compute|cbn; lia|apply Forall_replicate; unfold in_u8; lia|].
  apply leb_complete. by vm_compute.
Qed.

Lemma newline_runs_line_witness : exists s' c, tell (console_putc 10) demo_monitor = Val (set_console c demo_monitor)
  /\ edits s' (Editor [] [] 0 (Some (lead (cstr (e_text echo_editor)))))
  /\ cli_key no_halt 1 10 echo_line demo_monitor
     = (p ← run_words no_halt 1 (take 16 (words (cstr (e_text echo_editor)))) (set_console c demo_monitor);
        match p with
        | Running (_, m) => m ← tell print_prompt m; next s' m
        | Halted (_, m) => Val (Halted (echo_line, m))
        | Rebooted (_, m) => Val (Rebooted (echo_line, m))
        end).
Proof.
  apply (newline_runs_line no_halt 1 echo_line echo_editor demo_monitor echo_edits eq_refl).
  repeat constructor; vm_compute; congruence.
Defined.

(** The recall key brings back [echo], not [echo ab]: the line was cut before it was
    copied. *)
Example recall_loses_arguments : (line_of ∘ fst <$> after_keys [10; INPUT_KEY_CTRL_P] echo_line) = Some (str "echo").
Proof. vm_compute. reflexivity. Qed.

(** A backspace on an empty line is typed. *)
Example backspace_is_typed : (line_of ∘ fst <$> after_keys [8] static_cli) = Some [8].
Proof. vm_compute. reflexivity. Qed.

(** An argument with braces is a pattern: [echo] prints an argument it was not given. *)
Example echo_reads_a_pattern : cli_key no_halt 1 10 (Cli (str "echo {}" ++ replicate 121 0) (replicate 128 0) false 7 7 0) demo_monitor
  = Stop Oob.
Proof. vm_compute. reflexivity. Qed.

End CliDemo.
