(* ===== verification/BuiltinSpec.v ===== *)
(** The monitor's commands keep the kernel's invariant ([Builtin.v]): each one
    returns, or stops the machine, and leaves files, tasks, heap and network state
    in order.

    [carries] ties the world to the file system it belongs to; it is what a waiting
    command asks of the interrupts it is halted for. *)

From Stdlib Require Import ZArith Lia Ascii.
From stdpp Require Import base gmap list strings.
From S2P Require Import Prelude KString Util Pmm Vmm Swap Terminal Ports Console Screen Display Task Sched.
From S2P Require Import Tmpfs TmpfsPath TmpfsTree TmpfsData Fs FsPath FsFile Syscall SyscallSpec.
From S2P Require Import NetConst Net NetSpec NetBoot NetCmds Builtin Cli CliSpec.
Open Scope Z_scope.
Import Fmt.

(** * Listing the root directory *)

Section Listing.
Context {C : Type} `{TerminalLaws C}.

Lemma dump_siblings_spec nodes ids : forall fuel start, chain nodes start ids -> (length ids <= fuel)%nat ->
  prints (dump_siblings (C := C) fuel nodes start).
Proof.
  induction ids as [|i ids IH]; intros fuel start Hch Hf.
  { cbn [chain] in Hch. subst start. intros t Ht. exists t, []. rewrite app_nil_r.
    by destruct fuel; cbn [dump_siblings]; rewrite decide_False by lia. }
  destruct fuel as [|fuel]; cbn [length] in Hf; [lia|]. destruct Hch as (-> & n & Hn & Hch). intros t Ht. cbn [dump_siblings].
  rewrite decide_True by lia. rewrite (aget_Some nodes (Z.of_nat i) n) by (try lia; by rewrite Nat2Z.id). cbn [mbind outcome_bind].
  revert t Ht. apply prints_bind; [by apply printf_fits|]. apply IH; [done|lia].
Qed.

Lemma dump_root_prints fs : fs_wf fs -> prints (tmpfs_dump_root (C := C) fs).
Proof.
  intros [[kids Ht] _] t Htm. unfold tmpfs_dump_root. destruct (tw_root _ _ Ht) as (r & Hr & Hdir & _).
  rewrite (aget_Some (g_nodes fs) 0 r) by done. cbn [mbind outcome_bind].
  assert (live r) as Hlive by (unfold live; rewrite Hdir; done).
  apply (dump_siblings_spec _ (kids 0%nat)); [by eapply tw_chain| |done]. by eapply kids_bound.
Qed.

Lemma dump_tasks_prints ts : prints (dump_tasks (C := C) ts).
Proof.
  induction ts as [|t ts IH]; [intros c Hc; exists c, []; by rewrite app_nil_r|]. cbn [dump_tasks].
  case_decide; [exact IH|]. apply prints_bind; [by apply printf_fits|exact IH].
Qed.

Lemma task_dump_prints tt : prints (task_dump (C := C) tt).
Proof. apply prints_bind; [|apply dump_tasks_prints]. apply prints_bind; [by apply braces_fits; eexists|apply prints_any]. Qed.

End Listing.

(** * The invariant of the whole kernel *)

Section Spec.
Context {C : Type} `{DisplayLaws C} {M : Type} `{PortsLaws M} `{!Nic M, !NicLaws M}.
Notation monitor := (monitor C M).
Implicit Types m : monitor.

Record monitor_wf m : Prop := {
  mw_kernel : kernel_wf (m_kernel m);
  mw_net : net_wf (m_net m);
}.

(** A world whose tasks and console go with these files. *)
Definition carries (t : tmpfs) (f : list vfs_file) (w : world C M) : Prop := fsys_wf (Fsys t f (w_tasks w) (w_console w)).
Definition carried m (w : world C M) : Prop := carries (k_tmpfs (m_kernel m)) (k_files (m_kernel m)) w.

Lemma carried_world m : monitor_wf m -> carried m (m_world m).
Proof. intros [[Hf _] _]. exact Hf. Qed.

Lemma put_sys_wf m (s : nsys C M) : monitor_wf m -> net_wf (n_net s) -> carried m (n_world s) -> monitor_wf (put_sys s m).
Proof. intros [[_ Hh] _] Hn Hw. split; [split; [exact Hw|exact Hh]|exact Hn]. Qed.

Lemma carries_print t f c (w : world C M) : carries t f w -> term_ok c -> carries t f (with_console c w).
Proof. intros Hw Hc. exact (with_console_wf _ c Hw Hc). Qed.

Lemma set_console_wf c m : monitor_wf m -> term_ok c -> monitor_wf (set_console c m).
Proof. intros Hm Hc. split; [split; [|apply Hm]|apply Hm]. exact (carries_print _ _ c _ (carried_world m Hm) Hc). Qed.

Lemma monitor_console m : monitor_wf m -> term_ok (m_console m).
Proof. intros Hm. exact (sw_console _ (carried_world m Hm)). Qed.

(** Neither the swap accounting nor the safeboot policy matters. *)
Lemma put_swap_wf s m : monitor_wf m -> monitor_wf (put_swap s m).
Proof. by intros []. Qed.
Lemma set_action_wf a m : monitor_wf m -> monitor_wf (put_m_world (safeboot_set_action a (m_world m)) m).
Proof. intros [[Hf Hh] Hn]. unfold safeboot_set_action. split; [split; [|exact Hh]|exact Hn]. by case_decide. Qed.

(** ** Outcomes *)

Definition ticks_of m : Z := uptime (m_sys m).

(** A step that only prints or reports. *)
Definition steps m (o : outcome monitor) : Prop := exists m', o = Val m' /\ monitor_wf m' /\ ticks_of m' = ticks_of m.

(** A command: it returns within [b] ticks, or the machine stops. *)
Definition finishes {A} (b : Z) m (o : outcome (power (A * monitor))) : Prop :=
  exists p, o = Val p /\ forall r m', p = Running (r, m') -> monitor_wf m' /\ ticks_of m <= ticks_of m' <= ticks_of m + b.

Lemma steps_tell f m : prints f -> monitor_wf m -> steps m (tell f m).
Proof.
  intros Hf Hm. destruct (tell_spec f m Hf (monitor_console m Hm)) as (c & -> & Hc). eexists. split; [done|].
  split; [by apply set_console_wf|done].
Qed.

Lemma steps_bind m o (k : monitor -> outcome monitor) :
  steps m o -> (forall m1, monitor_wf m1 -> steps m1 (k m1)) -> steps m (m1 ← o; k m1).
Proof.
  intros (m1 & -> & Hm1 & Hu) Hk. cbn [mbind outcome_bind]. destruct (Hk m1 Hm1) as (m2 & -> & Hm2 & Hu2).
  exists m2. split; [done|]. split; [done|congruence].
Qed.

Lemma finishes_bind {A} b m o (k : monitor -> outcome (power (A * monitor))) :
  steps m o -> (forall m1, monitor_wf m1 -> ticks_of m1 = ticks_of m -> finishes b m1 (k m1)) -> finishes b m (m1 ← o; k m1).
Proof.
  intros (m1 & -> & Hm1 & Hu) Hk. cbn [mbind outcome_bind]. destruct (Hk m1 Hm1 Hu) as (p & -> & Hp). exists p. split; [done|].
  intros r m' Hr. destruct (Hp r m' Hr) as [? ?]. split; [done|]. lia.
Qed.

Lemma finishes_here {A} b m m' (r : A) : 0 <= b -> monitor_wf m' -> ticks_of m' = ticks_of m -> finishes b m (Val (Running (r, m'))).
Proof. intros Hb Hm Hu. eexists. split; [done|]. intros r' m2 [= <- <-]. split; [done|]. lia. Qed.

Lemma finishes_more {A} b b' m (o : outcome (power (A * monitor))) : finishes b m o -> b <= b' -> finishes b' m o.
Proof. intros (p & -> & Hp) Hb. exists p. split; [done|]. intros r m' Hr. destruct (Hp r m' Hr). split; [done|lia]. Qed.

Lemma finishes_from {A} m1 b m (o : outcome (power (A * monitor))) : ticks_of m1 = ticks_of m -> finishes b m1 o -> finishes b m o.
Proof. intros Hu (p & -> & Hp). exists p. split; [done|]. rewrite <- Hu. exact Hp. Qed.

Lemma answer_finishes r m : monitor_wf m -> finishes 0 m (answer r m).
Proof. intros Hm. by apply finishes_here. Qed.

Lemma say_finishes text r m : is_Some (render_braces text []) -> monitor_wf m -> finishes 0 m (say text r m).
Proof.
  intros Ht Hm. apply finishes_bind; [apply steps_tell; [|done]|intros; by apply answer_finishes].
  apply prints_bind; [by apply braces_fits|apply prints_any].
Qed.

Lemma sayf_finishes fmt args r m : fits (fmt ++ [10]) args = true -> fmt_bytes (fmt ++ [10]) = true -> monitor_wf m ->
  finishes 0 m (sayf fmt args r m).
Proof. intros Hf Hb Hm. apply finishes_bind; [apply steps_tell; [by apply printf_fits|done]|intros; by apply answer_finishes]. Qed.

Lemma stop_finishes b m (p : power (world C M)) : (forall w, p <> Running w) -> finishes b m (stop_machine p m).
Proof. intros Hp. eexists. split; [done|]. intros r m' Hr. destruct p as [w|w|w]; [by destruct (Hp w)|discriminate..]. Qed.

(** ** Calls of the network code *)

Lemma carried_fine m : monitor_wf m -> fine (carried m) (m_sys m).
Proof. intros Hm. split; [apply Hm|by apply carried_world]. Qed.

Lemma on_sys_steps m f : monitor_wf m -> prompt (carried m) (m_sys m) (f (m_sys m)) -> steps m (on_sys f m).
Proof.
  intros Hm (s & Hr & [Hn Hw] & Hu). unfold on_sys. rewrite Hr. cbn [mbind outcome_bind]. eexists. split; [done|].
  split; [by apply put_sys_wf|exact Hu].
Qed.

Lemma on_net_finishes {A} b b1 m o Q (k : A -> monitor -> outcome (status (C := C) (M := M))) :
  monitor_wf m -> returns (carried m) b (m_sys m) o Q -> (forall a m1, monitor_wf m1 -> finishes b1 m1 (k a m1)) ->
  finishes (b + b1) m (p ← o; on_net p m k).
Proof.
  intros Hm (p & -> & Hp) Hk. cbn [mbind outcome_bind]. destruct p as [[a s]|[a s]|[a s]]; cbn [on_net]; [|by eexists..].
  destruct (Hp a s eq_refl) as ([Hn Hw] & Hu & _). unfold within in Hu.
  destruct (Hk a (put_sys s m)) as (q & -> & Hq); [by apply put_sys_wf|]. exists q. split; [done|]. intros r m' Hr.
  destruct (Hq r m' Hr) as [? Hu']. split; [done|]. change (ticks_of (put_sys s m)) with (uptime s) in Hu'.
  change (uptime (m_sys m)) with (ticks_of m) in Hu. lia.
Qed.

End Spec.

(** * The commands *)

Section Commands.
Context {C : Type} `{DisplayLaws C} {M : Type} `{PortsLaws M} `{!Nic M, !NicLaws M}.
Notation monitor := (monitor C M).
Implicit Types m : monitor.
Context (hlt : nsys C M -> outcome (power (nsys C M))) (fuel : nat).
Context (fits_buffer : packets_fit (M := M) 1520) (wakes : forall t f, hlt_wakes hlt (carries (C := C) (M := M) t f)).
Context (enough : (200 <= fuel)%nat).

Ltac line :=
  lazymatch goal with
  | |- steps _ (tell (console_printf _ _) _) => apply steps_tell; [by apply printf_fits|assumption]
  | |- steps _ (tell (console_writeln _ _) _) =>
      apply steps_tell; [apply prints_bind; [by apply braces_fits; eexists|apply prints_any]|assumption]
  end.
Ltac ends :=
  lazymatch goal with
  | |- finishes _ _ (answer _ _) => by apply answer_finishes
  | |- finishes _ _ (say _ _ _) => apply say_finishes; [by eexists|assumption]
  | |- finishes _ _ (sayf _ _ _ _) => by apply sayf_finishes
  end.
Ltac lines := repeat (apply finishes_bind; [line|intros]); ends.

(** The laws the network calls ask for. *)
Notation ports_law := (fun _ _ Hw => Hw).
Notation console_law := (fun _ Hw => sw_console _ Hw).
Notation print_law := (fun _ _ Hw Hc => carries_print _ _ _ _ Hw Hc).

Lemma help_finishes argv m : monitor_wf m -> finishes 0 m (cmd_help argv m).
Proof.
  intros Hm. unfold cmd_help. apply finishes_bind; [|intros; ends].
  destruct (for_loop_inv (fun _ m1 => monitor_wf m1 /\ ticks_of m1 = ticks_of m) (length command_help) 0
    (fun i m => '(name, help) ← aget command_help i;
        tell (console_printf (str "%s - %s" ++ [10]) [VaStr (Some name); VaStr (Some help)]) m) m) as (m' & Hr & Hm' & Hu');
    [done| |by exists m'].
  intros i m1 Hi [Hm1 Hu1]. destruct (aget_in_range command_help i) as [[name help] ->]; [lia|]. cbn [mbind outcome_bind].
  destruct (steps_tell (console_printf (str "%s - %s" ++ [10]) [VaStr (Some name); VaStr (Some help)]) m1) as (m2 & -> & Hm2 & Hu2);
    [by apply printf_fits|done|]. exists m2. split; [done|]. split; [done|congruence].
Qed.

Lemma clear_finishes argv m : monitor_wf m -> finishes 0 m (cmd_clear argv m).
Proof. intros Hm. apply finishes_bind; [apply steps_tell; [apply clear_law|done]|intros; ends]. Qed.

(** [echo] prints its arguments as long as they ask for none. *)
Definition plain_text (a : list Z) : Prop := is_Some (render_braces a []).

Lemma echo_steps args : Forall plain_text args -> forall m, monitor_wf m -> steps m (echo_args args m).
Proof.
  induction 1 as [|a args Ha _ IH]; intros m Hm; cbn [echo_args]; [by exists m|].
  apply steps_bind; [apply steps_tell; [by apply braces_fits|done]|]. intros m1 Hm1.
  apply steps_bind; [|exact IH]. destruct args; [by exists m1|]. apply steps_tell; [apply prints_any|done].
Qed.

Lemma echo_finishes argv m : Forall plain_text (tail argv) -> monitor_wf m -> finishes 0 m (cmd_echo argv m).
Proof.
  intros Ha Hm. apply finishes_bind; [by apply echo_steps|]. intros m1 Hm1 _.
  apply finishes_bind; [apply steps_tell; [apply prints_any|done]|intros; ends].
Qed.

Lemma sysinfo_finishes argv m : monitor_wf m -> finishes 0 m (cmd_sysinfo argv m).
Proof.
  intros Hm. destruct (finishes_bind 0 m (tell (console_printf (str "uptime: %u ticks (%u ms)" ++ [10])
    [VaWord (u32 (g_uptime_ticks (w_sched (m_world m)))); VaWord (u32 (scheduler_uptime_ms (m_world m)))]) m) (answer 0)) as (p & Hp & Hq);
    [line|intros; ends|]. exists p. split; [|done]. unfold cmd_sysinfo, scheduler_dump. unfold tell in Hp.
  by destruct (print _ (m_world m)) as [w|].
Qed.

Lemma tasks_finishes argv m : monitor_wf m -> finishes 0 m (cmd_tasks argv m).
Proof. intros Hm. apply finishes_bind; [apply steps_tell; [apply task_dump_prints|done]|intros; ends]. Qed.

Lemma fsls_finishes argv m : monitor_wf m -> finishes 0 m (cmd_fsls argv m).
Proof.
  intros Hm. pose proof (sw_tmpfs _ (carried_world m Hm)) as Ht. unfold cmd_fsls, fs_dump_root.
  destruct (dump_root_prints _ Ht _ (monitor_console m Hm)) as (c & o & Hr & Hc & _).
  change (tmpfs_dump_root (fs_tmpfs (k_fsys (m_kernel m))) (fs_console (k_fsys (m_kernel m))))
    with (tmpfs_dump_root (k_tmpfs (m_kernel m)) (m_console m)).
  cbn [fs_tmpfs] in Hr. rewrite Hr. cbn [mbind outcome_bind]. pose proof (set_console_wf c m Hm Hc) as Hm'.
  destruct m as [[t f hp me w] n s]. destruct w. by apply finishes_here.
Qed.

Lemma mem_line_steps label pages m : monitor_wf m -> steps m (print_mem_line label pages m).
Proof. intros Hm. unfold print_mem_line. line. Qed.

Lemma meminfo_finishes argv m : monitor_wf m -> finishes 0 m (cmd_meminfo argv m).
Proof.
  intros Hm. unfold cmd_meminfo. cbn zeta. 
  repeat (lazymatch goal with
    | |- finishes _ _ (mbind _ (print_mem_line _ _ _)) => apply finishes_bind; [by apply mem_line_steps|intros]
    | |- finishes _ _ (mbind _ (tell _ _)) => apply finishes_bind; [line|intros]
    end).
  ends.
Qed.

Lemma swap_finishes argv m : monitor_wf m -> finishes 0 m (cmd_swap argv m).
Proof.
  intros Hm. unfold cmd_swap, swap_print_usage. destruct argv as [|x [|verb args]]; try ends. cbn zeta.
  destruct (named verb _); [ends|]. destruct (named verb _).
  { unfold swap_on. destruct (match args with [] => _ | _ => _ end) as [pages|]; [|ends].
    destruct (swap_enable pages (m_swap m)) as [rc s]. pose proof (put_swap_wf s m Hm).
    apply (finishes_from (put_swap s m)); [done|]. case_decide; ends. }
  destruct (named verb _).
  { pose proof (put_swap_wf (swap_disable (m_swap m)) m Hm). by apply (finishes_from (put_swap (swap_disable (m_swap m)) m)); [|ends]. }
  destruct (named verb _); [|ends].
  unfold swap_use. destruct (match args with [] => _ | _ => _ end) as [pages|]; [|ends].
  destruct (swap_set_used_pages pages (m_swap m)) as [rc s]. pose proof (put_swap_wf s m Hm).
  apply (finishes_from (put_swap s m)); [done|]. repeat case_decide; ends.
Qed.

(** ** The network *)

Ltac by_law := first [exact (fun _ _ Hw => Hw) | exact (fun _ Hw => sw_console _ Hw)
  | exact (fun _ _ Hw Hc => carries_print _ _ _ _ Hw Hc) | exact fits_buffer | exact (wakes _ _) | by apply carried_fine].

Lemma eth_steps m : monitor_wf m -> steps m (on_sys net_dump_adapters m).
Proof. intros Hm. apply on_sys_steps; [done|]. eapply dump_adapters_prompt; by_law. Qed.

Lemma nearby_steps m : monitor_wf m -> steps m (on_sys net_dump_nearby m).
Proof. intros Hm. apply on_sys_steps; [done|]. eapply dump_nearby_prompt; by_law. Qed.

Lemma tools_steps m : monitor_wf m -> steps m (on_sys net_dump_driver_tools m).
Proof. intros Hm. apply on_sys_steps; [done|]. eapply dump_tools_prompt; by_law. Qed.

Lemma eth_finishes argv m : monitor_wf m -> finishes 0 m (cmd_eth argv m).
Proof. intros Hm. apply finishes_bind; [by apply eth_steps|intros; ends]. Qed.

Lemma nearby_finishes argv m : monitor_wf m -> 0 <= ticks_of m < 2 ^ 63 -> finishes 100 m (cmd_nearby hlt fuel argv m).
Proof.
  intros Hm Hu. apply (on_net_finishes 100 0 _ _ (fun _ _ => True)); [done|eapply scan_returns; first [by_law|lia|exact Hu]|].
  intros _ m1 Hm1. apply finishes_bind; [by apply nearby_steps|intros; ends].
Qed.

Lemma connect_finishes argv m : monitor_wf m -> 0 <= ticks_of m < 2 ^ 63 -> finishes 100 m (cmd_connect hlt fuel argv m).
Proof.
  intros Hm Hu. unfold cmd_connect.
  assert (finishes 100 m (say (str "usage: connect <net0|default|up>") (-1) m)) as Hno by (eapply finishes_more; [ends|lia]).
  destruct argv as [|x [|target args]]; [done..|].
  apply (on_net_finishes 100 0 _ _ (fun _ _ => True)); [done|eapply connect_returns; first [by_law|lia|exact Hu]|].
  intros rc m1 Hm1. repeat (case_decide; [ends|]). ends.
Qed.

(** The longest wait of a command, in ticks. *)
Definition max_ticks (argv : list (list Z)) : Z :=
  match argv with
  | _ :: _ :: text :: _ => 1000 + 100 * default 0 (parse_u32 text)
  | _ => 1000
  end.

Lemma parse_digits_range text : forall v n, 0 <= v -> parse_digits_u32 text v = Some n -> 0 <= n.
Proof. clear.
  induction text as [|c text IH]; intros v n Hv; cbn [parse_digits_u32]; [by intros [= <-]|]. case_decide; [done|].
  apply IH. apply u64_range.
Qed.

Lemma parse_u32_range text n : parse_u32 text = Some n -> 0 <= n.
Proof. clear. destruct text; [done|]. apply parse_digits_range. lia. Qed.

Lemma max_ticks_least argv : 1000 <= max_ticks argv.
Proof. clear.
  unfold max_ticks. destruct argv as [|? [|? [|text ?]]]; try lia. destruct (parse_u32 text) as [n|] eqn:Hn; cbn; [|lia].
  apply parse_u32_range in Hn. lia.
Qed.

Lemma ping_finishes argv m : monitor_wf m -> 0 <= ticks_of m -> ticks_of m + max_ticks argv < 2 ^ 63 ->
  finishes (max_ticks argv) m (cmd_ping hlt fuel argv m).
Proof.
  intros Hm Hu Hb. pose proof (max_ticks_least argv) as Hmax. unfold cmd_ping.
  assert (forall text, is_Some (render_braces text []) -> finishes (max_ticks argv) m (say text (-1) m)) as Hno.
  { intros text Ht. eapply finishes_more; [by apply say_finishes|lia]. }
  destruct argv as [|x [|target args]]; [by apply Hno..|].
  destruct (match args with [] => Some 4 | text :: _ => parse_u32 text end) as [count|] eqn:Hcount; [|by apply Hno].
  assert (0 <= count /\ 600 + 100 * count <= max_ticks (x :: target :: args)) as [Hc Hle].
  { destruct args as [|text args]; [injection Hcount as <-; cbn; lia|]. cbn [max_ticks]. rewrite Hcount. cbn.
    apply parse_u32_range in Hcount. lia. }
  apply (finishes_more (600 + 100 * count + 0)); [|lia].
  apply (on_net_finishes (600 + 100 * count) 0 _ _ (fun _ _ => True)); [done| |intros; ends].
  change (ticks_of m) with (uptime (m_sys m)) in *. eapply ping_returns; first [by_law|lia].
Qed.

(** ** mgctl *)

Lemma usage_finishes m : monitor_wf m -> finishes 0 m (mgctl_usage m).
Proof. intros Hm. unfold mgctl_usage. do 4 (apply finishes_bind; [line|intros]). ends. Qed.

Lemma mgctl_net_finishes args m : monitor_wf m -> 0 <= ticks_of m < 2 ^ 63 -> finishes 100 m (mgctl_net hlt fuel args m).
Proof.
  intros Hm Hu. assert (forall o : outcome (status (C := C) (M := M)), finishes 0 m o -> finishes 100 m o) as Hnow.
  { intros o Ho. eapply finishes_more; [done|lia]. }
  unfold mgctl_net. destruct args as [|verb rest]; [by apply Hnow, usage_finishes|].
  destruct (named verb _); [apply Hnow, finishes_bind; [by apply tools_steps|intros; ends]|].
  destruct (named verb _); [by apply Hnow, finishes_bind; [apply eth_steps|intros; ends]|].
  destruct (named verb _); [by apply nearby_finishes|].
  destruct (named verb _); [by apply Hnow, finishes_bind; [apply nearby_steps|intros; ends]|].
  destruct (named verb _); [|by apply Hnow, usage_finishes].
  destruct rest as [|target rest]; [apply Hnow; ends|by apply connect_finishes].
Qed.

Lemma mgctl_power_finishes args m : monitor_wf m -> finishes 0 m (mgctl_power args m).
Proof.
  intros Hm. unfold mgctl_power. destruct args as [|verb rest]; [by apply usage_finishes|]. destruct (named verb _).
  - unfold mgctl_safe. destruct rest as [|word rest]; [by apply usage_finishes|]. destruct (named word _); [ends|].
    destruct (named word _).
    { pose proof (set_action_wf SAFEBOOT_ACTION_REBOOT m Hm). eapply finishes_from; [|ends]. done. }
    destruct (named word _); [|by apply usage_finishes].
    pose proof (set_action_wf SAFEBOOT_ACTION_SHUTDOWN m Hm). eapply finishes_from; [|ends]. done.
  - destruct (named verb _); [apply finishes_bind; [line|]; intros; by apply stop_finishes|].
    destruct (named verb _); [apply finishes_bind; [line|]; intros; by apply stop_finishes|by apply usage_finishes].
Qed.

Lemma mgctl_finishes argv m : monitor_wf m -> 0 <= ticks_of m < 2 ^ 63 -> finishes 100 m (cmd_mgctl hlt fuel argv m).
Proof.
  intros Hm Hu. assert (forall o : outcome (status (C := C) (M := M)), finishes 0 m o -> finishes 100 m o) as Hnow.
  { intros o Ho. eapply finishes_more; [done|lia]. }
  unfold cmd_mgctl. destruct argv as [|x [|verb args]]; [by apply Hnow, usage_finishes..|].
  destruct (named verb _); [apply Hnow; ends|]. destruct (named verb _); [by apply mgctl_net_finishes|].
  destruct (named verb _); [by apply Hnow, mgctl_power_finishes|by apply Hnow, usage_finishes].
Qed.

Lemma shutdown_finishes argv m : monitor_wf m -> finishes 0 m (cmd_shutdown argv m).
Proof. intros Hm. apply finishes_bind; [line|]. intros. by apply stop_finishes. Qed.
Lemma reboot_finishes argv m : monitor_wf m -> finishes 0 m (cmd_reboot argv m).
Proof. intros Hm. apply finishes_bind; [line|]. intros. by apply stop_finishes. Qed.

(** ** Any command *)

(** Where a command line names [echo], its arguments ask for no arguments. *)
Definition plain_echo (argv : list (list Z)) : Prop :=
  match argv with name :: args => vstrcmp (str "echo") name = 0 -> Forall plain_text args | [] => True end.

Lemma run_command_finishes (argv : list (list Z)) m :
  monitor_wf m -> plain_echo argv -> 0 <= ticks_of m -> ticks_of m + max_ticks argv < 2 ^ 63 ->
  finishes (max_ticks argv) m (run_command hlt fuel argv m).
Proof.
  intros Hm He Hu Hb. pose proof (max_ticks_least argv) as Hmax. assert (0 <= ticks_of m < 2 ^ 63) as Hu2 by lia.
  unfold run_command. destruct argv as [|name args]; [by eapply finishes_more; [apply answer_finishes|lia]|].
  destruct (list_find _ _) as [[i [word fn]]|] eqn:Hf.
  - apply list_find_Some in Hf as (Hi & Hname & _). cbn [fst] in Hname.
    assert (forall o : outcome (status (C := C) (M := M)), finishes 0 m o -> finishes (max_ticks (name :: args)) m o) as Hnow.
    { intros o Ho. eapply finishes_more; [done|lia]. }
    assert (forall o : outcome (status (C := C) (M := M)), finishes 100 m o -> finishes (max_ticks (name :: args)) m o) as Hwait.
    { intros o Ho. eapply finishes_more; [done|lia]. }
    unfold k_commands, command_help, command_fns in Hi. cbn [fmap list_fmap zip zip_with fst] in Hi.
    destruct i as [|[|[|[|[|[|[|[|[|[|[|[|[|[|[|i]]]]]]]]]]]]]]]; cbn in Hi; [injection Hi as <- <-..|done].
    + by apply Hnow, help_finishes.
    + by apply Hnow, clear_finishes.
    + apply Hnow, echo_finishes; [by apply He|done].
    + by apply Hnow, sysinfo_finishes.
    + by apply Hnow, tasks_finishes.
    + by apply Hnow, fsls_finishes.
    + by apply Hnow, meminfo_finishes.
    + by apply Hnow, swap_finishes.
    + by apply Hnow, eth_finishes.
    + by apply Hwait, nearby_finishes.
    + by apply Hwait, connect_finishes.
    + by apply ping_finishes.
    + by apply Hwait, mgctl_finishes.
    + by apply Hnow, shutdown_finishes.
    + by apply Hnow, reboot_finishes.
  - eapply finishes_more; [|exact (Z.le_trans 0 1000 _ ltac:(lia) Hmax)]. apply finishes_bind; [line|intros; ends].
Qed.

(** What becomes of a first word that names no command: status -1, and the message with
    the word is all that is sent. *)
Definition reported (name : list Z) (m : monitor) (o : outcome (status (C := C) (M := M))) : Prop :=
  exists c, o = Val (Running (-1, set_console c m))
    /\ term_sent c = term_sent (m_console m) ++ line_text (str "unknown command: " ++ name ++ [10]).

(** A word as a line of the monitor holds it. *)
Definition word (name : list Z) : Prop := no_nul name /\ Forall in_u8 name /\ (length name <= 127)%nat.

Lemma unknown_reported name args m : term_ok (m_console m) -> word name -> monitor_command hlt fuel name = None ->
  reported name m (run_command hlt fuel (name :: args) m).
Proof.
  intros Hm (Hn & Hb & Hl) Hnone. pose proof (find_command hlt fuel name Hn) as Hf. rewrite Hnone in Hf.
  unfold run_command. destruct (list_find _ _) as [[i [w fn]]|]; [done|].
  destruct (printf_sends (str "unknown command: %s" ++ [10]) [VaStr (Some name)] (str "unknown command: " ++ name ++ [10]))
    with (t := m_console m) as (c & Hr & _ & Hs); [reflexivity|reflexivity| |done|].
  { apply holdable_intro; [apply Forall_app; split; [|apply Forall_app; split]..|];
      [repeat constructor; vm_compute; congruence|done|by repeat constructor|repeat constructor; discriminate|done|by repeat constructor|].
    rewrite !length_app. cbn. lia. }
  exists c. split; [|done]. unfold tell, print. change (w_console (m_world m)) with (m_console m). by rewrite Hr.
Qed.


End Commands.

(** * A witness *)

Module BuiltinDemo.
Import Terminal.Transcript Display.Plain Ports.Bench.

#[local] Existing Instance NetDemo.demo_nic.
#[local] Existing Instance NetDemo.demo_nic_laws.

(** Only the clock moves while the processor is halted. *)
Lemma next_tick_carries t f : hlt_wakes NetDemo.next_tick (carries (C := transcript) (M := bench) t f).
Proof.
  intros s Hn Hw Hu. destruct (NetDemo.next_tick_wakes s Hn I Hu) as (p & Hp & Hrun). exists p. split; [done|].
  intros s' ->. destruct (Hrun s' eq_refl) as (? & _ & ?). split; [done|]. split; [|done]. injection Hp as <-. exact Hw.
Qed.

Lemma demo_monitor_wf : monitor_wf CliDemo.demo_monitor.
Proof. split; [exact demo_kernel_wf|exact NetDemo.demo_net_wf]. Qed.


End BuiltinDemo.
