(* ===== verification/Boot.v ===== *)
(** [src/kernel/main.c]: kernel_main, which starts every part of the kernel in order
    and hands over to the monitor, with the parts of the other files' initialisers
    that only report.

    The state is the monitor's ([Builtin.v]) over the drivers ([Interrupt.v]).  What
    the linker and the boot loader provide are parameters: the image with the
    addresses of the assembly stubs, the boot information as bytes, and the bytes of
    memory from an address on, where the initramfs lies.  [hlt] and [fuel] are those
    of the waiting network code; [fuel] also bounds the boot information's tags and
    the bytes the keyboard had ready. *)

From Stdlib Require Import ZArith Lia Ascii.
From stdpp Require Import base gmap list strings.
From S2P Require Import Prelude KString Util Multiboot Pmm Vmm Swap Terminal Ports Console Screen Display Ps2 Keyboard Mouse.
From S2P Require Import Task Sched Tmpfs Fs Syscall Inet NetConst Net Interrupt Builtin Cli.
Open Scope Z_scope.
Import Fmt.

(** [src/kernel/main.c:34-40] kernel_image_start, kernel_image_end, and the symbols of
    the assembly files *)
Record image := Image {
  kernel_image_start : Z; kernel_image_end : Z;
  isr_stub_table : list Z; idt_address : Z; syscall_entry : Z;
}.

(** Starting the display. *)
Class Startup (C : Type) := { start_display : C -> outcome C }.

#[export] Instance vga_startup {H} `{Ports H} : Startup (console H) := { start_display := console_init }.
#[export] Instance drivers_startup {C} `{Startup C} : Startup (drivers C) := { start_display := on_console start_display }.

(** [src/kernel/pmm.c:99-104] pmm_dump; nothing calls it *)
Definition pmm_dump {C} `{Terminal C} (p : pmm_state) (c : C) : outcome C :=
  console_printf (str "pmm: total=%u used=%u free=%u pages" ++ [10])
    [VaWord (u32 (pmm_total_pages p)); VaWord (u32 (pmm_used_pages p)); VaWord (u32 (pmm_free_pages p))] c.

(** ** The state before any call *)

(** [src/kernel/tmpfs.c:8-10] g_nodes, g_data_arena and g_data_offset, zeroed *)
Definition static_tmpfs : tmpfs := Tmpfs (replicate MGCORE_MAX_NODES zero_node) ∅ 0.
(** [src/kernel/pmm.c:8-10] g_bitmap, g_total_pages and g_free_pages, zeroed *)
Definition static_pmm : pmm_state := Pmm (replicate (Z.to_nat (PMM_MAX_PAGES / 8)) 0) 0 0.
(** [src/kernel/net.c:116-152] the variables of the network code, zeroed *)
Definition static_net : net_state :=
  Net (replicate 8 (Adapter 0 0 0 0 0 0 0 false)) 0 (Rtl 0 0 false (replicate 6 0) (replicate 4 (replicate (Z.to_nat RTL_TX_BUFFER_SIZE) 0)) 0 0)
    (Interface 0 0 0 false) (Counters 0 0 0) (replicate 4 zero_arp) zero_ping zero_dhcp.
(** [src/kernel/interrupt.c:28-31] g_idt and g_timer_ticks, zeroed, with the drivers'
    variables *)
Definition static_drivers {C} (c : C) : drivers C :=
  Drivers c (Keyboard false false false) static_mouse (replicate 256 (Gate 0 0 0 0 0 0 0)) (Idtr 0 0) 0.

Section Boot.
Context {C : Type} `{Terminal C} `{!Display C} `{!Startup C} {M : Type} `{Ports M} `{!Nic M}.
Context (hlt : nsys (drivers C) M -> outcome (power (nsys (drivers C) M))) (fuel : nat).
Notation machine := (monitor (drivers C) M).

(** A machine as the boot loader leaves it: the display [c], the ports [h], the user
    memory [mem]. *)
Definition static_machine (c : C) (h : M) (mem : list Z) : machine :=
  Monitor
    (Kernel static_tmpfs (replicate 128 zero_file) heap_init mem
      (World (Sched 0 0 0 0) SAFEBOOT_ACTION_REBOOT static_tasks static_pmm false (static_drivers c) h))
    static_net (Swap 0 0 false).

(** ** Parts of the state *)

Definition on_world (f : world (drivers C) M -> outcome (world (drivers C) M)) (m : machine) : outcome machine :=
  w ← f (m_world m); Val (put_m_world w m).
Definition m_fsys (m : machine) : fsys (drivers C) := k_fsys (m_kernel m).
Definition put_m_fsys (s : fsys (drivers C)) (m : machine) : machine := Monitor (put_fsys s (m_kernel m)) (m_net m) (m_swap m).
Definition set_tasks (t : task_table) (m : machine) : machine := put_m_world (with_task_table t (m_world m)) m.
Definition set_drivers (d : drivers C) (h : M) (m : machine) : machine :=
  put_m_world (with_ports h (with_console d (m_world m))) m.

(** ** Reports *)

(** [src/kernel/pmm.c:74-74] pmm_init, its report *)
Definition pmm_report (m : machine) : outcome machine :=
  let p := w_pmm (m_world m) in
  tell (console_printf (str "pmm: total=%u pages free=%u" ++ [10]) [VaWord (u32 (g_total_pages p)); VaWord (u32 (g_free_pages p))]) m.
(** [src/kernel/swap.c:22-22] swap_init, its report *)
Definition swap_report (m : machine) : outcome machine :=
  tell (console_printf (str "swap: initialized capacity=%u pages state=off" ++ [10]) [VaWord (u32 (g_swap_total_pages (m_swap m)))]) m.
(** [src/kernel/vmm.c:4-6] vmm_init *)
Definition vmm_init (m : machine) : outcome machine :=
  tell (console_writeln (str "vmm: bootstrap identity mapping active") []) m.

(** ** The stages of kernel_main *)

(** [src/kernel/main.c:79-82] kernel_main, memory *)
Definition boot_memory (img : image) (info : list Z) (m : machine) : outcome machine :=
  m ← tell (console_printf (str "kernel image: %p - %p" ++ [10])
        [VaWord (kernel_image_start img); VaWord (kernel_image_end img)]) m;
  p ← pmm_init fuel info (kernel_image_start img) (kernel_image_end img);
  m ← pmm_report (put_m_world (with_pmm p (m_world m)) m);
  m ← swap_report (put_swap (swap_init (pmm_total_pages (w_pmm (m_world m)))) m);
  vmm_init m.

(** [src/kernel/main.c:83-85] kernel_main, tasks and interrupts *)
Definition boot_scheduler (img : image) (m : machine) : outcome machine :=
  t ← task_init (w_tasks (m_world m));
  m ← on_world scheduler_init (set_tasks t m);
  on_sys (interrupt_init (isr_stub_table img) (idt_address img)) m.

(** [src/kernel/main.c:86-87] kernel_main, the keyboard and the mouse *)
Definition boot_input (m : machine) : outcome machine :=
  let d := w_console (m_world m) in
  '(kb, c, h) ← keyboard_init fuel (dr_console d) (w_ports (m_world m));
  '(ms, c, h) ← mouse_init (dr_mouse d) c h;
  Val (set_drivers (Drivers c kb ms (g_idt d) (dr_idtr d) (g_timer_ticks d)) h m).

(** [src/kernel/main.c:88-92] kernel_main, system calls, files and network; signal_init
    and elf_init do nothing.  The first result is what is written to model-specific
    registers. *)
Definition boot_services (img : image) (m : machine) : outcome (list (Z * Z * Z) * machine) :=
  '(msrs, w) ← syscall_init (syscall_entry img) (m_world m);
  let m := put_m_world w m in
  s ← fs_init (m_fsys m);
  m ← on_sys net_init (put_m_fsys s m);
  Val (msrs, m).

(** [src/kernel/main.c:94-104] kernel_main, the initramfs.  The status is passed as an
    int, which leaves the upper half of the word that %d reads zero. *)
Definition boot_initramfs (info : list Z) (memory : Z -> list Z) (m : machine) : outcome machine :=
  module ← find_initramfs_module fuel info;
  match module with
  | Some tag =>
      first ← mod_start info tag;
      last ← mod_end info tag;
      '(mount_status, s) ← fs_mount_initramfs (memory first) (u32 (last - first)) (m_fsys m);
      tell (console_printf (str "initramfs: module %p-%p mount=%d" ++ [10])
        [VaWord first; VaWord last; VaWord (u32 mount_status)]) (put_m_fsys s m)
  | None => tell (console_writeln (str "initramfs: no module present") []) m
  end.

(** [src/kernel/main.c:106-107] kernel_main, the first tasks *)
Definition boot_first_tasks (m : machine) : outcome machine :=
  '(_, t) ← task_create_kernel (str "kidle") (w_tasks (m_world m));
  '(_, t) ← task_spawn_user (str "init") t;
  Val (set_tasks t m).

(** [src/kernel/main.c:79-110] kernel_main, up to the interrupts *)
Definition boot_setup (img : image) (info : list Z) (memory : Z -> list Z) (m : machine) : outcome (list (Z * Z * Z) * machine) :=
  m ← boot_memory img info m;
  m ← boot_scheduler img m;
  m ← boot_input m;
  '(msrs, m) ← boot_services img m;
  m ← boot_initramfs info memory m;
  m ← boot_first_tasks m;
  m ← tell (console_writeln (str "interrupts: enabling timer + serial monitor") []) m;
  Val (msrs, put_m_world (interrupt_enable (m_world m)) m).

Definition stop_with {A} (a : A) (p : power (world (drivers C) M)) (m : machine) : power (A * machine) :=
  match p with
  | Running w => Running (a, put_m_world w m)
  | Halted w => Halted (a, put_m_world w m)
  | Rebooted w => Rebooted (a, put_m_world w m)
  end.

(** [src/kernel/main.c:68-112] kernel_main, until the monitor starts *)
Definition kernel_start (img : image) (multiboot_magic : Z) (info : list Z) (memory : Z -> list Z) (m : machine)
  : outcome (power (list (Z * Z * Z) * machine)) :=
  m ← tell start_display m;
  m ← tell (console_writeln (str "MGCORE x86_64 bootstrap") []) m;
  if decide (multiboot_magic <> MULTIBOOT2_BOOTLOADER_MAGIC) then
    p ← kernel_panic (str "invalid Multiboot2 magic") (m_world m);
    Val (stop_with [] p m)
  else
    '(msrs, m) ← boot_setup img info memory m;
    p ← net_startup_connect hlt fuel (m_sys m);
    match p with
    | Running (_, s) => m ← tell cli_init (put_sys s m); Val (Running (msrs, m))
    | Halted (_, s) => Val (Halted (msrs, put_sys s m))
    | Rebooted (_, s) => Val (Rebooted (msrs, put_sys s m))
    end.

(** [src/kernel/main.c:68-113] kernel_main, through the first [n] turns of the monitor *)
Definition kernel_main (n : nat) (img : image) (multiboot_magic : Z) (info : list Z) (memory : Z -> list Z) (m : machine)
  : outcome (power (cli * machine)) :=
  p ← kernel_start img multiboot_magic info memory m;
  match p with
  | Running (_, m) => cli_run hlt fuel n static_cli m
  | Halted (_, m) => Val (Halted (static_cli, m))
  | Rebooted (_, m) => Val (Rebooted (static_cli, m))
  end.

End Boot.
