(* ===== verification/BootSpec.v ===== *)
(** What [Boot.v] shows of a start: the stages of kernel_main one by one, and the
    whole, up to the monitor's prompt.  The parts keep the invariants of their files;
    the boot information is read back as it was laid out. *)

From Stdlib Require Import ZArith Lia Ascii.
From stdpp Require Import base gmap list strings.
From S2P Require Import TmpfsView.
From S2P Require Import Prelude KString Util Multiboot Pmm Vmm Swap Terminal Ports Console Screen Display Ps2 Keyboard Mouse.
From S2P Require Import Task Sched Tmpfs TmpfsPath TmpfsTree TmpfsData Fs FsPath FsFile Cpio BootFs Syscall SyscallSpec.
From S2P Require Import Inet NetConst Net NetSpec NetBoot Interrupt Builtin Cli CliSpec Boot.
Open Scope Z_scope.
Import Fmt.

(** * Starting the display *)

Class StartupLaws (C : Type) `{TerminalLaws C, Startup C} := {
  unstarted : C -> Prop;
  start_law c : unstarted c ->
    exists c' o, start_display c = Val c' /\ term_ok c' /\ term_sent c' = term_sent c ++ o;
}.

Section VgaStartup.
Context {H : Type} `{Uart H}.

(** The console needs its arrays, and a UART that leaves configuration mode. *)
#[export] Program Instance vga_startup_laws : StartupLaws (console H) := {
  unstarted c := console_wf c /\ uart_ok (serial_init (ports c)) /\ uart_sent (serial_init (ports c)) = uart_sent (ports c);
}.
Next Obligation.
  intros c (Hc & Hok & Hs). destruct (clear_in_step (Console.with_ports (serial_init (ports c)) c)) as (c' & bs & Hr & Hin & Hs');
    [by apply with_ports_wf|exact Hok|]. exists c', bs. split; [exact Hr|]. split; [split; apply Hin|].
  cbn. rewrite Hs'. cbn. by rewrite Hs.
Qed.

End VgaStartup.

#[export] Program Instance drivers_startup_laws {C} `{DisplayLaws C, !Startup C, !StartupLaws C} : StartupLaws (drivers C) := {
  unstarted d := unstarted (dr_console d) /\ mouse_wf (dr_mouse d) /\ length (g_idt d) = 256%nat;
}.
Next Obligation.
  intros C ? ? ? ? ? ? d [Hd Hm]. destruct (start_law _ Hd) as (c & o & Hr & Hok & Hs). exists (with_display c d), o.
  cbn [start_display drivers_startup]. unfold on_console. rewrite Hr. done.
Qed.

(** * The boot information *)

(** The module the boot loader names: none, or its first and last address. *)
Definition plain_tag (t : boot_tag) : Prop := match t with BootOther type _ => type <> MULTIBOOT2_TAG_MODULE | _ => True end.
Definition module_tag (first last : Z) (name : list Z) : boot_tag :=
  BootOther MULTIBOOT2_TAG_MODULE (le_bytes 4 first ++ le_bytes 4 last ++ name).

Inductive names_module (tags : list boot_tag) : option (Z * Z) -> Prop :=
| no_module : Forall plain_tag tags -> names_module tags None
| a_module before first last name after :
    tags = before ++ module_tag first last name :: after -> Forall plain_tag before -> in_u32 first -> in_u32 last ->
    names_module tags (Some (first, last)).

Lemma plain_type t : plain_tag t -> boot_tag_ok t -> exists type body,
  boot_tag_bytes t = encode_tag type body /\ in_u32 type /\ type <> MULTIBOOT2_TAG_END /\ type <> MULTIBOOT2_TAG_MODULE
  /\ 15 + Z.of_nat (length body) < 2 ^ 32.
Proof.
  intros Hp Hok. destruct t as [es|type body].
  - destruct (boot_tag_size (BootMmap es) Hok) as (ty & b & He & H1 & H2 & H3). cbn [boot_tag_bytes] in He.
    exists MULTIBOOT2_TAG_MMAP. eexists. split; [reflexivity|]. split; [done|]. split; [done|]. split; [done|].
    destruct Hok as [_ Hl]. rewrite !length_app, !le_bytes_length. pose proof (encode_entries_length es). lia.
  - destruct Hok as (? & ? & ? & ?). by exists type, body.
Qed.

(** Plain tags are stepped over. *)
Lemma find_module_skip before : forall fuel pre post, Forall plain_tag before -> Forall boot_tag_ok before ->
  (length before <= fuel)%nat ->
  find_module_from fuel (pre ++ mjoin (boot_tag_bytes <$> before) ++ post) (Z.of_nat (length pre))
  = find_module_from (fuel - length before) (pre ++ mjoin (boot_tag_bytes <$> before) ++ post)
      (Z.of_nat (length (pre ++ mjoin (boot_tag_bytes <$> before)))).
Proof.
  induction before as [|t before IH]; intros fuel pre post Hp Hok Hf.
  { change (mjoin (boot_tag_bytes <$> [])) with (@nil Z). rewrite app_nil_r. cbn [length]. by rewrite Nat.sub_0_r. }
  destruct fuel as [|fuel]; [cbn in Hf; lia|]. cbn [length] in Hf |- *. inversion_clear Hp. inversion_clear Hok.
  rewrite fmap_cons, mjoin_cons. destruct (plain_type t) as (type & body & Eq & ? & ? & ? & ?); [done..|].
  rewrite <- (app_assoc (boot_tag_bytes t)), Eq. cbn [find_module_from].
  rewrite tag_type_encode by done. cbn [mbind outcome_bind]. rewrite !decide_False by done.
  rewrite next_tag_encode by done. cbn [mbind outcome_bind]. rewrite <- Eq.
  rewrite (app_assoc pre), IH by (done || lia). rewrite Nat.sub_succ. by rewrite <- !app_assoc.
Qed.

Lemma module_fields pre post first last name : in_u32 first -> in_u32 last -> 15 + (8 + Z.of_nat (length name)) < 2 ^ 32 ->
  let info := pre ++ boot_tag_bytes (module_tag first last name) ++ post in
  let tag := Z.of_nat (length pre) in
  tag_type info tag = Val MULTIBOOT2_TAG_MODULE /\ mod_start info tag = Val first /\ mod_end info tag = Val last.
Proof.
  intros Hfi Hla Hl info tag. unfold info, tag, module_tag. cbn [boot_tag_bytes]. set (body := _ ++ _ ++ name).
  split; [by apply tag_type_encode|].
  destruct (tag_layout pre post MULTIBOOT2_TAG_MODULE body) as [p ->]. set (size := 8 + _). subst body. split.
  - apply (le_load_at _ (pre ++ le_bytes 4 MULTIBOOT2_TAG_MODULE ++ le_bytes 4 size) (le_bytes 4 last ++ name ++ p ++ post));
      [by rewrite <- !app_assoc|rewrite !length_app, !le_bytes_length; lia|lia|exact Hfi].
  - apply (le_load_at _ (pre ++ le_bytes 4 MULTIBOOT2_TAG_MODULE ++ le_bytes 4 size ++ le_bytes 4 first) (name ++ p ++ post));
      [by rewrite <- !app_assoc|rewrite !length_app, !le_bytes_length; lia|lia|exact Hla].
Qed.

(** The module that is named is found. *)
Lemma find_module_spec fuel tags r : Forall boot_tag_ok tags -> (length tags < fuel)%nat -> names_module tags r ->
  let info := encode_info (boot_tag_bytes <$> tags) in
  exists found, find_initramfs_module fuel info = Val found
    /\ match r with
       | None => found = None
       | Some (first, last) => exists tag, found = Some tag /\ mod_start info tag = Val first /\ mod_end info tag = Val last
       end.
Proof.
  intros Hok Hf Hr info. unfold info, encode_info, find_initramfs_module. set (size := 8 + _). rewrite app_assoc.
  set (head := le_bytes 4 size ++ le_bytes 4 0).
  change multiboot2_first_tag with (Z.of_nat (length head)).
  destruct Hr as [Hp|before first last name after -> Hp Hfi Hla].
  - rewrite find_module_skip by (done || lia). destruct (fuel - length tags)%nat as [|f] eqn:E; [lia|]. cbn [find_module_from].
    rewrite (app_assoc head), <- (app_nil_r (encode_tag _ _)), tag_type_encode by done. cbn [mbind outcome_bind].
    rewrite decide_True by done. by exists None.
  - apply Forall_app in Hok as [Hok1 Hok2]. inversion_clear Hok2 as [|? ? Hm _]. rewrite length_app in Hf. cbn [length] in Hf.
    destruct Hm as (_ & _ & _ & Hl). rewrite !length_app, !le_bytes_length in Hl.
    rewrite fmap_app, fmap_cons, join_app, mjoin_cons, <- !app_assoc.
    rewrite find_module_skip by (done || lia). destruct (fuel - length before)%nat as [|f] eqn:E; [lia|].
    rewrite (app_assoc head). set (pre := head ++ _). set (post := mjoin _ ++ _).
    destruct (module_fields pre post first last name Hfi Hla) as (Ht & Hs & He); [lia|]. cbn [find_module_from]. rewrite Ht.
    cbn [mbind outcome_bind]. rewrite decide_False, decide_True by done. eexists. split; [done|]. by exists (Z.of_nat (length pre)).
Qed.

(** * The stages *)

(** What the boot loader and the linker promise: tags as the specification lays them
    out, memory map entries that do not overlap, an image below the end of the
    address space, a stub for each of the 45 vectors, and, where a module is named, a
    module below 2 GiB with a NUL somewhere behind it. *)
Record loaded (fuel : nat) (img : image) (tags : list boot_tag) (module : option (Z * Z)) (memory : Z -> list Z) : Prop := {
  ld_tags : Forall boot_tag_ok tags;
  ld_entries : Forall Pmm.entry_ok (mjoin (boot_entries <$> tags));
  ld_apart : entries_disjoint (mjoin (boot_entries <$> tags));
  ld_fuel : (length tags < fuel)%nat;
  ld_fuel_entries : Forall (fun t => length (boot_entries t) <= fuel - length tags)%nat tags;
  ld_image : 0 <= kernel_image_start img <= kernel_image_end img /\ kernel_image_end img + 4095 < 2 ^ 64;
  ld_stubs : length (isr_stub_table img) = 45%nat /\ Forall in_u64 (isr_stub_table img);
  ld_module : names_module tags module;
  ld_archive first last : module = Some (first, last) -> u32 (last - first) <= 2 ^ 31 - 1
    /\ u32 (last - first) <= Z.of_nat (length (memory first)) /\ 0 ∈ drop (Z.to_nat (u32 (last - first))) (memory first);
}.

Definition boot_info (tags : list boot_tag) : list Z := encode_info (boot_tag_bytes <$> tags).

(** The pages of the memory map above the first megabyte, without the image's. *)
Definition usable_pages (img : image) (tags : list boot_tag) : gset Z :=
  pages_of (mjoin (boot_entries <$> tags)) ∖ page_range 0 256
    ∖ page_range (kernel_image_start img / 4096) ((kernel_image_end img + 4095) / 4096).

(** The next report of the monitor, a plain line or a format with words. *)
Ltac told :=
  match goal with
  | |- context [tell (console_writeln ?l []) ?x] =>
      destruct (tell_spec (console_writeln l []) x) as (? & -> & ?); [apply line_prints; vm_compute; reflexivity|assumption|]
  | |- context [tell (console_printf ?l ?a) ?x] =>
      destruct (tell_spec (console_printf l a) x) as (? & -> & ?);
      [apply printf_prints; [reflexivity|reflexivity|repeat constructor]|assumption|]
  end; cbn [mbind outcome_bind].

Section Stages.
Context {C : Type} `{DisplayLaws C, !Startup C, !StartupLaws C} {M : Type} `{PortsLaws M} `{!Nic M, !NicLaws M} `{!Ps2 M}.
Context (fuel : nat).
Notation machine := (monitor (drivers C) M).
Implicit Types m : machine.

Lemma boot_memory_spec img tags module memory m : loaded fuel img tags module memory -> term_ok (m_console m) ->
  exists p c, boot_memory fuel img (boot_info tags) m
      = Val (set_console c (put_swap (swap_init (g_total_pages p)) (put_m_world (with_pmm p (m_world m)) m)))
    /\ term_ok c /\ pmm_wf p /\ g_total_pages p = Z.of_nat (size (pages_of (mjoin (boot_entries <$> tags))))
    /\ PMM_free p = usable_pages img tags.
Proof.
  intros Hld Hm. unfold boot_memory, pmm_report, swap_report, vmm_init. told. destruct Hld.
  destruct (pmm_init_spec fuel tags (kernel_image_start img) (kernel_image_end img)) as (p & Hp & Hwf & Ht & Hfree);
    [done|done|done|done|done|lia|lia|]. unfold boot_info. rewrite Hp. cbn [mbind outcome_bind]. do 3 told.
  by eexists p, _.
Qed.

(** The keyboard controller never holds more than [fuel] bytes. *)
Definition shallow_buffer : Prop := forall h : M, (length (ps2_pending h) <= fuel)%nat.

Lemma drain_ends k : forall h : M, (length (ps2_pending h) <= k)%nat -> exists h', drain k h = Val h'.
Proof.
  induction k as [|k IH]; intros h Hk; cbn [drain]; destruct (output_full_spec h) as (h1 & -> & Hp1);
    destruct (ps2_pending h) as [|b rest] eqn:Hp; cbn [length] in Hk; try lia; cbn [bool_decide negb]; try (by exists h1).
  destruct (data_spec h1 b rest Hp1) as (h2 & -> & Hp2). cbn [snd]. apply IH. rewrite Hp2. lia.
Qed.

Lemma mouse_init_spec ms (c : C) (h : M) : mouse_wf ms -> term_ok c ->
  exists ms' c' h', mouse_init ms c h = Val (ms', c', h') /\ mouse_wf ms' /\ term_ok c'.
Proof.
  intros [Hp _ _] Hc. unfold mouse_init. destruct (ps2_read_data _) as [status h1].
  set (h2 := mouse_command 0xF2 _). destruct (ps2_read_data h2) as [id h3]. set (size := if decide (id = 3) then 4 else 3).
  destruct (printf_prints (C := C) (str "mouse: PS/2 ready packet=%u-byte wheel=%s" ++ [10])
    [VaWord size; VaStr (Some (if decide (size = 4) then str "yes" else str "no"))]) with (t := c) as (c' & o & -> & Hok & _);
    [reflexivity|reflexivity| |done|].
  - constructor; [done|]. constructor; [|constructor]. cbn. case_decide; vm_compute; repeat constructor; discriminate.
  - cbn [mbind outcome_bind]. eexists _, _, _. split; [done|]. split; [|done]. unfold size.
    split; cbn; [done|case_decide; auto|case_decide; lia].
Qed.

Lemma boot_input_spec m : shallow_buffer -> term_ok (m_console m) ->
  exists d h, boot_input fuel m = Val (set_drivers d h m) /\ term_ok d.
Proof.
  intros Hsh (Hc & Hms & Hidt). unfold boot_input, keyboard_init. change (w_console (m_world m)) with (m_console m).
  destruct (drain_ends fuel (w_ports (m_world m)) (Hsh _)) as (h1 & ->). cbn [mbind outcome_bind].
  destruct (line_prints (C := C) (str "keyboard: PS/2 input ready") eq_refl (dr_console (m_console m)) Hc) as (c1 & o & -> & Hc1 & _).
  cbn [mbind outcome_bind]. destruct (mouse_init_spec (dr_mouse (m_console m)) c1 h1 Hms Hc1) as (ms & c2 & h2 & -> & Hms2 & Hc2).
  cbn [mbind outcome_bind]. eexists _, _. split; [done|]. by split_and!.
Qed.

Lemma scheduler_init_spec (w : world (drivers C) M) : term_ok (w_console w) ->
  let free := pmm_free_pages (w_pmm w) in
  exists d, scheduler_init w = Val (with_console d (with_sched (Sched 0 free free 0) w)) /\ term_ok d.
Proof.
  intros Hw free. unfold scheduler_init.
  match goal with |- context [print ?f ?w] => destruct (print_spec f w) as (d & -> & Hd) end;
    [apply printf_prints; [reflexivity|reflexivity|repeat constructor]|exact Hw|]. by exists d.
Qed.

Lemma interrupt_init_spec stubs a (s : nsys (drivers C) M) : length stubs = 45%nat -> term_ok (desk s) ->
  exists d h, interrupt_init stubs a s = Val (put_hw h (put_desk d s)) /\ term_ok d.
Proof.
  intros Hs (Hc & Hm & Hi). unfold interrupt_init. rewrite set_gates by lia. cbn [mbind outcome_bind]. eexists _, _. split; [done|].
  split; [exact Hc|]. split; [exact Hm|]. cbn [g_idt]. rewrite length_app, length_fmap, length_take, length_drop. lia.
Qed.

(** The clock at zero, the memory guard at the free pages, the first task; the rest of
    the world as it was. *)
Definition scheduled (d : drivers C) (h : M) (w : world (drivers C) M) : world (drivers C) M :=
  World (Sched 0 (pmm_free_pages (w_pmm w)) (pmm_free_pages (w_pmm w)) 0) (w_action w) first_table (w_pmm w) (w_interrupts w) d h.

Lemma boot_scheduler_spec img m : length (isr_stub_table img) = 45%nat -> term_ok (m_console m) ->
  w_tasks (m_world m) = static_tasks ->
  exists d h, boot_scheduler img m = Val (put_m_world (scheduled d h (m_world m)) m) /\ term_ok d.
Proof.
  intros Hst Hm Ht. unfold boot_scheduler. rewrite Ht, first_table_init. cbn [mbind outcome_bind]. unfold on_world.
  destruct (scheduler_init_spec (m_world (set_tasks first_table m)) Hm) as (d1 & -> & Hd1). cbn [mbind outcome_bind].
  match goal with |- context [on_sys _ ?x] => set (m1 := x) end. unfold on_sys.
  destruct (interrupt_init_spec (isr_stub_table img) (idt_address img) (m_sys m1) Hst Hd1) as (d2 & h2 & -> & Hd2).
  exists d2, h2. by destruct m as [[? ? ? ? []] ? ?].
Qed.

(** What the services leave: well-formed files and network state; the rest as it was. *)
Record served (m m' : machine) : Prop := {
  se_world : exists h, m_world m' = with_console (m_console m') (with_ports h (m_world m));
  se_console : term_ok (m_console m');
  se_tmpfs : shows (k_tmpfs (m_kernel m')) system_volume;
  se_files : k_files (m_kernel m') = k_files (m_kernel m);
  se_rest : k_heap (m_kernel m') = k_heap (m_kernel m) /\ k_mem (m_kernel m') = k_mem (m_kernel m) /\ m_swap m' = m_swap m;
  se_net : net_wf (m_net m');
}.

Lemma syscall_init_spec entry (w : world (drivers C) M) : term_ok (w_console w) ->
  exists d, syscall_init entry w = Val (syscall_arch_init entry, with_console d w) /\ term_ok d.
Proof.
  intros Hw. unfold syscall_init.
  match goal with |- context [print ?f w] => destruct (print_spec f w) as (d & -> & Hd) end;
    [apply printf_prints; [reflexivity|reflexivity|repeat constructor]|exact Hw|]. by exists d.
Qed.

Lemma boot_services_spec img m : term_ok (m_console m) ->
  g_data_arena (k_tmpfs (m_kernel m)) = ∅ -> probing (net_reset (m_net m)) ->
  exists m', boot_services img m = Val (syscall_arch_init (syscall_entry img), m') /\ served m m'.
Proof.
  pose proof (fs_init_spec (C := drivers C)) as Hfs. pose proof (net_init_spec (C := drivers C) (M := M)) as Hnets. unfold boot_services.
  pose proof (syscall_init_spec (syscall_entry img)) as Hsys. revert Hfs Hnets Hsys.
  generalize (fs_init (C := drivers C)) (net_init (C := drivers C) (M := M)) (syscall_init (C := drivers C) (M := M) (syscall_entry img)).
  intros files net calls Hfs Hnets Hsys Hm Ha Hnet.
  destruct (Hsys (m_world m) Hm) as (d4 & -> & Hd4). cbn [mbind outcome_bind].
  destruct (Hfs (m_fsys (put_m_world (with_console d4 (m_world m)) m)) Ha Hd4) as (t & d5 & -> & Htm & Hd5). cbn [mbind outcome_bind].
  unfold on_sys. match goal with |- context [net ?x] => destruct (Hnets x Hnet Hd5) as (s6 & d6 & -> & [Hn6 _] & Hw6 & Hd6) end.
  cbn [mbind outcome_bind]. eexists. split; [done|]. revert Hw6. generalize (hw s6). intros h6 Hw6.
  destruct s6 as [n6 w6]. cbn [n_world] in Hw6. subst w6. split; try done. by exists h6.
Qed.

(** The initramfs: only the tree and the display change.  A start can fail in one way:
    an entry of the module's archive has a name that overruns its buffer. *)
Definition overruns (module : option (Z * Z)) (memory : Z -> list Z) : Prop :=
  match module with
  | None => False
  | Some (first, last) => overrunning_name (memory first) (u32 (last - first)) (str "/")
  end.

Lemma boot_initramfs_spec img tags module memory m : loaded fuel img tags module memory ->
  m_fsys m = Fsys (k_tmpfs (m_kernel m)) (replicate 128 zero_file) first_table (m_console m) ->
  shows (k_tmpfs (m_kernel m)) system_volume -> term_ok (m_console m) ->
  (exists t c, boot_initramfs fuel (boot_info tags) memory m
      = Val (set_console c (put_m_fsys (with_tmpfs t (m_fsys m)) m))
    /\ first_tree (C := drivers C) module memory t /\ fs_wf t /\ term_ok c)
  \/ (boot_initramfs fuel (boot_info tags) memory m = Stop Oob /\ overruns module memory).
Proof.
  intros Hld Hs Ht Hcon. unfold boot_initramfs.
  destruct (find_module_spec fuel tags module (ld_tags _ _ _ _ _ Hld) (ld_fuel _ _ _ _ _ Hld) (ld_module _ _ _ _ _ Hld)) as (found & Hf & Hcase).
  unfold boot_info. rewrite Hf. cbn [mbind outcome_bind].
  destruct module as [[first last]|].
  - destruct Hcase as (tag & -> & -> & ->). cbn [mbind outcome_bind].
    destruct (ld_archive _ _ _ _ _ Hld first last eq_refl) as (Hbig & Hlen & Hnul). pose proof (u32_range (last - first)) as Hpos.
    cbn [overruns first_tree]. set (size := u32 (last - first)) in *.
    destruct (mount_first_tree (k_tmpfs (m_kernel m)) (m_console m) (memory first) size Ht Hcon) as [(r & t & Hr & Hwf & Hup)|[Hst Hov]];
      [unfold in_u32 in Hpos; lia|done|done| |right; by rewrite Hs, Hst].
    left. exists t. rewrite <- Hs in Hr. rewrite Hr. cbn [mbind outcome_bind].
    match goal with |- context [tell (console_printf ?l ?a) ?x] => destruct (tell_spec (console_printf l a) x) as (c & -> & Hc) end;
      [apply printf_prints; [reflexivity|reflexivity|repeat constructor]|exact Hcon|].
    by exists c.
  - subst found. left. exists (k_tmpfs (m_kernel m)).
    destruct (tell_spec (console_writeln (str "initramfs: no module present") []) m) as (c & -> & Hc); [by apply line_prints|exact Hcon|].
    exists c. split; [by destruct m as [[? ? ? ? []] ? ?]|]. split; [exact Ht|]. split; [exact (sh_wf _ _ Ht)|done].
Qed.

(** The first tasks, after the one that is running. *)
Lemma boot_first_tasks_spec m : w_tasks (m_world m) = first_table -> boot_first_tasks m = Val (set_tasks booted m).
Proof.
  intros Ht. unfold boot_first_tasks. rewrite Ht.
  assert (exists t1 r1 r2, task_create_kernel (str "kidle") first_table = Val (r1, t1) /\ task_spawn_user (str "init") t1 = Val (r2, booted))
    as (t1 & r1 & r2 & -> & Hsp) by (eexists _, _, _; split; vm_compute; reflexivity).
  cbn [mbind outcome_bind]. rewrite Hsp. done.
Qed.

(** The tasks of a table that are in use: pid, parent, name and state. *)
Definition listed (tt : task_table) : list (Z * Z * list Z * task_state) :=
  (fun t => (t_pid t, t_ppid t, cstr (t_name t), t_state t)) <$> filter (fun t => t_state t <> TASK_UNUSED) (g_tasks tt).

Definition first_tasks : list (Z * Z * list Z * task_state) :=
  [(1, 0, str "bootstrap", TASK_RUNNING); (2, 0, str "kidle", TASK_RUNNABLE); (3, 1, str "init", TASK_RUNNABLE)].

Lemma booted_listed : listed booted = first_tasks.
Proof. vm_compute. reflexivity. Qed.

(** The share of [n] pages that swap gets: a quarter, but at least 64 of 64 or more, and
    one of the first few. *)
Definition swap_share (n : Z) : Z :=
  if decide (64 <= n < 256) then 64 else if decide (0 < n < 4) then 1 else n / 4.

Lemma swap_init_share n : 0 <= n -> swap_init n = Swap (swap_share n) 0 false.
Proof.
  intros Hn. unfold swap_init, swap_share, SWAP_DEFAULT_DIVISOR, SWAP_MIN_DEFAULT_PAGES.
  f_equal. repeat case_decide; Z.div_mod_to_equations; lia.
Qed.

(** The machine when the interrupts are enabled: the clock at zero and the memory
    guard at the free pages; three tasks; exactly the usable pages free; the first tree
    with the initramfs unpacked, no file open; nothing allocated on the heap; swap sized
    by the memory and off. *)
Record started (img : image) (tags : list boot_tag) (module : option (Z * Z)) (memory : Z -> list Z) (mem : list Z)
    (m : machine) : Prop := {
  st_sched : exists p, w_sched (m_world m) = Sched 0 (g_free_pages p) (g_free_pages p) 0 /\ w_pmm (m_world m) = p /\ pmm_wf p
    /\ PMM_free p = usable_pages img tags /\ g_total_pages p = Z.of_nat (size (pages_of (mjoin (boot_entries <$> tags))))
    /\ m_swap m = Swap (swap_share (g_total_pages p)) 0 false;
  st_action : w_action (m_world m) = SAFEBOOT_ACTION_REBOOT;
  st_tasks : w_tasks (m_world m) = booted /\ listed (w_tasks (m_world m)) = first_tasks;
  st_interrupts : w_interrupts (m_world m) = true;
  st_kernel : kernel_wf (m_kernel m);
  st_tree : first_tree (C := drivers C) module memory (k_tmpfs (m_kernel m));
  st_files : k_files (m_kernel m) = replicate 128 zero_file /\ k_heap (m_kernel m) = heap_init /\ k_mem (m_kernel m) = mem;
  st_net : net_wf (m_net m);
}.

Lemma static_net_probing : probing (net_reset static_net).
Proof. split; [|split; [reflexivity|cbn; lia]]. split; try reflexivity; try (repeat constructor); cbn; lia. Qed.

(** The machine before the stages, once the display works. *)
Definition lit (d : drivers C) (h : M) (mem : list Z) : machine :=
  Monitor (Kernel static_tmpfs (replicate 128 zero_file) heap_init mem
      (World (Sched 0 0 0 0) SAFEBOOT_ACTION_REBOOT static_tasks static_pmm false d h)) static_net (Swap 0 0 false).

Lemma boot_setup_spec img tags module memory d h mem : loaded fuel img tags module memory -> shallow_buffer -> term_ok d ->
  (exists msrs m, boot_setup fuel img (boot_info tags) memory (lit d h mem) = Val (msrs, m)
    /\ started img tags module memory mem m)
  \/ (boot_setup fuel img (boot_info tags) memory (lit d h mem) = Stop Oob
      /\ overruns module memory).
Proof.
  intros Hld Hsh Hd. unfold boot_setup.
  pose proof (boot_memory_spec img tags module memory) as Smem. pose proof (boot_scheduler_spec img) as Ssched.
  pose proof boot_input_spec as Sin. pose proof (boot_services_spec img) as Sserv.
  pose proof (boot_initramfs_spec img tags module memory) as Sram. pose proof boot_first_tasks_spec as Stasks.
  revert Smem Ssched Sin Sserv Sram Stasks.
  generalize (boot_memory (C := C) (M := M) fuel img (boot_info tags)) (boot_scheduler (C := C) (M := M) img)
    (boot_input (C := C) (M := M) fuel) (boot_services (C := C) (M := M) img)
    (boot_initramfs (C := C) (M := M) fuel (boot_info tags) memory) (boot_first_tasks (C := C) (M := M)).
  intros mem_f sched_f in_f serv_f ram_f tasks_f Smem Ssched Sin Sserv Sram Stasks.
  destruct (Smem (lit d h mem) Hld Hd) as (p & d1 & -> & Hd1 & Hp & Htot & Hfree). cbn [mbind outcome_bind].
  destruct (Ssched (set_console d1 (put_swap (swap_init (g_total_pages p)) (put_m_world (with_pmm p (m_world (lit d h mem))) (lit d h mem)))))
    as (d2 & h2 & -> & Hd2); [apply (ld_stubs _ _ _ _ _ Hld)|exact Hd1|reflexivity|]. cbn [mbind outcome_bind].
  match goal with |- context [in_f ?x] => destruct (Sin x Hsh Hd2) as (d3 & h3 & -> & Hd3) end. cbn [mbind outcome_bind].
  match goal with |- context [serv_f ?x] => destruct (Sserv x Hd3 eq_refl static_net_probing) as (m4 & -> & Hm4) end. cbn [mbind outcome_bind].
  destruct Hm4 as [(h4 & Hw4) Hd4 Htm4 Hf4 (Hh4 & Hme4 & Hs4) Hn4].
  assert (w_tasks (m_world m4) = first_table) as Ht4 by (rewrite Hw4; reflexivity).
  assert (m_fsys m4 = Fsys (k_tmpfs (m_kernel m4)) (replicate 128 zero_file) first_table (m_console m4)) as Hfs.
  { unfold m_fsys, k_fsys. rewrite Hf4. change (w_tasks (k_world (m_kernel m4))) with (w_tasks (m_world m4)). by rewrite Ht4. }
  destruct (Sram m4 Hld Hfs Htm4 Hd4) as [(t & c & -> & Htree & Hwt & Hc)|[-> Hov]]; [left|by right].
  cbn [mbind outcome_bind]. rewrite Stasks by exact Ht4. cbn [mbind outcome_bind].
  match goal with |- context [tell ?f ?x] => destruct (tell_spec f x) as (c6 & -> & Hc6) end;
    [by apply line_prints|exact Hc|]. cbn [mbind outcome_bind].
  eexists _, _. split; [done|].
  split; [|change (w_action (m_world m4) = SAFEBOOT_ACTION_REBOOT); by rewrite Hw4|exact (conj eq_refl booted_listed)|done| |exact Htree|done|done].
  - exists p. split; [change (w_sched (m_world m4) = Sched 0 (g_free_pages p) (g_free_pages p) 0); by rewrite Hw4|].
    split; [change (w_pmm (m_world m4) = p); by rewrite Hw4|]. split_and!; try done.
    refine (eq_trans Hs4 _). change (swap_init (g_total_pages p) = Swap (swap_share (g_total_pages p)) 0 false). apply swap_init_share. lia.
  - split; [|change (heap_wf (k_heap (m_kernel m4))); rewrite Hh4; exact heap_init_wf].
    change (fsys_wf (Fsys t (k_files (m_kernel m4)) booted c6)). rewrite Hf4. by apply fresh_fsys_wf; [|exact booted_tasks_pristine|].
Qed.

End Stages.
