(* ===== verification/BootMain.v ===== *)
(** What a start ends in ([kernel_main] of [Boot.v]): the state in which interrupts
    are enabled, the panic on a wrong magic number, and a monitor that finds the
    kernel's invariant in place, whatever the network did in between. *)

From Stdlib Require Import ZArith Lia Ascii.
From stdpp Require Import base gmap list strings.
From S2P Require Import TmpfsView.
From S2P Require Import Prelude KString Util Multiboot Pmm Vmm Swap Terminal Ports Console Screen Display Ps2 Keyboard Mouse.
From S2P Require Import Task Sched Tmpfs TmpfsPath TmpfsTree TmpfsData Fs FsPath FsFile Cpio BootFs Syscall SyscallSpec.
From S2P Require Import Inet NetConst Net NetSpec NetBoot Interrupt Builtin Cli CliSpec Boot BootSpec.
Open Scope Z_scope.
Import Fmt.

(** * The clock only moves tasks between states *)

Lemma after_tick_pristine now next tt i t : pristine t = true -> pristine (after_tick now next tt i t) = true.
Proof.
  unfold pristine. rewrite !andb_true_iff, !orb_true_iff, !bool_decide_eq_true. intros [Hf Hc].
  assert (t_fds (after_tick now next tt i t) = t_fds t /\ t_cwd (after_tick now next tt i t) = t_cwd t
    /\ (t_state t = TASK_UNUSED -> t_state (after_tick now next tt i t) = TASK_UNUSED)) as (-> & -> & Hs).
  { unfold after_tick, advance, wake, end_slice. repeat (case_decide; cbn [set_state set_runtime_ticks t_fds t_cwd t_state] in *);
      (split; [done|]; split; [done|]; intros; naive_solver congruence). }
  split; [done|]. destruct Hc as [Hc|Hc]; [left; auto|by right].
Qed.

Lemma tick_pristine now tt tt' : task_scheduler_tick now tt = Val tt' -> pristine_tasks tt -> pristine_tasks tt'.
Proof.
  intros Htick [Hwf Hall]. split; [by eapply tick_wf|]. destruct (tick_spec now tt Hwf) as (next & _ & _ & He).
  rewrite He in Htick. injection Htick as <-. cbn [g_tasks]. apply forallb_forall. intros t Ht.
  apply list_elem_of_In, list_elem_of_lookup in Ht as [i Hi]. apply imap_Some in Hi as (u & Hu & ->). apply after_tick_pristine.
  rewrite forallb_forall in Hall. apply Hall, list_elem_of_In. by eapply list_elem_of_lookup_2.
Qed.

Section Quiet.
Context {C : Type} `{TerminalLaws C} {M : Type} `{Ports M}.

(** A world before any program ran: no descriptor open, every task in the root. *)
Definition quiet_world (w : world C M) : Prop := pristine_tasks (w_tasks w) /\ term_ok (w_console w).

Lemma quiet_ok w : quiet_world w -> world_ok w.
Proof. intros [[] ?]. by split. Qed.

Lemma scheduler_tick_quiet (w w' : world C M) : quiet_world w -> scheduler_tick w = Val (Running w') -> pristine_tasks (w_tasks w').
Proof.
  intros [Hp Hc]. unfold scheduler_tick. intros Ht. apply bind_Val_inv in Ht as (tt & Htick & Hg).
  pose proof (tick_pristine _ _ _ Htick Hp) as Hp'. match type of Hg with context [memory_guard_tick ?x] => set (w1 := x) in * end.
  case_decide; [|injection Hg as <-; exact Hp']. destruct (guard_spec w1) as (r & Hr & Hcase); [by split; [apply Hp'|]|].
  rewrite Hr in Hg. injection Hg as ->. destruct Hcase as [(_ & [Hs _] & _)|(_ & w2 & [= <-] & _ & ->)]; [|exact Hp'].
  case_bool_decide; by destruct Hs.
Qed.

End Quiet.

(** The timer keeps the world as the wait for an address needs it. *)
Lemma timer_wakes_quiet {C : Type} `{DisplayLaws C} {M : Type} `{PortsLaws M} `{!Nic M, !NicLaws M} :
  hlt_wakes (C := drivers C) (M := M) (interrupt_dispatch timer_frame) quiet_world.
Proof.
  intros s Hn Hq Hu. destruct (timer_wakes s Hn (quiet_ok _ Hq) Hu) as (p & Hp & Hrun). exists p. split; [done|].
  intros s' ->. destruct (Hrun s' eq_refl) as (Hn' & Hw' & Hu'). split; [done|]. split; [|done]. split; [|apply Hw'].
  unfold interrupt_dispatch in Hp. rewrite decide_True in Hp by done. unfold timer_interrupt in Hp.
  apply bind_Val_inv in Hp as (r & Hr & Hp). destruct r as [w'|w'|w']; [|discriminate..]. injection Hp as <-.
  refine (scheduler_tick_quiet _ _ _ Hr). split; [apply Hq|]. destruct Hq as [_ (? & ? & ?)]. by split_and!.
Qed.

(** * Arriving at the monitor *)

Section Main.
Context {C : Type} `{DisplayLaws C, !Startup C, !StartupLaws C} {M : Type} `{PortsLaws M} `{!Nic M, !NicLaws M} `{!Ps2 M}.
Notation machine := (monitor (drivers C) M).

(** ** The words of the monitor *)

Lemma cli_init_prints : prints (cli_init (C := drivers C)).
Proof.
  unfold cli_init.
  repeat (apply prints_bind; [lazymatch goal with
    | |- prints (set_color_hex _ _) => apply set_color_law
    | |- prints (console_writeln _ _) => by apply line_prints
    | |- prints (console_putc _) => apply prints_any
    | |- prints (console_writef _ _) => apply braces_fits; by eexists
    end|]).
  apply reset_color_law.
Qed.

(** ** A panic before there are tasks *)

(** A world that differs from another in the display and the ports alone, with the
    interrupts off and the text sent. *)
Record quieted (text : list Z) (w w' : world (drivers C) M) : Prop := {
  qt_world : exists c h, w' = with_interrupts false (with_console c (with_ports h w));
  qt_sent : term_sent (w_console w') = term_sent (w_console w) ++ line_text text;
  qt_reset : exists h, w_ports w' = io_out8 0x64 0xFE h;
}.

Definition farewell (message : list Z) : list Z :=
  [10] ++ str "PANIC: " ++ message ++ [10] ++ str "safeboot: reason=kernel panic" ++ [10]
  ++ str "safeboot: policy=reboot" ++ [10].

Lemma print_sends (f : drivers C -> outcome (drivers C)) o (w : world (drivers C) M) : sends o f -> term_ok (w_console w) ->
  exists c, print f w = Val (with_console c w) /\ term_ok c /\ term_sent c = term_sent (w_console w) ++ o.
Proof. intros Hf Hw. destruct (Hf _ Hw) as (c & Hr & Hok & Hs). exists c. unfold print. by rewrite Hr. Qed.

Lemma early_panic message (w : world (drivers C) M) : holdable ([10] ++ str "PANIC: " ++ message ++ [10]) = true ->
  term_ok (w_console w) -> w_tasks w = static_tasks -> w_action w = SAFEBOOT_ACTION_REBOOT ->
  exists w', kernel_panic message w = Val (Rebooted w') /\ quieted (farewell message) w w'.
Proof.
  intros Hm Hc Ht Ha. unfold kernel_panic. rewrite Ht. change (task_find_likely_memory_leaker static_tasks) with 0%Z.
  destruct (print_sends (console_printf ([10] ++ str "PANIC: %s" ++ [10]) [VaStr (Some message)])
    (line_text ([10] ++ str "PANIC: " ++ message ++ [10])) w) as (c1 & -> & Hc1 & Hs1);
    [apply printf_sends; [reflexivity|reflexivity|done]|done|].
  cbn [mbind outcome_bind]. unfold safeboot_trigger. set (w1 := interrupt_disable _).
  destruct (print_sends (console_printf (str "safeboot: reason=%s" ++ [10]) [VaStr (Some (str "kernel panic"))])
    (line_text (str "safeboot: reason=kernel panic" ++ [10])) w1) as (c2 & Hr & Hc2 & Hs2);
    [by apply printf_sends|done|].
  unfold default, from_option, id. rewrite Hr. cbn [mbind outcome_bind]. unfold safeboot_kill.
  rewrite decide_False by done. cbn [mbind outcome_bind]. change (w_action (with_console c2 w1)) with (w_action w). rewrite Ha.
  rewrite decide_False by done.
  destruct (print_sends (console_writeln (str "safeboot: policy=reboot") []) (line_text (str "safeboot: policy=reboot" ++ [10]))
    (with_console c2 w1)) as (c3 & -> & Hc3 & Hs3); [by apply writeln_sends|done|].
  cbn [mbind outcome_bind]. eexists. split; [done|]. split; [by eexists _, _| |by eexists].
  change (term_sent c3 = term_sent (w_console w) ++ line_text (farewell message)).
  rewrite Hs3. change (w_console (with_console c2 w1)) with c2. rewrite Hs2. change (w_console w1) with c1. rewrite Hs1.
  unfold farewell, line_text. by rewrite !bind_app, <- !app_assoc.
Qed.

(** ** The greeting *)

Definition welcome : list Z := str "MGCORE x86_64 bootstrap" ++ [10].

Lemma greeting (c : C) (h : M) mem : unstarted c ->
  exists d o, (m ← tell start_display (static_machine c h mem); tell (console_writeln (str "MGCORE x86_64 bootstrap") []) m)
      = Val (lit d h mem) /\ term_ok d /\ term_sent d = term_sent c ++ o ++ line_text welcome.
Proof.
  intros Hc. assert (unstarted (static_drivers c)) as Hd by (split; [done|]; split; [exact static_mouse_wf|done]).
  destruct (start_law _ Hd) as (d1 & o & Hr & Hok & Hs). unfold tell at 2, print.
  change (w_console (m_world (static_machine c h mem))) with (static_drivers c). rewrite Hr. cbn [mbind outcome_bind].
  destruct (writeln_sends (C := drivers C) (str "MGCORE x86_64 bootstrap") _ eq_refl eq_refl d1 Hok) as (d2 & Hr2 & Hok2 & Hs2).
  exists d2, o. unfold tell, print. change (w_console (m_world _)) with d1. rewrite Hr2. split; [done|]. split; [done|].
  rewrite Hs2, Hs, <- app_assoc. done.
Qed.

(** A machine that was reset having done nothing but print [text]: the interrupts are
    off, the reset command is the last byte written to a port, and everything except
    the display, the devices behind the ports and the interrupt flag is as it was. *)
Record reset_saying (text : list Z) (m m' : machine) : Prop := {
  rs_silent : w_interrupts (m_world m') = false;
  rs_reset : exists h, w_ports (m_world m') = io_out8 0x64 0xFE h;
  rs_memory : k_mem (m_kernel m') = k_mem (m_kernel m) /\ k_heap (m_kernel m') = k_heap (m_kernel m)
    /\ w_pmm (m_world m') = w_pmm (m_world m) /\ m_swap m' = m_swap m;
  rs_rest : k_tmpfs (m_kernel m') = k_tmpfs (m_kernel m) /\ k_files (m_kernel m') = k_files (m_kernel m)
    /\ w_tasks (m_world m') = w_tasks (m_world m) /\ w_sched (m_world m') = w_sched (m_world m)
    /\ w_action (m_world m') = w_action (m_world m) /\ m_net m' = m_net m;
  rs_sent : exists o, term_sent (m_console m') = term_sent (m_console m) ++ o ++ line_text text;
}.

(** C38 A machine started by a boot loader that does not speak Multiboot2 is reset:
    kernel_main greets, prints the panic and the reboot policy, and writes the reset
    command with the interrupts disabled.  What the loader left does not matter: the
    outcome is the same machine for every other magic number, boot information,
    image and contents of memory; and kernel memory, heap, page frames, files,
    tasks, network state and swap are as they were. *)
Theorem bad_magic_reboots (c : C) (h : M) (mem : list Z) : unstarted c ->
  exists m : machine,
    (forall hlt fuel n img magic info memory, magic <> MULTIBOOT2_BOOTLOADER_MAGIC ->
       kernel_main hlt fuel n img magic info memory (static_machine c h mem) = Val (Rebooted (static_cli, m)))
    /\ reset_saying (welcome ++ farewell (str "invalid Multiboot2 magic")) (static_machine c h mem) m.
Proof.
  intros Hc. destruct (greeting c h mem Hc) as (d & o & Hg & Hd & Hs).
  destruct (early_panic (str "invalid Multiboot2 magic") (m_world (lit d h mem))) as (w & Hw & [(c' & h' & ->) Hsent Hreset]);
    [reflexivity|exact Hd|done|done|].
  eexists. split.
  - intros hlt fuel n img magic info memory Hmagic. unfold kernel_main, kernel_start.
    apply bind_Val_inv in Hg as (m0 & -> & Hg). cbn [mbind outcome_bind]. rewrite Hg. cbn [mbind outcome_bind].
    rewrite decide_True by done. rewrite Hw. done.
  - split; try done. exists o.
    refine (eq_trans Hsent _). change (w_console (m_world (lit d h mem))) with d.
    rewrite Hs. unfold line_text. by rewrite bind_app, <- !app_assoc.
Qed.

(** ** With the right magic *)

(** The initialisers ran to the end and left a started machine. *)
Definition brought_up fuel img tags module memory d (h : M) mem : Prop :=
  exists msrs m, boot_setup fuel img (boot_info tags) memory (lit d h mem) = Val (msrs, m)
    /\ started img tags module memory mem m.


Lemma started_quiet img tags module memory mem (m : machine) : started img tags module memory mem m ->
  quiet_world (m_world m) /\ net_wf (m_net m) /\ uptime (m_sys m) = 0.
Proof.
  intros Hs. split_and!; [|apply (st_net _ _ _ _ _ _ Hs)|].
  - split; [rewrite (proj1 (st_tasks _ _ _ _ _ _ Hs)); exact booted_tasks_pristine|exact (sw_console _ (kw_fsys _ (st_kernel _ _ _ _ _ _ Hs)))].
  - destruct (st_sched _ _ _ _ _ _ Hs) as (p & Hp & _). unfold uptime, m_sys, scheduler_uptime_ticks. cbn [n_world]. by rewrite Hp.
Qed.

Lemma kernel_start_ends hlt fuel img tags module memory (c : C) (h : M) mem :
  unstarted c -> loaded fuel img tags module memory -> shallow_buffer (M := M) fuel ->
  packets_fit (M := M) 1520 -> hlt_wakes hlt quiet_world -> (300 <= fuel)%nat ->
  (exists p, kernel_start hlt fuel img MULTIBOOT2_BOOTLOADER_MAGIC (boot_info tags) memory (static_machine c h mem) = Val p
     /\ forall msrs (m : machine), p = Running (msrs, m) ->
          kernel_wf (m_kernel m) /\ net_wf (m_net m) /\ pristine_tasks (w_tasks (m_world m)))
  \/ (kernel_start hlt fuel img MULTIBOOT2_BOOTLOADER_MAGIC (boot_info tags) memory (static_machine c h mem) = Stop Oob
      /\ overruns module memory).
Proof.
  intros Hc Hld Hsh Hfit Hwake Hfuel. unfold kernel_start.
  destruct (greeting c h mem Hc) as (d & o & Hg & Hd & _). apply bind_Val_inv in Hg as (m0 & -> & Hg). cbn [mbind outcome_bind].
  rewrite Hg. cbn [mbind outcome_bind]. rewrite decide_False by (intros Hne; by apply Hne).
  destruct (boot_setup_spec fuel img tags module memory d h mem Hld Hsh Hd) as [(msrs & m & -> & Hm)|[-> Hov]]; [left|by right].
  cbn [mbind outcome_bind]. destruct (started_quiet _ _ _ _ _ _ Hm) as (Hq & Hn & Hu).
  destruct (startup_ends hlt quiet_world (fun _ _ Hw => Hw) (fun _ Hw => proj2 Hw) (fun _ _ Hw Hok => conj (proj1 Hw) Hok) fuel (m_sys m))
    as (p & -> & Hp); try done; [rewrite Hu; lia|]. cbn [mbind outcome_bind].
  destruct p as [[[] s]|[[] s]|[[] s]]; [|by eexists..]. destruct (Hp s eq_refl) as (Hn' & Hq').
  match goal with |- context [tell ?f ?x] => destruct (tell_spec f x) as (c2 & -> & Hc2) end; [apply cli_init_prints|apply Hq'|].
  cbn [mbind outcome_bind]. eexists. split; [done|]. intros msrs' m' [= _ <-]. split; [|split; [exact Hn'|apply Hq']].
  destruct (st_kernel _ _ _ _ _ _ Hm) as [Hf Hh]. destruct (st_files _ _ _ _ _ _ Hm) as (Hfiles & _). split; [|exact Hh].
  change (fsys_wf (Fsys (k_tmpfs (m_kernel m)) (k_files (m_kernel m)) (w_tasks (n_world s)) c2)). rewrite Hfiles.
  apply fresh_fsys_wf; [exact (sw_tmpfs _ Hf)|apply Hq'|done].
Qed.


End Main.

(** * A start on a test bench: the console of [Screen.v], a board with nothing but a
    keyboard controller that holds the answer of its self-test *)

Module StartDemo.
Import UartBench.

Record board := Board { self_test : bool }.

Definition board_in (p : Z) (h : board) : Z * board :=
  if decide (p = PS2_STATUS_PORT) then (b2z (self_test h), h)
  else if decide (p = PS2_DATA_PORT) then (if self_test h then 0xAA else 0, Board false)
  else (0xFF, h).

#[local] Instance board_ports : Ports board := {
  io_in8 := board_in; io_out8 _ _ h := h; io_in16 _ h := (0xFFFF, h); io_out16 _ _ h := h;
  io_in32 _ h := (0xFFFFFFFF, h); io_out32 _ _ h := h;
}.

#[local] Instance board_laws : PortsLaws board.
Proof.
  split; intros p h; [|unfold in_u16; cbn; lia|unfold in_u32; cbn; lia].
  cbn [io_in8 board_ports]. unfold board_in, in_u8. repeat case_decide; destruct (self_test h); cbn; lia.
Qed.

#[local] Program Instance board_ps2 : Ps2 board := { ps2_pending h := if self_test h then [0xAA] else []; }.
Next Obligation. intros [[]]; done. Qed.
Next Obligation. intros [[]] b rest; cbn [self_test]; [intros [= <- <-]; done|done]. Qed.

#[local] Instance board_nic : Nic board := {
  g_rx_buffer _ := NetDemo.demo_rx; rx_address _ := 0x200000; tx_address _ i := 0x203000 + i * 2048;
}.
#[local] Instance board_nic_laws : NicLaws board.
Proof.
  split; intros h; [exact (rx_length (NicLaws := NetDemo.demo_nic_laws) (Ports.Bench.Machine [] []))|].
  exact (rx_bytes (NicLaws := NetDemo.demo_nic_laws) (Ports.Bench.Machine [] [])).
Qed.

Lemma board_packets_fit : packets_fit (M := board) 1520.
Proof. intros h. exact (NetDemo.demo_packets_fit (Ports.Bench.Machine [] [])). Qed.

Lemma board_shallow fuel : (1 <= fuel)%nat -> shallow_buffer (M := board) fuel.
Proof. intros Hf [[]]; cbn; lia. Qed.

(** 64 KiB of memory and an initramfs of one directory and one file. *)
Definition archive_size : Z := Z.of_nat (length demo_archive).
Definition boot_tags : list boot_tag :=
  [BootMmap [MmapEntry 0x100000 0x10000 1]; module_tag 0x200000 (0x200000 + archive_size) (str "initramfs" ++ [0])].
Definition module_memory (_ : Z) : list Z := demo_archive ++ [0].
Definition boot_image : image := Image 0x100000 0x102000 (replicate 45 0x101000) 0x120000 0x102000.
Notation boot_module := (Some (0x200000, 0x200000 + archive_size)).

Lemma boot_loaded : loaded 300 boot_image boot_tags boot_module module_memory.
Proof.
  split.
  - repeat constructor; unfold in_u32; vm_compute; (done || congruence).
  - change (mjoin (boot_entries <$> boot_tags)) with [MmapEntry 0x100000 0x10000 1]. repeat constructor; simpl; lia.
  - change (mjoin (boot_entries <$> boot_tags)) with [MmapEntry 0x100000 0x10000 1].
    repeat split; repeat constructor; apply entry_pages_apart; vm_compute; intuition congruence.
  - cbn; lia.
  - repeat constructor; simpl; lia.
  - split; [split|]; vm_compute; congruence.
  - split; [done|]. apply Forall_replicate. unfold in_u64. lia.
  - apply (a_module _ [BootMmap [MmapEntry 0x100000 0x10000 1]] _ _ (str "initramfs" ++ [0]) []); [done|repeat constructor; discriminate| |];
      unfold in_u32; vm_compute; split; congruence.
  - intros first last [= <- <-]. replace (0x200000 + archive_size - 0x200000) with archive_size by lia.
    change (u32 archive_size) with archive_size. split; [vm_compute; congruence|]. unfold module_memory, archive_size. rewrite length_app.
    split; [lia|]. rewrite Nat2Z.id, drop_app_length. apply list_elem_of_here.
Qed.

Notation dark_machine := (static_machine dark_console (Board true) []).

Lemma dark_unstarted : unstarted dark_console.
Proof. split; [exact (proj1 dark_console_wf)|]. split; [exact init_leaves_uart_ok|reflexivity]. Qed.

Notation timer := (interrupt_dispatch timer_frame).

Lemma bad_magic_reboots_witness :
  exists m : monitor (drivers (console uart)) board,
    (forall hlt fuel n img magic info memory, magic <> MULTIBOOT2_BOOTLOADER_MAGIC ->
       kernel_main hlt fuel n img magic info memory dark_machine = Val (Rebooted (static_cli, m)))
    /\ reset_saying (welcome ++ farewell (str "invalid Multiboot2 magic")) dark_machine m.
Proof. exact (bad_magic_reboots dark_console (Board true) [] dark_unstarted). Defined.

Lemma lit_display : term_ok (static_drivers dark_console).
Proof. split; [exact dark_console_wf|]. split; [exact static_mouse_wf|done]. Qed.

(** No name in the module overruns anything. *)
Lemma module_names_fit : ~ overruns boot_module module_memory.
Proof.
  cbn [overruns]. replace (u32 (0x200000 + archive_size - 0x200000)) with archive_size by (vm_compute; reflexivity).
  exact demo_names_fit.
Qed.


(** The tree the bench's monitor starts with. *)
Lemma bench_tree m mem : started boot_image boot_tags boot_module module_memory mem m ->
  shows (k_tmpfs (m_kernel (C := drivers (console uart)) (M := board) m)) (unpack (str "/") [bin_dir; bin_sh] system_volume).
Proof.
  intros Hm. pose proof (st_tree _ _ _ _ _ _ Hm) as Ht. cbn [first_tree] in Ht.
  apply (up_entries _ _ _ Ht [bin_dir; bin_sh] cpio_end [0]).
  - split; [exact (proj1 demo_entries_valid)|]. split; [repeat constructor; discriminate|]. exact (conj (proj2 demo_entries_valid) eq_refl).
  - reflexivity.
  - vm_compute. discriminate.
  - apply (bool_decide_unpack _). vm_compute. reflexivity.
Qed.


(** The serial line's log of the start, from the greeting to the monitor. *)
Definition log_line (s : string) : list Z := str s ++ [13; 10].

Example boot_log :
  match kernel_start timer 300 boot_image MULTIBOOT2_BOOTLOADER_MAGIC (boot_info boot_tags) module_memory dark_machine with
  | Val (Running (msrs, m)) =>
      take 497 (drop 36 (uart_sent (ports (dr_console (m_console m))))) =
        log_line "MGCORE x86_64 bootstrap" ++ log_line "kernel image: 0x100000 - 0x102000"
        ++ log_line "pmm: total=16 pages free=14" ++ log_line "swap: initialized capacity=4 pages state=off"
        ++ log_line "vmm: bootstrap identity mapping active" ++ log_line "sched: round-robin 100 Hz slice=10 ticks"
        ++ log_line "keyboard: PS/2 input ready" ++ log_line "mouse: PS/2 ready packet=3-byte wheel=no"
        ++ log_line "syscall: table ready (512 entries)" ++ log_line "fs: tmpfs root mounted"
        ++ log_line "net: ethernet adapters detected=0" ++ log_line "net0: rtl8139 not bound"
        ++ log_line "initramfs: module 0x200000-0x20016c mount=0"
        ++ log_line "interrupts: enabling timer + serial monitor"
  | _ => False
  end.
Proof. vm_compute. reflexivity. Qed.

End StartDemo.
