(* ===== verification/System.v ===== *)
(** The running kernel as a transition system: interrupts, system calls and turns
    of the monitor in any order, over the one state all of them share, from the
    state [kernel_main] hands to the monitor.

    An operation is one event; within it the code runs undisturbed, except where
    it halts the processor and waits ([hlt]).  Between events a user program may
    change its memory. *)

From Stdlib Require Import ZArith Lia Ascii.
From stdpp Require Import base gmap list strings.
From S2P Require Import Prelude KString Util Multiboot Pmm Vmm Swap Terminal Ports Console Screen Display Ps2 Keyboard Mouse.
From S2P Require Import Task Sched Tmpfs TmpfsPath TmpfsTree TmpfsData Fs FsPath FsFile Cpio Syscall SyscallSpec.
From S2P Require Import Inet NetConst Net NetSpec NetBoot NetCmds Interrupt Builtin Cli CliSpec BuiltinSpec Boot BootSpec BootMain.
Open Scope Z_scope.
Import Fmt.

(** * What an interrupt does to the tasks *)

(** The clock may have moved on. *)
Definition ticked (tt tt' : task_table) : Prop := tt' = tt \/ exists now, task_scheduler_tick now tt = Val tt'.

Lemma advance_keeps now cur i t : t_fds (advance now cur i t) = t_fds t /\ t_cwd (advance now cur i t) = t_cwd t
  /\ (t_state t = TASK_UNUSED -> t_state (advance now cur i t) = TASK_UNUSED).
Proof.
  unfold advance, wake, end_slice. repeat (case_decide; cbn [set_state set_runtime_ticks t_fds t_cwd t_state] in *);
    (split; [done|]; split; [done|]; intros; naive_solver congruence).
Qed.

Lemma after_tick_keeps now next tt i t : t_fds (after_tick now next tt i t) = t_fds t /\ t_cwd (after_tick now next tt i t) = t_cwd t
  /\ (used (after_tick now next tt i t) -> used t).
Proof.
  destruct (advance_keeps now (g_current_index tt) i t) as (Hf & Hc & Hs). unfold after_tick, used. case_decide; [|by split_and!; auto].
  cbn [set_state t_fds t_cwd t_state]. split; [done|]. split; [done|]. intros _ Hu. apply Hs in Hu. by destruct H as [_ H]; rewrite Hu in H.
Qed.

Section Tasks.
Context {C : Type} `{TerminalLaws C}.

Lemma ticked_wf t f tt tt' (c : C) : ticked tt tt' -> fsys_wf (Fsys t f tt c) -> fsys_wf (Fsys t f tt' c).
Proof.
  intros [->|[now Ht]] Hs; [done|]. pose proof (sw_tasks _ Hs) as Hwf. cbn [fs_tasks] in Hwf.
  apply (with_tasks_wf (Fsys t f tt c) tt' Hs); [by eapply tick_wf|]. intros i t' Hi.
  destruct (tick_spec now tt Hwf) as (next & _ & _ & He). rewrite He in Ht. injection Ht as <-. cbn [g_tasks] in Hi.
  apply imap_Some in Hi as (u & Hu & ->). destruct (after_tick_keeps now next tt i u) as (Hf & Hc & Hus). exists u.
  split; [exact Hu|]. split; [exact Hf|]. rewrite Hc. intros Hused. exact (sw_cwd _ Hs i u Hu (Hus Hused)).
Qed.

End Tasks.

Section Interrupts.
Context {C : Type} `{DisplayLaws C} {M : Type} `{PortsLaws M} `{!Nic M, !NicLaws M}.
Implicit Types s : nsys (drivers C) M.

Lemma scheduler_tick_ticked (w w' : world (drivers C) M) : world_ok w -> scheduler_tick w = Val (Running w') ->
  ticked (w_tasks w) (w_tasks w').
Proof.
  intros [Hwf Hc]. unfold scheduler_tick. intros Ht. apply bind_Val_inv in Ht as (tt & Htick & Hg).
  pose proof (tick_wf _ _ _ Hwf Htick) as Hwf'. match type of Hg with context [memory_guard_tick ?x] => set (w1 := x) in * end.
  right. eexists. case_decide; [|injection Hg as <-; exact Htick].
  destruct (guard_spec w1) as (r & Hr & Hcase); [by split|].
  rewrite Hr in Hg. injection Hg as ->. destruct Hcase as [(_ & [Hs _] & _)|(_ & w2 & [= <-] & _ & ->)]; [|exact Htick].
  case_bool_decide; by destruct Hs.
Qed.

Lemma dispatch_ticked f s s' : packets_fit (M := M) 1520 -> system_ok s -> 0 <= vector f ->
  interrupt_dispatch f s = Val (Running s') -> ticked (w_tasks (n_world s)) (w_tasks (n_world s')).
Proof.
  intros Hfit Hs Hv Hr. unfold interrupt_dispatch in Hr.
  case_decide; [|case_decide; [|case_decide; [|case_decide; [|case_decide]]]].
  - unfold timer_interrupt in Hr. apply bind_Val_inv in Hr as (p & Hp & Hr). destruct p as [w|w|w]; [|discriminate..]. injection Hr as <-.
    refine (scheduler_tick_ticked _ w _ Hp). destruct Hs as [_ [Ht (Hc & Hm & Hi)]]. split; [exact Ht|]. by split_and!.
  - left. unfold keyboard_interrupt in Hr. apply bind_Val_inv in Hr as ([[kb c] h] & _ & Hr). injection Hr as <-. done.
  - left. apply bind_Val_inv in Hr as (s1 & Hn & Hr). injection Hr as <-.
    destruct (net_interrupt_spec s Hfit Hs) as (s2 & Hn2 & _ & Hw). rewrite Hn in Hn2. injection Hn2 as <-.
    change (w_tasks (n_world (eoi 43 s1))) with (w_tasks (n_world s1)). by rewrite Hw.
  - left. unfold mouse_interrupt in Hr. apply bind_Val_inv in Hr as ([[ms c] h] & _ & Hr). injection Hr as <-. done.
  - exfalso. destruct (exception_spec f s Hs) as (p & Hp & [Hd _]). rewrite Hp in Hr. injection Hr as ->.
    case_decide; by destruct Hd.
  - left. by injection Hr as <-.
Qed.

(** The timer keeps the files, whatever they are. *)
Lemma timer_wakes_carries t f : hlt_wakes (C := drivers C) (M := M) (interrupt_dispatch timer_frame) (carries t f).
Proof.
  intros s Hn Hw Hu. assert (world_ok (n_world s)) as Hok by (split; [exact (sw_tasks _ Hw)|exact (sw_console _ Hw)]).
  destruct (timer_wakes s Hn Hok Hu) as (p & Hp & Hrun). exists p. split; [done|].
  intros s' ->. destruct (Hrun s' eq_refl) as (Hn' & [_ Hc'] & Hu'). split; [done|]. split; [|done].
  unfold interrupt_dispatch in Hp. rewrite decide_True in Hp by done. unfold timer_interrupt in Hp.
  apply bind_Val_inv in Hp as (r & Hr & Hp). destruct r as [w'|w'|w']; [|discriminate..]. injection Hp as <-.
  assert (ticked (w_tasks (n_world s)) (w_tasks w')) as Ht.
  { refine (scheduler_tick_ticked _ w' _ Hr). destruct Hok as [Ht (Hc & Hm & Hi)]. split; [exact Ht|]. by split_and!. }
  pose proof (ticked_wf t f _ _ _ Ht Hw) as Hw'. exact (with_console_wf _ (w_console w') Hw' Hc').
Qed.

End Interrupts.

(** * The machine and its events *)

Record system (C M : Type) := System { s_editor : cli; s_machine : monitor (drivers C) M }.
Arguments System {C M}.
Arguments s_editor {C M}.
Arguments s_machine {C M}.

(** An interrupt, a system call with its number and arguments, a turn of the
    monitor's loop, a program that writes to its memory. *)
Inductive event :=
| Interrupted (f : interrupt_frame)
| Called (nr : Z) (r : regs)
| Turned
| Stored (mem : list Z).

Section System.
Context {C : Type} `{DisplayLaws C, !Startup C, !StartupLaws C} {M : Type} `{PortsLaws M} `{!Nic M, !NicLaws M} `{!Ps2 M}.
Context (hlt : nsys (drivers C) M -> outcome (power (nsys (drivers C) M))) (fuel : nat).
Notation machine := (monitor (drivers C) M).
Notation system := (system C M).
Implicit Types (m : machine) (s : system).

Definition put_kernel (k : kernel (drivers C) M) m : machine := Monitor k (m_net m) (m_swap m).

(** The machine after a part of it ran. *)
Definition become {A} (f : A -> system) (p : power A) : power system :=
  match p with Running a => Running (f a) | Halted a => Halted (f a) | Rebooted a => Rebooted (f a) end.

Definition run_event (e : event) s : outcome (power system) :=
  let m := s_machine s in
  match e with
  | Interrupted f => p ← interrupt_dispatch f (m_sys m); Val (become (fun n => System (s_editor s) (put_sys n m)) p)
  | Called nr r => p ← syscall_dispatch nr r (m_kernel m); Val (become (fun a => System (s_editor s) (put_kernel a.2 m)) p)
  | Turned => p ← cli_step hlt fuel (s_editor s) m; Val (become (fun a => System a.1 a.2) p)
  | Stored mem => Val (Running (System (s_editor s) (put_kernel (put_mem mem (m_kernel m)) m)))
  end.

(** The words of the line in the editor. *)
Definition typed_words s : list (list Z) := take 16 (words (cstr (take (Z.to_nat (l_length (s_editor s))) (g_line (s_editor s))))).

(** What the environment is held to.  A program passes pointers into its memory, writes
    to descriptors whose offset leaves room below 4 GiB, and creates nothing with an
    overlong name; the line, when it is run, gives echo no pattern; the clock is not
    about to wrap around. *)
Definition allowed (e : event) s : Prop :=
  let m := s_machine s in
  match e with
  | Interrupted f => 0 <= vector f
  | Called nr r => 0 <= nr /\ valid_call nr r (m_kernel m) /\ ~ call_overlong nr r (m_kernel m)
  | Turned => plain_echo (typed_words s) /\ 0 <= ticks_of m /\ ticks_of m + max_ticks (typed_words s) < 2 ^ 63
  | Stored mem => True
  end.

Record system_wf s : Prop := {
  sy_machine : monitor_wf (s_machine s);
  sy_editor : exists e, edits (s_editor s) e /\ 0 <= escape e <= 2;
}.

(** An event is handled: the machine goes on well-formed, or stops. *)
Definition handled (o : outcome (power system)) : Prop :=
  exists p, o = Val p /\ forall s, p = Running s -> system_wf s.

(** ** Each event *)

Context (fits_buffer : packets_fit (M := M) 1520) (wakes : forall t f, hlt_wakes hlt (carries (C := drivers C) (M := M) t f)).
Context (enough : (300 <= fuel)%nat).

Lemma interrupt_handled f s : system_wf s -> 0 <= vector f -> handled (run_event (Interrupted f) s).
Proof.
  intros [Hm He] Hv. pose proof (carried_world _ Hm) as Hw. cbn [run_event].
  assert (system_ok (m_sys (s_machine s))) as Hok.
  { split; [apply Hm|]. split; [exact (sw_tasks _ Hw)|exact (sw_console _ Hw)]. }
  destruct (interrupt_dispatch_spec f _ fits_buffer Hok Hv) as (p & Hp & Hcase). rewrite Hp. cbn [mbind outcome_bind].
  eexists. split; [done|]. intros s' Hrun. destruct p as [n|n|n]; [|discriminate..]. injection Hrun as <-.
  pose proof (dispatch_ticked f _ n fits_buffer Hok Hv Hp) as Ht.
  assert (system_ok n) as [Hn [_ Hc]].
  { destruct Hcase as [(s2 & [= <-] & Hs2 & _)|[_ [Hd _]]]; [done|]. case_decide; by destruct Hd. }
  split; [|exact He]. apply put_sys_wf; [done|done|].
  exact (with_console_wf _ (w_console (n_world n)) (ticked_wf _ _ _ _ _ Ht Hw) Hc).
Qed.

Lemma call_handled nr r s : system_wf s -> allowed (Called nr r) s -> handled (run_event (Called nr r) s).
Proof.
  intros [Hm He] (Hnr & Hv & Hno). cbn [run_event].
  destruct (syscalls_wf nr r (m_kernel (s_machine s)) (mw_kernel _ Hm) Hnr Hv) as [(p & -> & Hp)|[_ Hov]]; [|by destruct Hno].
  cbn [mbind outcome_bind]. eexists. split; [done|]. intros s' Hrun. destruct p as [a|a|a]; [|discriminate..]. injection Hrun as <-.
  split; [split; [exact Hp|apply Hm]|exact He].
Qed.

Lemma stored_handled mem s : system_wf s -> handled (run_event (Stored mem) s).
Proof.
  intros [Hm He]. eexists. split; [done|]. intros s' [= <-]. split; [|exact He]. split; [|apply Hm]. apply put_mem_wf, Hm.
Qed.

(** ** A turn of the monitor *)

Lemma words_of_editor (sh : cli) (e : editor) : edits sh e -> take (Z.to_nat (l_length sh)) (g_line sh) = e_text e.
Proof.
  intros He. destruct (line_split sh e He) as (rest & -> & _). rewrite (ed_length _ _ He), Nat2Z.id. by rewrite take_app_length.
Qed.

(** What the monitor makes of one character. *)
Lemma newline_handled (sh : cli) (e : editor) m : edits sh e -> escape e = 0 -> monitor_wf m -> allowed Turned (System sh m) ->
  handled (p ← cli_key hlt fuel 10 sh m; Val (become (fun a => System a.1 a.2) p)).
Proof.
  intros He Hesc Hm (Hecho & Hu & Hb). unfold typed_words in *. cbn [s_editor s_machine] in *. rewrite (words_of_editor sh e He) in *.
  destruct (newline_runs hlt fuel sh e m He Hesc (monitor_console m Hm)) as (sh' & c & Htell & He' & Hkey). rewrite Hkey. clear Hkey.
  destruct (steps_tell (console_putc 10) m (prints_any 10) Hm) as (m1 & Htell1 & Hm1 & Hu1). rewrite Htell in Htell1. injection Htell1 as <-.
  destruct (run_command_finishes hlt fuel fits_buffer wakes ltac:(lia) (take 16 (words (cstr (e_text e)))) (set_console c m) Hm1 Hecho)
    as (p & -> & Hp); [lia..|]. cbn [mbind outcome_bind].
  destruct p as [[r m2]|[r m2]|[r m2]]; cbn [mbind outcome_bind]; [|by eexists..]. destruct (Hp r m2 eq_refl) as [Hm2 _].
  destruct (steps_tell print_prompt m2 prompt_prints Hm2) as (m3 & -> & Hm3 & _). cbn [mbind outcome_bind]. unfold next. cbn [mbind outcome_bind].
  eexists. split; [done|]. intros s' [= <-]. split; [done|]. eexists. split; [exact He'|]. cbn. lia.
Qed.

Lemma edit_plain_escape c (e : editor) : escape (edit_plain c e) = escape e \/ escape (edit_plain c e) = 1.
Proof. unfold edit_plain. repeat (case_decide; [by repeat case_match; auto|]). by left. Qed.

Lemma edit_escape c (e : editor) : 0 <= escape e <= 2 -> 0 <= escape (edit c e) <= 2.
Proof.
  intros He. unfold edit. case_decide; [case_decide; cbn; lia|]. case_decide.
  - destruct (edit_plain_escape (arrow_key c) (Editor (before e) (after e) 0 (recalled e))) as [-> | ->]; cbn; lia.
  - destruct (edit_plain_escape c e) as [-> | ->]; lia.
Qed.

(** A newline inside an escape sequence: it is dropped, or ends the sequence. *)
Lemma broken_escape (sh : cli) (e : editor) m : edits sh e -> monitor_wf m -> esc_state sh = 1 ->
  handled (p ← cli_key hlt fuel 10 sh m; Val (become (fun a => System a.1 a.2) p)).
Proof.
  intros He Hm Hs. unfold cli_key. change (u8 10) with 10. rewrite decide_True by done. rewrite decide_False by done.
  destruct (erase_spec sh e He) as (sh' & -> & He'). cbn [mbind outcome_bind].
  destruct (show_spec sh' _ m He' (monitor_console m Hm)) as (s2 & c2 & Hshow & He2 & Hc2). unfold show in Hshow. inv_outcome. rewrite Ha.
  cbn [mbind outcome_bind]. unfold next in *. injection Hshow as -> ->. cbn [mbind outcome_bind]. eexists. split; [done|].
  intros s' [= <-]. split; [by apply set_console_wf|]. eexists. split; [exact (edits_escape s2 _ 0 He2)|]. cbn. lia.
Qed.

Lemma key_handled x (sh : cli) (e : editor) m : edits sh e -> 0 <= escape e <= 2 -> in_u8 x -> monitor_wf m ->
  allowed Turned (System sh m) ->
  handled (p ← cli_key hlt fuel x sh m; Val (become (fun a => System a.1 a.2) p)).
Proof.
  intros He Hesc Hx Hm Hall. destruct (decide (x = 10)) as [->|Hne].
  - destruct (decide (escape e = 0)) as [Hz|Hz]; [by eapply newline_handled|]. pose proof (ed_escape _ _ He) as Hs.
    destruct (decide (escape e = 1)) as [Ho|Ho]; [eapply broken_escape; [done|done|congruence]|].
    assert (cli_key hlt fuel 10 sh m = cli_key hlt fuel 10 (with_esc 0 sh) m) as ->.
    { unfold cli_key. change (u8 10) with 10. rewrite (decide_False (P := esc_state sh = 1)) by lia.
      rewrite (decide_True (P := esc_state sh = 2)) by lia. done. }
    by apply (newline_handled (with_esc 0 sh) _ m (edits_escape sh e 0 He)).
  - destruct (key_spec hlt fuel x sh e m He Hx Hne (monitor_console m Hm)) as (sh' & c & -> & He' & Hc). cbn [mbind outcome_bind].
    eexists. split; [done|]. intros s' [= <-]. split; [by apply set_console_wf|]. eexists. split; [exact He'|]. by apply edit_escape.
Qed.

Lemma turn_handled s : system_wf s -> allowed Turned s -> handled (run_event Turned s).
Proof.
  intros [Hm (e & He & Hesc)] Hall. destruct s as [sh m]. cbn [run_event s_editor s_machine] in *. unfold cli_step.
  destruct (read_law (w_console (m_world m)) (monitor_console m Hm)) as (r & c & Hr & Hc & _ & Hb). rewrite Hr. cbn [mbind outcome_bind].
  change (put_m_world (with_console c (m_world m)) m) with (set_console c m). pose proof (set_console_wf c m Hm Hc) as Hm1.
  destruct r as [x|]; [apply (key_handled x sh e _ He Hesc (Hb x eq_refl) Hm1 Hall)|].
  destruct Hall as (_ & Hu & Hmax). pose proof (max_ticks_least (typed_words (System sh m))). cbn [s_machine] in *.
  destruct (wakes _ _ (m_sys (set_console c m)) (mw_net _ Hm1) (carried_world _ Hm1)) as (p & -> & Hp);
    [change (uptime (m_sys (set_console c m))) with (ticks_of m); lia|]. cbn [mbind outcome_bind].
  destruct p as [n|n|n]; cbn [mbind outcome_bind]; [|by eexists..]. destruct (Hp n eq_refl) as (Hn & Hw & _).
  eexists. split; [done|]. intros s' [= <-]. split; [by apply put_sys_wf|by exists e].
Qed.

Lemma event_handled e s : system_wf s -> allowed e s -> handled (run_event e s).
Proof.
  intros Hs Ha. destruct e; [by apply interrupt_handled|by apply call_handled|by apply turn_handled|by apply stored_handled].
Qed.

(** * Every state the kernel can reach *)

(** Events one after the other. *)
Fixpoint run_events (es : list event) s : outcome (power system) :=
  match es with
  | [] => Val (Running s)
  | e :: es => p ← run_event e s; match p with Running s => run_events es s | stopped => Val stopped end
  end.

(** The turns of the monitor's loop are events. *)
Lemma turns_are_events n : forall sh m,
  (p ← cli_turns hlt fuel n sh m; Val (become (fun a => System a.1 a.2) p)) = run_events (replicate n Turned) (System sh m).
Proof.
  induction n as [|n IH]; intros sh m; [done|]. cbn [cli_turns replicate run_events run_event s_editor s_machine].
  destruct (cli_step hlt fuel sh m) as [[[sh1 m1]|[sh1 m1]|[sh1 m1]]|]; cbn [mbind outcome_bind become fst snd]; done.
Qed.

Context (img : image) (tags : list boot_tag) (module : option (Z * Z)) (memory : Z -> list Z) (c : C) (h : M) (mem : list Z).
Notation off := (static_machine c h mem).

(** From power on to the monitor's loop. *)
Definition to_monitor : outcome (power system) :=
  p ← kernel_start hlt fuel img MULTIBOOT2_BOOTLOADER_MAGIC (boot_info tags) memory off;
  match p with
  | Running (_, m) => m ← tell print_prompt m; Val (Running (System static_cli m))
  | Halted (_, m) => Val (Halted (System static_cli m))
  | Rebooted (_, m) => Val (Rebooted (System static_cli m))
  end.

(** The first [n] turns of kernel_main are a run of the machine. *)
Lemma kernel_main_runs n :
  (p ← kernel_main hlt fuel n img MULTIBOOT2_BOOTLOADER_MAGIC (boot_info tags) memory off; Val (become (fun a => System a.1 a.2) p))
  = (p ← to_monitor; match p with Running s => run_events (replicate n Turned) s | stopped => Val stopped end).
Proof.
  unfold kernel_main, to_monitor. generalize (kernel_start hlt fuel img MULTIBOOT2_BOOTLOADER_MAGIC (boot_info tags) memory off).
  intros [[[msrs m]|[msrs m]|[msrs m]]|]; cbn [mbind outcome_bind]; try done. unfold cli_run.
  generalize (tell print_prompt m). intros [m1|]; cbn [mbind outcome_bind]; [|done].
  rewrite <- turns_are_events. done.
Qed.

(** What kernel_main leaves when it enters the monitor's loop, and every event after
    that. *)
Inductive reaches : system -> Prop :=
| reach_monitor s : to_monitor = Val (Running s) -> reaches s
| reach_event e s s' : reaches s -> allowed e s -> run_event e s = Val (Running s') -> reaches s'.

Hypothesis at_power_on : unstarted c.
Hypothesis well_loaded : loaded fuel img tags module memory.
Hypothesis shallow : shallow_buffer (M := M) fuel.
Hypothesis quiet_wakes : hlt_wakes hlt (quiet_world (C := drivers C) (M := M)).

Lemma reaches_wf s : reaches s -> system_wf s.
Proof.
  induction 1 as [s Hstart|e s s' _ IH Ha Hrun].
  - unfold to_monitor in Hstart.
    destruct (kernel_start_ends hlt fuel img tags module memory c h mem at_power_on well_loaded shallow fits_buffer quiet_wakes enough)
      as [(p & Hp & Hok)|[Hp _]]; rewrite Hp in Hstart; [|discriminate]. cbn [mbind outcome_bind] in Hstart.
    destruct p as [[msrs m]|p|p]; [|by destruct p..]. destruct (Hok msrs m eq_refl) as (Hk & Hn & _).
    destruct (steps_tell print_prompt m prompt_prints) as (m1 & Htell & Hm1 & _); [by split|].
    rewrite Htell in Hstart. injection Hstart as <-. split; [exact Hm1|]. exists CliDemo.empty_editor.
    split; [exact CliDemo.static_edits|cbn; lia].
  - destruct (event_handled e s IH Ha) as (p & Hp & Hwf). rewrite Hp in Hrun. injection Hrun as ->. by apply Hwf.
Qed.



End System.

(** * A run on the test bench of [BootMain.v] *)

Module SystemDemo.
Import UartBench StartDemo.
#[local] Existing Instance board_ports.
#[local] Existing Instance board_laws.
#[local] Existing Instance board_ps2.
#[local] Existing Instance board_nic.
#[local] Existing Instance board_nic_laws.

Notation timer := (interrupt_dispatch timer_frame).
Notation reachable := (reaches timer 300 boot_image boot_tags module_memory dark_console (Board true) []).

Definition running {A} (o : outcome (power A)) : bool := match o with Val (Running _) => true | _ => false end.
Lemma running_inv {A} (o : outcome (power A)) : running o = true -> exists a, o = Val (Running a).
Proof. destruct o as [[a|a|a]|]; try done. by exists a. Qed.

(** The prompt is reached. *)
Lemma prompt_reached : exists s, reachable s.
Proof.
  assert (running (to_monitor timer 300 boot_image boot_tags module_memory dark_console (Board true) []) = true) as Hrun
    by (vm_compute; reflexivity).
  apply running_inv in Hrun as [s Hs]. exists s. by apply reach_monitor.
Qed.



End SystemDemo.
